(* ===== verification/_CoqProject ===== *)
-Q . S2P
Prelude.v
GoRuntime.v
KubeTypes.v
SspTypes.v
Architecture.v
KubeClient.v
Cluster.v
Common.v
Samples.v
CrdWatch.v
CrdWatchStart.v
Resource.v
ResourceProofs.v
CleanupProofs.v
SspController.v
ControllerProofs.v
Semver.v
Contracts.v
NetworkPolicies.v
CommonTemplates.v
CommonTemplatesProofs.v
Json.v
TemplateBundle.v
DataSources.v
DataSourcesProofs.v
VmCache.v
RulePath.v
Validation.v
AdmissionHook.v
AdmissionProofs.v
SspWebhook.v
Controllers.v
Watches.v
Tls.v
StaticOperands.v
Settling.v
TemplateValidatorOperand.v
VmDeleteProtection.v
MetricsOperand.v
VmConsoleProxy.v
VmConsoleProxyProofs.v
MonitoringRules.v
Setup.v
FileWatch.v
TlsWatch.v
ErrGroup.v
ValidatorProgram.v
OperatorMain.v
CsvGenerator.v
ReferenceVm.v
Memory.v
DeepCopy.v
Convergence.v
Deletion.v
OperandSettling.v
OperandClearing.v
ProxySettling.v
TemplatesSettling.v
DataSourcesPlan.v
DataSourcesSettling.v
OperandPlaces.v
Scheme.v
WatchedWrites.v
OperatorLife.v
