(* ===== verification/Prelude.v ===== *)
(** * Verification of the SSP operator

    The SSP operator (Scheduling, Scale and Performance) runs in a Kubernetes
    cluster and deploys what KubeVirt needs around virtual machines. A user
    creates one [SSP] resource; the operator's main controller brings the
    objects of its operands into the cluster, keeps them as they should be,
    reports in the status of the resource, and removes them with it. A second
    program of the repository, the template validator, is an admission webhook
    that checks virtual machines against rules stored in templates.

    ** Files

    Foundations:
    - [Prelude]: automation, lemmas on lists and maps.
    - [GoRuntime]: Go errors with wrapping and Kubernetes reasons, functions
      that return, fail or panic ([outcome]), stateful functions ([M]) with
      weakest preconditions, strings, 64-bit wrap-around, iteration over maps in
      an arbitrary order ([MapRange], [SetRange]).
    - [KubeTypes]: the Kubernetes objects the operator handles, and the semantic
      equality that decides whether an object must be written, as a setoid.
    - [SspTypes]: api/v1beta3, status conditions, finalizers.
    - [Json]: decoded JSON values.
    - [KubeClient]: the API server as a class [Client] of arbitrary state
      transformers; operations in [Op] record every call in a trace.
    - [Cluster]: [QuietClient] and [QuietSSP], the laws of an API server without
      other writers, and an executable in-memory instance.
    - [Samples]: concrete inputs.

    internal/common:
    - [Common]: cache.go, labels.go, owner.go, request.go.
    - [Resource]: resource.go, the reconcile builder and the deletion of owned
      objects. [ResourceProofs], [CleanupProofs]: its theorems.
    - [Tls]: crypto_policy.go, with the consumers of the options in
      template-validator/tlsinfo and the TLS set-up of main.go.

    Resource types in memory:
    - [Memory]: structs with pointers and slices in a heap, what they stand for,
      and deep copies. [DeepCopy]: zz_generated.deepcopy.go.

    Controllers:
    - [CrdWatch]: internal/crd-watch, which CRDs exist and are missing.
      [CrdWatchStart]: its Start next to the goroutine of the informer.
    - [SspController]: ssp_controller.go and operand.go. [ControllerProofs]:
      its theorems. [Contracts]: the operands satisfy what the controller
      expects of an [Operand].
    - [Watches]: predicates.go, handler_hook.go, and which events start a round.
    - [Controllers]: webhook_controller.go, vm_controller.go with its metric,
      services_controller.go.
    - [SspWebhook]: webhooks/ssp_webhook.go, the conversion from v1beta2.
    - [Setup]: setup.go and the [AddToManager] of every controller.
    - [Scheme]: scheme.go and the types that both programs register.
    - [WatchedWrites]: what the operands write, against what the controller
      watches.
    - [OperatorMain]: main.go. [ErrGroup]: the goroutines of the servers of both
      programs.

    Operands:
    - [Architecture]: internal/architecture and internal/env.
    - [NetworkPolicies]: internal/networkpolicies.
    - [Semver]: the version comparison that the templates operand uses.
    - [TemplateBundle]: internal/template-bundle.
    - [CommonTemplates], [CommonTemplatesProofs]: operands/common-templates.
    - [DataSources], [DataSourcesProofs]: operands/data-sources.
    - [StaticOperands]: rounds that reconcile a fixed list of objects, and their
      cleanup, for the next four.
    - [TemplateValidatorOperand]: operands/template-validator.
    - [VmDeleteProtection]: operands/vm-delete-protection.
    - [MetricsOperand]: operands/metrics. [MonitoringRules]: pkg/monitoring and
      the tools that print the metrics and rules.
    - [VmConsoleProxy], [VmConsoleProxyProofs]: operands/vm-console-proxy and
      its bundle.

    Several rounds on a cluster without other writers:
    - [Settling]: rounds of a builder, of a list of builders, and the class of
      operands that settle. [Convergence]: the controller comes to rest.
    - [OperandSettling]: the operands template-validator, metrics and
      vm-delete-protection settle. [ProxySettling], [TemplatesSettling],
      [DataSourcesSettling]: the other three, which also look for objects of
      earlier versions. [DataSourcesPlan]: the decision of the data sources
      operand as a function of the cluster.
    - [Deletion]: the deletion of an SSP completes, for operands whose cleanup
      does. [OperandClearing]: all six operands are such.
    - [OperandPlaces]: no two operands share an object.
    - [OperatorLife]: both for the operator that [Setup] puts together.

    Template validator:
    - [VmCache]: labels/labels.go and virtinformers/vmcache.go.
    - [RulePath], [Validation]: validation, the rule language.
    - [AdmissionHook], [AdmissionProofs]: webhooks.
    - [ReferenceVm]: kubevirtjobs, the machine that paths are checked against.
    - [FileWatch]: filewatch. [TlsWatch]: tlsinfo on top of it.
    - [ValidatorProgram]: the program, its options, servers and informers.

    Build:
    - [CsvGenerator]: hack/csv-generator.go.

    ** What the theorems show

    The reconcile builder: for every API server, one call touches one resource,
    writes it with owner, labels and annotations, deletes it only when an
    immutable spec changed, and never touches an object that is being deleted;
    without other writers a second call only reads. Cleanup deletes only what
    the SSP owns, and its answer says truly what is left.

    The controller: each branch of [Reconcile] with its API calls in order; the
    finalizer goes only after every operand reported all its objects as gone; the
    status says exactly what the results of the operands say; errors are
    reported, conflicts requeue. [Watches] relates the writes of a round to the
    events that start the next one, and objects to the SSP they belong to;
    [WatchedWrites] and [OperatorLife] show that the operator hears of every
    change to an object that its operands wrote.

    Liveness: without other writers the operator as it is put together comes to
    rest. After two rounds that create, repair and remove objects (the second only
    for an import cron with a new spec, which is deleted and comes back), every
    further round reads them, writes the status of the SSP once, and this write
    starts no round. The proof is for any list of operands that satisfies
    [Settling]; each of the six does, and what the data sources operand decides
    is not changed by carrying it out. An SSP that was deleted is gone
    after three rounds of the operator as it is put together, and with it every
    object that the operands clean up and that carries its annotations.

    The operands: which templates, data sources and import crons are created,
    deprecated and deleted, for one and for several architectures; the objects
    of the operands with fixed objects fit together (selectors, ports, accounts,
    mounts), each round deletes only what belongs to the SSP, and every alert and
    recording rule is complete and names existing metrics.

    The validator: the cache of virtual machines is exact after any sequence of
    operations, evaluation of rules decides a declarative semantics and does not
    panic on well-formed rules, the hooks admit accordingly, and the reference
    machine is complete. Every execution of the file watch is safe and comes back
    to its channels; when it waits, the program serves the files that are in
    the directory.

    The programs: which operands run on which cluster and that each keeps the
    contract of the controller, so that the theorem on finalizers holds for the
    operator as it is put together; main starts the controllers last; the servers
    of each program stop together; the validator, started with the arguments of
    its Deployment, serves what the Service, the webhooks and the probes expect;
    the generated bundle starts the operator with the version and the images
    that the generator was given.

    Memory: the deep copy of a resource reads as the resource and shares nothing
    with it, which is what lets the other files treat objects as values.

    Some theorems state behaviour that the code did not mean to have (panics on
    tombstones, on rules without a path, on owner references outside the
    namespace of the SSP, ...); their comments say so.

    ** Parameters

    Code outside the repository, or below the level of the model, is a class
    with the laws that its documentation promises: the API server ([Client],
    [QuietClient], [QuietSSP], [ListingClient], [PromptClient] where objects
    without finalizers disappear when they are deleted, [FreshClient] for reads
    that bypass the cache, and [PlainStore] for kinds to which the server adds no
    defaults), environment and build constants ([Process]), the manager of
    controller-runtime, the order of map iteration, the scheduling of goroutines
    (step relations), the types that a package registers ([SchemePackages]), JSONPath, regular expressions, conversion of out-of-range
    floats, the decoders of JSON and YAML, the cipher suites of the Go release,
    the KubeVirt types, the copy functions of other packages' types. Each
    theorem that uses such laws has an instance with a concrete implementation.

    ** Conventions

    Definitions carry the names of the Go functions; where a long function was
    split the parts are named after what they compute. A Go function that
    mutates an argument returns it. A nil slice is an empty list; a nil map is
    [None] where the code can tell (writing to it panics) and semantic equality
    identifies it with the empty map. Fields that the code neither sets nor
    reads are kept in one opaque field of the record. Loops are structural
    recursions or folds, except the recursion of [ReferenceVm] over types by
    name, which has a bound that is proved to be enough for types without
    circles. Logging is left out. Objects that the code shares between rounds
    (the templates of the bundle) are values: the code copies them before it
    changes them.

    ** Not modelled

    The random period of the resync of informers, the defaults that the generated
    code of KubeVirt puts into the reference machine (a parameter of
    [ReferenceVm]), forms of command line arguments other than those that the
    deployments use, HTTP and the encoders of JSON and YAML: these are I/O,
    logging, or calls of libraries without a decision of the program. Of the
    generated deep copies of v1beta2 only those that differ from v1beta3 are
    repeated; the others have the same text. *)

From stdpp Require Export base option list gmap sets fin_maps strings.
From stdpp Require Import relations.

(** ** Automation shared by every component *)

(** Lemmas about the Go runtime and the Kubernetes object model are collected
    in one database, so that component proofs can discharge their side
    conditions with [eauto with ssp]. *)
Create HintDb ssp discriminated.

#[global] Set Default Goal Selector "!".

(** Case analysis on every [match]/[if] scrutinee of the goal, keeping the
    equations; used where a handler has many early returns. *)
Ltac split_matches :=
  repeat (case_match; simplify_eq/=; try done).

(** Destructs a pair-valued scrutinee bound by a [let]. *)
Ltac split_pairs :=
  repeat match goal with
         | |- context [let '(_, _) := ?x in _] => destruct x eqn:?
         | H : context [let '(_, _) := ?x in _] |- _ => destruct x eqn:?
         end.

(** ** Lists *)

Section lists.
Context {A B : Type}.

(** [slices.Contains] as a boolean function. *)
Definition contains `{EqDecision A} (l : list A) (x : A) : bool :=
  bool_decide (x ∈ l).

Lemma contains_true `{EqDecision A} (l : list A) x :
  contains l x = true <-> x ∈ l.
Proof. apply bool_decide_eq_true. Qed.

Lemma contains_false `{EqDecision A} (l : list A) x :
  contains l x = false <-> x ∉ l.
Proof. apply bool_decide_eq_false. Qed.

(** The first element of a list that satisfies a test: the shape of every
    [for ... { if p { return x } }] loop in the code. *)
Fixpoint find_first (p : A -> bool) (l : list A) : option A :=
  match l with
  | [] => None
  | x :: l' => if p x then Some x else find_first p l'
  end.

Lemma find_first_Some p l x :
  find_first p l = Some x ->
  exists l1 l2, l = l1 ++ x :: l2 /\ p x = true /\ Forall (fun y => p y = false) l1.
Proof.
  induction l as [|y l IH]; simpl; [done|].
  destruct (p y) eqn:E; intros H; simplify_eq.
  - exists [], l. done.
  - destruct (IH H) as (l1 & l2 & -> & Hp & Hl1).
    exists (y :: l1), l2. split_and!; [done|done|by constructor].
Qed.

Lemma find_first_None p l :
  find_first p l = None <-> Forall (fun y => p y = false) l.
Proof.
  induction l as [|y l IH]; simpl; [split; [constructor|done]|].
  rewrite Forall_cons. destruct (p y); naive_solver.
Qed.

Lemma find_first_elem p l x :
  find_first p l = Some x -> x ∈ l /\ p x = true.
Proof.
  intros (l1 & l2 & -> & Hp & _)%find_first_Some. split; [set_solver|done].
Qed.

Lemma find_first_app p l1 l2 :
  find_first p (l1 ++ l2) =
  match find_first p l1 with Some x => Some x | None => find_first p l2 end.
Proof. induction l1 as [|y l1 IH]; simpl; [done|]. by destruct (p y). Qed.

Lemma elem_of_concat (x : A) (ls : list (list A)) : x ∈ concat ls <-> exists l, x ∈ l /\ l ∈ ls.
Proof.
  rewrite list_elem_of_In, in_concat. split; intros (l & H1 & H2); exists l; by rewrite !list_elem_of_In in *.
Qed.

(** Distinct keys stay distinct when elements are skipped. *)
Lemma NoDup_fmap_filter (f : A -> B) (P : A -> Prop) `{!forall x, Decision (P x)} l :
  NoDup (f <$> l) -> NoDup (f <$> filter P l).
Proof.
  induction l as [|x l IH]; [done|]. rewrite fmap_cons, NoDup_cons. intros [Hx HN].
  rewrite filter_cons. destruct (decide (P x)); [|by apply IH].
  rewrite fmap_cons, NoDup_cons. split; [|by apply IH].
  intros (y & E & [_ Hy]%list_elem_of_filter)%list_elem_of_fmap.
  rewrite E in Hx. apply Hx, list_elem_of_fmap. by exists y.
Qed.
End lists.

#[export] Hint Resolve find_first_elem : ssp.
#[export] Hint Rewrite @contains_true @contains_false : ssp.

(** ** Maps *)

Section maps.
Context `{Countable K} {V : Type}.
Implicit Types m : gmap K V.

(** Reading a Go map at a key that is absent gives the zero value. *)
Definition lookup_or (zero : V) (m : gmap K V) (k : K) : V :=
  default zero (m !! k).

(** A map that already holds every binding of [e] is not changed by
    inserting them again: the reason why repeated reconciliation of labels
    and annotations is a no-op. *)
Lemma union_absorb e m : e ⊆ m -> e ∪ m = m.
Proof. apply map_subseteq_union. Qed.

Lemma subseteq_union_self e m : e ⊆ e ∪ m.
Proof. apply map_union_subseteq_l. Qed.

Lemma lookup_union_foreign e m k : e !! k = None -> (e ∪ m) !! k = m !! k.
Proof. intros He. by rewrite lookup_union, He, (left_id_L None (∪)). Qed.
End maps.

#[export] Hint Resolve union_absorb subseteq_union_self lookup_union_foreign : ssp.
