(* ===== verification/GoRuntime.v ===== *)
(** * The parts of Go that the operator relies on

    Error values and their wrapping, functions that return an error or panic,
    stateful functions, the string and integer operations of the standard
    library that the code calls, and iteration over Go maps. *)

From stdpp Require Import pretty.
From Stdlib Require Import Ascii.
From S2P Require Import Prelude.

Open Scope string_scope.
Open Scope list_scope.

(** ** Errors *)

Module Errors.
(** The status reasons that the code tests for; every other reason of the
    Kubernetes API is [OtherReason]. *)
Inductive StatusReason :=
| StatusReasonNotFound
| StatusReasonConflict
| StatusReasonAlreadyExists
| StatusReasonInvalid
| StatusReasonForbidden
| OtherReason (name : string).

#[export] Instance StatusReason_eq_dec : EqDecision StatusReason.
Proof. solve_decision. Defined.

(** A Go [error]: an opaque message ([errors.New] or [fmt.Errorf] with no
    [%w]), an API status error, or a wrapped error ([fmt.Errorf] with [%w]). *)
Inductive error :=
| EMsg (msg : string)
| EStatus (reason : StatusReason) (msg : string)
| EWrap (prefix : string) (inner : error).

#[export] Instance error_eq_dec : EqDecision error.
Proof. solve_decision. Defined.

(** [err.Error()] *)
Fixpoint Error (e : error) : string :=
  match e with
  | EMsg m => m
  | EStatus _ m => m
  | EWrap p e' => p +:+ Error e'
  end.

(** [errors.As] finds the API status below any number of wrappers. *)
Fixpoint ReasonForError (e : error) : option StatusReason :=
  match e with
  | EMsg _ => None
  | EStatus r _ => Some r
  | EWrap _ e' => ReasonForError e'
  end.

Definition has_reason (r : StatusReason) (e : error) : bool :=
  bool_decide (ReasonForError e = Some r).

Definition IsNotFound : error -> bool := has_reason StatusReasonNotFound.
Definition IsConflict : error -> bool := has_reason StatusReasonConflict.
Definition IsAlreadyExists : error -> bool := has_reason StatusReasonAlreadyExists.

(** Wrapping with [%w] never hides the class of an error. *)
Lemma has_reason_wrap r p e : has_reason r (EWrap p e) = has_reason r e.
Proof. done. Qed.

Definition not_found (what : string) : error :=
  EStatus StatusReasonNotFound (what +:+ " not found").
Definition conflict (what : string) : error :=
  EStatus StatusReasonConflict ("conflict on " +:+ what).
Definition already_exists (what : string) : error :=
  EStatus StatusReasonAlreadyExists (what +:+ " already exists").
End Errors.
Export Errors.

(** ** Functions that may fail *)

(** The result of a Go call: a value with a nil error, an error, or a panic. *)
Inductive outcome (A : Type) : Type :=
| Ok (a : A)
| Err (e : error)
| Panic (msg : string).
Arguments Ok {_} _.
Arguments Err {_} _.
Arguments Panic {_} _.

#[export] Instance outcome_eq_dec {A} `{EqDecision A} : EqDecision (outcome A).
Proof. solve_decision. Defined.

#[export] Instance outcome_ret : MRet outcome := fun _ a => Ok a.
#[export] Instance outcome_bind : MBind outcome := fun _ _ f m =>
  match m with
  | Ok a => f a
  | Err e => Err e
  | Panic p => Panic p
  end.
#[export] Instance outcome_fmap : FMap outcome := fun _ _ f m =>
  match m with
  | Ok a => Ok (f a)
  | Err e => Err e
  | Panic p => Panic p
  end.

Definition is_Ok {A} (m : outcome A) : Prop := exists a, m = Ok a.
Definition is_ok {A} (m : outcome A) : bool :=
  match m with Ok _ => true | _ => false end.
Definition no_panic {A} (m : outcome A) : Prop := forall p, m <> Panic p.

(** [if err != nil { return ..., fmt.Errorf("prefix: %w", err) }] *)
Definition wrap_err {A} (prefix : string) (m : outcome A) : outcome A :=
  match m with
  | Err e => Err (EWrap prefix e)
  | _ => m
  end.

Lemma outcome_bind_Ok {A B} (m : outcome A) (f : A -> outcome B) b :
  m ≫= f = Ok b <-> exists a, m = Ok a /\ f a = Ok b.
Proof. destruct m; naive_solver. Qed.

Lemma outcome_bind_Err {A B} (m : outcome A) (f : A -> outcome B) e :
  m ≫= f = Err e <-> m = Err e \/ exists a, m = Ok a /\ f a = Err e.
Proof. destruct m; naive_solver. Qed.

(** A loop that converts every element and stops at the first failure. *)
Lemma mapM_outcome_Ok {A B} (f : A -> outcome B) l k :
  mapM f l = Ok k <-> Forall2 (fun x y => f x = Ok y) l k.
Proof.
  revert k. induction l as [|x l IH]; intros k; simpl.
  - split; [intros [= <-]; constructor|by inversion 1].
  - split.
    + intros (y & Hy & H)%outcome_bind_Ok.
      apply outcome_bind_Ok in H as (k' & Hk & [= <-]). constructor; naive_solver.
    + inversion_clear 1 as [|? y ? k']. rewrite H0. cbn.
      by rewrite (proj2 (IH k')).
Qed.

Lemma mapM_outcome_Err {A B} (f : A -> outcome B) l :
  Exists (fun x => exists e, f x = Err e) l ->
  Forall (fun x => no_panic (f x)) l ->
  exists e, mapM f l = Err e.
Proof.
  induction 1 as [x l [e He]|x l _ IH]; intros [Hx Hl]%Forall_cons; simpl.
  - exists e. by rewrite He.
  - destruct (f x) as [y|e|p] eqn:E; [|by exists e|by destruct (Hx p)].
    destruct (IH Hl) as [e He]. exists e. cbn. by rewrite He.
Qed.

(** ** Stateful functions *)

(** A function that reads and writes a state and may fail. The state keeps the
    writes made before a failure, as Go does. *)
Definition M (S A : Type) : Type := S -> outcome A * S.

#[export] Instance M_ret {S} : MRet (M S) := fun _ a s => (Ok a, s).
#[export] Instance M_bind {S} : MBind (M S) := fun _ _ f m s =>
  match m s with
  | (Ok a, s') => f a s'
  | (Err e, s') => (Err e, s')
  | (Panic p, s') => (Panic p, s')
  end.

Section monad.
Context {S : Type}.

Definition get_state : M S S := fun s => (Ok s, s).
Definition modify_state (f : S -> S) : M S unit := fun s => (Ok (), f s).
Definition throw {A} (e : error) : M S A := fun s => (Err e, s).
Definition panic {A} (msg : string) : M S A := fun s => (Panic msg, s).
Definition lift {A} (m : outcome A) : M S A := fun s => (m, s).

(** A call whose error is inspected by the caller instead of returned. *)
Definition try {A} (m : M S A) : M S (error + A) := fun s =>
  match m s with
  | (Ok a, s') => (Ok (inr a), s')
  | (Err e, s') => (Ok (inl e), s')
  | (Panic p, s') => (Panic p, s')
  end.

(** [if err != nil { return ..., fmt.Errorf("prefix: %w", err) }] *)
Definition wrapping {A} (prefix : string) (m : M S A) : M S A := fun s =>
  let '(r, s') := m s in (wrap_err prefix r, s').

(** *** Sequencing *)

Lemma bind_eq {A B} (m m' : M S A) (f f' : A -> M S B) s :
  m s = m' s -> (forall a s', f a s' = f' a s') -> (m ≫= f) s = (m' ≫= f') s.
Proof. intros Hm Hf. unfold mbind, M_bind. rewrite Hm. destruct (m' s) as [[] ?]; auto. Qed.

Lemma bind_returns {A B} (m : M S A) (f : A -> M S B) s a s1 :
  m s = (Ok a, s1) -> (m ≫= f) s = f a s1.
Proof. intros E. unfold mbind, M_bind. by rewrite E. Qed.

Lemma bind_returned {A B} (m : M S A) (f : A -> M S B) s b s' :
  (m ≫= f) s = (Ok b, s') -> exists a s1, m s = (Ok a, s1) /\ f a s1 = (Ok b, s').
Proof. unfold mbind, M_bind. destruct (m s) as [[a|e|p] s1]; [by exists a, s1|done..]. Qed.

(** *** A small program logic: what holds after a call *)

Definition wp {A} (m : M S A) (Q : outcome A -> S -> Prop) (s : S) : Prop :=
  Q (m s).1 (m s).2.

Lemma wp_bind {A B} (m : M S A) (f : A -> M S B) Q s :
  wp m (fun r s' => match r with
                    | Ok a => wp (f a) Q s'
                    | Err e => Q (Err e) s'
                    | Panic p => Q (Panic p) s'
                    end) s ->
  wp (m ≫= f) Q s.
Proof.
  unfold wp, mbind, M_bind. destruct (m s) as [[a|e|p] s']; done.
Qed.

Lemma wp_mono {A} (m : M S A) (Q Q' : outcome A -> S -> Prop) s :
  wp m Q s -> (forall r s', Q r s' -> Q' r s') -> wp m Q' s.
Proof. unfold wp. auto. Qed.

Lemma wp_ret {A} (a : A) (Q : outcome A -> S -> Prop) s :
  Q (Ok a) s -> wp (mret a) Q s.
Proof. done. Qed.

Lemma wp_try {A} (m : M S A) (Q : outcome (error + A) -> S -> Prop) s :
  wp m (fun r s' => match r with
                    | Ok a => Q (Ok (inr a)) s'
                    | Err e => Q (Ok (inl e)) s'
                    | Panic p => Q (Panic p) s'
                    end) s ->
  wp (try m) Q s.
Proof. unfold wp, try. destruct (m s) as [[a|e|p] s']; done. Qed.

(** *** What a successful call returns *)

Definition returns {A} (Q : A -> Prop) (m : M S A) : Prop :=
  forall s a s', m s = (Ok a, s') -> Q a.

Lemma returns_ret {A} (Q : A -> Prop) a : Q a -> returns Q (mret a).
Proof. intros Ha s b s' [= <- <-]. done. Qed.

Lemma returns_throw {A} (Q : A -> Prop) e : returns Q (throw e).
Proof. intros s b s' H. done. Qed.

Lemma returns_bind {A B} (P : A -> Prop) (Q : B -> Prop) (m : M S A) (f : A -> M S B) :
  returns P m -> (forall a, P a -> returns Q (f a)) -> returns Q (m ≫= f).
Proof.
  intros Hm Hf s b s' H. unfold mbind, M_bind in H.
  destruct (m s) as [[a|e|p] s1] eqn:E; [|done..]. eapply Hf; [by eapply Hm|done].
Qed.

Lemma returns_true {A} (m : M S A) : returns (fun _ => True) m.
Proof. done. Qed.

(** *** Frame conditions

    [keeps R m]: whatever the outcome of [m], the states before and after
    are related by [R]. For a preorder [R] the property is closed under
    sequencing, so a handler keeps what all of its calls keep. *)
Definition keeps (R : S -> S -> Prop) {A} (m : M S A) : Prop :=
  forall s, R s (m s).2.

Context (R : S -> S -> Prop) `{!PreOrder R}.

Lemma keeps_ret {A} (a : A) : keeps R (mret a).
Proof. intros s. cbn. reflexivity. Qed.
Lemma keeps_throw {A} e : keeps R (throw (A := A) e).
Proof. intros s. cbn. reflexivity. Qed.
Lemma keeps_panic {A} p : keeps R (panic (A := A) p).
Proof. intros s. cbn. reflexivity. Qed.
Lemma keeps_lift {A} (m : outcome A) : keeps R (lift m).
Proof. intros s. cbn. reflexivity. Qed.
Lemma keeps_get : keeps R get_state.
Proof. intros s. cbn. reflexivity. Qed.

Lemma keeps_bind {A B} (m : M S A) (f : A -> M S B) :
  keeps R m -> (forall a, keeps R (f a)) -> keeps R (m ≫= f).
Proof.
  intros Hm Hf s. specialize (Hm s). unfold mbind, M_bind.
  destruct (m s) as [[a|e|p] s']; cbn in *; [|done|done].
  etransitivity; [done|]. apply Hf.
Qed.

Lemma keeps_bind_returns {A B} (P : A -> Prop) (m : M S A) (f : A -> M S B) :
  keeps R m -> returns P m -> (forall a, P a -> keeps R (f a)) -> keeps R (m ≫= f).
Proof.
  intros Hm Hr Hf s. specialize (Hm s). specialize (Hr s). unfold mbind, M_bind.
  destruct (m s) as [[a|e|p] s']; cbn in *; [|done|done].
  etransitivity; [done|]. by eapply Hf, Hr.
Qed.

Lemma keeps_try {A} (m : M S A) : keeps R m -> keeps R (try m).
Proof.
  intros Hm s. specialize (Hm s). unfold try.
  by destruct (m s) as [[a|e|p] s'].
Qed.

Lemma keeps_wrapping {A} p (m : M S A) : keeps R m -> keeps R (wrapping p m).
Proof.
  intros Hm s. specialize (Hm s). unfold wrapping. by destruct (m s).
Qed.

Lemma keeps_mapM {A B} (f : A -> M S B) l :
  (forall x, x ∈ l -> keeps R (f x)) -> keeps R (mapM f l).
Proof.
  induction l as [|x l IH]; intros Hf; simpl; [apply keeps_ret|].
  apply keeps_bind; [apply Hf; set_solver|]. intros y.
  apply keeps_bind; [apply IH; set_solver|]. intros k. apply keeps_ret.
Qed.
End monad.

#[export] Hint Resolve keeps_ret keeps_throw keeps_panic keeps_lift keeps_get
  keeps_bind keeps_try keeps_wrapping keeps_mapM : ssp.

(** Evaluates the monadic plumbing of a goal or hypothesis, without unfolding
    the component's own definitions. *)
Ltac run_monad :=
  unfold mbind, M_bind, outcome_bind, mret, M_ret, outcome_ret, try, throw,
    panic, lift, wrapping, wrap_err, get_state, modify_state in *; cbn in *.

(** ** Strings *)

Module GoStrings.
(** [strings.HasPrefix s p] *)
Definition HasPrefix (s p : string) : bool := String.prefix p s.

(** [s[len(p):]] for a prefix [p] of [s] *)
Fixpoint drop (n : nat) (s : string) : string :=
  match n, s with
  | O, _ => s
  | S n', String _ s' => drop n' s'
  | _, EmptyString => EmptyString
  end.

Definition TrimPrefix (s p : string) : string :=
  if HasPrefix s p then drop (String.length p) s else s.

Fixpoint Join (l : list string) (sep : string) : string :=
  match l with
  | [] => ""
  | [s] => s
  | s :: l' => s +:+ sep +:+ Join l' sep
  end.

(** [strings.Contains s sub] *)
Fixpoint Contains (s sub : string) : bool :=
  String.prefix sub s ||
  match s with
  | EmptyString => false
  | String _ s' => Contains s' sub
  end.

Definition slash : ascii := "/"%char.
Definition comma : ascii := ","%char.
Definition dot : ascii := "."%char.

(** [strings.SplitSeq s sep] for a one-byte separator *)
Fixpoint Split (sep : ascii) (s : string) : list string :=
  match s with
  | EmptyString => [""]
  | String c s' =>
      if bool_decide (c = sep) then "" :: Split sep s'
      else match Split sep s' with
           | [] => [String c ""]
           | w :: ws => String c w :: ws
           end
  end.

(** The ASCII white space removed by [strings.TrimSpace]. *)
Definition is_space (c : ascii) : bool :=
  contains ["009"%char; "010"%char; "011"%char; "012"%char; "013"%char; " "%char] c.

Fixpoint trim_left (s : string) : string :=
  match s with
  | EmptyString => EmptyString
  | String c s' => if is_space c then trim_left s' else s
  end.

Fixpoint rev_onto (s acc : string) : string :=
  match s with
  | EmptyString => acc
  | String c s' => rev_onto s' (String c acc)
  end.

Definition TrimSpace (s : string) : string :=
  rev_onto (trim_left (rev_onto (trim_left s) "")) "".

(** [strconv.ParseBool] *)
Definition ParseBool (s : string) : option bool :=
  if contains ["1"; "t"; "T"; "true"; "TRUE"; "True"] s then Some true
  else if contains ["0"; "f"; "F"; "false"; "FALSE"; "False"] s then Some false
  else None.

(** [%d] and [strconv.FormatInt] *)
Definition itoa (z : Z) : string := pretty z.

Lemma append_cons c (p s : string) : String c p +:+ s = String c (p +:+ s).
Proof. done. Qed.

Lemma app_inj_l (p s1 s2 : string) : p +:+ s1 = p +:+ s2 -> s1 = s2.
Proof.
  induction p as [|c p IH]; [done|]. rewrite !append_cons. intros [= H]. auto.
Qed.

Lemma prefix_app p s : String.prefix p (p +:+ s) = true.
Proof.
  induction p as [|c p IH]; [by destruct s|]. rewrite append_cons. cbn.
  destruct (ascii_dec c c); [apply IH|congruence].
Qed.

Lemma drop_app p s : drop (String.length p) (p +:+ s) = s.
Proof. induction p as [|c p IH]; [by destruct s|]. by rewrite append_cons. Qed.

Lemma TrimPrefix_app p s : TrimPrefix (p +:+ s) p = s.
Proof. unfold TrimPrefix, HasPrefix. by rewrite prefix_app, drop_app. Qed.
End GoStrings.
Export GoStrings.

(** ** Integers *)

Module GoInts.
(** Conversion of an integer to [int64] keeps its low 64 bits, read in two's
    complement. *)
Definition wrap64 (z : Z) : Z :=
  ((z + 2 ^ 63) `mod` 2 ^ 64 - 2 ^ 63)%Z.

Definition in_int64 (z : Z) : Prop := (- 2 ^ 63 <= z < 2 ^ 63)%Z.
Definition in_uint64 (z : Z) : Prop := (0 <= z < 2 ^ 64)%Z.

Lemma wrap64_range z : in_int64 (wrap64 z).
Proof.
  unfold in_int64, wrap64.
  pose proof (Z.mod_pos_bound (z + 2 ^ 63) (2 ^ 64) ltac:(lia)). lia.
Qed.

Lemma wrap64_id z : in_int64 z -> wrap64 z = z.
Proof.
  unfold in_int64, wrap64. intros H. rewrite Z.mod_small; lia.
Qed.

Lemma wrap64_high z : (2 ^ 63 <= z < 2 ^ 64)%Z -> wrap64 z = (z - 2 ^ 64)%Z.
Proof.
  intros H. unfold wrap64.
  rewrite <- (Z.mod_unique (z + 2 ^ 63) (2 ^ 64) 1 (z + 2 ^ 63 - 2 ^ 64));
    [lia|left; lia|lia].
Qed.
End GoInts.
Export GoInts.

(** ** Iteration over Go maps

    [for k, v := range m] visits every entry once, in an order that the
    language leaves open. Code that ranges over a map is modelled with an
    arbitrary [MapRange]; its theorems hold for every order. *)
Class MapRange := {
  map_range : forall {K V} `{Countable K}, gmap K V -> list (K * V);
  map_range_perm : forall {K V} `{Countable K} (m : gmap K V),
      map_range m ≡ₚ map_to_list m
}.

(** The order in which [gmap] lists its entries is one of them. *)
Definition sorted_range : MapRange.
Proof. refine {| map_range := fun K V _ _ m => map_to_list m |}. done. Defined.

Section map_range.
Context `{MapRange} {V : Type}.
Implicit Types m : gmap string V.

Lemma elem_of_map_range m k v : (k, v) ∈ map_range m <-> m !! k = Some v.
Proof. by rewrite map_range_perm, elem_of_map_to_list. Qed.

Lemma NoDup_map_range m : NoDup (map_range m).*1.
Proof. rewrite map_range_perm. apply NoDup_fst_map_to_list. Qed.
End map_range.

#[export] Hint Resolve NoDup_map_range : ssp.

(** The same for sets, which the code keeps as [map[string]struct{}]. *)
Class SetRange := {
  set_range : gset string -> list string;
  set_range_perm : forall X, set_range X ≡ₚ elements X
}.

Definition sorted_set_range : SetRange.
Proof. by refine {| set_range := elements |}. Defined.

Lemma list_to_set_range `{SetRange} X : list_to_set (set_range X) = X.
Proof. apply set_eq. intros x. by rewrite elem_of_list_to_set, set_range_perm, elem_of_elements. Qed.
