(* ===== verification/KubeTypes.v ===== *)
(** * Kubernetes objects

    The API types that the operator creates, reads and compares. A record has
    the fields that this repository sets or reads, under the names of the Go
    struct with a short prefix; the remaining fields of the upstream struct
    (server-side defaults, managed fields, ...) are carried verbatim in one
    [Opaque] field, so that copying a spec and comparing two objects behave as
    in the code. *)

From S2P Require Import Prelude GoRuntime.

(** [map[string]string]; [None] is the nil map, to which Go cannot write. *)
Notation smap := (gmap string string).
Notation gomap := (option (gmap string string)).
(** Struct fields that the code neither sets nor reads. *)
Notation Opaque := (gmap string string).

(** Reading a possibly nil map: the zero value when nil or absent. *)
Definition map_get (m : gomap) (k : string) : string :=
  default "" (m ≫= lookup k).
(** The comma-ok form [_, ok := m[k]]. *)
Definition map_has (m : gomap) (k : string) : bool :=
  bool_decide (is_Some (m ≫= lookup k)).

(** ** Metadata *)

Record TypeMeta := mkTypeMeta { tm_Kind : string; tm_APIVersion : string }.

Record OwnerReference := mkOwnerReference {
  or_APIVersion : string;
  or_Kind : string;
  or_Name : string;
  or_UID : string;
  or_Controller : option bool;
  or_BlockOwnerDeletion : option bool
}.

Record ObjectMeta := mkObjectMeta {
  Name : string;
  GenerateName : string;
  Namespace : string;
  UID : string;
  ResourceVersion : string;
  Generation : Z;
  Labels : gomap;
  Annotations : gomap;
  OwnerReferences : list OwnerReference;
  Finalizers : list string;
  DeletionTimestamp : option Z;
  OtherMeta : Opaque
}.

#[export] Instance TypeMeta_eq_dec : EqDecision TypeMeta.
Proof. solve_decision. Defined.
#[export] Instance OwnerReference_eq_dec : EqDecision OwnerReference.
Proof. solve_decision. Defined.
#[export] Instance ObjectMeta_eq_dec : EqDecision ObjectMeta.
Proof. solve_decision. Defined.

Definition zeroMeta : ObjectMeta := {|
  Name := ""; GenerateName := ""; Namespace := ""; UID := "";
  ResourceVersion := ""; Generation := 0; Labels := None; Annotations := None;
  OwnerReferences := []; Finalizers := []; DeletionTimestamp := None; OtherMeta := ∅
|}.

(** [metav1.ObjectMeta{Name: n, Namespace: ns}] *)
Definition newMeta (n ns : string) : ObjectMeta := {|
  Name := n; GenerateName := ""; Namespace := ns; UID := "";
  ResourceVersion := ""; Generation := 0; Labels := None; Annotations := None;
  OwnerReferences := []; Finalizers := []; DeletionTimestamp := None; OtherMeta := ∅
|}.

(** The setters of [metav1.Object]. *)
Section setters.
Variable m : ObjectMeta.

Definition with_name n := {|
  Name := n; GenerateName := GenerateName m; Namespace := Namespace m; UID := UID m;
  ResourceVersion := ResourceVersion m; Generation := Generation m; Labels := Labels m;
  Annotations := Annotations m; OwnerReferences := OwnerReferences m;
  Finalizers := Finalizers m; DeletionTimestamp := DeletionTimestamp m;
  OtherMeta := OtherMeta m |}.
Definition with_namespace ns := {|
  Name := Name m; GenerateName := GenerateName m; Namespace := ns; UID := UID m;
  ResourceVersion := ResourceVersion m; Generation := Generation m; Labels := Labels m;
  Annotations := Annotations m; OwnerReferences := OwnerReferences m;
  Finalizers := Finalizers m; DeletionTimestamp := DeletionTimestamp m;
  OtherMeta := OtherMeta m |}.
Definition with_labels l := {|
  Name := Name m; GenerateName := GenerateName m; Namespace := Namespace m; UID := UID m;
  ResourceVersion := ResourceVersion m; Generation := Generation m; Labels := l;
  Annotations := Annotations m; OwnerReferences := OwnerReferences m;
  Finalizers := Finalizers m; DeletionTimestamp := DeletionTimestamp m;
  OtherMeta := OtherMeta m |}.
Definition with_annotations a := {|
  Name := Name m; GenerateName := GenerateName m; Namespace := Namespace m; UID := UID m;
  ResourceVersion := ResourceVersion m; Generation := Generation m; Labels := Labels m;
  Annotations := a; OwnerReferences := OwnerReferences m;
  Finalizers := Finalizers m; DeletionTimestamp := DeletionTimestamp m;
  OtherMeta := OtherMeta m |}.
Definition with_owners o := {|
  Name := Name m; GenerateName := GenerateName m; Namespace := Namespace m; UID := UID m;
  ResourceVersion := ResourceVersion m; Generation := Generation m; Labels := Labels m;
  Annotations := Annotations m; OwnerReferences := o;
  Finalizers := Finalizers m; DeletionTimestamp := DeletionTimestamp m;
  OtherMeta := OtherMeta m |}.
Definition with_finalizers f := {|
  Name := Name m; GenerateName := GenerateName m; Namespace := Namespace m; UID := UID m;
  ResourceVersion := ResourceVersion m; Generation := Generation m; Labels := Labels m;
  Annotations := Annotations m; OwnerReferences := OwnerReferences m;
  Finalizers := f; DeletionTimestamp := DeletionTimestamp m;
  OtherMeta := OtherMeta m |}.
(** What the API server assigns. *)
Definition with_server uid rv gen del := {|
  Name := Name m; GenerateName := GenerateName m; Namespace := Namespace m; UID := uid;
  ResourceVersion := rv; Generation := gen; Labels := Labels m;
  Annotations := Annotations m; OwnerReferences := OwnerReferences m;
  Finalizers := Finalizers m; DeletionTimestamp := del;
  OtherMeta := OtherMeta m |}.
End setters.

(** [client.ObjectKey] / [types.NamespacedName] *)
Record ObjectKey := mkKey { key_Namespace : string; key_Name : string }.

#[export] Instance ObjectKey_eq_dec : EqDecision ObjectKey.
Proof. solve_decision. Defined.
#[export] Instance ObjectKey_countable : Countable ObjectKey.
Proof.
  apply (inj_countable' (fun k => (key_Namespace k, key_Name k)) (fun p => mkKey p.1 p.2)).
  by intros [].
Defined.

(** [types.NamespacedName.String] *)
Definition NamespacedName_String (k : ObjectKey) : string :=
  key_Namespace k +:+ "/" +:+ key_Name k.

(** ** Selectors, RBAC, networking *)

Inductive IntOrString := FromInt32 (i : Z) | FromString (s : string).

Record LabelSelectorRequirement := mkReq {
  req_Key : string; req_Operator : string; req_Values : list string }.
Record LabelSelector := mkSelector {
  MatchLabels : smap; MatchExpressions : list LabelSelectorRequirement }.

Record PolicyRule := mkRule {
  APIGroups : list string; Resources : list string; Verbs : list string }.
Record Subject := mkSubject {
  sub_Kind : string; sub_APIGroup : string; sub_Name : string; sub_Namespace : string }.
Record RoleRef := mkRoleRef { rr_APIGroup : string; rr_Kind : string; rr_Name : string }.

Record ServicePort := mkServicePort {
  sp_Name : string; sp_Protocol : string; sp_Port : Z; sp_TargetPort : IntOrString }.
Record ServiceSpec := mkServiceSpec {
  svc_Ports : list ServicePort;
  svc_Selector : smap;
  svc_ClusterIP : string;
  svc_Type : string;
  svc_SessionAffinity : string;
  svc_InternalTrafficPolicy : option string;
  svc_other : Opaque
}.

Record NetworkPolicyPort := mkNPPort {
  npp_Protocol : option string; npp_Port : option IntOrString }.
Record NetworkPolicyPeer := mkPeer {
  peer_PodSelector : option LabelSelector; peer_NamespaceSelector : option LabelSelector }.
Record NetworkPolicyIngressRule := mkIngress {
  ing_Ports : list NetworkPolicyPort; ing_From : list NetworkPolicyPeer }.
Record NetworkPolicyEgressRule := mkEgress {
  eg_Ports : list NetworkPolicyPort; eg_To : list NetworkPolicyPeer }.
Record NetworkPolicySpec := mkNetworkPolicySpec {
  np_PodSelector : LabelSelector;
  np_Ingress : list NetworkPolicyIngressRule;
  np_Egress : list NetworkPolicyEgressRule;
  np_PolicyTypes : list string
}.

#[export] Instance IntOrString_eq_dec : EqDecision IntOrString.
Proof. solve_decision. Defined.
#[export] Instance LabelSelectorRequirement_eq_dec : EqDecision LabelSelectorRequirement.
Proof. solve_decision. Defined.
#[export] Instance LabelSelector_eq_dec : EqDecision LabelSelector.
Proof. solve_decision. Defined.
#[export] Instance PolicyRule_eq_dec : EqDecision PolicyRule.
Proof. solve_decision. Defined.
#[export] Instance Subject_eq_dec : EqDecision Subject.
Proof. solve_decision. Defined.
#[export] Instance RoleRef_eq_dec : EqDecision RoleRef.
Proof. solve_decision. Defined.
#[export] Instance ServicePort_eq_dec : EqDecision ServicePort.
Proof. solve_decision. Defined.
#[export] Instance ServiceSpec_eq_dec : EqDecision ServiceSpec.
Proof. solve_decision. Defined.
#[export] Instance NetworkPolicyPort_eq_dec : EqDecision NetworkPolicyPort.
Proof. solve_decision. Defined.
#[export] Instance NetworkPolicyPeer_eq_dec : EqDecision NetworkPolicyPeer.
Proof. solve_decision. Defined.
#[export] Instance NetworkPolicyIngressRule_eq_dec : EqDecision NetworkPolicyIngressRule.
Proof. solve_decision. Defined.
#[export] Instance NetworkPolicyEgressRule_eq_dec : EqDecision NetworkPolicyEgressRule.
Proof. solve_decision. Defined.
#[export] Instance NetworkPolicySpec_eq_dec : EqDecision NetworkPolicySpec.
Proof. solve_decision. Defined.

(** ** Pods and workloads *)

Record PodAffinityTerm := mkPodAffinityTerm {
  pat_LabelSelector : option LabelSelector; pat_TopologyKey : string; pat_other : Opaque }.
Record WeightedPodAffinityTerm := mkWeighted {
  wpt_Weight : Z; wpt_Term : PodAffinityTerm }.
(** Node selector terms and scheduling preferences come from the SSP spec and
    are only concatenated, never inspected. *)
Record NodeAffinity := mkNodeAffinity {
  na_Required : option (list Opaque); na_Preferred : list Opaque }.
Record PodAffinity := mkPodAffinity {
  pa_Required : list PodAffinityTerm; pa_Preferred : list WeightedPodAffinityTerm }.
Record Affinity := mkAffinity {
  aff_NodeAffinity : option NodeAffinity;
  aff_PodAffinity : option PodAffinity;
  aff_PodAntiAffinity : option PodAffinity
}.
Record Toleration := mkToleration {
  tol_Key : string; tol_Operator : string; tol_Value : string;
  tol_Effect : string; tol_Seconds : option Z }.

Record VolumeMount := mkVolumeMount {
  vm_Name : string; vm_MountPath : string; vm_ReadOnly : bool }.
Record SecurityContext := mkSecurityContext {
  sc_ReadOnlyRootFilesystem : option bool;
  sc_AllowPrivilegeEscalation : option bool;
  sc_CapabilitiesDrop : list string }.
Record ContainerPort := mkContainerPort {
  cp_Name : string; cp_ContainerPort : Z; cp_Protocol : string }.
Record Probe := mkProbe {
  pr_Path : string; pr_Port : IntOrString; pr_Scheme : string;
  pr_InitialDelaySeconds : Z; pr_PeriodSeconds : Z; pr_FailureThreshold : Z }.
Record Container := mkContainer {
  c_Name : string;
  c_Image : string;
  c_ImagePullPolicy : string;
  c_TerminationMessagePolicy : string;
  c_Requests : smap;
  c_Args : list string;
  c_VolumeMounts : list VolumeMount;
  c_SecurityContext : option SecurityContext;
  c_Ports : list ContainerPort;
  c_LivenessProbe : option Probe;
  c_ReadinessProbe : option Probe;
  c_other : Opaque
}.
Inductive VolumeSource :=
| VolSecret (name : string)
| VolConfigMap (name : string)
| VolOther (o : Opaque).
Record Volume := mkVolume { vol_Name : string; vol_Source : VolumeSource }.
Record PodSecurityContext := mkPodSecurityContext {
  psc_RunAsNonRoot : option bool; psc_SeccompProfile : option string }.
Record PodSpec := mkPodSpec {
  ps_SecurityContext : option PodSecurityContext;
  ps_ServiceAccountName : string;
  ps_PriorityClassName : string;
  ps_Containers : list Container;
  ps_Volumes : list Volume;
  ps_Affinity : option Affinity;
  ps_NodeSelector : gomap;
  ps_Tolerations : list Toleration;
  ps_other : Opaque
}.
Record PodTemplateSpec := mkPodTemplate { pt_meta : ObjectMeta; pt_spec : PodSpec }.
Record DeploymentSpec := mkDeploymentSpec {
  dep_Replicas : option Z;
  dep_Selector : option LabelSelector;
  dep_Template : PodTemplateSpec;
  dep_other : Opaque
}.
Record DeploymentStatus := mkDeploymentStatus {
  ds_Replicas : Z; ds_AvailableReplicas : Z }.
Record DaemonSetStatus := mkDaemonSetStatus {
  das_NumberReady : Z; das_DesiredNumberScheduled : Z }.

#[export] Instance PodAffinityTerm_eq_dec : EqDecision PodAffinityTerm.
Proof. solve_decision. Defined.
#[export] Instance WeightedPodAffinityTerm_eq_dec : EqDecision WeightedPodAffinityTerm.
Proof. solve_decision. Defined.
#[export] Instance NodeAffinity_eq_dec : EqDecision NodeAffinity.
Proof. solve_decision. Defined.
#[export] Instance PodAffinity_eq_dec : EqDecision PodAffinity.
Proof. solve_decision. Defined.
#[export] Instance Affinity_eq_dec : EqDecision Affinity.
Proof. solve_decision. Defined.
#[export] Instance Toleration_eq_dec : EqDecision Toleration.
Proof. solve_decision. Defined.
#[export] Instance VolumeMount_eq_dec : EqDecision VolumeMount.
Proof. solve_decision. Defined.
#[export] Instance SecurityContext_eq_dec : EqDecision SecurityContext.
Proof. solve_decision. Defined.
#[export] Instance ContainerPort_eq_dec : EqDecision ContainerPort.
Proof. solve_decision. Defined.
#[export] Instance Probe_eq_dec : EqDecision Probe.
Proof. solve_decision. Defined.
#[export] Instance Container_eq_dec : EqDecision Container.
Proof. solve_decision. Defined.
#[export] Instance VolumeSource_eq_dec : EqDecision VolumeSource.
Proof. solve_decision. Defined.
#[export] Instance Volume_eq_dec : EqDecision Volume.
Proof. solve_decision. Defined.
#[export] Instance PodSecurityContext_eq_dec : EqDecision PodSecurityContext.
Proof. solve_decision. Defined.
#[export] Instance PodSpec_eq_dec : EqDecision PodSpec.
Proof. solve_decision. Defined.
#[export] Instance PodTemplateSpec_eq_dec : EqDecision PodTemplateSpec.
Proof. solve_decision. Defined.
#[export] Instance DeploymentSpec_eq_dec : EqDecision DeploymentSpec.
Proof. solve_decision. Defined.
#[export] Instance DeploymentStatus_eq_dec : EqDecision DeploymentStatus.
Proof. solve_decision. Defined.
#[export] Instance DaemonSetStatus_eq_dec : EqDecision DaemonSetStatus.
Proof. solve_decision. Defined.

(** ** CDI: DataSource and DataImportCron *)

Record PvcRef := mkPvcRef { pvc_Name : string; pvc_Namespace : string }.
Record DataSourceSource := mkDataSourceSource {
  src_PVC : option PvcRef;
  src_Snapshot : option PvcRef;
  src_DataSource : option PvcRef
}.
(** [DataSourceSpec] has the single field [Source]. *)
Record DataSourceSpec := mkDataSourceSpec { dss_Source : DataSourceSource }.
Record DataSourceCondition := mkDataSourceCondition {
  dsc_Type : string; dsc_Status : string; dsc_other : Opaque }.
Record DataSourceStatus := mkDataSourceStatus {
  dst_Source : DataSourceSource; dst_Conditions : list DataSourceCondition }.

Record RegistrySource := mkRegistry {
  reg_Platform : option string; (* Platform.Architecture *)
  reg_other : Opaque }.
Record DataVolumeSource := mkDataVolumeSource {
  dvs_Registry : option RegistrySource; dvs_other : Opaque }.
Record DataImportCronSpec := mkDataImportCronSpec {
  dic_TemplateSource : option DataVolumeSource; (* Template.Spec.Source *)
  dic_TemplateOther : Opaque;
  dic_Schedule : string;
  dic_ManagedDataSource : string;
  dic_other : Opaque
}.

#[export] Instance PvcRef_eq_dec : EqDecision PvcRef.
Proof. solve_decision. Defined.
#[export] Instance DataSourceSource_eq_dec : EqDecision DataSourceSource.
Proof. solve_decision. Defined.
#[export] Instance DataSourceSpec_eq_dec : EqDecision DataSourceSpec.
Proof. solve_decision. Defined.
#[export] Instance DataSourceCondition_eq_dec : EqDecision DataSourceCondition.
Proof. solve_decision. Defined.
#[export] Instance DataSourceStatus_eq_dec : EqDecision DataSourceStatus.
Proof. solve_decision. Defined.
#[export] Instance RegistrySource_eq_dec : EqDecision RegistrySource.
Proof. solve_decision. Defined.
#[export] Instance DataVolumeSource_eq_dec : EqDecision DataVolumeSource.
Proof. solve_decision. Defined.
#[export] Instance DataImportCronSpec_eq_dec : EqDecision DataImportCronSpec.
Proof. solve_decision. Defined.

(** ** Admission, monitoring, templates *)

Record RuleWithOperations := mkRuleWithOperations {
  rwo_Operations : list string; rwo_APIGroups : list string;
  rwo_APIVersions : list string; rwo_Resources : list string }.
Record ServiceReference := mkServiceReference {
  sr_Name : string; sr_Namespace : string; sr_Path : option string }.
Record ValidatingWebhook := mkValidatingWebhook {
  wh_Name : string;
  wh_Service : option ServiceReference;
  wh_CABundle : string;
  wh_ObjectSelector : option LabelSelector;
  wh_NamespaceSelector : option LabelSelector;
  wh_Rules : list RuleWithOperations;
  wh_FailurePolicy : option string;
  wh_SideEffects : option string;
  wh_AdmissionReviewVersions : list string;
  wh_other : Opaque
}.
Record VAPSpec := mkVAPSpec {
  vap_FailurePolicy : option string;
  vap_ResourceRules : list RuleWithOperations;
  vap_Variables : list (string * string);
  vap_Validations : list (string * string);
  vap_other : Opaque
}.
(** [Status.TypeChecking]: nil, or its expression warnings. *)
Record VAPStatus := mkVAPStatus { vap_TypeChecking : option (list string) }.
Record VAPBSpec := mkVAPBSpec {
  vapb_PolicyName : string; vapb_ValidationActions : list string; vapb_other : Opaque }.
Record PDBSpec := mkPDBSpec {
  pdb_Selector : option LabelSelector; pdb_MinAvailable : option IntOrString; pdb_other : Opaque }.
(** [Spec.Service]: nil, or a namespace and a name. *)
Record APIServiceSpec := mkAPIServiceSpec {
  api_Service : option (string * string); api_CABundle : string; api_other : Opaque }.
Inductive SecretOrConfigMap :=
| CAConfigMap (name key : string)
| CASecret (name key : string).
Record ServiceMonitorSpec := mkServiceMonitorSpec {
  smon_NamespaceAny : bool;
  smon_Selector : LabelSelector;
  smon_Port : string;
  smon_Scheme : option string;
  smon_HonorLabels : bool;
  smon_CA : SecretOrConfigMap;
  smon_ServerName : option string;
  smon_other : Opaque
}.
Record Parameter_ := mkParameter { par_Name : string; par_Value : string; par_other : Opaque }.

#[export] Instance RuleWithOperations_eq_dec : EqDecision RuleWithOperations.
Proof. solve_decision. Defined.
#[export] Instance ServiceReference_eq_dec : EqDecision ServiceReference.
Proof. solve_decision. Defined.
#[export] Instance ValidatingWebhook_eq_dec : EqDecision ValidatingWebhook.
Proof. solve_decision. Defined.
#[export] Instance VAPSpec_eq_dec : EqDecision VAPSpec.
Proof. solve_decision. Defined.
#[export] Instance VAPStatus_eq_dec : EqDecision VAPStatus.
Proof. solve_decision. Defined.
#[export] Instance VAPBSpec_eq_dec : EqDecision VAPBSpec.
Proof. solve_decision. Defined.
#[export] Instance PDBSpec_eq_dec : EqDecision PDBSpec.
Proof. solve_decision. Defined.
#[export] Instance APIServiceSpec_eq_dec : EqDecision APIServiceSpec.
Proof. solve_decision. Defined.
#[export] Instance SecretOrConfigMap_eq_dec : EqDecision SecretOrConfigMap.
Proof. solve_decision. Defined.
#[export] Instance ServiceMonitorSpec_eq_dec : EqDecision ServiceMonitorSpec.
Proof. solve_decision. Defined.
#[export] Instance Parameter_eq_dec : EqDecision Parameter_.
Proof. solve_decision. Defined.

(** ** Objects *)

(** The dynamic type of a [client.Object] and the fields outside its metadata. *)
Inductive Body :=
| ConfigMap (immutable : option bool) (data binaryData : gomap)
| NamespaceObj
| Service (spec : ServiceSpec)
| ServiceAccount
| ClusterRole (rules : list PolicyRule)
| ClusterRoleBinding (roleRef : RoleRef) (subjects : list Subject)
| Role (rules : list PolicyRule)
| RoleBinding (roleRef : RoleRef) (subjects : list Subject)
| DaemonSet (spec : Opaque) (status : DaemonSetStatus)
| Deployment (spec : DeploymentSpec) (status : DeploymentStatus)
| Route (spec : Opaque)
| PrometheusRule (spec : Opaque)
| ServiceMonitor (spec : ServiceMonitorSpec)
| NetworkPolicy (spec : NetworkPolicySpec)
| Template (objects : list string) (parameters : list Parameter_)
| DataSource (spec : DataSourceSpec) (status : DataSourceStatus)
| DataImportCron (spec : DataImportCronSpec) (status : Opaque)
| PersistentVolumeClaim (spec : Opaque)
| PodDisruptionBudget (spec : PDBSpec)
| ValidatingWebhookConfiguration (webhooks : list ValidatingWebhook)
| ValidatingAdmissionPolicy (spec : VAPSpec) (status : VAPStatus)
| ValidatingAdmissionPolicyBinding (spec : VAPBSpec)
| APIService (spec : APIServiceSpec).

#[export] Instance Body_eq_dec : EqDecision Body.
Proof. solve_decision. Defined.

Inductive Kind :=
| KConfigMap | KNamespace | KService | KServiceAccount | KClusterRole
| KClusterRoleBinding | KRole | KRoleBinding | KDaemonSet | KDeployment | KRoute
| KPrometheusRule | KServiceMonitor | KNetworkPolicy | KTemplate | KDataSource
| KDataImportCron | KPersistentVolumeClaim | KPodDisruptionBudget
| KValidatingWebhookConfiguration | KValidatingAdmissionPolicy
| KValidatingAdmissionPolicyBinding | KAPIService.

#[export] Instance Kind_eq_dec : EqDecision Kind.
Proof. solve_decision. Defined.

Definition kind_name (k : Kind) : string :=
  match k with
  | KConfigMap => "ConfigMap" | KNamespace => "Namespace" | KService => "Service"
  | KServiceAccount => "ServiceAccount" | KClusterRole => "ClusterRole"
  | KClusterRoleBinding => "ClusterRoleBinding" | KRole => "Role"
  | KRoleBinding => "RoleBinding" | KDaemonSet => "DaemonSet"
  | KDeployment => "Deployment" | KRoute => "Route"
  | KPrometheusRule => "PrometheusRule" | KServiceMonitor => "ServiceMonitor"
  | KNetworkPolicy => "NetworkPolicy" | KTemplate => "Template"
  | KDataSource => "DataSource" | KDataImportCron => "DataImportCron"
  | KPersistentVolumeClaim => "PersistentVolumeClaim"
  | KPodDisruptionBudget => "PodDisruptionBudget"
  | KValidatingWebhookConfiguration => "ValidatingWebhookConfiguration"
  | KValidatingAdmissionPolicy => "ValidatingAdmissionPolicy"
  | KValidatingAdmissionPolicyBinding => "ValidatingAdmissionPolicyBinding"
  | KAPIService => "APIService"
  end.

(** The kind under which the operator's scheme registers the dynamic type. *)
Definition body_kind (b : Body) : Kind :=
  match b with
  | ConfigMap _ _ _ => KConfigMap | NamespaceObj => KNamespace | Service _ => KService
  | ServiceAccount => KServiceAccount | ClusterRole _ => KClusterRole
  | ClusterRoleBinding _ _ => KClusterRoleBinding | Role _ => KRole
  | RoleBinding _ _ => KRoleBinding | DaemonSet _ _ => KDaemonSet
  | Deployment _ _ => KDeployment | Route _ => KRoute
  | PrometheusRule _ => KPrometheusRule | ServiceMonitor _ => KServiceMonitor
  | NetworkPolicy _ => KNetworkPolicy | Template _ _ => KTemplate
  | DataSource _ _ => KDataSource | DataImportCron _ _ => KDataImportCron
  | PersistentVolumeClaim _ => KPersistentVolumeClaim
  | PodDisruptionBudget _ => KPodDisruptionBudget
  | ValidatingWebhookConfiguration _ => KValidatingWebhookConfiguration
  | ValidatingAdmissionPolicy _ _ => KValidatingAdmissionPolicy
  | ValidatingAdmissionPolicyBinding _ => KValidatingAdmissionPolicyBinding
  | APIService _ => KAPIService
  end.

Record Object := mkObject { o_type : TypeMeta; o_meta : ObjectMeta; o_body : Body }.

#[export] Instance Object_eq_dec : EqDecision Object.
Proof. solve_decision. Defined.

Definition o_kind (o : Object) : Kind := body_kind (o_body o).

(** [client.ObjectKeyFromObject] *)
Definition ObjectKeyFromObject (o : Object) : ObjectKey :=
  mkKey (Namespace (o_meta o)) (Name (o_meta o)).

Definition with_meta (o : Object) (m : ObjectMeta) : Object := mkObject (o_type o) m (o_body o).
Definition with_body (o : Object) (b : Body) : Object := mkObject (o_type o) (o_meta o) b.

(** ** Semantic equality ([equality.Semantic.DeepEqual])

    A nil map and an empty map are different for [reflect.DeepEqual] and for
    writing, but the same for the semantic comparison that decides whether an
    object must be written back to the cluster. *)
Module Semantic.
(** The representative of a map: nil when empty. *)
Definition canon_map (m : gomap) : gomap :=
  if bool_decide (m = Some ∅) then None else m.

Definition canon_meta (m : ObjectMeta) : ObjectMeta :=
  with_annotations (with_labels m (canon_map (Labels m))) (canon_map (Annotations m)).

Definition canon_pod (p : PodTemplateSpec) : PodTemplateSpec :=
  let s := pt_spec p in
  mkPodTemplate (canon_meta (pt_meta p))
    (mkPodSpec (ps_SecurityContext s) (ps_ServiceAccountName s) (ps_PriorityClassName s)
       (ps_Containers s) (ps_Volumes s) (ps_Affinity s) (canon_map (ps_NodeSelector s))
       (ps_Tolerations s) (ps_other s)).

Definition canon_body (b : Body) : Body :=
  match b with
  | ConfigMap i d bd => ConfigMap i (canon_map d) (canon_map bd)
  | Deployment s st =>
      Deployment (mkDeploymentSpec (dep_Replicas s) (dep_Selector s)
                    (canon_pod (dep_Template s)) (dep_other s)) st
  | _ => b
  end.

Definition canon (o : Object) : Object :=
  mkObject (o_type o) (canon_meta (o_meta o)) (canon_body (o_body o)).

#[export] Instance Object_equiv : Equiv Object := fun a b => canon a = canon b.
#[export] Instance Body_equiv : Equiv Body := fun a b => canon_body a = canon_body b.
#[export] Instance gomap_equiv : Equiv gomap := fun a b => canon_map a = canon_map b.

#[export] Instance Object_equiv_equivalence : Equivalence (≡@{Object}).
Proof. split; unfold equiv, Object_equiv; repeat intro; congruence. Qed.
#[export] Instance Body_equiv_equivalence : Equivalence (≡@{Body}).
Proof. split; unfold equiv, Body_equiv; repeat intro; congruence. Qed.
#[export] Instance gomap_equiv_equivalence : Equivalence (≡@{gomap}).
Proof. split; unfold equiv, gomap_equiv; repeat intro; congruence. Qed.
#[export] Instance Object_equiv_dec : RelDecision (≡@{Object}).
Proof. intros a b. apply (decide_rel (=)). Defined.
#[export] Instance Body_equiv_dec : RelDecision (≡@{Body}).
Proof. intros a b. apply (decide_rel (=)). Defined.

Definition DeepEqual (a b : Object) : bool := bool_decide (a ≡ b).
Definition DeepEqual_body (a b : Body) : bool := bool_decide (a ≡ b).

#[export] Instance DeepEqual_proper : Proper ((≡) ==> (≡) ==> (=)) DeepEqual.
Proof.
  intros a a' Ha b b' Hb. unfold DeepEqual. apply bool_decide_ext. by rewrite Ha, Hb.
Qed.

(** What the comparison cannot tell apart: reading through a nil or an empty
    map, the name, the kind, deletion and versions. *)
Lemma canon_map_get m k : map_get (canon_map m) k = map_get m k.
Proof. unfold canon_map. case_bool_decide; by simplify_eq. Qed.

#[export] Instance map_get_proper : Proper ((≡) ==> (=) ==> (=)) map_get.
Proof.
  intros m m' Hm k ? <-. rewrite <- (canon_map_get m), <- (canon_map_get m'). by rewrite Hm.
Qed.
#[export] Instance Labels_proper : Proper ((≡) ==> (≡)) (fun o => Labels (o_meta o)).
Proof. intros a b H. exact (f_equal (fun o => Labels (o_meta o)) H). Qed.
#[export] Instance Annotations_proper : Proper ((≡) ==> (≡)) (fun o => Annotations (o_meta o)).
Proof. intros a b H. exact (f_equal (fun o => Annotations (o_meta o)) H). Qed.
#[export] Instance o_body_proper : Proper ((≡) ==> (≡)) o_body.
Proof. intros a b H. exact (f_equal o_body H). Qed.
#[export] Instance ObjectKeyFromObject_proper : Proper ((≡) ==> (=)) ObjectKeyFromObject.
Proof.
  intros a b H. pose proof (f_equal (fun o => ObjectKeyFromObject o) H) as E.
  by destruct a as [? [] ?], b as [? [] ?].
Qed.
#[export] Instance o_kind_proper : Proper ((≡) ==> (=)) o_kind.
Proof.
  intros a b H. pose proof (f_equal o_kind H) as E.
  destruct a as [? ? []], b as [? ? []]; done.
Qed.
#[export] Instance OwnerReferences_proper :
  Proper ((≡) ==> (=)) (fun o => OwnerReferences (o_meta o)).
Proof. intros a b H. exact (f_equal (fun o => OwnerReferences (o_meta o)) H). Qed.
End Semantic.
Export Semantic.
