(* ===== verification/SspTypes.v ===== *)
(** * The SSP custom resource

    The types of [api/v1beta3] and [api/v1beta2], the status conditions of
    [github.com/openshift/custom-resource-status] and the finalizer helpers of
    controller-runtime, as vendored in the repository. *)

From S2P Require Import Prelude GoRuntime KubeTypes.

(** ** Spec types shared by both API versions *)

(** [lifecycleapi.NodePlacement] *)
Record NodePlacement := mkNodePlacement {
  npl_NodeSelector : smap;
  npl_Affinity : option Affinity;
  npl_Tolerations : list Toleration
}.

(** [ocpv1.TLSSecurityProfile]; [Custom] is present only for custom profiles. *)
Record TLSProfileSpec := mkTLSProfileSpec {
  tls_Ciphers : list string; tls_MinTLSVersion : string }.
Record TLSSecurityProfile := mkTLSSecurityProfile {
  tls_Type : string; tls_Custom : option TLSProfileSpec }.

Record TemplateValidator := mkTemplateValidator {
  tv_Replicas : option Z; tv_Placement : option NodePlacement }.

(** [DataImportCronTemplate]: metadata and spec of a DataImportCron. *)
Record DataImportCronTemplate := mkDataImportCronTemplate {
  dict_meta : ObjectMeta; dict_spec : DataImportCronSpec }.

Record TokenGenerationService := mkTokenGenerationService { tgs_Enabled : bool }.

#[export] Instance NodePlacement_eq_dec : EqDecision NodePlacement.
Proof. solve_decision. Defined.
#[export] Instance TLSProfileSpec_eq_dec : EqDecision TLSProfileSpec.
Proof. solve_decision. Defined.
#[export] Instance TLSSecurityProfile_eq_dec : EqDecision TLSSecurityProfile.
Proof. solve_decision. Defined.
#[export] Instance TemplateValidator_eq_dec : EqDecision TemplateValidator.
Proof. solve_decision. Defined.
#[export] Instance DataImportCronTemplate_eq_dec : EqDecision DataImportCronTemplate.
Proof. solve_decision. Defined.
#[export] Instance TokenGenerationService_eq_dec : EqDecision TokenGenerationService.
Proof. solve_decision. Defined.

(** [DataImportCronTemplate.AsDataImportCron] *)
Definition AsDataImportCron (t : DataImportCronTemplate) : Object :=
  mkObject (mkTypeMeta "" "") (dict_meta t) (DataImportCron (dict_spec t) ∅).

(** ** Status conditions *)

Module Conditions.
Inductive ConditionType := ConditionAvailable | ConditionProgressing | ConditionDegraded
| OtherCondition (name : string).
Inductive ConditionStatus := ConditionTrue | ConditionFalse | ConditionUnknown.

#[export] Instance ConditionType_eq_dec : EqDecision ConditionType.
Proof. solve_decision. Defined.
#[export] Instance ConditionStatus_eq_dec : EqDecision ConditionStatus.
Proof. solve_decision. Defined.

Record Condition := mkCondition {
  cond_Type : ConditionType;
  cond_Status : ConditionStatus;
  cond_Reason : string;
  cond_Message : string;
  cond_LastTransitionTime : Z;
  cond_LastHeartbeatTime : Z
}.

#[export] Instance Condition_eq_dec : EqDecision Condition.
Proof. solve_decision. Defined.

Definition FindStatusCondition (cs : list Condition) (t : ConditionType) : option Condition :=
  find_first (fun c => bool_decide (cond_Type c = t)) cs.

Definition IsStatusConditionPresentAndEqual (cs : list Condition) (t : ConditionType)
    (s : ConditionStatus) : bool :=
  match FindStatusCondition cs t with
  | Some c => bool_decide (cond_Status c = s)
  | None => false
  end.

(** The in-place update of an existing condition. *)
Definition update_condition (now : Z) (new c : Condition) : Condition := {|
  cond_Type := cond_Type c;
  cond_Status := cond_Status new;
  cond_Reason := cond_Reason new;
  cond_Message := cond_Message new;
  cond_LastTransitionTime :=
    if bool_decide (cond_Status c = cond_Status new) then cond_LastTransitionTime c else now;
  cond_LastHeartbeatTime := now
|}.

(** [SetStatusCondition]: updates the first condition of the type of [new], or
    appends [new]; [now] is the value of [time.Now()]. *)
Fixpoint SetStatusCondition (now : Z) (cs : list Condition) (new : Condition) : list Condition :=
  match cs with
  | [] => [ {| cond_Type := cond_Type new; cond_Status := cond_Status new;
               cond_Reason := cond_Reason new; cond_Message := cond_Message new;
               cond_LastTransitionTime := now; cond_LastHeartbeatTime := now |} ]
  | c :: cs' =>
      if bool_decide (cond_Type c = cond_Type new) then update_condition now new c :: cs'
      else c :: SetStatusCondition now cs' new
  end.

(** The condition that the operator wants, before time stamps are set. *)
Definition condition (t : ConditionType) (s : ConditionStatus) (reason msg : string) : Condition :=
  mkCondition t s reason msg 0 0.

(** The status of a condition type, as a client of the API reads it. *)
Definition status_of (cs : list Condition) (t : ConditionType) : option ConditionStatus :=
  cond_Status <$> FindStatusCondition cs t.

(** *** Facts *)

Lemma find_set_eq now cs c :
  exists c', FindStatusCondition (SetStatusCondition now cs c) (cond_Type c) = Some c' /\
    cond_Status c' = cond_Status c /\ cond_Message c' = cond_Message c /\
    cond_Reason c' = cond_Reason c.
Proof.
  induction cs as [|d cs IH]; unfold FindStatusCondition in *; cbn.
  - rewrite bool_decide_true by done. by eexists.
  - destruct (bool_decide_reflect (cond_Type d = cond_Type c)) as [E|E]; cbn.
    + rewrite bool_decide_true by done. by eexists.
    + by rewrite bool_decide_false.
Qed.

Lemma find_set_ne now cs c t :
  t <> cond_Type c ->
  FindStatusCondition (SetStatusCondition now cs c) t = FindStatusCondition cs t.
Proof.
  intros Hne. unfold FindStatusCondition. induction cs as [|d cs IH]; cbn.
  - by rewrite bool_decide_false by done.
  - destruct (bool_decide_reflect (cond_Type d = cond_Type c)) as [E|E]; cbn.
    + rewrite !(bool_decide_false (cond_Type d = t)) by congruence. done.
    + by rewrite IH.
Qed.

Lemma status_of_set_eq now cs c :
  status_of (SetStatusCondition now cs c) (cond_Type c) = Some (cond_Status c).
Proof.
  unfold status_of. destruct (find_set_eq now cs c) as (c' & -> & <- & _). done.
Qed.

Lemma status_of_set_ne now cs c t :
  t <> cond_Type c -> status_of (SetStatusCondition now cs c) t = status_of cs t.
Proof. intros. unfold status_of. by rewrite find_set_ne. Qed.

Lemma types_set now cs c :
  (cond_Type <$> SetStatusCondition now cs c) =
  if decide (cond_Type c ∈ cond_Type <$> cs) then cond_Type <$> cs
  else (cond_Type <$> cs) ++ [cond_Type c].
Proof.
  induction cs as [|d cs IH]; cbn; [by rewrite decide_False by set_solver|].
  destruct (bool_decide_reflect (cond_Type d = cond_Type c)) as [E|E]; cbn.
  - rewrite decide_True by (rewrite E; set_solver). done.
  - rewrite IH.
    destruct (decide (cond_Type c ∈ cond_Type <$> cs)).
    + rewrite decide_True by set_solver. done.
    + rewrite decide_False by set_solver. done.
Qed.

(** The well-formedness of a condition list: one condition per type. *)
Definition wf (cs : list Condition) : Prop := NoDup (cond_Type <$> cs).

Lemma wf_set now cs c : wf cs -> wf (SetStatusCondition now cs c).
Proof.
  unfold wf. rewrite types_set. case_decide; [done|]. intros.
  apply NoDup_app. split_and!; [done|set_solver|apply NoDup_singleton].
Qed.

Lemma present_and_equal_status_of cs t s :
  IsStatusConditionPresentAndEqual cs t s = bool_decide (status_of cs t = Some s).
Proof.
  unfold IsStatusConditionPresentAndEqual, status_of.
  destruct (FindStatusCondition cs t) as [c|]; cbn; [|by rewrite bool_decide_false].
  apply bool_decide_ext. naive_solver.
Qed.

#[export] Hint Resolve wf_set : ssp.
#[export] Hint Rewrite status_of_set_eq status_of_set_ne using (cbn; congruence) : ssp.
End Conditions.
Export Conditions.

(** ** v1beta3 *)

Module V1beta3.
Definition OperatorPausedAnnotation : string := "kubevirt.io/operator.paused".
Definition Group : string := "ssp.kubevirt.io".
Definition GroupVersion : string := "ssp.kubevirt.io/v1beta3".

Record CommonTemplates := mkCommonTemplates {
  ct_Namespace : string;
  ct_DataImportCronTemplates : list DataImportCronTemplate
}.

Record Cluster := mkCluster {
  WorkloadArchitectures : list string;
  ControlPlaneArchitectures : list string
}.

Record SSPSpec := mkSSPSpec {
  EnableMultipleArchitectures : option bool;
  spec_TemplateValidator : option TemplateValidator;
  spec_Cluster : option Cluster;
  spec_CommonTemplates : CommonTemplates;
  spec_TLSSecurityProfile : option TLSSecurityProfile;
  spec_TokenGenerationService : option TokenGenerationService
}.

(** [lifecycleapi.Phase] *)
Inductive Phase :=
| PhaseEmpty | PhaseDeploying | PhaseDeployed | PhaseDeleting | PhaseDeleted
| PhaseError | PhaseUpgrading.

Record SSPStatus := mkSSPStatus {
  st_Phase : Phase;
  st_Conditions : list Condition;
  st_OperatorVersion : string;
  st_TargetVersion : string;
  st_ObservedVersion : string;
  st_Paused : bool;
  st_ObservedGeneration : Z
}.

Record SSP := mkSSP {
  ssp_type : TypeMeta;
  ssp_meta : ObjectMeta;
  ssp_spec : SSPSpec;
  ssp_status : SSPStatus
}.

#[export] Instance CommonTemplates_eq_dec : EqDecision CommonTemplates.
Proof. solve_decision. Defined.
#[export] Instance Cluster_eq_dec : EqDecision Cluster.
Proof. solve_decision. Defined.
#[export] Instance SSPSpec_eq_dec : EqDecision SSPSpec.
Proof. solve_decision. Defined.
#[export] Instance Phase_eq_dec : EqDecision Phase.
Proof. solve_decision. Defined.
#[export] Instance SSPStatus_eq_dec : EqDecision SSPStatus.
Proof. solve_decision. Defined.
#[export] Instance SSP_eq_dec : EqDecision SSP.
Proof. solve_decision. Defined.

(** [ptr.Deref(spec.EnableMultipleArchitectures, false)] *)
Definition multi_arch (spec : SSPSpec) : bool :=
  default false (EnableMultipleArchitectures spec).

Definition zeroSpec : SSPSpec :=
  mkSSPSpec None None None (mkCommonTemplates "" []) None None.
Definition zeroStatus : SSPStatus := mkSSPStatus PhaseEmpty [] "" "" "" false 0.

Definition with_ssp_meta (s : SSP) m := mkSSP (ssp_type s) m (ssp_spec s) (ssp_status s).
Definition with_ssp_status (s : SSP) st := mkSSP (ssp_type s) (ssp_meta s) (ssp_spec s) st.

Definition with_phase (st : SSPStatus) p :=
  mkSSPStatus p (st_Conditions st) (st_OperatorVersion st) (st_TargetVersion st)
    (st_ObservedVersion st) (st_Paused st) (st_ObservedGeneration st).
Definition with_conditions (st : SSPStatus) cs :=
  mkSSPStatus (st_Phase st) cs (st_OperatorVersion st) (st_TargetVersion st)
    (st_ObservedVersion st) (st_Paused st) (st_ObservedGeneration st).
Definition with_paused (st : SSPStatus) b :=
  mkSSPStatus (st_Phase st) (st_Conditions st) (st_OperatorVersion st) (st_TargetVersion st)
    (st_ObservedVersion st) b (st_ObservedGeneration st).
Definition with_observed_generation (st : SSPStatus) g :=
  mkSSPStatus (st_Phase st) (st_Conditions st) (st_OperatorVersion st) (st_TargetVersion st)
    (st_ObservedVersion st) (st_Paused st) g.
Definition with_observed_version (st : SSPStatus) v :=
  mkSSPStatus (st_Phase st) (st_Conditions st) (st_OperatorVersion st) (st_TargetVersion st)
    v (st_Paused st) (st_ObservedGeneration st).
Definition with_operator_versions (st : SSPStatus) v :=
  mkSSPStatus (st_Phase st) (st_Conditions st) v v
    (st_ObservedVersion st) (st_Paused st) (st_ObservedGeneration st).
Definition set_condition (now : Z) (st : SSPStatus) (c : Condition) : SSPStatus :=
  with_conditions st (SetStatusCondition now (st_Conditions st) c).

(** [client.ObjectKeyFromObject] *)
Definition ssp_key (s : SSP) : ObjectKey :=
  mkKey (Namespace (ssp_meta s)) (Name (ssp_meta s)).
End V1beta3.
Export V1beta3.

(** ** Finalizers (controllerutil) *)

Module Finalizers.
Definition ContainsFinalizer (m : ObjectMeta) (f : string) : bool :=
  contains (Finalizers m) f.

Definition AddFinalizer (m : ObjectMeta) (f : string) : ObjectMeta :=
  if contains (Finalizers m) f then m else with_finalizers m (Finalizers m ++ [f]).

Definition RemoveFinalizer (m : ObjectMeta) (f : string) : ObjectMeta :=
  with_finalizers m (filter (fun g => g <> f) (Finalizers m)).

Lemma elem_of_AddFinalizer m f g :
  g ∈ KubeTypes.Finalizers (AddFinalizer m f) <-> g = f \/ g ∈ KubeTypes.Finalizers m.
Proof.
  unfold AddFinalizer. destruct (contains (KubeTypes.Finalizers m) f) eqn:E.
  - apply contains_true in E. naive_solver.
  - cbn. set_solver.
Qed.

Lemma elem_of_RemoveFinalizer m f g :
  g ∈ KubeTypes.Finalizers (RemoveFinalizer m f) <-> g <> f /\ g ∈ KubeTypes.Finalizers m.
Proof. cbn. rewrite list_elem_of_filter. done. Qed.
End Finalizers.
Export (hints) Finalizers.
