(* ===== verification/Architecture.v ===== *)
(** * Process environment and architectures

    [internal/env], [internal/constants.go] and [internal/architecture]: the
    environment variables of the operator and the architectures for which it
    deploys templates and boot sources. *)

From S2P Require Import Prelude GoRuntime KubeTypes SspTypes.

(** ** Environment *)

(** The process: [os.LookupEnv] and [runtime.GOARCH]. *)
Class Process := {
  LookupEnv : string -> option string;
  GOARCH : string
}.

Module Env.
Section env.
Context `{Process}.

Definition GoldenImagesNamespace : string := "kubevirt-os-images".
Definition DefaultOperatorVersion : string := "devel".
Definition OperatorVersionKey : string := "OPERATOR_VERSION".
Definition TemplateValidatorImageKey : string := "VALIDATOR_IMAGE".
Definition VmConsoleProxyImageKey : string := "VM_CONSOLE_PROXY_IMAGE".
Definition podNamespaceKey : string := "POD_NAMESPACE".

(** [os.Getenv]: empty when unset. *)
Definition Getenv (name : string) : string := default "" (LookupEnv name).

Definition EnvOrDefault (envName defVal : string) : string :=
  let val := Getenv envName in
  if bool_decide (val = "") then defVal else val.

Definition GetOperatorVersion : string := EnvOrDefault OperatorVersionKey DefaultOperatorVersion.

Definition GetOperatorNamespace : outcome string :=
  match LookupEnv podNamespaceKey with
  | None => Err (EMsg ("environment variable " +:+ podNamespaceKey +:+ " is not specified"))
  | Some ns => Ok ns
  end.
End env.
End Env.

(** ** Architectures *)

Module Architecture.
(** The three values of [type Arch string] that [ToArch] returns. *)
Inductive Arch := AMD64 | ARM64 | S390X.

#[export] Instance Arch_eq_dec : EqDecision Arch.
Proof. solve_decision. Defined.

Definition arch_string (a : Arch) : string :=
  match a with AMD64 => "amd64" | ARM64 => "arm64" | S390X => "s390x" end.

Definition ToArch (arch : string) : outcome Arch :=
  if bool_decide (arch = arch_string AMD64) then Ok AMD64
  else if bool_decide (arch = arch_string ARM64) then Ok ARM64
  else if bool_decide (arch = arch_string S390X) then Ok S390X
  else Err (EMsg ("unknown architecture: " +:+ arch)).

Definition ToArchOrPanic (arch : string) : outcome Arch :=
  match ToArch arch with
  | Ok a => Ok a
  | Err e => Panic (Error e)
  | Panic p => Panic p
  end.

(** [concatWithoutRepetitions]: the loop carries the result and the set of
    values seen so far. *)
Section concat.
Context `{Countable A}.

Fixpoint add_new (set : gset A) (result : list A) (vals : list A) : gset A * list A :=
  match vals with
  | [] => (set, result)
  | v :: vals' =>
      if bool_decide (v ∈ set) then add_new set result vals'
      else add_new ({[v]} ∪ set) (result ++ [v]) vals'
  end.

Fixpoint concat_loop (set : gset A) (result : list A) (data : list (list A)) : list A :=
  match data with
  | [] => result
  | slice :: data' =>
      let '(set', result') := add_new set result slice in
      concat_loop set' result' data'
  end.

Definition concatWithoutRepetitions (data : list (list A)) : list A := concat_loop ∅ [] data.

(** Reference definition: keep the first occurrence of every value. *)
Fixpoint firsts (seen : list A) (l : list A) : list A :=
  match l with
  | [] => []
  | v :: l' => if bool_decide (v ∈ seen) then firsts seen l' else v :: firsts (v :: seen) l'
  end.

Lemma firsts_ext s1 s2 l : (forall x, x ∈ s1 <-> x ∈ s2) -> firsts s1 l = firsts s2 l.
Proof.
  revert s1 s2. induction l as [|v l IH]; intros s1 s2 Hs; cbn; [done|].
  rewrite (bool_decide_ext _ _ (Hs v)). case_bool_decide; [by apply IH|].
  f_equal. apply IH. set_solver.
Qed.

Lemma firsts_app seen l1 l2 :
  firsts seen (l1 ++ l2) = firsts seen l1 ++ firsts (l1 ++ seen) l2.
Proof.
  revert seen. induction l1 as [|v l1 IH]; intros seen; cbn; [done|].
  case_bool_decide as Hv.
  - rewrite IH. f_equal. apply firsts_ext. set_solver.
  - cbn. rewrite IH. f_equal. f_equal. apply firsts_ext. set_solver.
Qed.

Lemma elem_of_firsts seen l x : x ∈ firsts seen l <-> x ∈ l /\ x ∉ seen.
Proof.
  revert seen. induction l as [|v l IH]; intros seen; cbn; [set_solver|].
  case_bool_decide; [rewrite IH; set_solver|].
  rewrite !elem_of_cons, IH, not_elem_of_cons. destruct (decide (x = v)); naive_solver.
Qed.

Lemma NoDup_firsts seen l : NoDup (firsts seen l).
Proof.
  revert seen. induction l as [|v l IH]; intros seen; cbn; [constructor|].
  case_bool_decide; [done|]. constructor; [|done]. rewrite elem_of_firsts. set_solver.
Qed.

Lemma add_new_spec set result vals seen :
  (forall x, x ∈ set <-> x ∈ seen) ->
  exists set', add_new set result vals = (set', result ++ firsts seen vals) /\
    forall x, x ∈ set' <-> x ∈ vals ++ seen.
Proof.
  revert set result seen. induction vals as [|v vals IH]; intros set result seen Hs; cbn.
  - exists set. by rewrite app_nil_r.
  - rewrite (bool_decide_ext _ _ (Hs v)). case_bool_decide as Hv.
    + destruct (IH set result seen Hs) as (s' & -> & Hs'). exists s'. split; [done|].
      intros x. rewrite Hs'. set_solver.
    + destruct (IH ({[v]} ∪ set) (result ++ [v]) (v :: seen)) as (s' & -> & Hs');
        [set_solver|].
      exists s'. rewrite <- app_assoc. split; [done|]. intros x. rewrite Hs'. set_solver.
Qed.

Lemma concat_loop_spec set result data seen :
  (forall x, x ∈ set <-> x ∈ seen) ->
  concat_loop set result data = result ++ firsts seen (concat data).
Proof.
  revert set result seen. induction data as [|slice data IH]; intros set result seen Hs; cbn.
  - by rewrite app_nil_r.
  - destruct (add_new_spec set result slice seen Hs) as (s' & -> & Hs').
    rewrite (IH _ _ (slice ++ seen)) by done. rewrite firsts_app. by rewrite app_assoc.
Qed.

Lemma concatWithoutRepetitions_firsts data :
  concatWithoutRepetitions data = firsts [] (concat data).
Proof. unfold concatWithoutRepetitions. rewrite (concat_loop_spec _ _ _ []); set_solver. Qed.
End concat.

Section archs.
Context `{Process}.

Definition GetSSPArchs (sspSpec : SSPSpec) : outcome (list Arch) :=
  match spec_Cluster sspSpec with
  | None =>
      if multi_arch sspSpec then
        Err (EMsg ".spec.cluster cannot be nil, if .spec.enableMultipleArchitectures is true")
      else
        defaultArchitecture ← wrap_err "default architecture is not supported: " (ToArch GOARCH);
        mret [defaultArchitecture]
  | Some cluster =>
      let archStrs := concatWithoutRepetitions
        [ControlPlaneArchitectures cluster; WorkloadArchitectures cluster] in
      match archStrs with
      | [] => Err (EMsg "no architectures are defined in .spec.cluster")
      | first :: _ =>
          if multi_arch sspSpec then mapM ToArch archStrs
          else arch ← ToArch first; mret [arch]
      end
  end.
End archs.

Lemma ToArch_string a : ToArch (arch_string a) = Ok a.
Proof. by destruct a. Qed.

Lemma ToArch_Ok s a : ToArch s = Ok a <-> s = arch_string a.
Proof.
  split; [|intros ->; apply ToArch_string].
  unfold ToArch. repeat case_bool_decide; intros; simplify_eq; done.
Qed.

Lemma arch_string_inj a b : arch_string a = arch_string b -> a = b.
Proof. destruct a, b; cbn; congruence. Qed.

Lemma ToArch_no_panic s : no_panic (ToArch s).
Proof. unfold ToArch. intros p. by repeat case_bool_decide. Qed.

(** Converting back the successfully parsed names gives the names. *)
Lemma mapM_ToArch_Ok l as_ : mapM ToArch l = Ok as_ <-> l = arch_string <$> as_.
Proof.
  rewrite mapM_outcome_Ok. revert as_. induction l as [|s l IH]; intros as_.
  - split; [by inversion 1|]. by destruct as_.
  - split.
    + inversion 1 as [|? a ? as' Ha Has]; subst. apply ToArch_Ok in Ha as ->. cbn.
      f_equal. by apply IH.
    + destruct as_ as [|a as']; [done|]. cbn. intros [= -> ->].
      constructor; [apply ToArch_string|by apply IH].
Qed.

(** What [.spec.cluster] must satisfy for the architectures to be known. *)
Definition cluster_names (c : Cluster) : list string :=
  ControlPlaneArchitectures c ++ WorkloadArchitectures c.

Section theorems.
Context `{Process}.

(** with several architectures enabled the result lists every named
    architecture once, control plane first. *)
Theorem GetSSPArchs_multi spec c archs :
  multi_arch spec = true -> spec_Cluster spec = Some c ->
  GetSSPArchs spec = Ok archs ->
  archs <> [] /\ NoDup archs /\
  (arch_string <$> archs) = firsts [] (cluster_names c) /\
  forall s, s ∈ cluster_names c <-> exists a, a ∈ archs /\ s = arch_string a.
Proof.
  unfold GetSSPArchs, cluster_names. intros Hm Hc. rewrite Hc, Hm.
  rewrite concatWithoutRepetitions_firsts. cbn [concat]. rewrite app_nil_r.
  set (l := ControlPlaneArchitectures c ++ WorkloadArchitectures c).
  destruct (firsts [] l) as [|s ss] eqn:E; [done|].
  intros Ha%mapM_ToArch_Ok. split_and!.
  - by intros ->.
  - apply (NoDup_fmap_1 arch_string). rewrite <- Ha, <- E. apply NoDup_firsts.
  - by rewrite Ha.
  - intros x. trans (x ∈ firsts [] l); [rewrite elem_of_firsts; set_solver|].
    rewrite E, Ha, list_elem_of_fmap. naive_solver.
Qed.

(** with one architecture the first control-plane name decides, or the first
    workload name when there is no control-plane name. *)
Theorem GetSSPArchs_single spec c archs :
  multi_arch spec = false -> spec_Cluster spec = Some c ->
  GetSSPArchs spec = Ok archs <->
  exists a, archs = [a] /\ head (cluster_names c) = Some (arch_string a).
Proof.
  unfold GetSSPArchs, cluster_names. intros Hm Hc. rewrite Hc, Hm.
  rewrite concatWithoutRepetitions_firsts. cbn [concat]. rewrite app_nil_r.
  set (l := ControlPlaneArchitectures c ++ WorkloadArchitectures c).
  assert (Hh : head (firsts [] l) = head l) by by destruct l.
  destruct (firsts [] l) as [|s ss] eqn:E; rewrite <- Hh; cbn.
  - split; [done|]. naive_solver.
  - rewrite outcome_bind_Ok. setoid_rewrite ToArch_Ok.
    split; [intros (a & -> & [= <-]); eauto|intros (a & -> & [= ->]); by exists a].
Qed.
End theorems.

Module ArchWitness.
Definition process : Process := {| LookupEnv := fun _ => None; GOARCH := "amd64" |}.
Definition cluster : Cluster := mkCluster ["s390x"; "amd64"] ["amd64"; "arm64"].
Definition spec (multi : bool) : SSPSpec :=
  mkSSPSpec (Some multi) None (Some cluster) (mkCommonTemplates "" []) None None.

Lemma GetSSPArchs_multi_witness :
  let archs := [AMD64; ARM64; S390X] in
  archs <> [] /\ NoDup archs /\ (arch_string <$> archs) = firsts [] (cluster_names cluster) /\
  forall s, s ∈ cluster_names cluster <-> exists a, a ∈ archs /\ s = arch_string a.
Proof. by apply (@GetSSPArchs_multi process (spec true)). Defined.

Lemma GetSSPArchs_single_witness :
  @GetSSPArchs process (spec false) = Ok [AMD64] <->
  exists a, [AMD64] = [a] /\ head (cluster_names cluster) = Some (arch_string a).
Proof. by apply (@GetSSPArchs_single process (spec false)). Defined.
End ArchWitness.
End Architecture.
Export Architecture.
