(* ===== verification/KubeClient.v ===== *)
(** * The API client

    The controller-runtime client is not part of this repository. It is a
    parameter, the class [Client]: a family of functions on a world [W], each of
    which may fail and may change the world, so that an arbitrary instance also
    covers stale caches, conflicts and concurrent writers. Every call is
    appended to a trace, over which the safety theorems of the operator are
    stated. [QuietClient] names what the API server documents about a cluster
    that nobody else writes to; [MemCluster] is an in-memory instance of it. *)

From S2P Require Import Prelude GoRuntime KubeTypes SspTypes.

(** [client.ListOptions]: a namespace ("" for all) and label requirements. *)
Record ListOptions := mkListOptions {
  lo_Namespace : string;
  lo_Requirements : list LabelSelectorRequirement
}.

Definition noListOptions : ListOptions := mkListOptions "" [].
(** [client.InNamespace] *)
Definition InNamespace (ns : string) : ListOptions := mkListOptions ns [].

(** [labels.Requirement.Matches] for the operators the operator uses. *)
Definition requirement_matches (ls : gomap) (r : LabelSelectorRequirement) : bool :=
  let present := map_has ls (req_Key r) in
  let listed := contains (req_Values r) (map_get ls (req_Key r)) in
  if contains ["="; "=="; "in"; "In"] (req_Operator r) then present && listed
  else if contains ["!="; "notin"; "NotIn"] (req_Operator r) then negb present || negb listed
  else if contains ["exists"; "Exists"] (req_Operator r) then present
  else if contains ["!"; "DoesNotExist"] (req_Operator r) then negb present
  else false.

Definition list_selects (opts : ListOptions) (o : Object) : bool :=
  (bool_decide (lo_Namespace opts = "") ||
   bool_decide (lo_Namespace opts = Namespace (o_meta o))) &&
  forallb (requirement_matches (Labels (o_meta o))) (lo_Requirements opts).

(** ** The client interface *)

Class Client (W : Type) := {
  (** [client.Client], on the operator's cache *)
  cl_Get : Kind -> ObjectKey -> W -> (error + Object) * W;
  cl_List : Kind -> ListOptions -> W -> (error + list Object) * W;
  (** [Create] and [Update] decode the server's answer into their argument. *)
  cl_Create : Object -> W -> (error + Object) * W;
  cl_Update : Object -> W -> (error + Object) * W;
  cl_Delete : Kind -> ObjectKey -> W -> (error + unit) * W;
  (** [mgr.GetAPIReader()] *)
  cl_UncachedGet : Kind -> ObjectKey -> W -> (error + Object) * W;
  (** The same on the SSP resource; [cl_StatusUpdate] is [Status().Update]. *)
  cl_GetSSP : ObjectKey -> W -> (error + SSP) * W;
  cl_UpdateSSP : SSP -> W -> (error + SSP) * W;
  cl_StatusUpdateSSP : SSP -> W -> (error + SSP) * W;
  (** [time.Now()] *)
  cl_Now : W -> Z;
  (** The Go types of the calls: decoding fills the object that was passed. *)
  cl_Get_kind : forall k key w o w', cl_Get k key w = (inr o, w') -> o_kind o = k;
  cl_UncachedGet_kind : forall k key w o w',
    cl_UncachedGet k key w = (inr o, w') -> o_kind o = k;
  cl_List_kind : forall k opts w os w',
    cl_List k opts w = (inr os, w') -> Forall (fun o => o_kind o = k) os;
  cl_Create_kind : forall o w o' w', cl_Create o w = (inr o', w') -> o_kind o' = o_kind o;
  cl_Update_kind : forall o w o' w', cl_Update o w = (inr o', w') -> o_kind o' = o_kind o
}.

Inductive ApiCall :=
| CGet (k : Kind) (key : ObjectKey)
| CUncachedGet (k : Kind) (key : ObjectKey)
| CList (k : Kind) (opts : ListOptions)
| CCreate (o : Object)
| CUpdate (o : Object)
| CDelete (k : Kind) (key : ObjectKey)
| CGetSSP (key : ObjectKey)
| CUpdateSSP (s : SSP)
| CStatusUpdateSSP (s : SSP).

(** Calls that cannot change the cluster. *)
Definition is_read (c : ApiCall) : bool :=
  match c with
  | CGet _ _ | CUncachedGet _ _ | CList _ _ | CGetSSP _ => true
  | _ => false
  end.

(** ** The operator's version cache (internal/common/cache.go) *)

Record cacheKey := mkCacheKey { ck_Kind : string; ck_Name : string; ck_Namespace : string }.
Record cacheValue := mkCacheValue { uid : string; resourceVersion : string; generation : Z }.

#[export] Instance cacheKey_eq_dec : EqDecision cacheKey.
Proof. solve_decision. Defined.
#[export] Instance cacheKey_countable : Countable cacheKey.
Proof.
  apply (inj_countable' (fun k => (ck_Kind k, ck_Name k, ck_Namespace k))
           (fun p => mkCacheKey p.1.1 p.1.2 p.2)).
  by intros [].
Defined.

Notation VersionCache := (gmap cacheKey cacheValue).

(** ** State of the operator process *)

Record OpSt (W : Type) := mkOpSt {
  op_world : W;
  op_trace : list ApiCall;
  (** [sspController.subresourceCache] *)
  op_cache : VersionCache;
  (** [sspController.lastSspSpec] *)
  op_lastSspSpec : SSPSpec;
  (** [kubevirt_ssp_operator_reconcile_succeeded], unset at start *)
  op_reconcileSucceeded : option bool;
  (** [kubevirt_ssp_common_templates_restored_total] *)
  op_templatesRestored : Z
}.
Arguments mkOpSt {_}.
Arguments op_world {_}.
Arguments op_trace {_}.
Arguments op_cache {_}.
Arguments op_lastSspSpec {_}.
Arguments op_reconcileSucceeded {_}.
Arguments op_templatesRestored {_}.

Definition Op (W : Type) : Type -> Type := M (OpSt W).

Section calls.
Context `{Client W}.

Definition with_world (s : OpSt W) w c : OpSt W :=
  mkOpSt w (op_trace s ++ [c]) (op_cache s) (op_lastSspSpec s)
    (op_reconcileSucceeded s) (op_templatesRestored s).
Definition with_cache (s : OpSt W) c : OpSt W :=
  mkOpSt (op_world s) (op_trace s) c (op_lastSspSpec s)
    (op_reconcileSucceeded s) (op_templatesRestored s).
Definition with_lastSspSpec (s : OpSt W) sp : OpSt W :=
  mkOpSt (op_world s) (op_trace s) (op_cache s) sp
    (op_reconcileSucceeded s) (op_templatesRestored s).
Definition with_reconcileSucceeded (s : OpSt W) b : OpSt W :=
  mkOpSt (op_world s) (op_trace s) (op_cache s) (op_lastSspSpec s)
    (Some b) (op_templatesRestored s).
Definition with_templatesRestored (s : OpSt W) n : OpSt W :=
  mkOpSt (op_world s) (op_trace s) (op_cache s) (op_lastSspSpec s)
    (op_reconcileSucceeded s) n.

(** Issues an API call: records it and returns the client's answer. *)
Definition call {A} (c : ApiCall) (f : W -> (error + A) * W) : Op W A := fun s =>
  let '(r, w) := f (op_world s) in
  (match r with inr a => Ok a | inl e => Err e end, with_world s w c).

Definition Get (k : Kind) (key : ObjectKey) : Op W Object := call (CGet k key) (cl_Get k key).
Definition UncachedGet (k : Kind) (key : ObjectKey) : Op W Object :=
  call (CUncachedGet k key) (cl_UncachedGet k key).
Definition List (k : Kind) (opts : ListOptions) : Op W (list Object) :=
  call (CList k opts) (cl_List k opts).
Definition Create (o : Object) : Op W Object := call (CCreate o) (cl_Create o).
Definition Update (o : Object) : Op W Object := call (CUpdate o) (cl_Update o).
Definition Delete (k : Kind) (key : ObjectKey) : Op W unit :=
  call (CDelete k key) (cl_Delete k key).
Definition GetSSP (key : ObjectKey) : Op W SSP := call (CGetSSP key) (cl_GetSSP key).
Definition UpdateSSP (s : SSP) : Op W SSP := call (CUpdateSSP s) (cl_UpdateSSP s).
Definition StatusUpdateSSP (s : SSP) : Op W SSP :=
  call (CStatusUpdateSSP s) (cl_StatusUpdateSSP s).
Definition Now : Op W Z := fun s => (Ok (cl_Now (op_world s)), s).

Definition get_cache : Op W VersionCache := fun s => (Ok (op_cache s), s).
Definition set_cache (c : VersionCache) : Op W unit := fun s => (Ok (), with_cache s c).
End calls.

(** ** Trace frame conditions

    [issued P m]: every API call that [m] makes satisfies [P], whatever the
    client answers. *)
Section traces.
Context {W : Type}.

Definition extends (P : ApiCall -> Prop) (s s' : OpSt W) : Prop :=
  exists t, op_trace s' = op_trace s ++ t /\ Forall P t.

#[export] Instance extends_preorder P : PreOrder (extends P).
Proof.
  split.
  - intros s. exists []. by rewrite app_nil_r.
  - intros s1 s2 s3 (t1 & H1 & F1) (t2 & H2 & F2). exists (t1 ++ t2).
    rewrite H2, H1, app_assoc. split; [done|by apply Forall_app].
Qed.

Definition issued (P : ApiCall -> Prop) {A} (m : Op W A) : Prop := keeps (extends P) m.

Lemma issued_mono (P Q : ApiCall -> Prop) {A} (m : Op W A) :
  (forall c, P c -> Q c) -> issued P m -> issued Q m.
Proof.
  intros HPQ Hm s. destruct (Hm s) as (t & Ht & HP). exists t.
  split; [done|]. by eapply Forall_impl.
Qed.

Lemma extends_same P s s' : op_trace s' = op_trace s -> extends P s s'.
Proof. intros E. exists []. by rewrite app_nil_r. Qed.

Lemma extends_with_world P s0 s w c :
  P c -> extends P s0 s -> extends P s0 (with_world s w c).
Proof.
  intros Hc (t & Ht & HP). exists (t ++ [c]). cbn. rewrite Ht, app_assoc.
  split; [done|]. apply Forall_app. split; [done|]. by constructor.
Qed.

Context `{!Client W}.

Lemma issued_call (P : ApiCall -> Prop) {A} c (f : W -> (error + A) * W) :
  P c -> issued P (call c f).
Proof.
  intros HP s. unfold call. destruct (f (op_world s)) as [r w]. cbn.
  exists [c]. split; [done|by constructor].
Qed.

Lemma issued_ret P {A} (a : A) : issued P (mret a).
Proof. apply keeps_ret, _. Qed.
Lemma issued_throw P {A} e : issued P (throw (A := A) e).
Proof. apply keeps_throw, _. Qed.
Lemma issued_panic P {A} e : issued P (panic (A := A) e).
Proof. apply keeps_panic, _. Qed.
Lemma issued_lift P {A} (m : outcome A) : issued P (lift m).
Proof. apply keeps_lift, _. Qed.
Lemma issued_get P : issued P get_state.
Proof. apply keeps_get, _. Qed.
Lemma issued_bind P {A B} (m : Op W A) (f : A -> Op W B) :
  issued P m -> (forall a, issued P (f a)) -> issued P (m ≫= f).
Proof. apply keeps_bind, _. Qed.
Lemma issued_bind_returns P {A B} (Q : A -> Prop) (m : Op W A) (f : A -> Op W B) :
  issued P m -> returns Q m -> (forall a, Q a -> issued P (f a)) -> issued P (m ≫= f).
Proof. apply keeps_bind_returns, _. Qed.
Lemma issued_try P {A} (m : Op W A) : issued P m -> issued P (try m).
Proof. apply keeps_try. Qed.
Lemma issued_wrapping P {A} p (m : Op W A) : issued P m -> issued P (wrapping p m).
Proof. apply keeps_wrapping. Qed.
Lemma issued_mapM P {A B} (f : A -> Op W B) l :
  (forall x, x ∈ l -> issued P (f x)) -> issued P (mapM f l).
Proof. apply keeps_mapM, _. Qed.
Lemma issued_set_cache P c : issued P (set_cache c).
Proof. intros s. by apply extends_same. Qed.
Lemma issued_get_cache P : issued P get_cache.
Proof. intros s. by apply extends_same. Qed.
Lemma issued_now P : issued P Now.
Proof. intros s. by apply extends_same. Qed.
Lemma issued_modify P (f : OpSt W -> OpSt W) :
  (forall s, op_trace (f s) = op_trace s) -> issued P (modify_state f).
Proof. intros Hf s. apply extends_same, Hf. Qed.
End traces.

#[export] Hint Resolve issued_call issued_ret issued_throw issued_panic issued_lift issued_get
  issued_bind issued_try issued_wrapping issued_mapM issued_set_cache issued_get_cache
  issued_now issued_modify : ssp.

(** Proves that a state that results from a known sequence of calls extends
    the initial one. *)
Ltac extend_trace :=
  cbn; repeat (apply extends_with_world; [try done|]); try reflexivity.

(** Walks through a handler, splitting at every sequencing and branch. *)
Ltac solve_issued :=
  repeat first
    [ apply issued_bind; [|intros ?]
    | apply issued_ret | apply issued_throw | apply issued_panic | apply issued_lift
    | apply issued_get | apply issued_set_cache | apply issued_get_cache | apply issued_now
    | apply issued_try | apply issued_wrapping
    | apply issued_call; cbn; done
    | apply issued_modify; done
    | case_match ];
  eauto with ssp.
