(* ===== verification/Cluster.v ===== *)
(** * A cluster without other writers

    [QuietClient]: what the Kubernetes API promises about objects that only the
    operator writes. The laws leave the server free to fill in defaults in the
    body of an object and to add labels and annotations, as admission plugins
    and controllers do. [QuietSSP]: the same for the SSP itself.
    [ListingClient]: what lists hold. [PlainStore]: kinds without defaults.
    [MemCluster] is an executable instance. *)

From S2P Require Import Prelude GoRuntime KubeTypes SspTypes KubeClient.

(** Every binding of [sent] is also in [got]. *)
Definition map_kept (sent got : gomap) : Prop :=
  forall k v, (sent ≫= lookup k) = Some v -> (got ≫= lookup k) = Some v.

(** The server's copy [got] of an object [sent] by the operator. *)
Record persisted (sent got : Object) : Prop := {
  persisted_kind : o_kind got = o_kind sent;
  persisted_key : ObjectKeyFromObject got = ObjectKeyFromObject sent;
  persisted_owners : OwnerReferences (o_meta got) = OwnerReferences (o_meta sent);
  persisted_labels : map_kept (Labels (o_meta sent)) (Labels (o_meta got));
  persisted_annotations : map_kept (Annotations (o_meta sent)) (Annotations (o_meta got));
  persisted_alive : DeletionTimestamp (o_meta got) = DeletionTimestamp (o_meta sent)
}.

(** A deployment that the server stores has a replica count: it is one of the
    fields that the server fills in. *)
Definition replicas_set (o : Object) : Prop :=
  match o_body o with Deployment spec _ => dep_Replicas spec <> None | _ => True end.

Class QuietClient (W : Type) `{Client W} := {
  stored : W -> Kind -> ObjectKey -> option Object;
  stored_wf : forall w k key o, stored w k key = Some o ->
    o_kind o = k /\ ObjectKeyFromObject o = key /\ ResourceVersion (o_meta o) <> "" /\
    replicas_set o;
  quiet_get_some : forall w k key o, stored w k key = Some o -> cl_Get k key w = (inr o, w);
  quiet_get_none : forall w k key, stored w k key = None ->
    exists e, cl_Get k key w = (inl e, w) /\ IsNotFound e = true;
  quiet_create : forall w o,
    stored w (o_kind o) (ObjectKeyFromObject o) = None ->
    exists o' w', cl_Create o w = (inr o', w') /\ persisted o o' /\
      stored w' (o_kind o) (ObjectKeyFromObject o) = Some o' /\
      forall k key, (k, key) <> (o_kind o, ObjectKeyFromObject o) ->
        stored w' k key = stored w k key;
  (** An update is accepted when it was computed from the current version. *)
  quiet_update : forall w o o0,
    stored w (o_kind o) (ObjectKeyFromObject o) = Some o0 ->
    ResourceVersion (o_meta o) = ResourceVersion (o_meta o0) ->
    exists o' w', cl_Update o w = (inr o', w') /\ persisted o o' /\
      stored w' (o_kind o) (ObjectKeyFromObject o) = Some o' /\
      forall k key, (k, key) <> (o_kind o, ObjectKeyFromObject o) ->
        stored w' k key = stored w k key;
  (** A deleted object disappears, or stays marked until its finalizers run. *)
  quiet_delete : forall w k key o,
    stored w k key = Some o ->
    exists w', cl_Delete k key w = (inr tt, w') /\
      (forall o', stored w' k key = Some o' -> DeletionTimestamp (o_meta o') <> None) /\
      forall k' key', (k', key') <> (k, key) -> stored w' k' key' = stored w k' key'
}.

(** An object without finalizers goes away at once. *)
Class PromptClient (W : Type) `{QuietClient W} : Prop :=
  prompt_delete : forall w k key o w',
    stored w k key = Some o -> Finalizers (o_meta o) = [] ->
    cl_Delete k key w = (inr tt, w') -> stored w' k key = None.

(** Reads that go past the operator's cache see the same objects. *)
Class FreshClient (W : Type) `{Client W} : Prop :=
  fresh_get : forall k key w, cl_UncachedGet k key w = cl_Get k key w.

(** A list has every object that is selected, once. *)
Class ListingClient (W : Type) `{QuietClient W} : Prop :=
  quiet_list : forall w k opts, exists os, cl_List k opts w = (inr os, w) /\
    NoDup (ObjectKeyFromObject <$> os) /\
    forall o, o ∈ os <-> stored w k (ObjectKeyFromObject o) = Some o /\ list_selects opts o = true.

(** Objects of this kind are stored with the content that was sent: the server
    fills in no defaults and nothing else changes them. *)
Definition as_sent (sent got : Object) : Prop :=
  o_body got = o_body sent /\ Labels (o_meta got) = Labels (o_meta sent) /\
  Annotations (o_meta got) = Annotations (o_meta sent) /\
  Finalizers (o_meta got) = Finalizers (o_meta sent).

Class PlainStore (W : Type) `{Client W} (k : Kind) : Prop := {
  plain_create : forall o w o' w', o_kind o = k -> cl_Create o w = (inr o', w') -> as_sent o o';
  plain_update : forall o w o' w', o_kind o = k -> cl_Update o w = (inr o', w') -> as_sent o o'
}.

(** *** The SSP resource on such a cluster *)

(** The metadata without the version that the server counts. *)
Definition unversioned (m : ObjectMeta) : ObjectMeta :=
  with_server m (UID m) "" (Generation m) (DeletionTimestamp m).

(** The two writes of an SSP each change their own part of it, and the version.
    Writes of other objects leave it alone. *)
Class QuietSSP (W : Type) `{QuietClient W} := {
  stored_ssp : W -> ObjectKey -> option SSP;
  stored_ssp_key : forall w key i, stored_ssp w key = Some i -> ssp_key i = key;
  quiet_ssp_get_some : forall w key i, stored_ssp w key = Some i -> cl_GetSSP key w = (inr i, w);
  quiet_ssp_get_none : forall w key, stored_ssp w key = None ->
    exists e, cl_GetSSP key w = (inl e, w) /\ IsNotFound e = true;
  quiet_ssp_status : forall w i i0,
    stored_ssp w (ssp_key i) = Some i0 ->
    ResourceVersion (ssp_meta i) = ResourceVersion (ssp_meta i0) ->
    exists i' w', cl_StatusUpdateSSP i w = (inr i', w') /\
      unversioned (ssp_meta i') = unversioned (ssp_meta i0) /\ ssp_type i' = ssp_type i0 /\
      ssp_spec i' = ssp_spec i0 /\ ssp_status i' = ssp_status i /\
      stored_ssp w' (ssp_key i) = Some i' /\
      forall k key, stored w' k key = stored w k key;
  (** A deleted SSP goes away with its last finalizer. *)
  quiet_ssp_update : forall w i i0,
    stored_ssp w (ssp_key i) = Some i0 ->
    ResourceVersion (ssp_meta i) = ResourceVersion (ssp_meta i0) ->
    exists i' w', cl_UpdateSSP i w = (inr i', w') /\ ssp_key i' = ssp_key i /\
      stored_ssp w' (ssp_key i) =
        (if bool_decide (Finalizers (ssp_meta i) = []) &&
            bool_decide (DeletionTimestamp (ssp_meta i) <> None) then None else Some i') /\
      forall k key, stored w' k key = stored w k key;
  ssp_status_missing : forall w i, stored_ssp w (ssp_key i) = None ->
    exists e w', cl_StatusUpdateSSP i w = (inl e, w') /\ IsNotFound e = true /\
      stored_ssp w' (ssp_key i) = None /\ forall k key, stored w' k key = stored w k key;
  create_keeps_ssp : forall w o o' w' key,
    cl_Create o w = (inr o', w') -> stored_ssp w' key = stored_ssp w key;
  update_keeps_ssp : forall w o o' w' key,
    cl_Update o w = (inr o', w') -> stored_ssp w' key = stored_ssp w key;
  delete_keeps_ssp : forall w k okey w' key,
    cl_Delete k okey w = (inr tt, w') -> stored_ssp w' key = stored_ssp w key
}.

(** ** An in-memory cluster *)

Record MemCluster := mkMemCluster {
  mc_objects : gmap (string * ObjectKey) Object;
  mc_ssps : gmap ObjectKey SSP;
  mc_clock : Z
}.

Module Mem.
Definition empty : MemCluster := mkMemCluster ∅ ∅ 1.

Definition has_replicas (o : Object) : bool :=
  match o_body o with Deployment spec _ => bool_decide (dep_Replicas spec <> None) | _ => true end.

(** The object as the server stores it: one replica, if there is no count. *)
Definition defaulted (o : Object) : Object :=
  match o_body o with
  | Deployment spec st =>
      with_body o (Deployment (mkDeploymentSpec (Some (default 1%Z (dep_Replicas spec)))
        (dep_Selector spec) (dep_Template spec) (dep_other spec)) st)
  | _ => o
  end.

Definition valid (k : Kind) (key : ObjectKey) (o : Object) : bool :=
  bool_decide (o_kind o = k) && bool_decide (ObjectKeyFromObject o = key) &&
  bool_decide (ResourceVersion (o_meta o) <> "") && has_replicas o.

Definition stored (w : MemCluster) (k : Kind) (key : ObjectKey) : option Object :=
  o ← mc_objects w !! (kind_name k, key);
  if valid k key o then Some o else None.

Definition put (w : MemCluster) (o : Object) : MemCluster :=
  mkMemCluster (<[(kind_name (o_kind o), ObjectKeyFromObject o) := o]> (mc_objects w))
    (mc_ssps w) (mc_clock w + 1).

Definition remove (w : MemCluster) (k : Kind) (key : ObjectKey) : MemCluster :=
  mkMemCluster (delete (kind_name k, key) (mc_objects w)) (mc_ssps w) (mc_clock w + 1).

(** A version string that is never empty. *)
Definition version (w : MemCluster) : string := ("v" +:+ itoa (mc_clock w)).

Definition get (k : Kind) (key : ObjectKey) (w : MemCluster) : (error + Object) * MemCluster :=
  (match stored w k key with
   | Some o => inr o
   | None => inl (not_found (key_Name key))
   end, w).

Definition list_ (k : Kind) (opts : ListOptions) (w : MemCluster)
    : (error + list Object) * MemCluster :=
  (inr (filter (fun e => valid k e.1.2 e.2 = true /\ e.1.1 = kind_name k /\ list_selects opts e.2 = true)
          (map_to_list (mc_objects w))).*2, w).

Definition create (o : Object) (w : MemCluster) : (error + Object) * MemCluster :=
  match stored w (o_kind o) (ObjectKeyFromObject o) with
  | Some _ => (inl (already_exists (Name (o_meta o))), w)
  | None =>
      let o' := with_meta (defaulted o) (with_server (o_meta o) (version w) (version w) 1
                               (DeletionTimestamp (o_meta o))) in
      (inr o', put w o')
  end.

Definition update (o : Object) (w : MemCluster) : (error + Object) * MemCluster :=
  match stored w (o_kind o) (ObjectKeyFromObject o) with
  | None => (inl (not_found (Name (o_meta o))), w)
  | Some o0 =>
      if bool_decide (ResourceVersion (o_meta o) = ResourceVersion (o_meta o0)) then
        let gen := if bool_decide (o_body (defaulted o) = o_body o0) then Generation (o_meta o0)
                   else (Generation (o_meta o0) + 1)%Z in
        let o' := with_meta (defaulted o) (with_server (o_meta o) (UID (o_meta o0)) (version w) gen
                                 (DeletionTimestamp (o_meta o))) in
        (inr o', put w o')
      else (inl (conflict (Name (o_meta o))), w)
  end.

Definition delete_ (k : Kind) (key : ObjectKey) (w : MemCluster) : (error + unit) * MemCluster :=
  match stored w k key with
  | None => (inl (not_found (key_Name key)), w)
  | Some o =>
      match Finalizers (o_meta o) with
      | [] => (inr tt, remove w k key)
      | _ => (inr tt, put w (with_meta o
                 (with_server (o_meta o) (UID (o_meta o)) (version w)
                    (Generation (o_meta o)) (Some (mc_clock w)))))
      end
  end.

Definition stored_ssp (w : MemCluster) (key : ObjectKey) : option SSP :=
  i ← mc_ssps w !! key;
  if bool_decide (ssp_key i = key) then Some i else None.

Definition get_ssp (key : ObjectKey) (w : MemCluster) : (error + SSP) * MemCluster :=
  (match stored_ssp w key with
   | Some s => inr s
   | None => inl (not_found (key_Name key))
   end, w).

Definition put_ssp (s : SSP) (w : MemCluster) : MemCluster :=
  mkMemCluster (mc_objects w) (<[ssp_key s := s]> (mc_ssps w)) (mc_clock w + 1).

(** Writes to the main resource keep the stored status, and the other way
    round; a deleted SSP goes away with its last finalizer. *)
Definition update_ssp (s : SSP) (w : MemCluster) : (error + SSP) * MemCluster :=
  match stored_ssp w (ssp_key s) with
  | None => (inl (not_found (Name (ssp_meta s))), w)
  | Some s0 =>
      let s' := with_ssp_status s (ssp_status s0) in
      match Finalizers (ssp_meta s), DeletionTimestamp (ssp_meta s) with
      | [], Some _ =>
          (inr s', mkMemCluster (mc_objects w) (delete (ssp_key s) (mc_ssps w)) (mc_clock w + 1))
      | _, _ => (inr s', put_ssp s' w)
      end
  end.

Definition status_update_ssp (s : SSP) (w : MemCluster) : (error + SSP) * MemCluster :=
  match stored_ssp w (ssp_key s) with
  | None => (inl (not_found (Name (ssp_meta s))), w)
  | Some s0 => let s' := with_ssp_status s0 (ssp_status s) in (inr s', put_ssp s' w)
  end.

Lemma has_replicas_spec o : has_replicas o = true <-> replicas_set o.
Proof. unfold has_replicas, replicas_set. destruct (o_body o); rewrite ?bool_decide_eq_true; done. Qed.

Lemma defaulted_spec o :
  o_kind (defaulted o) = o_kind o /\ o_meta (defaulted o) = o_meta o /\ replicas_set (defaulted o).
Proof. unfold defaulted, replicas_set, o_kind. destruct (o_body o) eqn:E; rewrite ?E; done. Qed.

Lemma valid_spec k key o :
  valid k key o = true <->
  o_kind o = k /\ ObjectKeyFromObject o = key /\ ResourceVersion (o_meta o) <> "" /\ replicas_set o.
Proof. unfold valid. rewrite !andb_true_iff, !bool_decide_eq_true, has_replicas_spec. tauto. Qed.

Lemma stored_valid w k key o :
  stored w k key = Some o ->
  o_kind o = k /\ ObjectKeyFromObject o = key /\ ResourceVersion (o_meta o) <> "" /\ replicas_set o.
Proof.
  unfold stored. destruct (mc_objects w !! _) as [o'|]; cbn; [|done].
  destruct (valid k key o') eqn:E; [|done]. intros [= <-]. by apply valid_spec.
Qed.

Lemma stored_lookup w k key o :
  stored w k key = Some o <-> mc_objects w !! (kind_name k, key) = Some o /\ valid k key o = true.
Proof.
  unfold stored. destruct (mc_objects w !! _) as [o'|]; cbn; [|split; [done|by intros [[=] _]]].
  destruct (valid k key o') eqn:E; split; try done.
  - by intros [= <-].
  - by intros [[= <-] _].
  - intros [[= <-] ?]. congruence.
Qed.

Lemma list_keys w k opts os :
  (list_ k opts w).1 = inr os -> NoDup (ObjectKeyFromObject <$> os).
Proof.
  intros [= <-]. apply (NoDup_fmap_1 (pair (kind_name k))).
  set (l := filter _ _). replace (pair (kind_name k) <$> (ObjectKeyFromObject <$> l.*2)) with (l.*1).
  - eapply sublist_NoDup; [apply (NoDup_fst_map_to_list (mc_objects w))|].
    apply fmap_sublist, sublist_filter.
  - rewrite <- !list_fmap_compose. apply Forall_fmap_ext, Forall_forall.
    intros [[kn key] o] [(Hv & Hk & _) _]%list_elem_of_filter. cbn in *. subst kn.
    by apply valid_spec in Hv as (_ & <- & _).
Qed.

Lemma kind_name_inj k k' : kind_name k = kind_name k' -> k = k'.
Proof. destruct k, k'; cbn; congruence. Qed.

Lemma stored_put_eq w o :
  ResourceVersion (o_meta o) <> "" -> replicas_set o ->
  stored (put w o) (o_kind o) (ObjectKeyFromObject o) = Some o.
Proof.
  intros Hv Hr. unfold stored, put. cbn. rewrite lookup_insert_eq. cbn.
  by rewrite (proj2 (valid_spec (o_kind o) (ObjectKeyFromObject o) o)).
Qed.

Lemma stored_put_ne w o k key :
  (k, key) <> (o_kind o, ObjectKeyFromObject o) -> stored (put w o) k key = stored w k key.
Proof.
  intros Hne. unfold stored, put. cbn. rewrite lookup_insert_ne; [done|].
  intros [= E%kind_name_inj E']. congruence.
Qed.

Lemma stored_remove_eq w k key : stored (remove w k key) k key = None.
Proof. unfold stored, remove. cbn. by rewrite lookup_delete_eq. Qed.

Lemma stored_remove_ne w k key k' key' :
  (k', key') <> (k, key) -> stored (remove w k key) k' key' = stored w k' key'.
Proof.
  intros Hne. unfold stored, remove. cbn. rewrite lookup_delete_ne; [done|].
  intros [= E%kind_name_inj E']. congruence.
Qed.

Lemma version_nonempty w : version w <> "".
Proof. done. Qed.

(** The stored form of an object, under new server-assigned fields, is persisted. *)
Lemma persisted_server o u rv g :
  persisted o (with_meta (defaulted o) (with_server (o_meta o) u rv g (DeletionTimestamp (o_meta o)))).
Proof. split; [apply (defaulted_spec o)|done..|by intros k v|by intros k v|done]. Qed.

(** Storing an object under new server-assigned fields changes its key only. *)
Lemma stored_put_server w o o' u rv g d :
  rv <> "" -> replicas_set o' -> o_kind o' = o_kind o ->
  stored (put w (with_meta o' (with_server (o_meta o) u rv g d))) (o_kind o)
    (ObjectKeyFromObject o) = Some (with_meta o' (with_server (o_meta o) u rv g d)) /\
  forall k key, (k, key) <> (o_kind o, ObjectKeyFromObject o) ->
    stored (put w (with_meta o' (with_server (o_meta o) u rv g d))) k key = stored w k key.
Proof.
  intros Hrv Hr <-. split.
  - by apply (stored_put_eq w (with_meta o' (with_server (o_meta o) u rv g d))).
  - intros. by apply (stored_put_ne w (with_meta o' (with_server (o_meta o) u rv g d))).
Qed.

Lemma stored_ssp_put w i : stored_ssp (put_ssp i w) (ssp_key i) = Some i.
Proof. unfold stored_ssp, put_ssp. cbn. rewrite lookup_insert_eq. cbn. by rewrite bool_decide_true. Qed.

Lemma stored_ssp_valid w key i : stored_ssp w key = Some i -> ssp_key i = key.
Proof.
  unfold stored_ssp. destruct (mc_ssps w !! key); cbn; [|done]. case_bool_decide; [|done].
  by intros [= <-].
Qed.

#[export] Hint Resolve stored_put_eq stored_put_ne stored_remove_ne version_nonempty
  persisted_server : ssp.
End Mem.

#[export, refine] Instance MemCluster_client : Client MemCluster := {|
  cl_Get := Mem.get;
  cl_List := Mem.list_;
  cl_Create := Mem.create;
  cl_Update := Mem.update;
  cl_Delete := Mem.delete_;
  cl_UncachedGet := Mem.get;
  cl_GetSSP := Mem.get_ssp;
  cl_UpdateSSP := Mem.update_ssp;
  cl_StatusUpdateSSP := Mem.status_update_ssp;
  cl_Now := mc_clock
|}.
Proof.
  - unfold Mem.get. intros k key w o w' [= H <-].
    destruct (Mem.stored w k key) eqn:E; simplify_eq. by apply Mem.stored_valid in E as [? _].
  - unfold Mem.get. intros k key w o w' [= H <-].
    destruct (Mem.stored w k key) eqn:E; simplify_eq. by apply Mem.stored_valid in E as [? _].
  - intros k opts w os w' [= <- _]. apply Forall_forall.
    intros o ([key o'] & -> & [[Hv _] _]%list_elem_of_filter)%list_elem_of_fmap. by apply Mem.valid_spec in Hv as [? _].
  - unfold Mem.create. intros o w o' w' H. split_matches. apply Mem.defaulted_spec.
  - unfold Mem.update. intros o w o' w' H. split_matches; apply Mem.defaulted_spec.
Defined.

#[export, refine] Instance MemCluster_quiet : QuietClient MemCluster := {| stored := Mem.stored |}.
Proof.
  - apply Mem.stored_valid.
  - intros w k key o Ho. cbn. unfold Mem.get. by rewrite Ho.
  - intros w k key Ho. cbn. unfold Mem.get. rewrite Ho. by eexists.
  - intros w o Ho. cbn. unfold Mem.create. rewrite Ho. eexists _, _.
    split; [done|]. split; [apply Mem.persisted_server|].
    destruct (Mem.defaulted_spec o) as (? & _ & ?). by apply Mem.stored_put_server.
  - intros w o o0 Ho Hv. cbn. unfold Mem.update. rewrite Ho, bool_decide_true by done.
    eexists _, _. split; [done|]. split; [apply Mem.persisted_server|].
    destruct (Mem.defaulted_spec o) as (? & _ & ?). by apply Mem.stored_put_server.
  - intros w k key o Ho. cbn. unfold Mem.delete_. rewrite Ho.
    destruct (Mem.stored_valid _ _ _ _ Ho) as (<- & <- & _ & Hr).
    destruct (Finalizers (o_meta o)); eexists; (split; [done|]).
    + split; [intros o'; by rewrite Mem.stored_remove_eq|].
      intros. by apply Mem.stored_remove_ne.
    + destruct (Mem.stored_put_server w o o (UID (o_meta o)) (Mem.version w)
        (Generation (o_meta o)) (Some (mc_clock w)) (Mem.version_nonempty w) Hr eq_refl) as [E1 E2].
      split; [|exact E2]. intros o' Ho'. rewrite E1 in Ho'. by simplify_eq.
Defined.

#[export] Instance MemCluster_prompt : PromptClient MemCluster.
Proof.
  intros w k key o w' Ho Hf. cbn. unfold Mem.delete_. rewrite (Ho : Mem.stored w k key = Some o), Hf.
  intros [= <-]. apply Mem.stored_remove_eq.
Qed.

#[export] Instance MemCluster_fresh : FreshClient MemCluster.
Proof. done. Qed.

#[export] Instance MemCluster_lists : ListingClient MemCluster.
Proof.
  intros w k opts. eexists. split; [done|]. split.
  - by eapply Mem.list_keys.
  - intros o. cbn. rewrite Mem.stored_lookup, list_elem_of_fmap. split.
    + intros ([[kn key] o'] & -> & [(Hv & Hk & Hs) Ho]%list_elem_of_filter). cbn in *.
      apply elem_of_map_to_list in Ho. apply Mem.valid_spec in Hv as Hv'. destruct Hv' as (_ & <- & _).
      by subst kn.
    + intros [[Ho Hv] Hs]. exists ((kind_name k, ObjectKeyFromObject o), o).
      by rewrite list_elem_of_filter, elem_of_map_to_list.
Qed.

#[export] Instance MemCluster_plain k : TCEq (bool_decide (k = KDeployment)) false -> PlainStore MemCluster k.
Proof.
  intros Hk. apply TCEq_eq, bool_decide_eq_false in Hk.
  assert (forall o, o_kind o = k -> Mem.defaulted o = o) as Hd.
  { intros o Ho. unfold Mem.defaulted. unfold o_kind in Ho. by destruct (o_body o). }
  split; intros o w o' w' Ho%Hd; cbn.
  - unfold Mem.create. rewrite Ho. intros Hc. by split_matches.
  - unfold Mem.update. rewrite Ho. intros Hc. by split_matches.
Qed.

#[export, refine] Instance MemCluster_ssp : QuietSSP MemCluster := {| stored_ssp := Mem.stored_ssp |}.
Proof.
  - apply Mem.stored_ssp_valid.
  - intros w key i Hi. cbn. unfold Mem.get_ssp. by rewrite Hi.
  - intros w key Hi. cbn. unfold Mem.get_ssp. rewrite Hi. by eexists.
  - intros w i i0 Hi _. cbn. unfold Mem.status_update_ssp. rewrite Hi.
    pose proof (Mem.stored_ssp_valid _ _ _ Hi) as Hk. eexists _, _. split_and!; try done.
    rewrite <- Hk. apply (Mem.stored_ssp_put w (with_ssp_status i0 (ssp_status i))).
  - intros w i i0 Hi _. cbn. unfold Mem.update_ssp. rewrite Hi.
    destruct (Finalizers (ssp_meta i)), (DeletionTimestamp (ssp_meta i)) eqn:Ed;
      rewrite ?Ed; cbn; eexists _, _; (split; [done|]; split; [done|]; split; [|done]);
      try exact (Mem.stored_ssp_put w (with_ssp_status i (ssp_status i0))).
    unfold Mem.stored_ssp. cbn. by rewrite lookup_delete_eq.
  - intros w i Hi. cbn. unfold Mem.status_update_ssp. rewrite Hi. eexists _, _. by split_and!.
  - intros w o o' w' key. cbn. unfold Mem.create. intros. by split_matches.
  - intros w o o' w' key. cbn. unfold Mem.update. intros. by split_matches.
  - intros w k okey w' key. cbn. unfold Mem.delete_. intros. by split_matches.
Defined.

(** The operator right after its start, on a given cluster. *)
Definition start (w : MemCluster) : OpSt MemCluster := mkOpSt w [] ∅ zeroSpec None 0.
