(* ===== verification/Common.v ===== *)
(** * Shared helpers of the operands (internal/common)

    The version cache, the application labels, ownership of created objects
    (owner references and owner annotations) and the reconciliation request. *)

From S2P Require Import Prelude GoRuntime KubeTypes SspTypes KubeClient.

(** ** Version cache (cache.go) *)

Module Cache.
(** The kind comes from the operator's scheme ([apiutil.GVKForObject]). *)
Definition cacheKeyFromObj (obj : Object) : cacheKey :=
  mkCacheKey (kind_name (o_kind obj)) (Name (o_meta obj)) (Namespace (o_meta obj)).

Definition Contains (v : VersionCache) (obj : Object) : bool :=
  match v !! cacheKeyFromObj obj with
  | None => false
  | Some cached =>
      if bool_decide (UID (o_meta obj) <> uid cached) then false
      else if bool_decide (Generation (o_meta obj) = 0)%Z then
        let objResourceVersion := ResourceVersion (o_meta obj) in
        bool_decide (objResourceVersion <> "") &&
        bool_decide (objResourceVersion = resourceVersion cached)
      else bool_decide (generation cached = Generation (o_meta obj))
  end.

Definition Add (v : VersionCache) (obj : Object) : VersionCache :=
  if bool_decide (kind_name (o_kind obj) = "") then v
  else <[cacheKeyFromObj obj := mkCacheValue (UID (o_meta obj)) (ResourceVersion (o_meta obj))
                                  (Generation (o_meta obj))]> v.

Definition RemoveObj (v : VersionCache) (obj : Object) : VersionCache :=
  delete (cacheKeyFromObj obj) v.

(** [b] is the version of [a] that the cache accepts as unchanged: the same
    object, at the same generation, or at the same resource version for kinds
    that have no generation. *)
Definition same_version (a b : Object) : Prop :=
  UID (o_meta a) = UID (o_meta b) /\
  if decide (Generation (o_meta a) = 0%Z)
  then ResourceVersion (o_meta a) <> "" /\ ResourceVersion (o_meta a) = ResourceVersion (o_meta b)
  else Generation (o_meta a) = Generation (o_meta b).

Lemma kind_name_nonempty k : kind_name k <> "".
Proof. by destruct k. Qed.

Lemma Add_insert v obj :
  Add v obj = <[cacheKeyFromObj obj := mkCacheValue (UID (o_meta obj))
                 (ResourceVersion (o_meta obj)) (Generation (o_meta obj))]> v.
Proof. unfold Add. by rewrite bool_decide_false by apply kind_name_nonempty. Qed.

Lemma Contains_Add v added obj :
  cacheKeyFromObj added = cacheKeyFromObj obj ->
  Contains (Add v added) obj = true <-> same_version obj added.
Proof.
  intros Hk. unfold Contains, same_version. rewrite Add_insert, Hk, lookup_insert_eq. cbn.
  case_bool_decide as Hu; [intuition done|].
  case_bool_decide as Hg; case_decide; rewrite ?andb_true_iff, ?bool_decide_eq_true;
    intuition congruence.
Qed.

Lemma Contains_Add_ne v added obj :
  cacheKeyFromObj added <> cacheKeyFromObj obj -> Contains (Add v added) obj = Contains v obj.
Proof. intros Hk. unfold Contains. by rewrite Add_insert, lookup_insert_ne. Qed.

Lemma Contains_RemoveObj v obj : Contains (RemoveObj v obj) obj = false.
Proof. unfold Contains, RemoveObj. by rewrite lookup_delete_eq. Qed.

Lemma Contains_empty obj : Contains ∅ obj = false.
Proof. done. Qed.
End Cache.

(** ** Application labels (labels.go) *)

Module Labels.
Definition AppKubernetesNameLabel : string := "app.kubernetes.io/name".
Definition AppKubernetesPartOfLabel : string := "app.kubernetes.io/part-of".
Definition AppKubernetesVersionLabel : string := "app.kubernetes.io/version".
Definition AppKubernetesManagedByLabel : string := "app.kubernetes.io/managed-by".
Definition AppKubernetesComponentLabel : string := "app.kubernetes.io/component".
Definition AppKubernetesManagedByValue : string := "ssp-operator".
Definition RequiredSCCAnnotationValue : string := "restricted-v2".

(** [type AppComponent string]: its constants, and the other strings. *)
Inductive AppComponent :=
| AppComponentMonitoring | AppComponentSchedule | AppComponentTemplating
| AppComponentVMDeletionProtection | AppComponentOf (s : string).

Definition component_string (a : AppComponent) : string :=
  match a with
  | AppComponentMonitoring => "monitoring"
  | AppComponentSchedule => "schedule"
  | AppComponentTemplating => "templating"
  | AppComponentVMDeletionProtection => "vmDeleteProtection"
  | AppComponentOf s => s
  end.

(** [copyLabel]: a missing label of the instance becomes an empty label. *)
Definition copyLabel (from : gomap) (to : smap) (key : string) : smap :=
  <[key := map_get from key]> to.

Definition addInstanceLabels (instance : SSP) (to : smap) : smap :=
  match KubeTypes.Labels (ssp_meta instance) with
  | None => to
  | Some ls =>
      copyLabel (Some ls) (copyLabel (Some ls) to AppKubernetesPartOfLabel)
        AppKubernetesVersionLabel
  end.

Definition addCommonLabels (labels : smap) (instance : SSP) (name : string)
    (component : AppComponent) : smap :=
  let labels := addInstanceLabels instance labels in
  let labels := <[AppKubernetesNameLabel := name]> labels in
  let labels := <[AppKubernetesComponentLabel := component_string component]> labels in
  <[AppKubernetesManagedByLabel := AppKubernetesManagedByValue]> labels.

(** [getOrCreateLabels] *)
Definition getOrCreateLabels (m : ObjectMeta) : smap := default ∅ (KubeTypes.Labels m).

Definition AddAppLabels (instance : SSP) (name : string) (component : AppComponent)
    (m : ObjectMeta) : ObjectMeta :=
  with_labels m (Some (addCommonLabels (getOrCreateLabels m) instance name component)).

Definition app_label_keys : list string :=
  [AppKubernetesNameLabel; AppKubernetesPartOfLabel; AppKubernetesVersionLabel;
   AppKubernetesManagedByLabel; AppKubernetesComponentLabel].

Lemma addCommonLabels_foreign labels instance name c k :
  k ∉ app_label_keys -> addCommonLabels labels instance name c !! k = labels !! k.
Proof.
  unfold app_label_keys. rewrite !not_elem_of_cons. intros (?&?&?&?&?&_).
  unfold addCommonLabels, addInstanceLabels, copyLabel.
  rewrite !lookup_insert_ne by done.
  destruct (KubeTypes.Labels (ssp_meta instance)); [by rewrite !lookup_insert_ne|done].
Qed.

Lemma addCommonLabels_idem labels instance name c :
  addCommonLabels (addCommonLabels labels instance name c) instance name c =
  addCommonLabels labels instance name c.
Proof.
  apply map_eq. intros k. unfold addCommonLabels, addInstanceLabels, copyLabel.
  destruct (KubeTypes.Labels (ssp_meta instance)); rewrite !lookup_insert;
    repeat case_decide; done.
Qed.

(** The labels that identify the operator's objects. *)
Lemma addCommonLabels_get labels instance name c :
  let ls := addCommonLabels labels instance name c in
  ls !! AppKubernetesNameLabel = Some name /\
  ls !! AppKubernetesComponentLabel = Some (component_string c) /\
  ls !! AppKubernetesManagedByLabel = Some AppKubernetesManagedByValue.
Proof.
  unfold addCommonLabels. cbn. split_and!.
  - rewrite !lookup_insert_ne by done. apply lookup_insert_eq.
  - rewrite lookup_insert_ne by done. apply lookup_insert_eq.
  - apply lookup_insert_eq.
Qed.
End Labels.

(** ** Ownership *)

Module Owner.
Definition NamespacedNameAnnotation : string := "operator-sdk/primary-resource".
Definition TypeAnnotation : string := "operator-sdk/primary-resource-type".

(** The group of [schema.ParseGroupVersion], which fails on more than one slash;
    the core group has no slash. *)
Definition parse_group (apiVersion : string) : option string :=
  if bool_decide (apiVersion = "") then Some ""
  else match Split slash apiVersion with
       | [_] => Some ""
       | [g; _] => Some g
       | _ => None
       end.

(** [schema.GroupKind.String] *)
Definition GroupKind_String (kind group : string) : string :=
  if bool_decide (group = "") then kind else kind +:+ "." +:+ group.

Definition owner_type (owner : SSP) : string :=
  GroupKind_String (tm_Kind (ssp_type owner)) (default "" (parse_group (tm_APIVersion (ssp_type owner)))).
Definition owner_name (owner : SSP) : string :=
  Namespace (ssp_meta owner) +:+ "/" +:+ Name (ssp_meta owner).

(** [libhandler.SetOwnerAnnotations] *)
Definition SetOwnerAnnotations (owner : SSP) (m : ObjectMeta) : outcome ObjectMeta :=
  if bool_decide (Name (ssp_meta owner) = "") then
    Err (EMsg "*v1beta3.SSP does not have a name, cannot call SetOwnerAnnotations")
  else if bool_decide (tm_Kind (ssp_type owner) = "") then
    Err (EMsg ("owner " +:+ Name (ssp_meta owner)
               +:+ " Kind not found, cannot call SetOwnerAnnotations"))
  else
    Ok (with_annotations m (Some
      (<[TypeAnnotation := owner_type owner]>
        (<[NamespacedNameAnnotation := owner_name owner]> (default ∅ (Annotations m)))))).

Definition validateOwner (owner : SSP) (m : ObjectMeta) : outcome unit :=
  let ownerNs := Namespace (ssp_meta owner) in
  if bool_decide (ownerNs = "") then Ok tt
  else if bool_decide (Namespace m = "") then
    Err (EMsg ("cluster-scoped resource must not have a namespace-scoped owner, owner's namespace "
               +:+ ownerNs))
  else if bool_decide (ownerNs <> Namespace m) then
    Err (EMsg ("cross-namespace owner references are disallowed, owner's namespace " +:+ ownerNs
               +:+ ", obj's namespace " +:+ Namespace m))
  else Ok tt.

(** The controller reference to an SSP; the scheme knows its group and kind. *)
Definition controller_ref (owner : SSP) : OwnerReference := {|
  or_APIVersion := GroupVersion;
  or_Kind := "SSP";
  or_Name := Name (ssp_meta owner);
  or_UID := UID (ssp_meta owner);
  or_Controller := Some true;
  or_BlockOwnerDeletion := Some true
|}.

Definition referSameObject (a b : OwnerReference) : bool :=
  match parse_group (or_APIVersion a), parse_group (or_APIVersion b) with
  | Some ga, Some gb =>
      bool_decide (ga = gb) && bool_decide (or_Kind a = or_Kind b) &&
      bool_decide (or_Name a = or_Name b)
  | _, _ => false
  end.

(** [metav1.GetControllerOf] *)
Definition GetControllerOf (m : ObjectMeta) : option OwnerReference :=
  find_first (fun r => bool_decide (or_Controller r = Some true)) (OwnerReferences m).

(** [upsertOwnerRef]: replaces the first reference to the same object. *)
Fixpoint upsertOwnerRef (ref : OwnerReference) (owners : list OwnerReference)
    : list OwnerReference :=
  match owners with
  | [] => [ref]
  | r :: owners' =>
      if referSameObject r ref then ref :: owners' else r :: upsertOwnerRef ref owners'
  end.

(** [controllerutil.SetControllerReference] *)
Definition SetControllerReference (owner : SSP) (m : ObjectMeta) : outcome ObjectMeta :=
  _ ← validateOwner owner m;
  let ref := controller_ref owner in
  match GetControllerOf m with
  | Some existing =>
      if negb (referSameObject existing ref) then
        Err (EMsg ("Object " +:+ Namespace m +:+ "/" +:+ Name m +:+ " is already owned by another "
                   +:+ or_Kind existing +:+ " controller " +:+ or_Name existing))
      else Ok (with_owners m (upsertOwnerRef ref (OwnerReferences m)))
  | None => Ok (with_owners m (upsertOwnerRef ref (OwnerReferences m)))
  end.

(** [CheckOwnerAnnotation] (owner.go) *)
Definition CheckOwnerAnnotation (m : ObjectMeta) (owner : SSP) : bool :=
  match Annotations m with
  | None => false
  | Some annotations =>
      match annotations !! TypeAnnotation with
      | Some typeVal =>
          if bool_decide (typeVal <> owner_type owner) then false
          else match annotations !! NamespacedNameAnnotation with
               | Some v => bool_decide (v = NamespacedName_String (ssp_key owner))
               | None => false
               end
      | None => false
      end
  end.

Lemma annotations_ne : TypeAnnotation <> NamespacedNameAnnotation.
Proof. done. Qed.

Lemma SetOwnerAnnotations_Ok owner m m' :
  SetOwnerAnnotations owner m = Ok m' ->
  m' = with_annotations m (Some
      (<[TypeAnnotation := owner_type owner]>
        (<[NamespacedNameAnnotation := owner_name owner]> (default ∅ (Annotations m))))).
Proof. unfold SetOwnerAnnotations. intros. by split_matches. Qed.

(** An object annotated for an owner is recognised as owned by it. *)
Lemma CheckOwnerAnnotation_SetOwnerAnnotations owner m m' :
  SetOwnerAnnotations owner m = Ok m' -> CheckOwnerAnnotation m' owner = true.
Proof.
  intros ->%SetOwnerAnnotations_Ok. unfold CheckOwnerAnnotation. cbn.
  rewrite lookup_insert_eq, bool_decide_false by naive_solver.
  rewrite lookup_insert_ne, lookup_insert_eq by done. by rewrite bool_decide_true.
Qed.

Lemma CheckOwnerAnnotation_true m owner :
  CheckOwnerAnnotation m owner = true <->
  (Annotations m ≫= lookup TypeAnnotation) = Some (owner_type owner) /\
  (Annotations m ≫= lookup NamespacedNameAnnotation) = Some (owner_name owner).
Proof.
  unfold CheckOwnerAnnotation, owner_name, NamespacedName_String, ssp_key.
  destruct (Annotations m) as [a|]; cbn; [|naive_solver].
  destruct (a !! TypeAnnotation) as [t|]; [|naive_solver].
  destruct (a !! NamespacedNameAnnotation) as [n|]; repeat case_bool_decide; naive_solver.
Qed.

Lemma upsert_in ref owners : ref ∈ upsertOwnerRef ref owners.
Proof. induction owners as [|r owners IH]; cbn; [set_solver|]. destruct (referSameObject _ _); set_solver. Qed.

Lemma referSameObject_refl r : is_Some (parse_group (or_APIVersion r)) -> referSameObject r r = true.
Proof.
  intros [g Hg]. unfold referSameObject. rewrite Hg.
  by rewrite !bool_decide_true.
Qed.

Lemma controller_ref_same owner : referSameObject (controller_ref owner) (controller_ref owner) = true.
Proof. apply referSameObject_refl. by eexists. Qed.
End Owner.

(** ** Requests (request.go, owner.go) *)

(** The view of the CRD watch that a reconciliation uses
    ([crd_watch.CrdList]). *)
Record CrdList := mkCrdList { existingCrds : list string; missingCrds : list string }.

Definition CrdExists (l : CrdList) (crd : string) : bool := contains (existingCrds l) crd.

Record Request := mkRequest {
  NamespacedName : ObjectKey;
  Instance : SSP;
  InstanceChanged : bool;
  TopologyMode : string;
  req_CrdList : CrdList;
  OLMDeployment : bool;
  SSPServiceHostname : string
}.

Definition SingleReplicaTopologyMode : string := "SingleReplica".

Definition IsSingleReplicaTopologyMode (r : Request) : bool :=
  bool_decide (TopologyMode r = SingleReplicaTopologyMode).

(** The request after its instance was written. *)
Definition with_instance (r : Request) (i : SSP) : Request :=
  mkRequest (NamespacedName r) i (InstanceChanged r) (TopologyMode r) (req_CrdList r)
    (OLMDeployment r) (SSPServiceHostname r).

Section owned.
Context `{Client W}.

(** [ListOwnedResources]: the objects of a kind annotated with this SSP. *)
Definition ListOwnedResources (k : Kind) (request : Request) (opts : ListOptions)
    : Op W (list Object) :=
  items ← List k opts;
  mret (filter (fun o => Owner.CheckOwnerAnnotation (o_meta o) (Instance request) = true) items).
End owned.
