(* ===== verification/Samples.v ===== *)
(** * Concrete inputs

    An SSP resource, a request and a few objects on which the theorems of the
    development are instantiated. *)

From S2P Require Import Prelude GoRuntime KubeTypes SspTypes KubeClient Cluster Common Architecture.

Module Samples.
Definition process : Process := {|
  LookupEnv := fun k =>
    if bool_decide (k = Env.OperatorVersionKey) then Some "v0.24.0"
    else if bool_decide (k = Env.podNamespaceKey) then Some "kubevirt"
    else None;
  GOARCH := "amd64"
|}.

Definition sspMeta : ObjectMeta :=
  with_finalizers
    (with_labels (with_server (newMeta "ssp" "kubevirt") "uid-ssp" "1" 1 None)
       (Some {[ Labels.AppKubernetesPartOfLabel := "hyperconverged";
                Labels.AppKubernetesVersionLabel := "1.0" ]}))
    ["ssp.kubevirt.io/finalizer"].

Definition spec : SSPSpec :=
  mkSSPSpec None None
    (Some (mkCluster ["amd64"; "arm64"] ["amd64"]))
    (mkCommonTemplates "openshift" []) None None.

Definition ssp : SSP :=
  mkSSP (mkTypeMeta "SSP" GroupVersion) sspMeta spec
    (with_phase zeroStatus PhaseDeploying).

Definition request : Request :=
  mkRequest (ssp_key ssp) ssp false "HighlyAvailable" (mkCrdList [] []) false "ssp-service".

(** An object in the namespace of the SSP, and a cluster-scoped one. *)
Definition configMap : Object :=
  mkObject (mkTypeMeta "" "") (newMeta "settings" "kubevirt")
    (ConfigMap None (Some {[ "key" := "value" ]}) None).
Definition clusterRole : Object :=
  mkObject (mkTypeMeta "" "") (newMeta "reader" "")
    (ClusterRole [mkRule [""] ["pods"] ["get"]]).

(** An empty cluster that holds the SSP only. *)
Definition cluster : MemCluster := Mem.put_ssp ssp Mem.empty.
End Samples.
