(* ===== verification/CrdWatch.v ===== *)
(** * The CRD watch (internal/crd-watch/crd-watch.go)

    Keeps the sets of existing and missing custom resource definitions and
    calls a handler when the last missing one appears or the first required one
    disappears. Informer events and list answers arrive in any order; every
    handler runs under the lock, so an execution is a sequence of steps. *)

From S2P Require Import Prelude GoRuntime KubeTypes SspTypes KubeClient Common.

Module CrdWatch.
(** The callbacks that were called, in order. *)
Inductive HandlerCall := AllCrdsAdded | SomeCrdRemoved.

#[export] Instance HandlerCall_eq_dec : EqDecision HandlerCall.
Proof. solve_decision. Defined.

Record CrdWatch := mkCrdWatch {
  AllCrdsAddedHandler : bool; (* set, i.e. not nil *)
  SomeCrdRemovedHandler : bool;
  requiredCrds : gset string;
  existingCrds : gset string;
  missingCrds : gset string;
  initialized : bool;
  calls : list HandlerCall
}.

Definition New (required : list string) : CrdWatch :=
  mkCrdWatch false false (list_to_set required) ∅ (list_to_set required) false [].

Definition with_sets (c : CrdWatch) (existing missing : gset string) : CrdWatch :=
  mkCrdWatch (AllCrdsAddedHandler c) (SomeCrdRemovedHandler c) (requiredCrds c)
    existing missing (initialized c) (calls c).
Definition called (c : CrdWatch) (h : HandlerCall) : CrdWatch :=
  mkCrdWatch (AllCrdsAddedHandler c) (SomeCrdRemovedHandler c) (requiredCrds c)
    (existingCrds c) (missingCrds c) (initialized c) (calls c ++ [h]).
Definition set_initialized (c : CrdWatch) : CrdWatch :=
  mkCrdWatch (AllCrdsAddedHandler c) (SomeCrdRemovedHandler c) (requiredCrds c)
    (existingCrds c) (missingCrds c) true (calls c).
(** [crdWatch.AllCrdsAddedHandler = ...] and [SomeCrdRemovedHandler = ...] *)
Definition set_handlers (c : CrdWatch) : CrdWatch :=
  mkCrdWatch true true (requiredCrds c) (existingCrds c) (missingCrds c) (initialized c) (calls c).

Definition CrdExists (c : CrdWatch) (crdName : string) : outcome bool :=
  if negb (initialized c) then Panic "crd watch not initialized"
  else Ok (bool_decide (crdName ∈ existingCrds c)).

(** Ranges over the set of missing names in any order. *)
Definition MissingCrds `{SetRange} (c : CrdWatch) : outcome (list string) :=
  if negb (initialized c) then Panic "crd watch not initialized"
  else Ok (set_range (missingCrds c)).

Definition crdAdded (c : CrdWatch) (crdName : string) : CrdWatch :=
  let missingCountOld := size (missingCrds c) in
  let c := with_sets c ({[crdName]} ∪ existingCrds c) (missingCrds c ∖ {[crdName]}) in
  if negb (initialized c) || negb (AllCrdsAddedHandler c) then c
  else if bool_decide (missingCountOld = 1) && bool_decide (size (missingCrds c) = 0)
  then called c AllCrdsAdded
  else c.

Definition crdDeleted (c : CrdWatch) (crdName : string) : CrdWatch :=
  let c := with_sets c (existingCrds c ∖ {[crdName]}) (missingCrds c) in
  if bool_decide (crdName ∉ requiredCrds c) then c
  else
    let missingCountOld := size (missingCrds c) in
    let c := with_sets c (existingCrds c) ({[crdName]} ∪ missingCrds c) in
    if negb (initialized c) || negb (SomeCrdRemovedHandler c) then c
    else if bool_decide (missingCountOld = 0) then called c SomeCrdRemoved
    else c.

(** [sync]: [listed] is the answer of [reader.List]; the two loops over maps
    visit the names in any order. *)
Definition sync `{SetRange} (c : CrdWatch) (listed : error + list string) : outcome CrdWatch :=
  match listed with
  | inl err => Err (EWrap "failed to list CRDs: " err)
  | inr names =>
      let newCrds : gset string := list_to_set names in
      let addedCrds := set_range (newCrds ∖ existingCrds c) in
      let deletedCrds := set_range (existingCrds c ∖ newCrds) in
      Ok (foldl crdDeleted (foldl crdAdded c addedCrds) deletedCrds)
  end.

Definition Init `{SetRange} (c : CrdWatch) (listed : error + list string) : outcome CrdWatch :=
  c ← sync c listed; mret (set_initialized c).

(** The object that an informer hands to [DeleteFunc]: the last known state,
    or a tombstone when the deletion itself was missed. *)
Inductive DeletedObj := PartialObjectMetadata (name : string) | DeletedFinalStateUnknown (key : string).

Definition DeleteFunc (c : CrdWatch) (obj : DeletedObj) : outcome CrdWatch :=
  match obj with
  | PartialObjectMetadata name => Ok (crdDeleted c name)
  | DeletedFinalStateUnknown _ =>
      Panic "interface conversion: interface {} is cache.DeletedFinalStateUnknown, not *v1.PartialObjectMetadata"
  end.

(** What a reconciliation sees of the watch. *)
Definition view `{SetRange} (c : CrdWatch) : CrdList :=
  mkCrdList (set_range (existingCrds c)) (set_range (missingCrds c)).

(** ** Executions *)

Section executions.
Context `{SetRange}.

Inductive step : CrdWatch -> CrdWatch -> Prop :=
| step_add c name : step c (crdAdded c name)
| step_delete c obj c' : DeleteFunc c obj = Ok c' -> step c c'
| step_sync c listed c' : sync c listed = Ok c' -> step c c'
| step_init c listed c' : Init c listed = Ok c' -> step c c'
| step_handlers c : step c (set_handlers c).

Inductive reachable (required : list string) : CrdWatch -> Prop :=
| reachable_new : reachable required (New required)
| reachable_step c c' : reachable required c -> step c c' -> reachable required c'.

(** The invariant: the missing CRDs are the required ones that do not exist. *)
Definition inv (c : CrdWatch) : Prop := missingCrds c = requiredCrds c ∖ existingCrds c.

Lemma crdAdded_sets c n :
  existingCrds (crdAdded c n) = {[n]} ∪ existingCrds c /\
  missingCrds (crdAdded c n) = missingCrds c ∖ {[n]} /\
  requiredCrds (crdAdded c n) = requiredCrds c.
Proof. unfold crdAdded. by repeat case_match. Qed.

Lemma crdDeleted_sets c n :
  existingCrds (crdDeleted c n) = existingCrds c ∖ {[n]} /\
  missingCrds (crdDeleted c n) =
    (if bool_decide (n ∈ requiredCrds c) then {[n]} ∪ missingCrds c else missingCrds c) /\
  requiredCrds (crdDeleted c n) = requiredCrds c.
Proof.
  unfold crdDeleted. cbn. destruct (decide (n ∈ requiredCrds c)) as [Hn|Hn].
  - rewrite (bool_decide_true (n ∈ _)), bool_decide_false by naive_solver.
    by repeat case_match.
  - by rewrite (bool_decide_false (n ∈ _)), bool_decide_true.
Qed.

Lemma inv_crdAdded c n : inv c -> inv (crdAdded c n).
Proof.
  unfold inv. destruct (crdAdded_sets c n) as (-> & -> & ->). intros ->. set_solver.
Qed.

Lemma inv_crdDeleted c n : inv c -> inv (crdDeleted c n).
Proof.
  unfold inv. destruct (crdDeleted_sets c n) as (-> & -> & ->). intros ->.
  case_bool_decide; [|set_solver]. apply leibniz_equiv. intros x.
  destruct (decide (x = n)); set_solver.
Qed.

Lemma foldl_keeps {A} (P : CrdWatch -> Prop) (f : CrdWatch -> A -> CrdWatch) l c :
  (forall c x, P c -> P (f c x)) -> P c -> P (foldl f c l).
Proof. intros Hf. revert c. induction l as [|x l IH]; intros c Hc; cbn; auto. Qed.

Lemma sync_fold c listed c' :
  sync c listed = Ok c' -> exists names, listed = inr names /\
    c' = foldl crdDeleted
           (foldl crdAdded c (set_range ((list_to_set names : gset string) ∖ existingCrds c)))
           (set_range (existingCrds c ∖ list_to_set names)).
Proof. destruct listed as [|names]; cbn; [done|]. intros [= <-]. eauto. Qed.

Lemma inv_sync c listed c' : inv c -> sync c listed = Ok c' -> inv c'.
Proof.
  intros Hc (names & _ & ->)%sync_fold.
  apply foldl_keeps; [apply inv_crdDeleted|]. apply foldl_keeps; [apply inv_crdAdded|done].
Qed.

Lemma inv_step c c' : inv c -> step c c' -> inv c'.
Proof.
  intros Hc. destruct 1 as [| c obj ? Hd| c l ? Hs| c l ? Hi|].
  - by apply inv_crdAdded.
  - destruct obj; simplify_eq/=. by apply inv_crdDeleted.
  - by eapply inv_sync.
  - apply outcome_bind_Ok in Hi as (c1 & Hs & [= <-]). by apply (inv_sync _ _ _ Hc Hs).
  - done.
Qed.

(** C14: in every execution, whatever the order of informer events, lists and
    handler registration, the missing CRDs are exactly the required ones that
    are not known to exist. *)
Theorem missing_invariant required c : reachable required c -> inv c.
Proof.
  induction 1 as [|c c' _ IH Hs]; [|by eapply inv_step].
  unfold inv, New. cbn. set_solver.
Qed.

Lemma required_foldl f l c :
  (forall c (n : string), requiredCrds (f c n) = requiredCrds c) ->
  requiredCrds (foldl f c l) = requiredCrds c.
Proof.
  intros Hf. revert c. induction l as [|x l IH]; intros c; cbn; [done|]. by rewrite IH, Hf.
Qed.

Lemma existing_foldl_added l c :
  existingCrds (foldl crdAdded c l) = list_to_set l ∪ existingCrds c.
Proof.
  revert c. induction l as [|x l IH]; intros c; cbn; [set_solver|].
  rewrite IH. destruct (crdAdded_sets c x) as (-> & _). set_solver.
Qed.

Lemma existing_foldl_deleted l c :
  existingCrds (foldl crdDeleted c l) = existingCrds c ∖ list_to_set l.
Proof.
  revert c. induction l as [|x l IH]; intros c; cbn; [set_solver|].
  rewrite IH. destruct (crdDeleted_sets c x) as (-> & _). set_solver.
Qed.

(** a synchronisation makes the set of existing CRDs equal to the listed
    one, whatever was believed before. *)
Lemma sync_existing c names c' :
  sync c (inr names) = Ok c' -> existingCrds c' = list_to_set names.
Proof.
  intros (names' & [= <-] & ->)%sync_fold.
  rewrite existing_foldl_deleted, existing_foldl_added, !list_to_set_range.
  apply leibniz_equiv. intros x.
  destruct (decide (x ∈ (list_to_set names : gset string))), (decide (x ∈ existingCrds c)); set_solver.
Qed.

(** The number of required CRDs that are missing: zero or not. *)
Definition complete (c : CrdWatch) : bool := bool_decide (missingCrds c = ∅).

Lemma size_zero (X : gset string) : bool_decide (size X = 0) = bool_decide (X = ∅).
Proof. apply bool_decide_ext. by rewrite size_empty_iff, leibniz_equiv_iff. Qed.

Lemma difference_singleton_empty (X : gset string) n :
  X <> ∅ -> X ∖ {[n]} = ∅ -> X = {[n]}.
Proof.
  intros Hne He. assert (Hsub : X ⊆ {[n]}).
  { intros x Hx. apply elem_of_singleton. destruct (decide (x = n)) as [|Hxn]; [done|].
    exfalso. apply (not_elem_of_empty (C := gset string) x). rewrite <- He.
    by rewrite elem_of_difference, elem_of_singleton. }
  apply set_eq. intros x. split; [apply Hsub|]. intros ->%elem_of_singleton.
  destruct (set_choose_L X Hne) as [y Hy]. by rewrite (proj1 (elem_of_singleton y n) (Hsub y Hy)) in Hy.
Qed.

Lemma handlers_fire c n :
  initialized c = true -> AllCrdsAddedHandler c = true -> SomeCrdRemovedHandler c = true ->
  inv c ->
  calls (crdAdded c n) =
    calls c ++ (if negb (complete c) && complete (crdAdded c n) then [AllCrdsAdded] else []) /\
  calls (crdDeleted c n) =
    calls c ++ (if complete c && negb (complete (crdDeleted c n)) then [SomeCrdRemoved] else []).
Proof.
  intros Hi Ha Hs Hinv. split.
  - unfold complete. destruct (crdAdded_sets c n) as (_ & -> & _).
    unfold crdAdded. cbn. rewrite Hi, Ha. cbn. rewrite size_zero.
    destruct (decide (missingCrds c = ∅)) as [E|E].
    + rewrite E, size_empty. cbn. rewrite (bool_decide_true (∅ = ∅)) by done. cbn.
      by rewrite app_nil_r.
    + rewrite (bool_decide_false (missingCrds c = ∅)) by done. cbn.
      destruct (decide (missingCrds c ∖ {[n]} = ∅)) as [E'|E'].
      * assert (Hsz : missingCrds c = {[n]}) by by apply difference_singleton_empty.
        rewrite (bool_decide_true (_ ∖ _ = ∅)), bool_decide_true; [done| |done].
        rewrite Hsz. apply size_singleton.
      * rewrite (bool_decide_false (_ ∖ _ = ∅)), andb_false_r by done. by rewrite app_nil_r.
  - unfold complete. destruct (crdDeleted_sets c n) as (_ & -> & _).
    unfold crdDeleted. cbn. rewrite Hi, Hs. cbn.
    destruct (decide (n ∈ requiredCrds c)) as [Hn|Hn].
    + rewrite (bool_decide_true (n ∈ _)), (bool_decide_false (n ∉ _)) by naive_solver.
      rewrite size_zero, (bool_decide_false ({[n]} ∪ _ = ∅)) by set_solver. cbn.
      rewrite andb_true_r. case_bool_decide; [done|]. by rewrite app_nil_r.
    + rewrite (bool_decide_false (n ∈ _)), (bool_decide_true (n ∉ _)) by naive_solver.
      rewrite andb_negb_r. by rewrite app_nil_r.
Qed.

(** with handlers registered on an initialised watch, adding a CRD calls
    exactly the handler for completion, and only when the set becomes
    complete with it; removing one calls the other, and only when the set was
    complete. *)
Theorem handlers_fire_on_transitions c n :
  initialized c = true -> AllCrdsAddedHandler c = true -> SomeCrdRemovedHandler c = true ->
  inv c ->
  calls (crdAdded c n) =
    calls c ++ (if negb (complete c) && complete (crdAdded c n) then [AllCrdsAdded] else []) /\
  calls (crdDeleted c n) =
    calls c ++ (if complete c && negb (complete (crdDeleted c n)) then [SomeCrdRemoved] else []).
Proof. apply handlers_fire. Qed.

(** an informer tombstone makes the delete handler panic. *)
Theorem DeleteFunc_tombstone c key :
  exists msg, DeleteFunc c (DeletedFinalStateUnknown key) = Panic msg.
Proof. by eexists. Qed.
End executions.

Module CrdWitness.
Definition w0 : CrdWatch := New ["a"; "b"].
Definition w1 : CrdWatch := crdAdded (set_handlers (set_initialized w0)) "a".

Lemma missing_invariant_witness : inv (crdAdded w0 "a").
Proof.
  apply (@missing_invariant sorted_set_range ["a"; "b"]).
  eapply reachable_step; [apply reachable_new|apply step_add].
Defined.

Lemma sync_existing_witness :
  existingCrds (foldl crdDeleted (foldl crdAdded w0 ["x"]) []) = {["x"]}.
Proof.
  apply (@sync_existing sorted_set_range w0 ["x"]). by vm_compute.
Defined.

Lemma handlers_fire_on_transitions_witness :
  calls (crdAdded w1 "b") = [AllCrdsAdded] /\ calls (crdDeleted w1 "b") = [].
Proof.
  destruct (handlers_fire_on_transitions w1 "b") as [H1 H2]; [done..|by vm_compute|].
  rewrite H1, H2. by vm_compute.
Defined.
End CrdWitness.
End CrdWatch.
