(* ===== verification/CrdWatchStart.v ===== *)
(** * The CRD watch next to its informer (crd-watch.go, [Start] and [sync])

    [Start] registers handlers with an informer, which then calls them from its
    own goroutine, and brings the watch up to date with a list of the informer's
    store. The list is read before the lock of the watch is taken, so the
    handlers may run in between. An execution is a sequence of the atomic steps:
    the store changes, an event is handed to a handler, the list is read, the
    result is merged under the lock. *)

From stdpp Require Import relations.
From S2P Require Import Prelude GoRuntime KubeTypes SspTypes KubeClient Common CrdWatch.

Module CrdWatchStart.
Import CrdWatch.

Inductive CrdEvent := Added (name : string) | Removed (name : string).

#[export] Instance CrdEvent_eq_dec : EqDecision CrdEvent.
Proof. solve_decision. Defined.

Definition event_name (e : CrdEvent) : string := match e with Added n | Removed n => n end.

(** [AddFunc] and [DeleteFunc] *)
Definition deliver (c : CrdWatch) (e : CrdEvent) : outcome CrdWatch :=
  match e with
  | Added n => Ok (crdAdded c n)
  | Removed n => DeleteFunc c (PartialObjectMetadata n)
  end.

Definition store_event (X : gset string) (e : CrdEvent) : gset string :=
  match e with Added n => {[n]} ∪ X | Removed n => X ∖ {[n]} end.

Record Sys := mkSys {
  store : gset string; (* the informer's store *)
  queue : list CrdEvent; (* events that the handlers have not seen yet *)
  (* [sync] between [List] and the lock: the answer, and how many of the queued
     events are older than it *)
  listed : option (gset string * nat);
  synced : bool;
  watch : CrdWatch
}.

(** [AddEventHandler] announces every object of the store to the new handler. *)
Definition started (X : gset string) (c : CrdWatch) : Sys :=
  mkSys X (Added <$> elements X) None false c.

Definition covered (s : Sys) : Prop :=
  match listed s with Some (_, k) => 0 < k | None => True end.

Section executions.
Context `{SetRange}.

(** With [ordered] set, no event that is newer than the list is handed to a
    handler before the list is merged; the code does not ensure that. *)
Inductive step (ordered : bool) : Sys -> Sys -> Prop :=
| step_create s n : n ∉ store s ->
    step ordered s (mkSys (store_event (store s) (Added n)) (queue s ++ [Added n]) (listed s) (synced s) (watch s))
| step_remove s n : n ∈ store s ->
    step ordered s (mkSys (store_event (store s) (Removed n)) (queue s ++ [Removed n]) (listed s) (synced s) (watch s))
| step_deliver s e q c : queue s = e :: q -> deliver (watch s) e = Ok c ->
    (ordered = true -> covered s) ->
    step ordered s (mkSys (store s) q (prod_map id pred <$> listed s) (synced s) c)
| step_list s : listed s = None -> synced s = false ->
    step ordered s (mkSys (store s) (queue s) (Some (store s, List.length (queue s))) false (watch s))
| step_merge s L k names c : listed s = Some (L, k) -> list_to_set names = L ->
    sync (watch s) (inr names) = Ok c ->
    step ordered s (mkSys (store s) (queue s) None true c).

(** ** The watch is exact when the list is not overtaken *)

(** What the last event about a name says. *)
Definition verdict (n : string) (q : list CrdEvent) : option CrdEvent :=
  last (filter (fun e => event_name e = n) q).

Lemma verdict_snoc n q e :
  verdict n (q ++ [e]) = if decide (event_name e = n) then Some e else verdict n q.
Proof.
  unfold verdict. rewrite filter_app, filter_cons, filter_nil.
  destruct (decide _); [by rewrite last_snoc|by rewrite app_nil_r].
Qed.

Lemma verdict_cons n e q d : verdict n q = Some d -> verdict n (e :: q) = Some d.
Proof.
  unfold verdict. rewrite filter_cons. intros Hd. destruct (decide _); [|done].
  rewrite last_cons. by rewrite Hd.
Qed.

Lemma verdict_name n q e : verdict n q = Some e -> event_name e = n.
Proof.
  unfold verdict. intros He%last_Some_elem_of. by apply list_elem_of_filter in He as [? _].
Qed.

(** Replaying events over a set that already reflects them changes nothing. *)
Definition reflects (q : list CrdEvent) (X : gset string) : Prop :=
  forall n e, verdict n q = Some e -> (n ∈ X <-> e = Added n).

Lemma elem_of_replay n q X :
  n ∈ foldl store_event X q <->
  match verdict n q with Some e => e = Added n | None => n ∈ X end.
Proof.
  induction q as [|e q IH] using rev_ind; [done|]. rewrite foldl_snoc, verdict_snoc.
  destruct e as [m|m]; cbn; (destruct (decide (m = n)) as [->|Hm]); set_solver.
Qed.

Lemma replay_same q X : reflects q X -> foldl store_event X q = X.
Proof.
  intros Hr. apply set_eq. intros n. rewrite elem_of_replay.
  destruct (verdict n q) as [e|] eqn:E; [|done]. by rewrite (Hr n e E).
Qed.

Lemma reflects_tail e q X : reflects (e :: q) X -> reflects q X.
Proof. intros Hr n d Hd. by apply Hr, verdict_cons. Qed.

Lemma reflects_snoc e q X : reflects q X -> reflects (q ++ [e]) (store_event X e).
Proof.
  intros Hr n d. rewrite verdict_snoc. case_decide as En.
  - intros [= <-]. destruct e; cbn in En |- *; subst; set_solver.
  - intros Hd. rewrite <- (Hr n d Hd). destruct e; cbn in *; set_solver.
Qed.

Lemma deliver_existing c e c' :
  deliver c e = Ok c' -> existingCrds c' = store_event (existingCrds c) e.
Proof.
  destruct e; cbn; intros [= <-]; [apply crdAdded_sets|apply crdDeleted_sets].
Qed.

Lemma rtc_keeps (P : Sys -> Prop) (R : Sys -> Sys -> Prop) x y :
  (forall a b, P a -> R a b -> P b) -> P x -> rtc R x y -> P y.
Proof. intros Hstep Hx. induction 1; eauto. Qed.

Definition good (s : Sys) : Prop :=
  reflects (queue s) (store s) /\
  match listed s with
  | Some (L, k) => (k <= List.length (queue s))%nat /\ reflects (take k (queue s)) L /\
                   foldl store_event L (skipn k (queue s)) = store s
  | None => synced s = true -> foldl store_event (existingCrds (watch s)) (queue s) = store s
  end.

Lemma good_started X c : good (started X c).
Proof.
  split; [|done]. cbn. intros n e He. pose proof (verdict_name _ _ _ He) as Hn.
  unfold verdict in He. apply last_Some_elem_of, list_elem_of_filter in He as [_ He].
  apply list_elem_of_fmap in He as (m & -> & Hm). cbn in Hn. subst. rewrite elem_of_elements in Hm.
  by split.
Qed.

Lemma good_changed s e :
  good s -> good (mkSys (store_event (store s) e) (queue s ++ [e]) (listed s) (synced s) (watch s)).
Proof.
  intros [Hr Hl]. split; [by apply reflects_snoc|]. cbn. destruct (listed s) as [[L k]|].
  - destruct Hl as (Hk & HL & Hs). rewrite length_app, take_app_le, drop_app_le by lia.
    split_and!; [lia|done|]. by rewrite foldl_snoc, Hs.
  - intros Hs. by rewrite foldl_snoc, Hl.
Qed.

Lemma start_good_step s s' : good s -> step true s s' -> good s'.
Proof.
  intros Hg. destruct 1 as [s n Hn|s n Hn|s e q c Hq Hd Ho|s Hl Hs|s L k names c Hl HL Hs].
  - by apply good_changed.
  - by apply good_changed.
  - destruct Hg as [Hr Hg]. rewrite Hq in *. split; [by eapply reflects_tail|]. cbn.
    specialize (Ho eq_refl). unfold covered in Ho. destruct (listed s) as [[L [|k]]|]; cbn in *; [lia| |].
    + destruct Hg as (Hk & HL & Hs). split_and!; [lia| |done]. by eapply reflects_tail.
    + intros Hs. by rewrite (deliver_existing _ _ _ Hd), Hg.
  - destruct Hg as [Hr _]. split; [done|]. cbn. rewrite take_ge, drop_ge by lia. split_and!; [lia|done|done].
  - destruct Hg as [Hr Hg]. split; [done|]. cbn. intros _. rewrite Hl in Hg.
    destruct Hg as (Hk & HR & He). rewrite (sync_existing _ _ _ Hs), HL.
    rewrite <- (take_drop k (queue s)), foldl_app, (replay_same (take k (queue s))) by done. done.
Qed.

(** C16: if no handler overtakes the list that [Start] reads, then at every later
    moment at which the handlers have seen all events, the watch knows exactly
    the CRDs of the store, and reports exactly the required ones that are not
    there. *)
Theorem start_exact X c s :
  inv c -> rtc (step true) (started X c) s -> synced s = true -> listed s = None -> queue s = [] ->
  existingCrds (watch s) = store s /\ missingCrds (watch s) = requiredCrds (watch s) ∖ store s.
Proof.
  intros Hc Hs Hy Hl Hq.
  assert (good s) as [_ Hg] by (eapply rtc_keeps; [apply start_good_step|apply good_started|done]).
  rewrite Hl, Hq in Hg. specialize (Hg Hy). cbn in Hg. split; [done|].
  assert (inv (watch s)) as ->; [|by rewrite Hg].
  apply (rtc_keeps (fun s => inv (watch s)) (step true) (started X c)); [|done|done].
  intros s1 s2 H1 H2. destruct H2 as [| |? e ? ? _ Hd| |? ? ? ? ? _ _ Hm]; cbn in *; try done.
  - destruct e; cbn in Hd; simplify_eq; [by apply inv_crdAdded|by apply inv_crdDeleted].
  - exact (inv_sync _ (inr names) _ H1 Hm).
Qed.
End executions.

(** ** The list can be overtaken *)

Module Race.
#[local] Existing Instance sorted_set_range.

(** The operator requires two CRDs; neither exists when it starts. *)
Definition initial : CrdWatch := set_initialized (set_handlers (New ["a"; "b"])).

(** The list is read, the first CRD appears and its handler runs, and only then
    the list is merged, which takes the CRD for deleted. *)
Definition overtaken : CrdWatch :=
  match sync (crdAdded initial "a") (inr []) with Ok c => c | _ => initial end.
Definition final : CrdWatch := crdAdded overtaken "b".

Definition s0 : Sys := started ∅ initial.
Definition s1 : Sys := mkSys ∅ [] (Some (∅, 0)) false initial.
Definition s2 : Sys := mkSys (store_event ∅ (Added "a")) [Added "a"] (Some (∅, 0)) false initial.
Definition s3 : Sys := mkSys (store_event ∅ (Added "a")) [] (Some (∅, 0)) false (crdAdded initial "a").
Definition s4 : Sys := mkSys (store_event ∅ (Added "a")) [] None true overtaken.
Definition s5 : Sys :=
  mkSys (store_event (store_event ∅ (Added "a")) (Added "b")) [Added "b"] None true overtaken.
Definition s6 : Sys :=
  mkSys (store_event (store_event ∅ (Added "a")) (Added "b")) [] None true final.

Lemma overtaken_execution : rtc (step false) s0 s6.
Proof.
  eapply rtc_l; [exact (step_list false s0 eq_refl eq_refl)|].
  eapply rtc_l; [apply (step_create false s1 "a"); cbn; set_solver|].
  eapply rtc_l; [by apply (step_deliver false s2 (Added "a") [] (crdAdded initial "a"))|].
  eapply rtc_l; [by apply (step_merge false s3 ∅ 0 [] overtaken)|].
  eapply rtc_l; [apply (step_create false s4 "b"); cbn; set_solver|].
  eapply rtc_l; [by apply (step_deliver false s5 (Added "b") [] final)|].
  constructor.
Qed.
End Race.

(** the list of [Start] can be overtaken by a handler: there is an execution
    at whose end every event was handled and every required CRD exists, but the
    watch still counts one of them as missing and has called no handler, so that
    the operator goes on waiting for CRDs that are there. *)
Theorem start_race : exists `{SetRange} s,
  rtc (step false) (started ∅ Race.initial) s /\
  synced s = true /\ queue s = [] /\ requiredCrds (watch s) ⊆ store s /\
  missingCrds (watch s) = {["a"]} /\ calls (watch s) = [].
Proof.
  exists sorted_set_range, Race.s6. split; [apply Race.overtaken_execution|].
  split; [done|]. split; [done|]. split; [|split; by vm_compute].
  intros x Hx. cbn in *. set_solver.
Qed.

Module StartWitness.
#[local] Existing Instance sorted_set_range.
Definition merged : CrdWatch :=
  match sync Race.initial (inr []) with Ok c => c | _ => Race.initial end.
Lemma start_exact_witness :
  existingCrds merged = ∅ /\ missingCrds merged = requiredCrds merged ∖ ∅.
Proof.
  apply (start_exact ∅ Race.initial (mkSys ∅ [] None true merged)); [by vm_compute| |done..].
  eapply rtc_l; [exact (step_list true Race.s0 eq_refl eq_refl)|].
  eapply rtc_l; [by apply (step_merge true Race.s1 ∅ 0 [] merged)|]. constructor.
Defined.
End StartWitness.
End CrdWatchStart.
