(* ===== verification/Resource.v ===== *)
(** * The reconcile builder (internal/common/resource.go)

    Every operand creates and updates its objects through this builder and
    removes them through [Cleanup]. *)

From S2P Require Import Prelude GoRuntime KubeTypes SspTypes KubeClient Cluster Common.

(** ** Results *)

(** The zero value of the Go string type is [OperationResultUnset]. *)
Inductive OperationResult :=
| OperationResultUnset | OperationResultNone | OperationResultCreated
| OperationResultUpdated | OperationResultDeleted.

#[export] Instance OperationResult_eq_dec : EqDecision OperationResult.
Proof. solve_decision. Defined.

Notation StatusMessage := (option string).

Record ResourceStatus := mkResourceStatus {
  Progressing : StatusMessage;
  NotAvailable : StatusMessage;
  Degraded : StatusMessage
}.

Definition okStatus : ResourceStatus := mkResourceStatus None None None.

Record ReconcileResult := mkReconcileResult {
  Status : ResourceStatus;
  InitialResource : option Object;
  rr_Resource : Object;
  rr_OperationResult : OperationResult
}.

Definition IsSuccess (r : ReconcileResult) : bool :=
  bool_decide (Progressing (Status r) = None) && bool_decide (NotAvailable (Status r) = None) &&
  bool_decide (Degraded (Status r) = None).

Record CleanupResult := mkCleanupResult { cu_Resource : Object; Deleted : bool }.

Definition ResourceDeletedResult (resource : Object) (res : OperationResult) : ReconcileResult :=
  let message := Some "Resource is being deleted." in
  mkReconcileResult (mkResourceStatus message message message) None resource res.

(** [CollectResourceStatus]: runs the functions in order, stops at an error. *)
Definition CollectResourceStatus {W} (request : Request)
    (funcs : list (Request -> Op W ReconcileResult)) : Op W (list ReconcileResult) :=
  mapM (fun f => f request) funcs.

(** ** Updating found objects *)

(** [updateStringMap] on a non-nil map. *)
Definition updateStringMap (expected : gomap) (found : smap) : smap :=
  match expected with
  | None => found
  | Some e => e ∪ found
  end.

Definition update_map (expected found : gomap) : gomap :=
  match found with
  | None => expected
  | Some f => Some (updateStringMap expected f)
  end.

Definition UpdateLabels (expected found : Object) : Object :=
  with_meta found (with_labels (o_meta found)
    (update_map (KubeTypes.Labels (o_meta expected)) (KubeTypes.Labels (o_meta found)))).

Definition updateAnnotations (expected found : Object) : Object :=
  with_meta found (with_annotations (o_meta found)
    (update_map (Annotations (o_meta expected)) (Annotations (o_meta found)))).

(** The zero value of the body of a Go struct ([reflect.New]). *)
Definition zero_body (k : Kind) : Body :=
  let sel := mkSelector ∅ [] in
  let src := mkDataSourceSource None None None in
  match k with
  | KConfigMap => ConfigMap None None None
  | KNamespace => NamespaceObj
  | KService => Service (mkServiceSpec [] ∅ "" "" "" None ∅)
  | KServiceAccount => ServiceAccount
  | KClusterRole => ClusterRole []
  | KClusterRoleBinding => ClusterRoleBinding (mkRoleRef "" "" "") []
  | KRole => Role []
  | KRoleBinding => RoleBinding (mkRoleRef "" "" "") []
  | KDaemonSet => DaemonSet ∅ (mkDaemonSetStatus 0 0)
  | KDeployment =>
      Deployment (mkDeploymentSpec None None (mkPodTemplate zeroMeta
        (mkPodSpec None "" "" [] [] None None [] ∅)) ∅) (mkDeploymentStatus 0 0)
  | KRoute => Route ∅
  | KPrometheusRule => PrometheusRule ∅
  | KServiceMonitor => ServiceMonitor (mkServiceMonitorSpec false sel "" None false
                                         (CAConfigMap "" "") None ∅)
  | KNetworkPolicy => NetworkPolicy (mkNetworkPolicySpec sel [] [] [])
  | KTemplate => Template [] []
  | KDataSource => DataSource (mkDataSourceSpec src) (mkDataSourceStatus src [])
  | KDataImportCron => DataImportCron (mkDataImportCronSpec None ∅ "" "" ∅) ∅
  | KPersistentVolumeClaim => PersistentVolumeClaim ∅
  | KPodDisruptionBudget => PodDisruptionBudget (mkPDBSpec None None ∅)
  | KValidatingWebhookConfiguration => ValidatingWebhookConfiguration []
  | KValidatingAdmissionPolicy =>
      ValidatingAdmissionPolicy (mkVAPSpec None [] [] [] ∅) (mkVAPStatus None)
  | KValidatingAdmissionPolicyBinding => ValidatingAdmissionPolicyBinding (mkVAPBSpec "" [] ∅)
  | KAPIService => APIService (mkAPIServiceSpec None "" ∅)
  end.

Definition newEmptyResource (resource : Object) : Object :=
  mkObject (mkTypeMeta "" "") zeroMeta (zero_body (o_kind resource)).

(** The object that [Reconcile] fills with [Get]: empty but for its key. *)
Definition namedResource (resource : Object) : Object :=
  let found := newEmptyResource resource in
  with_meta found (with_namespace (with_name (o_meta found) (Name (o_meta resource)))
                     (Namespace (o_meta resource))).

(** The name that [%T] prints for the object's Go type. *)
Definition go_type (o : Object) : string :=
  (if contains [KDataSource; KDataImportCron] (o_kind o) then "*v1beta1." else "*v1.")
  +:+ kind_name (o_kind o).

Definition with_ClusterIP (s : ServiceSpec) ip : ServiceSpec :=
  mkServiceSpec (svc_Ports s) (svc_Selector s) ip (svc_Type s) (svc_SessionAffinity s)
    (svc_InternalTrafficPolicy s) (svc_other s).

(** An update function changes both objects through their pointers. *)
Definition ResourceUpdateFunc := Object -> Object -> outcome (Object * Object).

Definition defaultUpdateFunc : ResourceUpdateFunc := fun newObj foundObj =>
  match o_body newObj, o_body foundObj with
  | ConfigMap i d b, ConfigMap _ _ _ => Ok (newObj, with_body foundObj (ConfigMap i d b))
  | NamespaceObj, _ => Ok (newObj, foundObj)
  | Service ns, Service fs =>
      (* ClusterIP should not be updated *)
      let ns := with_ClusterIP ns (svc_ClusterIP fs) in
      Ok (with_body newObj (Service ns), with_body foundObj (Service ns))
  | ServiceAccount, _ => Ok (newObj, foundObj)
  | ClusterRole rules, ClusterRole _ => Ok (newObj, with_body foundObj (ClusterRole rules))
  | ClusterRoleBinding rr ss, ClusterRoleBinding _ _ =>
      Ok (newObj, with_body foundObj (ClusterRoleBinding rr ss))
  | Role rules, Role _ => Ok (newObj, with_body foundObj (Role rules))
  | RoleBinding rr ss, RoleBinding _ _ => Ok (newObj, with_body foundObj (RoleBinding rr ss))
  | DaemonSet spec _, DaemonSet _ st => Ok (newObj, with_body foundObj (DaemonSet spec st))
  | Deployment spec _, Deployment _ st => Ok (newObj, with_body foundObj (Deployment spec st))
  | Route spec, Route _ => Ok (newObj, with_body foundObj (Route spec))
  | PrometheusRule spec, PrometheusRule _ => Ok (newObj, with_body foundObj (PrometheusRule spec))
  | ServiceMonitor spec, ServiceMonitor _ => Ok (newObj, with_body foundObj (ServiceMonitor spec))
  | NetworkPolicy spec, NetworkPolicy _ => Ok (newObj, with_body foundObj (NetworkPolicy spec))
  | (ConfigMap _ _ _ | Service _ | ClusterRole _ | ClusterRoleBinding _ _ | Role _
    | RoleBinding _ _ | DaemonSet _ _ | Deployment _ _ | Route _ | PrometheusRule _
    | ServiceMonitor _ | NetworkPolicy _), _ => Panic "interface conversion"
  | _, _ => Panic ("Default update is not supported for type: " +:+ go_type newObj)
  end.

Definition ResourceStatusFunc := Object -> outcome ResourceStatus.

Definition defaultStatusFunc : ResourceStatusFunc := fun obj =>
  let name := Namespace (o_meta obj) +:+ "/" +:+ Name (o_meta obj) in
  match o_body obj with
  | DaemonSet _ st =>
      if bool_decide (das_NumberReady st <> das_DesiredNumberScheduled st) then
        let msg := "Not all pods for daemonset " +:+ name +:+ " are ready. (ready pods: "
          +:+ itoa (das_NumberReady st) +:+ ", desired pods: "
          +:+ itoa (das_DesiredNumberScheduled st) +:+ ")" in
        Ok (mkResourceStatus (Some msg) (Some msg) (Some msg))
      else Ok okStatus
  | Deployment spec st =>
      match dep_Replicas spec with
      | None => Panic "invalid memory address or nil pointer dereference"
      | Some numberOfReplicas =>
          let notAvailable :=
            if bool_decide (numberOfReplicas > 0)%Z && bool_decide (ds_AvailableReplicas st = 0)%Z
            then Some ("No pods for deployment " +:+ name +:+ " are running. Expected: "
                       +:+ itoa (ds_Replicas st))
            else None in
          let notAll :=
            if bool_decide (ds_AvailableReplicas st <> numberOfReplicas)
            then Some ("Not all pods for deployment " +:+ name +:+ " are running. Expected: "
                       +:+ itoa numberOfReplicas +:+ ", running: " +:+ itoa (ds_AvailableReplicas st))
            else None in
          Ok (mkResourceStatus notAll notAvailable notAll)
      end
  | _ => Ok okStatus
  end.

(** ** The builder *)

Record reconcileBuilder := mkReconcileBuilder {
  request : Request;
  resource : Object;
  isClusterResource : bool;
  (** [addLabels], [operandName] and [operandComponent] *)
  appLabels : option (string * Labels.AppComponent);
  updateFunc : ResourceUpdateFunc;
  statusFunc : ResourceStatusFunc;
  immutableSpec : bool;
  (** the spec as a body whose other fields are zero; [None] is nil *)
  specGetter : Object -> option Body;
  AlwaysCallUpdateFunc : bool
}.

(** [CreateOrUpdate(request)] followed by [NamespacedResource] or
    [ClusterResource]. *)
Definition CreateOrUpdate (req : Request) (isCluster : bool) (res : Object) : reconcileBuilder :=
  mkReconcileBuilder req res isCluster None defaultUpdateFunc defaultStatusFunc false
    (fun _ => None) false.
Definition NamespacedResource (req : Request) := CreateOrUpdate req false.
Definition ClusterResource (req : Request) := CreateOrUpdate req true.

Section builder.
Variable r : reconcileBuilder.

Definition WithAppLabels (name : string) (c : Labels.AppComponent) :=
  mkReconcileBuilder (request r) (resource r) (isClusterResource r) (Some (name, c))
    (updateFunc r) (statusFunc r) (immutableSpec r) (specGetter r) (AlwaysCallUpdateFunc r).
Definition UpdateFunc (f : ResourceUpdateFunc) :=
  mkReconcileBuilder (request r) (resource r) (isClusterResource r) (appLabels r)
    f (statusFunc r) (immutableSpec r) (specGetter r) (AlwaysCallUpdateFunc r).
Definition StatusFunc (f : ResourceStatusFunc) :=
  mkReconcileBuilder (request r) (resource r) (isClusterResource r) (appLabels r)
    (updateFunc r) f (immutableSpec r) (specGetter r) (AlwaysCallUpdateFunc r).
Definition ImmutableSpec (g : Object -> option Body) :=
  mkReconcileBuilder (request r) (resource r) (isClusterResource r) (appLabels r)
    (updateFunc r) (statusFunc r) true g (AlwaysCallUpdateFunc r).
(** [Options(ReconcileOptions{AlwaysCallUpdateFunc: b})] *)
Definition Options (b : bool) :=
  mkReconcileBuilder (request r) (resource r) (isClusterResource r) (appLabels r)
    (updateFunc r) (statusFunc r) (immutableSpec r) (specGetter r) b.
End builder.

(** [setOwner] *)
Definition setOwner (req : Request) (res : Object) (isClusterRes : bool) : outcome Object :=
  if isClusterRes then
    m ← Owner.SetOwnerAnnotations (Instance req) (with_owners (o_meta res) []);
    mret (with_meta res m)
  else
    let anns := delete Owner.TypeAnnotation ∘ delete Owner.NamespacedNameAnnotation
                  <$> Annotations (o_meta res) in
    m ← Owner.SetControllerReference (Instance req) (with_annotations (o_meta res) anns);
    mret (with_meta res m).

(** The resource as the builder prepares it before talking to the cluster. *)
Definition add_app_labels (r : reconcileBuilder) : Object :=
  match appLabels r with
  | None => resource r
  | Some (name, c) =>
      with_meta (resource r) (Labels.AddAppLabels (Instance (request r)) name c (o_meta (resource r)))
  end.

(** Labels and annotations copied into an object that had none are the
    expected object's own maps: later writes to one are seen in the other. *)
Definition shares (expected found : gomap) : bool :=
  bool_decide (found = None) && bool_decide (expected <> None).

Definition sync_shared (shared_labels shared_annotations : bool) (expected found : Object) : Object :=
  let m := o_meta expected in
  let m := if shared_labels then with_labels m (KubeTypes.Labels (o_meta found)) else m in
  let m := if shared_annotations then with_annotations m (Annotations (o_meta found)) else m in
  with_meta expected m.

(** The closure [mutateFn] of [Reconcile]; returns both objects. *)
Definition mutateFn (r : reconcileBuilder) (cache : VersionCache) (res found : Object)
    : outcome (Object * Object) :=
  if bool_decide (DeletionTimestamp (o_meta found) <> None) then
    (* Skip update, because the resource is being deleted *)
    Ok (res, found)
  else
    let sl := shares (KubeTypes.Labels (o_meta res)) (KubeTypes.Labels (o_meta found)) in
    let sa := shares (Annotations (o_meta res)) (Annotations (o_meta found)) in
    let found := with_meta found (with_owners (o_meta found) (OwnerReferences (o_meta res))) in
    let found := UpdateLabels res found in
    let found := updateAnnotations res found in
    if AlwaysCallUpdateFunc r || negb (Cache.Contains cache found) then
      '(res', found') ← updateFunc r res found;
      mret (sync_shared sl sa res' found', found')
    else Ok (res, found).

(** [mutate]: the object's key must not change. *)
Definition mutate (f : outcome (Object * Object)) (key : ObjectKey) : outcome (Object * Object) :=
  '(res, obj) ← f;
  if bool_decide (key <> ObjectKeyFromObject obj) then
    Err (EMsg "MutateFn cannot mutate object name and/or object namespace")
  else mret (res, obj).

Definition DeepEqual_spec (a b : option Body) : bool :=
  match a, b with
  | None, None => true
  | Some a, Some b => DeepEqual_body a b
  | _, _ => false
  end.

Section reconcile.
Context `{Client W}.

(** Returns the operation, the object found before the call, and the
    expected and the found object after it. *)
Definition createOrUpdateWithImmutableSpec (r : reconcileBuilder) (res obj : Object)
    : Op W (OperationResult * option Object * Object * Object) :=
  let key := ObjectKeyFromObject obj in
  cache ← get_cache;
  got ← try (Get (o_kind obj) key);
  match got with
  | inl err =>
      if negb (IsNotFound err) then throw (EWrap "failed to get object: " err)
      else
        '(res, obj) ← wrapping "failed mutating object: "
                        (lift (mutate (mutateFn r cache res obj) key));
        obj ← wrapping "failed creating object: " (Create obj);
        mret (OperationResultCreated, None, res, obj)
  | inr existing =>
      '(res, obj) ← wrapping "failed mutating object: "
                      (lift (mutate (mutateFn r cache res existing) key));
      if DeepEqual existing obj then
        mret (OperationResultNone, Some existing, res, obj)
      else if immutableSpec r && negb (DeepEqual_spec (specGetter r existing) (specGetter r obj)) then
        (* If the resource is immutable and specs are not equal, delete it.
           It will be recreated in the next iteration. *)
        _ ← wrapping "failed deleting object: " (Delete (o_kind obj) (ObjectKeyFromObject obj));
        mret (OperationResultDeleted, Some existing, res, obj)
      else
        obj ← wrapping "failed updating object: " (Update obj);
        mret (OperationResultUpdated, Some existing, res, obj)
  end.

Definition Reconcile (r : reconcileBuilder) : Op W ReconcileResult :=
  let what := "failed to reconcile " +:+ go_type (resource r) +:+ " object "
    +:+ Namespace (o_meta (resource r)) +:+ "/" +:+ Name (o_meta (resource r)) +:+ ": " in
  res ← wrapping (what +:+ "failed to set owner: ")
          (lift (setOwner (request r) (add_app_labels r) (isClusterResource r)));
  '(op, existing, res, found) ← wrapping what
                                  (createOrUpdateWithImmutableSpec r res (namedResource res));
  cache ← get_cache;
  if bool_decide (op = OperationResultDeleted) ||
     bool_decide (DeletionTimestamp (o_meta found) <> None) then
    _ ← set_cache (Cache.RemoveObj cache found);
    mret (ResourceDeletedResult res op)
  else
    _ ← set_cache (Cache.Add cache found);
    status ← lift (statusFunc r found);
    mret (mkReconcileResult status existing res op).

(** ** Cleanup *)

(** [isResourceOwned]; indexing an empty list of references panics. *)
Fixpoint has_reference (expected : list OwnerReference) (refs : list OwnerReference) : outcome bool :=
  match refs with
  | [] => Ok false
  | reference :: refs' =>
      match expected with
      | [] => Panic "index out of range [0] with length 0"
      | e :: _ => if bool_decide (reference = e) then Ok true else has_reference expected refs'
      end
  end.

Definition isResourceOwned (req : Request) (expectedObj foundObj : Object)
    : outcome (bool * Object) :=
  let inst := Instance req in
  m ← (if bool_decide (Namespace (o_meta expectedObj) = Namespace (ssp_meta inst)) then
         Owner.SetControllerReference inst (with_owners (o_meta expectedObj) [])
       else Ok (o_meta expectedObj));
  m ← Owner.SetOwnerAnnotations inst m;
  let expected := with_meta expectedObj m in
  byRef ← has_reference (OwnerReferences m) (OwnerReferences (o_meta foundObj));
  if (byRef : bool) then mret (true, expected)
  else
    let fa := Annotations (o_meta foundObj) in
    mret (bool_decide (fa <> None) &&
          bool_decide (map_get fa Owner.TypeAnnotation =
                       map_get (Annotations m) Owner.TypeAnnotation) &&
          bool_decide (map_get fa Owner.NamespacedNameAnnotation =
                       map_get (Annotations m) Owner.NamespacedNameAnnotation),
          expected).

Definition Cleanup (req : Request) (res : Object) : Op W CleanupResult :=
  got ← try (Get (o_kind res) (ObjectKeyFromObject res));
  match got with
  | inl err => if IsNotFound err then mret (mkCleanupResult res true) else throw err
  | inr found =>
      '(isOwned, res) ← lift (isResourceOwned req res found);
      if negb isOwned then
        (* The owned resource was deleted and a new one created with the same name *)
        mret (mkCleanupResult res true)
      else if bool_decide (DeletionTimestamp (o_meta found) = None) then
        deleted ← try (Delete (o_kind found) (ObjectKeyFromObject found));
        match deleted with
        | inl err => if IsNotFound err then mret (mkCleanupResult res true) else throw err
        | inr _ => mret (mkCleanupResult res false)
        end
      else mret (mkCleanupResult res false)
  end.

Definition DeleteAll (req : Request) (resources : list Object) : Op W (list CleanupResult) :=
  mapM (Cleanup req) resources.

Definition CleanupResources (k : Kind) (req : Request) (opts : ListOptions)
    : Op W (list CleanupResult) :=
  resources ← wrapping "failed to list owned resources: " (ListOwnedResources k req opts);
  mapM (fun res => wrapping "failed to cleanup resource: " (Cleanup req res)) resources.
End reconcile.
