(* ===== verification/ResourceProofs.v ===== *)
(** * Correctness of the reconcile builder and of cleanup *)

From S2P Require Import Prelude GoRuntime KubeTypes SspTypes KubeClient Cluster Common Samples Resource.

#[local] Arguments mutate : simpl never.
#[local] Arguments mutateFn : simpl never.
#[local] Arguments namedResource : simpl never.

(** The resource that the builder reconciles towards: the operand's object with
    application labels and ownership. *)
Definition prepared (r : reconcileBuilder) : outcome Object :=
  setOwner (request r) (add_app_labels r) (isClusterResource r).

(** An update function that leaves the found object's metadata and kind alone,
    as all operands' functions except those of common templates do. *)
Definition keeps_meta (f : ResourceUpdateFunc) : Prop := forall e o e' o',
  f e o = Ok (e', o') -> o_meta o' = o_meta o /\ o_kind o' = o_kind o.

Lemma defaultUpdateFunc_keeps_meta : keeps_meta defaultUpdateFunc.
Proof.
  intros e o e' o'. unfold defaultUpdateFunc, o_kind.
  intros Hf. repeat case_match; by simplify_eq.
Qed.

#[export] Hint Resolve defaultUpdateFunc_keeps_meta : ssp.

(** ** Preparation *)

Lemma SetControllerReference_Ok owner m m' :
  Owner.SetControllerReference owner m = Ok m' ->
  m' = with_owners m (Owner.upsertOwnerRef (Owner.controller_ref owner) (OwnerReferences m)).
Proof.
  unfold Owner.SetControllerReference. intros (u & _ & H)%outcome_bind_Ok. by split_matches.
Qed.

Lemma setOwner_keeps req o c o' :
  setOwner req o c = Ok o' ->
  o_kind o' = o_kind o /\ ObjectKeyFromObject o' = ObjectKeyFromObject o /\ o_body o' = o_body o /\
  KubeTypes.Labels (o_meta o') = KubeTypes.Labels (o_meta o).
Proof.
  unfold setOwner. destruct c; intros (m & Hm & [= <-])%outcome_bind_Ok.
  - apply Owner.SetOwnerAnnotations_Ok in Hm as ->. done.
  - apply SetControllerReference_Ok in Hm as ->. done.
Qed.

Lemma add_app_labels_keeps r :
  o_kind (add_app_labels r) = o_kind (resource r) /\
  ObjectKeyFromObject (add_app_labels r) = ObjectKeyFromObject (resource r) /\
  o_body (add_app_labels r) = o_body (resource r).
Proof. unfold add_app_labels. by destruct (appLabels r) as [[]|]. Qed.

Lemma prepared_keeps r res :
  prepared r = Ok res ->
  o_kind res = o_kind (resource r) /\ ObjectKeyFromObject res = ObjectKeyFromObject (resource r) /\
  o_body res = o_body (resource r).
Proof.
  intros (Hk & Hy & Hb & _)%setOwner_keeps. destruct (add_app_labels_keeps r) as (? & ? & ?).
  rewrite Hk, Hy, Hb. done.
Qed.

(** A prepared resource is recognised as owned: by annotation when it is a
    cluster resource, by controller reference otherwise. *)
Lemma prepared_owned r res :
  prepared r = Ok res ->
  if isClusterResource r then
    Owner.CheckOwnerAnnotation (o_meta res) (Instance (request r)) = true /\
    OwnerReferences (o_meta res) = []
  else Owner.controller_ref (Instance (request r)) ∈ OwnerReferences (o_meta res).
Proof.
  unfold prepared, setOwner. destruct (isClusterResource r).
  - intros (m & Hm & [= <-])%outcome_bind_Ok. cbn.
    split; [by eapply Owner.CheckOwnerAnnotation_SetOwnerAnnotations|].
    apply Owner.SetOwnerAnnotations_Ok in Hm as ->. done.
  - intros (m & Hm & [= <-])%outcome_bind_Ok.
    apply SetControllerReference_Ok in Hm as ->. apply Owner.upsert_in.
Qed.

(** ** What the builder does to a found object *)

(** The metadata of the found object after labels, annotations and owners of
    the expected object [e] were restored. *)
Definition restored_meta (e : Object) (m : ObjectMeta) : ObjectMeta :=
  with_annotations
    (with_labels (with_owners m (OwnerReferences (o_meta e)))
       (update_map (KubeTypes.Labels (o_meta e)) (KubeTypes.Labels m)))
    (update_map (Annotations (o_meta e)) (Annotations m)).

(** What the operator and the server agree on about an object. *)
Definition same_identity (m m' : ObjectMeta) : Prop :=
  Name m' = Name m /\ Namespace m' = Namespace m /\ UID m' = UID m /\
  ResourceVersion m' = ResourceVersion m /\ Generation m' = Generation m /\
  DeletionTimestamp m' = DeletionTimestamp m.

(** Metadata with the owners, labels and annotations of the expected object. *)
Definition carries (e : Object) (m : ObjectMeta) : Prop :=
  OwnerReferences m = OwnerReferences (o_meta e) /\
  map_kept (KubeTypes.Labels (o_meta e)) (KubeTypes.Labels m) /\
  map_kept (Annotations (o_meta e)) (Annotations m).

(** An update function that may change labels and annotations, but not those of
    the expected object. *)
Definition restores (f : ResourceUpdateFunc) (e : Object) : Prop := forall o e' o',
  carries e (o_meta o) -> f e o = Ok (e', o') ->
  o_kind o' = o_kind o /\ same_identity (o_meta o) (o_meta o') /\ carries e (o_meta o').

Lemma keeps_meta_restores f e : keeps_meta f -> restores f e.
Proof. intros Hk o e' o' Hc [Hm Ho]%Hk. by rewrite Hm. Qed.

Lemma mutateFn_alive r cache e o :
  DeletionTimestamp (o_meta o) = None ->
  mutateFn r cache e o =
    let sl := shares (KubeTypes.Labels (o_meta e)) (KubeTypes.Labels (o_meta o)) in
    let sa := shares (Annotations (o_meta e)) (Annotations (o_meta o)) in
    let o1 := with_meta o (restored_meta e (o_meta o)) in
    if AlwaysCallUpdateFunc r || negb (Cache.Contains cache o1) then
      '(e', o') ← updateFunc r e o1; mret (sync_shared sl sa e' o', o')
    else Ok (e, o1).
Proof. intros Ho. unfold mutateFn. by rewrite bool_decide_false by (rewrite Ho; naive_solver). Qed.

Lemma mutateFn_deleting r cache e o :
  DeletionTimestamp (o_meta o) <> None -> mutateFn r cache e o = Ok (e, o).
Proof. intros Ho. unfold mutateFn. by rewrite bool_decide_true. Qed.

Lemma mutate_Ok f key e o :
  mutate f key = Ok (e, o) <-> f = Ok (e, o) /\ ObjectKeyFromObject o = key.
Proof.
  unfold mutate. rewrite outcome_bind_Ok. split.
  - intros ([e1 o1] & -> & E). cbn in E. case_bool_decide; [done|]. by injection E as -> ->.
  - intros [-> <-]. exists (e, o). split; [done|]. cbn. by rewrite bool_decide_false by (intros []; done).
Qed.

Lemma restored_key e m b t :
  ObjectKeyFromObject (mkObject t (restored_meta e m) b) = ObjectKeyFromObject (mkObject t m b).
Proof. done. Qed.

Lemma update_map_kept e f : map_kept e (update_map e f).
Proof.
  intros k v. destruct e as [e|]; [|done]. destruct f as [f|]; cbn; [|done].
  intros Hk. by apply lookup_union_Some_l.
Qed.

(** Bindings that the expected object does not mention survive. *)
Lemma update_map_foreign e f k :
  (e ≫= lookup k) = None -> (update_map e f ≫= lookup k) = (f ≫= lookup k).
Proof.
  destruct e as [e|], f as [f|]; cbn; try done. intros Hk. by apply lookup_union_foreign.
Qed.

(** Restoring a map that is already there is the identity, up to nil maps. *)
Lemma update_map_absorb e f : map_kept e f -> update_map e f ≡ f.
Proof.
  intros Hk. destruct f as [f|]; cbn.
  - destruct e as [e|]; cbn; [|done]. rewrite union_absorb; [done|].
    apply map_subseteq_spec. intros k v. apply (Hk k v).
  - destruct e as [e|]; [|done]. replace e with (∅ : smap); [done|].
    symmetry. apply map_empty. intros k. destruct (e !! k) as [v|] eqn:E; [|done].
    by specialize (Hk k v E).
Qed.

#[export] Hint Resolve update_map_kept update_map_foreign : ssp.

Lemma restored_carries e m : carries e (restored_meta e m).
Proof. split_and!; [done|apply update_map_kept..]. Qed.

(** The mutated object is still the same one, and has what the expected object says. *)
Lemma mutateFn_restores r cache e o e' o' :
  restores (updateFunc r) e -> DeletionTimestamp (o_meta o) = None ->
  mutateFn r cache e o = Ok (e', o') ->
  o_kind o' = o_kind o /\ same_identity (o_meta o) (o_meta o') /\ carries e (o_meta o').
Proof.
  intros Hf Ho. rewrite mutateFn_alive by done. cbn. case_match.
  - intros ([e1 o1] & Hu & [= <- <-])%outcome_bind_Ok. apply Hf in Hu; [done|]. apply restored_carries.
  - intros [= <- <-]. split_and!; [done..|]. apply restored_carries.
Qed.

(** ** Trace safety, for an arbitrary client *)

(** The calls that reconciling [r] towards [res] may make: reads of the object
    itself, writes that carry ownership, labels and annotations of [res], and
    a deletion only for an immutable spec. *)
Definition allowed_call (r : reconcileBuilder) (res : Object) (c : ApiCall) : Prop :=
  match c with
  | CGet k key => k = o_kind res /\ key = ObjectKeyFromObject res
  | CCreate o | CUpdate o =>
      o_kind o = o_kind res /\ ObjectKeyFromObject o = ObjectKeyFromObject res /\
      OwnerReferences (o_meta o) = OwnerReferences (o_meta res) /\
      map_kept (KubeTypes.Labels (o_meta res)) (KubeTypes.Labels (o_meta o)) /\
      map_kept (Annotations (o_meta res)) (Annotations (o_meta o)) /\
      DeletionTimestamp (o_meta o) = None
  | CDelete k key => immutableSpec r = true /\ k = o_kind res /\ key = ObjectKeyFromObject res
  | _ => False
  end.

Section any_client.
Context `{Client W}.
Implicit Types (r : reconcileBuilder) (s : OpSt W).

Lemma zero_body_kind k : body_kind (zero_body k) = k.
Proof. by destruct k. Qed.

Lemma namedResource_kind o : o_kind (namedResource o) = o_kind o.
Proof. unfold o_kind at 1. apply zero_body_kind. Qed.

Lemma namedResource_key o : ObjectKeyFromObject (namedResource o) = ObjectKeyFromObject o.
Proof. done. Qed.

(** What [Reconcile] is once the resource is prepared. *)
Lemma Reconcile_prepared r res s :
  prepared r = Ok res ->
  exists p, Reconcile r s =
    match createOrUpdateWithImmutableSpec r res (namedResource res) s with
    | (Ok (op, existing, res', found), s1) =>
        if bool_decide (op = OperationResultDeleted) ||
           bool_decide (DeletionTimestamp (o_meta found) <> None) then
          (Ok (ResourceDeletedResult res' op),
           with_cache s1 (Cache.RemoveObj (op_cache s1) found))
        else
          ((fun st => mkReconcileResult st existing res' op) <$> statusFunc r found,
           with_cache s1 (Cache.Add (op_cache s1) found))
    | (Err e, s1) => (Err (EWrap p e), s1)
    | (Panic m, s1) => (Panic m, s1)
    end.
Proof.
  unfold prepared. intros Hp. unfold Reconcile. rewrite Hp. eexists. run_monad.
  destruct (createOrUpdateWithImmutableSpec r res (namedResource res) s)
    as [[[[[op ex] res'] found]|e|m] s1]; [|done|done].
  cbn. destruct (_ || _); [done|]. cbn. by destruct (statusFunc r found).
Qed.

Lemma issued_Reconcile P r res :
  prepared r = Ok res ->
  issued (W := W) P (createOrUpdateWithImmutableSpec r res (namedResource res)) ->
  issued (W := W) P (Reconcile r).
Proof.
  intros Hp HP s. destruct (Reconcile_prepared r res s Hp) as [p ->].
  specialize (HP s). destruct (createOrUpdateWithImmutableSpec r res (namedResource res) s)
    as [[[[[op ex] res'] found]|e|m] s1]; [|done|done].
  by destruct (_ || _).
Qed.

(** A mutated object is fit to be written. *)
Lemma mutate_allowed r cache res o e' o' :
  restores (updateFunc r) res -> DeletionTimestamp (o_meta o) = None -> o_kind o = o_kind res ->
  mutate (mutateFn r cache res o) (ObjectKeyFromObject res) = Ok (e', o') ->
  allowed_call r res (CUpdate o').
Proof.
  intros Hf Hd Hkind [Hm Hkey]%mutate_Ok. cbn.
  destruct (mutateFn_restores _ _ _ _ _ _ Hf Hd Hm) as (Hkind' & (_ & _ & _ & _ & _ & Hd') & Ho & Hl & Ha).
  rewrite Hkind', Hkind, Hkey, Hd'. by split_and!.
Qed.

Lemma DeepEqual_refl o : DeepEqual o o = true.
Proof. unfold DeepEqual. by rewrite bool_decide_true. Qed.

(** The calls are the read of the object, and what is made of a mutated object. *)
Lemma createOrUpdate_calls (P : ApiCall -> Prop) r res :
  P (CGet (o_kind res) (ObjectKeyFromObject res)) ->
  (forall o e' o', DeletionTimestamp (o_meta o) = None -> o_kind o = o_kind res ->
     (exists cache, mutate (mutateFn r cache res o) (ObjectKeyFromObject res) = Ok (e', o')) ->
     P (CCreate o') /\ P (CUpdate o') /\
     (immutableSpec r = true -> P (CDelete (o_kind o') (ObjectKeyFromObject o')))) ->
  issued (W := W) P (createOrUpdateWithImmutableSpec r res (namedResource res)).
Proof.
  intros Hget Hw s. unfold createOrUpdateWithImmutableSpec, Get, call. run_monad.
  rewrite namedResource_kind, namedResource_key.
  destruct (cl_Get (o_kind res) (ObjectKeyFromObject res) (op_world s)) as [[e|existing] w] eqn:EG;
    cbn.
  - destruct (IsNotFound e); cbn; [|extend_trace].
    destruct (mutate _ _) as [[res' obj]|e'|m] eqn:EM; [|extend_trace..].
    destruct (Hw (namedResource res) res' obj) as (Hc & _ & _); [done|apply namedResource_kind|by eexists|].
    unfold Create, call. cbn. destruct (cl_Create obj w) as [[]]; extend_trace.
  - pose proof (cl_Get_kind _ _ _ _ _ EG) as Hkind.
    destruct (mutate _ _) as [[res' obj]|e'|m] eqn:EM; [|extend_trace..].
    destruct (decide (DeletionTimestamp (o_meta existing) = None)) as [Hd|Hd].
    + destruct (Hw existing res' obj) as (_ & Hu & Hx); [done|done|by eexists|]. cbn.
      destruct (DeepEqual existing obj); [extend_trace|].
      destruct (immutableSpec r && _) eqn:EI; cbn.
      * apply andb_true_iff in EI as [EI _]. specialize (Hx EI). unfold Delete, call. cbn.
        destruct (cl_Delete (o_kind obj) (ObjectKeyFromObject obj) w) as [[] ?]; extend_trace.
      * unfold Update, call. cbn. destruct (cl_Update obj w) as [[] ?]; extend_trace.
    + apply mutate_Ok in EM as [EM _]. rewrite mutateFn_deleting in EM by done.
      injection EM as <- <-. cbn. rewrite DeepEqual_refl. extend_trace.
Qed.

Lemma createOrUpdate_issued r res :
  restores (updateFunc r) res ->
  issued (W := W) (allowed_call r res)
    (createOrUpdateWithImmutableSpec r res (namedResource res)).
Proof.
  intros Hk. apply createOrUpdate_calls; [done|]. intros o e' o' Hd Hkind [cache Hm].
  pose proof (mutate_allowed _ _ _ _ _ _ Hk Hd Hkind Hm) as Hc. split_and!; [exact Hc..|].
  intros Hi. destruct Hc as (-> & -> & _). by split_and!.
Qed.

(** C5: whatever the API server answers, reconciling a resource makes only
    calls on that resource; what it writes carries the owner, the labels and
    the annotations of the expected object and is never an object that is
    being deleted; it deletes only when the spec was declared immutable. *)
Theorem Reconcile_touches_only_its_resource r res :
  prepared r = Ok res -> keeps_meta (updateFunc r) ->
  issued (W := W) (allowed_call r res) (Reconcile r).
Proof.
  intros Hp Hk. eapply issued_Reconcile; [done|]. by apply createOrUpdate_issued, keeps_meta_restores.
Qed.

(** an object that is being deleted is left alone: the only call is the
    read, the result reports the deletion, and the object leaves the cache. *)
Theorem Reconcile_deleting r res s o w' :
  prepared r = Ok res ->
  cl_Get (o_kind res) (ObjectKeyFromObject res) (op_world s) = (inr o, w') ->
  ObjectKeyFromObject o = ObjectKeyFromObject res ->
  DeletionTimestamp (o_meta o) <> None ->
  exists s', Reconcile r s = (Ok (ResourceDeletedResult res OperationResultNone), s') /\
    op_trace s' = op_trace s ++ [CGet (o_kind res) (ObjectKeyFromObject res)] /\
    op_world s' = w' /\ Cache.Contains (op_cache s') o = false.
Proof.
  intros Hp HG Hkey Hd. destruct (Reconcile_prepared r res s Hp) as [p ->].
  unfold createOrUpdateWithImmutableSpec, Get, call. run_monad.
  rewrite namedResource_kind, namedResource_key, HG. cbn.
  rewrite (proj2 (mutate_Ok _ _ res o)) by (by rewrite mutateFn_deleting).
  cbn. rewrite DeepEqual_refl. cbn.
  rewrite (bool_decide_true (DeletionTimestamp _ <> None)), orb_true_r by done.
  eexists. split_and!; try done. apply Cache.Contains_RemoveObj.
Qed.

(** a changed immutable spec is replaced by deletion, never by update. *)
Theorem Reconcile_immutable r res s o w' e' o' w'' :
  prepared r = Ok res -> immutableSpec r = true ->
  cl_Get (o_kind res) (ObjectKeyFromObject res) (op_world s) = (inr o, w') ->
  mutate (mutateFn r (op_cache s) res o) (ObjectKeyFromObject res) = Ok (e', o') ->
  DeepEqual_spec (specGetter r o) (specGetter r o') = false ->
  DeepEqual o o' = false ->
  cl_Delete (o_kind o') (ObjectKeyFromObject o') w' = (inr tt, w'') ->
  exists s', Reconcile r s = (Ok (ResourceDeletedResult e' OperationResultDeleted), s') /\
    op_trace s' = op_trace s ++ [CGet (o_kind res) (ObjectKeyFromObject res);
                                 CDelete (o_kind o') (ObjectKeyFromObject res)] /\
    op_world s' = w'' /\ Cache.Contains (op_cache s') o' = false.
Proof.
  intros Hp Hi HG HM HS HE HD. destruct (Reconcile_prepared r res s Hp) as [p ->].
  pose proof (proj2 (proj1 (mutate_Ok _ _ _ _) HM)) as Hkey.
  unfold createOrUpdateWithImmutableSpec, Get, call. run_monad.
  rewrite namedResource_kind, namedResource_key, HG. cbn. rewrite HM. cbn.
  rewrite HE, Hi, HS. cbn. unfold Delete, call. cbn. rewrite HD, Hkey. cbn.
  eexists. split_and!; try done.
  - cbn. by rewrite <- app_assoc.
  - apply Cache.Contains_RemoveObj.
Qed.
End any_client.

(** ** Convergence on a quiet cluster *)

Lemma restored_meta_same e m :
  OwnerReferences m = OwnerReferences (o_meta e) ->
  map_kept (KubeTypes.Labels (o_meta e)) (KubeTypes.Labels m) ->
  map_kept (Annotations (o_meta e)) (Annotations m) ->
  canon_meta (restored_meta e m) = canon_meta m.
Proof.
  intros Ho Hl Ha. unfold canon_meta, restored_meta. cbn. rewrite <- Ho.
  pose proof (update_map_absorb _ _ Hl) as ->. pose proof (update_map_absorb _ _ Ha) as ->. done.
Qed.

Lemma map_kept_equiv a b c : map_kept a b -> b ≡ c -> map_kept a c.
Proof.
  intros Hk Hbc k v Hv. specialize (Hk k v Hv). destruct b as [b|]; [|done]. cbn in Hk.
  unfold equiv, gomap_equiv, canon_map in Hbc.
  rewrite bool_decide_false in Hbc by (intros [= ->]; by rewrite lookup_empty in Hk).
  case_bool_decide; [done|]. by rewrite <- Hbc.
Qed.

Lemma carries_equiv e o o' :
  carries e (o_meta o') -> o ≡ o' -> canon_meta (restored_meta e (o_meta o)) = canon_meta (o_meta o).
Proof.
  intros (Ho & Hl & Ha) Heq. symmetry in Heq. apply restored_meta_same.
  - by rewrite <- (OwnerReferences_proper _ _ Heq).
  - eapply map_kept_equiv; [exact Hl|]. exact (f_equal (fun o => KubeTypes.Labels (o_meta o)) Heq).
  - eapply map_kept_equiv; [exact Ha|]. exact (f_equal (fun o => Annotations (o_meta o)) Heq).
Qed.

Section quiet.
Context `{QuietClient W}.
Implicit Types (r : reconcileBuilder) (s : OpSt W).

(** A state in which reconciling [r] towards [res] has nothing to do. *)
Definition converged r res s : Prop :=
  exists o st, stored (op_world s) (o_kind res) (ObjectKeyFromObject res) = Some o /\
    DeletionTimestamp (o_meta o) = None /\
    canon_meta (restored_meta res (o_meta o)) = canon_meta (o_meta o) /\
    Cache.Contains (op_cache s) o = true /\
    statusFunc r (with_meta o (restored_meta res (o_meta o))) = Ok st.

Lemma Contains_restored c res o :
  Cache.Contains c (with_meta o (restored_meta res (o_meta o))) = Cache.Contains c o.
Proof. done. Qed.

Lemma converged_step r res s :
  prepared r = Ok res -> AlwaysCallUpdateFunc r = false -> converged r res s ->
  exists rr s' o, Reconcile r s = (Ok rr, s') /\ rr_OperationResult rr = OperationResultNone /\
    rr_Resource rr = res /\
    stored (op_world s) (o_kind res) (ObjectKeyFromObject res) = Some o /\
    s' = with_cache (with_world s (op_world s) (CGet (o_kind res) (ObjectKeyFromObject res)))
           (Cache.Add (op_cache s) (with_meta o (restored_meta res (o_meta o)))).
Proof.
  intros Hp Ha (o & st & Ho & Hd & Hc & Hv & Hst).
  destruct (Reconcile_prepared r res s Hp) as [p ->].
  unfold createOrUpdateWithImmutableSpec, Get, call. run_monad.
  rewrite namedResource_kind, namedResource_key, (quiet_get_some _ _ _ _ Ho). cbn.
  destruct (stored_wf _ _ _ _ Ho) as (_ & Hkey & _).
  rewrite (proj2 (mutate_Ok _ _ res (with_meta o (restored_meta res (o_meta o))))).
  2: { split; [|done]. rewrite mutateFn_alive by done. cbn.
       by rewrite Ha, Contains_restored, Hv. }
  cbn. unfold DeepEqual. rewrite bool_decide_true.
  2: { unfold equiv, Object_equiv, canon. cbn. by rewrite Hc. }
  cbn. rewrite (bool_decide_false (DeletionTimestamp _ <> None)) by (rewrite Hd; naive_solver).
  rewrite bool_decide_false, Hst by done. cbn.
  eexists _, _, o. by split_and!.
Qed.

Lemma map_kept_trans a b c : map_kept a b -> map_kept b c -> map_kept a c.
Proof. unfold map_kept. eauto. Qed.

Lemma same_version_refl w k key o :
  stored w k key = Some o -> Cache.same_version o o.
Proof.
  intros (_ & _ & Hrv & _)%stored_wf. split; [done|]. by case_decide.
Qed.

(** The server's copy of a written object needs no further restoring. *)
Lemma persisted_restored r res sent got :
  allowed_call r res (CUpdate sent) -> persisted sent got ->
  canon_meta (restored_meta res (o_meta got)) = canon_meta (o_meta got).
Proof.
  intros (_ & _ & Ho & Hl & Ha & _) Hp. apply restored_meta_same.
  - by rewrite (persisted_owners _ _ Hp).
  - eapply map_kept_trans; [done|]. apply Hp.
  - eapply map_kept_trans; [done|]. apply Hp.
Qed.

(** Writing an allowed object and caching the answer converges. *)
Lemma written_converged r res s sent got c w st :
  Proper ((≡) ==> (=)) (statusFunc r) ->
  allowed_call r res (CUpdate sent) -> persisted sent got ->
  stored w (o_kind sent) (ObjectKeyFromObject sent) = Some got ->
  statusFunc r got = Ok st ->
  op_world s = w -> op_cache s = Cache.Add c got ->
  converged r res s.
Proof.
  intros HP Hal Hp Hst Hs Hw Hc. pose proof (persisted_restored _ _ _ _ Hal Hp) as Hcanon.
  exists got, st. rewrite Hw, Hc. destruct Hal as (Hk & Hkey & _ & _ & _ & Hd).
  rewrite <- Hk, <- Hkey. split_and!; [done| |done| |].
  - by rewrite (persisted_alive _ _ Hp).
  - apply Cache.Contains_Add; [done|]. by eapply same_version_refl.
  - rewrite <- Hs. apply HP. unfold equiv, Object_equiv, canon. cbn. by rewrite Hcanon.
Qed.

Lemma Reconcile_converges_found r res s o rr s1 :
  prepared r = Ok res -> restores (updateFunc r) res -> Proper ((≡) ==> (=)) (statusFunc r) ->
  stored (op_world s) (o_kind res) (ObjectKeyFromObject res) = Some o ->
  DeletionTimestamp (o_meta o) = None ->
  Reconcile r s = (Ok rr, s1) -> rr_OperationResult rr <> OperationResultDeleted ->
  converged r res s1.
Proof.
  intros Hp Hk HP Ho Hal HR Hop. destruct (Reconcile_prepared r res s Hp) as [p HE].
  rewrite HE in HR. clear HE.
  unfold createOrUpdateWithImmutableSpec, Get, call in HR. run_monad.
  rewrite namedResource_kind, namedResource_key in HR.
  rewrite (quiet_get_some _ _ _ _ Ho) in HR. cbn in HR.
  destruct (stored_wf _ _ _ _ Ho) as (Hkind & Hkey & _).
  destruct (mutate _ _) as [[res' obj]|e'|m] eqn:EM; [|done..].
  pose proof (mutate_allowed _ _ _ _ _ _ Hk Hal Hkind EM) as Hallow.
  apply mutate_Ok in EM as [EM _].
  destruct (mutateFn_restores _ _ _ _ _ _ Hk Hal EM) as (Hkind' & Hid & Hcar).
  destruct Hid as (Hn & Hns & Hu & Hv & Hg & Hd). cbn in HR. unfold DeepEqual in HR. case_bool_decide as Heq.
  + cbn in HR. rewrite bool_decide_false, (bool_decide_false (DeletionTimestamp _ <> None)) in HR
      by (rewrite ?Hd, ?Hal; naive_solver). cbn in HR.
    destruct (statusFunc r obj) as [st|?|?] eqn:Est; [|done..]. injection HR as <- <-.
    pose proof (carries_equiv _ _ _ Hcar Heq) as Hcanon.
    exists o, st. cbn. split_and!; [done|done|done| |].
    * apply Cache.Contains_Add.
      -- unfold Cache.cacheKeyFromObj. by rewrite Hn, Hns, Hkind'.
      -- unfold Cache.same_version. rewrite Hu, Hg, Hv. by eapply same_version_refl.
    * rewrite <- Est. apply HP. etransitivity; [|exact Heq].
      unfold equiv, Object_equiv, canon. cbn. by rewrite Hcanon.
  + destruct (immutableSpec r && _); cbn in HR.
    { unfold Delete, call in HR. cbn in HR. destruct (cl_Delete _ _ _) as [[] ?]; [done|].
      cbn in HR. rewrite bool_decide_true in HR by done. cbn in HR. by simplify_eq. }
    unfold Update, call in HR. cbn in HR.
    destruct Hallow as (Hak & Hakey & Hrest).
    rewrite <- Hak, <- Hakey in Ho.
    destruct (quiet_update _ obj o Ho) as (o' & w' & Hup & Hpers & Hst & _); [done|].
    rewrite Hup in HR. cbn in HR.
    rewrite bool_decide_false, (bool_decide_false (DeletionTimestamp _ <> None)) in HR
      by (rewrite ?(persisted_alive _ _ Hpers), ?Hd, ?Hal; naive_solver).
    cbn in HR. destruct (statusFunc r o') as [st|?|?] eqn:Est; [|done..].
    injection HR as <- <-. by eapply (written_converged r res _ obj o').
Qed.

Lemma Reconcile_converges_absent r res s rr s1 :
  prepared r = Ok res -> restores (updateFunc r) res -> Proper ((≡) ==> (=)) (statusFunc r) ->
  stored (op_world s) (o_kind res) (ObjectKeyFromObject res) = None ->
  Reconcile r s = (Ok rr, s1) -> converged r res s1.
Proof.
  intros Hp Hk HP Ho HR. destruct (Reconcile_prepared r res s Hp) as [p HE].
  rewrite HE in HR. clear HE.
  unfold createOrUpdateWithImmutableSpec, Get, call in HR. run_monad.
  rewrite namedResource_kind, namedResource_key in HR.
  destruct (quiet_get_none _ _ _ Ho) as (e & HG & He). rewrite HG in HR. cbn in HR.
  rewrite He in HR. cbn in HR.
  destruct (mutate _ _) as [[res' obj]|e'|m] eqn:EM; [|done..].
  pose proof (mutate_allowed r _ res (namedResource res) _ _ Hk eq_refl
    (namedResource_kind res) EM) as Hallow.
  unfold Create, call in HR. cbn in HR. destruct Hallow as (Hak & Hakey & Hrest).
  rewrite <- Hak, <- Hakey in Ho.
  destruct (quiet_create _ obj Ho) as (o' & w' & Hup & Hpers & Hst & _).
  rewrite Hup in HR. cbn in HR.
  rewrite bool_decide_false, (bool_decide_false (DeletionTimestamp _ <> None)) in HR
    by (rewrite ?(persisted_alive _ _ Hpers); naive_solver).
  cbn in HR. destruct (statusFunc r o') as [st|?|?] eqn:Est; [|done..].
  injection HR as <- <-. by eapply (written_converged r res _ obj o').
Qed.

Lemma Reconcile_converges r res s rr s1 :
  prepared r = Ok res -> restores (updateFunc r) res -> Proper ((≡) ==> (=)) (statusFunc r) ->
  (forall o, stored (op_world s) (o_kind res) (ObjectKeyFromObject res) = Some o ->
     DeletionTimestamp (o_meta o) = None) ->
  Reconcile r s = (Ok rr, s1) -> rr_OperationResult rr <> OperationResultDeleted ->
  converged r res s1.
Proof.
  intros Hp Hk HP Hal HR Hop.
  destruct (stored (op_world s) (o_kind res) (ObjectKeyFromObject res)) as [o|] eqn:Ho;
    eauto using Reconcile_converges_found, Reconcile_converges_absent.
Qed.

(** C3: reconciliation is idempotent. After a reconciliation that did not
    delete, an undisturbed second one only reads the object, changes nothing
    and reports no operation. This holds although the server may have filled
    in defaults, because the version cache remembers the written version. *)
Theorem Reconcile_idempotent r res s rr s1 :
  prepared r = Ok res -> keeps_meta (updateFunc r) -> Proper ((≡) ==> (=)) (statusFunc r) ->
  AlwaysCallUpdateFunc r = false ->
  (forall o, stored (op_world s) (o_kind res) (ObjectKeyFromObject res) = Some o ->
     DeletionTimestamp (o_meta o) = None) ->
  Reconcile r s = (Ok rr, s1) -> rr_OperationResult rr <> OperationResultDeleted ->
  exists rr2 s2, Reconcile r s1 = (Ok rr2, s2) /\ rr_OperationResult rr2 = OperationResultNone /\
    op_trace s2 = op_trace s1 ++ [CGet (o_kind res) (ObjectKeyFromObject res)] /\
    op_world s2 = op_world s1.
Proof.
  intros Hp Hk HP Ha Hal HR Hop.
  destruct (converged_step r res s1 Hp Ha) as (rr2 & s2 & o & H2 & Hn & _ & _ & ->);
    [by eapply Reconcile_converges; eauto using keeps_meta_restores|]. eauto 10.
Qed.
End quiet.

(** ** Absence of panics *)

Section no_panics.
Context `{Client W}.

Definition never_panics {A} (m : Op W A) : Prop := forall s p, (m s).1 <> Panic p.

(** The functions of a builder do not panic on what the builder gives them: an
    object of the right kind whose metadata was restored. *)
Record tame (r : reconcileBuilder) : Prop := {
  tame_update : forall res o, prepared r = Ok res -> o_kind o = o_kind res ->
    no_panic (updateFunc r res (with_meta o (restored_meta res (o_meta o))));
  tame_kind : forall e o e' o', updateFunc r e o = Ok (e', o') -> o_kind o' = o_kind o;
  tame_status : forall o, o_kind o = o_kind (resource r) -> no_panic (statusFunc r o)
}.

Lemma mutate_tame r res cache o key :
  tame r -> prepared r = Ok res -> o_kind o = o_kind res ->
  no_panic (mutate (mutateFn r cache res o) key) /\
  forall e' o', mutate (mutateFn r cache res o) key = Ok (e', o') -> o_kind o' = o_kind res.
Proof.
  intros Ht Hp Hk. destruct (decide (DeletionTimestamp (o_meta o) = None)) as [Hd|Hd].
  - rewrite mutateFn_alive by done. cbv zeta.
    destruct (_ || _).
    + pose proof (tame_update r Ht res o Hp Hk) as Hu.
      pose proof (tame_kind r Ht res (with_meta o (restored_meta res (o_meta o)))) as Hkk.
      destruct (updateFunc r res _) as [[e1 o1]|e|p]; [|done|by destruct (Hu p)].
      specialize (Hkk e1 o1 eq_refl). unfold mutate. cbn. case_bool_decide; [done|].
      split; [done|]. intros e' o' [= _ <-]. rewrite Hkk. apply Hk.
    + unfold mutate. cbn. case_bool_decide; [done|]. split; [done|]. by intros e' o' [= _ <-].
  - rewrite mutateFn_deleting by done. unfold mutate. cbn. case_bool_decide; [done|].
    split; [done|]. by intros e' o' [= _ <-].
Qed.

Lemma createOrUpdate_tame r res s :
  tame r -> prepared r = Ok res ->
  match (createOrUpdateWithImmutableSpec r res (namedResource res) s).1 with
  | Ok (_, _, _, found) => o_kind found = o_kind res
  | Err _ => True
  | Panic _ => False
  end.
Proof.
  intros Ht Hp. unfold createOrUpdateWithImmutableSpec, Get, call. run_monad.
  rewrite namedResource_kind, namedResource_key.
  destruct (cl_Get _ _ _) as [[e|existing] w] eqn:EG; cbn.
  - destruct (IsNotFound e); cbn; [|done].
    destruct (mutate_tame r res (op_cache s) (namedResource res) (ObjectKeyFromObject res) Ht Hp
      (namedResource_kind res)) as [Hn Hk].
    destruct (mutate _ _) as [[res' obj]|e'|m]; [|done|by destruct (Hn m)].
    unfold Create, call. cbn. destruct (cl_Create obj w) as [[|o'] w'] eqn:EC; cbn; [done|].
    rewrite (cl_Create_kind _ _ _ _ EC). by eapply Hk.
  - pose proof (cl_Get_kind _ _ _ _ _ EG) as Hkind.
    destruct (mutate_tame r res (op_cache s) existing (ObjectKeyFromObject res) Ht Hp Hkind)
      as [Hn Hk].
    destruct (mutate _ _) as [[res' obj]|e'|m]; [|done|by destruct (Hn m)].
    specialize (Hk _ _ eq_refl). cbn. destruct (DeepEqual existing obj); [done|].
    destruct (immutableSpec r && _); cbn.
    + unfold Delete, call. cbn. by destruct (cl_Delete _ _ w) as [[] ?].
    + unfold Update, call. cbn. destruct (cl_Update obj w) as [[|o'] w'] eqn:EU; cbn; [done|].
      by rewrite (cl_Update_kind _ _ _ _ EU).
Qed.

Lemma prepared_no_panic r : no_panic (prepared r).
Proof.
  intros p. unfold prepared, setOwner, Owner.SetOwnerAnnotations, Owner.SetControllerReference,
    Owner.validateOwner. destruct (isClusterResource r); run_monad; by repeat case_match.
Qed.

Lemma Reconcile_tame r : tame r -> never_panics (Reconcile r).
Proof.
  intros Ht s p Hpanic. destruct (prepared r) as [res|e|m] eqn:Hp.
  - destruct (Reconcile_prepared r res s Hp) as [pf E]. rewrite E in Hpanic.
    pose proof (createOrUpdate_tame r res s Ht Hp) as Hc.
    destruct (createOrUpdateWithImmutableSpec r res (namedResource res) s)
      as [[[[[op ex] res'] found]|e|m] s1]; cbn in *; [|done|done].
    destruct (_ || _); [done|]. cbn in Hpanic.
    destruct (prepared_keeps r res Hp) as [Hk _]. rewrite Hk in Hc.
    pose proof (tame_status r Ht found Hc) as Hst.
    destruct (statusFunc r found) as [|?|m]; [done|done|by destruct (Hst m)].
  - unfold Reconcile, prepared in *. run_monad. by rewrite Hp in Hpanic.
  - by destruct (prepared_no_panic r m).
Qed.

(** The kinds that [defaultUpdateFunc] handles. *)
Definition default_kind (k : Kind) : bool :=
  contains [KConfigMap; KNamespace; KService; KServiceAccount; KClusterRole; KClusterRoleBinding;
            KRole; KRoleBinding; KDaemonSet; KDeployment; KRoute; KPrometheusRule;
            KServiceMonitor; KNetworkPolicy] k.

Lemma defaultUpdateFunc_no_panic e o :
  default_kind (o_kind e) = true -> o_kind o = o_kind e -> no_panic (defaultUpdateFunc e o).
Proof.
  unfold o_kind, defaultUpdateFunc. intros He Ho p.
  destruct (o_body e), (o_body o); done.
Qed.

Lemma default_tame req cluster res labels :
  default_kind (o_kind res) = true -> o_kind res <> KDeployment ->
  let r := CreateOrUpdate req cluster res in
  tame (match labels with Some (n, c) => WithAppLabels r n c | None => r end).
Proof.
  intros Hk Hd r. set (r' := match labels with Some (n, c) => _ | None => _ end).
  assert (Hr : resource r' = res /\ updateFunc r' = defaultUpdateFunc /\
               statusFunc r' = defaultStatusFunc) by by destruct labels as [[]|].
  destruct Hr as (Hres & Hu & Hs). split.
  - intros e o (Hke & _)%prepared_keeps Ho. rewrite Hu. apply defaultUpdateFunc_no_panic.
    + by rewrite Hke, Hres.
    + done.
  - intros e o e' o'. rewrite Hu. intros [_ ?]%defaultUpdateFunc_keeps_meta. done.
  - intros o. rewrite Hs, Hres. intros Ho p. unfold defaultStatusFunc. rewrite <- Ho in Hd.
    unfold o_kind in Hd. destruct (o_body o); try done. by case_bool_decide.
Qed.

(** the builder with the default update and status functions does not panic,
    whatever the API server answers, on any kind of object that the operands
    reconcile with it. A deployment is the exception: its status function reads
    the replica count without a test. *)
Theorem Reconcile_default_never_panics req cluster res labels :
  default_kind (o_kind res) = true -> o_kind res <> KDeployment ->
  let r := CreateOrUpdate req cluster res in
  never_panics (Reconcile (match labels with Some (n, c) => WithAppLabels r n c | None => r end)).
Proof. intros Hk Hd r. by apply Reconcile_tame, default_tame. Qed.
End no_panics.

(** ** Status functions *)

(** The default status does not depend on nil or empty maps. *)
#[export] Instance defaultStatusFunc_proper : Proper ((≡) ==> (=)) defaultStatusFunc.
Proof.
  intros a b Hab. pose proof (ObjectKeyFromObject_proper _ _ Hab) as Hk.
  pose proof (o_body_proper _ _ Hab) as Hb. unfold equiv, Body_equiv in Hb.
  unfold defaultStatusFunc. injection Hk as -> ->.
  destruct (o_body a), (o_body b); cbn in Hb; simplify_eq; try done.
  match goal with E : dep_Replicas _ = dep_Replicas _ |- _ => by rewrite E end.
Qed.

(** the default status of a deployment: unavailable exactly when replicas
    are wanted and none runs, progressing and degraded exactly when the number
    of running replicas is not the wanted one; it panics only without a replica
    count, which the API server always fills in. *)
Theorem defaultStatusFunc_deployment obj spec st n :
  o_body obj = Deployment spec st -> dep_Replicas spec = Some n ->
  exists rs, defaultStatusFunc obj = Ok rs /\
    (NotAvailable rs = None <-> (n <= 0 \/ ds_AvailableReplicas st <> 0)%Z) /\
    (Progressing rs = None <-> ds_AvailableReplicas st = n) /\
    Degraded rs = Progressing rs.
Proof.
  intros Hb Hn. unfold defaultStatusFunc. rewrite Hb, Hn. eexists. split; [done|]. cbn.
  split_and!; [| |done].
  - destruct (decide (n > 0)%Z) as [H1|H1], (decide (ds_AvailableReplicas st = 0)%Z) as [H2|H2];
      rewrite ?(bool_decide_true (n > 0)%Z), ?(bool_decide_false (n > 0)%Z) by done;
      rewrite ?(bool_decide_true (_ = 0)%Z), ?(bool_decide_false (_ = 0)%Z) by done; cbn;
      split; intros; try done; lia.
  - case_bool_decide; split; intros; try done.
Qed.

(** ** Instances of the theorems on a small cluster *)

Module ResourceWitness.
Definition builder : reconcileBuilder :=
  WithAppLabels (NamespacedResource Samples.request Samples.configMap) "settings"
    Labels.AppComponentTemplating.
Definition expected : Object := match prepared builder with Ok o => o | _ => Samples.configMap end.

(** The same builder for an immutable spec. *)
Definition immutable : reconcileBuilder := ImmutableSpec builder (fun o => Some (o_body o)).

(** Clusters in which the object is being deleted, or has other data. *)
Definition deleting : Object :=
  with_meta expected (with_server (o_meta expected) "u" "7" 1 (Some 3%Z)).
Definition changed : Object :=
  mkObject (o_type expected) (with_server (o_meta expected) "u" "7" 1 None) (ConfigMap None None None).
Definition state (o : Object) : OpSt MemCluster := start (Mem.put Samples.cluster o).

Lemma Reconcile_touches_only_its_resource_witness :
  issued (W := MemCluster) (allowed_call builder expected) (Reconcile builder).
Proof.
  apply Reconcile_touches_only_its_resource; [vm_compute; reflexivity|apply defaultUpdateFunc_keeps_meta].
Defined.

Lemma Reconcile_deleting_witness :
  exists s', Reconcile builder (state deleting) =
      (Ok (ResourceDeletedResult expected OperationResultNone), s') /\
    op_trace s' = [CGet (o_kind expected) (ObjectKeyFromObject expected)] /\
    op_world s' = Mem.put Samples.cluster deleting /\
    Cache.Contains (op_cache s') deleting = false.
Proof.
  apply (Reconcile_deleting builder expected (state deleting) deleting
           (Mem.put Samples.cluster deleting)); [vm_compute; reflexivity..|done].
Defined.

Lemma Reconcile_immutable_witness :
  exists s', Reconcile immutable (state changed) =
      (Ok (ResourceDeletedResult expected OperationResultDeleted), s') /\
    op_trace s' = [CGet KConfigMap (mkKey "kubevirt" "settings");
                   CDelete KConfigMap (mkKey "kubevirt" "settings")] /\
    op_world s' = Mem.remove (Mem.put Samples.cluster changed) KConfigMap
                    (mkKey "kubevirt" "settings") /\
    Cache.Contains (op_cache s') (with_body changed (o_body expected)) = false.
Proof.
  apply (Reconcile_immutable immutable expected (state changed) changed
           (Mem.put Samples.cluster changed) expected
           (with_body changed (o_body expected))); vm_compute; reflexivity.
Defined.

(** The first round creates the object, the second only reads it. *)
Definition round1 := Reconcile builder (start Samples.cluster).
Definition result1 : ReconcileResult :=
  match round1.1 with
  | Ok r => r
  | _ => mkReconcileResult okStatus None expected OperationResultUnset
  end.

Lemma Reconcile_idempotent_witness :
  rr_OperationResult result1 = OperationResultCreated /\
  exists rr2 s2, Reconcile builder round1.2 = (Ok rr2, s2) /\
    rr_OperationResult rr2 = OperationResultNone /\
    op_trace s2 = op_trace round1.2 ++ [CGet (o_kind expected) (ObjectKeyFromObject expected)] /\
    op_world s2 = op_world round1.2.
Proof.
  split; [vm_compute; reflexivity|].
  apply (Reconcile_idempotent builder expected (start Samples.cluster) result1 round1.2).
  - vm_compute; reflexivity.
  - apply defaultUpdateFunc_keeps_meta.
  - apply defaultStatusFunc_proper.
  - done.
  - intros o Ho. by vm_compute in Ho.
  - vm_compute; reflexivity.
  - by vm_compute.
Defined.

Definition deploymentSpec (want : Z) : DeploymentSpec :=
  mkDeploymentSpec (Some want) None
    (mkPodTemplate zeroMeta (mkPodSpec None "" "" [] [] None None [] ∅)) ∅.
Definition deployment (want available : Z) : Object :=
  mkObject (mkTypeMeta "" "") (newMeta "d" "kubevirt")
    (Deployment (deploymentSpec want) (mkDeploymentStatus want available)).

Lemma defaultStatusFunc_deployment_witness :
  exists rs, defaultStatusFunc (deployment 2 0) = Ok rs /\
    (NotAvailable rs = None <-> (2 <= 0 \/ 0 <> 0)%Z) /\
    (Progressing rs = None <-> 0%Z = 2%Z) /\ Degraded rs = Progressing rs.
Proof.
  exact (defaultStatusFunc_deployment (deployment 2 0) (deploymentSpec 2)
           (mkDeploymentStatus 2 0) 2 eq_refl eq_refl).
Defined.

Lemma Reconcile_default_never_panics_witness :
  never_panics (W := MemCluster) (Reconcile builder).
Proof.
  apply (Reconcile_default_never_panics Samples.request false Samples.configMap
           (Some ("settings", Labels.AppComponentTemplating))); [by vm_compute|done].
Defined.
End ResourceWitness.
