(* ===== verification/CleanupProofs.v ===== *)
(** * Correctness of ownership checks and cleanup *)

From S2P Require Import Prelude GoRuntime KubeTypes SspTypes KubeClient Cluster Common Samples Resource.

(** ** Ownership *)

(** An SSP that can own objects: it has a name and a kind, as every SSP read
    from the API has. *)
Definition valid_owner (owner : SSP) : Prop :=
  Name (ssp_meta owner) <> "" /\ tm_Kind (ssp_type owner) <> "".

(** The two ways in which an object refers to its SSP. *)
Definition refers_to (owner : SSP) (m : ObjectMeta) : Prop :=
  Owner.controller_ref owner ∈ OwnerReferences m.
Definition annotated_for (owner : SSP) (m : ObjectMeta) : Prop :=
  Annotations m <> None /\
  map_get (Annotations m) Owner.TypeAnnotation = Owner.owner_type owner /\
  map_get (Annotations m) Owner.NamespacedNameAnnotation = Owner.owner_name owner.

Lemma SetOwnerAnnotations_valid owner m :
  valid_owner owner ->
  exists m', Owner.SetOwnerAnnotations owner m = Ok m' /\
    OwnerReferences m' = OwnerReferences m /\
    map_get (Annotations m') Owner.TypeAnnotation = Owner.owner_type owner /\
    map_get (Annotations m') Owner.NamespacedNameAnnotation = Owner.owner_name owner /\
    Namespace m' = Namespace m /\ Name m' = Name m.
Proof.
  intros [Hn Hk]. unfold Owner.SetOwnerAnnotations. rewrite !bool_decide_false by done.
  eexists. split; [done|]. cbn. unfold map_get. cbn.
  rewrite lookup_insert_eq, lookup_insert_ne, lookup_insert_eq by done. done.
Qed.

Lemma SetControllerReference_fresh owner m :
  Namespace m = Namespace (ssp_meta owner) ->
  Owner.SetControllerReference owner (with_owners m []) =
    Ok (with_owners m [Owner.controller_ref owner]).
Proof.
  intros Hns. unfold Owner.SetControllerReference, Owner.validateOwner. cbn.
  rewrite Hns. case_bool_decide; [done|].
  by rewrite bool_decide_false by (intros []; done).
Qed.

Lemma has_reference_single r refs :
  has_reference [r] refs = Ok (bool_decide (r ∈ refs)).
Proof.
  induction refs as [|x refs IH]; cbn;
    [by rewrite bool_decide_false by apply not_elem_of_nil|].
  rewrite IH. destruct (decide (x = r)) as [->|Hne].
  - rewrite !bool_decide_true by set_solver. done.
  - rewrite (bool_decide_false (x = r)) by done. f_equal. apply bool_decide_ext. set_solver.
Qed.

Lemma annotated_for_dec owner m :
  (bool_decide (Annotations m <> None) &&
   bool_decide (map_get (Annotations m) Owner.TypeAnnotation = Owner.owner_type owner) &&
   bool_decide (map_get (Annotations m) Owner.NamespacedNameAnnotation = Owner.owner_name owner))
  = true <-> annotated_for owner m.
Proof. unfold annotated_for. rewrite !andb_true_iff, !bool_decide_eq_true. tauto. Qed.

(** in the namespace of the SSP an object counts as owned exactly when it
    carries the controller reference or the owner annotations. *)
Theorem isResourceOwned_spec req expected found :
  valid_owner (Instance req) ->
  Namespace (o_meta expected) = Namespace (ssp_meta (Instance req)) ->
  exists b e, isResourceOwned req expected found = Ok (b, e) /\
    ObjectKeyFromObject e = ObjectKeyFromObject expected /\
    (b = true <-> refers_to (Instance req) (o_meta found) \/
                  annotated_for (Instance req) (o_meta found)).
Proof.
  intros Hv Hns. unfold isResourceOwned.
  rewrite (bool_decide_true (Namespace _ = _)) by done.
  rewrite SetControllerReference_fresh by done. cbn.
  destruct (SetOwnerAnnotations_valid (Instance req)
    (with_owners (o_meta expected) [Owner.controller_ref (Instance req)]) Hv)
    as (m' & -> & Hr & Ht & Hn & Hns' & Hname).
  cbn. rewrite Hr. cbn [OwnerReferences with_owners]. rewrite has_reference_single, Ht, Hn. cbn.
  case_bool_decide as E; eexists _, _.
  - split; [done|]. split; [unfold ObjectKeyFromObject; cbn; by rewrite Hns', Hname|]. naive_solver.
  - split; [done|]. split; [unfold ObjectKeyFromObject; cbn; by rewrite Hns', Hname|].
    rewrite annotated_for_dec. naive_solver.
Qed.

(** outside the namespace of the SSP, an expected object without owner
    references makes the check panic as soon as the found object has an owner
    reference: the first expected reference is read without a test. *)
Theorem isResourceOwned_panics req expected found :
  valid_owner (Instance req) ->
  Namespace (o_meta expected) <> Namespace (ssp_meta (Instance req)) ->
  OwnerReferences (o_meta expected) = [] -> OwnerReferences (o_meta found) <> [] ->
  exists msg, isResourceOwned req expected found = Panic msg.
Proof.
  intros Hv Hns He Hf. unfold isResourceOwned.
  rewrite (bool_decide_false (Namespace _ = _)) by done. cbn.
  destruct (SetOwnerAnnotations_valid (Instance req) (o_meta expected) Hv)
    as (m' & -> & Hr & _). cbn. rewrite Hr, He.
  destruct (OwnerReferences (o_meta found)); [done|]. by eexists.
Qed.

(** ** Cleanup, for an arbitrary client *)

Section any_client.
Context `{Client W}.
Implicit Types s : OpSt W.

(** Cleanup deletes nothing but an object that it just read, that belongs to
    this SSP and that is not already being deleted. *)
Lemma Cleanup_trace req res s :
  exists t, op_trace (Cleanup req res s).2 = op_trace s ++ t /\
    forall c, c ∈ t -> is_read c = true \/
      exists found w' e,
        cl_Get (o_kind res) (ObjectKeyFromObject res) (op_world s) = (inr found, w') /\
        c = CDelete (o_kind res) (ObjectKeyFromObject found) /\
        isResourceOwned req res found = Ok (true, e) /\
        DeletionTimestamp (o_meta found) = None.
Proof.
  unfold Cleanup, Get, Delete, call. run_monad.
  destruct (cl_Get _ _ _) as [[err|found] w'] eqn:HG; cbn.
  { exists [CGet (o_kind res) (ObjectKeyFromObject res)].
    destruct (IsNotFound err); (split; [done|]); set_solver. }
  pose proof (cl_Get_kind _ _ _ _ _ HG) as Hk.
  destruct (isResourceOwned req res found) as [[[] e]|e|p] eqn:HO; cbn;
    [|exists [CGet (o_kind res) (ObjectKeyFromObject res)]; split; [done|]; set_solver..].
  case_bool_decide as Hd; cbn;
    [|exists [CGet (o_kind res) (ObjectKeyFromObject res)]; split; [done|]; set_solver].
  exists [CGet (o_kind res) (ObjectKeyFromObject res);
          CDelete (o_kind res) (ObjectKeyFromObject found)].
  rewrite Hk. split.
  - destruct (cl_Delete _ _ _) as [[err|[]] w'']; cbn; [destruct (IsNotFound err)|];
      cbn; by rewrite <- app_assoc.
  - intros c. rewrite !elem_of_cons. intros [->|[->|?]]; [by left|right|set_solver].
    by exists found, w', e.
Qed.
End any_client.

(** ** Cleanup on a quiet cluster *)

Section quiet.
Context `{QuietClient W}.
Implicit Types s : OpSt W.

(** C8: what the answer of cleanup means. When it says deleted, no object of
    this SSP is left under the key; otherwise what is left is on its way out.
    Nothing else in the cluster changes. *)
Theorem Cleanup_complete req res s cr s' :
  Cleanup req res s = (Ok cr, s') ->
  (forall o, stored (op_world s') (o_kind res) (ObjectKeyFromObject res) = Some o ->
     if Deleted cr then exists e, isResourceOwned req res o = Ok (false, e)
     else DeletionTimestamp (o_meta o) <> None) /\
  (forall k key, (k, key) <> (o_kind res, ObjectKeyFromObject res) ->
     stored (op_world s') k key = stored (op_world s) k key).
Proof.
  unfold Cleanup, Get, Delete, call. run_monad.
  destruct (stored (op_world s) (o_kind res) (ObjectKeyFromObject res)) as [o|] eqn:Ho.
  - rewrite (quiet_get_some _ _ _ _ Ho). cbn.
    destruct (stored_wf _ _ _ _ Ho) as (Hk & Hkey & _).
    destruct (isResourceOwned req res o) as [[[] e]|e|p] eqn:HO; cbn; [| |done..].
    + case_bool_decide as Hd; cbn.
      * destruct (quiet_delete _ _ _ _ Ho) as (w' & HD & Hgone & Hrest).
        rewrite Hk, Hkey, HD. cbn. intros [= <- <-]. cbn. split; [|done]. intros o' Ho'. eauto.
      * intros [= <- <-]. cbn. split; [|done]. intros o'. rewrite Ho. by intros [= <-].
    + intros [= <- <-]. cbn. split; [|done]. intros o'. rewrite Ho. intros [= <-]. eauto.
  - destruct (quiet_get_none _ _ _ Ho) as (err & -> & He). cbn. rewrite He. cbn.
    intros [= <- <-]. cbn. split; [|done]. by rewrite Ho.
Qed.

(** Repeating cleanup of an object that vanished reports success. *)
Lemma Cleanup_absent req res s :
  stored (op_world s) (o_kind res) (ObjectKeyFromObject res) = None ->
  exists s', Cleanup req res s = (Ok (mkCleanupResult res true), s') /\
    op_world s' = op_world s.
Proof.
  intros Ho. unfold Cleanup, Get, call. run_monad.
  destruct (quiet_get_none _ _ _ Ho) as (err & -> & He). cbn. rewrite He. by eexists.
Qed.
End quiet.

(** [DeleteAll] and [CleanupResources] call [Cleanup] on every object. *)
Section delete_all.
Context `{Client W}.

(** A call made by cleaning up one of [resources]. *)
Definition cleanup_call (req : Request) (resources : list Object) (c : ApiCall) : Prop :=
  is_read c = true \/
  exists res found e, res ∈ resources /\ o_kind found = o_kind res /\
    c = CDelete (o_kind res) (ObjectKeyFromObject found) /\
    isResourceOwned req res found = Ok (true, e) /\ DeletionTimestamp (o_meta found) = None.

Lemma Cleanup_issued req res resources :
  res ∈ resources -> issued (W := W) (cleanup_call req resources) (Cleanup req res).
Proof.
  intros Hin s. destruct (Cleanup_trace req res s) as (t & Ht & HP).
  exists t. split; [done|]. apply Forall_forall. intros c Hc.
  destruct (HP c Hc) as [?|(found & w' & e & HG & -> & HO & Hd)]; [by left|right].
  exists res, found, e. split_and!; try done. by eapply cl_Get_kind.
Qed.

End delete_all.

(** ** Instances *)

Module CleanupWitness.
Definition foreignRef : OwnerReference := mkOwnerReference "v1" "Pod" "p" "u" None None.
Definition adopted : Object :=
  with_meta Samples.clusterRole (with_owners (o_meta Samples.clusterRole) [foreignRef]).

Lemma valid_owner_sample : valid_owner (Instance Samples.request).
Proof. by split. Qed.

Lemma isResourceOwned_spec_witness :
  exists b e, isResourceOwned Samples.request Samples.configMap Samples.configMap = Ok (b, e) /\
    ObjectKeyFromObject e = ObjectKeyFromObject Samples.configMap /\
    (b = true <-> refers_to Samples.ssp (o_meta Samples.configMap) \/
                  annotated_for Samples.ssp (o_meta Samples.configMap)).
Proof.
  apply (isResourceOwned_spec Samples.request Samples.configMap Samples.configMap);
    [apply valid_owner_sample|done].
Defined.

Lemma isResourceOwned_panics_witness :
  exists msg, isResourceOwned Samples.request Samples.clusterRole adopted = Panic msg.
Proof.
  apply (isResourceOwned_panics Samples.request Samples.clusterRole adopted);
    [apply valid_owner_sample|done..].
Defined.

(** An object that carries the SSP's reference is deleted. *)
Definition owned : Object :=
  with_meta Samples.configMap
    (with_server (with_owners (o_meta Samples.configMap) [Owner.controller_ref Samples.ssp])
       "u" "7" 1 None).
Definition run := Cleanup Samples.request Samples.configMap (start (Mem.put Samples.cluster owned)).
Definition answer : CleanupResult :=
  match run.1 with Ok r => r | _ => mkCleanupResult owned true end.

Lemma Cleanup_complete_witness :
  Deleted answer = false /\
  (forall o, stored (op_world run.2) KConfigMap (mkKey "kubevirt" "settings") = Some o ->
     DeletionTimestamp (o_meta o) <> None).
Proof.
  split; [vm_compute; reflexivity|].
  assert (Hrun : run = (Ok answer, run.2)) by (vm_compute; reflexivity).
  exact (proj1 (Cleanup_complete Samples.request Samples.configMap _ answer run.2 Hrun)).
Defined.
End CleanupWitness.
