(* ===== verification/SspController.v ===== *)
(** * The SSP controller (internal/controllers/ssp_controller.go)

    The state machine of an SSP resource: initialisation, migration of the
    finalizer, deletion, pausing, missing CRDs, reconciliation of the operands
    and the status that reports it. *)

From S2P Require Import Prelude GoRuntime KubeTypes SspTypes KubeClient Cluster Common Architecture Resource.

(** ** Operands (internal/operands/operand.go) *)

Record WatchType := mkWatchType { wt_Object : Kind; Crd : string; WatchFullObject : bool }.

Record Operand (W : Type) := mkOperand {
  operand_Name : string;
  WatchTypes : list WatchType;
  WatchClusterTypes : list WatchType;
  operand_Reconcile : Request -> Op W (list ReconcileResult);
  operand_Cleanup : Request -> Op W (list CleanupResult)
}.
Arguments mkOperand {_}.
Arguments operand_Name {_}.
Arguments WatchTypes {_}.
Arguments WatchClusterTypes {_}.
Arguments operand_Reconcile {_}.
Arguments operand_Cleanup {_}.

(** Calls that write the SSP resource itself. *)
Definition writes_ssp (c : ApiCall) : bool :=
  match c with CUpdateSSP _ | CStatusUpdateSSP _ => true | _ => false end.

(** What the controller relies on: operands leave the SSP resource to it. *)
Class OperandContract {W} (o : Operand W) : Prop := {
  contract_reconcile : forall req,
    issued (fun c => writes_ssp c = false) (operand_Reconcile o req);
  contract_cleanup : forall req,
    issued (fun c => writes_ssp c = false) (operand_Cleanup o req)
}.

Module SspController.
Definition finalizerName : string := "ssp.kubevirt.io/finalizer".
Definition oldFinalizerName : string := "finalize.ssp.kubevirt.io".

(** The fields of [sspController] that do not change after [AddToManager];
    the cache and the last spec are in [OpSt]. *)
Record sspController (W : Type) := mkController {
  operands : list (Operand W);
  topologyMode : string;
  areCrdsMissing : bool;
  olmDeployment : bool;
  sspServiceHostname : string;
  crdList : CrdList
}.
Arguments mkController {_}.
Arguments operands {_}.
Arguments topologyMode {_}.
Arguments areCrdsMissing {_}.
Arguments olmDeployment {_}.
Arguments sspServiceHostname {_}.
Arguments crdList {_}.

Section required_crds.
Context {W : Type}.

Definition getRequiredCrds (operand : Operand W) : list string :=
  filter (fun crd => crd <> "") (Crd <$> WatchTypes operand) ++
  filter (fun crd => crd <> "") (Crd <$> WatchClusterTypes operand).

Definition RequiredCrds (s : sspController W) : list string :=
  concat (getRequiredCrds <$> operands s).

(** [NewSspController] and [AddToManager] *)
Definition NewSspController (topology : string) (ops : list (Operand W)) (olm : bool)
    (hostname : string) (crds : CrdList) : sspController W :=
  mkController ops topology (bool_decide (0 < length (missingCrds crds))) olm hostname crds.
End required_crds.

(** [ctrl.Result] *)
Record Result := mkResult { Requeue : bool }.

Definition isPaused (m : ObjectMeta) : bool :=
  match Annotations m with
  | None => false
  | Some anns =>
      match anns !! OperatorPausedAnnotation with
      | None => false
      | Some pausedStr =>
          match ParseBool pausedStr with
          | None => false
          | Some paused => paused
          end
      end
  end.

Definition isBeingDeleted (m : ObjectMeta) : bool := bool_decide (DeletionTimestamp m <> None).

Definition isInitialized (ssp : SSP) : bool :=
  isBeingDeleted (ssp_meta ssp) || bool_decide (st_Phase (ssp_status ssp) <> PhaseEmpty).

(** Three conditions set one after the other. *)
Definition set_conditions (now : Z) (st : SSPStatus) (cs : list Condition) : SSPStatus :=
  foldl (set_condition now) st cs.

Definition all_false (message : string) : list Condition :=
  [ condition ConditionAvailable ConditionFalse "Available" message;
    condition ConditionProgressing ConditionTrue "Progressing" message;
    condition ConditionDegraded ConditionTrue "Degraded" message ].

Definition prefixResourceTypeAndName (message : string) (resource : Object) : string :=
  tm_Kind (o_type resource) +:+ " " +:+ Namespace (o_meta resource) +:+ "/"
    +:+ Name (o_meta resource) +:+ ": " +:+ message.

(** *** The three conditions of [updateStatus] *)

Definition notAvailable_results (rs : list ReconcileResult) : list ReconcileResult :=
  filter (fun r => NotAvailable (Status r) <> None) rs.
Definition progressing_results (rs : list ReconcileResult) : list ReconcileResult :=
  filter (fun r => Progressing (Status r) <> None) rs.
Definition degraded_results (rs : list ReconcileResult) : list ReconcileResult :=
  filter (fun r => Degraded (Status r) <> None) rs.

Definition count (rs : list ReconcileResult) : string := itoa (Z.of_nat (length rs)).

Definition availableCondition (notAvailable : list ReconcileResult) : Condition :=
  match notAvailable with
  | [] => condition ConditionAvailable ConditionTrue "Available" "All SSP resources are available"
  | [r] => condition ConditionAvailable ConditionFalse "Available"
             (prefixResourceTypeAndName (default "" (NotAvailable (Status r))) (rr_Resource r))
  | _ => condition ConditionAvailable ConditionFalse "Available"
           (count notAvailable +:+ " SSP resources are not available")
  end.

Definition progressingCondition (progressing : list ReconcileResult) : Condition :=
  match progressing with
  | [] => condition ConditionProgressing ConditionFalse "Progressing"
            "No SSP resources are progressing"
  | [r] => condition ConditionProgressing ConditionTrue "Progressing"
             (prefixResourceTypeAndName (default "" (Progressing (Status r))) (rr_Resource r))
  | _ => condition ConditionProgressing ConditionTrue "Progressing"
           (count progressing +:+ " SSP resources are progressing")
  end.

Definition degradedCondition (degraded : list ReconcileResult) : Condition :=
  match degraded with
  | [] => condition ConditionDegraded ConditionFalse "Degraded" "No SSP resources are degraded"
  | [r] => condition ConditionDegraded ConditionTrue "Degraded"
             (prefixResourceTypeAndName (default "" (Degraded (Status r))) (rr_Resource r))
  | _ => condition ConditionDegraded ConditionTrue "Degraded"
           (count degraded +:+ " SSP resources are degraded")
  end.

Section handlers.
Context `{Client W} `{Process}.

(** [s.clearCacheIfNeeded] *)
Definition clearCacheIfNeeded (sspObj : SSP) : Op W bool :=
  s ← get_state;
  if bool_decide (op_lastSspSpec s <> ssp_spec sspObj) then
    _ ← modify_state (fun s => with_lastSspSpec (with_cache s ∅) (ssp_spec sspObj));
    mret true
  else mret false.

Definition clearCache : Op W unit :=
  modify_state (fun s => with_cache (with_lastSspSpec s zeroSpec) ∅).

(** [Status().Update(ctx, instance)]: the instance afterwards, and the error. *)
Definition statusUpdate (i : SSP) : Op W (SSP * option error) :=
  r ← try (StatusUpdateSSP i);
  match r with
  | inl e => mret (i, Some e)
  | inr i' => mret (i', None)
  end.

Definition setSspResourceDeploying (i : SSP) : Op W (SSP * option error) :=
  let st := with_phase (ssp_status i) PhaseDeploying in
  let st := with_observed_generation st (Generation (ssp_meta i)) in
  statusUpdate (with_ssp_status i st).

Definition updateSspResource (i : SSP) : Op W (SSP * option error) :=
  r ← try (UpdateSSP i);
  match r with
  | inl e => mret (i, Some e)
  | inr i' => setSspResourceDeploying i'
  end.

Definition initialize (i : SSP) : Op W (SSP * option error) :=
  updateSspResource (with_ssp_meta i (Finalizers.AddFinalizer (ssp_meta i) finalizerName)).

(** [updateSsp]: replaces the old finalizer; returns also whether it wrote. *)
Definition updateSsp (i : SSP) : Op W (SSP * bool * option error) :=
  if Finalizers.ContainsFinalizer (ssp_meta i) oldFinalizerName then
    let m := Finalizers.RemoveFinalizer (ssp_meta i) oldFinalizerName in
    let m := Finalizers.AddFinalizer m finalizerName in
    '(i, err) ← updateSspResource (with_ssp_meta i m);
    mret (i, bool_decide (err = None), err)
  else mret (i, false, None).

(** Returns the error, if there is one. *)
Definition return_error {A} (a : A) (err : option error) : Op W A :=
  match err with
  | None => mret a
  | Some e => throw e
  end.

(** [s.cleanup] *)
Definition pendingCount (results : list (list CleanupResult)) : nat :=
  length (filter (fun r => Deleted r = false) (concat results)).

Definition cleanup_operands (ops : list (Operand W)) (req : Request)
    : Op W (list (list CleanupResult)) :=
  mapM (fun o => operand_Cleanup o req) ops.

Definition finishDeletion (i : SSP) : Op W unit :=
  let st := with_phase (ssp_status i) PhaseDeleted in
  let st := with_observed_generation st (Generation (ssp_meta i)) in
  '(_, err) ← statusUpdate (with_ssp_status i st);
  match err with
  | None => mret ()
  | Some e => if IsConflict e || IsNotFound e then mret () else throw e
  end.

Definition withoutFinalizers (i : SSP) : SSP :=
  let m := Finalizers.RemoveFinalizer (ssp_meta i) finalizerName in
  with_ssp_meta i (Finalizers.RemoveFinalizer m oldFinalizerName).

Definition cleanup (c : sspController W) (req : Request) : Op W unit :=
  let i := Instance req in
  if Finalizers.ContainsFinalizer (ssp_meta i) finalizerName ||
     Finalizers.ContainsFinalizer (ssp_meta i) oldFinalizerName then
    now ← Now;
    let st := with_phase (ssp_status i) PhaseDeleting in
    let st := with_observed_generation st (Generation (ssp_meta i)) in
    let st := set_conditions now st (all_false "Deleting SSP resources") in
    '(i, err) ← statusUpdate (with_ssp_status i st);
    _ ← return_error () err;
    results ← cleanup_operands (operands c) (with_instance req i);
    if bool_decide (0 < pendingCount results) then
      (* Will retry cleanup on next reconciliation iteration *)
      mret ()
    else
      i ← UpdateSSP (withoutFinalizers i);
      finishDeletion i
  else finishDeletion i.

(** [s.reconcileOperands] *)
Definition reconcileOperands (c : sspController W) (req : Request)
    : Op W (list ReconcileResult) :=
  results ← mapM (fun o => operand_Reconcile o req) (operands c);
  mret (concat results).

(** [preUpdateStatus]: a condition is set only if it has another status. *)
Definition set_unless (now : Z) (st : SSPStatus) (c : Condition) : SSPStatus :=
  if negb (IsStatusConditionPresentAndEqual (st_Conditions st) (cond_Type c) (cond_Status c))
  then set_condition now st c else st.

Definition preUpdateStatus (i : SSP) : Op W (SSP * option error) :=
  now ← Now;
  let operatorVersion := Env.GetOperatorVersion in
  let st := with_phase (ssp_status i) PhaseDeploying in
  let st := with_observed_generation st (Generation (ssp_meta i)) in
  let st := with_operator_versions st operatorVersion in
  let st := with_paused st false in
  let st := foldl (set_unless now) st (all_false "Reconciling SSP resources") in
  statusUpdate (with_ssp_status i st).

(** The status that [updateStatus] writes. *)
Definition reportedStatus (now : Z) (i : SSP) (rs : list ReconcileResult) : SSPStatus :=
  let notAvailable := notAvailable_results rs in
  let progressing := progressing_results rs in
  let degraded := degraded_results rs in
  let st := set_condition now (ssp_status i) (availableCondition notAvailable) in
  let st := set_condition now st (progressingCondition progressing) in
  let st := set_condition now st (degradedCondition degraded) in
  let st := with_paused st false in
  let st := with_observed_generation st (Generation (ssp_meta i)) in
  if bool_decide (notAvailable = []) && bool_decide (progressing = []) &&
     bool_decide (degraded = [])
  then with_observed_version (with_phase st PhaseDeployed) Env.GetOperatorVersion
  else with_phase st PhaseDeploying.

Definition updateStatus (i : SSP) (rs : list ReconcileResult) : Op W (SSP * option error) :=
  now ← Now;
  statusUpdate (with_ssp_status i (reportedStatus now i rs)).

Definition updateStatusMissingCrds (i : SSP) (missing : list string)
    : Op W (SSP * option error) :=
  now ← Now;
  let message := "Required CRDs are missing: " +:+ Join missing ", " in
  statusUpdate (with_ssp_status i (set_conditions now (ssp_status i) (all_false message))).

Definition handleError (i : SSP) (errParam : error) : Op W Result :=
  if IsConflict errParam then
    (* Conflict happens if multiple components modify the same resource.
       Ignore the error and restart reconciliation. *)
    mret (mkResult true)
  else
    now ← Now;
    let errorMsg := "Error: " +:+ Error errParam in
    let st := with_phase (ssp_status i) PhaseDeploying in
    let st := set_conditions now st (all_false errorMsg) in
    _ ← statusUpdate (with_ssp_status i st);
    throw errParam.

Definition setReconcileSucceeded (b : bool) : Op W unit :=
  modify_state (fun s => with_reconcileSucceeded s b).

(** The deferred function of [Reconcile]. *)
Definition deferred {A} (m : Op W A) : Op W A := fun s =>
  match m s with
  | (Err e, s') => (Err e, with_reconcileSucceeded s' false)
  | r => r
  end.

(** The last part of [Reconcile], after the status was written. *)
Definition reconcileAndReport (c : sspController W) (req : Request) : Op W Result :=
  reconciled ← try (reconcileOperands c req);
  match reconciled with
  | inl err => handleError (Instance req) err
  | inr results =>
      '(i, err) ← updateStatus (Instance req) results;
      _ ← return_error () err;
      _ ← setReconcileSucceeded (bool_decide (st_Phase (ssp_status i) = PhaseDeployed));
      mret (mkResult false)
  end.

(** [Reconcile] once the SSP was fetched. *)
Definition reconcileInstance (c : sspController W) (key : ObjectKey) (instance : SSP)
    : Op W Result :=
  sspChanged ← clearCacheIfNeeded instance;
  let req := mkRequest key instance sspChanged (topologyMode c) (crdList c)
               (olmDeployment c) (sspServiceHostname c) in
  if negb (isInitialized instance) then
    '(_, err) ← initialize instance;
    return_error (mkResult false) err
  else
    '(instance, updated, err) ← updateSsp instance;
    if (updated : bool) || bool_decide (err <> None) then
      return_error (mkResult false) err
    else if isBeingDeleted (ssp_meta instance) then
      _ ← cleanup c req;
      _ ← clearCache;
      mret (mkResult false)
    else if isPaused (ssp_meta instance) then
      if st_Paused (ssp_status instance) then mret (mkResult false)
      else
        '(_, err) ← statusUpdate
                      (with_ssp_status instance (with_paused (ssp_status instance) true));
        return_error (mkResult false) err
    else if areCrdsMissing c then
      '(_, err) ← updateStatusMissingCrds instance (missingCrds (crdList c));
      return_error (mkResult false) err
    else if bool_decide (st_ObservedGeneration (ssp_status instance) = 0%Z) ||
            bool_decide (st_ObservedGeneration (ssp_status instance) <>
                         Generation (ssp_meta instance)) then
      '(instance, err) ← preUpdateStatus instance;
      match err with
      | Some err => handleError instance err
      | None => reconcileAndReport c (with_instance req instance)
      end
    else reconcileAndReport c req.

Definition Reconcile (c : sspController W) (key : ObjectKey) : Op W Result := deferred (
  got ← try (GetSSP key);
  match got with
  | inl err => if IsNotFound err then mret (mkResult false) else throw err
  | inr instance => reconcileInstance c key instance
  end).
End handlers.
End SspController.
