(* ===== verification/ControllerProofs.v ===== *)
(** * Correctness of the SSP controller *)

From S2P Require Import Prelude GoRuntime KubeTypes SspTypes KubeClient Cluster Common Architecture Samples Resource SspController.

Import SspController.

(** ** The reported status *)

Lemma filter_nil_Forall {A} (P : A -> Prop) `{forall x, Decision (P x)} l :
  filter P l = [] <-> Forall (fun x => ~ P x) l.
Proof.
  rewrite Forall_forall. split.
  - intros Hf x Hx HP. assert (Hin : x ∈ filter P l) by by apply list_elem_of_filter.
    rewrite Hf in Hin. by apply not_elem_of_nil in Hin.
  - intros HF. destruct (filter P l) as [|x l'] eqn:E; [done|].
    assert (Hin : x ∈ filter P l) by (rewrite E; set_solver).
    apply list_elem_of_filter in Hin as [HP Hx]. by destruct (HF x Hx).
Qed.

Lemma filter_msg_nil {A} (f : A -> StatusMessage) l :
  filter (fun x => f x <> None) l = [] <-> Forall (fun x => f x = None) l.
Proof.
  rewrite filter_nil_Forall. apply Forall_iff. intros x. split; [apply dec_stable|naive_solver].
Qed.

Lemma Forall_success rs :
  Forall (fun r => IsSuccess r = true) rs <->
  notAvailable_results rs = [] /\ progressing_results rs = [] /\ degraded_results rs = [].
Proof.
  unfold notAvailable_results, progressing_results, degraded_results.
  rewrite (filter_msg_nil (fun r => NotAvailable (Status r))),
    (filter_msg_nil (fun r => Progressing (Status r))),
    (filter_msg_nil (fun r => Degraded (Status r))), <- !Forall_and.
  apply Forall_iff. intros r. unfold IsSuccess.
  rewrite !andb_true_iff, !bool_decide_eq_true. tauto.
Qed.

(** The status of a condition that is chosen by whether a list is empty. *)
Lemma availableCondition_status l :
  cond_Type (availableCondition l) = ConditionAvailable /\
  (cond_Status (availableCondition l) = ConditionTrue <-> l = []).
Proof. by destruct l as [|? [|]]. Qed.
Lemma progressingCondition_status l :
  cond_Type (progressingCondition l) = ConditionProgressing /\
  (cond_Status (progressingCondition l) = ConditionFalse <-> l = []).
Proof. by destruct l as [|? [|]]. Qed.
Lemma degradedCondition_status l :
  cond_Type (degradedCondition l) = ConditionDegraded /\
  (cond_Status (degradedCondition l) = ConditionFalse <-> l = []).
Proof. by destruct l as [|? [|]]. Qed.

Lemma set_condition_status now st c t :
  status_of (st_Conditions (set_condition now st c)) t =
  if decide (t = cond_Type c) then Some (cond_Status c) else status_of (st_Conditions st) t.
Proof.
  cbn. case_decide; subst; [apply status_of_set_eq|by apply status_of_set_ne].
Qed.

(** The conditions of a reported status. *)
Lemma reportedStatus_conditions `{Process} now i rs :
  st_Conditions (reportedStatus now i rs) =
  SetStatusCondition now (SetStatusCondition now (SetStatusCondition now
    (st_Conditions (ssp_status i)) (availableCondition (notAvailable_results rs)))
    (progressingCondition (progressing_results rs))) (degradedCondition (degraded_results rs)).
Proof. unfold reportedStatus. by destruct (_ && _). Qed.

Lemma reportedStatus_status_of `{Process} now i rs t :
  status_of (st_Conditions (reportedStatus now i rs)) t =
  match t with
  | ConditionAvailable => Some (cond_Status (availableCondition (notAvailable_results rs)))
  | ConditionProgressing => Some (cond_Status (progressingCondition (progressing_results rs)))
  | ConditionDegraded => Some (cond_Status (degradedCondition (degraded_results rs)))
  | OtherCondition _ => status_of (st_Conditions (ssp_status i)) t
  end.
Proof.
  rewrite reportedStatus_conditions.
  destruct (availableCondition_status (notAvailable_results rs)) as [Ha _].
  destruct (progressingCondition_status (progressing_results rs)) as [Hp _].
  destruct (degradedCondition_status (degraded_results rs)) as [Hd _].
  destruct t.
  - rewrite !status_of_set_ne by congruence. by rewrite <- Ha, status_of_set_eq.
  - rewrite status_of_set_ne by congruence. by rewrite <- Hp, status_of_set_eq.
  - by rewrite <- Hd, status_of_set_eq.
  - rewrite !status_of_set_ne by congruence. done.
Qed.

Lemma reportedStatus_phase `{Process} now i rs :
  (st_Phase (reportedStatus now i rs) = PhaseDeployed <->
   Forall (fun r => IsSuccess r = true) rs) /\
  (st_Phase (reportedStatus now i rs) = PhaseDeployed \/
   st_Phase (reportedStatus now i rs) = PhaseDeploying).
Proof.
  assert (Hph : st_Phase (reportedStatus now i rs) =
    if bool_decide (notAvailable_results rs = [] /\ progressing_results rs = [] /\
                    degraded_results rs = []) then PhaseDeployed else PhaseDeploying).
  { unfold reportedStatus. rewrite <- !bool_decide_and, (bool_decide_ext _ _ (and_assoc _ _ _)).
    by case_bool_decide. }
  rewrite Hph, Forall_success. case_bool_decide; naive_solver.
Qed.

(** C6: the status written after the operands ran. The phase is Deployed exactly
    when every resource is a success, and then the operator version is recorded;
    otherwise it is Deploying. Each condition reflects whether some resource
    reports that problem, conditions of other types are left alone, and there
    stays one condition per type. *)
Theorem reportedStatus_correct `{Process} now i rs :
  let st := reportedStatus now i rs in
  (st_Phase st = PhaseDeployed <-> Forall (fun r => IsSuccess r = true) rs) /\
  (st_Phase st = PhaseDeployed \/ st_Phase st = PhaseDeploying) /\
  (st_Phase st = PhaseDeployed -> st_ObservedVersion st = Env.GetOperatorVersion) /\
  (status_of (st_Conditions st) ConditionAvailable = Some ConditionTrue <->
     Forall (fun r => NotAvailable (Status r) = None) rs) /\
  (status_of (st_Conditions st) ConditionProgressing = Some ConditionFalse <->
     Forall (fun r => Progressing (Status r) = None) rs) /\
  (status_of (st_Conditions st) ConditionDegraded = Some ConditionFalse <->
     Forall (fun r => Degraded (Status r) = None) rs) /\
  (forall n, status_of (st_Conditions st) (OtherCondition n) =
     status_of (st_Conditions (ssp_status i)) (OtherCondition n)) /\
  (Conditions.wf (st_Conditions (ssp_status i)) -> Conditions.wf (st_Conditions st)) /\
  st_Paused st = false /\ st_ObservedGeneration st = Generation (ssp_meta i).
Proof.
  cbv zeta. rewrite !reportedStatus_status_of.
  split_and!; try apply reportedStatus_phase.
  - unfold reportedStatus. by destruct (_ && _).
  - rewrite <- (filter_msg_nil (fun r => NotAvailable (Status r))).
    rewrite <- (proj2 (availableCondition_status (notAvailable_results rs))).
    split; [by intros [=]|by intros ->].
  - rewrite <- (filter_msg_nil (fun r => Progressing (Status r))).
    rewrite <- (proj2 (progressingCondition_status (progressing_results rs))).
    split; [by intros [=]|by intros ->].
  - rewrite <- (filter_msg_nil (fun r => Degraded (Status r))).
    rewrite <- (proj2 (degradedCondition_status (degraded_results rs))).
    split; [by intros [=]|by intros ->].
  - intros n. by rewrite reportedStatus_status_of.
  - intros Hwf. rewrite reportedStatus_conditions. auto with ssp.
  - unfold reportedStatus. by destruct (_ && _).
  - unfold reportedStatus. by destruct (_ && _).
Qed.

(** ** Traces of the handlers *)

Definition is_status_write (c : ApiCall) : Prop := exists i, c = CStatusUpdateSSP i.

Section traces.
Context `{Client W} `{Process}.
Implicit Types (s : OpSt W) (c : sspController W).

Lemma statusUpdate_run (i : SSP) s :
  exists i' err w, statusUpdate i s = (Ok (i', err), with_world s w (CStatusUpdateSSP i)).
Proof.
  unfold statusUpdate, StatusUpdateSSP, call. run_monad.
  destruct (cl_StatusUpdateSSP i (op_world s)) as [[e|i'] w]; cbn; by eexists _, _, _.
Qed.

Lemma finishDeletion_run (i : SSP) s :
  exists i' w r, finishDeletion i s = (r, with_world s w (CStatusUpdateSSP i')).
Proof.
  unfold finishDeletion. unfold mbind, M_bind.
  edestruct statusUpdate_run as (i' & err & w & ->). cbn.
  destruct err as [e|]; [|by eexists _, _, _].
  destruct (_ || _); by eexists _, _, _.
Qed.

Lemma cleanup_operands_issued (P : ApiCall -> Prop) ops req :
  (forall o, o ∈ ops -> issued P (operand_Cleanup o req)) ->
  issued (W := W) P (cleanup_operands ops req).
Proof. intros HP. apply issued_mapM. intros o Ho. by apply HP. Qed.

Lemma pendingCount_zero results :
  pendingCount results = 0 <-> Forall (fun r => Deleted r = true) (concat results).
Proof.
  unfold pendingCount. rewrite length_zero_iff_nil, filter_nil_Forall.
  apply Forall_iff. intros r. destruct (Deleted r); naive_solver.
Qed.

Lemma not_written u t : Forall (fun a => writes_ssp a = false) t -> CUpdateSSP u ∉ t.
Proof. intros HF Hin. rewrite Forall_forall in HF. by specialize (HF _ Hin). Qed.

Lemma update_and_finish_run (i : SSP) s :
  exists t, op_trace ((i ← UpdateSSP i; finishDeletion i) s).2 = op_trace s ++ CUpdateSSP i :: t /\
    Forall is_status_write t.
Proof.
  unfold mbind, M_bind, UpdateSSP, call.
  destruct (cl_UpdateSSP i (op_world s)) as [[e|i2] w2]; cbn.
  - by exists [].
  - destruct (finishDeletion_run i2 (with_world s w2 (CUpdateSSP i))) as (i3 & w3 & r & ->).
    exists [CStatusUpdateSSP i3]. cbn. rewrite <- app_assoc. split; [done|].
    constructor; [by eexists|done].
Qed.

(** The shape of [cleanup]: it stops before the SSP itself is written, or it
    writes it after all operands reported that everything is deleted. *)
Lemma cleanup_run c req s :
  Forall OperandContract (operands c) ->
  exists t, op_trace (cleanup c req s).2 = op_trace s ++ t /\
    (Forall (fun a => forall u, a <> CUpdateSSP u) t \/
     exists s1 s2 i results t1 t2,
       cleanup_operands (operands c) (with_instance req i) s1 = (Ok results, s2) /\
       Forall (fun r => Deleted r = true) (concat results) /\
       op_trace s2 = op_trace s ++ t1 /\ t = t1 ++ CUpdateSSP (withoutFinalizers i) :: t2 /\
       Forall (fun a => forall u, a <> CUpdateSSP u) (t1 ++ t2)).
Proof.
  intros Hops. unfold cleanup. destruct (_ || _); cycle 1.
  { destruct (finishDeletion_run (Instance req) s) as (i' & w & r & ->).
    eexists. split; [done|]. left. by repeat constructor. }
  unfold mbind, M_bind. cbn.
  match goal with |- context [statusUpdate ?i s] =>
    destruct (statusUpdate_run i s) as (i1 & err & w1 & ->) end.
  destruct err as [e|]; cbn; [eexists; split; [done|]; left; by repeat constructor|].
  set (s1 := with_world s w1 _).
  destruct (cleanup_operands (operands c) (with_instance req i1) s1) as [r s2] eqn:E2.
  assert (Hext : extends (fun a => forall u, a <> CUpdateSSP u) s s2).
  { transitivity s1; [apply extends_with_world; [done|reflexivity]|]. change s2 with (r, s2).2.
    rewrite <- E2. eapply issued_mono; [|apply cleanup_operands_issued]; cycle 1.
    - intros o Ho. rewrite Forall_forall in Hops. by apply Hops.
    - intros a Ha u ->. done. }
  destruct Hext as (t1 & Ht1 & HF).
  destruct r as [results|e|p]; cbn; [|exists t1; auto..].
  case_bool_decide as Hp; cbn; [exists t1; auto|].
  destruct (update_and_finish_run (withoutFinalizers i1) s2) as (t2 & Ht2 & HF2).
  exists (t1 ++ CUpdateSSP (withoutFinalizers i1) :: t2). split.
  { rewrite app_assoc, <- Ht1, <- Ht2. done. }
  right. exists s1, s2, i1, results, t1, t2. split_and!; try done.
  - apply pendingCount_zero. lia.
  - apply Forall_app. split; [done|]. eapply Forall_impl; [done|]. intros a [i ->] u. done.
Qed.

Lemma cleanup_finalizer c req s t u :
  Forall OperandContract (operands c) ->
  op_trace (cleanup c req s).2 = op_trace s ++ t -> CUpdateSSP u ∈ t ->
  exists s1 s2 i results t1 t2,
    cleanup_operands (operands c) (with_instance req i) s1 = (Ok results, s2) /\
    Forall (fun r => Deleted r = true) (concat results) /\
    op_trace s2 = op_trace s ++ t1 /\ t = t1 ++ CUpdateSSP u :: t2 /\ u = withoutFinalizers i.
Proof.
  intros Hops Ht Hu. destruct (cleanup_run c req s Hops) as (t' & Ht' & Hcase).
  rewrite Ht' in Ht. apply (inj (app (op_trace s))) in Ht as ->.
  destruct Hcase as [HF|(s1 & s2 & i & results & t1 & t2 & HC & HD & Htr & -> & HF)].
  - rewrite Forall_forall in HF. by destruct (HF _ Hu u).
  - exists s1, s2, i, results, t1, t2.
    assert (u = withoutFinalizers i) as ->; [|done].
    rewrite Forall_forall in HF. apply elem_of_app in Hu as [Hu|[[= Hu]|Hu]%elem_of_cons]; [|done|].
    + destruct (HF (CUpdateSSP u) ltac:(set_solver) u). done.
    + destruct (HF (CUpdateSSP u) ltac:(set_solver) u). done.
Qed.

(** C4: the finalizer that protects the SSP is removed only after the cleanup
    of every operand ran and reported every resource as deleted. This holds
    for every API server, given that operands do not write the SSP. *)
Theorem cleanup_removes_finalizer_last c req s t u :
  Forall OperandContract (operands c) ->
  op_trace (cleanup c req s).2 = op_trace s ++ t -> CUpdateSSP u ∈ t ->
  exists s1 s2 i results t1 t2,
    cleanup_operands (operands c) (with_instance req i) s1 = (Ok results, s2) /\
    Forall (fun r => Deleted r = true) (concat results) /\
    op_trace s2 = op_trace s ++ t1 /\ t = t1 ++ CUpdateSSP u :: t2 /\ u = withoutFinalizers i.
Proof. apply cleanup_finalizer. Qed.
End traces.

(** ** Branches of the reconciliation *)

(** An SSP that needs no migration of its finalizer and is not going away. *)
Record settled (i : SSP) : Prop := {
  settled_initialized : st_Phase (ssp_status i) <> PhaseEmpty;
  settled_finalizer : oldFinalizerName ∉ Finalizers (ssp_meta i);
  settled_alive : DeletionTimestamp (ssp_meta i) = None
}.

Section branches.
Context `{Client W} `{Process}.
Implicit Types (s : OpSt W) (c : sspController W) (i : SSP).

(** The state after the SSP was fetched and the cache was checked. *)
Definition fetched s key i w : OpSt W :=
  let s := with_world s w (CGetSSP key) in
  if bool_decide (op_lastSspSpec s <> ssp_spec i)
  then with_lastSspSpec (with_cache s ∅) (ssp_spec i) else s.

Definition spec_changed s i : bool := bool_decide (op_lastSspSpec s <> ssp_spec i).

Definition request_for c key i changed : Request :=
  mkRequest key i changed (topologyMode c) (crdList c) (olmDeployment c) (sspServiceHostname c).

Lemma clearCacheIfNeeded_run i s :
  clearCacheIfNeeded i s =
  (Ok (spec_changed s i),
   if spec_changed s i then with_lastSspSpec (with_cache s ∅) (ssp_spec i) else s).
Proof. unfold clearCacheIfNeeded, spec_changed. run_monad. by case_bool_decide. Qed.

Lemma Reconcile_fetched c key s i w :
  cl_GetSSP key (op_world s) = (inr i, w) ->
  Reconcile c key s =
  deferred (reconcileInstance c key i) (with_world s w (CGetSSP key)).
Proof.
  intros HG. unfold Reconcile, deferred, GetSSP, call. run_monad. by rewrite HG.
Qed.

Lemma settled_updateSsp i s : settled i -> updateSsp i s = (Ok (i, false, None), s).
Proof.
  intros Hs. unfold updateSsp, Finalizers.ContainsFinalizer.
  rewrite (proj2 (contains_false _ _) (settled_finalizer i Hs)). done.
Qed.

(** What is left to do for a settled SSP. *)
Lemma reconcileInstance_settled c key s i w :
  settled i ->
  reconcileInstance c key i (with_world s w (CGetSSP key)) =
  (if isPaused (ssp_meta i) then
     if st_Paused (ssp_status i) then mret (mkResult false)
     else
       '(_, err) ← statusUpdate (with_ssp_status i (with_paused (ssp_status i) true));
       return_error (mkResult false) err
   else if areCrdsMissing c then
     '(_, err) ← updateStatusMissingCrds i (missingCrds (crdList c));
     return_error (mkResult false) err
   else if bool_decide (st_ObservedGeneration (ssp_status i) = 0%Z) ||
           bool_decide (st_ObservedGeneration (ssp_status i) <> Generation (ssp_meta i)) then
     '(i', err) ← preUpdateStatus i;
     match err with
     | Some err => handleError i' err
     | None => reconcileAndReport c (request_for c key i' (spec_changed s i))
     end
   else reconcileAndReport c (request_for c key i (spec_changed s i))) (fetched s key i w).
Proof.
  intros Hs. unfold reconcileInstance, mbind at 1, M_bind at 1.
  rewrite clearCacheIfNeeded_run. unfold isInitialized, isBeingDeleted.
  rewrite (settled_alive i Hs), (bool_decide_false (None <> None)),
    (bool_decide_true (st_Phase _ <> _)) by (try apply Hs; naive_solver). cbn [negb orb].
  unfold mbind at 1, M_bind at 1. rewrite settled_updateSsp by done.
  cbn [orb]. rewrite (bool_decide_false (None <> None)) by naive_solver.
  rewrite (settled_alive i Hs), (bool_decide_false (None <> None)) by naive_solver. done.
Qed.

(** a paused SSP is not touched: no operand runs, the only write is the
    status that records the pause, and only once. *)
Theorem Reconcile_paused c key s i w :
  cl_GetSSP key (op_world s) = (inr i, w) -> settled i -> isPaused (ssp_meta i) = true ->
  op_trace (Reconcile c key s).2 = op_trace s ++ CGetSSP key ::
    (if st_Paused (ssp_status i) then []
     else [CStatusUpdateSSP (with_ssp_status i (with_paused (ssp_status i) true))]).
Proof.
  intros HG Hs Hp. rewrite (Reconcile_fetched _ _ _ _ _ HG). unfold deferred.
  rewrite reconcileInstance_settled, Hp by done.
  assert (Ht : op_trace (fetched s key i w) = op_trace s ++ [CGetSSP key])
    by (unfold fetched; by case_bool_decide).
  destruct (st_Paused (ssp_status i)); [done|]. unfold mbind, M_bind.
  destruct (statusUpdate_run (with_ssp_status i (with_paused (ssp_status i) true))
    (fetched s key i w)) as (i' & err & w' & ->).
  destruct err; cbn; rewrite Ht, <- app_assoc; done.
Qed.

(** An SSP whose operands are reconciled right after it was fetched. *)
Record ready c i : Prop := {
  ready_settled : settled i;
  ready_unpaused : isPaused (ssp_meta i) = false;
  ready_crds : areCrdsMissing c = false;
  ready_observed : st_ObservedGeneration (ssp_status i) <> 0%Z /\
    st_ObservedGeneration (ssp_status i) = Generation (ssp_meta i)
}.

Lemma Reconcile_ready c key s i w :
  cl_GetSSP key (op_world s) = (inr i, w) -> ready c i ->
  Reconcile c key s =
  deferred (reconcileAndReport c (request_for c key i (spec_changed s i))) (fetched s key i w).
Proof.
  intros HG [Hs Hp Hc [Hg1 Hg2]]. rewrite (Reconcile_fetched _ _ _ _ _ HG). unfold deferred.
  rewrite reconcileInstance_settled by done.
  rewrite Hp, Hc, (bool_decide_false (_ = 0%Z)), (bool_decide_false (_ <> Generation _))
    by naive_solver. done.
Qed.

Lemma reconcileAndReport_Err c req s e s1 :
  reconcileOperands c req s = (Err e, s1) ->
  reconcileAndReport c req s = handleError (Instance req) e s1.
Proof. intros HO. unfold reconcileAndReport, mbind, M_bind, try. by rewrite HO. Qed.

Lemma all_false_status now st msg :
  let cs := st_Conditions (set_conditions now st (all_false msg)) in
  status_of cs ConditionAvailable = Some ConditionFalse /\
  status_of cs ConditionProgressing = Some ConditionTrue /\
  status_of cs ConditionDegraded = Some ConditionTrue.
Proof.
  cbv zeta. unfold set_conditions, all_false. cbn [foldl].
  rewrite !set_condition_status. done.
Qed.

(** C9: how an error of an operand is handled. A conflict, however deeply
    wrapped, only requeues: nothing is written and the metric is untouched.
    Any other error is reported in the status (unavailable, progressing and
    degraded, phase Deploying), returned to the caller and recorded in the
    metric. *)
Theorem Reconcile_operand_error c key s i w e s1 :
  cl_GetSSP key (op_world s) = (inr i, w) -> ready c i ->
  reconcileOperands c (request_for c key i (spec_changed s i)) (fetched s key i w) = (Err e, s1) ->
  (IsConflict e = true -> Reconcile c key s = (Ok (mkResult true), s1)) /\
  (IsConflict e = false -> exists s2 j,
     Reconcile c key s = (Err e, s2) /\
     op_trace s2 = op_trace s1 ++ [CStatusUpdateSSP j] /\
     op_reconcileSucceeded s2 = Some false /\
     ssp_meta j = ssp_meta i /\ ssp_spec j = ssp_spec i /\
     st_Phase (ssp_status j) = PhaseDeploying /\
     status_of (st_Conditions (ssp_status j)) ConditionAvailable = Some ConditionFalse /\
     status_of (st_Conditions (ssp_status j)) ConditionProgressing = Some ConditionTrue /\
     status_of (st_Conditions (ssp_status j)) ConditionDegraded = Some ConditionTrue).
Proof.
  intros HG Hr HO. rewrite (Reconcile_ready _ _ _ _ _ HG Hr).
  unfold deferred. rewrite (reconcileAndReport_Err _ _ _ _ _ HO). cbn [Instance request_for].
  unfold handleError. split; intros Hc; rewrite Hc; [done|].
  unfold mbind, M_bind, Now. cbv beta iota zeta.
  match goal with |- context [statusUpdate ?j s1] =>
    destruct (statusUpdate_run j s1) as (i' & err & w' & ->); exists (with_reconcileSucceeded
      (with_world s1 w' (CStatusUpdateSSP j)) false), j end.
  split; [done|]. split; [done|]. split; [done|]. split; [done|]. split; [done|]. split; [done|].
  apply all_false_status.
Qed.

(** The API server stores the status that is sent. *)
Definition echoes_status : Prop := forall (i i' : SSP) (w w' : W),
  cl_StatusUpdateSSP i w = (inr i', w') -> ssp_status i' = ssp_status i.


(** An SSP that was never seen before gets the finalizer and the phase
    Deploying, in this order, and nothing else happens in that round. *)
Theorem Reconcile_uninitialized c key s i w i1 w1 i2 w2 :
  cl_GetSSP key (op_world s) = (inr i, w) ->
  st_Phase (ssp_status i) = PhaseEmpty -> DeletionTimestamp (ssp_meta i) = None ->
  let u := with_ssp_meta i (Finalizers.AddFinalizer (ssp_meta i) finalizerName) in
  let v := with_ssp_status i1 (with_observed_generation
             (with_phase (ssp_status i1) PhaseDeploying) (Generation (ssp_meta i1))) in
  cl_UpdateSSP u w = (inr i1, w1) -> cl_StatusUpdateSSP v w1 = (inr i2, w2) ->
  exists s', Reconcile c key s = (Ok (mkResult false), s') /\
    op_trace s' = op_trace s ++ [CGetSSP key; CUpdateSSP u; CStatusUpdateSSP v] /\
    finalizerName ∈ Finalizers (ssp_meta u).
Proof.
  intros HG Hph Hd u v HU HV. rewrite (Reconcile_fetched _ _ _ _ _ HG).
  unfold deferred, reconcileInstance, mbind at 1, M_bind at 1. rewrite clearCacheIfNeeded_run.
  unfold isInitialized, isBeingDeleted. rewrite Hd, Hph.
  rewrite (bool_decide_false (None <> None)), (bool_decide_false (PhaseEmpty <> PhaseEmpty))
    by naive_solver. cbn [negb orb].
  unfold initialize, updateSspResource, setSspResourceDeploying, statusUpdate, UpdateSSP,
    StatusUpdateSSP, call. run_monad. fold u.
  destruct (spec_changed _ i); cbn; rewrite HU; cbn; fold v; rewrite HV; cbn;
    eexists; (split; [done|]); cbn; rewrite <- !app_assoc; (split; [done|]);
    apply Finalizers.elem_of_AddFinalizer; by left.
Qed.
End branches.

(** ** Instances on a small cluster *)

Module ControllerWitness.
#[local] Existing Instance Samples.process.

Definition succeeding : Operand MemCluster :=
  mkOperand "ok" [] [] (fun _ => mret [mkReconcileResult okStatus None Samples.configMap
                                          OperationResultNone])
    (fun _ => mret [mkCleanupResult Samples.configMap true]).
Definition failing (e : error) : Operand MemCluster :=
  mkOperand "failing" [] [] (fun _ => throw e) (fun _ => throw e).

Definition controller (o : Operand MemCluster) : sspController MemCluster :=
  NewSspController "HighlyAvailable" [o] false "ssp" (mkCrdList [] []).

Lemma succeeding_contract : Forall OperandContract (operands (controller succeeding)).
Proof. constructor; [|done]. split; intros; apply issued_ret. Qed.

(** SSPs in the states that the theorems distinguish. *)
Definition observed : SSP :=
  with_ssp_status Samples.ssp (with_observed_generation (ssp_status Samples.ssp) 1).
Definition paused : SSP :=
  with_ssp_meta observed (with_annotations (ssp_meta observed)
                            (Some {[ OperatorPausedAnnotation := "true" ]})).
Definition fresh : SSP :=
  mkSSP (ssp_type Samples.ssp) (with_finalizers (ssp_meta Samples.ssp) [])
    (ssp_spec Samples.ssp) zeroStatus.
Definition deleting : SSP :=
  with_ssp_meta observed (with_server (ssp_meta observed) "uid-ssp" "2" 2 (Some 9%Z)).
Definition key : ObjectKey := mkKey "kubevirt" "ssp".
Definition state (i : SSP) : OpSt MemCluster := start (Mem.put_ssp i Mem.empty).

Lemma settled_observed : settled observed.
Proof. split; [done| |done]. apply contains_false. by vm_compute. Qed.
Lemma ready_observed_sample o : ready (controller o) observed.
Proof. split; [apply settled_observed|by vm_compute|by vm_compute|by vm_compute]. Qed.

Lemma Reconcile_paused_witness :
  op_trace (Reconcile (controller succeeding) key (state paused)).2 =
  [CGetSSP key; CStatusUpdateSSP (with_ssp_status paused (with_paused (ssp_status paused) true))].
Proof.
  apply (Reconcile_paused (controller succeeding) key (state paused) paused
           (op_world (state paused))).
  - vm_compute; reflexivity.
  - split; [done| |done]. apply contains_false. by vm_compute.
  - vm_compute; reflexivity.
Defined.

Lemma cleanup_removes_finalizer_last_witness :
  let c := controller succeeding in
  let req := with_instance Samples.request deleting in
  let u := withoutFinalizers (with_ssp_status deleting
    (ssp_status match (cl_StatusUpdateSSP (with_ssp_status deleting
       (set_conditions 2 (with_observed_generation (with_phase (ssp_status deleting) PhaseDeleting) 2)
          (all_false "Deleting SSP resources"))) (op_world (state deleting))).1 with
     inr i => i | inl _ => deleting end)) in
  exists s1 s2 i results t1 t2,
    cleanup_operands (operands c) (with_instance req i) s1 = (Ok results, s2) /\
    Forall (fun r => Deleted r = true) (concat results) /\
    op_trace s2 = [] ++ t1 /\ op_trace (cleanup c req (state deleting)).2 = t1 ++ CUpdateSSP u :: t2 /\
    u = withoutFinalizers i.
Proof.
  intros c req u.
  apply (cleanup_removes_finalizer_last c req (state deleting)).
  - apply succeeding_contract.
  - reflexivity.
  - rewrite list_elem_of_lookup. exists 1. vm_compute; reflexivity.
Defined.

Definition someConflict : error := EWrap "failed to reconcile: " (conflict "x").

Lemma Reconcile_operand_error_witness :
  Reconcile (controller (failing someConflict)) key (state observed) =
  (Ok (mkResult true), fetched (state observed) key observed (op_world (state observed))).
Proof.
  apply (Reconcile_operand_error (controller (failing someConflict)) key (state observed) observed
           (op_world (state observed)) someConflict).
  - vm_compute; reflexivity.
  - apply ready_observed_sample.
  - done.
  - done.
Defined.

Lemma mem_echoes_status : echoes_status (W := MemCluster).
Proof.
  intros i i' w w'. cbn. unfold Mem.status_update_ssp.
  destruct (Mem.stored_ssp w (ssp_key i)); intros; by simplify_eq.
Qed.

Definition results1 : list ReconcileResult :=
  [mkReconcileResult okStatus None Samples.configMap OperationResultNone].
Definition fetched1 : OpSt MemCluster :=
  fetched (state observed) key observed (op_world (state observed)).
Definition stored1 : SSP :=
  with_ssp_status observed (reportedStatus (cl_Now (op_world fetched1)) observed results1).


Definition fresh1 : SSP :=
  with_ssp_meta fresh (Finalizers.AddFinalizer (ssp_meta fresh) finalizerName).
Definition fresh2 : SSP :=
  with_ssp_status fresh1 (with_observed_generation (with_phase (ssp_status fresh1) PhaseDeploying)
                            (Generation (ssp_meta fresh1))).

Lemma Reconcile_uninitialized_witness :
  exists s', Reconcile (controller succeeding) key (state fresh) = (Ok (mkResult false), s') /\
    op_trace s' = [CGetSSP key; CUpdateSSP fresh1; CStatusUpdateSSP fresh2] /\
    finalizerName ∈ Finalizers (ssp_meta fresh1).
Proof.
  apply (Reconcile_uninitialized (controller succeeding) key (state fresh) fresh
           (op_world (state fresh)) fresh1 (Mem.put_ssp fresh1 (op_world (state fresh)))
           fresh2 (Mem.put_ssp fresh2 (Mem.put_ssp fresh1 (op_world (state fresh)))));
    vm_compute; reflexivity.
Defined.
End ControllerWitness.
