(* ===== verification/Semver.v ===== *)
(** * Semantic versions

    The parser and the comparison of [github.com/blang/semver/v4], as vendored,
    with which common templates are compared. *)

From S2P Require Import Prelude GoRuntime.
From Stdlib Require Import Ascii.

Module Semver.

Record PRVersion := mkPRVersion { VersionStr : string; VersionNum : Z; IsNum : bool }.

Record Version := mkVersion {
  Major : Z; Minor : Z; Patch : Z; Pre : list PRVersion; Build : list string }.

Definition is_digit (c : ascii) : bool :=
  (48 <=? nat_of_ascii c)%nat && (nat_of_ascii c <=? 57)%nat.
Definition is_alphanum (c : ascii) : bool :=
  is_digit c || ((97 <=? nat_of_ascii c)%nat && (nat_of_ascii c <=? 122)%nat) ||
  ((65 <=? nat_of_ascii c)%nat && (nat_of_ascii c <=? 90)%nat) || bool_decide (c = "-"%char).

Fixpoint containsOnly (p : ascii -> bool) (s : string) : bool :=
  match s with
  | EmptyString => true
  | String c s' => p c && containsOnly p s'
  end.

Definition hasLeadingZeroes (s : string) : bool :=
  match s with
  | String "0"%char (String _ _) => true
  | _ => false
  end.

(** [strconv.ParseUint(s, 10, 64)] on a string of digits. *)
Fixpoint digits (acc : Z) (s : string) : Z :=
  match s with
  | EmptyString => acc
  | String c s' => digits (acc * 10 + Z.of_nat (nat_of_ascii c - 48)) s'
  end.
Definition ParseUint (s : string) : option Z :=
  if bool_decide (s = "") then None
  else let n := digits 0 s in if (n <? 2 ^ 64)%Z then Some n else None.

(** [strings.IndexRune] with the two parts around the rune. *)
Fixpoint cut (c : ascii) (s : string) : option (string * string) :=
  match s with
  | EmptyString => None
  | String d s' =>
      if bool_decide (c = d) then Some ("", s')
      else '(a, b) ← cut c s'; Some (String d a, b)
  end.

(** [strings.SplitN(s, ".", n)] for [n > 0] *)
Fixpoint SplitN (n : nat) (s : string) : list string :=
  match n with
  | 0 | 1 => [s]
  | S n' => match cut dot s with
            | None => [s]
            | Some (a, b) => a :: SplitN n' b
            end
  end.

Definition NewPRVersion (s : string) : option PRVersion :=
  if bool_decide (s = "") then None
  else if containsOnly is_digit s then
    if hasLeadingZeroes s then None
    else n ← ParseUint s; Some (mkPRVersion "" n true)
  else if containsOnly is_alphanum s then Some (mkPRVersion s 0 false)
  else None.

(** A number without sign and leading zeroes. *)
Definition number (s : string) : option Z :=
  if negb (containsOnly is_digit s) then None
  else if hasLeadingZeroes s then None
  else ParseUint s.

Definition valid_build (s : string) : bool :=
  negb (bool_decide (s = "")) && containsOnly is_alphanum s.

Definition Parse (s : string) : option Version :=
  if bool_decide (s = "") then None
  else match SplitN 3 s with
  | [p0; p1; patchStr] =>
      major ← number p0;
      minor ← number p1;
      let '(patchStr, build) :=
        match cut "+"%char patchStr with
        | Some (a, b) => (a, Split dot b)
        | None => (patchStr, [])
        end in
      let '(patchStr, prerelease) :=
        match cut "-"%char patchStr with
        | Some (a, b) => (a, Split dot b)
        | None => (patchStr, [])
        end in
      patch ← number patchStr;
      pre ← mapM NewPRVersion prerelease;
      if forallb valid_build build then Some (mkVersion major minor patch pre build) else None
  | _ => None
  end.

Fixpoint trim_zeroes (s : string) : string :=
  match s with
  | String "0"%char s' => trim_zeroes s'
  | _ => s
  end.

(** Removes leading zeroes of a part of a version. *)
Definition normalize_part (p : string) : string :=
  if bool_decide (1 < String.length p) then
    let p := trim_zeroes p in
    match p with
    | EmptyString => "0"
    | String c _ => if is_digit c then p else "0" +:+ p
    end
  else p.

Definition has_meta (s : string) : bool :=
  Contains s "+" || Contains s "-".

Definition ParseTolerant (s : string) : option Version :=
  let s := TrimPrefix (TrimSpace s) "v" in
  let parts := normalize_part <$> SplitN 3 s in
  if bool_decide (length parts < 3) then
    if has_meta (default "" (last parts)) then None
    else Parse (Join (parts ++ repeat "0" (3 - length parts)) ".")
  else Parse (Join parts ".").

(** [Compare] of the library returns 1, 0 or -1. *)
Definition PRVersion_compare (v o : PRVersion) : comparison :=
  match IsNum v, IsNum o with
  | true, false => Lt
  | false, true => Gt
  | true, true => (VersionNum v ?= VersionNum o)%Z
  | false, false => String.compare (VersionStr v) (VersionStr o)
  end.

(** The loop over the common part, then the shorter list is smaller. *)
Fixpoint pre_compare (v o : list PRVersion) : comparison :=
  match v, o with
  | [], [] => Eq
  | [], _ => Lt
  | _, [] => Gt
  | x :: v', y :: o' =>
      match PRVersion_compare x y with Eq => pre_compare v' o' | c => c end
  end.

Definition Compare (v o : Version) : comparison :=
  if negb (bool_decide (Major v = Major o)) then
    if (Major o <? Major v)%Z then Gt else Lt
  else if negb (bool_decide (Minor v = Minor o)) then
    if (Minor o <? Minor v)%Z then Gt else Lt
  else if negb (bool_decide (Patch v = Patch o)) then
    if (Patch o <? Patch v)%Z then Gt else Lt
  else match Pre v, Pre o with
       | [], [] => Eq
       | [], _ => Gt
       | _, [] => Lt
       | p, q => pre_compare p q
       end.

(** ** The comparison is a total preorder *)

Lemma string_compare_antisym (a b : string) :
  String.compare b a = CompOpp (String.compare a b).
Proof. apply String.compare_antisym. Qed.

Lemma PRVersion_compare_antisym a b : PRVersion_compare b a = CompOpp (PRVersion_compare a b).
Proof.
  unfold PRVersion_compare. destruct (IsNum a), (IsNum b); [|done..|].
  - apply Z.compare_antisym.
  - apply string_compare_antisym.
Qed.

Lemma pre_compare_antisym a b : pre_compare b a = CompOpp (pre_compare a b).
Proof.
  revert b. induction a as [|x a IH]; intros [|y b]; try done. cbn.
  rewrite PRVersion_compare_antisym, IH. by destruct (PRVersion_compare x y).
Qed.

(** The comparison of versions as a lexicographic comparison. *)
Definition lex (c : comparison) (d : comparison) : comparison :=
  match c with Eq => d | _ => c end.

Definition pre_order (p q : list PRVersion) : comparison :=
  match p, q with
  | [], [] => Eq
  | [], _ => Gt
  | _, [] => Lt
  | p, q => pre_compare p q
  end.

Lemma component_compare a b d :
  (if negb (bool_decide (a = b)) then (if (b <? a)%Z then Gt else Lt) else d) =
  lex (a ?= b)%Z d.
Proof.
  destruct (Z.compare_spec a b) as [->|Hlt|Hlt].
  - by rewrite bool_decide_true.
  - rewrite bool_decide_false by lia. cbn. by rewrite (proj2 (Z.ltb_ge b a)) by lia.
  - rewrite bool_decide_false by lia. cbn. by rewrite (proj2 (Z.ltb_lt b a)) by lia.
Qed.

Lemma Compare_lex v o :
  Compare v o = lex (Major v ?= Major o)%Z (lex (Minor v ?= Minor o)%Z
                  (lex (Patch v ?= Patch o)%Z (pre_order (Pre v) (Pre o)))).
Proof. unfold Compare. rewrite !component_compare. by destruct (Pre v), (Pre o). Qed.

Lemma lex_opp c d : CompOpp (lex c d) = lex (CompOpp c) (CompOpp d).
Proof. by destruct c. Qed.

Lemma pre_order_antisym p q : pre_order q p = CompOpp (pre_order p q).
Proof. destruct p, q; try done. apply pre_compare_antisym. Qed.

(** Swapping the arguments of [Compare] swaps the answer, so that a version is
    newer exactly when the other is older. *)
Lemma Compare_antisym v o : Compare o v = CompOpp (Compare v o).
Proof.
  rewrite !Compare_lex, !lex_opp, pre_order_antisym.
  by rewrite (Z.compare_antisym (Major v)), (Z.compare_antisym (Minor v)),
    (Z.compare_antisym (Patch v)).
Qed.

Lemma Compare_refl v : Compare v v = Eq.
Proof.
  pose proof (Compare_antisym v v) as H. by destruct (Compare v v).
Qed.

End Semver.
