(* ===== verification/Contracts.v ===== *)
(** * The operand contract for code built from the reconcile builder

    Everything that an operand does goes through the builder, cleanup, lists
    and deletions of its own objects; none of these writes the SSP resource. *)

From S2P Require Import Prelude GoRuntime KubeTypes SspTypes Architecture KubeClient Common Resource SspController.

Definition leaves_ssp (c : ApiCall) : Prop := writes_ssp c = false.

Section contracts.
Context `{Client W}.

Lemma Reconcile_leaves_ssp r : issued (W := W) leaves_ssp (Resource.Reconcile r).
Proof.
  unfold Resource.Reconcile, createOrUpdateWithImmutableSpec, Get, Create, Update, Delete.
  solve_issued.
Qed.

Definition is_delete (c : ApiCall) : bool := match c with CDelete _ _ => true | _ => false end.

(** Only a builder with an immutable spec deletes. *)
Lemma Reconcile_no_delete r :
  immutableSpec r = false -> issued (W := W) (fun c => is_delete c = false) (Resource.Reconcile r).
Proof.
  intros Hi. unfold Resource.Reconcile, createOrUpdateWithImmutableSpec, Get, Create, Update, Delete.
  rewrite Hi. cbn [andb]. solve_issued.
Qed.

Lemma Cleanup_leaves_ssp req res : issued (W := W) leaves_ssp (Resource.Cleanup req res).
Proof. unfold Resource.Cleanup, Get, Delete. solve_issued. Qed.

Lemma DeleteAll_leaves_ssp req l : issued (W := W) leaves_ssp (DeleteAll req l).
Proof. apply issued_mapM. intros. apply Cleanup_leaves_ssp. Qed.

Lemma ListOwned_leaves_ssp k req opts : issued (W := W) leaves_ssp (ListOwnedResources k req opts).
Proof. unfold ListOwnedResources, List. solve_issued. Qed.

Lemma CleanupResources_leaves_ssp k req opts :
  issued (W := W) leaves_ssp (CleanupResources k req opts).
Proof.
  unfold CleanupResources. apply issued_bind.
  - apply issued_wrapping, ListOwned_leaves_ssp.
  - intros l. apply issued_mapM. intros o _. apply issued_wrapping, Cleanup_leaves_ssp.
Qed.

Lemma Collect_leaves_ssp req (funcs : list (Request -> Op W ReconcileResult)) :
  Forall (fun f => forall req, issued leaves_ssp (f req)) funcs ->
  issued (W := W) leaves_ssp (CollectResourceStatus req funcs).
Proof.
  intros Hf. apply issued_mapM. intros f Hin. rewrite Forall_forall in Hf. by apply Hf.
Qed.
End contracts.

#[export] Hint Resolve Reconcile_leaves_ssp Cleanup_leaves_ssp DeleteAll_leaves_ssp
  ListOwned_leaves_ssp CleanupResources_leaves_ssp Collect_leaves_ssp : ssp.
