(* ===== verification/NetworkPolicies.v ===== *)
(** * Network policies (internal/networkpolicies/networkpolicies.go) *)

From S2P Require Import Prelude GoRuntime KubeTypes.

Module NetworkPolicies.

Definition LabelVMConsoleProxyKubevirtIo : string := "vm-console-proxy.kubevirt.io".
Definition LabelCDIKubevirtIo : string := "cdi.kubevirt.io".

Record Generator := mkGenerator {
  apiNamespace : string;
  apiLabelKey : string;
  apiLabelValue : string;
  apiPort : Z;
  dnsNamespace : string;
  dnsLabelKey : string;
  dnsLabelValue : string;
  dnsPort : Z
}.

Definition NewKubernetesGenerator : Generator :=
  mkGenerator "kube-system" "component" "kube-apiserver" 6443 "kube-system" "k8s-app" "kube-dns" 53.

Definition NewOpenShiftGenerator : Generator :=
  mkGenerator "openshift-kube-apiserver" "app" "openshift-kube-apiserver" 6443
    "openshift-dns" "dns.operator.openshift.io/daemonset-dns" "default" 5353.

Definition newNetworkPolicy (namespace name : string) (spec : NetworkPolicySpec) : Object :=
  mkObject (mkTypeMeta "NetworkPolicy" "networking.k8s.io/v1") (newMeta name namespace)
    (NetworkPolicy spec).

Definition TCP (port : Z) : NetworkPolicyPort := mkNPPort (Some "TCP") (Some (FromInt32 port)).
Definition UDP (port : Z) : NetworkPolicyPort := mkNPPort (Some "UDP") (Some (FromInt32 port)).
Definition match_label (k v : string) : LabelSelector := mkSelector {[ k := v ]} [].
(** Pods with a label, in every namespace. *)
Definition peer (k v : string) : NetworkPolicyPeer :=
  mkPeer (Some (match_label k v)) (Some (mkSelector ∅ [])).

Definition NewEgressToKubeAPIAndDNS (g : Generator) (namespace labelKey : string)
    (labelValues : list string) : Object :=
  newNetworkPolicy namespace
    ("ssp-operator-allow-egress-to-kube-api-and-dns-" +:+ Join labelValues "-")
    {| np_PodSelector := mkSelector ∅ [mkReq labelKey "In" labelValues];
       np_Ingress := [];
       np_Egress :=
         [ mkEgress [TCP (apiPort g)] [];
           mkEgress [TCP (dnsPort g); UDP (dnsPort g)]
             [mkPeer (Some (match_label (dnsLabelKey g) (dnsLabelValue g)))
                (Some (match_label "kubernetes.io/metadata.name" (dnsNamespace g)))] ];
       np_PolicyTypes := ["Egress"] |}.

Definition NewIngressToVirtTemplateValidatorWebhookAndMetrics (namespace : string) : Object :=
  newNetworkPolicy namespace
    "ssp-operator-allow-ingress-to-virt-template-validator-webhook-and-metrics"
    {| np_PodSelector := match_label "kubevirt.io" "virt-template-validator";
       np_Ingress := [mkIngress [TCP 8443; TCP 9443] []];
       np_Egress := [];
       np_PolicyTypes := ["Ingress"] |}.

Definition NewIngressToVMConsoleProxyAPI (namespace : string) : Object :=
  newNetworkPolicy namespace "ssp-operator-allow-ingress-to-vm-console-proxy-api"
    {| np_PodSelector := match_label LabelVMConsoleProxyKubevirtIo "vm-console-proxy";
       np_Ingress := [mkIngress [TCP 8768] []];
       np_Egress := [];
       np_PolicyTypes := ["Ingress"] |}.

Definition NewIngressToImporterMetrics (namespace : string) : Object :=
  newNetworkPolicy namespace "ssp-operator-allow-ingress-to-importer-metrics"
    {| np_PodSelector := mkSelector {[ LabelCDIKubevirtIo := "importer";
                                       "prometheus.cdi.kubevirt.io" := "true" ]} [];
       np_Ingress := [mkIngress [TCP 8443] [peer LabelCDIKubevirtIo "cdi-deployment"]];
       np_Egress := [];
       np_PolicyTypes := ["Ingress"] |}.

Definition NewIngressFromCDIUploadServerToCDICloneSource (namespace : string) : Object :=
  newNetworkPolicy namespace "ssp-operator-allow-ingress-from-cdi-upload-server-to-cdi-clone-source"
    {| np_PodSelector := match_label LabelCDIKubevirtIo "cdi-upload-server";
       np_Ingress := [mkIngress [TCP 8443] [peer LabelCDIKubevirtIo "cdi-clone-source"]];
       np_Egress := [];
       np_PolicyTypes := ["Ingress"] |}.

Definition NewIngressFromCDIUploadProxyToCDIUploadServer (namespace : string) : Object :=
  newNetworkPolicy namespace "ssp-operator-allow-ingress-from-cdi-upload-proxy-to-cdi-upload-server"
    {| np_PodSelector := match_label LabelCDIKubevirtIo "cdi-upload-server";
       np_Ingress := [mkIngress [TCP 8443] [peer LabelCDIKubevirtIo "cdi-uploadproxy"]];
       np_Egress := [];
       np_PolicyTypes := ["Ingress"] |}.

Definition NewEgressFromCDICloneSourceToCDIUploadServer (namespace : string) : Object :=
  newNetworkPolicy namespace "ssp-operator-allow-egress-from-cdi-clone-source-to-cdi-upload-server"
    {| np_PodSelector := match_label LabelCDIKubevirtIo "cdi-clone-source";
       np_Ingress := [];
       np_Egress := [mkEgress [TCP 8443] [peer LabelCDIKubevirtIo "cdi-upload-server"]];
       np_PolicyTypes := ["Egress"] |}.

Definition NewEgressFromImporterToDataSource (namespace : string) : Object :=
  newNetworkPolicy namespace "ssp-operator-allow-egress-from-importer-to-datasource"
    {| np_PodSelector := match_label LabelCDIKubevirtIo "importer";
       np_Ingress := [];
       np_Egress := [mkEgress [] []];
       np_PolicyTypes := ["Egress"] |}.

(** ** What the policies let through *)

(** A pod with labels [ls] satisfies a selector. *)
Definition requirement_holds (ls : smap) (r : LabelSelectorRequirement) : bool :=
  match ls !! req_Key r with
  | Some v => bool_decide (req_Operator r = "In") && contains (req_Values r) v
  | None => false
  end.
Definition selects (sel : LabelSelector) (ls : smap) : bool :=
  bool_decide (MatchLabels sel ⊆ ls) && forallb (requirement_holds ls) (MatchExpressions sel).

Definition policy_spec (o : Object) : option NetworkPolicySpec :=
  match o_body o with NetworkPolicy s => Some s | _ => None end.

(** A pod with labels [src] in a namespace with labels [ns] matches a list of
    peers; an empty list matches every pod. *)
Definition peers_match (peers : list NetworkPolicyPeer) (src ns : smap) : bool :=
  match peers with
  | [] => true
  | _ => existsb (fun p =>
           default true ((fun s => selects s src) <$> peer_PodSelector p) &&
           default true ((fun s => selects s ns) <$> peer_NamespaceSelector p)) peers
  end.

Definition port_matches (ports : list NetworkPolicyPort) (proto : string) (port : Z) : bool :=
  match ports with
  | [] => true
  | _ => existsb (fun p => bool_decide (npp_Protocol p = Some proto) &&
                           bool_decide (npp_Port p = Some (FromInt32 port))) ports
  end.

(** The ingress traffic that the policies allow to a pod with labels [dst]. *)
Definition ingress_allowed (policies : list Object) (dst src ns : smap) (proto : string) (port : Z)
    : bool :=
  existsb (fun o =>
    match policy_spec o with
    | Some s =>
        selects (np_PodSelector s) dst && contains (np_PolicyTypes s) "Ingress" &&
        existsb (fun r => peers_match (ing_From r) src ns && port_matches (ing_Ports r) proto port)
          (np_Ingress s)
    | None => false
    end) policies.

(** The egress traffic that the policies allow from a pod with labels [src]. *)
Definition egress_allowed (policies : list Object) (src dst ns : smap) (proto : string) (port : Z)
    : bool :=
  existsb (fun o =>
    match policy_spec o with
    | Some s =>
        selects (np_PodSelector s) src && contains (np_PolicyTypes s) "Egress" &&
        existsb (fun r => peers_match (eg_To r) dst ns && port_matches (eg_Ports r) proto port)
          (np_Egress s)
    | None => false
    end) policies.

End NetworkPolicies.
