(* ===== verification/CommonTemplates.v ===== *)
(** * The common templates operand (internal/operands/common-templates) *)

From S2P Require Import Prelude GoRuntime KubeTypes SspTypes Architecture KubeClient Cluster Common Resource SspController Semver.

Module CommonTemplates.

Definition TemplateVersionLabel : string := "template.kubevirt.io/version".
Definition TemplateTypeLabel : string := "template.kubevirt.io/type".
Definition TemplateTypeLabelBaseValue : string := "base".
Definition TemplateArchitectureLabel : string := "template.kubevirt.io/architecture".
Definition TemplateDefaultArchitecture : Arch := AMD64.
Definition TemplateOsLabelPrefix : string := "os.template.kubevirt.io/".
Definition TemplateFlavorLabelPrefix : string := "flavor.template.kubevirt.io/".
Definition TemplateWorkloadLabelPrefix : string := "workload.template.kubevirt.io/".
Definition TemplateDeprecatedAnnotation : string := "template.kubevirt.io/deprecated".
Definition TemplateDataSourceParameterName : string := "DATA_SOURCE_NAME".
(** version.go *)
Definition Version : string := "v0.35.0".

Definition operandName : string := "common-templates".
Definition operandComponent : Labels.AppComponent := Labels.AppComponentTemplating.

(** [GetTemplateArch] (architecture.go) *)
Definition GetTemplateArch (m : ObjectMeta) : outcome Arch :=
  let templateArchLabel := map_get (KubeTypes.Labels m) TemplateArchitectureLabel in
  if bool_decide (templateArchLabel = "") then Ok TemplateDefaultArchitecture
  else ToArch templateArchLabel.

(** The operand's state: the bundled templates by architecture. The labels and
    annotations of a bundled template are taken as a fresh copy in every round;
    in the code the copies of a round share these maps with the bundle, into
    which the application labels and owner annotations are written again in
    every round. *)
Record commonTemplates := mkCommonTemplates { templatesByArch : gmap string (list Object) }.

Definition templates_of (c : commonTemplates) (a : Arch) : list Object :=
  default [] (templatesByArch c !! arch_string a).

Fixpoint collect_by_arch (acc : gmap string (list Object)) (templates : list Object)
    : outcome (gmap string (list Object)) :=
  match templates with
  | [] => Ok acc
  | template :: rest =>
      arch ← wrap_err ("failed to get architecture of template " +:+ Name (o_meta template) +:+ ": ")
               (GetTemplateArch (o_meta template));
      collect_by_arch (<[arch_string arch :=
        default [] (acc !! arch_string arch) ++ [template]]> acc) rest
  end.

Definition New (templates : list Object) : outcome commonTemplates :=
  byArch ← collect_by_arch ∅ templates; mret (mkCommonTemplates byArch).

(** [addArchSuffixToDataSourceParameter]: changes the first such parameter. *)
Fixpoint suffix_parameter (params : list Parameter_) (arch : Arch) : list Parameter_ :=
  match params with
  | [] => []
  | p :: rest =>
      if bool_decide (par_Name p = TemplateDataSourceParameterName) then
        mkParameter (par_Name p) (par_Value p +:+ "-" +:+ arch_string arch) (par_other p) :: rest
      else p :: suffix_parameter rest arch
  end.

Definition addArchSuffixToDataSourceParameter (template : Object) (arch : Arch) : Object :=
  match o_body template with
  | Template objects params => with_body template (Template objects (suffix_parameter params arch))
  | _ => template
  end.

Definition getTemplatesForArchs (c : commonTemplates) (clusterArchs : list Arch) (spec : SSPSpec)
    : list Object :=
  arch ← clusterArchs;
  let templatesForArch := templates_of c arch in
  if negb (multi_arch spec) then templatesForArch
  else (fun t => addArchSuffixToDataSourceParameter t arch) <$> templatesForArch.

Definition operatorIsUpgrading `{Process} (req : Request) : bool :=
  negb (bool_decide (st_ObservedVersion (ssp_status (Instance req)) = Env.GetOperatorVersion)).

(** The number of results that count as a reverted change. *)
Definition reverted (r : ReconcileResult) : bool :=
  match InitialResource r with
  | None => false
  | Some initial =>
      let old := KubeTypes.Labels (o_meta initial) in
      let new := KubeTypes.Labels (o_meta (rr_Resource r)) in
      bool_decide (rr_OperationResult r = OperationResultUpdated) &&
      bool_decide (map_get old TemplateVersionLabel = map_get new TemplateVersionLabel) &&
      bool_decide (map_get old Labels.AppKubernetesVersionLabel =
                   map_get new Labels.AppKubernetesVersionLabel)
  end.

Definition incrementTemplatesRestoredMetric {W} (results : list ReconcileResult) : Op W unit :=
  modify_state (fun s => with_templatesRestored s
    (op_templatesRestored s + Z.of_nat (length (filter (fun r => reverted r = true) results)))).

(** [isPredefinedKey]; the pattern is [^(.*\.)?template\.kubevirt\.io/]. *)
Definition isPredefinedKey (key : string) : bool :=
  bool_decide (key = "description") || bool_decide (key = "tags") ||
  bool_decide (key = "iconClass") || HasPrefix key "openshift.io/" ||
  (HasPrefix key "template.kubevirt.io/" || Contains key ".template.kubevirt.io/").

(** Removes the predefined keys of [found] that are not in [new]. *)
Definition sync_map (found new : gomap) : gomap :=
  filter (fun '(k, _) => ~ (isPredefinedKey k = true /\ map_has new k = false)) <$> found.

Definition syncPredefinedAnnotationsAndLabels (found new : ObjectMeta) : ObjectMeta :=
  with_labels (with_annotations found (sync_map (Annotations found) (Annotations new)))
    (sync_map (KubeTypes.Labels found) (KubeTypes.Labels new)).

Definition updateTemplate : ResourceUpdateFunc := fun newRes foundRes =>
  match o_body newRes, o_body foundRes with
  | Template objects params, Template _ _ =>
      Ok (newRes, mkObject (o_type foundRes)
                    (syncPredefinedAnnotationsAndLabels (o_meta foundRes) (o_meta newRes))
                    (Template objects params))
  | _, _ => Panic "interface conversion"
  end.

(** Labels that a deprecated template loses. *)
Definition is_selection_label (key : string) : bool :=
  HasPrefix key TemplateOsLabelPrefix || HasPrefix key TemplateFlavorLabelPrefix ||
  HasPrefix key TemplateWorkloadLabelPrefix.

(** The update function of [reconcileDeprecateTemplate]; writing to a nil map
    panics. *)
Definition deprecateTemplate : ResourceUpdateFunc := fun newRes foundRes =>
  match o_body foundRes with
  | Template _ _ =>
      match Annotations (o_meta foundRes), KubeTypes.Labels (o_meta foundRes) with
      | None, _ => Panic "assignment to entry in nil map"
      | Some _, None => Panic "assignment to entry in nil map"
      | Some anns, Some ls =>
          let ls := filter (fun '(k, _) => is_selection_label k = false) ls in
          Ok (newRes, with_meta foundRes
                (with_labels (with_annotations (o_meta foundRes)
                                (Some (<[TemplateDeprecatedAnnotation := "true"]> anns)))
                   (Some (<[TemplateDeprecatedAnnotation := "true"]> ls))))
      end
  | _ => Panic "interface conversion"
  end.

Definition deprecatedSelector : list LabelSelectorRequirement :=
  [mkReq TemplateDeprecatedAnnotation "=" ["true"]].
Definition oldTemplatesSelector : list LabelSelectorRequirement :=
  [mkReq TemplateTypeLabel "=" [TemplateTypeLabelBaseValue];
   mkReq TemplateVersionLabel "!=" [Version]].

Section operand.
Context `{Client W} `{Process} `{MapRange}.

Definition templates_namespace (req : Request) : string :=
  ct_Namespace (spec_CommonTemplates (ssp_spec (Instance req))).

(** A [List] whose NotFound error means an empty list. *)
Definition list_accepting_not_found (opts : ListOptions) : Op W (list Object) :=
  got ← try (List KTemplate opts);
  match got with
  | inr items => mret items
  | inl err => if IsNotFound err then mret [] else throw err
  end.

Definition getDeprecatedTemplates (req : Request) : Op W (list Object) :=
  list_accepting_not_found (mkListOptions (templates_namespace req) deprecatedSelector).

Definition reconcileTemplate (template : Object) (req : Request) : Op W ReconcileResult :=
  let template := with_meta template (with_namespace (o_meta template) (templates_namespace req)) in
  Resource.Reconcile
    (UpdateFunc (WithAppLabels (ClusterResource req template) operandName operandComponent)
       updateTemplate).

Definition reconcileTemplatesFuncs (templates : list Object)
    : list (Request -> Op W ReconcileResult) := reconcileTemplate <$> templates.

Definition reconcileDeprecateTemplate (template : Object) (req : Request) : Op W ReconcileResult :=
  Resource.Reconcile
    (UpdateFunc (WithAppLabels (ClusterResource req template) operandName operandComponent)
       deprecateTemplate).

Definition reconcileDeleteTemplate (template : Object) (req : Request) : Op W ReconcileResult :=
  got ← try (Delete KTemplate (ObjectKeyFromObject template));
  match got with
  | inl err =>
      if IsNotFound err then mret (mkReconcileResult okStatus None template OperationResultUnset)
      else throw (EWrap ("error deleting template with non-cluster architecture "
             +:+ Namespace (o_meta template) +:+ "/" +:+ Name (o_meta template) +:+ ": ") err)
  | inr _ => mret (ResourceDeletedResult template OperationResultDeleted)
  end.

(** What happens to a template that is in the cluster but not deployed. *)
Inductive OldTemplate := KeepTemplate | DeleteTemplate | DeprecateTemplate.

Definition old_template_action (latest : Semver.Version) (archs : list Arch) (template : Object)
    : OldTemplate :=
  if bool_decide (DeletionTimestamp (o_meta template) <> None) then KeepTemplate
  else
    let templateArch :=
      match GetTemplateArch (o_meta template) with Ok a => Some a | _ => None end in
    if negb (match templateArch with Some a => contains archs a | None => false end)
    then DeleteTemplate
    else
      let label := map_get (KubeTypes.Labels (o_meta template)) TemplateVersionLabel in
      if negb (bool_decide (label = "")) then
        match Semver.ParseTolerant label with
        | Some version =>
            match Semver.Compare latest version with
            | Gt => DeprecateTemplate
            | _ => KeepTemplate
            end
        | None => DeprecateTemplate
        end
      else DeprecateTemplate.

(** The map [nonDeployedTemplates]: old and owned templates by name, without
    the deployed ones. *)
Definition nonDeployedTemplates (oldTemplates ownedTemplates deployed : list Object)
    : gmap string Object :=
  let add := fun (m : gmap string Object) t => <[Name (o_meta t) := t]> m in
  foldl (fun m t => delete (Name (o_meta t)) m)
    (foldl add (foldl add ∅ oldTemplates) ownedTemplates) deployed.

Definition old_template_funcs (latest : Semver.Version) (archs : list Arch)
    (templates : list (string * Object)) : list (Request -> Op W ReconcileResult) :=
  omap (fun '(_, t) => match old_template_action latest archs t with
                       | KeepTemplate => None
                       | DeleteTemplate => Some (reconcileDeleteTemplate t)
                       | DeprecateTemplate => Some (reconcileDeprecateTemplate t)
                       end) templates.

Definition deprecateOrDeleteOldTemplates (req : Request) (deployed : list Object)
    (archs : list Arch) : Op W (list (Request -> Op W ReconcileResult)) :=
  oldTemplates ← list_accepting_not_found
    (mkListOptions (templates_namespace req) oldTemplatesSelector);
  match Semver.ParseTolerant Version with
  | None => throw (EMsg "invalid version")
  | Some latestTemplateVersion =>
      ownedTemplates ← wrapping "failed to list owned templates: "
        (ListOwnedResources KTemplate req (InNamespace (templates_namespace req)));
      mret (old_template_funcs latestTemplateVersion archs
              (map_range (nonDeployedTemplates oldTemplates ownedTemplates deployed)))
  end.

Definition Reconcile (c : commonTemplates) (req : Request) : Op W (list ReconcileResult) :=
  clusterArchs ← lift (GetSSPArchs (ssp_spec (Instance req)));
  let templates := getTemplatesForArchs c clusterArchs (ssp_spec (Instance req)) in
  reconcileTemplatesResults ← CollectResourceStatus req (reconcileTemplatesFuncs templates);
  _ ← (if negb (operatorIsUpgrading req) && negb (InstanceChanged req)
       then incrementTemplatesRestoredMetric reconcileTemplatesResults else mret ());
  oldTemplateFuncs ← deprecateOrDeleteOldTemplates req templates clusterArchs;
  oldTemplatesResults ← CollectResourceStatus req oldTemplateFuncs;
  mret (reconcileTemplatesResults ++ oldTemplatesResults).

Definition Cleanup (req : Request) : Op W (list CleanupResult) :=
  deprecatedTemplates ← getDeprecatedTemplates req;
  ownedTemplates ← wrapping "failed to list owned templates: "
    (ListOwnedResources KTemplate req noListOptions);
  DeleteAll req (deprecatedTemplates ++ ownedTemplates).

Definition operand (c : commonTemplates) : Operand W :=
  mkOperand operandName [] [mkWatchType KTemplate "" false] (Reconcile c) Cleanup.

End operand.
End CommonTemplates.
