(* ===== verification/CommonTemplatesProofs.v ===== *)
(** * Correctness of the common templates operand *)

From S2P Require Import Prelude GoRuntime KubeTypes SspTypes Architecture KubeClient Cluster Common Samples Resource ResourceProofs SspController Contracts Semver CommonTemplates.

Import CommonTemplates.

#[local] Arguments update_map : simpl never.

(** ** The operand contract *)

Section contract.
Context `{Client W} `{Process} `{MapRange}.

Lemma list_leaves_ssp opts : issued (W := W) leaves_ssp (list_accepting_not_found opts).
Proof. unfold list_accepting_not_found, List. solve_issued. Qed.

Lemma old_funcs_leave_ssp latest archs l :
  Forall (fun f => forall req, issued (W := W) leaves_ssp (f req)) (old_template_funcs latest archs l).
Proof.
  apply Forall_forall. intros f Hin req. unfold old_template_funcs in Hin.
  apply list_elem_of_omap in Hin as ([n t] & _ & Hf).
  destruct (old_template_action latest archs t); simplify_eq.
  - unfold reconcileDeleteTemplate, Delete. solve_issued.
  - apply Reconcile_leaves_ssp.
Qed.

Lemma deprecateOrDelete_leaves_ssp req deployed archs :
  issued (W := W) leaves_ssp (deprecateOrDeleteOldTemplates req deployed archs) /\
  returns (Forall (fun f => forall req, issued (W := W) leaves_ssp (f req)))
    (deprecateOrDeleteOldTemplates req deployed archs).
Proof.
  unfold deprecateOrDeleteOldTemplates. split.
  - apply issued_bind; [apply list_leaves_ssp|intros old].
    destruct (Semver.ParseTolerant Version); [|apply issued_throw].
    apply issued_bind; [apply issued_wrapping, ListOwned_leaves_ssp|intros; apply issued_ret].
  - eapply returns_bind; [apply returns_true|intros old _].
    destruct (Semver.ParseTolerant Version); [|apply returns_throw].
    eapply returns_bind; [apply returns_true|intros owned _].
    apply returns_ret, old_funcs_leave_ssp.
Qed.

#[global] Instance commonTemplates_contract c : OperandContract (operand (W := W) c).
Proof.
  split; intros req; cbn.
  - unfold CommonTemplates.Reconcile. apply issued_bind; [apply issued_lift|intros archs].
    apply issued_bind.
    { apply Collect_leaves_ssp. apply Forall_fmap, Forall_forall. intros t _ req'.
      apply Reconcile_leaves_ssp. }
    intros rs. apply issued_bind; [destruct (_ && _); solve_issued|intros _].
    eapply issued_bind_returns; [apply deprecateOrDelete_leaves_ssp..|intros funcs Hf].
    apply issued_bind; [by apply Collect_leaves_ssp|intros; apply issued_ret].
  - unfold CommonTemplates.Cleanup. apply issued_bind; [apply list_leaves_ssp|intros l1].
    apply issued_bind; [apply issued_wrapping, ListOwned_leaves_ssp|intros l2].
    apply DeleteAll_leaves_ssp.
Qed.

(** ** Deprecation *)

Lemma prepared_labels_some r res :
  appLabels r <> None -> prepared r = Ok res -> KubeTypes.Labels (o_meta res) <> None.
Proof.
  intros Ha (_ & _ & _ & ->)%setOwner_keeps. unfold add_app_labels.
  by destruct (appLabels r) as [[]|].
Qed.

Lemma prepared_annotations_some r res :
  isClusterResource r = true -> prepared r = Ok res -> Annotations (o_meta res) <> None.
Proof.
  unfold prepared, setOwner. intros ->. intros (m & Hm & [= <-])%outcome_bind_Ok.
  by apply Owner.SetOwnerAnnotations_Ok in Hm as ->.
Qed.

Lemma update_map_some e f : e <> None -> update_map e f <> None.
Proof. destruct e, f; done. Qed.

Lemma deprecate_tame template req :
  o_kind template = KTemplate ->
  tame (UpdateFunc (WithAppLabels (ClusterResource req template) operandName operandComponent)
          deprecateTemplate).
Proof.
  intros Hk. set (r := UpdateFunc _ _). split.
  - intros res o Hp Ho p. change (updateFunc r) with deprecateTemplate. unfold deprecateTemplate.
    pose proof (prepared_annotations_some r res eq_refl Hp) as Ha.
    pose proof (prepared_labels_some r res ltac:(done) Hp) as Hl.
    apply prepared_keeps in Hp as (Hkr & _). rewrite Hkr in Ho. cbn in Ho. rewrite Hk in Ho.
    unfold o_kind in Ho. cbn. destruct (o_body o); try done.
    pose proof (update_map_some _ (Annotations (o_meta o)) Ha).
    pose proof (update_map_some _ (KubeTypes.Labels (o_meta o)) Hl).
    repeat case_match; congruence.
  - intros e o e' o'. cbn. unfold deprecateTemplate, o_kind.
    destruct (o_body o) eqn:E; try done. repeat case_match; try done.
    intros [= _ <-]. cbn. by rewrite E.
  - intros o Ho p. cbn in Ho. cbn. unfold defaultStatusFunc. rewrite Hk in Ho. unfold o_kind in Ho.
    by destruct (o_body o).
Qed.

(** deprecating a template writes to the labels and annotations of the found
    object without testing for nil maps; this never panics, because owner
    annotations and application labels were restored on it just before. *)
Theorem deprecate_never_panics template req :
  o_kind template = KTemplate -> never_panics (W := W) (reconcileDeprecateTemplate template req).
Proof. intros Hk. by apply Reconcile_tame, deprecate_tame. Qed.
End contract.

(** ** Synchronising predefined labels and annotations *)

Lemma sync_map_lookup found new k v :
  (sync_map found new ≫= lookup k) = Some v <->
  (found ≫= lookup k) = Some v /\ (isPredefinedKey k = true -> map_has new k = true).
Proof.
  unfold sync_map. destruct found as [f|]; cbn; [|naive_solver].
  rewrite map_lookup_filter_Some. destruct (isPredefinedKey k), (map_has new k); naive_solver.
Qed.

Lemma map_has_lookup m k : map_has m k = true <-> exists v, (m ≫= lookup k) = Some v.
Proof. unfold map_has. by rewrite bool_decide_eq_true. Qed.

(** after a bundled template was applied to a found one, the predefined
    labels and annotations are exactly the bundled ones, stale predefined keys
    are gone, and keys that are not predefined keep the bundled value or else
    the value the user gave them. *)
Theorem template_keys_synchronised e o e' o' k :
  updateTemplate e (with_meta o (restored_meta e (o_meta o))) = Ok (e', o') ->
  let final m m0 :=
    (m ≫= lookup k : option string) =
      match m0 e ≫= lookup k with
      | Some v => Some v
      | None => if isPredefinedKey k then None else m0 o ≫= lookup k
      end in
  final (KubeTypes.Labels (o_meta o')) (fun x => KubeTypes.Labels (o_meta x)) /\
  final (Annotations (o_meta o')) (fun x => Annotations (o_meta x)).
Proof.
  unfold updateTemplate. cbn [o_body with_meta].
  destruct (o_body e); try done. destruct (o_body o); try done. intros [= <- <-]. cbv zeta.
  cbn [o_meta syncPredefinedAnnotationsAndLabels with_labels with_annotations KubeTypes.Labels
       Annotations restored_meta with_meta with_owners].
  assert (Hgen : forall me mo : gomap,
    (sync_map (update_map me mo) me ≫= lookup k) =
    match me ≫= lookup k with
    | Some v => Some v
    | None => if isPredefinedKey k then None else mo ≫= lookup k
    end); [|split; apply Hgen].
  intros me mo. apply option_eq. intros v. rewrite sync_map_lookup, map_has_lookup.
  destruct (me ≫= lookup k) as [w|] eqn:E.
  - rewrite (update_map_kept me mo k w E). naive_solver.
  - rewrite update_map_foreign by done. destruct (isPredefinedKey k); naive_solver.
Qed.

(** ** Old templates *)

(** what happens to a template that is in the cluster but not deployed. One
    that is already being deleted is left alone; one of a foreign or unknown
    architecture is deleted; of the rest, those without a parsable version and
    those older than the bundle are deprecated, and no others. *)
Theorem old_template_action_spec latest archs t :
  match old_template_action latest archs t with
  | KeepTemplate =>
      DeletionTimestamp (o_meta t) <> None \/
      exists a v, GetTemplateArch (o_meta t) = Ok a /\ a ∈ archs /\
        Semver.ParseTolerant (map_get (KubeTypes.Labels (o_meta t)) TemplateVersionLabel) = Some v /\
        Semver.Compare latest v <> Gt
  | DeleteTemplate =>
      DeletionTimestamp (o_meta t) = None /\
      forall a, GetTemplateArch (o_meta t) = Ok a -> a ∉ archs
  | DeprecateTemplate =>
      DeletionTimestamp (o_meta t) = None /\
      (exists a, GetTemplateArch (o_meta t) = Ok a /\ a ∈ archs) /\
      forall v, Semver.ParseTolerant (map_get (KubeTypes.Labels (o_meta t)) TemplateVersionLabel) =
        Some v -> map_get (KubeTypes.Labels (o_meta t)) TemplateVersionLabel <> "" ->
        Semver.Compare latest v = Gt
  end.
Proof.
  unfold old_template_action. case_bool_decide as Hd; [by left|].
  destruct (GetTemplateArch (o_meta t)) as [a|e|p] eqn:Ea; cbn; [|naive_solver..].
  destruct (contains archs a) eqn:Ec; cbn;
    [apply contains_true in Ec|apply contains_false in Ec; naive_solver].
  case_bool_decide as Hl; cbn; [naive_solver|].
  destruct (Semver.ParseTolerant _) as [v|] eqn:Ev; [|naive_solver].
  destruct (Semver.Compare latest v) eqn:Ecmp; [right|right|naive_solver];
    exists a, v; split_and!; try done; congruence.
Qed.

(** ** The bundle *)

Definition wf_bundle (c : commonTemplates) : Prop := forall a t,
  t ∈ templates_of c a -> GetTemplateArch (o_meta t) = Ok a.

Lemma collect_by_arch_spec acc templates byArch :
  collect_by_arch acc templates = Ok byArch ->
  forall a, default [] (byArch !! arch_string a) =
    default [] (acc !! arch_string a) ++
    filter (fun t => GetTemplateArch (o_meta t) = Ok a) templates.
Proof.
  revert acc. induction templates as [|t ts IH]; intros acc; cbn [collect_by_arch].
  - intros [= <-] a. by rewrite app_nil_r.
  - intros (b & Hb & Hts)%outcome_bind_Ok a. rewrite (IH _ Hts a).
    assert (Hb' : GetTemplateArch (o_meta t) = Ok b) by (unfold wrap_err in Hb; by case_match).
    rewrite filter_cons. destruct (decide (a = b)) as [->|Hne].
    + rewrite lookup_insert_eq, decide_True by done. cbn. by rewrite <- app_assoc.
    + rewrite lookup_insert_ne by (intros E%arch_string_inj; congruence).
      by rewrite decide_False by congruence.
Qed.

(** loading the bundle sorts the templates by architecture without losing,
    duplicating or reordering any; it fails exactly when some template names an
    unknown architecture. *)
Theorem New_partitions templates :
  match CommonTemplates.New templates with
  | Ok c => forall a, templates_of c a =
              filter (fun t => GetTemplateArch (o_meta t) = Ok a) templates
  | Err _ => Exists (fun t => ~ is_Ok (GetTemplateArch (o_meta t))) templates
  | Panic _ => False
  end.
Proof.
  unfold CommonTemplates.New.
  assert (Hgen : forall acc, match collect_by_arch acc templates with
    | Ok _ => True
    | Err _ => Exists (fun t => ~ is_Ok (GetTemplateArch (o_meta t))) templates
    | Panic _ => False end).
  { induction templates as [|t ts IH]; intros acc; cbn; [done|].
    destruct (GetTemplateArch (o_meta t)) as [a|e|p] eqn:E; cbn.
    - specialize (IH (<[arch_string a := default [] (acc !! arch_string a) ++ [t]]> acc)).
      destruct (collect_by_arch _ ts); [done|by apply Exists_cons_tl|done].
    - apply Exists_cons_hd. rewrite E. by intros [? ?].
    - unfold GetTemplateArch in E. case_bool_decide; [done|]. by destruct (ToArch_no_panic _ _ E). }
  specialize (Hgen ∅). destruct (collect_by_arch ∅ templates) as [m|e|p] eqn:E; [|done..].
  cbn. intros a. unfold templates_of. cbn. by rewrite (collect_by_arch_spec _ _ _ E).
Qed.

(** ** Deployed templates are safe *)

Lemma foldl_add_spec (l : list Object) (m : gmap string Object) n t :
  foldl (fun m t => <[Name (o_meta t) := t]> m) m l !! n = Some t ->
  m !! n = Some t \/ (t ∈ l /\ Name (o_meta t) = n).
Proof.
  revert m. induction l as [|x l IH]; intros m; cbn; [auto|]. intros [Hm|[Hin Hn]]%IH.
  - rewrite lookup_insert_Some in Hm. destruct Hm as [[<- <-]|[_ Hm]]; [|auto].
    right. split; [set_solver|done].
  - right. split; [set_solver|done].
Qed.

Lemma foldl_delete_spec (l : list Object) (m : gmap string Object) n :
  foldl (fun m t => delete (Name (o_meta t)) m) m l !! n =
  if decide (n ∈ (fun t => Name (o_meta t)) <$> l) then None else m !! n.
Proof.
  revert m. induction l as [|x l IH]; intros m; cbn.
  - by rewrite decide_False by set_solver.
  - rewrite IH. destruct (decide (n = Name (o_meta x))) as [->|Hne].
    + rewrite lookup_delete_eq. repeat case_decide; set_solver.
    + rewrite lookup_delete_ne by done.
      destruct (decide (n ∈ (fun t => Name (o_meta t)) <$> l)).
      * by rewrite decide_True by set_solver.
      * by rewrite decide_False by set_solver.
Qed.

(** the templates that are deleted or deprecated come from the cluster and
    never bear the name of a template that this round deploys. *)
Theorem nonDeployed_safe old owned deployed n t :
  nonDeployedTemplates old owned deployed !! n = Some t ->
  Name (o_meta t) = n /\ n ∉ ((fun t => Name (o_meta t)) <$> deployed) /\ (t ∈ old \/ t ∈ owned).
Proof.
  unfold nonDeployedTemplates. rewrite foldl_delete_spec. case_decide as Hn; [done|].
  intros [[?|[Hin Hname]]%foldl_add_spec|[Hin Hname]]%foldl_add_spec; [done|auto..].
Qed.

Module CommonTemplatesWitness.
Definition template (name version : string) : Object :=
  mkObject (mkTypeMeta "" "") (with_labels (newMeta name "openshift")
    (Some {[ TemplateVersionLabel := version; "description" := "x" ]})) (Template ["{}"] []).

Lemma deprecate_never_panics_witness :
  never_panics (W := MemCluster) (reconcileDeprecateTemplate (template "a" "v0.1.0") Samples.request).
Proof. by apply deprecate_never_panics. Defined.

Definition found : Object :=
  with_meta (template "a" "v0.1.0") (with_annotations (o_meta (template "a" "v0.1.0"))
    (Some {[ "openshift.io/stale" := "1"; "mine" := "2" ]})).
Definition updated : Object :=
  match updateTemplate (template "a" "v0.35.0")
          (with_meta found (restored_meta (template "a" "v0.35.0") (o_meta found))) with
  | Ok (_, o) => o
  | _ => found
  end.

Lemma template_keys_synchronised_witness :
  (Annotations (o_meta updated) ≫= lookup "openshift.io/stale") = None /\
  (Annotations (o_meta updated) ≫= lookup "mine") = Some "2".
Proof.
  split.
  - apply (template_keys_synchronised (template "a" "v0.35.0") found (template "a" "v0.35.0") updated
             "openshift.io/stale"). vm_compute; reflexivity.
  - apply (template_keys_synchronised (template "a" "v0.35.0") found (template "a" "v0.35.0") updated
             "mine"). vm_compute; reflexivity.
Defined.

Lemma nonDeployed_safe_witness :
  Name (o_meta (template "b" "v0.1.0")) = "b" /\
  "b" ∉ ((fun t => Name (o_meta t)) <$> [template "a" "v0.35.0"]) /\
  (template "b" "v0.1.0" ∈ [template "b" "v0.1.0"] \/ template "b" "v0.1.0" ∈ []).
Proof.
  apply (nonDeployed_safe [template "b" "v0.1.0"] [] [template "a" "v0.35.0"]).
  vm_compute; reflexivity.
Defined.
End CommonTemplatesWitness.
