(* ===== verification/Json.v ===== *)
(** * JSON values

    Unstructured objects as the decoders of the libraries produce them
    ([interface{}] holding maps, slices, strings, numbers, booleans and nil),
    and the accessors of [unstructured] that the code uses. *)

From S2P Require Import Prelude GoRuntime.

(** Numbers without a fraction are integers; [JFloat m e] is the [float64]
    [m * 2 ^ e]. *)
Inductive json :=
| JNull
| JBool (b : bool)
| JInt (z : Z)
| JFloat (m e : Z)
| JString (s : string)
| JArray (l : list json)
| JObject (fields : list (string * json)).

Module Json.

(** [m[field]] on a decoded object. *)
Fixpoint get (fields : list (string * json)) (k : string) : option json :=
  match fields with
  | [] => None
  | (k', v) :: rest => if bool_decide (k = k') then Some v else get rest k
  end.

Definition go_type (j : json) : string :=
  match j with
  | JNull => "<nil>"
  | JBool _ => "bool"
  | JInt _ => "int64"
  | JFloat _ _ => "float64"
  | JString _ => "string"
  | JArray _ => "[]interface {}"
  | JObject _ => "map[string]interface {}"
  end.

Definition accessor_error (field : string) (j : json) (expected : string) : error :=
  EMsg ("." +:+ field +:+ " accessor error: value is of the type " +:+ go_type j
        +:+ ", expected " +:+ expected).

(** [unstructured.NestedFieldNoCopy]: [Ok None] when a field is missing. *)
Fixpoint NestedFieldNoCopy (val : json) (fields : list string) : outcome (option json) :=
  match fields with
  | [] => Ok (Some val)
  | field :: rest =>
      match val with
      | JNull => Ok None
      | JObject m =>
          match get m field with
          | None => Ok None
          | Some v => NestedFieldNoCopy v rest
          end
      | _ => Err (accessor_error field val "map[string]interface{}")
      end
  end.

Definition NestedString (obj : json) (fields : list string) : outcome (option string) :=
  val ← NestedFieldNoCopy obj fields;
  match val with
  | None => Ok None
  | Some (JString s) => Ok (Some s)
  | Some v => Err (accessor_error (Join fields ".") v "string")
  end.

Definition getNestedString (obj : json) (fields : list string) : string :=
  match NestedString obj fields with Ok (Some s) => s | _ => "" end.

Definition NestedSlice (obj : json) (fields : list string) : outcome (option (list json)) :=
  val ← NestedFieldNoCopy obj fields;
  match val with
  | None => Ok None
  | Some (JArray l) => Ok (Some l)
  | Some v => Err (accessor_error (Join fields ".") v "[]interface{}")
  end.

Lemma NestedFieldNoCopy_no_panic val fields p : NestedFieldNoCopy val fields <> Panic p.
Proof.
  revert val. induction fields as [|f fields IH]; intros val; [done|]. cbn.
  destruct val; try done. destruct (get fields0 f); [apply IH|done].
Qed.

End Json.
