(* ===== verification/TemplateBundle.v ===== *)
(** * The template bundle (internal/template-bundle/bundle.go)

    Which DataSources the bundled templates refer to. Decoding YAML is left to
    the Kubernetes library; its results are a parameter. *)

From S2P Require Import Prelude GoRuntime KubeTypes SspTypes Architecture KubeClient Common CommonTemplates Json.

Notation DataSourceCollection := (gmap string (list Arch)).

Module TemplateBundle.

Definition AddNameAndArch (d : DataSourceCollection) (name : string) (arch : Arch)
    : DataSourceCollection :=
  let archs := default [] (d !! name) in
  if contains archs arch then d else <[name := archs ++ [arch]]> d.

Definition Contains (d : DataSourceCollection) (name : string) (arch : Arch) : bool :=
  contains (default [] (d !! name)) arch.

(** Objects and parameters of a template. *)
Definition objects (t : Object) : list string :=
  match o_body t with Template os _ => os | _ => [] end.
Definition parameters (t : Object) : list Parameter_ :=
  match o_body t with Template _ ps => ps | _ => [] end.

Definition findParameterValue (name : string) (t : Object) : option string :=
  par_Value <$> find_first (fun p => bool_decide (par_Name p = name)) (parameters t).

Definition findDataSourceName (t : Object) : option string :=
  match findParameterValue CommonTemplates.TemplateDataSourceParameterName t with
  | Some name => Some name
  | None => findParameterValue "SRC_PVC_NAME" t
  end.

Definition findDataSourceNamespace (t : Object) : option string :=
  match findParameterValue "DATA_SOURCE_NAMESPACE" t with
  | Some name => Some name
  | None => findParameterValue "SRC_PVC_NAMESPACE" t
  end.

(** The loop over the volumes; an entry that is not an object panics. *)
Fixpoint any_source_ref (volumes : list json) : outcome bool :=
  match volumes with
  | [] => Ok false
  | JObject m :: rest =>
      val ← Json.NestedFieldNoCopy (JObject m) ["spec"; "sourceRef"];
      match val with
      | None | Some JNull => any_source_ref rest
      | Some _ => Ok true
      end
  | _ :: _ => Panic "interface conversion"
  end.

(** [ReadTemplates]: opening the file fails, or the decoder finds documents, each
    of which it may fail to decode. *)
Fixpoint read_documents (bundle : list Object) (documents : list (error + Object))
    : outcome (list Object) :=
  match documents with
  | [] => Ok bundle
  | inl err :: _ => Err err
  | inr template :: rest =>
      if bool_decide (Name (o_meta template) = "") then read_documents bundle rest
      else read_documents (bundle ++ [template]) rest
  end.

Definition ReadTemplates (file : error + list (error + Object)) : outcome (list Object) :=
  match file with
  | inl err => Err err
  | inr documents => read_documents [] documents
  end.

Section bundle.
(** [yaml.NewYAMLOrJSONDecoder(...).Decode] into an unstructured object. *)
Variable decode : string -> outcome json.

Definition vmTemplateUsesSourceRef (t : Object) : outcome bool :=
  match objects t with
  | [] => Panic "index out of range [0] with length 0"
  | raw :: _ =>
      vm ← decode raw;
      let apiVersion := Json.getNestedString vm ["apiVersion"] in
      let kind := Json.getNestedString vm ["kind"] in
      if negb (bool_decide (apiVersion = "kubevirt.io/v1") && bool_decide (kind = "VirtualMachine"))
      then Err (EMsg ("template " +:+ Name (o_meta t) +:+ " contains unexpected object: "
                      +:+ apiVersion +:+ ", " +:+ kind))
      else
        dataVolumes ← Json.NestedSlice vm ["spec"; "dataVolumeTemplates"];
        match dataVolumes with
        | None => Ok false
        | Some volumes => any_source_ref volumes
        end
  end.

(** The pair that one template contributes. *)
Definition template_source (t : Object) : outcome (option (string * Arch)) :=
  usesDataSources ← vmTemplateUsesSourceRef t;
  if negb usesDataSources then Ok None
  else
    match findDataSourceName t with
    | None => Ok None
    | Some name =>
        let invalid :=
          match findDataSourceNamespace t with
          | Some namespace => negb (bool_decide (namespace = Env.GoldenImagesNamespace))
          | None => false
          end in
        if invalid then
          Err (EMsg ("common template " +:+ Name (o_meta t) +:+ " has invalid default "
            +:+ "DATA_SOURCE_NAMESPACE value: " +:+ default "" (findDataSourceNamespace t)
            +:+ ", expected: " +:+ Env.GoldenImagesNamespace))
        else
          arch ← wrap_err ("failed to get architecture for template " +:+ Name (o_meta t) +:+ ": ")
                   (CommonTemplates.GetTemplateArch (o_meta t));
          Ok (Some (name, arch))
    end.

Fixpoint collect (result : DataSourceCollection) (templates : list Object)
    : outcome DataSourceCollection :=
  match templates with
  | [] => Ok result
  | t :: rest =>
      source ← template_source t;
      match source with
      | None => collect result rest
      | Some (name, arch) => collect (AddNameAndArch result name arch) rest
      end
  end.

Definition CollectDataSources (templates : list Object) : outcome DataSourceCollection :=
  collect ∅ templates.

(** ** Correctness *)

Lemma read_documents_spec documents : forall bundle templates,
  read_documents bundle documents = Ok templates <->
  exists decoded, documents = inr <$> decoded /\
    templates = bundle ++ filter (fun t => Name (o_meta t) <> "") decoded.
Proof.
  induction documents as [|[err|t] rest IH]; intros bundle templates; cbn.
  - split; [intros [= <-]; exists []; by rewrite app_nil_r|].
    intros ([|] & Hd & ->); [by rewrite app_nil_r|done].
  - split; [done|]. by intros ([|] & ? & _).
  - assert (Hdec : (exists decoded, inr t :: rest = inr <$> decoded /\
        templates = bundle ++ filter (fun t => Name (o_meta t) <> "") decoded) <->
      exists decoded, rest = inr <$> decoded /\
        templates = bundle ++ filter (fun t => Name (o_meta t) <> "") (t :: decoded)).
    { split; [intros ([|t' decoded] & Hd & ->); cbn in Hd; simplify_eq; eauto|].
      intros (decoded & -> & ->). by exists (t :: decoded). }
    rewrite Hdec. case_bool_decide as Ht; rewrite IH; f_equiv; intros decoded; rewrite filter_cons.
    + by rewrite decide_False by tauto.
    + rewrite decide_True by done. by rewrite <- app_assoc.
Qed.

(** No architecture is collected twice for a name. *)
Definition wf_collection (d : DataSourceCollection) : Prop := map_Forall (fun _ archs => NoDup archs) d.

Lemma AddNameAndArch_spec d name arch :
  wf_collection d ->
  wf_collection (AddNameAndArch d name arch) /\
  forall name' arch', Contains (AddNameAndArch d name arch) name' arch' =
    bool_decide ((name', arch') = (name, arch)) || Contains d name' arch'.
Proof.
  unfold AddNameAndArch, Contains. intros Hwf.
  destruct (contains (default [] (d !! name)) arch) eqn:E.
  - split; [done|]. intros n a. case_bool_decide as Hn; [|done]. by simplify_eq.
  - apply contains_false in E. split.
    + apply map_Forall_insert_2; [|done]. apply NoDup_app. split_and!.
      * destruct (d !! name) eqn:Ed; [by apply (Hwf name)|apply NoDup_nil_2].
      * set_solver.
      * apply NoDup_singleton.
    + intros n a. destruct (decide (n = name)) as [->|Hn].
      * rewrite lookup_insert_eq. cbn. unfold contains.
        apply eq_true_iff_eq.
        rewrite orb_true_iff, !bool_decide_eq_true, elem_of_app, list_elem_of_singleton. naive_solver.
      * rewrite lookup_insert_ne by done. by rewrite (bool_decide_false ((n, a) = _)) by congruence.
Qed.

Lemma collect_spec d templates result :
  wf_collection d -> collect d templates = Ok result ->
  wf_collection result /\
  forall name arch, Contains result name arch = true <->
    Contains d name arch = true \/
    Exists (fun t => template_source t = Ok (Some (name, arch))) templates.
Proof.
  revert d. induction templates as [|t ts IH]; intros d Hwf; cbn.
  - intros [= <-]. split; [done|]. intros n a. rewrite Exists_nil. tauto.
  - intros (src & Hsrc & Hts)%outcome_bind_Ok. destruct src as [[name arch]|].
    + destruct (AddNameAndArch_spec d name arch Hwf) as [Hwf' Hc].
      destruct (IH _ Hwf' Hts) as [? Hr]. split; [done|]. intros n a.
      rewrite Hr, Hc, orb_true_iff, bool_decide_eq_true, Exists_cons, Hsrc.
      split; [intros [[[= -> ->]|?]|?]|intros [?|[[= -> ->]|?]]]; tauto.
    + destruct (IH _ Hwf Hts) as [? Hr]. split; [done|]. intros n a.
      rewrite Hr, Exists_cons, Hsrc. split; [tauto|]. by intros [?|[?|?]]; [left| |right].
Qed.

(** What a template contributes when the whole collection succeeds. *)
Lemma template_source_Ok t src :
  template_source t = Ok src ->
  (forall name arch, src = Some (name, arch) <->
    vmTemplateUsesSourceRef t = Ok true /\ findDataSourceName t = Some name /\
    CommonTemplates.GetTemplateArch (o_meta t) = Ok arch) /\
  (vmTemplateUsesSourceRef t = Ok true -> is_Some (findDataSourceName t) ->
   forall ns, findDataSourceNamespace t = Some ns -> ns = Env.GoldenImagesNamespace).
Proof.
  unfold template_source. intros (uses & Hu & H)%outcome_bind_Ok. rewrite Hu.
  destruct uses; cbn in H; [|injection H as <-; split; [intros; split; naive_solver|done]].
  destruct (findDataSourceName t) as [n|] eqn:En;
    [|injection H as <-; split; [intros; split; naive_solver|by intros _ [? ?]]].
  destruct (findDataSourceNamespace t) as [ns|] eqn:Ens; cbn in H.
  - case_bool_decide as Hns; cbn in H; [|done].
    apply outcome_bind_Ok in H as (a & Ha & [= <-]).
    assert (CommonTemplates.GetTemplateArch (o_meta t) = Ok a) as ->
      by (unfold wrap_err in Ha; by case_match).
    split; [intros; split; naive_solver|]. by intros _ _ ns' [= <-].
  - apply outcome_bind_Ok in H as (a & Ha & [= <-]).
    assert (CommonTemplates.GetTemplateArch (o_meta t) = Ok a) as ->
      by (unfold wrap_err in Ha; by case_match).
    split; [intros; split; naive_solver|done].
Qed.

Lemma collect_sources d templates result :
  collect d templates = Ok result -> Forall (fun t => exists src, template_source t = Ok src) templates.
Proof.
  revert d. induction templates as [|t ts IH]; intros d; cbn; [constructor|].
  intros (src & Hsrc & Hts)%outcome_bind_Ok. constructor; [by exists src|].
  destruct src as [[]|]; by eapply IH.
Qed.

(** C22: the collection holds a DataSource name with an architecture exactly when
    some bundled template uses a source reference of that name and has that
    architecture, and no architecture is listed twice; the namespace of every
    such template is the one in which the operator creates DataSources. *)
Theorem CollectDataSources_exact templates result :
  CollectDataSources templates = Ok result ->
  wf_collection result /\
  (forall name arch, Contains result name arch = true <->
    exists t, t ∈ templates /\ vmTemplateUsesSourceRef t = Ok true /\
      findDataSourceName t = Some name /\ CommonTemplates.GetTemplateArch (o_meta t) = Ok arch) /\
  forall t ns, t ∈ templates -> vmTemplateUsesSourceRef t = Ok true ->
    is_Some (findDataSourceName t) -> findDataSourceNamespace t = Some ns ->
    ns = Env.GoldenImagesNamespace.
Proof.
  intros Hc. destruct (collect_spec ∅ templates result (map_Forall_empty _) Hc) as [Hwf Hr].
  apply collect_sources in Hc. rewrite Forall_forall in Hc. split_and!; [done| |].
  - intros name arch. rewrite Hr, Exists_exists. split.
    + intros [?|(t & Ht & Hs)]; [done|]. exists t. split; [done|].
      by apply (template_source_Ok t _ Hs).
    + intros (t & Ht & Hrest). right. exists t. split; [done|].
      destruct (Hc t Ht) as [src Hs]. rewrite Hs. f_equal.
      by apply (template_source_Ok t _ Hs).
  - intros t ns Ht Hu Hn. destruct (Hc t Ht) as [src Hs].
    by apply (template_source_Ok t _ Hs).
Qed.
End bundle.

Module BundleWitness.
(** A decoder for the one object of the sample: a VM with a source reference. *)
Definition decode (raw : string) : outcome json :=
  Ok (JObject [("apiVersion", JString "kubevirt.io/v1"); ("kind", JString "VirtualMachine");
               ("spec", JObject [("dataVolumeTemplates",
                  JArray [JObject [("spec", JObject [("sourceRef", JObject [])])]])])]).
Definition template : Object :=
  mkObject (mkTypeMeta "" "") (newMeta "fedora-server" "")
    (Template ["vm"] [mkParameter "DATA_SOURCE_NAME" "fedora" ∅;
                      mkParameter "DATA_SOURCE_NAMESPACE" "kubevirt-os-images" ∅]).
Definition result : DataSourceCollection := {[ "fedora" := [AMD64] ]}.

Lemma CollectDataSources_exact_witness : Contains result "fedora" AMD64 = true.
Proof.
  destruct (CollectDataSources_exact decode [template] result) as (_ & H & _);
    [vm_compute; reflexivity|].
  apply H. exists template. split; [apply list_elem_of_here|]. split_and!; vm_compute; reflexivity.
Defined.
End BundleWitness.
End TemplateBundle.
