(* ===== verification/DataSources.v ===== *)
(** * The data sources operand (internal/operands/data-sources)

    Boot sources: DataSources for the golden images, the DataImportCrons that
    keep them up to date, and the namespace, roles and network policies around
    them. *)

From S2P Require Import Prelude GoRuntime KubeTypes SspTypes Architecture KubeClient Cluster Common Resource SspController NetworkPolicies CommonTemplates TemplateBundle.

Module DataSources.

(** ** Objects (resource.go, constants.go) *)

Definition operandName : string := "data-sources".
Definition operandComponent : Labels.AppComponent := Labels.AppComponentTemplating.
Definition dataSourceCrd : string := "datasources.cdi.kubevirt.io".
Definition dataImportCronCrd : string := "dataimportcrons.cdi.kubevirt.io".
Definition DataImportCronArchsAnnotation : string := "ssp.kubevirt.io/dict.architectures".
Definition DataImportCronDataSourceNameLabel : string := "cdi.kubevirt.io/storage.import.datasource-name".
Definition dataImportCronLabel : string := "cdi.kubevirt.io/dataImportCron".
Definition ViewRoleName : string := "os-images.kubevirt.io:view".
Definition EditClusterRoleName : string := "os-images.kubevirt.io:edit".
Definition ns : string := Env.GoldenImagesNamespace.

Definition emptySource : DataSourceSource := mkDataSourceSource None None None.
Definition noStatus : DataSourceStatus := mkDataSourceStatus emptySource [].

Definition newDataSource (name : string) : Object :=
  mkObject (mkTypeMeta "" "") (newMeta name ns)
    (DataSource (mkDataSourceSpec (mkDataSourceSource (Some (mkPvcRef name ns)) None None)) noStatus).

Definition newDataSourceReference (name referenceName : string) : Object :=
  mkObject (mkTypeMeta "" "") (newMeta name ns)
    (DataSource (mkDataSourceSpec
       (mkDataSourceSource None None (Some (mkPvcRef referenceName ns)))) noStatus).

Definition newGoldenImagesNS (namespace : string) : Object :=
  mkObject (mkTypeMeta "" "") (newMeta namespace "") NamespaceObj.

Definition cdiGroup : string := "cdi.kubevirt.io".
Definition read_verbs : list string := ["get"; "list"; "watch"].
Definition all_verbs : list string := ["create"; "delete"; "get"; "list"; "patch"; "update"; "watch"].

Definition newViewRole (namespace : string) : Object :=
  mkObject (mkTypeMeta "" "") (newMeta ViewRoleName namespace)
    (Role [ mkRule [""] ["persistentvolumeclaims"; "persistentvolumeclaims/status"] read_verbs;
            mkRule ["snapshot.storage.k8s.io"] ["volumesnapshots"; "volumesnapshots/status"] read_verbs;
            mkRule [cdiGroup] ["datavolumes"] read_verbs;
            mkRule [cdiGroup] ["datavolumes/source"] ["create"];
            mkRule [cdiGroup] ["datasources"] read_verbs;
            mkRule [cdiGroup] ["dataimportcrons"] read_verbs;
            mkRule [""] ["namespaces"] read_verbs ]).

Definition rbacGroup : string := "rbac.authorization.k8s.io".

Definition newViewRoleBinding (namespace : string) : Object :=
  mkObject (mkTypeMeta "" "") (newMeta ViewRoleName namespace)
    (RoleBinding (mkRoleRef rbacGroup "Role" ViewRoleName)
       [ mkSubject "Group" rbacGroup "system:authenticated" "";
         mkSubject "Group" rbacGroup "system:serviceaccounts" "" ]).

Definition newEditRole : Object :=
  mkObject (mkTypeMeta "" "") (newMeta EditClusterRoleName "")
    (ClusterRole [ mkRule [""] ["persistentvolumeclaims"] all_verbs;
                   mkRule [""] ["persistentvolumeclaims/status"] read_verbs;
                   mkRule [cdiGroup] ["datavolumes"] all_verbs;
                   mkRule [cdiGroup] ["datavolumes/source"] ["create"];
                   mkRule [cdiGroup] ["datasources"] all_verbs;
                   mkRule [cdiGroup] ["dataimportcrons"] all_verbs ]).

Definition newNetworkPolicies (namespace : string) (runningOnOpenShift : bool) : list Object :=
  let g := if runningOnOpenShift then NetworkPolicies.NewOpenShiftGenerator
           else NetworkPolicies.NewKubernetesGenerator in
  [ NetworkPolicies.NewEgressToKubeAPIAndDNS g namespace NetworkPolicies.LabelCDIKubevirtIo
      ["importer"; "cdi-clone-source"];
    NetworkPolicies.NewIngressToImporterMetrics namespace;
    NetworkPolicies.NewIngressFromCDIUploadServerToCDICloneSource namespace;
    NetworkPolicies.NewIngressFromCDIUploadProxyToCDIUploadServer namespace;
    NetworkPolicies.NewEgressFromCDICloneSourceToCDIUploadServer namespace;
    NetworkPolicies.NewEgressFromImporterToDataSource namespace ].

(** ** Architectures of DataSources and DataImportCrons *)

(** The first cluster architecture that the DataSource supports; [None] is the
    empty string of the code. *)
Definition getDefaultDataSourceArch (clusterArchs dataSourceArchs : list Arch) : option Arch :=
  find_first (contains dataSourceArchs) clusterArchs.

(** Unknown names are ignored. *)
Definition parseArchsAnnotation (value : string) : list Arch :=
  omap (fun archStr => match ToArch (TrimSpace archStr) with Ok a => Some a | _ => None end)
    (Split comma value).

Definition archName (name : string) (arch : Arch) : string := name +:+ "-" +:+ arch_string arch.

(** *** Fields of a DataImportCron *)

Definition cron_spec (cron : Object) : DataImportCronSpec :=
  match o_body cron with
  | DataImportCron s _ => s
  | _ => mkDataImportCronSpec None ∅ "" "" ∅
  end.
Definition with_cron_spec (cron : Object) (s : DataImportCronSpec) : Object :=
  match o_body cron with
  | DataImportCron _ st => with_body cron (DataImportCron s st)
  | _ => cron
  end.
Definition ManagedDataSource (cron : Object) : string := dic_ManagedDataSource (cron_spec cron).
Definition with_ManagedDataSource (cron : Object) (name : string) : Object :=
  let s := cron_spec cron in
  with_cron_spec cron (mkDataImportCronSpec (dic_TemplateSource s) (dic_TemplateOther s)
                         (dic_Schedule s) name (dic_other s)).
Definition with_TemplateSource (cron : Object) (src : option DataVolumeSource) : Object :=
  let s := cron_spec cron in
  with_cron_spec cron (mkDataImportCronSpec src (dic_TemplateOther s) (dic_Schedule s)
                         (dic_ManagedDataSource s) (dic_other s)).

Notation CronMap := (gmap ObjectKey Object).

Definition addToCronMap (cronMap : CronMap) (cron : Object) : CronMap :=
  <[mkKey (Namespace (o_meta cron)) (ManagedDataSource cron) := cron]> cronMap.

(** The copy of a cron template, in the default namespace and without the
    architecture annotation. *)
Definition cron_copy (t : DataImportCronTemplate) : Object :=
  let cron := AsDataImportCron t in
  let m := o_meta cron in
  let m := if bool_decide (Namespace m = "") then with_namespace m ns else m in
  with_meta cron (with_annotations m (delete DataImportCronArchsAnnotation <$> Annotations m)).

Definition archs_annotation (t : DataImportCronTemplate) : string :=
  map_get (Annotations (dict_meta t)) DataImportCronArchsAnnotation.

Definition getCronsByDataSource (sspSpec : SSPSpec) : CronMap :=
  foldl (fun m t => addToCronMap m (cron_copy t)) ∅
    (ct_DataImportCronTemplates (spec_CommonTemplates sspSpec)).

Definition setDataImportCronArchFields (cron : Object) (arch : Arch) : Object :=
  let archStr := arch_string arch in
  let managedSource := ManagedDataSource cron in
  let labels := default ∅ (KubeTypes.Labels (o_meta cron)) in
  let labels := <[CommonTemplates.TemplateArchitectureLabel := archStr]> labels in
  let labels := <[DataImportCronDataSourceNameLabel := managedSource]> labels in
  let cron := with_meta cron (with_labels (o_meta cron) (Some labels)) in
  let cron := with_ManagedDataSource cron (managedSource +:+ "-" +:+ archStr) in
  match dic_TemplateSource (cron_spec cron) with
  | None => cron
  | Some source =>
      match dvs_Registry source with
      | None => cron
      | Some registry =>
          with_TemplateSource cron (Some (mkDataVolumeSource
            (Some (mkRegistry (Some archStr) (reg_other registry))) (dvs_other source)))
      end
  end.

(** The crons that one template contributes with several architectures. *)
Definition crons_of_template (clusterArchs : list Arch) (sourceCollection : DataSourceCollection)
    (t : DataImportCronTemplate) : list Object :=
  let cron := cron_copy t in
  let archsAnnotationValue := archs_annotation t in
  if bool_decide (archsAnnotationValue = "") then
    match sourceCollection !! ManagedDataSource cron with
    | None => [cron]
    | Some dsArchs =>
        match getDefaultDataSourceArch clusterArchs dsArchs with
        | None => [cron]
        | Some defaultArch =>
            [with_ManagedDataSource cron (archName (ManagedDataSource cron) defaultArch)]
        end
    end
  else
    (fun arch => setDataImportCronArchFields
       (with_meta cron (with_name (o_meta cron) (archName (Name (o_meta cron)) arch))) arch)
    <$> filter (fun arch => contains clusterArchs arch = true)
          (parseArchsAnnotation archsAnnotationValue).

Section operand.
Context `{Process}.

Definition getCronsByDataSourceMultiArch (sspSpec : SSPSpec) (sourceCollection : DataSourceCollection)
    : outcome CronMap :=
  if negb (multi_arch sspSpec) then Err (EMsg "multi-architecture needs to be enabled")
  else
    clusterArchs ← GetSSPArchs sspSpec;
    mret (foldl addToCronMap ∅
            (t ← ct_DataImportCronTemplates (spec_CommonTemplates sspSpec);
             crons_of_template clusterArchs sourceCollection t)).

Record dataSourceInfo := mkDataSourceInfo {
  dataSource : Object;
  autoUpdateEnabled : bool;
  dataImportCronName : string
}.

(** [addDataSourceReferenceForCrons]: the loop appends to the list that it
    searches. *)
Fixpoint addDataSourceReferenceForCrons (infos : list dataSourceInfo)
    (cronTemplates : list DataImportCronTemplate) (clusterArchs : list Arch) : list dataSourceInfo :=
  match cronTemplates with
  | [] => infos
  | t :: rest =>
      let dsName := dic_ManagedDataSource (dict_spec t) in
      let infos :=
        if existsb (fun info => bool_decide (Name (o_meta (dataSource info)) = dsName)) infos
        then infos
        else if bool_decide (archs_annotation t = "") then infos
        else match getDefaultDataSourceArch clusterArchs
                     (parseArchsAnnotation (archs_annotation t)) with
             | None => infos
             | Some defaultArch =>
                 infos ++ [mkDataSourceInfo
                   (newDataSourceReference dsName (archName dsName defaultArch)) false ""]
             end in
      addDataSourceReferenceForCrons infos rest clusterArchs
  end.

(** *** Fields of a DataSource *)

Definition ds_spec (o : Object) : DataSourceSpec :=
  match o_body o with DataSource s _ => s | _ => mkDataSourceSpec emptySource end.
Definition ds_PVC (o : Object) : option PvcRef := src_PVC (dss_Source (ds_spec o)).
Definition with_ds_spec (o : Object) (s : DataSourceSpec) : Object :=
  match o_body o with DataSource _ st => with_body o (DataSource s st) | _ => o end.
Definition with_pvc_name (o : Object) (p : PvcRef) (name : string) : Object :=
  let s := dss_Source (ds_spec o) in
  with_ds_spec o (mkDataSourceSpec
    (mkDataSourceSource (Some (mkPvcRef name (pvc_Namespace p))) (src_Snapshot s) (src_DataSource s))).

Definition getDataSourceReadyCondition (o : Object) : option DataSourceCondition :=
  match o_body o with
  | DataSource _ st => find_first (fun c => bool_decide (dsc_Type c = "Ready")) (dst_Conditions st)
  | _ => None
  end.

Context `{Client W} `{MapRange}.

Definition checkIfPvcExists (ds : Object) : Op W bool :=
  match ds_PVC ds with
  | None => mret false
  | Some pvc =>
      got ← try (UncachedGet KPersistentVolumeClaim (mkKey (pvc_Namespace pvc) (pvc_Name pvc)));
      match got with
      | inl err => if IsNotFound err then mret false else throw err
      | inr _ => mret true
      end
  end.

(** [foundDataSource.Spec.Source.PVC == dataSource.Spec.Source.PVC] compares two
    pointers of objects that were allocated separately: equal only when nil. *)
Definition same_pvc_pointer (found ds : Object) : bool :=
  bool_decide (ds_PVC found = None) && bool_decide (ds_PVC ds = None).

Definition dataSourceAutoUpdateEnabled (ds : Object) (cronByDataSource : CronMap) : Op W bool :=
  let objectKey := ObjectKeyFromObject ds in
  match cronByDataSource !! objectKey with
  | None => mret false
  | Some _ =>
      got ← try (Get KDataSource objectKey);
      match got with
      | inl err =>
          if IsNotFound err then
            pvcExists ← checkIfPvcExists ds;
            mret (negb pvcExists)
          else throw err
      | inr foundDataSource =>
          if map_has (KubeTypes.Labels (o_meta foundDataSource)) dataImportCronLabel then mret true
          else
            match getDataSourceReadyCondition foundDataSource with
            | Some ready =>
                if same_pvc_pointer foundDataSource ds then
                  mret (negb (bool_decide (dsc_Status ready = "True")))
                else pvcExists ← checkIfPvcExists ds; mret (negb pvcExists)
            | None => pvcExists ← checkIfPvcExists ds; mret (negb pvcExists)
            end
      end
  end.

Definition handleDefaultDataSource (ds : Object) (autoUpdate : bool) (originalPvcName : string)
    : Op W (Object * bool) :=
  got ← try (Get KDataSource (ObjectKeyFromObject ds));
  match got with
  | inl err =>
      if negb (IsNotFound err) then throw err
      else
        match ds_PVC ds with
        | None => panic "invalid memory address or nil pointer dereference"
        | Some pvc =>
            gotPvc ← try (UncachedGet KPersistentVolumeClaim
                            (mkKey (pvc_Namespace pvc) originalPvcName));
            match gotPvc with
            | inr _ => mret (with_pvc_name ds pvc originalPvcName, false)
            | inl err => if IsNotFound err then mret (ds, autoUpdate) else throw err
            end
        end
  | inr foundDataSource =>
      if map_has (KubeTypes.Labels (o_meta foundDataSource)) dataImportCronLabel then
        mret (ds, autoUpdate)
      else
        match getDataSourceReadyCondition foundDataSource with
        | None => mret (with_ds_spec ds (ds_spec foundDataSource), false)
        | Some ready =>
            if bool_decide (dsc_Status ready = "True") then
              match ds_PVC foundDataSource with
              | Some sourcePVC =>
                  if bool_decide (pvc_Name sourcePVC = originalPvcName) &&
                     bool_decide (pvc_Namespace sourcePVC = Namespace (o_meta ds)) then
                    match ds_PVC ds with
                    | None => panic "invalid memory address or nil pointer dereference"
                    | Some pvc => mret (with_pvc_name ds pvc originalPvcName, false)
                    end
                  else mret (ds, autoUpdate)
              | None => mret (ds, autoUpdate)
              end
            else mret (ds, autoUpdate)
        end
  end.

Definition cron_name (cronByDataSource : CronMap) (ds : Object) : string :=
  match cronByDataSource !! ObjectKeyFromObject ds with
  | Some dic => Name (o_meta dic)
  | None => ""
  end.

Definition getDataSourceInfos (sourceCollection : DataSourceCollection) (cronByDataSource : CronMap)
    (req : Request) : Op W (list dataSourceInfo) :=
  let spec := ssp_spec (Instance req) in
  if multi_arch spec then throw (EMsg ".spec.enableMultipleArchitectures needs to be false")
  else
    clusterArchs ← lift (GetSSPArchs spec);
    match clusterArchs with
    | [] => panic "index out of range [0] with length 0"
    | arch :: _ =>
        mapM (fun name =>
          let ds := newDataSource name in
          auto ← dataSourceAutoUpdateEnabled ds cronByDataSource;
          mret (mkDataSourceInfo ds auto (cron_name cronByDataSource ds)))
        (filter (fun name => TemplateBundle.Contains sourceCollection name arch = true)
           (map_range sourceCollection).*1)
    end.

(** The DataSource of one architecture. *)
Definition archDataSource (name : string) (arch : Arch) : Object :=
  let ds := newDataSource (archName name arch) in
  with_meta ds (with_labels (o_meta ds)
    (Some {[ CommonTemplates.TemplateArchitectureLabel := arch_string arch ]})).

Definition arch_info (cronByDataSource : CronMap) (name : string) (defaultArch arch : Arch)
    : Op W dataSourceInfo :=
  let ds := archDataSource name arch in
  auto ← dataSourceAutoUpdateEnabled ds cronByDataSource;
  '(ds, auto) ← (if bool_decide (arch = defaultArch)
                 then wrapping "faield to handle default DataSource: "
                        (handleDefaultDataSource ds auto name)
                 else mret (ds, auto));
  mret (mkDataSourceInfo ds auto (cron_name cronByDataSource ds)).

Definition source_infos (clusterArchs : list Arch) (cronByDataSource : CronMap)
    (source : string * list Arch) : Op W (list dataSourceInfo) :=
  let '(name, dsArchs) := source in
  match getDefaultDataSourceArch clusterArchs dsArchs with
  | None => mret []
  | Some defaultArch =>
      infos ← mapM (arch_info cronByDataSource name defaultArch)
                (filter (fun arch => contains clusterArchs arch = true) dsArchs);
      mret (mkDataSourceInfo (newDataSourceReference name (archName name defaultArch)) false ""
            :: infos)
  end.

Definition getDataSourceInfosMultiArch (sourceCollection : DataSourceCollection)
    (cronByDataSource : CronMap) (req : Request) : Op W (list dataSourceInfo) :=
  let spec := ssp_spec (Instance req) in
  if negb (multi_arch spec) then throw (EMsg "multi-architecture needs to be enabled")
  else
    clusterArchs ← lift (GetSSPArchs spec);
    infos ← mapM (source_infos clusterArchs cronByDataSource) (map_range sourceCollection);
    mret (concat infos).

Record dataSources := mkDataSources {
  sourceCollection : DataSourceCollection;
  runningOnOpenShift : bool
}.

(** Crons of DataSources that are not updated automatically are dropped. *)
Definition drop_unused_crons (infos : list dataSourceInfo) (crons : CronMap) : CronMap :=
  foldl (fun m info => if autoUpdateEnabled info then m
                       else delete (ObjectKeyFromObject (dataSource info)) m) crons infos.

Definition getDataSourcesAndCrons (d : dataSources) (req : Request)
    : Op W (list dataSourceInfo * list Object) :=
  let spec := ssp_spec (Instance req) in
  '(crons, infos) ←
    (if multi_arch spec then
       crons ← wrapping "failed to get DataImportCrons: "
                 (lift (getCronsByDataSourceMultiArch spec (sourceCollection d)));
       infos ← wrapping "failed to get DataSources: "
                 (getDataSourceInfosMultiArch (sourceCollection d) crons req);
       clusterArchs ← wrapping "failed to get ClusterArchs: " (lift (GetSSPArchs spec));
       mret (crons, addDataSourceReferenceForCrons infos
               (ct_DataImportCronTemplates (spec_CommonTemplates spec)) clusterArchs)
     else
       let crons := getCronsByDataSource spec in
       infos ← wrapping "failed to get DataSources: "
                 (getDataSourceInfos (sourceCollection d) crons req);
       mret (crons, infos));
  mret (infos, (map_range (drop_unused_crons infos crons)).*2).

(** ** Reconciliation *)

Definition cluster_func (o : Object) (req : Request) : Op W ReconcileResult :=
  Resource.Reconcile (WithAppLabels (ClusterResource req o) operandName operandComponent).

Definition reconcileGoldenImagesNS : Request -> Op W ReconcileResult :=
  cluster_func (newGoldenImagesNS ns).
Definition reconcileViewRole : Request -> Op W ReconcileResult := cluster_func (newViewRole ns).
Definition reconcileViewRoleBinding : Request -> Op W ReconcileResult :=
  cluster_func (newViewRoleBinding ns).
Definition reconcileEditRole : Request -> Op W ReconcileResult := cluster_func newEditRole.

(** The update function of [reconcileDataSource]. *)
Definition updateDataSource (info : dataSourceInfo) (instance : SSP) : ResourceUpdateFunc :=
  fun newRes foundRes =>
  if autoUpdateEnabled info then
    let ls := default ∅ (KubeTypes.Labels (o_meta foundRes)) in
    Ok (newRes, with_meta foundRes (with_labels (o_meta foundRes)
                  (Some (<[dataImportCronLabel := dataImportCronName info]> ls))))
  else
    match o_body newRes, o_body foundRes with
    | DataSource spec _, DataSource _ st =>
        let m := Labels.AddAppLabels instance operandName operandComponent (o_meta foundRes) in
        let m := with_labels m (delete dataImportCronLabel <$> KubeTypes.Labels m) in
        Ok (newRes, mkObject (o_type foundRes) m (DataSource spec st))
    | _, _ => Panic "interface conversion"
    end.

Definition reconcileDataSource (info : dataSourceInfo) (req : Request) : Op W ReconcileResult :=
  Resource.Reconcile
    (UpdateFunc (Options (ClusterResource req (dataSource info)) true)
       (updateDataSource info (Instance req))).

(** Removes an owned DataSource that is not wanted any more. *)
Definition removeDataSource (ds : Object) (req : Request) : Op W ReconcileResult :=
  if bool_decide (DeletionTimestamp (o_meta ds) <> None) then
    mret (ResourceDeletedResult ds OperationResultDeleted)
  else
    got ← try (Delete KDataSource (ObjectKeyFromObject ds));
    match got with
    | inl err =>
        if IsNotFound err then mret (mkReconcileResult okStatus None ds OperationResultUnset)
        else throw err
    | inr _ => mret (ResourceDeletedResult ds OperationResultDeleted)
    end.

Definition listAllOwnedDataSources (req : Request) : Op W (list Object) :=
  ListOwnedResources KDataSource req (InNamespace ns).
Definition listAllOwnedDataImportCrons (req : Request) : Op W (list Object) :=
  ListOwnedResources KDataImportCron req noListOptions.

Definition reconcileDataSources (infos : list dataSourceInfo) (req : Request)
    : Op W (list (Request -> Op W ReconcileResult)) :=
  ownedDataSources ← listAllOwnedDataSources req;
  let dsNames := (fun info => Name (o_meta (dataSource info))) <$> infos in
  let unused := filter (fun o => Name (o_meta o) ∉ dsNames) ownedDataSources in
  mret ((reconcileDataSource <$> infos) ++
        ((fun o => removeDataSource (with_meta o (with_namespace (o_meta o) ns))) <$> unused)).

Definition updateDataImportCron : ResourceUpdateFunc := fun newRes foundRes =>
  match o_body newRes, o_body foundRes with
  | DataImportCron spec _, DataImportCron _ st =>
      Ok (newRes, with_body foundRes (DataImportCron spec st))
  | _, _ => Panic "interface conversion"
  end.

Definition dataImportCronSpec (o : Object) : option Body :=
  match o_body o with DataImportCron spec _ => Some (DataImportCron spec ∅) | _ => None end.

Definition reconcileDataImportCron (cron : Object) (req : Request) : Op W ReconcileResult :=
  Resource.Reconcile
    (ImmutableSpec
       (UpdateFunc (WithAppLabels (ClusterResource req cron) operandName operandComponent)
          updateDataImportCron)
       dataImportCronSpec).

Definition removeDataImportCron (cron : Object) (req : Request) : Op W ReconcileResult :=
  got ← try (Delete KDataImportCron (ObjectKeyFromObject cron));
  match got with
  | inl err =>
      if IsNotFound err then mret (mkReconcileResult okStatus None cron OperationResultUnset)
      else throw err
  | inr _ => mret (mkReconcileResult okStatus None cron OperationResultUnset)
  end.

Definition reconcileDataImportCrons (dataImportCrons : list Object) (req : Request)
    : Op W (list (Request -> Op W ReconcileResult)) :=
  ownedCrons ← listAllOwnedDataImportCrons req;
  let crons := ObjectKeyFromObject <$> dataImportCrons in
  let unused := filter (fun o => ObjectKeyFromObject o ∉ crons) ownedCrons in
  mret ((reconcileDataImportCron <$> dataImportCrons) ++ (removeDataImportCron <$> unused)).

Definition reconcileNetworkPolicies (d : dataSources) : list (Request -> Op W ReconcileResult) :=
  cluster_func <$> newNetworkPolicies ns (runningOnOpenShift d).

Definition Reconcile (d : dataSources) (req : Request) : Op W (list ReconcileResult) :=
  '(infos, crons) ← getDataSourcesAndCrons d req;
  dsFuncs ← reconcileDataSources infos req;
  dicFuncs ← reconcileDataImportCrons crons req;
  CollectResourceStatus req
    ([reconcileGoldenImagesNS; reconcileViewRole; reconcileViewRoleBinding; reconcileEditRole] ++
     dsFuncs ++ reconcileNetworkPolicies d ++ dicFuncs).

(** The objects that [Cleanup] removes once the crons are gone. *)
Definition staticObjects (d : dataSources) : list Object :=
  [newGoldenImagesNS ns; newViewRole ns; newViewRoleBinding ns; newEditRole] ++
  newNetworkPolicies ns (runningOnOpenShift d).

Definition cleanupRest (d : dataSources) (req : Request) : Op W (list CleanupResult) :=
  owned ← (if CrdExists (req_CrdList req) dataSourceCrd then listAllOwnedDataSources req
           else mret []);
  DeleteAll req (owned ++ staticObjects d).

Definition Cleanup (d : dataSources) (req : Request) : Op W (list CleanupResult) :=
  if CrdExists (req_CrdList req) dataImportCronCrd then
    ownedCrons ← listAllOwnedDataImportCrons req;
    results ← mapM (Resource.Cleanup req) ownedCrons;
    if forallb Deleted results then cleanupRest d req else mret results
  else cleanupRest d req.

Definition watchClusterTypes : list WatchType :=
  [ mkWatchType KClusterRole "" false; mkWatchType KRole "" false; mkWatchType KRoleBinding "" false;
    mkWatchType KNamespace "" false; mkWatchType KDataSource dataSourceCrd true;
    mkWatchType KDataImportCron dataImportCronCrd false; mkWatchType KNetworkPolicy "" false ].

Definition operand (d : dataSources) : Operand W :=
  mkOperand operandName [] watchClusterTypes (Reconcile d) (Cleanup d).

End operand.
End DataSources.
