(* ===== verification/DataSourcesProofs.v ===== *)
(** * Correctness of the data sources operand *)

From S2P Require Import Prelude GoRuntime KubeTypes SspTypes Architecture KubeClient Cluster Common Samples Resource ResourceProofs SspController Contracts NetworkPolicies CommonTemplates TemplateBundle DataSources.

Import DataSources.

(** The default architecture is the first of the cluster's that the DataSource
    has. *)
Lemma getDefaultDataSourceArch_Some clusterArchs dsArchs a :
  getDefaultDataSourceArch clusterArchs dsArchs = Some a ->
  a ∈ clusterArchs /\ a ∈ dsArchs.
Proof. intros [? ?%contains_true]%find_first_elem. done. Qed.

(** ** Crons *)

Definition no_archs_annotation (o : Object) : Prop :=
  map_has (Annotations (o_meta o)) DataImportCronArchsAnnotation = false.

Lemma cron_copy_plain t :
  no_archs_annotation (cron_copy t) /\ Namespace (o_meta (cron_copy t)) <> "" /\
  Name (o_meta (cron_copy t)) = Name (dict_meta t) /\
  ManagedDataSource (cron_copy t) = dic_ManagedDataSource (dict_spec t).
Proof.
  unfold no_archs_annotation, map_has, cron_copy. cbn. split_and!; try by case_bool_decide.
  apply bool_decide_eq_false. case_bool_decide; cbn;
    (destruct (Annotations (dict_meta t)); cbn; [rewrite lookup_delete_eq|]; by intros [? ?]).
Qed.

Lemma setDataImportCronArchFields_spec cron arch :
  (exists s st, o_body cron = DataImportCron s st) ->
  let cron' := setDataImportCronArchFields cron arch in
  Name (o_meta cron') = Name (o_meta cron) /\
  Namespace (o_meta cron') = Namespace (o_meta cron) /\
  Annotations (o_meta cron') = Annotations (o_meta cron) /\
  ManagedDataSource cron' = archName (ManagedDataSource cron) arch /\
  map_get (KubeTypes.Labels (o_meta cron')) CommonTemplates.TemplateArchitectureLabel = arch_string arch /\
  map_get (KubeTypes.Labels (o_meta cron')) DataImportCronDataSourceNameLabel = ManagedDataSource cron /\
  forall src, dic_TemplateSource (cron_spec cron') = Some src ->
    forall reg, dvs_Registry src = Some reg -> reg_Platform reg = Some (arch_string arch).
Proof.
  intros (s & st & Hb) cron'. subst cron'.
  unfold setDataImportCronArchFields, with_ManagedDataSource, with_TemplateSource, ManagedDataSource,
    with_cron_spec, cron_spec, map_get. cbn. rewrite Hb. cbn.
  destruct (dic_TemplateSource s) as [src|] eqn:Es; cbn.
  - destruct (dvs_Registry src) as [reg|] eqn:Er; cbn;
      rewrite ?lookup_insert_eq, ?lookup_insert_ne, ?lookup_insert_eq by done;
      split_and!; try done; intros; naive_solver.
  - rewrite lookup_insert_eq, lookup_insert_ne, lookup_insert_eq by done. split_and!; done.
Qed.

(** with several architectures, a cron template that names architectures
    yields one DataImportCron for each of them that the cluster has, with the
    architecture in its name, label, image platform and managed DataSource, in
    a namespace, and without the annotation that names the architectures. *)
Theorem crons_of_template_multiarch clusterArchs coll t cron :
  archs_annotation t <> "" ->
  cron ∈ crons_of_template clusterArchs coll t ->
  exists arch, arch ∈ clusterArchs /\ arch ∈ parseArchsAnnotation (archs_annotation t) /\
    Name (o_meta cron) = archName (Name (dict_meta t)) arch /\
    ManagedDataSource cron = archName (dic_ManagedDataSource (dict_spec t)) arch /\
    map_get (KubeTypes.Labels (o_meta cron)) CommonTemplates.TemplateArchitectureLabel = arch_string arch /\
    map_get (KubeTypes.Labels (o_meta cron)) DataImportCronDataSourceNameLabel =
      dic_ManagedDataSource (dict_spec t) /\
    (forall src, dic_TemplateSource (cron_spec cron) = Some src ->
       forall reg, dvs_Registry src = Some reg -> reg_Platform reg = Some (arch_string arch)) /\
    Namespace (o_meta cron) <> "" /\ no_archs_annotation cron.
Proof.
  intros Ht. unfold crons_of_template. rewrite bool_decide_false by done.
  intros (arch & -> & [Hc%contains_true Hp]%list_elem_of_filter)%list_elem_of_fmap.
  exists arch. destruct (cron_copy_plain t) as (Hann & Hns & Hname & Hmds).
  destruct (setDataImportCronArchFields_spec
    (with_meta (cron_copy t) (with_name (o_meta (cron_copy t)) (archName (Name (o_meta (cron_copy t))) arch)))
    arch) as (En & Ens & Ea & Em & El & Eds & Er); [by eexists _, _|].
  unfold no_archs_annotation in *. rewrite En, Ens, Ea, Em, El, Eds, <- Hname, <- Hmds.
  split_and!; done.
Qed.

Lemma drop_unused_lookup infos crons k cron :
  drop_unused_crons infos crons !! k = Some cron <->
  crons !! k = Some cron /\
  Forall (fun i => ObjectKeyFromObject (dataSource i) = k -> autoUpdateEnabled i = true) infos.
Proof.
  unfold drop_unused_crons. revert crons. induction infos as [|i infos IH]; intros crons; cbn.
  - rewrite Forall_nil. tauto.
  - rewrite IH, Forall_cons. destruct (autoUpdateEnabled i); [tauto|].
    rewrite lookup_delete_Some. naive_solver.
Qed.

Section any_client.
Context `{Client W} `{Process} `{MapRange}.

(** ** The operand contract *)

Lemma checkIfPvcExists_reads ds : issued (W := W) (fun c => is_read c = true) (checkIfPvcExists ds).
Proof. unfold checkIfPvcExists, UncachedGet. solve_issued. Qed.

Lemma autoUpdate_reads ds crons :
  issued (W := W) (fun c => is_read c = true) (dataSourceAutoUpdateEnabled ds crons).
Proof.
  unfold dataSourceAutoUpdateEnabled, checkIfPvcExists, UncachedGet, Get. solve_issued.
Qed.

Lemma handleDefault_reads ds auto pvc :
  issued (W := W) (fun c => is_read c = true) (handleDefaultDataSource ds auto pvc).
Proof. unfold handleDefaultDataSource, UncachedGet, Get. solve_issued. Qed.

#[local] Hint Resolve checkIfPvcExists_reads autoUpdate_reads handleDefault_reads : ssp.

(** Deciding what to deploy only reads. *)
Lemma getDataSourcesAndCrons_reads d req :
  issued (W := W) (fun c => is_read c = true) (getDataSourcesAndCrons d req).
Proof.
  unfold getDataSourcesAndCrons, getDataSourceInfosMultiArch, getDataSourceInfos, source_infos,
    arch_info.
  repeat first [ apply issued_mapM; intros ? _ | progress solve_issued ].
Qed.

Lemma is_read_leaves_ssp c : is_read c = true -> leaves_ssp c.
Proof. by destruct c. Qed.

Lemma remove_leave_ssp o req :
  issued (W := W) leaves_ssp (removeDataSource o req) /\
  issued (W := W) leaves_ssp (removeDataImportCron o req).
Proof. unfold removeDataSource, removeDataImportCron, Delete. split; solve_issued. Qed.

(** The functions that one round runs. *)
Definition wanted_func (infos : list dataSourceInfo) (crons : list Object) (d : dataSources)
    (f : Request -> Op W ReconcileResult) : Prop :=
  f ∈ [reconcileGoldenImagesNS; reconcileViewRole; reconcileViewRoleBinding; reconcileEditRole]
  \/ (exists i, i ∈ infos /\ f = reconcileDataSource i)
  \/ f ∈ reconcileNetworkPolicies d
  \/ (exists c, c ∈ crons /\ f = reconcileDataImportCron c).

(** Either a wanted object is reconciled, or an owned one that is not wanted is
    removed. *)
Definition round_func (infos : list dataSourceInfo) (crons : list Object) (d : dataSources)
    (req : Request) (f : Request -> Op W ReconcileResult) : Prop :=
  wanted_func infos crons d f
  \/ (exists o, Owner.CheckOwnerAnnotation (o_meta o) (Instance req) = true /\
        Name (o_meta o) ∉ (fun i => Name (o_meta (dataSource i))) <$> infos /\
        f = removeDataSource (with_meta o (with_namespace (o_meta o) ns)))
  \/ (exists o, Owner.CheckOwnerAnnotation (o_meta o) (Instance req) = true /\
        ObjectKeyFromObject o ∉ ObjectKeyFromObject <$> crons /\ f = removeDataImportCron o).

Lemma ListOwned_owned k req opts :
  returns (S := OpSt W) (Forall (fun o => Owner.CheckOwnerAnnotation (o_meta o) (Instance req) = true))
    (ListOwnedResources k req opts).
Proof.
  unfold ListOwnedResources. eapply returns_bind; [apply returns_true|intros l _].
  apply returns_ret, Forall_forall. intros o. rewrite list_elem_of_filter. tauto.
Qed.

Lemma reconcileDataSources_funcs infos crons d req :
  returns (S := OpSt W) (Forall (round_func infos crons d req)) (reconcileDataSources infos req).
Proof.
  unfold reconcileDataSources. eapply returns_bind; [apply ListOwned_owned|intros l Hl].
  apply returns_ret, Forall_app. split; apply Forall_fmap, Forall_forall.
  - intros i Hi. left. right. left. by exists i.
  - intros o [Hn Ho]%list_elem_of_filter. right. left. exists o.
    rewrite Forall_forall in Hl. split_and!; [by apply Hl|done|done].
Qed.

Lemma reconcileDataImportCrons_funcs infos crons d req :
  returns (S := OpSt W) (Forall (round_func infos crons d req)) (reconcileDataImportCrons crons req).
Proof.
  unfold reconcileDataImportCrons. eapply returns_bind; [apply ListOwned_owned|intros l Hl].
  apply returns_ret, Forall_app. split; apply Forall_fmap, Forall_forall.
  - intros i Hi. left. right. right. right. by exists i.
  - intros o [Hn Ho]%list_elem_of_filter. right. right. exists o.
    rewrite Forall_forall in Hl. split_and!; [by apply Hl|done|done].
Qed.

(** What holds of the calls that decide what to do, and of every function of
    the round, holds of the operand. *)
Lemma Reconcile_issued (P : ApiCall -> Prop) d req s :
  (forall c, is_read c = true -> P c) ->
  (forall infos crons s1, getDataSourcesAndCrons d req s = (Ok (infos, crons), s1) ->
     forall f, round_func infos crons d req f -> issued (W := W) P (f req)) ->
  extends P s (DataSources.Reconcile d req s).2.
Proof.
  intros Hread Hf. unfold DataSources.Reconcile.
  pose proof (issued_mono _ _ _ Hread (getDataSourcesAndCrons_reads d req) s) as Hdec.
  unfold mbind at 1, M_bind at 1.
  destruct (getDataSourcesAndCrons d req s) as [[[infos crons]|e|p] s1] eqn:E; [|done..].
  cbn in Hdec. etrans; [exact Hdec|]. specialize (Hf infos crons s1 eq_refl).
  assert (HL : forall k opts, issued (W := W) P (ListOwnedResources k req opts)).
  { intros. unfold ListOwnedResources, List. apply issued_bind; [|intros; apply issued_ret].
    apply issued_call, Hread. done. }
  match goal with |- extends P _ (?m s1).2 => assert (Hi : issued P m); [|apply Hi] end.
  eapply issued_bind_returns; [| apply (reconcileDataSources_funcs infos crons d)|].
  { apply issued_bind; [apply HL|intros; apply issued_ret]. }
  intros f1 Hf1. eapply issued_bind_returns; [|apply (reconcileDataImportCrons_funcs infos crons d)|].
  { apply issued_bind; [apply HL|intros; apply issued_ret]. }
  intros f2 Hf2. rewrite Forall_forall in Hf1, Hf2. apply issued_mapM. intros f.
  rewrite !elem_of_app. intros [Hin|[Hin|[Hin|Hin]]]; apply Hf; [left; left|auto|left|auto].
  - done.
  - right. right. by left.
Qed.

#[global] Instance dataSources_contract d : OperandContract (operand (W := W) d).
Proof.
  split; intros req; cbn.
  - intros s. apply Reconcile_issued; [apply is_read_leaves_ssp|].
    intros infos crons s1 _ f [[Hf|[(i & _ & ->)|[Hf|(c & _ & ->)]]]|[(o & _ & _ & ->)|(o & _ & _ & ->)]];
      try apply Reconcile_leaves_ssp; [| |apply (remove_leave_ssp _ req)..].
    + rewrite !elem_of_cons, elem_of_nil in Hf. destruct Hf as [->|[->|[->|[->|[]]]]];
        apply Reconcile_leaves_ssp.
    + apply list_elem_of_fmap in Hf as (o & -> & _). apply Reconcile_leaves_ssp.
  - unfold DataSources.Cleanup, cleanupRest, listAllOwnedDataImportCrons, listAllOwnedDataSources.
    repeat first [ apply issued_mapM; intros ? _ | progress solve_issued ].
Qed.

(** ** Only owned objects that are not wanted are removed *)

Definition is_cron (o : Object) : Prop := o_kind o = KDataImportCron.

(** Entries of a cron map: a DataImportCron under the key of its DataSource. *)
Definition cron_entry (k : ObjectKey) (o : Object) : Prop :=
  is_cron o /\ k = mkKey (Namespace (o_meta o)) (ManagedDataSource o).

Lemma addToCronMap_entries (l : list Object) (m : CronMap) :
  Forall is_cron l -> map_Forall cron_entry m -> map_Forall cron_entry (foldl addToCronMap m l).
Proof.
  intros Hl. revert m. induction Hl as [|o l Ho _ IH]; intros m Hm; [done|]. cbn.
  apply IH. by apply map_Forall_insert_2.
Qed.

Lemma with_cron_spec_kind o s : o_kind (with_cron_spec o s) = o_kind o.
Proof. unfold with_cron_spec, o_kind. by destruct (o_body o) eqn:E; cbn; rewrite ?E. Qed.

Lemma setDataImportCronArchFields_kind o a : o_kind (setDataImportCronArchFields o a) = o_kind o.
Proof.
  unfold setDataImportCronArchFields, with_TemplateSource, with_ManagedDataSource.
  repeat case_match; by rewrite ?with_cron_spec_kind.
Qed.

Lemma crons_of_template_kind archs coll t : Forall is_cron (crons_of_template archs coll t).
Proof.
  unfold crons_of_template, is_cron. case_bool_decide.
  - destruct (coll !! _) as [dsArchs|]; [|by apply Forall_singleton].
    destruct (getDefaultDataSourceArch archs dsArchs); apply Forall_singleton; [|done].
    unfold with_ManagedDataSource. by rewrite with_cron_spec_kind.
  - apply Forall_fmap, Forall_forall. intros a _. cbn. by rewrite setDataImportCronArchFields_kind.
Qed.

Lemma getCrons_entries spec : map_Forall cron_entry (getCronsByDataSource spec).
Proof.
  unfold getCronsByDataSource. rewrite <- (foldl_fmap addToCronMap).
  apply addToCronMap_entries; [|apply map_Forall_empty]. by apply Forall_fmap, Forall_forall.
Qed.

Lemma getCronsMultiArch_entries spec coll crons :
  getCronsByDataSourceMultiArch spec coll = Ok crons -> map_Forall cron_entry crons.
Proof.
  unfold getCronsByDataSourceMultiArch. case_match; [done|].
  intros (archs & _ & [= <-])%outcome_bind_Ok. apply addToCronMap_entries; [|apply map_Forall_empty].
  apply Forall_forall. intros o (t & Ho & _)%list_elem_of_bind.
  pose proof (crons_of_template_kind archs coll t) as Hk. rewrite Forall_forall in Hk. by apply Hk.
Qed.

(** What was decided: DataImportCrons only, and none of a DataSource that is
    not updated automatically. *)
Definition decided (infos : list dataSourceInfo) (crons : list Object) : Prop :=
  Forall is_cron crons /\
  forall cron i, cron ∈ crons -> i ∈ infos ->
    ObjectKeyFromObject (dataSource i) = mkKey (Namespace (o_meta cron)) (ManagedDataSource cron) ->
    autoUpdateEnabled i = true.

Lemma drop_unused_decided infos crons :
  map_Forall cron_entry crons -> decided infos (map_range (drop_unused_crons infos crons)).*2.
Proof.
  intros Hc. split.
  - apply Forall_fmap, Forall_forall. intros [k o]. rewrite map_range_perm.
    intros [Ho _]%elem_of_map_to_list%drop_unused_lookup. by apply (Hc k).
  - intros cron i ([k o] & -> & Hin)%list_elem_of_fmap Hi. rewrite map_range_perm in Hin.
    apply elem_of_map_to_list, drop_unused_lookup in Hin as [Ho HF].
    rewrite Forall_forall in HF. apply Hc in Ho as [_ ->]. by apply HF.
Qed.

Lemma getDataSourcesAndCrons_decided d req :
  returns (S := OpSt W) (fun '(infos, crons) => decided infos crons) (getDataSourcesAndCrons d req).
Proof.
  unfold getDataSourcesAndCrons.
  eapply (returns_bind (fun '(crons, _) => map_Forall cron_entry crons));
    [|intros [crons infos] HQ; by apply returns_ret, drop_unused_decided].
  destruct (multi_arch _).
  - eapply (returns_bind (map_Forall cron_entry)).
    + intros s m s'. unfold wrapping, lift. cbn.
      destruct (getCronsByDataSourceMultiArch _ _) eqn:E; try done. intros [= <- _].
      by eapply getCronsMultiArch_entries.
    + intros crons Hc. eapply returns_bind; [apply returns_true|intros infos _].
      eapply returns_bind; [apply returns_true|intros archs _]. by apply returns_ret.
  - eapply returns_bind; [apply returns_true|intros infos _]. apply returns_ret, getCrons_entries.
Qed.

(** no DataImportCron is deployed for a DataSource that is not updated
    automatically. *)
Theorem crons_only_for_auto_update d req s infos crons s' cron i :
  getDataSourcesAndCrons (W := W) d req s = (Ok (infos, crons), s') ->
  cron ∈ crons -> i ∈ infos ->
  ObjectKeyFromObject (dataSource i) = mkKey (Namespace (o_meta cron)) (ManagedDataSource cron) ->
  autoUpdateEnabled i = true.
Proof. intros [_ Hd]%getDataSourcesAndCrons_decided. apply Hd. Qed.

(** What a round may delete. *)
Definition removable (infos : list dataSourceInfo) (crons : list Object) (req : Request)
    (c : ApiCall) : Prop :=
  match c with
  | CDelete KDataSource key => exists o,
      Owner.CheckOwnerAnnotation (o_meta o) (Instance req) = true /\
      key = mkKey ns (Name (o_meta o)) /\
      key_Name key ∉ (fun i => Name (o_meta (dataSource i))) <$> infos
  | CDelete KDataImportCron key =>
      key ∈ ObjectKeyFromObject <$> crons \/
      exists o, Owner.CheckOwnerAnnotation (o_meta o) (Instance req) = true /\
        key = ObjectKeyFromObject o /\ key ∉ ObjectKeyFromObject <$> crons
  | CDelete _ _ => False
  | _ => True
  end.

Lemma no_delete_removable infos crons req c : is_delete c = false -> removable infos crons req c.
Proof. by destruct c. Qed.

Lemma updateDataImportCron_keeps_meta : keeps_meta updateDataImportCron.
Proof.
  intros e o e' o'. unfold updateDataImportCron, o_kind.
  destruct (o_body e), (o_body o) eqn:E; try done. intros [= <- <-]. cbn. by rewrite ?E.
Qed.

Lemma reconcileDataImportCron_removable infos crons req c req' :
  c ∈ crons -> is_cron c ->
  issued (W := W) (removable infos crons req) (reconcileDataImportCron c req').
Proof.
  intros Hc Hk. unfold reconcileDataImportCron. set (r := ImmutableSpec _ _).
  destruct (prepared r) as [res|e|p] eqn:Hp.
  - pose proof (prepared_keeps _ _ Hp) as (Hkr & Hkey & _).
    apply (issued_Reconcile _ _ _ Hp).
    eapply issued_mono; [|apply createOrUpdate_issued, keeps_meta_restores, updateDataImportCron_keeps_meta].
    intros []; try done. intros (_ & -> & ->). rewrite Hkr, Hkey.
    change (resource r) with c. rewrite Hk. left. by apply list_elem_of_fmap_2.
  - unfold prepared in Hp. unfold Resource.Reconcile. rewrite Hp. intros s. extend_trace.
  - unfold prepared in Hp. unfold Resource.Reconcile. rewrite Hp. intros s. extend_trace.
Qed.

Lemma round_func_removable infos crons d req f :
  Forall is_cron crons -> round_func infos crons d req f ->
  issued (W := W) (removable infos crons req) (f req).
Proof.
  intros Hcrons.
  assert (Hno : forall o, issued (W := W) (removable infos crons req) (cluster_func o req)).
  { intros o. eapply issued_mono; [apply no_delete_removable|]. by apply Reconcile_no_delete. }
  intros [[Hf|[(i & _ & ->)|[Hf|(c & Hc & ->)]]]|[(o & Ho & Hn & ->)|(o & Ho & Hn & ->)]].
  - rewrite !elem_of_cons, elem_of_nil in Hf. destruct Hf as [->|[->|[->|[->|[]]]]]; apply Hno.
  - eapply issued_mono; [apply no_delete_removable|]. by apply Reconcile_no_delete.
  - apply list_elem_of_fmap in Hf as (o & -> & _). apply Hno.
  - rewrite Forall_forall in Hcrons. apply reconcileDataImportCron_removable; auto.
  - unfold removeDataSource, Delete. case_match; [apply issued_ret|].
    apply issued_bind; [|intros; solve_issued]. apply issued_try, issued_call. by exists o.
  - unfold removeDataImportCron, Delete. apply issued_bind; [|intros; solve_issued].
    apply issued_try, issued_call. right. by exists o.
Qed.


(** ** Auto-update *)

Lemma checkIfPvcExists_run ds pvc s :
  ds_PVC ds = Some pvc ->
  checkIfPvcExists ds s =
    match cl_UncachedGet (W := W) KPersistentVolumeClaim (mkKey (pvc_Namespace pvc) (pvc_Name pvc)) (op_world s) with
    | (inr _, w) =>
        (Ok true, with_world s w (CUncachedGet KPersistentVolumeClaim (mkKey (pvc_Namespace pvc) (pvc_Name pvc))))
    | (inl e, w) =>
        ((if IsNotFound e then Ok false else Err e),
         with_world s w (CUncachedGet KPersistentVolumeClaim (mkKey (pvc_Namespace pvc) (pvc_Name pvc))))
    end.
Proof.
  intros E. unfold checkIfPvcExists, UncachedGet, call. rewrite E. run_monad.
  destruct (cl_UncachedGet _ _ _) as [[e|o] w]; [|done]. cbn. by destruct (IsNotFound e).
Qed.

(** whether an existing DataSource without the auto-update label is updated
    automatically depends on the existence of the golden image PVC alone. The
    branch that would take the answer from its Ready condition is never used
    for a DataSource that refers to a PVC, even if the DataSource found in the
    cluster refers to the same one. *)
Theorem autoUpdate_ignores_ready ds pvc crons s found w :
  ds_PVC ds = Some pvc -> is_Some (crons !! ObjectKeyFromObject ds) ->
  cl_Get KDataSource (ObjectKeyFromObject ds) (op_world s) = (inr found, w) ->
  map_has (KubeTypes.Labels (o_meta found)) dataImportCronLabel = false ->
  dataSourceAutoUpdateEnabled (W := W) ds crons s =
    (pvcExists ← checkIfPvcExists ds; mret (negb pvcExists))
      (with_world s w (CGet KDataSource (ObjectKeyFromObject ds))).
Proof.
  intros Hpvc [cron Hcron] HG Hl. unfold dataSourceAutoUpdateEnabled, Get, call. rewrite Hcron.
  run_monad. rewrite HG. cbn. rewrite Hl.
  destruct (getDataSourceReadyCondition found) as [ready|]; [|done].
  unfold same_pvc_pointer. rewrite Hpvc, andb_false_r. done.
Qed.
End any_client.

(** how a DataSource in the cluster is brought in line. With auto-update its
    source is left to CDI and it is labelled with its cron; without, it gets
    the expected source, the application labels, and loses the cron's label. *)
Theorem updateDataSource_spec info instance e o e' o' :
  updateDataSource info instance e o = Ok (e', o') ->
  e' = e /\
  if autoUpdateEnabled info then
    o_body o' = o_body o /\
    map_get (KubeTypes.Labels (o_meta o')) dataImportCronLabel = dataImportCronName info
  else
    ds_spec o' = ds_spec e /\
    map_has (KubeTypes.Labels (o_meta o')) dataImportCronLabel = false /\
    map_get (KubeTypes.Labels (o_meta o')) Labels.AppKubernetesManagedByLabel =
      Labels.AppKubernetesManagedByValue.
Proof.
  unfold updateDataSource. destruct (autoUpdateEnabled info).
  - intros [= <- <-]. cbn. unfold map_get. cbn. by rewrite lookup_insert_eq.
  - unfold ds_spec. destruct (o_body e); try done. destruct (o_body o); try done.
    intros [= <- <-]. cbn [o_body with_labels KubeTypes.Labels o_meta Labels.AddAppLabels fmap option_fmap option_map].
    split; [done|]. split; [done|]. unfold map_has, map_get. cbn [mbind option_bind].
    rewrite lookup_delete_eq, bool_decide_false by (by intros [? ?]). split; [done|].
    rewrite lookup_delete_ne by done. by rewrite (proj2 (proj2 (Labels.addCommonLabels_get _ _ _ _))).
Qed.

(** ** References between DataSources *)

Section references.
Context `{Client W} `{Process} `{MapRange}.

Lemma handleDefault_name ds auto pvc :
  returns (S := OpSt W) (fun r => Name (o_meta r.1) = Name (o_meta ds)) (handleDefaultDataSource ds auto pvc).
Proof.
  assert (Hspec : forall o sp, o_meta (with_ds_spec o sp) = o_meta o).
  { intros o sp. unfold with_ds_spec. by destruct (o_body o). }
  intros s [ds' b] s'. unfold handleDefaultDataSource, with_pvc_name, Get, UncachedGet. run_monad.
  unfold call. intros E. repeat (case_match; simplify_eq/=; try done); by rewrite ?Hspec.
Qed.

Lemma arch_info_name crons name defaultArch arch :
  returns (S := OpSt W) (fun i => Name (o_meta (dataSource i)) = archName name arch)
    (arch_info crons name defaultArch arch).
Proof.
  unfold arch_info. eapply returns_bind; [apply returns_true|intros auto _].
  eapply (returns_bind (fun r : Object * bool => Name (o_meta r.1) = archName name arch));
    [|intros [ds b] Hn; by apply returns_ret].
  case_bool_decide; [|by apply returns_ret].
  intros s [ds b] s'. unfold wrapping.
  destruct (handleDefaultDataSource _ _ _ s) as [[r|e|p] s1] eqn:E; try done.
  intros [= -> _]. by apply handleDefault_name in E.
Qed.

(** What [mapM] returns when each element's result satisfies a property. *)
Lemma returns_mapM {S A B} (Q : A -> B -> Prop) (f : A -> M S B) l :
  (forall a, returns (Q a) (f a)) -> returns (Forall2 Q l) (mapM f l).
Proof.
  intros Hf. induction l as [|a l IH]; cbn; [by apply returns_ret; constructor|].
  eapply returns_bind; [apply Hf|intros b Hb]. eapply returns_bind; [apply IH|intros bs Hbs].
  apply returns_ret. by constructor.
Qed.

(** The reference DataSource of a source and the DataSource it refers to. *)
Definition resolved (name : string) (arch : Arch) (infos : list dataSourceInfo) : Prop :=
  (exists i, i ∈ infos /\ dataSource i = newDataSourceReference name (archName name arch)) /\
  exists i, i ∈ infos /\ Name (o_meta (dataSource i)) = archName name arch.

Lemma source_infos_resolved archs crons name dsArchs :
  returns (S := OpSt W) (fun infos => forall a, getDefaultDataSourceArch archs dsArchs = Some a -> resolved name a infos)
    (source_infos archs crons (name, dsArchs)).
Proof.
  unfold source_infos. destruct (getDefaultDataSourceArch archs dsArchs) as [a|] eqn:E;
    [|by apply returns_ret].
  eapply returns_bind; [apply returns_mapM, (arch_info_name crons name a)|]. intros infos HF.
  apply returns_ret. intros b [= <-]. split.
  - eexists. split; [apply list_elem_of_here|done].
  - destruct (getDefaultDataSourceArch_Some _ _ _ E) as [Hc Hd].
    assert (Hin : a ∈ filter (fun arch => contains archs arch = true) dsArchs).
    { apply list_elem_of_filter. by rewrite contains_true. }
    apply list_elem_of_lookup in Hin as [n Hn].
    destruct (Forall2_lookup_l _ _ _ _ _ HF Hn) as (i & Hi & Hname).
    exists i. split; [|done]. apply list_elem_of_further, list_elem_of_lookup. by exists n.
Qed.

(** C20: with several architectures, every source that the cluster can run gets a
    DataSource under its plain name, and the DataSource to which that one
    refers is deployed in the same round. *)
Theorem references_resolve coll crons req s infos s' archs name dsArchs a :
  getDataSourceInfosMultiArch (W := W) coll crons req s = (Ok infos, s') ->
  GetSSPArchs (ssp_spec (Instance req)) = Ok archs ->
  coll !! name = Some dsArchs ->
  getDefaultDataSourceArch archs dsArchs = Some a ->
  resolved name a infos.
Proof.
  intros Hrun Harchs Hcoll Ha. revert Hrun. unfold getDataSourceInfosMultiArch.
  destruct (multi_arch _); cbn [negb]; [|done]. rewrite Harchs. run_monad.
  destruct (mapM (source_infos archs crons) (map_range coll) s) as [[l|e|p] s1] eqn:E; cbn; [|done..].
  intros [= <- _].
  apply (returns_mapM (fun src infos => forall a, getDefaultDataSourceArch archs src.2 = Some a ->
    resolved src.1 a infos)) in E; [|intros [n ds]; apply source_infos_resolved].
  assert (Hin : (name, dsArchs) ∈ map_range coll) by (by apply elem_of_map_range).
  apply list_elem_of_lookup in Hin as [n Hn].
  destruct (Forall2_lookup_l _ _ _ _ _ E Hn) as (part & Hi & Hres).
  destruct (Hres a Ha) as [(i1 & Hi1 & E1) (i2 & Hi2 & E2)].
  apply list_elem_of_lookup_2 in Hi.
  split; [exists i1|exists i2]; (split; [|done]); apply list_elem_of_In, in_concat;
    exists part; split; by apply list_elem_of_In.
Qed.
End references.

(** ** Cleanup *)

Section cleanup.
Context `{Client W} `{Process} `{MapRange}.

(** Calls on DataImportCrons. *)
Definition on_crons (c : ApiCall) : bool :=
  match c with
  | CGet k _ | CList k _ | CDelete k _ => bool_decide (k = KDataImportCron)
  | _ => false
  end.

Lemma Cleanup_on_crons req o :
  is_cron o -> issued (W := W) (fun c => on_crons c = true) (Resource.Cleanup req o).
Proof.
  intros Hk s. unfold is_cron in Hk. unfold Resource.Cleanup, Get, call. run_monad. rewrite Hk.
  destruct (cl_Get _ _ _) as [[e|found] w] eqn:EG; cbn; [destruct (IsNotFound e); extend_trace|].
  apply cl_Get_kind in EG. destruct (isResourceOwned req o found) as [[isOwned res]|e|p]; [|extend_trace..].
  cbn. destruct (negb isOwned); [extend_trace|]. case_bool_decide; [|extend_trace].
  unfold Delete, call. cbn. rewrite EG. destruct (cl_Delete _ _ w) as [[e|u] w'] eqn:ED; cbn;
    [destruct (IsNotFound e)|]; extend_trace.
Qed.

Lemma List_crons req opts :
  returns (S := OpSt W) (Forall is_cron) (ListOwnedResources KDataImportCron req opts).
Proof.
  intros s l s'. unfold ListOwnedResources, List, call. run_monad.
  destruct (cl_List _ _ _) as [[e|items] w] eqn:E; cbn; [done|]. intros [= <- _].
  apply cl_List_kind in E. rewrite Forall_forall in E. apply Forall_forall.
  intros o [_ Ho]%list_elem_of_filter. by apply E.
Qed.

(** cleanup removes the DataImportCrons first. As long as one of them is left
    it touches nothing else; the rest of the objects is only looked at in a
    state in which the cleanup of every owned DataImportCron has answered that
    it is gone. *)
Theorem Cleanup_crons_first d req s :
  CrdExists (req_CrdList req) dataImportCronCrd = true ->
  extends (fun c => on_crons c = true) s (DataSources.Cleanup (W := W) d req s).2 \/
  exists owned results s1 s2,
    listAllOwnedDataImportCrons req s = (Ok owned, s1) /\
    mapM (Resource.Cleanup req) owned s1 = (Ok results, s2) /\
    Forall (fun r => Deleted r = true) results /\
    DataSources.Cleanup d req s = cleanupRest d req s2.
Proof.
  intros Hcrd. unfold DataSources.Cleanup. rewrite Hcrd. unfold mbind, M_bind.
  assert (HL : issued (W := W) (fun c => on_crons c = true) (listAllOwnedDataImportCrons req)).
  { unfold listAllOwnedDataImportCrons, ListOwnedResources, List. solve_issued. }
  specialize (HL s). destruct (listAllOwnedDataImportCrons req s) as [[owned|e|p] s1] eqn:EL;
    [|by left..].
  assert (HC : issued (W := W) (fun c => on_crons c = true) (mapM (Resource.Cleanup req) owned)).
  { apply issued_mapM. intros o Ho. apply Cleanup_on_crons.
    apply List_crons in EL. rewrite Forall_forall in EL. by apply EL. }
  specialize (HC s1). destruct (mapM (Resource.Cleanup req) owned s1) as [[results|e|p] s2] eqn:EC;
    [|left; by etrans..].
  destruct (forallb Deleted results) eqn:ED; [|left; by etrans].
  right. exists owned, results, s1, s2. split_and!; try done.
  apply Forall_forall. intros r Hr. rewrite forallb_forall in ED. by apply ED, list_elem_of_In.
Qed.
End cleanup.

(** ** Network policies *)

Lemma selects_label k v (ls : smap) :
  NetworkPolicies.selects (NetworkPolicies.match_label k v) ls = bool_decide (ls !! k = Some v).
Proof.
  unfold NetworkPolicies.selects, NetworkPolicies.match_label. cbn. rewrite andb_true_r.
  apply bool_decide_ext, map_singleton_subseteq_l.
Qed.

Lemma selects_all (ls : smap) : NetworkPolicies.selects (mkSelector ∅ []) ls = true.
Proof.
  unfold NetworkPolicies.selects. cbn. rewrite andb_true_r. apply bool_decide_eq_true, map_empty_subseteq.
Qed.

Lemma peer_matches k v (src nsl : smap) :
  NetworkPolicies.peers_match [NetworkPolicies.peer k v] src nsl = bool_decide (src !! k = Some v).
Proof.
  unfold NetworkPolicies.peers_match, NetworkPolicies.peer. cbn [existsb peer_PodSelector peer_NamespaceSelector fmap option_fmap option_map default].
  by rewrite selects_label, selects_all, andb_true_r, orb_false_r.
Qed.

Lemma port_tcp port proto p :
  NetworkPolicies.port_matches [NetworkPolicies.TCP port] proto p =
  bool_decide (proto = "TCP") && bool_decide (p = port).
Proof.
  unfold NetworkPolicies.port_matches. cbn. rewrite orb_false_r.
  f_equal; apply bool_decide_ext; split; congruence.
Qed.

Lemma selects_importer (ls : smap) :
  NetworkPolicies.selects
    (mkSelector {[ NetworkPolicies.LabelCDIKubevirtIo := "importer"; "prometheus.cdi.kubevirt.io" := "true" ]} [])
    ls =
  bool_decide (ls !! NetworkPolicies.LabelCDIKubevirtIo = Some "importer") &&
  bool_decide (ls !! "prometheus.cdi.kubevirt.io" = Some "true").
Proof.
  unfold NetworkPolicies.selects. cbn [MatchLabels MatchExpressions forallb]. rewrite andb_true_r.
  rewrite <- bool_decide_and. apply bool_decide_ext.
  rewrite map_subseteq_spec. split.
  - intros Hsub. split; apply Hsub.
    + apply lookup_insert_eq.
    + rewrite lookup_insert_ne by done. apply lookup_singleton_eq.
  - intros [Hi Hp] k v. rewrite lookup_insert_Some, lookup_singleton_Some. naive_solver.
Qed.

(** the traffic that may reach pods of the golden images namespace, exactly:
    the metrics of importers from the CDI deployment, and upload servers from
    clone sources and from the upload proxy, all over TCP port 8443. In
    particular no rule is about clone sources. *)
Theorem ingress_exact openshift dst src nsl proto port :
  let cdi (ls : smap) := ls !! NetworkPolicies.LabelCDIKubevirtIo in
  NetworkPolicies.ingress_allowed (newNetworkPolicies ns openshift) dst src nsl proto port =
  (bool_decide (cdi dst = Some "importer") &&
   bool_decide (dst !! "prometheus.cdi.kubevirt.io" = Some "true") &&
   bool_decide (cdi src = Some "cdi-deployment")
   || bool_decide (cdi dst = Some "cdi-upload-server") &&
      (bool_decide (cdi src = Some "cdi-clone-source") ||
       bool_decide (cdi src = Some "cdi-uploadproxy"))) &&
  (bool_decide (proto = "TCP") && bool_decide (port = 8443%Z)).
Proof.
  cbv zeta. unfold NetworkPolicies.ingress_allowed, newNetworkPolicies.
  cbn [existsb]. 
  unfold NetworkPolicies.NewEgressToKubeAPIAndDNS, NetworkPolicies.NewIngressToImporterMetrics,
    NetworkPolicies.NewIngressFromCDIUploadServerToCDICloneSource,
    NetworkPolicies.NewIngressFromCDIUploadProxyToCDIUploadServer,
    NetworkPolicies.NewEgressFromCDICloneSourceToCDIUploadServer,
    NetworkPolicies.NewEgressFromImporterToDataSource, NetworkPolicies.newNetworkPolicy,
    NetworkPolicies.policy_spec.
  cbn [o_body np_PodSelector np_PolicyTypes np_Ingress existsb ing_From ing_Ports].
  rewrite !selects_label, !peer_matches, !port_tcp, selects_importer.
  rewrite (proj2 (contains_true ["Ingress"] "Ingress")) by set_solver.
  rewrite !andb_false_r, !andb_true_r, !orb_false_r. cbn [orb].
  repeat case_bool_decide; done.
Qed.

Module DataSourcesWitness.
Definition coll : DataSourceCollection := {[ "fedora" := [AMD64; ARM64] ]}.

Definition cronTemplate (archs : string) : DataImportCronTemplate :=
  mkDataImportCronTemplate
    (with_annotations (newMeta "fedora-cron" "") (Some {[ DataImportCronArchsAnnotation := archs ]}))
    (mkDataImportCronSpec (Some (mkDataVolumeSource (Some (mkRegistry None ∅)) ∅)) ∅ "" "fedora" ∅).

Definition arm_cron : Object :=
  match crons_of_template [AMD64; ARM64] ∅ (cronTemplate "arm64, s390x") with
  | c :: _ => c
  | [] => cron_copy (cronTemplate "")
  end.

Lemma crons_of_template_multiarch_witness :
  exists arch, arch ∈ [AMD64; ARM64] /\ Name (o_meta arm_cron) = archName "fedora-cron" arch.
Proof.
  destruct (crons_of_template_multiarch [AMD64; ARM64] ∅ (cronTemplate "arm64, s390x") arm_cron)
    as (arch & Ha & _ & Hn & _).
  - vm_compute; discriminate.
  - vm_compute; apply list_elem_of_here.
  - by exists arch.
Defined.

#[local] Existing Instance Samples.process.
#[local] Existing Instance sorted_range.

Definition multiSpec : SSPSpec :=
  mkSSPSpec (Some true) None (Some (mkCluster ["amd64"; "arm64"] ["amd64"]))
    (mkCommonTemplates "openshift" [cronTemplate "amd64,arm64"]) None None.
Definition request : Request :=
  with_instance Samples.request (mkSSP (ssp_type Samples.ssp) (ssp_meta Samples.ssp) multiSpec (ssp_status Samples.ssp)).
Definition operator : dataSources := mkDataSources coll false.
Definition decision := getDataSourcesAndCrons operator request (start Samples.cluster).
Definition infos : list dataSourceInfo := match decision.1 with Ok (i, _) => i | _ => [] end.
Definition crons : list Object := match decision.1 with Ok (_, c) => c | _ => [] end.

Lemma decision_run : decision = (Ok (infos, crons), decision.2).
Proof. vm_compute; reflexivity. Qed.

Lemma crons_only_for_auto_update_witness :
  exists cron i, cron ∈ crons /\ i ∈ infos /\
    ObjectKeyFromObject (dataSource i) = mkKey (Namespace (o_meta cron)) (ManagedDataSource cron) /\
    autoUpdateEnabled i = true.
Proof.
  eexists (nth 0 crons (newDataSource "")), (nth 1 infos (mkDataSourceInfo (newDataSource "") false "")).
  assert (Hc : nth 0 crons (newDataSource "") ∈ crons) by (vm_compute; apply list_elem_of_here).
  assert (Hi : nth 1 infos (mkDataSourceInfo (newDataSource "") false "") ∈ infos)
    by (vm_compute; apply list_elem_of_further, list_elem_of_here).
  split; [exact Hc|]. split; [exact Hi|]. split; [vm_compute; reflexivity|].
  apply (crons_only_for_auto_update operator request (start Samples.cluster) infos crons decision.2
    (nth 0 crons (newDataSource ""))); [apply decision_run|exact Hc|exact Hi|vm_compute; reflexivity].
Defined.


Definition multi := getDataSourceInfosMultiArch coll ∅ request (start Samples.cluster).
Definition multi_infos : list dataSourceInfo := match multi.1 with Ok i => i | _ => [] end.

Lemma references_resolve_witness : resolved "fedora" AMD64 multi_infos.
Proof.
  apply (references_resolve coll ∅ request (start Samples.cluster) multi_infos multi.2 [AMD64; ARM64]
           "fedora" [AMD64; ARM64]); vm_compute; reflexivity.
Defined.

(** A DataSource that refers to the expected PVC and is ready, in a cluster
    without that PVC. *)
Definition readySource : Object :=
  mkObject (mkTypeMeta "" "") (with_server (newMeta "fedora" ns) "u" "1" 1 None)
    (DataSource (mkDataSourceSpec (mkDataSourceSource (Some (mkPvcRef "fedora" ns)) None None))
       (mkDataSourceStatus emptySource [mkDataSourceCondition "Ready" "True" ∅])).
Definition readyState : OpSt MemCluster := start (Mem.put Samples.cluster readySource).
Definition plainCrons : CronMap := {[ mkKey ns "fedora" := cron_copy (cronTemplate "") ]}.

Lemma autoUpdate_ignores_ready_witness :
  (dataSourceAutoUpdateEnabled (newDataSource "fedora") plainCrons readyState).1 = Ok true.
Proof.
  rewrite (autoUpdate_ignores_ready (newDataSource "fedora") (mkPvcRef "fedora" ns) plainCrons readyState
             readySource (op_world readyState)).
  - vm_compute; reflexivity.
  - reflexivity.
  - eexists; vm_compute; reflexivity.
  - vm_compute; reflexivity.
  - vm_compute; reflexivity.
Defined.

Definition updated : Object :=
  match updateDataSource (mkDataSourceInfo (newDataSource "fedora") true "fedora-cron") Samples.ssp
          (newDataSource "fedora") readySource with
  | Ok (_, o) => o
  | _ => readySource
  end.

Lemma updateDataSource_spec_witness :
  o_body updated = o_body readySource /\
  map_get (KubeTypes.Labels (o_meta updated)) dataImportCronLabel = "fedora-cron".
Proof.
  apply (updateDataSource_spec (mkDataSourceInfo (newDataSource "fedora") true "fedora-cron") Samples.ssp
    (newDataSource "fedora") readySource (newDataSource "fedora") updated).
  vm_compute; reflexivity.
Defined.

Definition cleanupRequest : Request :=
  mkRequest (NamespacedName Samples.request) Samples.ssp false "" (mkCrdList [dataImportCronCrd] []) false "".

Lemma Cleanup_crons_first_witness :
  extends (fun c => on_crons c = true) (start Samples.cluster)
    (DataSources.Cleanup operator cleanupRequest (start Samples.cluster)).2 \/
  exists owned results s1 s2,
    listAllOwnedDataImportCrons cleanupRequest (start Samples.cluster) = (Ok owned, s1) /\
    mapM (Resource.Cleanup cleanupRequest) owned s1 = (Ok results, s2) /\
    Forall (fun r => Deleted r = true) results /\
    DataSources.Cleanup operator cleanupRequest (start Samples.cluster) =
      cleanupRest operator cleanupRequest s2.
Proof. apply Cleanup_crons_first. vm_compute; reflexivity. Defined.
End DataSourcesWitness.
