(* ===== verification/VmCache.v ===== *)
(** * The VM cache of the template validator

    [internal/template-validator/labels] and [virtinformers/vmcache.go]: which
    template a virtual machine refers to, and the index from templates to the
    virtual machines that need them, kept up to date by a reflector. Every
    operation takes the lock of the cache, so that a history of the cache is a
    sequence of operations. *)

From S2P Require Import Prelude GoRuntime KubeTypes.

(** ** Template keys (labels/labels.go) *)

Module TemplateLabels.
Definition AnnotationTemplateNameKey : string := "vm.kubevirt.io/template".
Definition AnnotationTemplateNamespaceKey : string := "vm.kubevirt.io/template.namespace".
Definition AnnotationTemplateNamespaceOldKey : string := "vm.kubevirt.io/template-namespace".
Definition AnnotationValidationKey : string := "validations".
Definition VmValidationAnnotationKey : string := "vm.kubevirt.io/validations".
Definition VmSkipValidationAnnotationKey : string := "vm.kubevirt.io/skip-validations".

Record TemplateKey := mkTemplateKey {
  tk_Name : string;
  tk_Namespace : string;
  tk_OldNamespace : string
}.

Definition AnyNamespace (t : TemplateKey) : string :=
  if bool_decide (tk_Namespace t <> "") then tk_Namespace t else tk_OldNamespace t.

Definition key_IsValid (t : TemplateKey) : bool :=
  bool_decide (tk_Name t <> "") && bool_decide (AnyNamespace t <> "").

Definition key_String (t : TemplateKey) : string :=
  if negb (key_IsValid t) then "" else AnyNamespace t +:+ "/" +:+ tk_Name t.

Record TemplateKeys := mkTemplateKeys { LabelKey : TemplateKey; AnnotationKey : TemplateKey }.

Definition keys_Get (t : TemplateKeys) : TemplateKey :=
  if key_IsValid (LabelKey t) then LabelKey t else AnnotationKey t.

Definition keys_IsValid (t : TemplateKeys) : bool :=
  key_IsValid (LabelKey t) || key_IsValid (AnnotationKey t).

Definition getTemplateKeyFromMap (targetMap : gomap) : TemplateKey :=
  if bool_decide (size (default ∅ targetMap) = 0) then mkTemplateKey "" "" ""
  else mkTemplateKey (map_get targetMap AnnotationTemplateNameKey)
         (map_get targetMap AnnotationTemplateNamespaceKey)
         (map_get targetMap AnnotationTemplateNamespaceOldKey).

Definition GetTemplateKeys (obj : ObjectMeta) : TemplateKeys :=
  mkTemplateKeys (getTemplateKeyFromMap (Labels obj)) (getTemplateKeyFromMap (Annotations obj)).

(** The short cut for empty maps does not matter. *)
Lemma getTemplateKeyFromMap_eq m :
  getTemplateKeyFromMap m =
  mkTemplateKey (map_get m AnnotationTemplateNameKey) (map_get m AnnotationTemplateNamespaceKey)
    (map_get m AnnotationTemplateNamespaceOldKey).
Proof.
  unfold getTemplateKeyFromMap. case_bool_decide as E; [|done].
  destruct m as [m|]; [|done]. apply map_size_empty_iff in E. cbn in E. by subst.
Qed.

Lemma keys_Get_valid t : keys_IsValid t = key_IsValid (keys_Get t).
Proof. unfold keys_IsValid, keys_Get. by destruct (key_IsValid (LabelKey t)) eqn:E; rewrite ?E. Qed.

(** The key is empty exactly when it is invalid. *)
Lemma key_String_empty t : key_String t = "" <-> key_IsValid t = false.
Proof.
  unfold key_String. destruct (key_IsValid t) eqn:E; cbn; [|done].
  split; [|done]. apply andb_true_iff in E as [_ E%bool_decide_eq_true].
  by destruct (AnyNamespace t).
Qed.
End TemplateLabels.
Import TemplateLabels.

Module VmCache.

Record VmCacheValue := mkVmCacheValue { Vm : string; TemplateOf : string }.

#[export] Instance VmCacheValue_eq_dec : EqDecision VmCacheValue.
Proof. solve_decision. Defined.

Definition vmCacheKey (obj : ObjectMeta) : string :=
  NamespacedName_String (mkKey (Namespace obj) (Name obj)).

Definition newVmCacheValue (obj : ObjectMeta) : VmCacheValue :=
  mkVmCacheValue (vmCacheKey obj) (key_String (keys_Get (GetTemplateKeys obj))).

(** [templateMap]: templates with the set of their virtual machines. *)
Notation templateMap := (gmap string (gset string)).

Definition tm_Add (t : templateMap) (template vm : string) : templateMap :=
  <[template := {[vm]} ∪ default ∅ (t !! template)]> t.

Definition tm_Delete (t : templateMap) (template vm : string) : templateMap :=
  match t !! template with
  | None => t
  | Some vmNameSet =>
      let vmNameSet := vmNameSet ∖ {[vm]} in
      if bool_decide (size vmNameSet = 0) then delete template t
      else <[template := vmNameSet]> t
  end.

Definition tm_List `{SetRange} (t : templateMap) (template : string) : list string :=
  match t !! template with
  | None => []
  | Some names => set_range names
  end.

Definition Predicate := ObjectMeta -> bool.

Record vmCache := mkVmCache {
  store : gmap string VmCacheValue;
  vmsForTemplate : templateMap;
  hasSynced : bool
}.

Definition NewVmCache : vmCache := mkVmCache ∅ ∅ false.

Section operations.
Variable filter_ : Predicate.

Definition Add (v : vmCache) (obj : ObjectMeta) : vmCache :=
  if negb (filter_ obj) then v
  else
    let key := vmCacheKey obj in
    let val := newVmCacheValue obj in
    mkVmCache (<[key := val]> (store v)) (tm_Add (vmsForTemplate v) (TemplateOf val) (Vm val))
      (hasSynced v).

Definition Delete (v : vmCache) (obj : ObjectMeta) : vmCache :=
  let key := vmCacheKey obj in
  match store v !! key with
  | None => v
  | Some val =>
      mkVmCache (delete key (store v)) (tm_Delete (vmsForTemplate v) (TemplateOf val) (Vm val))
        (hasSynced v)
  end.

(** [reflect.DeepEqual(oldVal, newVal)] compares a [VmCacheValue] with a
    [*VmCacheValue]: values of different types are never deeply equal. *)
Definition DeepEqual_value_pointer (oldVal newVal : VmCacheValue) : bool := false.

Definition Update (v : vmCache) (obj : ObjectMeta) : vmCache :=
  if negb (filter_ obj) then Delete v obj
  else
    let key := vmCacheKey obj in
    let newVal := newVmCacheValue obj in
    match store v !! key with
    | None =>
        mkVmCache (<[key := newVal]> (store v))
          (tm_Add (vmsForTemplate v) (TemplateOf newVal) (Vm newVal)) (hasSynced v)
    | Some oldVal =>
        if DeepEqual_value_pointer oldVal newVal then v
        else
          mkVmCache (<[key := newVal]> (store v))
            (tm_Add (tm_Delete (vmsForTemplate v) (TemplateOf oldVal) (Vm oldVal))
               (TemplateOf newVal) (Vm newVal)) (hasSynced v)
    end.
End operations.

Definition List_ `{MapRange} (v : vmCache) : list VmCacheValue := (map_range (store v)).*2.
Definition ListKeys `{MapRange} (v : vmCache) : list string := (map_range (store v)).*1.
Definition GetByKey (v : vmCache) (key : string) : option VmCacheValue := store v !! key.
Definition Get (v : vmCache) (obj : ObjectMeta) : option VmCacheValue := GetByKey v (vmCacheKey obj).

(** One iteration of the loop of [Replace], on the new store and index. *)
Definition record_vm (acc : gmap string VmCacheValue * templateMap) (obj : ObjectMeta)
    : gmap string VmCacheValue * templateMap :=
  let val := newVmCacheValue obj in
  (<[vmCacheKey obj := val]> acc.1, tm_Add acc.2 (TemplateOf val) (Vm val)).

Definition Replace (v : vmCache) (list : list ObjectMeta) : vmCache :=
  let new := foldl record_vm (∅, ∅) list in mkVmCache new.1 new.2 true.

Definition Resync (v : vmCache) : vmCache := v.
Definition HasSynced (v : vmCache) : bool := hasSynced v.

Definition GetVmsForTemplate `{SetRange} (v : vmCache) (template : string) : list string :=
  tm_List (vmsForTemplate v) template.

(** [vmNeedsTemplate] (informers.go): the filter of the validator. *)
Definition vmNeedsTemplate : Predicate := fun vm =>
  if map_has (Annotations vm) VmValidationAnnotationKey then false
  else keys_IsValid (GetTemplateKeys vm).

(** ** The index is exact *)

(** A virtual machine is indexed under a template exactly when the store says
    so, entries are stored under their own name, and no set is empty. *)
Record exact (v : vmCache) : Prop := {
  exact_key : forall k val, store v !! k = Some val -> Vm val = k;
  exact_index : forall t vm, vm ∈ default ∅ (vmsForTemplate v !! t) <->
    exists val, store v !! vm = Some val /\ TemplateOf val = t;
  exact_nonempty : forall t s, vmsForTemplate v !! t = Some s -> s <> ∅
}.

Lemma elem_tm_Add t template vm t' vm' :
  vm' ∈ default ∅ (tm_Add t template vm !! t') <->
  (t' = template /\ vm' = vm) \/ vm' ∈ default ∅ (t !! t').
Proof.
  unfold tm_Add. destruct (decide (t' = template)) as [->|Hne].
  - rewrite lookup_insert_eq. cbn. set_solver.
  - rewrite lookup_insert_ne by done. naive_solver.
Qed.

Lemma elem_tm_Delete t template vm t' vm' :
  vm' ∈ default ∅ (tm_Delete t template vm !! t') <->
  ~ (t' = template /\ vm' = vm) /\ vm' ∈ default ∅ (t !! t').
Proof.
  unfold tm_Delete. destruct (t !! template) as [s|] eqn:E.
  - case_bool_decide as Hs.
    + apply size_empty_inv in Hs. destruct (decide (t' = template)) as [->|Hne].
      * rewrite lookup_delete_eq, E. cbn. set_solver.
      * rewrite lookup_delete_ne by done. naive_solver.
    + destruct (decide (t' = template)) as [->|Hne].
      * rewrite lookup_insert_eq, E. cbn. set_solver.
      * rewrite lookup_insert_ne by done. naive_solver.
  - split; [|naive_solver]. intros Hin. split; [|done]. intros [-> ->].
    rewrite E in Hin. set_solver.
Qed.

Definition no_empty (t : templateMap) : Prop := forall k s, t !! k = Some s -> s <> ∅.

Lemma tm_Add_no_empty t template vm : no_empty t -> no_empty (tm_Add t template vm).
Proof.
  intros Ht k s. unfold tm_Add. rewrite lookup_insert_Some.
  intros [[<- <-]|[_ Hk]]; [set_solver|by eapply Ht].
Qed.

Lemma tm_Delete_no_empty t template vm : no_empty t -> no_empty (tm_Delete t template vm).
Proof.
  intros Ht. unfold tm_Delete. destruct (t !! template) as [s0|]; [|done].
  case_bool_decide as Hs; intros k s.
  - rewrite lookup_delete_Some. intros [_ Hk]. by eapply Ht.
  - rewrite lookup_insert_Some. intros [[<- <-]|[_ Hk]]; [|by eapply Ht].
    intros He. apply Hs. by rewrite He, size_empty.
Qed.

Lemma exact_new : exact NewVmCache.
Proof.
  split; cbn.
  - intros k val. by rewrite lookup_empty.
  - intros t vm. rewrite lookup_empty. cbn. split; [set_solver|].
    intros (val & Hv & _). by rewrite lookup_empty in Hv.
  - intros t s. by rewrite lookup_empty.
Qed.

(** Storing a value whose key is not yet there keeps the index exact. *)
Lemma exact_insert v obj b :
  exact v -> store v !! vmCacheKey obj = None ->
  exact (mkVmCache (<[vmCacheKey obj := newVmCacheValue obj]> (store v))
           (tm_Add (vmsForTemplate v) (TemplateOf (newVmCacheValue obj)) (Vm (newVmCacheValue obj))) b).
Proof.
  intros [Hk Hi Hn] Hnone. split; cbn -[newVmCacheValue].
  - intros k val. rewrite lookup_insert_Some. intros [[<- <-]|[_ H]]; [done|by apply Hk].
  - intros t vm. rewrite elem_tm_Add, Hi. change (Vm (newVmCacheValue obj)) with (vmCacheKey obj).
    destruct (decide (vm = vmCacheKey obj)) as [->|Hne].
    + rewrite lookup_insert_eq, Hnone. naive_solver.
    + rewrite lookup_insert_ne by done. naive_solver.
  - by apply tm_Add_no_empty.
Qed.

Lemma exact_remove v k val b :
  exact v -> store v !! k = Some val ->
  exact (mkVmCache (delete k (store v)) (tm_Delete (vmsForTemplate v) (TemplateOf val) (Vm val)) b).
Proof.
  intros [Hk Hi Hn] Hval. pose proof (Hk _ _ Hval) as Hvm. split; cbn.
  - intros k' val'. rewrite lookup_delete_Some. intros [_ H]. by apply Hk.
  - intros t vm. rewrite elem_tm_Delete, Hi, Hvm. setoid_rewrite lookup_delete_Some. naive_solver.
  - by apply tm_Delete_no_empty.
Qed.

Lemma exact_synced v b : exact v -> exact (mkVmCache (store v) (vmsForTemplate v) b).
Proof. by intros [? ? ?]. Qed.

Lemma Delete_exact v obj : exact v -> exact (Delete v obj).
Proof. intros Hv. unfold Delete. destruct (store v !! _) eqn:E; [|done]. by apply exact_remove. Qed.

Lemma Update_exact f v obj : exact v -> exact (Update f v obj).
Proof.
  intros Hv. unfold Update. destruct (f obj); cbn [negb]; [|by apply Delete_exact].
  destruct (store v !! vmCacheKey obj) as [old|] eqn:E; cbn -[newVmCacheValue];
    [|by apply exact_insert].
  pose proof (exact_insert (mkVmCache (delete (vmCacheKey obj) (store v))
    (tm_Delete (vmsForTemplate v) (TemplateOf old) (Vm old)) (hasSynced v)) obj (hasSynced v)) as H.
  cbn -[newVmCacheValue] in H. rewrite insert_delete_eq in H. apply H.
  - by apply exact_remove.
  - apply lookup_delete_eq.
Qed.

(** Adding a virtual machine that the cache does not know. *)
Lemma Add_exact f v obj : exact v -> store v !! vmCacheKey obj = None -> exact (Add f v obj).
Proof. intros Hv Hn. unfold Add. destruct (f obj); [|done]. by apply exact_insert. Qed.

Lemma Replace_exact v objs : NoDup (vmCacheKey <$> objs) -> exact (Replace v objs).
Proof.
  intros Hnd. unfold Replace.
  enough (Hgen : forall w b, exact w -> (forall o, o ∈ objs -> store w !! vmCacheKey o = None) ->
    exact (mkVmCache (foldl record_vm (store w, vmsForTemplate w) objs).1
             (foldl record_vm (store w, vmsForTemplate w) objs).2 b)).
  { apply (Hgen NewVmCache true exact_new). intros o _. apply lookup_empty. }
  intros w b. revert w. induction objs as [|o objs IH]; intros w Hw Hfresh; cbn [foldl].
  - by apply exact_synced.
  - rewrite fmap_cons in Hnd. apply NoDup_cons in Hnd as [Ho Hnd].
    set (w' := mkVmCache (record_vm (store w, vmsForTemplate w) o).1
                 (record_vm (store w, vmsForTemplate w) o).2 (hasSynced w)).
    change (record_vm (store w, vmsForTemplate w) o) with (store w', vmsForTemplate w').
    apply (IH Hnd w').
    + apply exact_insert; [done|]. apply Hfresh, list_elem_of_here.
    + intros o' Ho'. change (store w') with (<[vmCacheKey o := newVmCacheValue o]> (store w)).
      rewrite lookup_insert_ne.
      * apply Hfresh. by apply list_elem_of_further.
      * intros E. apply Ho. rewrite E. by apply list_elem_of_fmap_2.
Qed.

(** ** Histories

    What the reflector does: it replaces the contents by a list of distinct
    objects, then delivers watch events, of which the first about an object is
    an addition. *)
Inductive step (f : Predicate) : vmCache -> vmCache -> Prop :=
| step_replace v objs : NoDup (vmCacheKey <$> objs) -> step f v (Replace v objs)
| step_add v obj : store v !! vmCacheKey obj = None -> step f v (Add f v obj)
| step_update v obj : step f v (Update f v obj)
| step_delete v obj : step f v (Delete v obj)
| step_resync v : step f v (Resync v).

Definition reachable (f : Predicate) (v : vmCache) : Prop := rtc (step f) NewVmCache v.

Lemma step_exact f v v' : step f v v' -> exact v -> exact v'.
Proof.
  destruct 1; intros Hv.
  - by apply Replace_exact.
  - by apply Add_exact.
  - by apply Update_exact.
  - by apply Delete_exact.
  - done.
Qed.

Lemma reachable_exact f v : reachable f v -> exact v.
Proof.
  unfold reachable. intros Hr.
  enough (Hgen : forall w, rtc (step f) w v -> exact w -> exact v) by (by apply (Hgen _ Hr), exact_new).
  induction 1 as [|w1 w2 w3 Hs _ IH]; [done|]. intros Hw. by apply IH, (step_exact f w1).
Qed.

(** The abstract view: each known virtual machine with its template. *)
Definition abstract (v : vmCache) : gmap string string := TemplateOf <$> store v.

Lemma GetVms_exact `{SetRange} f v t :
  reachable f v ->
  NoDup (GetVmsForTemplate v t) /\
  forall vm, vm ∈ GetVmsForTemplate v t <-> abstract v !! vm = Some t.
Proof.
  intros [_ Hi _]%reachable_exact. unfold GetVmsForTemplate, tm_List, abstract.
  specialize (Hi t). split.
  - destruct (vmsForTemplate v !! t); [|apply NoDup_nil_2].
    rewrite set_range_perm. apply NoDup_elements.
  - intros vm. rewrite lookup_fmap, fmap_Some.
    transitivity (vm ∈ default ∅ (vmsForTemplate v !! t)).
    + destruct (vmsForTemplate v !! t) as [s|]; cbn; [|set_solver].
      by rewrite set_range_perm, elem_of_elements.
    + rewrite Hi. naive_solver.
Qed.


(** how each operation changes the abstract view: additions and updates of
    virtual machines that pass the filter record their template, updates of
    others and deletions forget them. *)
Theorem operations_refine f v obj :
  let key := vmCacheKey obj in
  let template := key_String (keys_Get (GetTemplateKeys obj)) in
  abstract (Add f v obj) = (if f obj then <[key := template]> (abstract v) else abstract v) /\
  abstract (Update f v obj) =
    (if f obj then <[key := template]> (abstract v) else delete key (abstract v)) /\
  abstract (Delete v obj) = delete key (abstract v).
Proof.
  cbv zeta. assert (HD : abstract (Delete v obj) = delete (vmCacheKey obj) (abstract v)).
  { unfold Delete, abstract. destruct (store v !! vmCacheKey obj) eqn:E; cbn.
    - by rewrite fmap_delete.
    - rewrite delete_id; [done|]. by rewrite lookup_fmap, E. }
  split_and!; [| |done].
  - unfold Add, abstract. destruct (f obj); cbn -[newVmCacheValue]; [|done]. by rewrite fmap_insert.
  - unfold Update. destruct (f obj); cbn -[newVmCacheValue]; [|done]. unfold abstract.
    destruct (store v !! vmCacheKey obj); cbn -[newVmCacheValue]; by rewrite fmap_insert.
Qed.

(** replacing the contents does not apply the filter of the cache. A virtual
    machine that names a template but carries its own validations is not
    recorded when a watch event adds it, but it is recorded, and reported as a
    user of the template, when the initial list contains it. *)
Theorem Replace_ignores_filter `{SetRange} v obj :
  vmNeedsTemplate obj = false ->
  Add vmNeedsTemplate v obj = v /\
  GetVmsForTemplate (Replace v [obj]) (key_String (keys_Get (GetTemplateKeys obj))) = [vmCacheKey obj].
Proof.
  intros Hf. split; [unfold Add; by rewrite Hf|].
  unfold GetVmsForTemplate, tm_List, Replace. cbn -[GetTemplateKeys vmCacheKey].
  unfold tm_Add. rewrite lookup_insert_eq, lookup_empty. cbn -[GetTemplateKeys vmCacheKey].
  apply Permutation_singleton_r. rewrite set_range_perm, (right_id_L ∅ (∪)). by rewrite elements_singleton.
Qed.

Module VmCacheWitness.
#[local] Existing Instance sorted_set_range.
Definition vm (name template : string) : ObjectMeta :=
  with_labels (newMeta name "ns")
    (Some {[ AnnotationTemplateNameKey := template; AnnotationTemplateNamespaceKey := "openshift" ]}).
Definition own_rules (m : ObjectMeta) : ObjectMeta :=
  with_annotations m (Some {[ VmValidationAnnotationKey := "[]" ]}).
Definition history : vmCache :=
  Update vmNeedsTemplate (Add vmNeedsTemplate (Replace NewVmCache [vm "a" "t1"]) (vm "b" "t1")) (vm "a" "t2").

Lemma history_reachable : reachable vmNeedsTemplate history.
Proof.
  eapply rtc_l; [apply (step_replace _ _ [vm "a" "t1"]); repeat constructor; set_solver|].
  eapply rtc_l; [apply (step_add _ _ (vm "b" "t1")); vm_compute; reflexivity|].
  eapply rtc_l; [apply (step_update _ _ (vm "a" "t2"))|]. apply rtc_refl.
Qed.


Lemma Replace_ignores_filter_witness :
  GetVmsForTemplate (Replace NewVmCache [own_rules (vm "a" "t1")]) "openshift/t1" = ["ns/a"].
Proof.
  apply (Replace_ignores_filter NewVmCache (own_rules (vm "a" "t1"))). vm_compute; reflexivity.
Defined.
End VmCacheWitness.
End VmCache.
