(* ===== verification/RulePath.v ===== *)
(** * Paths and values of validation rules

    [internal/template-validator/validation/path]: JSONPath expressions of
    rules, the values that they find in a virtual machine, and rule arguments
    that are either constants or paths. The JSONPath library is a parameter. *)

From S2P Require Import Prelude GoRuntime KubeTypes Json.

(** ** Virtual machines *)

(** [kubevirtv1.CPU]; the counts are [uint32]. *)
Record CPU := mkCPU { Sockets : Z; Cores : Z; Threads : Z; cpu_other : Opaque }.
(** [Spec.Template.Spec]: the part that the validator changes, and the rest. *)
Record VmTemplate := mkVmTemplate { domain_CPU : option CPU; vmt_other : Opaque }.
Record VirtualMachine := mkVirtualMachine {
  vm_meta : ObjectMeta; vm_Template : option VmTemplate; vm_other : Opaque }.

(** ** Values found by a path *)

Inductive IntKind := Int | Int8 | Int16 | Int32 | Int64 | Uint | Uint8 | Uint16 | Uint32 | Uint64.

(** The dynamic type and value of a [reflect.Value]. *)
Inductive GoValue :=
| VInt (k : IntKind) (z : Z)
| VFloat (single : bool) (m e : Z)
| VString (s : string)
(** a type whose underlying type is [string] *)
| VNamedString (type s : string)
(** [resource.Quantity] or a pointer to it, with the result of its [AsInt64] *)
| VQuantity (pointer : bool) (v : option Z)
| VOther (type : string).

Definition kind_string (k : IntKind) : string :=
  match k with
  | Int => "int" | Int8 => "int8" | Int16 => "int16" | Int32 => "int32" | Int64 => "int64"
  | Uint => "uint" | Uint8 => "uint8" | Uint16 => "uint16" | Uint32 => "uint32" | Uint64 => "uint64"
  end.

Definition type_string (v : GoValue) : string :=
  match v with
  | VInt k _ => kind_string k
  | VFloat single _ _ => if (single : bool) then "float32" else "float64"
  | VString _ => "string"
  | VNamedString t _ => t
  | VQuantity p _ => if (p : bool) then "*resource.Quantity" else "resource.Quantity"
  | VOther t => t
  end.

(** ** Floating point numbers *)

Module Float.
(** [math.Round] of [m * 2 ^ e]: to the nearest integer, halves away from zero. *)
Definition Round (m e : Z) : Z :=
  if bool_decide (0 <= e)%Z then (m * 2 ^ e)%Z
  else let d := (2 ^ (- e))%Z in (Z.sgn m * ((2 * Z.abs m + d) / (2 * d)))%Z.

(** The [float64] nearest to an integer, ties to even: 53 significant bits. *)
Definition of_Z (z : Z) : Z :=
  let a := Z.abs z in
  let s := Z.max 0 (Z.log2 a - 52) in
  let u := (2 ^ s)%Z in
  let q := (a / u)%Z in
  let r := (a mod u)%Z in
  let up := bool_decide (u < 2 * r)%Z || bool_decide (2 * r = u)%Z && Z.odd q in
  (Z.sgn z * ((if up then q + 1 else q) * u))%Z.

(** Integers of up to 53 bits are exact. *)
Lemma of_Z_exact z : (Z.abs z <= 2 ^ 53)%Z -> of_Z z = z.
Proof.
  intros Hz. unfold of_Z.
  destruct (decide (Z.abs z < 2 ^ 53)%Z) as [Hlt|Hge].
  - assert (Z.max 0 (Z.log2 (Z.abs z) - 52) = 0)%Z as ->.
    { destruct (decide (Z.abs z = 0)%Z) as [->|Hne]; [done|].
      assert (Z.log2 (Z.abs z) < 53)%Z by (apply Z.log2_lt_pow2; lia). lia. }
    rewrite Z.pow_0_r, Z.mod_1_r, Z.div_1_r. cbn -[Z.mul Z.sgn].
    rewrite (bool_decide_false (1 < 2 * 0)%Z), (bool_decide_false (2 * 0 = 1)%Z) by lia. cbn [orb andb].
    rewrite Z.mul_1_r, Z.mul_comm. apply Z.abs_sgn.
  - assert (Z.abs z = 2 ^ 53)%Z as Ha by lia. rewrite Ha.
    transitivity (Z.sgn z * (2 ^ 53))%Z; [done|].
    rewrite <- Ha, Z.mul_comm. apply Z.abs_sgn.
Qed.
End Float.

(** Conversion of an integral float to [int64] when it does not fit depends on
    the machine. *)
Class FloatConv := { float_overflow : Z -> Z }.

#[export] Instance in_int64_dec z : Decision (in_int64 z).
Proof. unfold in_int64. apply _. Defined.

Definition float_to_int64 `{FloatConv} (z : Z) : Z :=
  if bool_decide (in_int64 z) then z else float_overflow z.

Module RulePath.

(** [conv.go]; unsigned values wrap around. *)
Definition toInt64 `{FloatConv} (obj : GoValue) : option Z :=
  match obj with
  | VInt (Int | Int32 | Int64) z => Some z
  | VInt (Uint | Uint32 | Uint64) z => Some (wrap64 z)
  | VFloat _ m e => Some (float_to_int64 (Float.Round m e))
  | _ => None
  end.

Definition JSONPathPrefix : string := "jsonpath::".
Definition ErrInvalidJSONPath : error := EMsg "invalid JSONPath".

Definition isJSONPath (s : string) : bool := HasPrefix s JSONPathPrefix.

Definition trimJSONPath (path : string) : string := TrimPrefix (TrimPrefix path JSONPathPrefix) "$".

Definition NewJSONPathFromString (path : string) : outcome string :=
  if negb (isJSONPath path) then Err ErrInvalidJSONPath
  else Ok ("{.spec.template" +:+ trimJSONPath path +:+ "}").

(** [k8s.io/client-go/util/jsonpath] *)
Class JsonPathLib := {
  JSONPath : Type;
  Parse : string -> error + JSONPath;
  FindResults : JSONPath -> VirtualMachine -> error + list (list GoValue)
}.

(** *** Results *)

Notation Results := (list (list GoValue)).

Definition Results_Len (r : Results) : nat := foldl (fun total result => total + length result) 0 r.

(** [reflect.Value.String]: other kinds than strings give a description. *)
Definition Value_String (v : GoValue) : string :=
  match v with
  | VString s | VNamedString _ s => s
  | _ => "<" +:+ type_string v +:+ " Value>"
  end.

Fixpoint as_strings (vals : list GoValue) : outcome (list string) :=
  match vals with
  | [] => Ok []
  | v :: rest =>
      let converted :=
        match v with
        | VString s => Some s
        | _ => if bool_decide (Value_String v <> "<invalid Value>") then Some (Value_String v) else None
        end in
      match converted with
      | Some s => rest' ← as_strings rest; Ok (s :: rest')
      | None => Err (EMsg ("mismatching type: " +:+ type_string v +:+ ", not string"))
      end
  end.
Definition AsString (r : Results) : outcome (list string) := as_strings (concat r).

Definition value_int64 `{FloatConv} (v : GoValue) : option Z :=
  match toInt64 v with
  | Some z => Some z
  | None => match v with VQuantity _ q => q | _ => None end
  end.

Fixpoint as_int64s `{FloatConv} (vals : list GoValue) : outcome (list Z) :=
  match vals with
  | [] => Ok []
  | v :: rest =>
      match value_int64 v with
      | Some z => rest' ← as_int64s rest; Ok (z :: rest')
      | None => Err (EMsg ("mismatching type: " +:+ type_string v +:+ ", not int or resource.Quantity"))
      end
  end.
Definition AsInt64 `{FloatConv} (r : Results) : outcome (list Z) := as_int64s (concat r).

(** *** Paths *)

Section paths.
Context `{JsonPathLib} `{FloatConv}.

(** The zero value of the struct has no compiled path. *)
Record Path := mkPath { path_expr : string; path_compiled : option JSONPath }.
Definition zeroPath : Path := mkPath "" None.

Definition New (expr : string) : outcome Path :=
  pathExpr ← NewJSONPathFromString expr;
  match Parse pathExpr with
  | inl err => Err err
  | inr jp => Ok (mkPath (trimJSONPath expr) (Some jp))
  end.

Definition NewOrPanic (expr : string) : outcome Path :=
  match New expr with
  | Err err => Panic (Error err)
  | r => r
  end.

Definition Expr (p : Path) : string := path_expr p.

Definition Find (p : Path) (vm : VirtualMachine) : outcome Results :=
  match path_compiled p with
  | None => Panic "invalid memory address or nil pointer dereference"
  | Some jp =>
      match FindResults jp vm with
      | inl _ => Err ErrInvalidJSONPath
      | inr results => Ok results
      end
  end.

(** The JSON string that [MarshalJSON] produces. *)
Definition MarshalJSON (p : Path) : json := JString (JSONPathPrefix +:+ Expr p).

(** [json.Unmarshal] into a string: null leaves it empty. *)
Definition unmarshal_string (j : json) : outcome string :=
  match j with
  | JString s => Ok s
  | JNull => Ok ""
  | _ => Err (EMsg ("json: cannot unmarshal into Go value of type string: " +:+ Json.go_type j))
  end.

Definition UnmarshalJSON (j : json) : outcome Path := str ← unmarshal_string j; New str.

(** *** variants.go *)

Record IntOrPath := mkIntOrPath { iop_Int : Z; iop_Path : option Path }.
Definition IsInt (r : IntOrPath) : bool := match iop_Path r with None => true | Some _ => false end.

(** A number is decoded as [float64] and rounded; anything else is a path. *)
Definition IntOrPath_UnmarshalJSON (j : json) : outcome IntOrPath :=
  let path := match UnmarshalJSON j with
              | Ok p => Ok (mkIntOrPath 0 (Some p))
              | Err err => Err (EWrap "cannot unmarshall IntOrPath from JSON: " err)
              | Panic m => Panic m
              end in
  match j with
  | JInt z => Ok (mkIntOrPath (float_to_int64 (Float.of_Z z)) None)
  | JFloat m e => Ok (mkIntOrPath (float_to_int64 (Float.Round m e)) None)
  | JNull => Ok (mkIntOrPath 0 None)
  | _ => path
  end.

Record StringOrPath := mkStringOrPath { sop_Str : string; sop_Path : option Path }.
Definition IsString (r : StringOrPath) : bool := match sop_Path r with None => true | Some _ => false end.

Definition StringOrPath_UnmarshalJSON (j : json) : outcome StringOrPath :=
  str ← unmarshal_string j;
  if negb (isJSONPath str) then Ok (mkStringOrPath str None)
  else path ← New str; Ok (mkStringOrPath "" (Some path)).

(** ** Correctness *)


(** reading values as strings does not fail for values of any type: what is
    not a string is described instead, so that the type mismatch error is only
    reached by a value that is described as the zero [reflect.Value]. *)
Theorem AsString_total r :
  Forall (fun v => Value_String v <> "<invalid Value>") (concat r) ->
  AsString r = Ok (Value_String <$> concat r).
Proof.
  unfold AsString. induction 1 as [|v vals Hv _ IH]; [done|]. cbn [as_strings].
  assert (match v with
    | VString s => Some s
    | _ => if bool_decide (Value_String v <> "<invalid Value>") then Some (Value_String v) else None
    end = Some (Value_String v)) as ->
    by (destruct v; [..|by rewrite bool_decide_true]; try done; by rewrite bool_decide_true).
  by rewrite IH.
Qed.

(** an integer argument of a rule is read exactly when it has at most 53
    bits. *)
Theorem IntOrPath_exact z :
  (Z.abs z <= 2 ^ 53)%Z -> IntOrPath_UnmarshalJSON (JInt z) = Ok (mkIntOrPath z None).
Proof.
  intros Hz. unfold IntOrPath_UnmarshalJSON. rewrite Float.of_Z_exact by done.
  unfold float_to_int64. rewrite bool_decide_true; [done|]. unfold in_int64. lia.
Qed.
End paths.
End RulePath.
