(* ===== verification/Validation.v ===== *)
(** * Evaluation of validation rules

    [internal/template-validator/validation]: rules, their specialisation to a
    virtual machine, and the report on all of them. *)

From S2P Require Import Prelude GoRuntime KubeTypes Json RulePath.

Import RulePath.

(** The package [regexp]: compiling an expression gives its matcher. *)
Class RegexpLib := { Compile : string -> error + (string -> bool) }.

Module Validation.
Section validation.
Context `{JsonPathLib} `{FloatConv} `{RegexpLib}.

(** ** Rules (rules.go) *)

Record Rule := mkRule_ {
  r_Rule : string;
  r_Name : string;
  r_Path : Path;
  r_Message : string;
  r_Valid : option Path;
  r_JustWarning : bool;
  r_Values : list StringOrPath;
  r_Min : option IntOrPath;
  r_Max : option IntOrPath;
  r_MinLength : option IntOrPath;
  r_MaxLength : option IntOrPath;
  r_Regex : string
}.

Definition IsAppliableOn (r : Rule) (vm : VirtualMachine) : outcome bool :=
  match r_Valid r with
  | None => Ok true
  | Some valid =>
      match Find valid vm with
      | Ok results => Ok (bool_decide (0 < Results_Len results))
      | Err _ => Ok false
      | Panic p => Panic p
      end
  end.

(** ** Specialised rules (specialized.go) *)

Definition IntegerRule : string := "integer".
Definition StringRule : string := "string".
Definition EnumRule : string := "enum".
Definition RegexRule : string := "regex".

Definition RuleType_IsValid (r : string) : bool :=
  contains [IntegerRule; StringRule; EnumRule; RegexRule] r.

Definition ErrNoValuesFound : error := EMsg "no values were found".

Record Range := mkRange { MinSet : bool; rg_Min : Z; MaxSet : bool; rg_Max : Z }.

Definition Includes (r : Range) (v : Z) : bool :=
  if MinSet r && bool_decide (v < rg_Min r)%Z then false
  else if MaxSet r && bool_decide (v > rg_Max r)%Z then false
  else true.

Definition findPathOnVmOrRef (path : Path) (vm ref : VirtualMachine) : outcome Results :=
  match Find path vm with
  | Ok res => Ok res
  | Err _ => Find path ref
  | Panic p => Panic p
  end.

Definition decodeInts (path : Path) (vm ref : VirtualMachine) : outcome (list Z) :=
  res ← findPathOnVmOrRef path vm ref; AsInt64 res.

Definition one_value {A} (vals : list A) : outcome A :=
  match vals with
  | [v] => Ok v
  | _ => Err (EMsg ("expected one value, found " +:+ itoa (Z.of_nat (length vals))))
  end.

Definition decodeInt (ip : IntOrPath) (vm ref : VirtualMachine) : outcome Z :=
  match iop_Path ip with
  | None => Ok (iop_Int ip)
  | Some path => v ← decodeInts path vm ref; one_value v
  end.

Definition decodeStrings (path : Path) (vm ref : VirtualMachine) : outcome (list string) :=
  res ← findPathOnVmOrRef path vm ref; AsString res.

Definition decodeString (sp : StringOrPath) (vm ref : VirtualMachine) : outcome string :=
  match sop_Path sp with
  | None => Ok (sop_Str sp)
  | Some path => v ← decodeStrings path vm ref; one_value v
  end.

Definition decodeBound (b : option IntOrPath) (vm ref : VirtualMachine) : outcome (option Z) :=
  match b with
  | None => Ok None
  | Some ip => v ← decodeInt ip vm ref; Ok (Some v)
  end.

(** [Range.Decode] on the zero range. *)
Definition Decode (min max : option IntOrPath) (vm ref : VirtualMachine) : outcome Range :=
  lo ← decodeBound min vm ref;
  hi ← decodeBound max vm ref;
  Ok (mkRange (bool_decide (is_Some lo)) (default 0%Z lo)
              (bool_decide (is_Some hi)) (default 0%Z hi)).

(** [RuleApplier]: a specialised rule before it is applied. *)
Inductive RuleApplier :=
| intRule (Value : Range)
| stringRule (Length : Range)
| enumRule (Values : list string)
| regexRule (matches : string -> bool).

Definition NewIntRule (r : Rule) (vm ref : VirtualMachine) : outcome RuleApplier :=
  v ← Decode (r_Min r) (r_Max r) vm ref; Ok (intRule v).

Definition NewStringRule (r : Rule) (vm ref : VirtualMachine) : outcome RuleApplier :=
  l ← Decode (r_MinLength r) (r_MaxLength r) vm ref; Ok (stringRule l).

Definition NewEnumRule (r : Rule) (vm ref : VirtualMachine) : outcome RuleApplier :=
  vs ← mapM (fun v => decodeString v vm ref) (r_Values r); Ok (enumRule vs).

Definition NewRegexRule (r : Rule) : outcome RuleApplier :=
  match Compile (r_Regex r) with
  | inl err => Err err
  | inr m => Ok (regexRule m)
  end.

Definition Specialize (r : Rule) (vm ref : VirtualMachine) : outcome RuleApplier :=
  if bool_decide (r_Rule r = IntegerRule) then NewIntRule r vm ref
  else if bool_decide (r_Rule r = StringRule) then NewStringRule r vm ref
  else if bool_decide (r_Rule r = EnumRule) then NewEnumRule r vm ref
  else if bool_decide (r_Rule r = RegexRule) then NewRegexRule r
  else Err (EMsg ("usupported rule: " +:+ r_Rule r)).

(** The loops [for _, val := range vals { if !p(val) { satisfied = false; break } }]. *)
Fixpoint all_satisfy {A} (p : A -> bool) (vals : list A) : bool :=
  match vals with
  | [] => true
  | val :: rest => if negb (p val) then false else all_satisfy p rest
  end.

Definition containsOnly (data expected : list string) : bool := all_satisfy (contains expected) data.

Definition int_len (s : string) : Z := wrap64 (Z.of_nat (String.length s)).

(** *** Messages *)

Definition bound_string (set : bool) (v : Z) : string := if set then itoa v else "N/A".

(** [%v] of a slice of integers *)
Definition format_ints (vals : list Z) : string := "[" +:+ Join (itoa <$> vals) " " +:+ "]".

Fixpoint int_errors (rg : Range) (vals : list Z) : string :=
  let lowerBound := bound_string (MinSet rg) (rg_Min rg) in
  let upperBound := bound_string (MaxSet rg) (rg_Max rg) in
  match vals with
  | [] => ""
  | value :: rest =>
      (if MinSet rg && bool_decide (value < rg_Min rg)%Z
       then "value " +:+ itoa value +:+ " is lower than minimum [" +:+ lowerBound +:+ "]" else "")
      +:+ (if MaxSet rg && bool_decide (value > rg_Max rg)%Z
           then "value " +:+ itoa value +:+ " is higher than maximum [" +:+ upperBound +:+ "]" else "")
      +:+ match rest with [] => "" | _ => ", " +:+ int_errors rg rest end
  end.

Definition intRule_String (rg : Range) (current : list Z) (satisfied : bool) : string :=
  if satisfied then
    "All values " +:+ format_ints current +:+ " are in interval ["
    +:+ bound_string (MinSet rg) (rg_Min rg) +:+ ", " +:+ bound_string (MaxSet rg) (rg_Max rg) +:+ "]"
  else int_errors rg current.

Definition stringRule_String (rg : Range) (satisfied : bool) : string :=
  (if satisfied then "Lengts of all strings are in interval ["
   else "Lengths of some strings are not in interval [")
  +:+ bound_string (MinSet rg) (rg_Min rg) +:+ ", " +:+ bound_string (MaxSet rg) (rg_Max rg) +:+ "]".

Definition enumRule_String (values current : list string) (satisfied : bool) : string :=
  if satisfied then "All [" +:+ Join current ", " +:+ "] are in [" +:+ Join values ", " +:+ "]"
  else "Some of [" +:+ Join current ", " +:+ "] are not in [" +:+ Join values ", " +:+ "]".

Definition regexRule_String (regex : string) (current : list string) (satisfied : bool) : string :=
  if satisfied then "All [" +:+ Join current ", " +:+ "] match " +:+ regex
  else "Some of [" +:+ Join current ", " +:+ "] do not match " +:+ regex.

(** [Apply] followed by [String], per kind of rule: whether the rule is
    satisfied, and the text. *)
Definition intRule_Apply (r : Rule) (rg : Range) (vm ref : VirtualMachine) : outcome (bool * string) :=
  vals ← decodeInts (r_Path r) vm ref;
  match vals with
  | [] => Err ErrNoValuesFound
  | _ => let satisfied := all_satisfy (Includes rg) vals in
         Ok (satisfied, intRule_String rg vals satisfied)
  end.

Definition stringRule_Apply (r : Rule) (rg : Range) (vm ref : VirtualMachine) : outcome (bool * string) :=
  vals ← decodeStrings (r_Path r) vm ref;
  match vals with
  | [] => Err ErrNoValuesFound
  | _ => let satisfied := all_satisfy (fun s => Includes rg (int_len s)) vals in
         Ok (satisfied, stringRule_String rg satisfied)
  end.

Definition enumRule_Apply (r : Rule) (values : list string) (vm ref : VirtualMachine)
    : outcome (bool * string) :=
  vals ← decodeStrings (r_Path r) vm ref;
  match vals with
  | [] => Err ErrNoValuesFound
  | _ => let satisfied := containsOnly vals values in
         Ok (satisfied, enumRule_String values vals satisfied)
  end.

Definition regexRule_Apply (r : Rule) (matches : string -> bool) (vm ref : VirtualMachine)
    : outcome (bool * string) :=
  vals ← decodeStrings (r_Path r) vm ref;
  match vals with
  | [] => Err ErrNoValuesFound
  | _ => let satisfied := all_satisfy matches vals in
         Ok (satisfied, regexRule_String (r_Regex r) vals satisfied)
  end.

Definition Apply (r : Rule) (ra : RuleApplier) (vm ref : VirtualMachine) : outcome (bool * string) :=
  match ra with
  | intRule rg => intRule_Apply r rg vm ref
  | stringRule rg => stringRule_Apply r rg vm ref
  | enumRule values => enumRule_Apply r values vm ref
  | regexRule matches => regexRule_Apply r matches vm ref
  end.

(** ** Evaluation (eval.go) *)

Definition ErrUnrecognizedRuleType : error := EMsg "unrecognized Rule type".
Definition ErrDuplicateRuleName : error := EMsg "duplicate Rule Name".
Definition ErrMissingRequiredKey : error := EMsg "missing required key".

Record ValidationReport := mkReport {
  Ref : Rule;
  Skipped : bool;
  Satisfied : bool;
  rep_Message : string;
  rep_Error : option error
}.

Record Result := mkValidationResult { rep_Status : list ValidationReport; failed : bool }.

Definition result_Fail (res : Result) (ru : Rule) (e : error) : Result :=
  mkValidationResult (rep_Status res ++ [mkReport ru false false "" (Some e)]) true.

Definition result_Skip (res : Result) (ru : Rule) : Result :=
  mkValidationResult (rep_Status res ++ [mkReport ru true false "" None]) (failed res).

Definition result_Applied (res : Result) (ru : Rule) (satisfied : bool) (message : string) : Result :=
  mkValidationResult (rep_Status res ++ [mkReport ru false satisfied message None])
    (if negb satisfied && negb (r_JustWarning ru) then true else failed res).

Definition Succeeded (res : Result) : bool := negb (failed res).

Definition needsCause (rr : ValidationReport) : option string :=
  match rep_Error rr with
  | Some e => Some (Error e)
  | None => if negb (Skipped rr) && negb (Satisfied rr) then Some (rep_Message rr) else None
  end.

Record StatusCause := mkStatusCause { sc_Type : string; sc_Field : string; sc_Message : string }.

Definition cause_of (rr : ValidationReport) : option StatusCause :=
  (fun message => mkStatusCause "FieldValueInvalid" (Expr (r_Path (Ref rr)))
                    (r_Message (Ref rr) +:+ ": " +:+ message)) <$> needsCause rr.

Definition ToStatusCauses (res : Result) : list StatusCause :=
  if negb (failed res) then [] else omap cause_of (rep_Status res).

Definition validateRule (r : Rule) : outcome unit :=
  if negb (RuleType_IsValid (r_Rule r)) then Err ErrUnrecognizedRuleType
  else if bool_decide (r_Message r = "") then Err ErrMissingRequiredKey
  else Ok tt.

(** One iteration of the loop of [Evaluate]. A library call that panics makes
    the whole evaluation panic. *)
Definition evaluate_rule (vm refVm : VirtualMachine) (uniqueNames : gset string) (res : Result)
    (r : Rule) : outcome (gset string * Result) :=
  if bool_decide (r_Name r ∈ uniqueNames) then Ok (uniqueNames, result_Fail res r ErrDuplicateRuleName)
  else
    let uniqueNames := {[r_Name r]} ∪ uniqueNames in
    match validateRule r with
    | Err err => Ok (uniqueNames, result_Fail res r err)
    | Panic p => Panic p
    | Ok _ =>
        appliable ← IsAppliableOn r vm;
        if negb appliable then Ok (uniqueNames, result_Skip res r)
        else
          match (ra ← Specialize r vm refVm; Apply r ra vm refVm) with
          | Err err => Ok (uniqueNames, result_Fail res r err)
          | Panic p => Panic p
          | Ok (satisfied, text) => Ok (uniqueNames, result_Applied res r satisfied text)
          end
    end.

Fixpoint evaluate_loop (vm refVm : VirtualMachine) (uniqueNames : gset string) (res : Result)
    (rules : list Rule) : outcome Result :=
  match rules with
  | [] => Ok res
  | r :: rest =>
      '(uniqueNames, res) ← evaluate_rule vm refVm uniqueNames res r;
      evaluate_loop vm refVm uniqueNames res rest
  end.

(** [refVm] is the VM that [NewDefaultVirtualMachine] builds. *)
Definition Evaluate (refVm : VirtualMachine) (rules : list Rule) (vm : VirtualMachine)
    : outcome Result :=
  evaluate_loop vm refVm ∅ (mkValidationResult [] false) rules.

(** ** Correctness *)

Lemma all_satisfy_Forall {A} (p : A -> bool) vals :
  all_satisfy p vals = true <-> Forall (fun v => p v = true) vals.
Proof.
  induction vals as [|v vals IH]; cbn; [split; [constructor|done]|].
  rewrite Forall_cons. destruct (p v); cbn; naive_solver.
Qed.

Lemma Includes_spec r v :
  Includes r v = true <->
  (MinSet r = true -> (rg_Min r <= v)%Z) /\ (MaxSet r = true -> (v <= rg_Max r)%Z).
Proof.
  unfold Includes. destruct (MinSet r), (MaxSet r); cbn; repeat case_bool_decide; naive_solver lia.
Qed.

(** *** Panics

    Every path that was read from JSON is compiled; only the path of a rule
    that has none is not. *)
Definition compiled (p : Path) : Prop := path_compiled p <> None.

Definition wf_int (ip : IntOrPath) : Prop := forall p, iop_Path ip = Some p -> compiled p.
Definition wf_string (sp : StringOrPath) : Prop := forall p, sop_Path sp = Some p -> compiled p.
Definition wf_bound (b : option IntOrPath) : Prop := forall ip, b = Some ip -> wf_int ip.

Record wf_rule (r : Rule) : Prop := {
  wf_path : compiled (r_Path r);
  wf_valid : forall p, r_Valid r = Some p -> compiled p;
  wf_values : Forall wf_string (r_Values r);
  wf_min : wf_bound (r_Min r);
  wf_max : wf_bound (r_Max r);
  wf_minLength : wf_bound (r_MinLength r);
  wf_maxLength : wf_bound (r_MaxLength r)
}.

Lemma bind_no_panic {A B} (m : outcome A) (f : A -> outcome B) :
  no_panic m -> (forall a, no_panic (f a)) -> no_panic (m ≫= f).
Proof. intros Hm Hf p. destruct m; cbn; [apply Hf|done|]. intros _. by apply (Hm msg). Qed.

Lemma as_int64s_no_panic vals : no_panic (as_int64s vals).
Proof.
  induction vals as [|v vals IH]; [done|]. cbn. destruct (value_int64 v); [|done].
  by apply bind_no_panic.
Qed.
Lemma as_strings_no_panic vals : no_panic (as_strings vals).
Proof.
  induction vals as [|v vals IH]; [done|]. cbn [as_strings].
  destruct (match v with VString s => Some s | _ => _ end); [|done]. by apply bind_no_panic.
Qed.
Lemma Find_no_panic path vm : compiled path -> no_panic (Find path vm).
Proof.
  unfold compiled, Find. destruct (path_compiled path); [|done]. by destruct (FindResults _ vm).
Qed.
Lemma one_value_no_panic {A} (l : list A) : no_panic (one_value l).
Proof. by destruct l as [|? []]. Qed.

Lemma decode_no_panic path vm ref :
  compiled path -> no_panic (decodeInts path vm ref) /\ no_panic (decodeStrings path vm ref).
Proof.
  intros Hc. assert (no_panic (findPathOnVmOrRef path vm ref)) as Hf.
  { unfold findPathOnVmOrRef. destruct (Find path vm) eqn:E; [done|by apply Find_no_panic|].
    by destruct (Find_no_panic _ _ Hc _ E). }
  split; apply bind_no_panic; auto; intros res; [apply as_int64s_no_panic|apply as_strings_no_panic].
Qed.

Lemma Decode_no_panic lo hi vm ref : wf_bound lo -> wf_bound hi -> no_panic (Decode lo hi vm ref).
Proof.
  assert (Hb : forall b, wf_bound b -> no_panic (decodeBound b vm ref)).
  { intros [ip|] Hb; [|done]. apply bind_no_panic; [|done]. unfold decodeInt.
    destruct (iop_Path ip) as [p|] eqn:E; [|done].
    apply bind_no_panic; [by apply decode_no_panic, (Hb ip eq_refl)|]. intros. apply one_value_no_panic. }
  intros Hlo Hhi. apply bind_no_panic; [by apply Hb|]. intros. apply bind_no_panic; [by apply Hb|done].
Qed.

Lemma Specialize_no_panic r vm ref : wf_rule r -> no_panic (Specialize r vm ref).
Proof.
  intros []. unfold Specialize. repeat case_bool_decide; [..|done].
  - apply bind_no_panic; [by apply Decode_no_panic|done].
  - apply bind_no_panic; [by apply Decode_no_panic|done].
  - apply bind_no_panic; [|done]. induction wf_values0 as [|v vs Hv _ IH]; [done|]. cbn.
    apply bind_no_panic; [|intros; by apply bind_no_panic]. unfold decodeString.
    destruct (sop_Path v) as [p|] eqn:E; [|done].
    apply bind_no_panic; [by apply decode_no_panic, Hv|]. intros. apply one_value_no_panic.
  - unfold NewRegexRule. by destruct (Compile (r_Regex r)).
Qed.

Lemma Apply_no_panic r ra vm ref : wf_rule r -> no_panic (Apply r ra vm ref).
Proof.
  intros []. destruct ra; cbn; (apply bind_no_panic; [by apply decode_no_panic|]); intros []; done.
Qed.

Lemma IsAppliableOn_total r vm : wf_rule r -> exists b, IsAppliableOn r vm = Ok b.
Proof.
  intros Hr. unfold IsAppliableOn. destruct (r_Valid r) as [p|] eqn:E; [|by eexists].
  pose proof (Find_no_panic p vm (wf_valid r Hr p E)) as Hp.
  destruct (Find p vm); [by eexists|by eexists|]. by destruct (Hp msg).
Qed.

(** *** One rule *)

(** The rule is well formed, its name was not used before, and it is either not
    applicable, or satisfied, or only a warning. *)
Definition rule_ok (earlier : gset string) (r : Rule) (vm refVm : VirtualMachine) : Prop :=
  r_Name r ∉ earlier /\ RuleType_IsValid (r_Rule r) = true /\ r_Message r <> "" /\
  (IsAppliableOn r vm = Ok false \/
   exists ra satisfied text, Specialize r vm refVm = Ok ra /\
     Apply r ra vm refVm = Ok (satisfied, text) /\ (satisfied = true \/ r_JustWarning r = true)).

Ltac refute_ok :=
  split; [done|]; intros (? & ? & ? & [?|(? & ? & ? & ? & ? & [?|?])]); congruence.

(** A rule adds one report. It makes the result fail exactly when it is not
    fine, and then its report gives a cause. *)
Lemma evaluate_rule_spec vm refVm names res r :
  wf_rule r -> exists rep bad, evaluate_rule vm refVm names res r =
      Ok ({[r_Name r]} ∪ names, mkValidationResult (rep_Status res ++ [rep]) (bad || failed res)) /\
    Ref rep = r /\ (bad = false <-> rule_ok names r vm refVm) /\
    (bad = true -> is_Some (needsCause rep)).
Proof.
  intros Hwf. unfold evaluate_rule, rule_ok. case_bool_decide as Hdup.
  { exists (mkReport r false false "" (Some ErrDuplicateRuleName)), true.
    split_and!; [|done|refute_ok|by eexists]. do 2 f_equal. set_solver. }
  unfold validateRule. destruct (RuleType_IsValid (r_Rule r)) eqn:Et; cbn [negb].
  2: { exists (mkReport r false false "" (Some ErrUnrecognizedRuleType)), true.
       split_and!; [done|done|refute_ok|by eexists]. }
  case_bool_decide as Em.
  { exists (mkReport r false false "" (Some ErrMissingRequiredKey)), true.
    split_and!; [done|done|refute_ok|by eexists]. }
  destruct (IsAppliableOn_total r vm Hwf) as [appl Ea]. rewrite Ea.
  destruct appl; cbn [negb mbind outcome_bind].
  2: { exists (mkReport r true false "" None), false. split_and!; [done|done|split; auto|done]. }
  destruct (Specialize r vm refVm) as [ra|e|p] eqn:Es; cbn;
    [|exists (mkReport r false false "" (Some e)), true;
      split_and!; [done|done|refute_ok|by eexists]
     |by destruct (Specialize_no_panic _ _ _ Hwf _ Es)].
  destruct (Apply r ra vm refVm) as [[sat text]|e|p] eqn:Eap; cbn;
    [|exists (mkReport r false false "" (Some e)), true;
      split_and!; [done|done|refute_ok|by eexists]
     |by destruct (Apply_no_panic _ _ _ _ Hwf _ Eap)].
  exists (mkReport r false sat text None), (negb sat && negb (r_JustWarning r)). split_and!.
  - unfold result_Applied. by destruct (negb sat && negb (r_JustWarning r)).
  - done.
  - destruct sat, (r_JustWarning r) eqn:Ej; cbn; try refute_ok; (split; [|done]); intros _;
      (split_and!; [done..|]); right; exists ra; eexists _, _;
      (split_and!; [done|exact Eap|auto]).
  - destruct sat; [done|]. intros _. by eexists.
Qed.

(** All rules are fine, each with the names of the ones before it. *)
Fixpoint all_ok (earlier : gset string) (rules : list Rule) (vm refVm : VirtualMachine) : Prop :=
  match rules with
  | [] => True
  | r :: rest => rule_ok earlier r vm refVm /\ all_ok ({[r_Name r]} ∪ earlier) rest vm refVm
  end.

Lemma evaluate_loop_spec vm refVm rules names res :
  Forall wf_rule rules ->
  (failed res = true -> Exists (fun rep => is_Some (needsCause rep)) (rep_Status res)) ->
  exists res', evaluate_loop vm refVm names res rules = Ok res' /\
    Ref <$> rep_Status res' = (Ref <$> rep_Status res) ++ rules /\
    (failed res' = false <-> failed res = false /\ all_ok names rules vm refVm) /\
    (failed res' = true -> Exists (fun rep => is_Some (needsCause rep)) (rep_Status res')).
Proof.
  intros Hwf. revert names res. induction Hwf as [|r rules Hr' Hwf IH]; intros names res Hres.
  - exists res. cbn. rewrite app_nil_r. tauto.
  - cbn [evaluate_loop].
    destruct (evaluate_rule_spec vm refVm names res r Hr') as (rep & bad & E & Hr & Hbad & Hcause).
    rewrite E. cbn -[needsCause].
    destruct (IH ({[r_Name r]} ∪ names) (mkValidationResult (rep_Status res ++ [rep]) (bad || failed res)))
      as (res' & E' & Hrefs & Hf & Hc).
    { cbn -[needsCause]. intros Hor. apply Exists_app. apply orb_true_iff in Hor as [Hb|Hf];
        [right; by constructor; apply Hcause|left; by apply Hres]. }
    exists res'. split; [done|]. split; [|split; [|done]].
    + rewrite Hrefs. cbn. rewrite fmap_app, <- app_assoc. cbn. by rewrite Hr.
    + rewrite Hf. cbn. rewrite orb_false_iff, Hbad. tauto.
Qed.

Lemma causes_nonempty res :
  failed res = true -> Exists (fun rep => is_Some (needsCause rep)) (rep_Status res) ->
  ToStatusCauses res <> [].
Proof.
  intros Hf Hex. unfold ToStatusCauses. rewrite Hf. cbn [negb]. induction Hex as [rep l [m Hm]|rep l _ IH].
  - cbn. unfold cause_of. by rewrite Hm.
  - cbn. by destruct (cause_of rep).
Qed.

(** What a caller needs to know about [Evaluate]. *)
Lemma Evaluate_result refVm rules vm :
  Forall wf_rule rules ->
  exists res, Evaluate refVm rules vm = Ok res /\ Ref <$> rep_Status res = rules /\
    (Succeeded res = true <-> all_ok ∅ rules vm refVm) /\
    (ToStatusCauses res = [] <-> Succeeded res = true).
Proof.
  intros Hwf. destruct (evaluate_loop_spec vm refVm rules ∅ (mkValidationResult [] false) Hwf ltac:(done))
    as (res & E & Hr & Hf & Hc).
  exists res. split; [done|]. split; [done|]. unfold Succeeded. rewrite negb_true_iff. split.
  - rewrite Hf. cbn. tauto.
  - split.
    + intros Hn. destruct (failed res) eqn:Ef; [|done].
      destruct (causes_nonempty res Ef (Hc eq_refl) Hn).
    + intros Ef. unfold ToStatusCauses. by rewrite Ef.
Qed.

(** C25: evaluation of rules with compiled paths always returns, without a
    panic, one report per rule in the order of the rules. It succeeds exactly
    when every rule is well formed and has a new name, and is not applicable,
    satisfied or only a warning; and it gives causes exactly when it does not
    succeed. *)
Theorem Evaluate_correct refVm rules vm :
  Forall wf_rule rules ->
  exists res, Evaluate refVm rules vm = Ok res /\ Ref <$> rep_Status res = rules /\
    (Succeeded res = true <-> all_ok ∅ rules vm refVm) /\
    (ToStatusCauses res = [] <-> Succeeded res = true).
Proof. apply Evaluate_result. Qed.

(** a rule without a path, which is a mandatory key that is not checked,
    makes the evaluation panic if the rule is otherwise complete and can be
    specialised. *)
Theorem missing_path_panics refVm r vm ra :
  r_Path r = zeroPath -> RuleType_IsValid (r_Rule r) = true -> r_Message r <> "" ->
  IsAppliableOn r vm = Ok true -> Specialize r vm refVm = Ok ra ->
  exists p, Evaluate refVm [r] vm = Panic p.
Proof.
  intros Hp Ht Hm Ha Hs. unfold Evaluate. cbn [evaluate_loop]. unfold evaluate_rule, validateRule.
  rewrite bool_decide_false by set_solver. rewrite Ht, (bool_decide_false (r_Message r = "")) by done.
  rewrite Ha. cbn [negb mbind outcome_bind]. rewrite Hs. cbn [mbind outcome_bind].
  destruct ra; cbn; unfold intRule_Apply, stringRule_Apply, enumRule_Apply, regexRule_Apply,
    decodeInts, decodeStrings, findPathOnVmOrRef; rewrite Hp; by eexists.
Qed.

(** an integer rule with constant bounds is satisfied exactly when every
    value that its path finds is within the bounds. *)
Theorem integer_rule_spec r vm refVm lo hi vals :
  r_Rule r = IntegerRule -> r_Min r = Some (mkIntOrPath lo None) -> r_Max r = Some (mkIntOrPath hi None) ->
  decodeInts (r_Path r) vm refVm = Ok vals -> vals <> [] ->
  exists satisfied text, (ra ← Specialize r vm refVm; Apply r ra vm refVm) = Ok (satisfied, text) /\
    (satisfied = true <-> Forall (fun v => lo <= v <= hi)%Z vals).
Proof.
  intros Hr Hlo Hhi Hv Hne. unfold Specialize. rewrite bool_decide_true by done.
  unfold NewIntRule. rewrite Hlo, Hhi. cbn -[all_satisfy]. unfold intRule_Apply. rewrite Hv. cbn -[all_satisfy].
  destruct vals as [|v vals]; [done|]. eexists _, _. split; [done|].
  rewrite all_satisfy_Forall. apply Forall_iff. intros x. rewrite Includes_spec. cbn. naive_solver lia.
Qed.
End validation.
End Validation.
