(* ===== verification/AdmissionHook.v ===== *)
(** * Admission webhooks of the template validator

    [internal/template-validator/webhooks] and the decoding of rules
    ([validation/rules.go]): virtual machines are checked against the rules of
    their template or their own, and templates in use are not deleted. *)

From Stdlib Require Import Ascii.
From S2P Require Import Prelude GoRuntime KubeTypes Json CommonTemplates VmCache RulePath Validation.

Import RulePath Validation TemplateLabels.

Module AdmissionHook.

(** ** Decoding of rules *)

(** [encoding/json] matches keys exactly or else without regard to case. *)
Definition lower (c : ascii) : ascii :=
  let n := nat_of_ascii c in
  if (Nat.leb 65 n && Nat.leb n 90)%bool then ascii_of_nat (n + 32) else c.
Fixpoint ToLower (s : string) : string :=
  match s with EmptyString => EmptyString | String c s' => String (lower c) (ToLower s') end.

(** The fields of [Rule] with their JSON keys. *)
Inductive RuleField :=
| FRule | FName | FPath | FMessage | FValid | FJustWarning | FValues | FMin | FMax
| FMinLength | FMaxLength | FRegex.

Definition rule_keys : list (string * RuleField) :=
  [("rule", FRule); ("name", FName); ("path", FPath); ("message", FMessage); ("valid", FValid);
   ("justWarning", FJustWarning); ("values", FValues); ("min", FMin); ("max", FMax);
   ("minLength", FMinLength); ("maxLength", FMaxLength); ("regex", FRegex)].

Definition field_of (key : string) : option RuleField :=
  match find_first (fun f => bool_decide (f.1 = key)) rule_keys with
  | Some f => Some f.2
  | None => snd <$> find_first (fun f => bool_decide (ToLower f.1 = ToLower key)) rule_keys
  end.

Section hooks.
Context `{JsonPathLib} `{FloatConv} `{RegexpLib} `{SetRange}.

Definition zeroRule : Rule :=
  mkRule_ "" "" zeroPath "" None false [] None None None None "".

(** Values for the fields; null leaves a string or boolean as it was. *)
Definition string_field (old : string) (j : json) : outcome string :=
  match j with
  | JString s => Ok s
  | JNull => Ok old
  | _ => Err (EMsg "json: cannot unmarshal into Go struct field of type string")
  end.
Definition bool_field (old : bool) (j : json) : outcome bool :=
  match j with
  | JBool b => Ok b
  | JNull => Ok old
  | _ => Err (EMsg "json: cannot unmarshal into Go struct field of type bool")
  end.
Definition pointer_field {A} (unmarshal : json -> outcome A) (j : json) : outcome (option A) :=
  match j with
  | JNull => Ok None
  | _ => v ← unmarshal j; Ok (Some v)
  end.
Definition slice_field {A} (unmarshal : json -> outcome A) (j : json) : outcome (list A) :=
  match j with
  | JNull => Ok []
  | JArray l => mapM unmarshal l
  | _ => Err (EMsg "json: cannot unmarshal into Go struct field of slice type")
  end.

Definition set_field (r : Rule) (entry : string * json) : outcome Rule :=
  let '(mkRule_ rule name path message valid warn values min max minL maxL regex) := r in
  let '(key, j) := entry in
  match field_of key with
  | Some FRule =>
      v ← string_field rule j; Ok (mkRule_ v name path message valid warn values min max minL maxL regex)
  | Some FName =>
      v ← string_field name j; Ok (mkRule_ rule v path message valid warn values min max minL maxL regex)
  | Some FPath =>
      v ← UnmarshalJSON j; Ok (mkRule_ rule name v message valid warn values min max minL maxL regex)
  | Some FMessage =>
      v ← string_field message j; Ok (mkRule_ rule name path v valid warn values min max minL maxL regex)
  | Some FValid =>
      v ← pointer_field UnmarshalJSON j;
      Ok (mkRule_ rule name path message v warn values min max minL maxL regex)
  | Some FJustWarning =>
      v ← bool_field warn j; Ok (mkRule_ rule name path message valid v values min max minL maxL regex)
  | Some FValues =>
      v ← slice_field StringOrPath_UnmarshalJSON j;
      Ok (mkRule_ rule name path message valid warn v min max minL maxL regex)
  | Some FMin =>
      v ← pointer_field IntOrPath_UnmarshalJSON j;
      Ok (mkRule_ rule name path message valid warn values v max minL maxL regex)
  | Some FMax =>
      v ← pointer_field IntOrPath_UnmarshalJSON j;
      Ok (mkRule_ rule name path message valid warn values min v minL maxL regex)
  | Some FMinLength =>
      v ← pointer_field IntOrPath_UnmarshalJSON j;
      Ok (mkRule_ rule name path message valid warn values min max v maxL regex)
  | Some FMaxLength =>
      v ← pointer_field IntOrPath_UnmarshalJSON j;
      Ok (mkRule_ rule name path message valid warn values min max minL v regex)
  | Some FRegex =>
      v ← string_field regex j; Ok (mkRule_ rule name path message valid warn values min max minL maxL v)
  | None => Ok r
  end.

Fixpoint set_fields (r : Rule) (fields : list (string * json)) : outcome Rule :=
  match fields with
  | [] => Ok r
  | entry :: rest => r ← set_field r entry; set_fields r rest
  end.

Definition Rule_UnmarshalJSON (j : json) : outcome Rule :=
  match j with
  | JObject fields => set_fields zeroRule fields
  | JNull => Ok zeroRule
  | _ => Err (EMsg "json: cannot unmarshal into Go value of type validation.Rule")
  end.

(** Parsing of JSON text. *)
Variable json_decode : string -> outcome json.

Definition ParseRules (data : string) : outcome (list Rule) :=
  if bool_decide (data = "") then Ok []
  else j ← json_decode data; slice_field Rule_UnmarshalJSON j.

(** ** Rules of a virtual machine (uplink.go) *)

(** [cache.KeyGetter] over the templates in the cluster. *)
Notation TemplateStore := (gmap string Object).

Definition getParentTemplateForVM (vm : VirtualMachine) (templates : TemplateStore) : option Object :=
  let templateKeys := GetTemplateKeys (vm_meta vm) in
  if negb (keys_IsValid templateKeys) then None
  else templates !! key_String (keys_Get templateKeys).

Definition getValidationRulesFromTemplate (tmpl : Object) : outcome (list Rule) :=
  ParseRules (map_get (Annotations (o_meta tmpl)) AnnotationValidationKey).

Definition getValidationRulesFromVM (vm : VirtualMachine) : outcome (list Rule) :=
  ParseRules (map_get (Annotations (vm_meta vm)) VmValidationAnnotationKey).

Definition getValidationRulesForVM (vm : VirtualMachine) (templates : TemplateStore)
    : outcome (list Rule) :=
  if map_has (Annotations (vm_meta vm)) VmSkipValidationAnnotationKey then Ok []
  else if negb (bool_decide (map_get (Annotations (vm_meta vm)) VmValidationAnnotationKey = "")) then
    getValidationRulesFromVM vm
  else
    match getParentTemplateForVM vm templates with
    | None => Ok []
    | Some tmpl => getValidationRulesFromTemplate tmpl
    end.

(** ** Validation of a virtual machine (admission.go) *)

Definition or_one (n : Z) : Z := if bool_decide (n = 0)%Z then 1%Z else n.

(** Writes through the pointer to the CPU; a missing template panics. *)
Definition setDefaultValues (vm : VirtualMachine) : outcome VirtualMachine :=
  match vm_Template vm with
  | None => Panic "invalid memory address or nil pointer dereference"
  | Some t =>
      let cpu := (fun c => mkCPU (or_one (Sockets c)) (or_one (Cores c)) (or_one (Threads c)) (cpu_other c))
                   <$> domain_CPU t in
      Ok (mkVirtualMachine (vm_meta vm) (Some (mkVmTemplate cpu (vmt_other t))) (vm_other vm))
  end.

(** The VM of [NewDefaultVirtualMachine]. *)
Variable refVm : VirtualMachine.

Definition ValidateVm (rules : list Rule) (vm : VirtualMachine) : outcome (list StatusCause) :=
  match rules with
  | [] => Ok []
  | _ =>
      vm ← setDefaultValues vm;
      res ← Evaluate refVm rules vm;
      Ok (ToStatusCauses res)
  end.

(** ** Requests and responses (utils.go, hook.go) *)

Record AdmissionRequest := mkAdmissionRequest {
  ar_UID : string;
  ar_Resource : string;
  ar_Operation : string;
  ar_Object : string;
  ar_OldObject : string
}.
Record AdmissionReview := mkAdmissionReview { ar_Request : option AdmissionRequest }.

Record Status := mkStatus {
  st_Message : string; st_Reason : string; st_Code : Z; st_Causes : list StatusCause }.
Record AdmissionResponse := mkAdmissionResponse {
  resp_UID : string; resp_Allowed : bool; resp_Result : option Status }.

Definition ToAdmissionResponseOK : AdmissionResponse := mkAdmissionResponse "" true None.

Definition ToAdmissionResponseError (err : error) : AdmissionResponse :=
  mkAdmissionResponse "" false (Some (mkStatus (Error err) "" 400 [])).

Definition joinMessages (causes : list StatusCause) : string :=
  foldl (fun globalMessage cause =>
    if bool_decide (globalMessage = "") then sc_Message cause
    else globalMessage +:+ ", " +:+ sc_Message cause) "" causes.

Definition ToAdmissionResponse (causes : list StatusCause) : AdmissionResponse :=
  mkAdmissionResponse "" false (Some (mkStatus (joinMessages causes) "Invalid" 422 causes)).

(** Decoding of the objects of a request. *)
Variable decodeVM : string -> outcome VirtualMachine.
Variable decodeTemplate : string -> outcome Object.

Definition nil_request {A} : outcome A := Panic "invalid memory address or nil pointer dereference".

Definition GetAdmissionReviewVM (ar : AdmissionReview) : outcome VirtualMachine :=
  match ar_Request ar with
  | None => nil_request
  | Some req =>
      if negb (bool_decide (ar_Resource req = "virtualmachines")) then
        Err (EMsg ("expect resource " +:+ ar_Resource req +:+ " to be 'virtualmachines'"))
      else decodeVM (ar_Object req)
  end.

Definition GetAdmissionReviewTemplate (ar : AdmissionReview) : outcome Object :=
  match ar_Request ar with
  | None => nil_request
  | Some req =>
      if negb (bool_decide (ar_Resource req = "templates")) then
        Err (EMsg ("expected resource " +:+ ar_Resource req +:+ " to be 'templates'"))
      else decodeTemplate (if bool_decide (ar_Operation req = "DELETE") then ar_OldObject req
                           else ar_Object req)
  end.

(** What the webhooks share: the informers and the counter of rejections. *)
Record HookSt := mkHookSt {
  templateStore : TemplateStore;
  vmStore : VmCache.vmCache;
  rejected : Z
}.

Definition IncTemplateValidatorRejected : M HookSt unit :=
  modify_state (fun s => mkHookSt (templateStore s) (vmStore s) (rejected s + 1)).

Definition admitVm (ar : AdmissionReview) : M HookSt AdmissionResponse :=
  got ← try (lift (GetAdmissionReviewVM ar));
  match got with
  | inl err => mret (ToAdmissionResponseError err)
  | inr vm =>
      if bool_decide (DeletionTimestamp (vm_meta vm) <> None) then mret ToAdmissionResponseOK
      else
        s ← get_state;
        rules ← try (lift (getValidationRulesForVM vm (templateStore s)));
        match rules with
        | inl err => mret (ToAdmissionResponseError err)
        | inr rules =>
            causes ← lift (ValidateVm rules vm);
            match causes with
            | [] => mret ToAdmissionResponseOK
            | _ => _ ← IncTemplateValidatorRejected; mret (ToAdmissionResponse causes)
            end
        end
  end.

Definition admitTemplate (ar : AdmissionReview) : M HookSt AdmissionResponse :=
  req ← lift (match ar_Request ar with None => nil_request | Some req => Ok req end);
  if negb (bool_decide (ar_Operation req = "DELETE")) then mret ToAdmissionResponseOK
  else
    got ← try (lift (GetAdmissionReviewTemplate ar));
    match got with
    | inl err => mret (ToAdmissionResponseError err)
    | inr template =>
        if negb (map_has (KubeTypes.Labels (o_meta template)) CommonTemplates.TemplateTypeLabel)
        then mret ToAdmissionResponseOK
        else if negb (map_has (Annotations (o_meta template)) AnnotationValidationKey)
        then mret ToAdmissionResponseOK
        else
          s ← get_state;
          let templateKey := NamespacedName_String (ObjectKeyFromObject template) in
          match VmCache.GetVmsForTemplate (vmStore s) templateKey with
          | [] => mret ToAdmissionResponseOK
          | vms => mret (mkAdmissionResponse "" false (Some (mkStatus
              ("Template cannot be deleted, because the following VMs are referencing it for validation: "
               +:+ Join vms ", ") "Forbidden" 403 [])))
          end
    end.

(** [serve]: the HTTP answer, a bad request or a review with a response. *)
Record HttpRequest := mkHttpRequest { http_ContentType : string; http_Body : string }.
Inductive HttpAnswer := BadRequest | Answer (response : AdmissionResponse).

Variable decodeReview : string -> outcome AdmissionReview.

Definition GetAdmissionReview (r : HttpRequest) : outcome AdmissionReview :=
  if negb (bool_decide (http_ContentType r = "application/json")) then
    Err (EMsg ("contentType=" +:+ http_ContentType r +:+ ", expect application/json"))
  else decodeReview (http_Body r).

Definition serve (req : HttpRequest) (admitFunc : AdmissionReview -> M HookSt AdmissionResponse)
    : M HookSt HttpAnswer :=
  got ← try (lift (GetAdmissionReview req));
  match got with
  | inl _ => mret BadRequest
  | inr review =>
      reviewResponse ← admitFunc review;
      request ← lift (match ar_Request review with None => nil_request | Some r => Ok r end);
      mret (Answer (mkAdmissionResponse (ar_UID request) (resp_Allowed reviewResponse)
                      (resp_Result reviewResponse)))
  end.

End hooks.
End AdmissionHook.
