(* ===== verification/AdmissionProofs.v ===== *)
(** * Correctness of the admission webhooks *)

From S2P Require Import Prelude GoRuntime KubeTypes Json CommonTemplates VmCache RulePath Validation AdmissionHook.

Import RulePath Validation TemplateLabels AdmissionHook.

Section proofs.
Context `{JsonPathLib} `{FloatConv} `{RegexpLib} `{SetRange}.

(** ** Rules that were read from JSON *)

Lemma New_compiled expr p : New expr = Ok p -> compiled p.
Proof.
  unfold New. intros (e & _ & Hp)%outcome_bind_Ok. by destruct (Parse e); simplify_eq.
Qed.

Lemma UnmarshalJSON_compiled j p : UnmarshalJSON j = Ok p -> compiled p.
Proof. unfold UnmarshalJSON. intros (s & _ & Hp)%outcome_bind_Ok. by eapply New_compiled. Qed.

Lemma IntOrPath_wf j ip : IntOrPath_UnmarshalJSON j = Ok ip -> wf_int ip.
Proof.
  unfold IntOrPath_UnmarshalJSON. intros E p Hp.
  destruct j; simplify_eq/=; repeat case_match; simplify_eq/=; by eapply UnmarshalJSON_compiled.
Qed.

Lemma StringOrPath_wf j sp : StringOrPath_UnmarshalJSON j = Ok sp -> wf_string sp.
Proof.
  unfold StringOrPath_UnmarshalJSON. intros (s & _ & E)%outcome_bind_Ok p Hp.
  destruct (isJSONPath s); simplify_eq/=. apply outcome_bind_Ok in E as (q & Hq & [= <-]).
  simplify_eq/=. by eapply New_compiled.
Qed.

Lemma pointer_field_Ok {A} (f : json -> outcome A) j v :
  pointer_field f j = Ok (Some v) -> exists j', f j' = Ok v.
Proof.
  unfold pointer_field. destruct j; try done;
    (intros (w & Hw & [= <-])%outcome_bind_Ok; by eexists).
Qed.

Lemma slice_field_Forall {A} (P : A -> Prop) (f : json -> outcome A) j l :
  (forall j' v, f j' = Ok v -> P v) -> slice_field f j = Ok l -> Forall P l.
Proof.
  intros Hf. unfold slice_field. destruct j; try done.
  - intros [= <-]. constructor.
  - intros HF%mapM_outcome_Ok. induction HF; constructor; eauto.
Qed.

(** Everything but the path itself. *)
Definition wf_parsed (r : Rule) : Prop :=
  (r_Path r = zeroPath \/ compiled (r_Path r)) /\
  (forall p, r_Valid r = Some p -> compiled p) /\ Forall wf_string (r_Values r) /\
  wf_bound (r_Min r) /\ wf_bound (r_Max r) /\ wf_bound (r_MinLength r) /\ wf_bound (r_MaxLength r).

Lemma bound_wf j b : pointer_field IntOrPath_UnmarshalJSON j = Ok b -> wf_bound b.
Proof. intros E ip ->. apply pointer_field_Ok in E as [j' E]. by eapply IntOrPath_wf. Qed.

Lemma set_field_wf r entry r' : set_field r entry = Ok r' -> wf_parsed r -> wf_parsed r'.
Proof.
  intros E. destruct r, entry as [key j]. unfold set_field in E.
  unfold wf_parsed. cbn. intros (? & ? & ? & ? & ? & ? & ?).
  destruct (field_of key) as [[]|]; [..|by simplify_eq/=];
    apply outcome_bind_Ok in E as (v & Hv & [= <-]); cbn; split_and!; try done;
    eauto using UnmarshalJSON_compiled, bound_wf, slice_field_Forall, StringOrPath_wf.
  intros p ->. apply pointer_field_Ok in Hv as [j' Hv]. by eapply UnmarshalJSON_compiled.
Qed.

Lemma Rule_wf j r : Rule_UnmarshalJSON j = Ok r -> wf_parsed r.
Proof.
  assert (Hz : wf_parsed zeroRule).
  { unfold wf_parsed. cbn. split_and!; try done; by left. }
  destruct j; cbn; try done; [by intros [= <-]|]. revert Hz. generalize zeroRule.
  induction fields as [|e fields IH]; intros r0 Hr0; cbn; [by intros [= <-]|].
  intros (r1 & Hr1 & Hr)%outcome_bind_Ok. eapply IH; [|done]. by eapply set_field_wf.
Qed.

Context (json_decode : string -> outcome json) (refVm : VirtualMachine)
  (decodeVM : string -> outcome VirtualMachine) (decodeTemplate : string -> outcome Object)
  (decodeReview : string -> outcome AdmissionReview).

(** rules that were parsed have compiled paths in all their arguments; the
    only path that can be missing is the one that the rule is about. *)
Theorem ParseRules_wf data rules :
  ParseRules json_decode data = Ok rules ->
  Forall (fun r => r_Path r <> zeroPath -> wf_rule r) rules.
Proof.
  unfold ParseRules. case_bool_decide; [intros [= <-]; constructor|].
  intros (j & _ & E)%outcome_bind_Ok.
  eapply slice_field_Forall in E; [|apply Rule_wf]. eapply Forall_impl; [exact E|].
  intros r ([?|?] & ? & ? & ? & ? & ? & ?) Hne; [done|]. by split.
Qed.

(** ** Virtual machines *)

Definition review (ar : AdmissionReview) (vm : VirtualMachine) : Prop :=
  exists req, ar_Request ar = Some req /\ ar_Resource req = "virtualmachines" /\
    decodeVM (ar_Object req) = Ok vm.

Lemma GetAdmissionReviewVM_Ok ar vm : review ar vm -> GetAdmissionReviewVM decodeVM ar = Ok vm.
Proof.
  intros (req & Hr & Hres & Hd). unfold GetAdmissionReviewVM. rewrite Hr.
  by rewrite bool_decide_true.
Qed.

(** C26: a virtual machine that has a template and rules with paths is admitted
    exactly when there are no rules or all of them hold for it, with one socket,
    core and thread where its CPU does not say; the counter of rejections grows
    by one exactly when it is not admitted. *)
Theorem admitVm_decides ar vm vm' rules s :
  review ar vm -> DeletionTimestamp (vm_meta vm) = None ->
  getValidationRulesForVM json_decode vm (templateStore s) = Ok rules ->
  Forall wf_rule rules -> setDefaultValues vm = Ok vm' ->
  exists resp s', admitVm json_decode refVm decodeVM ar s = (Ok resp, s') /\
    (resp_Allowed resp = true <-> all_ok ∅ rules vm' refVm) /\
    rejected s' = (rejected s + if resp_Allowed resp then 0 else 1)%Z.
Proof.
  intros Hr Hd Hrules Hwf Hdef. unfold admitVm. rewrite (GetAdmissionReviewVM_Ok _ _ Hr). run_monad.
  rewrite (bool_decide_false (DeletionTimestamp (vm_meta vm) <> None)) by (intros Hn; by apply Hn).
  cbn. rewrite Hrules. cbn. unfold ValidateVm. destruct rules as [|r rules].
  - eexists _, s. cbn. split; [done|]. cbn. split; [done|lia].
  - rewrite Hdef. cbn -[Evaluate].
    destruct (Evaluate_result refVm (r :: rules) vm' Hwf) as (res & -> & _ & Hs & Hc).
    cbn -[all_ok]. destruct (ToStatusCauses res) as [|c cs]; cbn -[all_ok].
    + eexists _, s. split; [done|]. cbn -[all_ok]. rewrite <- Hs, <- Hc. split; [done|lia].
    + eexists _, _. split; [done|]. cbn -[all_ok]. rewrite <- Hs, <- Hc. split; done.
Qed.

(** virtual machines that are being deleted or carry the annotation that
    skips validation are admitted in every state, whatever rules apply. *)
Theorem admitVm_bypass ar vm s :
  review ar vm ->
  DeletionTimestamp (vm_meta vm) <> None \/
  map_has (Annotations (vm_meta vm)) VmSkipValidationAnnotationKey = true ->
  admitVm json_decode refVm decodeVM ar s = (Ok ToAdmissionResponseOK, s).
Proof.
  intros Hr Hby. unfold admitVm. rewrite (GetAdmissionReviewVM_Ok _ _ Hr). run_monad.
  case_bool_decide as Hd; [done|]. destruct Hby as [|Hskip]; [done|].
  cbn. unfold getValidationRulesForVM. by rewrite Hskip.
Qed.

(** ** Templates *)


(** every answer that is not a bad request echoes the identifier of the
    request, and requests of another content type get no decision. *)
Theorem serve_echoes_uid req admitFunc s resp s' :
  serve decodeReview req admitFunc s = (Ok (Answer resp), s') ->
  http_ContentType req = "application/json" /\
  exists review request r, decodeReview (http_Body req) = Ok review /\
    ar_Request review = Some request /\ resp_UID resp = ar_UID request /\
    admitFunc review s = (Ok r, s') /\ resp_Allowed resp = resp_Allowed r.
Proof.
  unfold serve, GetAdmissionReview. case_bool_decide as Hc; cbn; [|done].
  unfold mbind, M_bind, try, lift. destruct (decodeReview (http_Body req)) as [rv|e|p] eqn:Ed; [|done..].
  destruct (admitFunc rv s) as [[r|e|p] s1] eqn:Ea; [|done..].
  destruct (ar_Request rv) as [request|] eqn:Er; [|done]. cbn. intros [= <- <-].
  split; [done|]. by eexists rv, request, r.
Qed.
End proofs.

Module ValidatorWitness.
(** A path library that knows the number of cores and one label. *)
Definition cores_path : string := "{.spec.template.spec.domain.cpu.cores}".
Definition cores_of (vm : VirtualMachine) : error + list (list GoValue) :=
  match vm_Template vm ≫= domain_CPU with
  | Some cpu => inr [[VInt Uint32 (Cores cpu)]]
  | None => inl (EMsg "cores is not found")
  end.
#[local] Instance paths : JsonPathLib := {|
  JSONPath := string;
  Parse := fun expr => inr expr;
  FindResults := fun jp vm => if bool_decide (jp = cores_path) then cores_of vm else inl (EMsg "not found")
|}.
#[local] Instance floats : FloatConv := {| float_overflow := fun _ => (- 2 ^ 63)%Z |}.
#[local] Instance regexps : RegexpLib := {| Compile := fun expr => inr (fun s => bool_decide (s = expr)) |}.
#[local] Existing Instance sorted_set_range.

Definition cores : Path := mkPath ".spec.domain.cpu.cores" (Some cores_path).


Lemma AsString_total_witness : AsString [[VInt Uint32 4]; [VString "q35"]] = Ok ["<uint32 Value>"; "q35"].
Proof. apply AsString_total. repeat constructor; discriminate. Defined.

Lemma IntOrPath_exact_witness :
  IntOrPath_UnmarshalJSON (JInt 9007199254740992) = Ok (mkIntOrPath 9007199254740992 None) /\
  IntOrPath_UnmarshalJSON (JInt 9007199254740993) = Ok (mkIntOrPath 9007199254740992 None).
Proof. split; [apply IntOrPath_exact; lia|vm_compute; reflexivity]. Defined.

Definition rule (name : string) (lo hi : Z) : Rule :=
  mkRule_ "integer" name cores "cores" None false [] (Some (mkIntOrPath lo None))
    (Some (mkIntOrPath hi None)) None None "".
Definition vm (n : Z) : VirtualMachine :=
  mkVirtualMachine (newMeta "vm" "ns") (Some (mkVmTemplate (Some (mkCPU 1 n 1 ∅)) ∅)) ∅.

Lemma rule_wf name lo hi : wf_rule (rule name lo hi).
Proof. split; try done; intros ip [= <-]; done. Qed.

Lemma Evaluate_correct_witness :
  exists res, Evaluate (vm 1) [rule "a" 1 4; rule "b" 8 9] (vm 2) = Ok res /\ Succeeded res = false.
Proof.
  destruct (Evaluate_correct (vm 1) [rule "a" 1 4; rule "b" 8 9] (vm 2)) as (res & E & _ & _ & _).
  - repeat constructor; apply rule_wf.
  - exists res. split; [exact E|]. vm_compute in E. injection E as <-. reflexivity.
Defined.

Lemma integer_rule_spec_witness :
  exists satisfied text,
    (ra ← Specialize (rule "a" 1 4) (vm 2) (vm 1); Apply (rule "a" 1 4) ra (vm 2) (vm 1)) =
      Ok (satisfied, text) /\ (satisfied = true <-> Forall (fun v => 1 <= v <= 4)%Z [2]%Z).
Proof. apply integer_rule_spec; try reflexivity; discriminate. Defined.

Definition pathless : Rule := mkRule_ "integer" "a" zeroPath "cores" None false [] None None None None "".

Lemma missing_path_panics_witness : exists p, Evaluate (vm 1) [pathless] (vm 2) = Panic p.
Proof.
  apply (missing_path_panics (vm 1) pathless (vm 2) (intRule (mkRange false 0 false 0)));
    try reflexivity; discriminate.
Defined.

(** One rule for the cores, as it is written in an annotation. *)
Definition decode (data : string) : outcome json :=
  Ok (JArray [JObject [("rule", JString "integer"); ("Name", JString "cores");
    ("path", JString "jsonpath::.spec.domain.cpu.cores"); ("message", JString "cores");
    ("min", JInt 1); ("max", JInt 4)]]).

Lemma ParseRules_wf_witness :
  ParseRules decode "[...]" = Ok [rule "cores" 1 4] /\
  Forall (fun r => r_Path r <> zeroPath -> wf_rule r) [rule "cores" 1 4].
Proof.
  assert (E : ParseRules decode "[...]" = Ok [rule "cores" 1 4]) by (vm_compute; reflexivity).
  split; [exact E|]. apply (ParseRules_wf decode "[...]" _ E).
Defined.

Definition ruled (n : Z) (del : option Z) : VirtualMachine :=
  mkVirtualMachine (with_server (with_annotations (newMeta "vm" "ns")
      (Some {[ VmValidationAnnotationKey := "[...]" ]})) "" "" 0 del)
    (Some (mkVmTemplate (Some (mkCPU 1 n 1 ∅)) ∅)) ∅.
Definition ask : AdmissionReview :=
  mkAdmissionReview (Some (mkAdmissionRequest "7" "virtualmachines" "CREATE" "vm" "")).
Definition state : HookSt := mkHookSt ∅ VmCache.NewVmCache 0.

Lemma admitVm_decides_witness :
  exists resp s', admitVm decode (vm 1) (fun _ => Ok (ruled 8 None)) ask state = (Ok resp, s') /\
    resp_Allowed resp = false /\ rejected s' = 1%Z.
Proof.
  destruct (admitVm_decides decode (vm 1) (fun _ => Ok (ruled 8 None)) ask (ruled 8 None) (ruled 8 None)
    [rule "cores" 1 4] state) as (resp & s' & E & _ & Hc).
  - by eexists.
  - reflexivity.
  - vm_compute; reflexivity.
  - repeat constructor; apply rule_wf.
  - reflexivity.
  - exists resp, s'. split; [exact E|].
    assert (Ha : resp_Allowed resp = false) by (vm_compute in E; injection E as <- <-; reflexivity).
    split; [exact Ha|]. by rewrite Hc, Ha.
Defined.

Lemma admitVm_bypass_witness :
  admitVm decode (vm 1) (fun _ => Ok (ruled 8 (Some 5%Z))) ask state = (Ok ToAdmissionResponseOK, state).
Proof. apply (admitVm_bypass _ _ _ _ (ruled 8 (Some 5%Z))); [by eexists|by left]. Defined.

Definition oldTemplate : Object :=
  mkObject (mkTypeMeta "" "") (with_annotations (with_labels (newMeta "t1" "openshift")
    (Some {[ CommonTemplates.TemplateTypeLabel := "base" ]})) (Some {[ AnnotationValidationKey := "[]" ]}))
    (Template [] []).
Definition used : HookSt := mkHookSt ∅ VmCache.VmCacheWitness.history 0.


Lemma serve_echoes_uid_witness :
  exists review request r, Ok (A := AdmissionReview) ask = Ok review /\
    ar_Request review = Some request /\ "7" = ar_UID request /\
    admitVm decode (vm 1) (fun _ => Ok (ruled 2 None)) review state = (Ok r, state) /\
    true = resp_Allowed r.
Proof.
  destruct (serve_echoes_uid (fun _ => Ok ask) (mkHttpRequest "application/json" "")
    (admitVm decode (vm 1) (fun _ => Ok (ruled 2 None))) state
    (mkAdmissionResponse "7" true None) state) as [_ H]; [vm_compute; reflexivity|exact H].
Defined.
End ValidatorWitness.
