(* ===== verification/SspWebhook.v ===== *)
(** * Admission of SSP resources (webhooks/ssp_webhook.go, webhooks/convert)

    What the operator's own webhook accepts, for both API versions, and what
    the rest of the operator may rely on for an accepted resource. *)

From S2P Require Import Prelude GoRuntime KubeTypes SspTypes Architecture.

(** ** v1beta2 (api/v1beta2/ssp_types.go) *)

Module V1beta2.
Record FeatureGates := mkFeatureGates {
  DeployTektonTaskResources : bool;
  DeployVmConsoleProxy : bool;
  DeployCommonInstancetypes : option bool
}.
Record SSPSpec := mkSSPSpec2 {
  spec2_TemplateValidator : option TemplateValidator;
  spec2_CommonTemplates : V1beta3.CommonTemplates;
  spec2_TLSSecurityProfile : option TLSSecurityProfile;
  spec2_TokenGenerationService : option TokenGenerationService;
  (** URL *)
  spec2_CommonInstancetypes : option (option string);
  (** namespaces *)
  spec2_TektonPipelines : option string;
  spec2_TektonTasks : option string;
  spec2_FeatureGates : option FeatureGates
}.
Record SSP := mkSSP2 {
  ssp2_type : TypeMeta;
  ssp2_meta : ObjectMeta;
  ssp2_spec : SSPSpec;
  ssp2_status : SSPStatus
}.
End V1beta2.

Module SspWebhook.

(** ** Conversion *)

Definition convertTemplateValidator (src : option TemplateValidator) : option TemplateValidator :=
  match src with
  | None => None
  | Some v => Some (mkTemplateValidator (tv_Replicas v) (tv_Placement v))
  end.

Definition convertDataImportCronTemplates (src : list DataImportCronTemplate)
    : list DataImportCronTemplate :=
  match src with
  | [] => []
  | _ => (fun t => mkDataImportCronTemplate (dict_meta t) (dict_spec t)) <$> src
  end.

Definition convertTokenGenerationService (src : option TokenGenerationService)
    : option TokenGenerationService :=
  match src with
  | None => None
  | Some s => Some (mkTokenGenerationService (tgs_Enabled s))
  end.

Definition ConvertSSP (src : V1beta2.SSP) : SSP :=
  let spec := V1beta2.ssp2_spec src in
  let st := V1beta2.ssp2_status src in
  mkSSP (mkTypeMeta (tm_Kind (V1beta2.ssp2_type src)) GroupVersion) (V1beta2.ssp2_meta src)
    {| EnableMultipleArchitectures := None;
       spec_TemplateValidator := convertTemplateValidator (V1beta2.spec2_TemplateValidator spec);
       spec_Cluster := None;
       spec_CommonTemplates := mkCommonTemplates (ct_Namespace (V1beta2.spec2_CommonTemplates spec))
         (convertDataImportCronTemplates (ct_DataImportCronTemplates (V1beta2.spec2_CommonTemplates spec)));
       spec_TLSSecurityProfile := V1beta2.spec2_TLSSecurityProfile spec;
       spec_TokenGenerationService :=
         convertTokenGenerationService (V1beta2.spec2_TokenGenerationService spec) |}
    (mkSSPStatus (st_Phase st) (st_Conditions st) (st_OperatorVersion st) (st_TargetVersion st)
       (st_ObservedVersion st) (st_Paused st) (st_ObservedGeneration st)).

(** ** Validation *)

(** The first name that is not an architecture. *)
Fixpoint check_archs (what : string) (names : list string) : outcome unit :=
  match names with
  | [] => Ok tt
  | archStr :: rest => _ ← wrap_err what (ToArch archStr); check_archs what rest
  end.

Definition validateCluster (ssp : SSP) : outcome unit :=
  let spec := ssp_spec ssp in
  if multi_arch spec && bool_decide (spec_Cluster spec = None) then
    Err (EMsg ".spec.cluster needs to be non-nil, if multi-architecture is enabled")
  else
    match spec_Cluster spec with
    | None => Ok tt
    | Some cluster =>
        if bool_decide (length (WorkloadArchitectures cluster) = 0) &&
           bool_decide (length (ControlPlaneArchitectures cluster) = 0) then
          Err (EMsg "at least one architecture needs to be defined, if multi-architecture is enabled")
        else
          _ ← check_archs "invalid workload architecture: " (WorkloadArchitectures cluster);
          check_archs "invalid control plane architecture: " (ControlPlaneArchitectures cluster)
    end.

Fixpoint check_crons (crons : list DataImportCronTemplate) : outcome unit :=
  match crons with
  | [] => Ok tt
  | cron :: rest =>
      if bool_decide (Name (dict_meta cron) = "") then
        Err (EMsg "missing name in DataImportCronTemplate")
      else check_crons rest
  end.

Definition validateDataImportCronTemplates (ssp : SSP) : outcome unit :=
  check_crons (ct_DataImportCronTemplates (spec_CommonTemplates (ssp_spec ssp))).

(** The calls of the webhook: a list of all SSP resources, and a creation that
    the server only checks. *)
Class WebhookClient (W : Type) := {
  wc_List : W -> (error + list SSP) * W;
  wc_DryRunCreate : Object -> W -> (error + Object) * W
}.

Section validator.
Context `{WebhookClient W}.

Definition ListSSPs : M W (list SSP) := fun w =>
  let '(r, w') := wc_List w in (match r with inr l => Ok l | inl e => Err e end, w').
Definition DryRunCreate (o : Object) : M W unit := fun w =>
  let '(r, w') := wc_DryRunCreate o w in (match r with inr _ => Ok tt | inl e => Err e end, w').

Definition dplName : string := "ssp-webhook-placement-verification-deployment".
Definition webhookTestLabel : string := "webhook.ssp.kubevirt.io/placement-verification-pod".
Definition podName : string := "ssp-webhook-placement-verification-pod".
Definition naImage : string := "ssp.kubevirt.io/not-available".

Definition verificationDeployment (namespace : string) (placement : NodePlacement) : Object :=
  let podMeta := {| Name := ""; GenerateName := podName; Namespace := ""; UID := "";
                    ResourceVersion := ""; Generation := 0; Labels := Some {[ webhookTestLabel := "" ]};
                    Annotations := None; OwnerReferences := []; KubeTypes.Finalizers := [];
                    DeletionTimestamp := None; OtherMeta := ∅ |} in
  mkObject (mkTypeMeta "" "") (newMeta dplName namespace)
    (Deployment
       (mkDeploymentSpec (Some 1%Z) (Some (mkSelector {[ webhookTestLabel := "" ]} []))
          (mkPodTemplate podMeta
             {| ps_SecurityContext := None; ps_ServiceAccountName := ""; ps_PriorityClassName := "";
                ps_Containers := [mkContainer podName naImage "" "" ∅ [] [] None [] None None ∅];
                ps_Volumes := [];
                ps_Affinity := npl_Affinity placement;
                ps_NodeSelector := Some (npl_NodeSelector placement);
                ps_Tolerations := npl_Tolerations placement;
                ps_other := ∅ |}) ∅)
       (mkDeploymentStatus 0 0)).

Definition validateOperandPlacement (namespace : string) (placement : option NodePlacement) : M W unit :=
  match placement with
  | None => mret tt
  | Some p => DryRunCreate (verificationDeployment namespace p)
  end.

Definition validatePlacement (ssp : SSP) : M W unit :=
  match spec_TemplateValidator (ssp_spec ssp) with
  | None => mret tt
  | Some v => validateOperandPlacement (Namespace (ssp_meta ssp)) (tv_Placement v)
  end.

Definition validateSspObject (ssp : SSP) : M W unit :=
  _ ← wrapping "cluster validation error: " (lift (validateCluster ssp));
  _ ← wrapping "dataImportCronTemplates validation error: " (lift (validateDataImportCronTemplates ssp));
  wrapping "placement api validation error: " (validatePlacement ssp).

Definition ValidateCreate (obj : SSP) : M W unit :=
  got ← try ListSSPs;
  match got with
  | inl err => throw (EMsg ("could not list SSPs for validation, please try again: " +:+ Error err))
  | inr (first :: _) =>
      throw (EMsg ("creation failed, an SSP CR already exists in namespace "
                   +:+ Namespace (ssp_meta first) +:+ ": " +:+ Name (ssp_meta first)))
  | inr [] => validateSspObject obj
  end.

Definition ValidateUpdate (newObj : SSP) : M W unit := validateSspObject newObj.
Definition ValidateDelete (obj : SSP) : M W unit := mret tt.

Definition ValidateCreate_v1beta2 (obj : V1beta2.SSP) : M W unit := ValidateCreate (ConvertSSP obj).
Definition ValidateUpdate_v1beta2 (newObj : V1beta2.SSP) : M W unit := ValidateUpdate (ConvertSSP newObj).
Definition ValidateDelete_v1beta2 (obj : V1beta2.SSP) : M W unit := ValidateDelete (ConvertSSP obj).

(** ** What an accepted resource satisfies *)

Lemma check_archs_Ok what names :
  check_archs what names = Ok tt <-> Forall (fun s => exists a, ToArch s = Ok a) names.
Proof.
  induction names as [|s names IH]; cbn; [split; [constructor|done]|].
  rewrite Forall_cons, <- IH, outcome_bind_Ok. unfold wrap_err.
  destruct (ToArch s) as [a|e|p] eqn:E; [naive_solver|naive_solver|by destruct (ToArch_no_panic _ _ E)].
Qed.

(** The architectures of a spec make sense. *)
Definition valid_archs (spec : SSPSpec) : Prop :=
  match spec_Cluster spec with
  | None => multi_arch spec = false
  | Some c => cluster_names c <> [] /\ Forall (fun s => exists a, ToArch s = Ok a) (cluster_names c)
  end.

Lemma validateCluster_Ok ssp : validateCluster ssp = Ok tt <-> valid_archs (ssp_spec ssp).
Proof.
  unfold validateCluster, valid_archs, cluster_names.
  destruct (spec_Cluster (ssp_spec ssp)) as [c|].
  2: { by destruct (multi_arch (ssp_spec ssp)). }
  rewrite (bool_decide_false (Some c = None)), andb_false_r by done.
  assert (Hchk : (_ ← check_archs "invalid workload architecture: " (WorkloadArchitectures c);
      check_archs "invalid control plane architecture: " (ControlPlaneArchitectures c)) = Ok tt <->
    Forall (fun s => exists a, ToArch s = Ok a) (ControlPlaneArchitectures c ++ WorkloadArchitectures c)).
  { rewrite outcome_bind_Ok, Forall_app, <- (check_archs_Ok "invalid workload architecture: " (WorkloadArchitectures c)),
      <- (check_archs_Ok "invalid control plane architecture: " (ControlPlaneArchitectures c)).
    split; [intros ([] & ? & ?); by split|intros [? ?]; by exists tt]. }
  case_bool_decide as Hw; cbn [andb]; [case_bool_decide as Hp; cbn [andb]|].
  - split; [done|]. intros [Hne _]. apply nil_length_inv in Hw, Hp. by rewrite Hw, Hp in Hne.
  - rewrite Hchk. split; [|tauto]. intros ?. split; [|done]. by destruct (ControlPlaneArchitectures c).
  - rewrite Hchk. split; [|tauto]. intros ?. split; [|done].
    destruct (ControlPlaneArchitectures c); [|done]. by destruct (WorkloadArchitectures c).
Qed.

(** A spec with sensible architectures never lacks one. *)
Lemma valid_archs_GetSSPArchs `{Process} spec :
  valid_archs spec -> (spec_Cluster spec = None -> exists a, ToArch GOARCH = Ok a) ->
  exists a rest, GetSSPArchs spec = Ok (a :: rest).
Proof.
  unfold valid_archs, GetSSPArchs. destruct (spec_Cluster spec) as [c|].
  2: { intros Hm Hd. rewrite Hm. destruct (Hd eq_refl) as [a ->]. by exists a, []. }
  intros [Hne Hall] _. rewrite concatWithoutRepetitions_firsts. cbn [concat]. rewrite app_nil_r.
  fold (cluster_names c).
  assert (Hf : Forall (fun s => exists a, ToArch s = Ok a) (firsts [] (cluster_names c))).
  { rewrite Forall_forall in Hall |- *. intros x [Hx _]%elem_of_firsts. by apply Hall. }
  destruct (firsts [] (cluster_names c)) as [|s ss] eqn:E.
  { destruct (cluster_names c) as [|x l]; [done|]. cbn in E. discriminate. }
  apply Forall_cons in Hf as [[a Ha] Hss]. rewrite Ha.
  destruct (multi_arch spec); [|by exists a, []]. cbn. rewrite Ha. cbn.
  assert (exists k, mapM ToArch ss = Ok k) as [k ->]; [|by exists a, k].
  clear -Hss. induction Hss as [|x l [b Hb] _ IH]; [by exists []|]. destruct IH as [k Hk].
  exists (b :: k). cbn. rewrite Hb. cbn. by rewrite Hk.
Qed.

Lemma check_crons_Ok crons :
  check_crons crons = Ok tt <-> Forall (fun c => Name (dict_meta c) <> "") crons.
Proof.
  induction crons as [|c crons IH]; cbn; [split; [constructor|done]|].
  rewrite Forall_cons. case_bool_decide; naive_solver.
Qed.

Lemma validateSspObject_Ok ssp w w' :
  validateSspObject ssp w = (Ok tt, w') ->
  valid_archs (ssp_spec ssp) /\
  Forall (fun c => Name (dict_meta c) <> "")
    (ct_DataImportCronTemplates (spec_CommonTemplates (ssp_spec ssp))) /\
  forall v p, spec_TemplateValidator (ssp_spec ssp) = Some v -> tv_Placement v = Some p ->
    exists o, wc_DryRunCreate (verificationDeployment (Namespace (ssp_meta ssp)) p) w = (inr o, w').
Proof.
  unfold validateSspObject, wrapping, lift, mbind, M_bind, wrap_err.
  destruct (validateCluster ssp) as [[]|e|p] eqn:Ec; [|done..]. apply validateCluster_Ok in Ec.
  destruct (validateDataImportCronTemplates ssp) as [[]|e|p] eqn:Ed; [|done..].
  apply check_crons_Ok in Ed. unfold validatePlacement, validateOperandPlacement, DryRunCreate.
  intros E. split; [done|]. split; [done|]. intros v p Hv Hp. rewrite Hv, Hp in E.
  destruct (wc_DryRunCreate _ w) as [[e|o] w1]; [done|]. injection E as <-. by exists o.
Qed.

(** C29: an SSP whose creation is accepted is the first one that the API server
    lists, names all its DataImportCron templates, has a placement that the
    server accepts in a dry run, and leads to at least one known architecture
    in every later reconciliation, on an operator built for a known one. *)
Theorem ValidateCreate_sound `{Process} obj w w' :
  (exists a, ToArch GOARCH = Ok a) ->
  ValidateCreate obj w = (Ok tt, w') ->
  (exists w1, wc_List w = (inr [], w1)) /\
  Forall (fun c => Name (dict_meta c) <> "")
    (ct_DataImportCronTemplates (spec_CommonTemplates (ssp_spec obj))) /\
  exists a rest, GetSSPArchs (ssp_spec obj) = Ok (a :: rest).
Proof.
  intros Hd. unfold ValidateCreate, ListSSPs, mbind, M_bind, try.
  destruct (wc_List w) as [[e|[|s l]] w1]; [done| |done].
  intros (Ha & Hc & _)%validateSspObject_Ok. split; [by exists w1|]. split; [done|].
  by apply valid_archs_GetSSPArchs.
Qed.

(** the architecture checks of the webhook accept exactly the specs that make
    sense, for new and for changed resources; resources of the old version
    have none of the fields and always pass them. *)
Theorem validateCluster_exact ssp ssp2 :
  (validateCluster ssp = Ok tt <-> valid_archs (ssp_spec ssp)) /\
  validateCluster (ConvertSSP ssp2) = Ok tt.
Proof. split; [apply validateCluster_Ok|done]. Qed.
End validator.

Module WebhookWitness.
(** A server without SSP resources that accepts every deployment. *)
#[local] Instance server : WebhookClient unit := {|
  wc_List := fun w => (inr [], w);
  wc_DryRunCreate := fun o w => (inr o, w)
|}.
#[local] Instance process : Process := {| LookupEnv := fun _ => None; GOARCH := "arm64" |}.
Definition ssp : SSP :=
  mkSSP (mkTypeMeta "" "") (newMeta "ssp" "kubevirt")
    (mkSSPSpec (Some true) (Some (mkTemplateValidator None (Some (mkNodePlacement ∅ None []))))
       (Some (mkCluster ["amd64"] [])) (mkCommonTemplates "openshift" []) None None) zeroStatus.

Lemma ValidateCreate_sound_witness : exists a rest, GetSSPArchs (ssp_spec ssp) = Ok (a :: rest).
Proof.
  apply (ValidateCreate_sound ssp () ()); [exists ARM64; reflexivity|vm_compute; reflexivity].
Defined.
End WebhookWitness.
End SspWebhook.
