(* ===== verification/Controllers.v ===== *)
(** * The smaller controllers (internal/controllers)

    The controller of OLM's webhook configurations, the controller of the
    metric about virtual machine volumes, and the controller of the operator's
    own metrics service. *)

From S2P Require Import Prelude GoRuntime KubeTypes SspTypes Architecture KubeClient Cluster Common Samples Resource SspController.

(** ** webhook_controller.go *)

Module WebhookController.
Definition OlmNameLabel : string := "olm.webhook-description-generate-name".
Definition OlmNameLabelValue : string := "validation.ssp.kubevirt.io".

Definition hasExpectedLabel (obj : Object) : bool :=
  bool_decide (map_get (KubeTypes.Labels (o_meta obj)) OlmNameLabel = OlmNameLabelValue).

(** Whether a webhook reacts to the SSP resource. *)
Definition hasSspRule (webhook : ValidatingWebhook) : bool :=
  existsb (fun rule => contains (rwo_APIGroups rule) V1beta3.Group) (wh_Rules webhook).

Definition without_selector (w : ValidatingWebhook) : ValidatingWebhook :=
  mkValidatingWebhook (wh_Name w) (wh_Service w) (wh_CABundle w) (wh_ObjectSelector w) None
    (wh_Rules w) (wh_FailurePolicy w) (wh_SideEffects w) (wh_AdmissionReviewVersions w) (wh_other w).

(** The loop over the webhooks: the new list and whether it changed. *)
Fixpoint updateWebhooks (webhooks : list ValidatingWebhook) : list ValidatingWebhook * bool :=
  match webhooks with
  | [] => ([], false)
  | webhook :: rest =>
      let '(rest', changed) := updateWebhooks rest in
      match wh_NamespaceSelector webhook with
      | None => (webhook :: rest', changed)
      | Some _ =>
          if negb (hasSspRule webhook) then (webhook :: rest', changed)
          else (without_selector webhook :: rest', true)
      end
  end.

Definition updateWebhookConfiguration (config : Object) : Object * bool :=
  match o_body config with
  | ValidatingWebhookConfiguration webhooks =>
      let '(webhooks', changed) := updateWebhooks webhooks in
      (with_body config (ValidatingWebhookConfiguration webhooks'), changed)
  | _ => (config, false)
  end.

Section reconcile.
Context `{Client W}.

Definition webhookCtrl_Reconcile (key : ObjectKey) : Op W unit :=
  got ← try (Get KValidatingWebhookConfiguration key);
  match got with
  | inl err => if IsNotFound err then mret tt else throw err
  | inr webhookConfig =>
      if negb (hasExpectedLabel webhookConfig) then mret tt
      else
        let '(webhookConfig, changed) := updateWebhookConfiguration webhookConfig in
        if negb changed then mret tt
        else _ ← Update webhookConfig; mret tt
  end.
End reconcile.

(** *** Correctness *)

Lemma updateWebhooks_spec webhooks :
  (updateWebhooks webhooks).1 =
    (fun w => if hasSspRule w then without_selector w else w) <$> webhooks /\
  ((updateWebhooks webhooks).2 = true <->
   Exists (fun w => hasSspRule w = true /\ wh_NamespaceSelector w <> None) webhooks).
Proof.
  induction webhooks as [|w ws [IH1 IH2]]; cbn; [split; [done|]; by rewrite Exists_nil|].
  destruct (updateWebhooks ws) as [ws' changed]. cbn in IH1, IH2. subst ws'.
  rewrite Exists_cons, <- IH2. destruct (wh_NamespaceSelector w) as [sel|] eqn:E.
  - destruct (hasSspRule w) eqn:Er; cbn; (split; [done|]).
    + split; [|done]. intros _. left. split; congruence.
    + split; [auto|]. by intros [[? _]|?].
  - cbn. split.
    + destruct (hasSspRule w); [|done]. f_equal. destruct w; cbn in *. by subst.
    + split; [auto|]. by intros [[_ ?]|?].
Qed.

(** the controller of OLM's webhook configurations writes a configuration
    exactly when it carries the expected label and restricts some webhook for
    SSP resources to namespaces; what it writes lifts the restriction of these
    webhooks and leaves the others as they are. *)
Theorem Reconcile_lifts_restriction `{Client W} key s o w webhooks :
  cl_Get KValidatingWebhookConfiguration key (op_world s) = (inr o, w) ->
  o_body o = ValidatingWebhookConfiguration webhooks ->
  exists t, op_trace (webhookCtrl_Reconcile key s).2 = op_trace s ++ CGet KValidatingWebhookConfiguration key :: t /\
  (if bool_decide (hasExpectedLabel o = true /\
        Exists (fun w => hasSspRule w = true /\ wh_NamespaceSelector w <> None) webhooks)
   then t = [CUpdate (with_body o (ValidatingWebhookConfiguration
               ((fun w => if hasSspRule w then without_selector w else w) <$> webhooks)))]
   else t = []).
Proof.
  intros HG Hb. destruct (updateWebhooks_spec webhooks) as [H1 H2].
  unfold webhookCtrl_Reconcile, Get, call. run_monad. rewrite HG. cbn.
  destruct (hasExpectedLabel o) eqn:El; cbn;
    [|exists []; rewrite bool_decide_false by naive_solver; done].
  unfold updateWebhookConfiguration. rewrite Hb.
  destruct (updateWebhooks webhooks) as [ws changed]. cbn in H1, H2. subst ws. destruct changed; cbn.
  - rewrite bool_decide_true by tauto. unfold Update, call. cbn. eexists. split; [|done].
    destruct (cl_Update _ w) as [[e|o'] w']; cbn; by rewrite <- app_assoc.
  - rewrite bool_decide_false by (intros [_ ?]; naive_solver). exists []. done.
Qed.

(** The names under which the operator's bundle for OLM declares the webhooks
    (data/olm-catalog/ssp-operator.clusterserviceversion.yaml). *)
Definition bundle_webhooks : list string :=
  ["validation.v1beta2.ssp.kubevirt.io"; "validation.v1beta3.ssp.kubevirt.io"].

(** OLM labels a webhook configuration with the name under which the bundle
    declares the webhook; configurations with the names of this bundle are
    never touched. *)
Theorem bundle_webhooks_ignored `{Client W} key s o w name :
  cl_Get KValidatingWebhookConfiguration key (op_world s) = (inr o, w) ->
  (KubeTypes.Labels (o_meta o) ≫= lookup OlmNameLabel) = Some name -> name ∈ bundle_webhooks ->
  op_trace (webhookCtrl_Reconcile key s).2 = op_trace s ++ [CGet KValidatingWebhookConfiguration key].
Proof.
  intros HG Hl Hn. assert (hasExpectedLabel o = false) as El.
  { unfold hasExpectedLabel, map_get. rewrite Hl. apply bool_decide_eq_false. cbn. intros ->.
    unfold bundle_webhooks in Hn. rewrite !elem_of_cons, elem_of_nil in Hn. naive_solver. }
  unfold webhookCtrl_Reconcile, Get, call. run_monad. rewrite HG. cbn -[hasExpectedLabel]. by rewrite El.
Qed.
End WebhookController.

(** ** vm_controller.go and the metric of rbd_metrics.go *)

Module VmController.

(** The fields of the objects that the metric depends on. *)
Record PVC := mkPVC { pvc_VolumeMode : option string; pvc_VolumeName : string }.
Record CSISource := mkCSISource { csi_Driver : string; csi_VolumeAttributes : gomap }.
Record PV := mkPV { pv_CSI : option CSISource }.
Inductive VmVolume :=
| DataVolumeSource_ (name : string)
| PvcSource (claimName : string)
| OtherVolume.
Record VM := mkVM { vm_Key : ObjectKey; vm_PrintableStatus : string; vm_Volumes : list VmVolume }.

Definition usesRbdCsiDriver (pv : PV) : bool :=
  match pv_CSI pv with
  | None => false
  | Some csi => GoStrings.Contains (csi_Driver csi) "rbd.csi.ceph.com"
  end.

(** The value that [SetVmWithVolume] sets; the volume mode is a pointer. *)
Definition volumeValue (volume : option (PVC * PV)) : outcome Z :=
  match volume with
  | None => Ok 0%Z
  | Some (pvc, pv) =>
      if negb (usesRbdCsiDriver pv) then Ok 0%Z
      else
        match pvc_VolumeMode pvc, pv_CSI pv with
        | Some mode, Some csi =>
            let attrs := csi_VolumeAttributes csi in
            if negb (bool_decide (mode = "Block")) then Ok 0%Z
            else if map_has attrs "mounter" && negb (bool_decide (map_get attrs "mounter" = "rbd"))
            then Ok 0%Z
            else if negb (map_has attrs "mapOptions") ||
                    negb (GoStrings.Contains (map_get attrs "mapOptions") "krbd:rxbounce")
            then Ok 1%Z
            else Ok 0%Z
        | _, _ => Panic "invalid memory address or nil pointer dereference"
        end
  end.

(** Reads of the controller; they do not change the cluster. *)
Class VmClient := {
  getVM : ObjectKey -> error + VM;
  getPVC : ObjectKey -> error + PVC;
  getPV : ObjectKey -> error + PV
}.

(** The gauge [kubevirt_ssp_vm_rbd_block_volume_without_rxbounce], by VM. *)
Notation Gauge := (gmap ObjectKey Z).

Section controller.
Context `{VmClient}.

Definition SetVmWithVolume (key : ObjectKey) (volume : option (PVC * PV)) : M Gauge unit :=
  v ← lift (volumeValue volume); modify_state (<[key := v]>).

Definition volumeName (v : VmVolume) : option string :=
  match v with
  | DataVolumeSource_ name => Some name
  | PvcSource claimName => Some claimName
  | OtherVolume => None
  end.

(** PVC and PV of a volume; [Ok None] when there is nothing to look at. *)
Definition findVolume (key : ObjectKey) (v : VmVolume) : outcome (option (PVC * PV)) :=
  match volumeName v with
  | None => Ok None
  | Some name =>
      match getPVC (mkKey (key_Namespace key) name) with
      | inl err => if IsNotFound err then Ok None else Err err
      | inr pvc =>
          match getPV (mkKey (key_Namespace key) (pvc_VolumeName pvc)) with
          | inl err => if IsNotFound err then Ok None else Err err
          | inr pv => Ok (Some (pvc, pv))
          end
      end
  end.

Fixpoint setVolumes (key : ObjectKey) (volumes : list VmVolume) (metricWasSet : bool) : M Gauge bool :=
  match volumes with
  | [] => mret metricWasSet
  | v :: rest =>
      found ← lift (findVolume key v);
      match found with
      | None => setVolumes key rest metricWasSet
      | Some volume => _ ← SetVmWithVolume key (Some volume); setVolumes key rest true
      end
  end.

Definition setVmVolumesMetrics (vm : VM) : M Gauge unit :=
  metricWasSet ← setVolumes (vm_Key vm) (vm_Volumes vm) false;
  if negb metricWasSet then SetVmWithVolume (vm_Key vm) None else mret tt.

Definition vmController_Reconcile (key : ObjectKey) : M Gauge unit :=
  match getVM key with
  | inl err =>
      if IsNotFound err then SetVmWithVolume key None
      else throw (EWrap ("could not find VM " +:+ NamespacedName_String key +:+ ": ") err)
  | inr vm =>
      if bool_decide (vm_PrintableStatus vm = "Provisioning") then mret tt
      else wrapping ("could not set vm volumes metrics for " +:+ NamespacedName_String key +:+ ": ")
             (setVmVolumesMetrics vm)
  end.

(** *** Correctness *)

(** The values of the volumes for which PVC and PV are found, in order. *)
Definition values (key : ObjectKey) (volumes : list VmVolume) : list Z :=
  omap (fun v => match findVolume key v with
                 | Ok (Some volume) => match volumeValue (Some volume) with Ok z => Some z | _ => None end
                 | _ => None
                 end) volumes.

Lemma setVolumes_last key volumes b g b' g' :
  setVolumes key volumes b g = (Ok b', g') ->
  b' = (b || negb (bool_decide (values key volumes = []))) /\
  (forall k, k <> key -> g' !! k = g !! k) /\
  g' !! key = match last (values key volumes) with Some z => Some z | None => g !! key end.
Proof.
  revert b g. induction volumes as [|v vs IH]; intros b g.
  - intros [= <- <-]. by rewrite orb_false_r.
  - cbn [setVolumes]. unfold mbind at 1, M_bind at 1. unfold lift at 1.
    assert (Hv : values key (v :: vs) = match findVolume key v with
      | Ok (Some vol) => match volumeValue (Some vol) with Ok z => z :: values key vs | _ => values key vs end
      | _ => values key vs end).
    { unfold values. cbn -[volumeValue findVolume]. destruct (findVolume key v) as [[vol|]|e|p]; try done.
      by destruct (volumeValue (Some vol)). }
    rewrite Hv. clear Hv.
    destruct (findVolume key v) as [[vol|]|e|p]; [|apply IH|done..].
    unfold SetVmWithVolume, mbind, M_bind, lift.
    destruct (volumeValue (Some vol)) as [z|e|p]; [|done..].
    intros (-> & Hne & Hk)%IH. split; [by destruct b|]. split.
    + intros k Hkk. rewrite Hne by done. by rewrite lookup_insert_ne.
    + rewrite Hk. destruct (values key vs) as [|y ys]; [cbn; by rewrite lookup_insert_eq|].
      change (last (z :: y :: ys)) with (last (y :: ys)).
      destruct (last (y :: ys)) eqn:El; [done|]. by apply last_None in El.
Qed.

(** the metric of a virtual machine is the value of its last volume with a
    claim and a persistent volume, and zero without any: a volume that is
    affected is hidden by a later one that is not. Metrics of other virtual
    machines do not change. *)
Theorem metric_is_last_volume vm g g' :
  setVmVolumesMetrics vm g = (Ok tt, g') ->
  g' !! vm_Key vm = Some (default 0%Z (last (values (vm_Key vm) (vm_Volumes vm)))) /\
  forall k, k <> vm_Key vm -> g' !! k = g !! k.
Proof.
  unfold setVmVolumesMetrics. unfold mbind at 1, M_bind at 1.
  destruct (setVolumes _ _ false g) as [[b|e|p] g1] eqn:E; [|done..].
  apply setVolumes_last in E as (-> & Hne & Hk). cbn.
  destruct (values (vm_Key vm) (vm_Volumes vm)) as [|z zs] eqn:Ev; cbn.
  - intros [= <-]. rewrite lookup_insert_eq. split; [done|]. intros k Hkk.
    by rewrite lookup_insert_ne, Hne.
  - intros [= <-]. rewrite Hk. split; [|done].
    destruct (last (z :: zs)) eqn:El; [done|]. by apply last_None in El.
Qed.
End controller.
End VmController.

(** ** services_controller.go *)

Module ServiceController.
Definition ServiceManagedByLabelValue : string := "ssp-operator-services".
Definition OperatorName : string := "ssp-operator".
Definition ServiceControllerName : string := "service-controller".
Definition SspOperatorMetricsServiceName : string := "ssp-operator-metrics".
Definition PrometheusLabelKey : string := "prometheus.ssp.kubevirt.io".
Definition PrometheusLabelValue : string := "true".
Definition MetricsServiceKey : string := "metrics.ssp.kubevirt.io".
Definition MetricsPortName : string := "http-metrics".

Section controller.
Context `{Process}.

Definition ServiceObject (namespace appKubernetesPartOfValue : string) : Object :=
  let labels : smap :=
    {[ Labels.AppKubernetesManagedByLabel := ServiceManagedByLabelValue;
       Labels.AppKubernetesVersionLabel := Env.GetOperatorVersion;
       Labels.AppKubernetesComponentLabel := ServiceControllerName;
       PrometheusLabelKey := PrometheusLabelValue;
       MetricsServiceKey := SspOperatorMetricsServiceName ]} in
  let labels := if bool_decide (appKubernetesPartOfValue <> "")
                then <[Labels.AppKubernetesPartOfLabel := appKubernetesPartOfValue]> labels
                else labels in
  mkObject (mkTypeMeta "" "")
    (with_labels (newMeta SspOperatorMetricsServiceName namespace) (Some labels))
    (Service {| svc_Ports := [mkServicePort MetricsPortName "TCP" 443 (FromString MetricsPortName)];
                svc_Selector := {[ PrometheusLabelKey := PrometheusLabelValue; "name" := OperatorName ]};
                svc_ClusterIP := "";
                svc_Type := "ClusterIP";
                svc_SessionAffinity := "None";
                svc_InternalTrafficPolicy := Some "Cluster";
                svc_other := ∅ |}).

(** [controllerutil.SetOwnerReference] with the operator's deployment. *)
Definition deployment_ref (deployment : ObjectMeta) : OwnerReference :=
  mkOwnerReference "apps/v1" "Deployment" (Name deployment) (UID deployment) None None.

Definition SetOwnerReference (deployment : ObjectMeta) (m : ObjectMeta) : outcome ObjectMeta :=
  if bool_decide (Namespace deployment <> "") && bool_decide (Namespace m = "") then
    Err (EMsg ("cluster-scoped resource must not have a namespace-scoped owner, owner's namespace "
               +:+ Namespace deployment))
  else if bool_decide (Namespace deployment <> "") && bool_decide (Namespace deployment <> Namespace m) then
    Err (EMsg ("cross-namespace owner references are disallowed, owner's namespace "
               +:+ Namespace deployment +:+ ", obj's namespace " +:+ Namespace m))
  else Ok (with_owners m (Owner.upsertOwnerRef (deployment_ref deployment) (OwnerReferences m))).

Definition partOf (deployment : ObjectMeta) : string :=
  map_get (KubeTypes.Labels deployment) Labels.AppKubernetesPartOfLabel.

(** The mutation of [Reconcile]. *)
Definition updateService (deployment : ObjectMeta) (service found : Object) : outcome Object :=
  if bool_decide (DeletionTimestamp (o_meta found) <> None) then Ok found
  else
    match o_body service, o_body found with
    | Service spec, Service foundSpec =>
        let found := with_body found (Service (with_ClusterIP spec (svc_ClusterIP foundSpec))) in
        let found := UpdateLabels service found in
        m ← wrap_err "error at setServiceOwnerReference: " (SetOwnerReference deployment (o_meta found));
        Ok (with_meta found m)
    | _, _ => Panic "interface conversion"
    end.

Context `{Client W}.

(** [controllerutil.CreateOrUpdate] *)
Definition CreateOrUpdateService (found : Object) (f : Object -> outcome Object) : Op W unit :=
  let key := ObjectKeyFromObject found in
  let mutated o := o' ← f o;
    if bool_decide (ObjectKeyFromObject o' <> key)
    then Err (EMsg "MutateFn cannot mutate object name and/or object namespace") else Ok o' in
  got ← try (Get (o_kind found) key);
  match got with
  | inl err =>
      if negb (IsNotFound err) then throw err
      else o ← lift (mutated found); _ ← Create o; mret tt
  | inr existing =>
      o ← lift (mutated existing);
      if DeepEqual existing o then mret tt else _ ← Update o; mret tt
  end.

Definition serviceReconciler_Reconcile (deployment : ObjectMeta) (key : ObjectKey) : Op W unit :=
  let service := ServiceObject (key_Namespace key) (partOf deployment) in
  CreateOrUpdateService (namedResource service) (updateService deployment service).

Definition getOperatorDeployment (namespace : string) : Op W Object :=
  wrapping "getOperatorDeployment, get deployment: " (UncachedGet KDeployment (mkKey namespace OperatorName)).

Definition createMetricsService (deployment : ObjectMeta) : Op W unit :=
  let service := ServiceObject (Namespace deployment) (partOf deployment) in
  m ← wrapping "error setting owner reference: " (lift (SetOwnerReference deployment (o_meta service)));
  _ ← Create (with_meta service m); mret tt.

(** The runnable that [AddToManager] registers. *)
Definition start_service_controller (operatorNamespace : string) : Op W Object :=
  deployment ← wrapping "error getting operator deployment: " (getOperatorDeployment operatorNamespace);
  got ← try (createMetricsService (o_meta deployment));
  match got with
  | inl err => if negb (IsAlreadyExists err) then throw (EWrap "error creating service: " err)
               else mret deployment
  | inr _ => mret deployment
  end.

(** The filter of events. *)
Definition service_event (operatorNamespace : string) (o : Object) : bool :=
  bool_decide (Name (o_meta o) = SspOperatorMetricsServiceName) &&
  bool_decide (Namespace (o_meta o) = operatorNamespace).

(** The controller touches nothing but the metrics service of the namespace of
    the request. *)
Definition on_metrics_service (ns : string) (c : ApiCall) : Prop :=
  match c with
  | CGet k key => k = KService /\ key = mkKey ns SspOperatorMetricsServiceName
  | CCreate o | CUpdate o =>
      o_kind o = KService /\ ObjectKeyFromObject o = mkKey ns SspOperatorMetricsServiceName
  | _ => False
  end.

Lemma updateService_kind deployment service found o :
  updateService deployment service found = Ok o -> o_kind o = o_kind found.
Proof.
  unfold updateService. case_bool_decide; [by intros [= <-]|]. unfold o_kind.
  destruct (o_body service); try done. destruct (o_body found) eqn:E; try done.
  intros (m & _ & [= <-])%outcome_bind_Ok. done.
Qed.

Lemma CreateOrUpdateService_safe ns found f :
  o_kind found = KService -> ObjectKeyFromObject found = mkKey ns SspOperatorMetricsServiceName ->
  (forall o o', f o = Ok o' -> o_kind o' = o_kind o) ->
  issued (W := W) (on_metrics_service ns) (CreateOrUpdateService found f).
Proof.
  intros Hkind Hkey Hf s. unfold CreateOrUpdateService, Get, call. run_monad. rewrite Hkind, Hkey.
  destruct (cl_Get KService _ (op_world s)) as [[e|existing] w] eqn:EG; cbn.
  - destruct (IsNotFound e); cbn; [|extend_trace].
    destruct (f found) as [o|e'|p] eqn:EU; cbn; [|extend_trace..]. apply Hf in EU. rewrite Hkind in EU.
    case_bool_decide as Hk; cbn; [extend_trace|]. unfold Create, call. cbn.
    destruct (cl_Create o w) as [[]]; extend_trace.
  - apply cl_Get_kind in EG. destruct (f existing) as [o|e'|p] eqn:EU; cbn; [|extend_trace..].
    apply Hf in EU. rewrite EG in EU. case_bool_decide as Hk; cbn; [extend_trace|].
    destruct (DeepEqual existing o); [extend_trace|]. unfold Update, call. cbn.
    destruct (cl_Update o w) as [[]]; extend_trace.
Qed.

(** whatever the API server answers, the service controller only reads,
    creates and updates the metrics service in the namespace of the request. *)
Theorem service_Reconcile_safe deployment key :
  issued (W := W) (on_metrics_service (key_Namespace key)) (serviceReconciler_Reconcile deployment key).
Proof. apply CreateOrUpdateService_safe; [done|done|]. intros o o'. apply updateService_kind. Qed.
End controller.
End ServiceController.

(** ** Instances *)

Module ControllersWitness.
Import VmController.
Definition sspWebhook (selector : option LabelSelector) : ValidatingWebhook :=
  mkValidatingWebhook "validation.ssp.kubevirt.io" None "" None selector
    [mkRuleWithOperations ["CREATE"] ["ssp.kubevirt.io"] ["v1beta3"] ["ssps"]] None None ["v1"] ∅.

Definition config (name : string) : Object :=
  mkObject (mkTypeMeta "" "")
    (with_server (with_labels (newMeta "validation-x" "") (Some {[ WebhookController.OlmNameLabel := name ]}))
       "uid" "1" 1 None)
    (ValidatingWebhookConfiguration [sspWebhook (Some (mkSelector ∅ []))]).

Definition state (name : string) : OpSt MemCluster := start (Mem.put Mem.empty (config name)).
Definition configKey : ObjectKey := mkKey "" "validation-x".

Lemma Reconcile_lifts_restriction_witness :
  exists t, op_trace (WebhookController.webhookCtrl_Reconcile configKey (state "validation.ssp.kubevirt.io")).2
    = CGet KValidatingWebhookConfiguration configKey :: t /\
  t = [CUpdate (with_body (config "validation.ssp.kubevirt.io")
         (ValidatingWebhookConfiguration [sspWebhook None]))].
Proof.
  apply (WebhookController.Reconcile_lifts_restriction configKey (state "validation.ssp.kubevirt.io")
           (config "validation.ssp.kubevirt.io") (op_world (state "validation.ssp.kubevirt.io"))
           [sspWebhook (Some (mkSelector ∅ []))]); vm_compute; reflexivity.
Defined.

Lemma bundle_webhooks_ignored_witness :
  op_trace (WebhookController.webhookCtrl_Reconcile configKey (state "validation.v1beta3.ssp.kubevirt.io")).2
    = [CGet KValidatingWebhookConfiguration configKey].
Proof.
  apply (WebhookController.bundle_webhooks_ignored configKey (state "validation.v1beta3.ssp.kubevirt.io")
           (config "validation.v1beta3.ssp.kubevirt.io")
           (op_world (state "validation.v1beta3.ssp.kubevirt.io")) "validation.v1beta3.ssp.kubevirt.io");
    [vm_compute; reflexivity..|right; left].
Defined.

(** Two claims on block volumes of Ceph: the first is mapped without the option
    that avoids the checksum errors, the second with it. *)
Definition csi (options : string) : PV :=
  mkPV (Some (mkCSISource "openshift-storage.rbd.csi.ceph.com" (Some {[ "mapOptions" := options ]}))).
Definition client : VmClient := {|
  getVM := fun key => inl (not_found (key_Name key));
  getPVC := fun key => inr (mkPVC (Some "Block") (key_Name key));
  getPV := fun key => inr (csi (if bool_decide (key_Name key = "bad") then "" else "krbd:rxbounce"))
|}.
Definition vm : VM := mkVM (mkKey "default" "vm") "Running" [PvcSource "bad"; PvcSource "good"].

Definition gauge : gmap ObjectKey Z := {[ vm_Key vm := 0%Z ]}.

Lemma metric_is_last_volume_witness :
  gauge !! vm_Key vm = Some (default 0%Z (last (values (H := client) (vm_Key vm) (vm_Volumes vm)))) /\
  forall k, k <> vm_Key vm -> gauge !! k = (∅ : gmap ObjectKey Z) !! k.
Proof. refine (metric_is_last_volume (H := client) vm ∅ gauge _). reflexivity. Defined.

Example affected_volume_hidden : values (H := client) (vm_Key vm) (vm_Volumes vm) = [1%Z; 0%Z].
Proof. vm_compute. reflexivity. Qed.
End ControllersWitness.
