(* ===== verification/Watches.v ===== *)
(** * What triggers a reconciliation

    The predicates of internal/controller/predicates/predicates.go, the event
    handler wrapper of internal/controller/handler-hook/handler_hook.go, and the
    watches that [AddToManager] of ssp_controller.go registers with them. The
    two event handlers that the watches use come from vendored libraries
    (operator-lib's [EnqueueRequestForAnnotation] and controller-runtime's
    [EnqueueRequestForOwner]) and are translated from there. *)

From S2P Require Import Prelude GoRuntime KubeTypes SspTypes Architecture KubeClient Cluster Common Samples Resource SspController.

(** ** Events and predicates *)

(** What a predicate reads of a [client.Object]; [getSpec] is [None] for a Go
    type without a field [Spec]. *)
Class Watched (T : Type) := {
  watched_meta : T -> ObjectMeta;
  SpecOf : Type;
  SpecOf_eq_dec : EqDecision SpecOf;
  getSpec : T -> option SpecOf
}.
#[export] Existing Instance SpecOf_eq_dec.

Inductive Event (T : Type) :=
| CreateEvent (obj : T)
| UpdateEvent (objectOld objectNew : T)
| DeleteEvent (obj : T)
| GenericEvent (obj : T).
Arguments CreateEvent {_}.
Arguments UpdateEvent {_}.
Arguments DeleteEvent {_}.
Arguments GenericEvent {_}.

#[export] Instance SSP_watched : Watched SSP := {|
  watched_meta := ssp_meta; SpecOf := SSPSpec; SpecOf_eq_dec := _;
  getSpec := fun s => Some (ssp_spec s)
|}.

(** The field [Spec] of the modelled types, as a body with a zero status. *)
Definition body_spec (b : Body) : option Body :=
  let src := mkDataSourceSource None None None in
  match b with
  | ConfigMap _ _ _ | ServiceAccount | ClusterRole _ | ClusterRoleBinding _ _
  | Role _ | RoleBinding _ _ | Template _ _ | ValidatingWebhookConfiguration _ => None
  | DaemonSet spec _ => Some (DaemonSet spec (mkDaemonSetStatus 0 0))
  | Deployment spec _ => Some (Deployment spec (mkDeploymentStatus 0 0))
  | DataSource spec _ => Some (DataSource spec (mkDataSourceStatus src []))
  | DataImportCron spec _ => Some (DataImportCron spec ∅)
  | ValidatingAdmissionPolicy spec _ => Some (ValidatingAdmissionPolicy spec (mkVAPStatus None))
  | _ => Some b
  end.

#[export] Instance Object_watched : Watched Object := {|
  watched_meta := o_meta; SpecOf := Body; SpecOf_eq_dec := _;
  getSpec := fun o => body_spec (o_body o)
|}.

Module Predicates.
Section predicates.
Context `{Watched T}.

Definition Predicate := Event T -> bool.

(** [predicate.Funcs] with [Update] overridden: other events pass. *)
Definition on_update (f : T -> T -> bool) : Predicate := fun e =>
  match e with
  | UpdateEvent objectOld objectNew => f objectOld objectNew
  | _ => true
  end.

Definition SpecChangedPredicate : Predicate := on_update (fun objectOld objectNew =>
  match getSpec objectNew with
  | None => true
  | Some newSpec =>
      match getSpec objectOld with
      | None => true
      | Some oldSpec => negb (bool_decide (newSpec = oldSpec))
      end
  end).

Definition DeletionTimestampChangedPredicate : Predicate := on_update (fun objectOld objectNew =>
  negb (bool_decide (DeletionTimestamp (watched_meta objectNew)
                     = DeletionTimestamp (watched_meta objectOld)))).

Definition FinalizerChangedPredicate : Predicate := on_update (fun objectOld objectNew =>
  negb (bool_decide (Finalizers (watched_meta objectNew) = Finalizers (watched_meta objectOld)))).

(** [maps.Equal], for which a nil map is an empty one. *)
Definition maps_Equal (a b : gomap) : bool := bool_decide (default ∅ a = default ∅ b).

Definition LabelChangedPredicate : Predicate := on_update (fun objectOld objectNew =>
  negb (maps_Equal (KubeTypes.Labels (watched_meta objectNew))
                   (KubeTypes.Labels (watched_meta objectOld)))).

Definition AnnotationChangedPredicate : Predicate := on_update (fun objectOld objectNew =>
  negb (maps_Equal (Annotations (watched_meta objectNew)) (Annotations (watched_meta objectOld)))).

Definition Or (ps : list Predicate) : Predicate := fun e => existsb (fun p => p e) ps.

(** The predicates of one watch: all of them must accept the event. *)
Definition accepts (ps : list Predicate) (e : Event T) : bool := forallb (fun p => p e) ps.

Definition relevantChangesPredicate : Predicate :=
  Or [LabelChangedPredicate; AnnotationChangedPredicate; SpecChangedPredicate;
      DeletionTimestampChangedPredicate].
End predicates.
Arguments Predicate : clear implicits.

(** The predicate with which [watchSspResource] watches SSP resources. *)
Definition watchSspResource : Predicate SSP :=
  Or [relevantChangesPredicate; FinalizerChangedPredicate].
End Predicates.

(** ** Event handlers *)

Module Handlers.
(** An event handler, by the requests that it adds to the queue. *)
Definition EventHandler := Event Object -> list ObjectKey.

Definition sspType : string := Owner.GroupKind_String "SSP" V1beta3.Group.

(** [strings.SplitN s sep 2]: what is before and after the first separator. *)
Fixpoint SplitN2 (sep : Ascii.ascii) (s : string) : string * option string :=
  match s with
  | EmptyString => ("", None)
  | String c s' =>
      if bool_decide (c = sep) then ("", Some s')
      else let '(w, rest) := SplitN2 sep s' in (String c w, rest)
  end.

Definition parseNamespacedName (s : string) : ObjectKey :=
  match SplitN2 slash s with
  | (name, None) => mkKey "" name
  | (ns, Some name) => mkKey ns name
  end.

Definition getAnnotationRequests (o : Object) : list ObjectKey :=
  match Annotations (o_meta o) with
  | None => []
  | Some annotations =>
      match annotations !! Owner.TypeAnnotation with
      | Some typeString =>
          if bool_decide (typeString = sspType) then
            let namespacedName := default "" (annotations !! Owner.NamespacedNameAnnotation) in
            if bool_decide (TrimSpace namespacedName = "") then []
            else [parseNamespacedName namespacedName]
          else []
      | None => []
      end
  end.

Definition EnqueueRequestForAnnotation : EventHandler := fun e =>
  match e with
  | CreateEvent o | DeleteEvent o | GenericEvent o => getAnnotationRequests o
  | UpdateEvent objectOld objectNew =>
      getAnnotationRequests objectOld ++ getAnnotationRequests objectNew
  end.

(** With [OnlyControllerOwner]; SSP is a namespaced kind. *)
Definition getOwnerReconcileRequest (o : Object) (result : gmap ObjectKey unit)
    : gmap ObjectKey unit :=
  match Owner.GetControllerOf (o_meta o) with
  | None => result
  | Some ref =>
      match Owner.parse_group (or_APIVersion ref) with
      | None => result
      | Some group =>
          if bool_decide (or_Kind ref = "SSP") && bool_decide (group = V1beta3.Group)
          then <[mkKey (Namespace (o_meta o)) (or_Name ref) := tt]> result
          else result
      end
  end.

Definition EnqueueRequestForOwner `{MapRange} : EventHandler := fun e =>
  let reqs := match e with
    | CreateEvent o | DeleteEvent o | GenericEvent o => getOwnerReconcileRequest o ∅
    | UpdateEvent objectOld objectNew =>
        getOwnerReconcileRequest objectNew (getOwnerReconcileRequest objectOld ∅)
    end in
  (map_range reqs).*1.

(** *** handler_hook.go *)

(** The methods of the work queue that a handler may call. *)
Inductive QueueCall :=
| Forget (item : ObjectKey)
| NumRequeues (item : ObjectKey)
| AddRateLimited (item : ObjectKey)
| Add (item : ObjectKey)
| AddAfter (item : ObjectKey) (seconds : Z).

(** What happens, in order: calls of the hook and calls that reach the queue. *)
Inductive Effect :=
| HookFunc (request : ObjectKey) (obj : Object)
| Queue (c : QueueCall).

(** [queueHook]: the closure gets the item first; [AddAfter] is not overridden. *)
Definition queueHook (obj : Object) (c : QueueCall) : list Effect :=
  match c with
  | Forget item => [HookFunc item obj; Queue (Forget item)]
  | NumRequeues item => [HookFunc item obj; Queue (NumRequeues item)]
  | AddRateLimited item => [HookFunc item obj; Queue (Add item)]
  | Add item => [HookFunc item obj; Queue (Add item)]
  | AddAfter item d => [Queue (AddAfter item d)]
  end.

(** The object that the hook is told about: the new one of an update. *)
Definition event_object (e : Event Object) : Object :=
  match e with
  | CreateEvent o | DeleteEvent o | GenericEvent o => o
  | UpdateEvent _ objectNew => objectNew
  end.

(** [handler_hook.New] around a handler that makes the given queue calls. *)
Definition hook_calls (inner : Event Object -> list QueueCall) (e : Event Object) : list Effect :=
  inner e ≫= queueHook (event_object e).

Definition New (inner : EventHandler) : Event Object -> list Effect :=
  hook_calls (fun e => Add <$> inner e).
End Handlers.

(** ** The watches of the SSP controller *)

#[export] Instance Kind_countable : Countable Kind.
Proof.
  refine (inj_countable' kind_name (fun s => default KConfigMap
    (find_first (fun k => bool_decide (kind_name k = s))
      [KConfigMap; KNamespace; KService; KServiceAccount; KClusterRole;
       KClusterRoleBinding; KRole; KRoleBinding; KDaemonSet; KDeployment; KRoute;
       KPrometheusRule; KServiceMonitor; KNetworkPolicy; KTemplate; KDataSource;
       KDataImportCron; KPersistentVolumeClaim; KPodDisruptionBudget;
       KValidatingWebhookConfiguration; KValidatingAdmissionPolicy;
       KValidatingAdmissionPolicyBinding; KAPIService])) _).
  by intros [].
Defined.

Module Watches.
Import Predicates Handlers.

(** A call of [ctrlBuilder.Watches]. *)
Record Watch := mkWatch {
  watch_Object : Kind;
  watch_Handler : Event Object -> list Effect;
  watch_Predicates : list (Predicate Object)
}.

(** One step of the loop that fills [watchedTypes]. *)
Definition addType (watchedTypes : gmap Kind WatchType) (watchType : WatchType)
    : gmap Kind WatchType :=
  let key := wt_Object watchType in
  let watchType := match watchedTypes !! key with
    | Some wt => mkWatchType (wt_Object watchType) (Crd watchType)
                   (WatchFullObject watchType || WatchFullObject wt)
    | None => watchType
    end in
  <[key := watchType]> watchedTypes.

Section watches.
Context `{MapRange} {W : Type}.

Definition watchOf (handler : EventHandler) (watchType : WatchType) : Watch :=
  mkWatch (wt_Object watchType) (New handler)
    (if WatchFullObject watchType then [] else [relevantChangesPredicate]).

Definition watchResources (crdList : CrdList) (handler : EventHandler) (ops : list (Operand W))
    (watchTypesFunc : Operand W -> list WatchType) : list Watch :=
  let watchedTypes := foldl (fun m operand => foldl addType m (watchTypesFunc operand)) ∅ ops in
  watchOf handler <$>
    filter (fun wt => Crd wt = "" \/ CrdExists crdList (Crd wt) = true) (map_range watchedTypes).*2.

Definition watchNamespacedResources (crdList : CrdList) (ops : list (Operand W)) : list Watch :=
  watchResources crdList EnqueueRequestForOwner ops WatchTypes.

Definition watchClusterResources (crdList : CrdList) (ops : list (Operand W)) : list Watch :=
  watchResources crdList EnqueueRequestForAnnotation ops WatchClusterTypes.

(** What an event on a watched object does. *)
Definition dispatch (w : Watch) (e : Event Object) : list Effect :=
  if accepts (watch_Predicates w) e then watch_Handler w e else [].
End watches.
End Watches.

(** ** Correctness *)

Module WatchesProofs.
Import Predicates Handlers Watches.

(** *** Which updates pass *)

Section changes.
Context `{Watched T}.

(** A change that the operator means to react to. *)
Definition relevant_change (objectOld objectNew : T) : Prop :=
  default ∅ (KubeTypes.Labels (watched_meta objectNew))
    <> default ∅ (KubeTypes.Labels (watched_meta objectOld)) \/
  default ∅ (Annotations (watched_meta objectNew))
    <> default ∅ (Annotations (watched_meta objectOld)) \/
  getSpec objectNew = None \/ getSpec objectOld = None \/
  getSpec objectNew <> getSpec objectOld \/
  DeletionTimestamp (watched_meta objectNew) <> DeletionTimestamp (watched_meta objectOld).

Lemma relevantChanges_update objectOld objectNew :
  relevantChangesPredicate (UpdateEvent objectOld objectNew) = true <->
  relevant_change objectOld objectNew.
Proof.
  unfold relevantChangesPredicate, Or, relevant_change. cbn.
  unfold maps_Equal. rewrite !orb_true_iff, !negb_true_iff, !bool_decide_eq_false.
  destruct (getSpec objectNew) as [n|], (getSpec objectOld) as [o|];
    rewrite ?negb_true_iff, ?bool_decide_eq_false; intuition congruence.
Qed.

#[export] Instance relevant_change_dec objectOld objectNew :
  Decision (relevant_change objectOld objectNew).
Proof. unfold relevant_change. apply _. Defined.
End changes.

Lemma watchSspResource_update objectOld objectNew :
  watchSspResource (UpdateEvent objectOld objectNew) = true <->
  relevant_change objectOld objectNew \/
  Finalizers (ssp_meta objectNew) <> Finalizers (ssp_meta objectOld).
Proof.
  unfold watchSspResource, Or. cbn [existsb].
  rewrite !orb_true_iff, relevantChanges_update. cbn.
  rewrite negb_true_iff, bool_decide_eq_false. intuition congruence.
Qed.

Lemma status_change_ignored i st :
  watchSspResource (UpdateEvent i (with_ssp_status i st)) = false.
Proof.
  apply not_true_iff_false. rewrite watchSspResource_update. unfold relevant_change. cbn.
  intuition congruence.
Qed.

(** C12: the first round of a new SSP relies on its own write to be called again.
    Its update is seen by the watch exactly when the SSP did not carry the
    finalizer yet, and the status update that follows is never seen. *)
Theorem initialize_retriggers `{Client W, Process} i (s : OpSt W) :
  let u := with_ssp_meta i (Finalizers.AddFinalizer (ssp_meta i) SspController.finalizerName) in
  watchSspResource (UpdateEvent i u)
    = negb (Finalizers.ContainsFinalizer (ssp_meta i) SspController.finalizerName) /\
  match cl_UpdateSSP u (op_world s) with
  | (inl e, _) => op_trace (SspController.initialize i s).2 = op_trace s ++ [CUpdateSSP u]
  | (inr i1, _) => exists v,
      op_trace (SspController.initialize i s).2 = op_trace s ++ [CUpdateSSP u; CStatusUpdateSSP v] /\
      watchSspResource (UpdateEvent i1 v) = false
  end.
Proof.
  intros u. split.
  - apply eq_true_iff_eq. rewrite watchSspResource_update, negb_true_iff.
    unfold relevant_change, u, Finalizers.AddFinalizer, Finalizers.ContainsFinalizer. cbn.
    destruct (contains (Finalizers (ssp_meta i)) SspController.finalizerName) eqn:E; cbn.
    + intuition congruence.
    + split; [done|]. intros _. right. intros Hl%(f_equal length).
      rewrite length_app in Hl. cbn in Hl. lia.
  - unfold SspController.initialize, SspController.updateSspResource,
      SspController.setSspResourceDeploying, SspController.statusUpdate, UpdateSSP,
      StatusUpdateSSP, call. fold u. run_monad.
    destruct (cl_UpdateSSP u (op_world s)) as [[e|i1] w1]; cbn; [done|].
    eexists. split; [|apply status_change_ignored].
    destruct (cl_StatusUpdateSSP _ w1) as [[e|i2] w2]; cbn; by rewrite <- app_assoc.
Qed.
(** *** Which watches are registered *)

Section registered.
Context `{MapRange} {W : Type}.
Implicit Types types : list WatchType.

Definition of_kind (k : Kind) types : list WatchType := filter (fun t => wt_Object t = k) types.

(** The entry for a kind: the last declaration, watching the full object if
    any of them does. *)
Definition merged (k : Kind) types : option WatchType :=
  (fun wt => mkWatchType k (Crd wt) (existsb WatchFullObject (of_kind k types)))
    <$> last (of_kind k types).

Lemma of_kind_snoc k types t :
  of_kind k (types ++ [t]) = of_kind k types ++ (if decide (wt_Object t = k) then [t] else []).
Proof. unfold of_kind. rewrite filter_app. by rewrite filter_cons, filter_nil. Qed.

Lemma merged_None k types : merged k types = None -> of_kind k types = [].
Proof. unfold merged. rewrite fmap_None, last_None. done. Qed.

Lemma addTypes_lookup types k : foldl addType ∅ types !! k = merged k types.
Proof.
  induction types as [|t types IH] using rev_ind; [done|].
  rewrite foldl_snoc. unfold addType at 1.
  destruct (decide (wt_Object t = k)) as [<-|Hne].
  - rewrite lookup_insert_eq, IH. unfold merged at 2. rewrite of_kind_snoc, decide_True by done.
    rewrite last_snoc, existsb_app. cbn. rewrite orb_false_r, orb_comm.
    destruct (merged (wt_Object t) types) as [wt|] eqn:E.
    + unfold merged in E. destruct (last _) as [l|]; simplify_eq/=. done.
    + apply merged_None in E. rewrite E. cbn. rewrite orb_false_r. by destruct t.
  - rewrite lookup_insert_ne by done. rewrite IH. unfold merged.
    rewrite of_kind_snoc, decide_False by done. by rewrite app_nil_r.
Qed.

Lemma foldl_concat (ops : list (Operand W)) (f : Operand W -> list WatchType) m :
  foldl (fun m o => foldl addType m (f o)) m ops = foldl addType m (concat (f <$> ops)).
Proof.
  revert m. induction ops as [|o ops IH]; intros m; cbn; [done|]. by rewrite IH, foldl_app.
Qed.

(** The registered watches, by kind. *)
Lemma watchResources_spec crds handler (ops : list (Operand W)) f :
  let types := concat (f <$> ops) in
  NoDup (watch_Object <$> watchResources crds handler ops f) /\
  forall w, w ∈ watchResources crds handler ops f <-> exists wt,
    last (of_kind (watch_Object w) types) = Some wt /\
    (Crd wt = "" \/ CrdExists crds (Crd wt) = true) /\
    w = watchOf handler (mkWatchType (watch_Object w) (Crd wt)
          (existsb WatchFullObject (of_kind (watch_Object w) types))).
Proof.
  intros types. unfold watchResources. rewrite foldl_concat. fold types.
  set (m := foldl addType ∅ types).
  assert (Hm : forall k wt, (k, wt) ∈ map_range m <-> merged k types = Some wt).
  { intros k wt. rewrite map_range_perm, elem_of_map_to_list. subst m.
    by rewrite addTypes_lookup. }
  split.
  - rewrite <- list_fmap_compose.
    change (watch_Object ∘ watchOf handler) with wt_Object.
    assert (Hsub : wt_Object <$> (map_range m).*2 = (map_range m).*1).
    { rewrite <- list_fmap_compose. apply list_fmap_ext. intros i [k wt] Hi.
      assert (Hi' := proj1 (Hm k wt) (list_elem_of_lookup_2 _ _ _ Hi)).
      unfold merged in Hi'. destruct (last _); by simplify_eq/=. }
    assert (HN : NoDup (wt_Object <$> (map_range m).*2)).
    { rewrite Hsub, map_range_perm. apply NoDup_fst_map_to_list. }
    by apply NoDup_fmap_filter.
  - intros w. rewrite list_elem_of_fmap. split.
    + intros (wt & -> & [Hc ([k wt'] & -> & Hin)%list_elem_of_fmap]%list_elem_of_filter). cbn in *.
      apply Hm in Hin. unfold merged in Hin.
      destruct (last (of_kind k types)) as [l|] eqn:El; simplify_eq/=. exists l. done.
    + intros (wt & Hl & Hc & Hw). eexists. split; [exact Hw|].
      rewrite list_elem_of_filter. split; [done|]. apply list_elem_of_fmap.
      eexists (_, _). split; [reflexivity|]. apply Hm. unfold merged. by rewrite Hl.
Qed.

(** every kind that the operands declare is watched once, and only while its
    CRD exists; the full object is watched if at least one declaration of the
    kind asks for it. *)
Theorem watchResources_exact crds handler (ops : list (Operand W)) f :
  let types := concat (f <$> ops) in
  NoDup (watch_Object <$> watchResources crds handler ops f) /\
  forall w, w ∈ watchResources crds handler ops f <-> exists wt,
    last (of_kind (watch_Object w) types) = Some wt /\
    (Crd wt = "" \/ CrdExists crds (Crd wt) = true) /\
    w = watchOf handler (mkWatchType (watch_Object w) (Crd wt)
          (existsb WatchFullObject (of_kind (watch_Object w) types))).
Proof. apply watchResources_spec. Qed.

(** A kind for which no declaration asks for the full object is watched with
    the predicate. *)
Lemma watched_relevant_only crds handler (ops : list (Operand W)) f w :
  w ∈ watchResources crds handler ops f ->
  Forall (fun t => wt_Object t = watch_Object w -> WatchFullObject t = false) (concat (f <$> ops)) ->
  exists wt, w = watchOf handler wt /\ WatchFullObject wt = false.
Proof.
  intros (wt & _ & _ & Hw)%(proj2 (watchResources_spec crds handler ops f)) Hf.
  eexists. split; [exact Hw|]. cbn. apply not_true_iff_false.
  rewrite existsb_exists. intros (t & Ht & Hfull). apply list_elem_of_In in Ht.
  apply list_elem_of_filter in Ht as [Hk Ht]. rewrite Forall_forall in Hf. specialize (Hf t Ht Hk). congruence.
Qed.
End registered.

(** *** From an object back to its SSP *)

Definition no_slash (s : string) : Prop := SplitN2 slash s = (s, None).

Lemma SplitN2_app ns name :
  no_slash ns -> SplitN2 slash (ns +:+ "/" +:+ name) = (ns, Some name).
Proof.
  unfold no_slash. induction ns as [|c ns IH]; [done|].
  change (String c ns +:+ "/" +:+ name) with (String c (ns +:+ "/" +:+ name)).
  cbn [SplitN2]. case_bool_decide; [done|].
  destruct (SplitN2 slash ns) as [w rest]. intros E. simplify_eq. by rewrite IH.
Qed.

Fixpoint has_nonspace (s : string) : bool :=
  match s with
  | EmptyString => false
  | String c s' => negb (is_space c) || has_nonspace s'
  end.

Lemma has_nonspace_trim_left s : has_nonspace (trim_left s) = has_nonspace s.
Proof. induction s as [|c s IH]; cbn; [done|]. destruct (is_space c) eqn:E; cbn; [done|by rewrite E]. Qed.

Lemma has_nonspace_rev s acc : has_nonspace (rev_onto s acc) = has_nonspace s || has_nonspace acc.
Proof.
  revert acc. induction s as [|c s IH]; intros acc; cbn; [done|].
  rewrite IH. cbn. destruct (negb (is_space c)), (has_nonspace s); done.
Qed.

Lemma TrimSpace_nonempty s : has_nonspace s = true -> TrimSpace s <> "".
Proof.
  intros Hs E. assert (has_nonspace (TrimSpace s) = true) as Ht; [|by rewrite E in Ht].
  unfold TrimSpace.
  by rewrite has_nonspace_rev, has_nonspace_trim_left, has_nonspace_rev, has_nonspace_trim_left, Hs.
Qed.

Lemma has_nonspace_slash ns name : has_nonspace (ns +:+ "/" +:+ name) = true.
Proof.
  induction ns as [|c ns IH]; [done|].
  change (String c ns +:+ "/" +:+ name) with (String c (ns +:+ "/" +:+ name)).
  cbn [has_nonspace]. by rewrite IH, orb_true_r.
Qed.

Lemma parse_owner_name owner :
  no_slash (Namespace (ssp_meta owner)) ->
  parseNamespacedName (Owner.owner_name owner) = ssp_key owner.
Proof. intros Hn. unfold parseNamespacedName, Owner.owner_name. by rewrite SplitN2_app. Qed.

(** The first controller reference of an object, after its SSP was made its
    controller, refers to the SSP. *)
Lemma GetControllerOf_upsert ref owners :
  or_Controller ref = Some true -> Owner.referSameObject ref ref = true ->
  (forall e, find_first (fun r => bool_decide (or_Controller r = Some true)) owners = Some e ->
     Owner.referSameObject e ref = true) ->
  exists r, find_first (fun r => bool_decide (or_Controller r = Some true))
      (Owner.upsertOwnerRef ref owners) = Some r /\ Owner.referSameObject r ref = true.
Proof.
  intros Hc Hr. induction owners as [|o owners IH]; intros He; cbn.
  - rewrite bool_decide_true by done. by exists ref.
  - destruct (Owner.referSameObject o ref) eqn:Eo; cbn.
    + rewrite bool_decide_true by done. by exists ref.
    + cbn in He. case_bool_decide as Ho.
      * specialize (He _ eq_refl). congruence.
      * by apply IH.
Qed.

Lemma referSameObject_spec a b : Owner.referSameObject a b = true ->
  exists g, Owner.parse_group (or_APIVersion a) = Some g /\
    Owner.parse_group (or_APIVersion b) = Some g /\
    or_Kind a = or_Kind b /\ or_Name a = or_Name b.
Proof.
  unfold Owner.referSameObject. destruct (Owner.parse_group (or_APIVersion a)) as [ga|]; [|done].
  destruct (Owner.parse_group (or_APIVersion b)) as [gb|]; [|done].
  rewrite !andb_true_iff, !bool_decide_eq_true. intros [[-> ?] ?]. by exists gb.
Qed.

Lemma SetControllerReference_controller owner m m' :
  Owner.SetControllerReference owner m = Ok m' -> Namespace (ssp_meta owner) <> "" ->
  Namespace m = Namespace (ssp_meta owner) /\ Namespace m' = Namespace m /\
  exists r, Owner.GetControllerOf m' = Some r /\
    Owner.referSameObject r (Owner.controller_ref owner) = true.
Proof.
  unfold Owner.SetControllerReference, Owner.validateOwner. intros Hset Hns.
  rewrite bool_decide_false in Hset by done. case_bool_decide; [done|].
  case_bool_decide as Hn; [done|]. cbn in Hset.
  assert (m' = with_owners m (Owner.upsertOwnerRef (Owner.controller_ref owner) (OwnerReferences m)) /\
    forall e, Owner.GetControllerOf m = Some e ->
      Owner.referSameObject e (Owner.controller_ref owner) = true) as [-> He].
  { destruct (Owner.GetControllerOf m) as [e|].
    - destruct (Owner.referSameObject e _) eqn:E; cbn in Hset; simplify_eq. naive_solver.
    - simplify_eq. done. }
  split; [by destruct (decide (Namespace (ssp_meta owner) = Namespace m))|]. split; [done|].
  apply GetControllerOf_upsert; [done|apply Owner.controller_ref_same|exact He].
Qed.

(** The type under which an SSP is read from the cluster. *)
Definition typed (owner : SSP) : Prop :=
  tm_Kind (ssp_type owner) = "SSP" /\ tm_APIVersion (ssp_type owner) = V1beta3.GroupVersion.

Lemma annotation_requests owner o :
  typed owner -> no_slash (Namespace (ssp_meta owner)) ->
  (Annotations (o_meta o) ≫= lookup Owner.TypeAnnotation) = Some (Owner.owner_type owner) ->
  (Annotations (o_meta o) ≫= lookup Owner.NamespacedNameAnnotation) = Some (Owner.owner_name owner) ->
  getAnnotationRequests o = [ssp_key owner].
Proof.
  intros [Hk Hv] Hn Ht Hnn. unfold getAnnotationRequests.
  destruct (Annotations (o_meta o)) as [a|]; [|done]. cbn in Ht, Hnn. rewrite Ht, Hnn. cbn [from_option id].
  unfold Owner.owner_type. rewrite Hk, Hv, bool_decide_true by done.
  rewrite bool_decide_false by apply TrimSpace_nonempty, has_nonspace_slash.
  f_equal. by apply parse_owner_name.
Qed.

Lemma owner_requests owner o r result :
  Owner.GetControllerOf (o_meta o) = Some r ->
  Owner.referSameObject r (Owner.controller_ref owner) = true ->
  Namespace (o_meta o) = Namespace (ssp_meta owner) ->
  getOwnerReconcileRequest o result = <[ssp_key owner := tt]> result.
Proof.
  intros Hr (g & Hg & Hg' & Hk & Hname)%referSameObject_spec Hns.
  unfold getOwnerReconcileRequest. rewrite Hr, Hg.
  cbn in Hg'. replace g with V1beta3.Group by (vm_compute in Hg'; by simplify_eq).
  cbn in Hk, Hname. rewrite Hk, Hname, !bool_decide_true by done. by rewrite Hns.
Qed.

(** The objects of an event. *)
Definition event_objects (e : Event Object) : list Object :=
  match e with
  | CreateEvent o | DeleteEvent o | GenericEvent o => [o]
  | UpdateEvent objectOld objectNew => [objectOld; objectNew]
  end.

Lemma annotation_events owner e :
  Forall (fun o => getAnnotationRequests o = [ssp_key owner]) (event_objects e) ->
  forall key, key ∈ EnqueueRequestForAnnotation e <-> key = ssp_key owner.
Proof.
  intros He key. destruct e; cbn in *; rewrite ?Forall_cons in He;
    destruct_and?; repeat match goal with E : getAnnotationRequests _ = _ |- _ => rewrite E; clear E end;
    cbn; rewrite ?elem_of_cons, ?elem_of_nil; intuition.
Qed.

Lemma owner_events `{MapRange} owner e :
  Forall (fun o => forall result,
    getOwnerReconcileRequest o result = <[ssp_key owner := tt]> result) (event_objects e) ->
  forall key, key ∈ EnqueueRequestForOwner e <-> key = ssp_key owner.
Proof.
  intros He key. unfold EnqueueRequestForOwner.
  assert (forall m : gmap ObjectKey unit, m = {[ssp_key owner := tt]} ->
    (key ∈ (map_range m).*1 <-> key = ssp_key owner)) as Hm.
  { intros m ->. rewrite map_range_perm, map_to_list_singleton. cbn.
    rewrite elem_of_cons, elem_of_nil. intuition. }
  apply Hm. destruct e; cbn in *; rewrite ?Forall_cons in He; destruct_and?;
    repeat match goal with E : forall result, getOwnerReconcileRequest _ result = _ |- _ =>
      rewrite E; clear E end; rewrite ?insert_insert_eq; done.
Qed.


(** *** The hook around a handler *)

(** The hook is told every request of the handler once, before the request is
    queued, and the queue gets the same requests. *)
Lemma New_transparent inner e :
  omap (fun x => match x with Queue c => Some c | _ => None end) (New inner e) = Add <$> inner e /\
  omap (fun x => match x with HookFunc k o => Some (k, o) | _ => None end) (New inner e)
    = (fun k => (k, event_object e)) <$> inner e.
Proof. unfold New, hook_calls. induction (inner e) as [|k l [IH1 IH2]]; cbn; [done|]. by rewrite IH1, IH2. Qed.

(** an update of a watched object is handed to the queue exactly when some
    operand asks to watch the full object, when the change is one of labels,
    annotations, spec or deletion, or when the type has no spec at all. *)
Theorem dispatch_exact handler wt objectOld objectNew :
  dispatch (watchOf handler wt) (UpdateEvent objectOld objectNew) =
  if WatchFullObject wt || bool_decide (relevant_change objectOld objectNew)
  then handler (UpdateEvent objectOld objectNew) ≫=
         (fun k => [HookFunc k objectNew; Queue (Add k)])
  else [].
Proof.
  assert (relevantChangesPredicate (UpdateEvent objectOld objectNew)
          = bool_decide (relevant_change objectOld objectNew)) as E.
  { apply eq_true_iff_eq. by rewrite relevantChanges_update, bool_decide_eq_true. }
  assert (New handler (UpdateEvent objectOld objectNew) = handler (UpdateEvent objectOld objectNew) ≫=
         (fun k => [HookFunc k objectNew; Queue (Add k)])) as <-.
  { unfold New, hook_calls. induction (handler _) as [|k l IH]; cbn; [done|]. cbn in IH. by rewrite IH. }
  unfold dispatch, watchOf, accepts. cbn [watch_Predicates watch_Handler].
  destruct (WatchFullObject wt); cbn [forallb orb]; [done|]. by rewrite E, andb_true_r.
Qed.

(** *** Instances *)

Definition owned : Object :=
  match setOwner Samples.request Samples.configMap false with Ok o => o | _ => Samples.configMap end.


(** An SSP restored from a backup carries the finalizer and has no status: the
    write of its first round changes nothing that the watch looks at. *)
Example restored_ssp_not_retriggered :
  let i := with_ssp_status Samples.ssp zeroStatus in
  watchSspResource (UpdateEvent i (with_ssp_meta i
    (Finalizers.AddFinalizer (ssp_meta i) SspController.finalizerName))) = false.
Proof. vm_compute. reflexivity. Qed.
End WatchesProofs.
