(* ===== verification/Tls.v ===== *)
(** * TLS settings

    How the TLS security profile of the SSP resource reaches the servers of the
    system: the options that the operator writes into the ConfigMap of the
    template validator (internal/common/crypto_policy.go), the state that the
    validator keeps about its certificate and these options
    (internal/template-validator/tlsinfo/tlsinfo.go), and the configuration of
    the operator's own servers (main.go). *)

From Stdlib Require Import Ascii.
From S2P Require Import Prelude GoRuntime KubeTypes SspTypes.

Module Tls.

(** ** Go and vendored tables *)

(** The versions of [crypto/tls], 16-bit constants. *)
Definition VersionTLS10 : Z := 769.
Definition VersionTLS11 : Z := 770.
Definition VersionTLS12 : Z := 771.
Definition VersionTLS13 : Z := 772.

(** What depends on the Go release or on encoding/json. A decoder reads back
    what the encoder wrote. *)
Class TlsRuntime (Options : Type) := {
  tls_CipherSuites : list (string * Z);
  json_Marshal : Options -> string;
  json_Unmarshal : string -> error + Options;
  json_roundtrip : forall o, json_Unmarshal (json_Marshal o) = inr o
}.

(** [ocpv1.TLSProfiles] *)
Definition tls13Ciphers : list string :=
  ["TLS_AES_128_GCM_SHA256"; "TLS_AES_256_GCM_SHA384"; "TLS_CHACHA20_POLY1305_SHA256"].
Definition intermediateCiphers : list string :=
  tls13Ciphers ++
  ["ECDHE-ECDSA-AES128-GCM-SHA256"; "ECDHE-RSA-AES128-GCM-SHA256";
   "ECDHE-ECDSA-AES256-GCM-SHA384"; "ECDHE-RSA-AES256-GCM-SHA384";
   "ECDHE-ECDSA-CHACHA20-POLY1305"; "ECDHE-RSA-CHACHA20-POLY1305";
   "DHE-RSA-AES128-GCM-SHA256"; "DHE-RSA-AES256-GCM-SHA384"].
Definition oldCiphers : list string :=
  intermediateCiphers ++
  ["DHE-RSA-CHACHA20-POLY1305"; "ECDHE-ECDSA-AES128-SHA256"; "ECDHE-RSA-AES128-SHA256";
   "ECDHE-ECDSA-AES128-SHA"; "ECDHE-RSA-AES128-SHA"; "ECDHE-ECDSA-AES256-SHA384";
   "ECDHE-RSA-AES256-SHA384"; "ECDHE-ECDSA-AES256-SHA"; "ECDHE-RSA-AES256-SHA";
   "DHE-RSA-AES128-SHA256"; "DHE-RSA-AES256-SHA256"; "AES128-GCM-SHA256";
   "AES256-GCM-SHA384"; "AES128-SHA256"; "AES256-SHA256"; "AES128-SHA"; "AES256-SHA";
   "DES-CBC3-SHA"].

Definition TLSProfiles : gmap string TLSProfileSpec :=
  {[ "Old" := mkTLSProfileSpec oldCiphers "VersionTLS10";
     "Intermediate" := mkTLSProfileSpec intermediateCiphers "VersionTLS12";
     "Modern" := mkTLSProfileSpec tls13Ciphers "VersionTLS13" ]}.

(** [openSSLToIANACiphersMap] of library-go *)
Definition openSSLToIANACiphersMap : gmap string string :=
  list_to_map
  [("TLS_AES_128_GCM_SHA256", "TLS_AES_128_GCM_SHA256");
   ("TLS_AES_256_GCM_SHA384", "TLS_AES_256_GCM_SHA384");
   ("TLS_CHACHA20_POLY1305_SHA256", "TLS_CHACHA20_POLY1305_SHA256");
   ("ECDHE-ECDSA-AES128-GCM-SHA256", "TLS_ECDHE_ECDSA_WITH_AES_128_GCM_SHA256");
   ("ECDHE-RSA-AES128-GCM-SHA256", "TLS_ECDHE_RSA_WITH_AES_128_GCM_SHA256");
   ("ECDHE-ECDSA-AES256-GCM-SHA384", "TLS_ECDHE_ECDSA_WITH_AES_256_GCM_SHA384");
   ("ECDHE-RSA-AES256-GCM-SHA384", "TLS_ECDHE_RSA_WITH_AES_256_GCM_SHA384");
   ("ECDHE-ECDSA-CHACHA20-POLY1305", "TLS_ECDHE_ECDSA_WITH_CHACHA20_POLY1305_SHA256");
   ("ECDHE-RSA-CHACHA20-POLY1305", "TLS_ECDHE_RSA_WITH_CHACHA20_POLY1305_SHA256");
   ("ECDHE-ECDSA-AES128-SHA256", "TLS_ECDHE_ECDSA_WITH_AES_128_CBC_SHA256");
   ("ECDHE-RSA-AES128-SHA256", "TLS_ECDHE_RSA_WITH_AES_128_CBC_SHA256");
   ("AES128-GCM-SHA256", "TLS_RSA_WITH_AES_128_GCM_SHA256");
   ("AES256-GCM-SHA384", "TLS_RSA_WITH_AES_256_GCM_SHA384");
   ("AES128-SHA256", "TLS_RSA_WITH_AES_128_CBC_SHA256");
   ("ECDHE-ECDSA-AES128-SHA", "TLS_ECDHE_ECDSA_WITH_AES_128_CBC_SHA");
   ("ECDHE-RSA-AES128-SHA", "TLS_ECDHE_RSA_WITH_AES_128_CBC_SHA");
   ("ECDHE-ECDSA-AES256-SHA", "TLS_ECDHE_ECDSA_WITH_AES_256_CBC_SHA");
   ("ECDHE-RSA-AES256-SHA", "TLS_ECDHE_RSA_WITH_AES_256_CBC_SHA");
   ("AES128-SHA", "TLS_RSA_WITH_AES_128_CBC_SHA");
   ("AES256-SHA", "TLS_RSA_WITH_AES_256_CBC_SHA");
   ("DES-CBC3-SHA", "TLS_RSA_WITH_3DES_EDE_CBC_SHA")].

Definition OpenSSLToIANACipherSuites (ciphers : list string) : list string :=
  omap (fun c => openSSLToIANACiphersMap !! c) ciphers.

(** [crypto.TLSVersion] of library-go *)
Definition DefaultTLSVersion : Z := VersionTLS12.
Definition TLSVersion (versionName : string) : error + Z :=
  if bool_decide (versionName = "") then inr DefaultTLSVersion
  else if bool_decide (versionName = "VersionTLS10") then inr VersionTLS10
  else if bool_decide (versionName = "VersionTLS11") then inr VersionTLS11
  else if bool_decide (versionName = "VersionTLS12") then inr VersionTLS12
  else if bool_decide (versionName = "VersionTLS13") then inr VersionTLS13
  else inl (EMsg ("unknown tls version " +:+ versionName)).

(** ** crypto_policy.go *)

Record SSPTLSOptions := mkSSPTLSOptions {
  MinTLSVersion : string;
  OpenSSLCipherNames : list string
}.

Definition IsEmpty (s : SSPTLSOptions) : bool :=
  bool_decide (OpenSSLCipherNames s = []) && bool_decide (MinTLSVersion s = "").

Definition MinTLSVersionId (s : SSPTLSOptions) : error + Z :=
  let v := MinTLSVersion s in
  if bool_decide (v = "") then inr VersionTLS10
  else if bool_decide (v = "1.0") then inr VersionTLS10
  else if bool_decide (v = "1.1") then inr VersionTLS11
  else if bool_decide (v = "1.2") then inr VersionTLS12
  else if bool_decide (v = "1.3") then inr VersionTLS13
  else inl (EMsg ("invalid TLSMinVersion " +:+ v +:+ ": expects 1.0, 1.1, 1.2, 1.3 or empty")).

(** A type without an entry in [TLSProfiles] gives a nil pointer. *)
Definition selectCipherSuitesAndMinTLSVersion (profile : option TLSSecurityProfile)
    : outcome (list string * string) :=
  match profile with
  | None => Ok ([], "")
  | Some profile =>
      match tls_Custom profile with
      | Some custom => Ok (tls_Ciphers custom, tls_MinTLSVersion custom)
      | None =>
          match TLSProfiles !! tls_Type profile with
          | Some spec => Ok (tls_Ciphers spec, tls_MinTLSVersion spec)
          | None => Panic "invalid memory address or nil pointer dereference"
          end
      end
  end.

Definition tlsVersionToHumanReadable (version : string) : outcome string :=
  if bool_decide (version = "") then Ok ""
  else if bool_decide (version = "VersionTLS10") then Ok "1.0"
  else if bool_decide (version = "VersionTLS11") then Ok "1.1"
  else if bool_decide (version = "VersionTLS12") then Ok "1.2"
  else if bool_decide (version = "VersionTLS13") then Ok "1.3"
  else Err (EMsg ("invalid ocpv1.VersionTLS " +:+ version)).

Definition NewSSPTLSOptions (tlsSecurityProfile : option TLSSecurityProfile)
    : outcome SSPTLSOptions :=
  '(ciphers, tlsProfile) ← selectCipherSuitesAndMinTLSVersion tlsSecurityProfile;
  minVersion ← tlsVersionToHumanReadable tlsProfile;
  Ok (mkSSPTLSOptions minVersion ciphers).

Section runtime.
Context `{R : TlsRuntime SSPTLSOptions}.

Definition GetKnownCipherId (IANACipherName : string) : option Z :=
  snd <$> find_first (fun knownCipher => bool_decide (knownCipher.1 = IANACipherName)) tls_CipherSuites.

Definition CipherIDs (names : list string) : list Z :=
  omap GetKnownCipherId (OpenSSLToIANACipherSuites names).

(** ** tlsinfo.go *)

(** The part of [TLSInfo] that its mutex guards; a certificate is its bytes. *)
Record TLSInfo := mkTLSInfo {
  cert : option string;
  certError : option error;
  cipherSuites : list Z;
  minTLSVersion : Z;
  tlsOptionsError : option error
}.

Definition zeroTLSInfo : TLSInfo := mkTLSInfo None None [] 0 None.

(** [updateCertificates], after [loadCertificates] returned. *)
Definition updateCertificates (ti : TLSInfo) (loaded : error + string) : TLSInfo :=
  match loaded with
  | inl err => mkTLSInfo None (Some err) (cipherSuites ti) (minTLSVersion ti) (tlsOptionsError ti)
  | inr c => mkTLSInfo (Some c) None (cipherSuites ti) (minTLSVersion ti) (tlsOptionsError ti)
  end.

(** [loadTLSOptions], given the outcome of reading the file. *)
Definition loadTLSOptions (file : error + string) : error + SSPTLSOptions :=
  match file with
  | inl err => inl err
  | inr optionsJson => json_Unmarshal optionsJson
  end.

Definition updateTLSOptions (ti : TLSInfo) (file : error + string) : TLSInfo :=
  match loadTLSOptions file with
  | inl err => mkTLSInfo (cert ti) (certError ti) [] 0 (Some err)
  | inr tlsOptions =>
      if IsEmpty tlsOptions then mkTLSInfo (cert ti) (certError ti) [] 0 None
      else match MinTLSVersionId tlsOptions with
           | inr minVersion =>
               mkTLSInfo (cert ti) (certError ti) (CipherIDs (OpenSSLCipherNames tlsOptions))
                 minVersion None
           | inl err =>
               mkTLSInfo (cert ti) (certError ti) [] 0
                 (Some (EWrap "TLS Configuration broken, min version misconfigured: " err))
           end
  end.

(** [tls.Config], the fields that the code sets. *)
Record Config := mkConfig {
  Certificates : option string;
  MinVersion : Z;
  CipherSuites : list Z
}.

Definition CreateTlsConfig (ti : TLSInfo) : outcome Config :=
  match certError ti with
  | Some err => Err (EWrap "error getting certificate: " err)
  | None =>
      match tlsOptionsError ti with
      | Some err => Err (EWrap "error getting TLS options: " err)
      | None =>
          match cert ti with
          | None => Err (EMsg "the TLS certificate is unexpectedly nil")
          | Some c => Ok (mkConfig (Some c) (minTLSVersion ti) (cipherSuites ti))
          end
      end
  end.
(** ** The operator's own servers (main.go) *)

(** [getConfigForClient], given the SSP resources in the cache; it changes the
    two fields of the configuration that it got. *)
Definition getConfigForClient (ssps : error + list SSP) (cfg : Config) : outcome Config :=
  match ssps with
  | inl err => Err err
  | inr [] => Ok (mkConfig (Certificates cfg) DefaultTLSVersion [])
  | inr (item :: _) =>
      match spec_TLSSecurityProfile (ssp_spec item) with
      | None => Ok (mkConfig (Certificates cfg) DefaultTLSVersion [])
      | Some tlsProfile =>
          let selected := if bool_decide (tls_Type tlsProfile = "Custom") then tls_Custom tlsProfile
                          else TLSProfiles !! tls_Type tlsProfile in
          match selected with
          | None => Panic "invalid memory address or nil pointer dereference"
          | Some spec =>
              match TLSVersion (tls_MinTLSVersion spec) with
              | inl err => Err err
              | inr minVersion =>
                  Ok (mkConfig (Certificates cfg) minVersion (CipherIDs (tls_Ciphers spec)))
              end
          end
      end
  end.

(** ** The state of the validator *)

(** One step: a file watch noticed a change of one of the two directories. *)
Inductive FileEvent :=
| CertsChanged (loaded : error + string)
| OptionsChanged (file : error + string).

Definition step (ti : TLSInfo) (e : FileEvent) : TLSInfo :=
  match e with
  | CertsChanged loaded => updateCertificates ti loaded
  | OptionsChanged file => updateTLSOptions ti file
  end.

(** [Init] loads both directories and then starts watching them. *)
Definition Init (loaded file : error + string) : TLSInfo :=
  updateTLSOptions (updateCertificates zeroTLSInfo loaded) file.

Definition run (loaded file : error + string) (events : list FileEvent) : TLSInfo :=
  foldl step (Init loaded file) events.

(** What was seen last of each directory. *)
Definition latestCerts (loaded : error + string) (events : list FileEvent) : error + string :=
  default loaded (last (omap (fun e => match e with CertsChanged l => Some l | _ => None end) events)).
Definition latestOptions (file : error + string) (events : list FileEvent) : error + string :=
  default file (last (omap (fun e => match e with OptionsChanged f => Some f | _ => None end) events)).

Lemma options_overwrite ti f g :
  updateTLSOptions (updateTLSOptions ti f) g = updateTLSOptions ti g.
Proof.
  unfold updateTLSOptions at 2. destruct (loadTLSOptions f) as [|o]; [done|].
  destruct (IsEmpty o); [done|]. by destruct (MinTLSVersionId o).
Qed.

Lemma certs_overwrite ti a b :
  updateCertificates (updateCertificates ti a) b = updateCertificates ti b.
Proof. by destruct a, b. Qed.

Lemma updates_commute ti l f :
  updateCertificates (updateTLSOptions ti f) l = updateTLSOptions (updateCertificates ti l) f.
Proof.
  unfold updateTLSOptions. destruct (loadTLSOptions f) as [|o]; [by destruct l|].
  destruct (IsEmpty o); [by destruct l|]. by destruct (MinTLSVersionId o), l.
Qed.

Lemma run_latest loaded file events :
  run loaded file events = Init (latestCerts loaded events) (latestOptions file events).
Proof.
  induction events as [|e events IH] using rev_ind; [done|].
  unfold run in *. rewrite foldl_snoc, IH. unfold latestCerts, latestOptions, Init.
  rewrite !omap_app. destruct e as [l|f]; cbn; rewrite ?app_nil_r, ?last_snoc; cbn.
  - by rewrite updates_commute, certs_overwrite.
  - by rewrite options_overwrite.
Qed.

(** whatever the sequence of file changes, the validator serves with the
    certificate and the options it saw last, and refuses to serve exactly when
    the certificate seen last could not be loaded, or the options seen last
    could not be read or name no known TLS version. *)
Theorem CreateTlsConfig_latest loaded file events :
  CreateTlsConfig (run loaded file events) =
  match latestCerts loaded events, loadTLSOptions (latestOptions file events) with
  | inl err, _ => Err (EWrap "error getting certificate: " err)
  | inr c, inl err => Err (EWrap "error getting TLS options: " err)
  | inr c, inr o =>
      if IsEmpty o then Ok (mkConfig (Some c) 0 [])
      else match MinTLSVersionId o with
           | inl err => Err (EWrap "error getting TLS options: "
               (EWrap "TLS Configuration broken, min version misconfigured: " err))
           | inr v => Ok (mkConfig (Some c) v (CipherIDs (OpenSSLCipherNames o)))
           end
  end.
Proof.
  rewrite run_latest. unfold Init, updateTLSOptions, CreateTlsConfig.
  destruct (latestCerts loaded events) as [e|c], (loadTLSOptions _) as [e'|o]; cbn; try done;
    destruct (IsEmpty o); cbn; try done; by destruct (MinTLSVersionId o).
Qed.

(** ** Operator and validator agree *)

(** The discriminator of the profile says which of its members is set, and a
    version is given. *)
Definition well_formed (p : TLSSecurityProfile) : Prop :=
  (tls_Type p = "Custom" <-> is_Some (tls_Custom p)) /\
  forall c, tls_Custom p = Some c -> tls_MinTLSVersion c <> "".

Definition selected (p : TLSSecurityProfile) : option TLSProfileSpec :=
  if bool_decide (tls_Type p = "Custom") then tls_Custom p else TLSProfiles !! tls_Type p.

Lemma TLSProfiles_versions t spec : TLSProfiles !! t = Some spec -> tls_MinTLSVersion spec <> "".
Proof.
  unfold TLSProfiles. rewrite !lookup_insert_Some, lookup_singleton_Some.
  intros [[_ <-]|(_ & [[_ <-]|(_ & _ & <-)])]; done.
Qed.

Lemma well_formed_selected p :
  well_formed p ->
  (if tls_Custom p is Some c then Some c else TLSProfiles !! tls_Type p) = selected p /\
  forall spec, selected p = Some spec -> tls_MinTLSVersion spec <> "".
Proof.
  intros [[Ht1 Ht2] Hv]. unfold selected. destruct (tls_Custom p) as [c|].
  - rewrite bool_decide_true by (by apply Ht2). split; [done|]. intros ? [= <-]. by apply Hv.
  - rewrite bool_decide_false by (intros [? ?]%Ht1; done).
    split; [done|]. apply TLSProfiles_versions.
Qed.

(** The two spellings of a version mean the same protocol version. *)
Lemma version_agreement v :
  v <> "" ->
  match TLSVersion v, tlsVersionToHumanReadable v with
  | inr id, Ok h => h <> "" /\ forall cs, MinTLSVersionId (mkSSPTLSOptions h cs) = inr id
  | inl _, Err _ => True
  | _, _ => False
  end.
Proof.
  intros Hv. unfold TLSVersion, tlsVersionToHumanReadable.
  rewrite !(bool_decide_false (v = "")) by done.
  repeat (case_bool_decide; [done|]). done.
Qed.

(** C30: with a well-formed profile, the template validator that reads the options
    written by the operator requires the same protocol version and offers the
    same ciphers as the operator's own servers. *)
Theorem validator_matches_operator i p certificate others cfg operator_cfg :
  spec_TLSSecurityProfile (ssp_spec i) = Some p -> well_formed p ->
  getConfigForClient (inr (i :: others)) cfg = Ok operator_cfg ->
  exists o validator_cfg,
    NewSSPTLSOptions (Some p) = Ok o /\
    CreateTlsConfig (Init (inr certificate) (inr (json_Marshal o))) = Ok validator_cfg /\
    MinVersion validator_cfg = MinVersion operator_cfg /\
    CipherSuites validator_cfg = CipherSuites operator_cfg.
Proof.
  intros Hp Hwf Hop. destruct (well_formed_selected p Hwf) as [Hsel Hver].
  cbn in Hop. rewrite Hp in Hop. fold (selected p) in Hop.
  destruct (selected p) as [spec|] eqn:Es; [|done]. specialize (Hver _ eq_refl).
  pose proof (version_agreement _ Hver) as Hva.
  destruct (TLSVersion (tls_MinTLSVersion spec)) as [err|id]; [done|]. simplify_eq/=.
  destruct (tlsVersionToHumanReadable _) as [h|err|msg] eqn:Eh; [|done|done].
  destruct Hva as [Hh Hid].
  exists (mkSSPTLSOptions h (tls_Ciphers spec)). eexists. split.
  { unfold NewSSPTLSOptions, selectCipherSuitesAndMinTLSVersion.
    destruct (tls_Custom p) as [c|]; simplify_eq/=; [|rewrite Hsel; cbn]; by rewrite Eh. }
  unfold Init, updateTLSOptions, loadTLSOptions. rewrite json_roundtrip.
  unfold IsEmpty. cbn [MinTLSVersion]. rewrite (bool_decide_false (h = "")), andb_false_r by done.
  rewrite Hid. done.
Qed.

(** a custom profile without its parameters, which the schema of the resource
    admits, crashes both the reconciliation of the validator's configuration
    and the handshakes of the operator's servers. *)
Theorem custom_without_parameters_panics i others cfg :
  spec_TLSSecurityProfile (ssp_spec i) = Some (mkTLSSecurityProfile "Custom" None) ->
  (exists msg, NewSSPTLSOptions (spec_TLSSecurityProfile (ssp_spec i)) = Panic msg) /\
  (exists msg, getConfigForClient (inr (i :: others)) cfg = Panic msg).
Proof. intros Hp. cbn. rewrite Hp. split; by eexists. Qed.
End runtime.

(** ** Instances *)

Module TlsWitness.
(** An encoding of options as a string, in place of JSON: every character of a
    name is announced by a dot, and a name ends with a semicolon. *)
Fixpoint put_word (s rest : string) : string :=
  match s with
  | EmptyString => String ";"%char rest
  | String c s' => String "."%char (String c (put_word s' rest))
  end.

Fixpoint get_words (s : string) : list string :=
  match s with
  | EmptyString => []
  | String k s1 =>
      if bool_decide (k = ";"%char) then "" :: get_words s1
      else match s1 with
           | EmptyString => []
           | String c s2 => match get_words s2 with w :: ws => String c w :: ws | [] => [] end
           end
  end.

Lemma get_put_word s rest : get_words (put_word s rest) = s :: get_words rest.
Proof. induction s as [|c s IH]; cbn; [done|]. by rewrite IH. Qed.

Definition marshal (o : SSPTLSOptions) : string :=
  put_word (MinTLSVersion o) (foldr put_word "" (OpenSSLCipherNames o)).
Definition unmarshal (s : string) : error + SSPTLSOptions :=
  match get_words s with
  | v :: names => inr (mkSSPTLSOptions v names)
  | [] => inl (EMsg "unexpected end of input")
  end.

Lemma unmarshal_marshal o : unmarshal (marshal o) = inr o.
Proof.
  destruct o as [v names]. unfold unmarshal, marshal. rewrite get_put_word. cbn.
  do 2 f_equal. induction names as [|n names IH]; cbn; [done|]. by rewrite get_put_word, IH.
Qed.

Definition runtime : TlsRuntime SSPTLSOptions := {|
  tls_CipherSuites := [("TLS_AES_128_GCM_SHA256", 4865%Z); ("TLS_AES_256_GCM_SHA384", 4866%Z);
                       ("TLS_CHACHA20_POLY1305_SHA256", 4867%Z)];
  json_Marshal := marshal; json_Unmarshal := unmarshal; json_roundtrip := unmarshal_marshal
|}.

Definition with_profile (p : TLSSecurityProfile) : SSP :=
  mkSSP (mkTypeMeta "SSP" V1beta3.GroupVersion) (newMeta "ssp" "kubevirt")
    (mkSSPSpec None None None (mkCommonTemplates "openshift" []) (Some p) None) zeroStatus.

Lemma validator_matches_operator_witness :
  exists o validator_cfg,
    NewSSPTLSOptions (Some (mkTLSSecurityProfile "Modern" None)) = Ok o /\
    CreateTlsConfig (Init (R := runtime) (inr "certificate") (inr (marshal o))) = Ok validator_cfg /\
    MinVersion validator_cfg = VersionTLS13 /\
    CipherSuites validator_cfg = [4865%Z; 4866%Z; 4867%Z].
Proof.
  apply (validator_matches_operator (R := runtime)
           (with_profile (mkTLSSecurityProfile "Modern" None)) (mkTLSSecurityProfile "Modern" None)
           "certificate" [] (mkConfig None 0 [])
           (mkConfig None VersionTLS13 [4865%Z; 4866%Z; 4867%Z])).
  - vm_compute. reflexivity.
  - split; [split; [discriminate|intros [? ?]; discriminate]|discriminate].
  - vm_compute. reflexivity.
Defined.

Lemma custom_without_parameters_panics_witness :
  exists msg, NewSSPTLSOptions (Some (mkTLSSecurityProfile "Custom" None)) = Panic msg.
Proof.
  apply (custom_without_parameters_panics (R := runtime)
           (with_profile (mkTLSSecurityProfile "Custom" None)) [] (mkConfig None 0 [])).
  vm_compute. reflexivity.
Defined.
End TlsWitness.
End Tls.
