(* ===== verification/StaticOperands.v ===== *)
(** * Operands with a fixed set of objects

    Several operands hand a list of builders to [CollectResourceStatus] and a
    list of objects to [DeleteAll]. What the controller expects of such an
    operand follows from a few facts about the two lists. *)

From S2P Require Import Prelude GoRuntime KubeTypes SspTypes Architecture KubeClient Cluster Common Resource ResourceProofs SspController Contracts.

(** A function of the list: a builder, or the error or panic of making it. *)
Definition BuilderFunc := Request -> outcome reconcileBuilder.

Section run.
Context `{Client W}.

Definition run_builder (f : BuilderFunc) (req : Request) : Op W ReconcileResult :=
  r ← lift (f req); Resource.Reconcile r.
End run.

Definition same_object (a b : Object) : Prop :=
  o_kind a = o_kind b /\ ObjectKeyFromObject a = ObjectKeyFromObject b.

(** What an operand promises about a builder that it runs for a request, given
    the objects that its cleanup deletes. *)
Record good_builder (req : Request) (cleaned : list Object) (r : reconcileBuilder) : Prop := {
  good_request : request r = req;
  good_meta : keeps_meta (updateFunc r);
  good_mutable : immutableSpec r = false;
  good_scope :
    if isClusterResource r then Exists (same_object (resource r)) cleaned
    else Namespace (o_meta (resource r)) = key_Namespace (NamespacedName req)
}.

Class StaticOperand (funcs : Request -> list BuilderFunc) (cleaned : Request -> list Object) : Prop :=
  static_good : forall req, Forall (fun f => forall r, f req = Ok r -> good_builder req (cleaned req) r) (funcs req).

(** An object that goes away with the SSP: the cleanup of the operand deletes
    it, or it is in the namespace of the request and the garbage collector
    deletes it with its controller. *)
Definition goes_with_ssp (req : Request) (cleaned : list Object) (o : Object) : Prop :=
  Exists (same_object o) cleaned \/
  (Namespace (o_meta o) = key_Namespace (NamespacedName req) /\
   Owner.controller_ref (Instance req) ∈ OwnerReferences (o_meta o)).

Definition static_call (req : Request) (cleaned : list Object) (c : ApiCall) : Prop :=
  match c with
  | CGet _ _ => True
  | CCreate o | CUpdate o => goes_with_ssp req cleaned o
  | _ => False
  end.

Section static.
Context `{Client W}.
Implicit Types req : Request.

Lemma good_goes_with_ssp req cleaned r res o :
  good_builder req cleaned r -> prepared r = Ok res -> same_object o res ->
  OwnerReferences (o_meta o) = OwnerReferences (o_meta res) -> goes_with_ssp req cleaned o.
Proof.
  intros [Hreq _ _ Hs] Hp [Hk Hkey] Ho. destruct (prepared_keeps _ _ Hp) as (Hk' & Hkey' & _).
  pose proof (prepared_owned _ _ Hp) as Hown. destruct (isClusterResource r).
  - left. eapply Exists_impl; [exact Hs|]. intros d [Hd1 Hd2]. split; congruence.
  - right. subst req. rewrite Ho. split; [|done]. rewrite <- Hs.
    assert (ObjectKeyFromObject o = ObjectKeyFromObject (resource r)) as E by congruence.
    by injection E.
Qed.

(** A resource that cannot be prepared is not looked at. *)
Lemma Reconcile_unprepared P r :
  (forall res, prepared r <> Ok res) -> issued (W := W) P (Resource.Reconcile r).
Proof.
  intros Hp s. unfold Resource.Reconcile. run_monad.
  change (setOwner (request r) (add_app_labels r) (isClusterResource r)) with (prepared r).
  destruct (prepared r) as [res|e|p]; [by destruct (Hp res)|by apply extends_same..].
Qed.

Lemma good_issued req cleaned r :
  good_builder req cleaned r -> issued (W := W) (static_call req cleaned) (Resource.Reconcile r).
Proof.
  intros Hg. destruct (prepared r) as [res|e|p] eqn:Hp;
    [|apply Reconcile_unprepared; congruence..].
  eapply issued_Reconcile; [done|]. eapply issued_mono; [|apply createOrUpdate_issued, keeps_meta_restores, Hg].
  intros [k key|k key|k opts|o|o|k key|key|i|i] Hc; cbn in *; try done.
  - destruct Hc as (? & ? & ? & _). by eapply good_goes_with_ssp.
  - destruct Hc as (? & ? & ? & _). by eapply good_goes_with_ssp.
  - destruct Hc as [Hi _]. by rewrite (good_mutable _ _ _ Hg) in Hi.
Qed.

Lemma builders_issued req cleaned fs :
  Forall (fun f : BuilderFunc => forall r, f req = Ok r -> good_builder req cleaned r) fs ->
  issued (W := W) (static_call req cleaned) (CollectResourceStatus req (run_builder <$> fs)).
Proof.
  intros Hfs. apply issued_mapM. intros g (f & -> & Hf)%list_elem_of_fmap.
  pose proof (proj1 (Forall_forall _ _) Hfs f Hf) as Hg. cbn in Hg.
  unfold run_builder. intros s. destruct (f req) as [r|e|p] eqn:E; [|by apply extends_same..].
  apply (good_issued req cleaned r (Hg r eq_refl) s).
Qed.

Context (funcs : Request -> list BuilderFunc) (cleaned : Request -> list Object).
Context `{!StaticOperand funcs cleaned}.

(** Whatever such an operand writes goes away with the SSP. *)
Lemma static_issued req :
  issued (W := W) (static_call req (cleaned req))
    (CollectResourceStatus req (run_builder <$> funcs req)).
Proof. apply builders_issued, static_good. Qed.

(** The operand built from the two lists. *)
Definition static_operand (name : string) (types clusterTypes : list WatchType) : Operand W :=
  mkOperand name types clusterTypes
    (fun req => CollectResourceStatus req (run_builder <$> funcs req))
    (fun req => DeleteAll req (cleaned req)).

Lemma static_contract name types clusterTypes :
  OperandContract (static_operand name types clusterTypes).
Proof.
  split; intros req; cbn.
  - eapply issued_mono; [|apply static_issued]. by intros [].
  - apply DeleteAll_leaves_ssp.
Qed.
End static.
