(* ===== verification/Settling.v ===== *)
(** * Rounds that settle

    On a cluster without other writers a round of an operand comes to an end,
    and from then on its rounds only read. This is stated for one builder, for a
    list of builders with different objects, and for operands through the class
    [Settling], which [Convergence] uses. *)

From S2P Require Import Prelude GoRuntime KubeTypes SspTypes Architecture KubeClient Cluster Common Resource ResourceProofs SspController StaticOperands.

#[local] Arguments mutate : simpl never.
#[local] Arguments mutateFn : simpl never.
#[local] Arguments namedResource : simpl never.

(** Where an object is stored. *)
Notation Place := (Kind * ObjectKey)%type.
Definition place (o : Object) : Place := (o_kind o, ObjectKeyFromObject o).

(** The entry of the version cache for a place. *)
Definition cache_key (p : Place) : cacheKey :=
  mkCacheKey (kind_name p.1) (key_Name p.2) (key_Namespace p.2).

Lemma cache_key_inj p q : cache_key p = cache_key q -> p = q.
Proof.
  destruct p as [k [ns n]], q as [k' [ns' n']]. intros [= Hk%Mem.kind_name_inj]. by subst.
Qed.

Section quiet.
Context `{QuietSSP W}.
Implicit Types (r : reconcileBuilder) (s : OpSt W) (p : Place).

(** ** What a round leaves alone *)

Definition agree p s s' : Prop :=
  stored (op_world s') p.1 p.2 = stored (op_world s) p.1 p.2 /\
  op_cache s' !! cache_key p = op_cache s !! cache_key p.

(** Everything but the objects at the places in [F]. *)
Definition frame (F : Place -> Prop) s s' : Prop :=
  (forall p, ~ F p -> agree p s s') /\
  (forall key, stored_ssp (op_world s') key = stored_ssp (op_world s) key) /\
  op_lastSspSpec s' = op_lastSspSpec s.

Lemma same_place_refl p s : agree p s s.
Proof. done. Qed.
Lemma same_place_trans p s1 s2 s3 : agree p s1 s2 -> agree p s2 s3 -> agree p s1 s3.
Proof. intros [? ?] [? ?]. split; congruence. Qed.

Lemma frame_refl F s : frame F s s.
Proof. done. Qed.
Lemma frame_trans F s1 s2 s3 : frame F s1 s2 -> frame F s2 s3 -> frame F s1 s3.
Proof.
  intros (A1 & S1 & L1) (A2 & S2 & L2). split_and!; [|intros; congruence|congruence].
  intros p Hp. eapply same_place_trans; eauto.
Qed.
Lemma frame_mono (F G : Place -> Prop) s s' :
  (forall p, F p -> G p) -> frame F s s' -> frame G s s'.
Proof. intros Hs (A & S & L). split_and!; [|done..]. intros p Hp. apply A. auto. Qed.

(** A call that may have changed the object at one place. *)
Lemma frame_call p s w c :
  (forall q, q <> p -> stored w q.1 q.2 = stored (op_world s) q.1 q.2) ->
  (forall key, stored_ssp w key = stored_ssp (op_world s) key) ->
  frame (eq p) s (with_world s w c).
Proof. intros Hq Hk. split_and!; [|done..]. intros q Hn. split; [apply Hq; congruence|done]. Qed.

Lemma frame_read F s c : frame F s (with_world s (op_world s) c).
Proof. done. Qed.

(** A change of one entry of the cache. *)
Lemma frame_cache p s c :
  (forall q, q <> p -> c !! cache_key q = op_cache s !! cache_key q) -> frame (eq p) s (with_cache s c).
Proof. intros Hc. split_and!; [|done..]. intros q Hq. split; [done|]. apply Hc. congruence. Qed.

Lemma cacheKeyFromObj_place o : Cache.cacheKeyFromObj o = cache_key (place o).
Proof. done. Qed.

Lemma frame_cache_Add s o : frame (eq (place o)) s (with_cache s (Cache.Add (op_cache s) o)).
Proof.
  apply frame_cache. intros q Hq. rewrite Cache.Add_insert, cacheKeyFromObj_place.
  apply lookup_insert_ne. by intros E%cache_key_inj.
Qed.
Lemma frame_cache_Remove s o : frame (eq (place o)) s (with_cache s (Cache.RemoveObj (op_cache s) o)).
Proof.
  apply frame_cache. intros q Hq. unfold Cache.RemoveObj. rewrite cacheKeyFromObj_place.
  apply lookup_delete_ne. by intros E%cache_key_inj.
Qed.

Definition alive p s : Prop :=
  forall o, stored (op_world s) p.1 p.2 = Some o -> DeletionTimestamp (o_meta o) = None.

Lemma alive_agree p s s' : agree p s s' -> alive p s -> alive p s'.
Proof. intros [E _] Ha o. rewrite E. apply Ha. Qed.

(** ** One builder *)

(** What is needed of a builder: its functions return on every object that the
    server may answer with. *)
Record settling r (res : Object) : Prop := {
  settling_prepared : prepared r = Ok res;
  settling_meta : restores (updateFunc r) res;
  settling_proper : Proper ((≡) ==> (=)) (statusFunc r);
  settling_update : forall o, o_kind o = o_kind res -> carries res (o_meta o) ->
    exists q, updateFunc r res o = Ok q;
  settling_status : forall o, o_kind o = o_kind res -> replicas_set o -> exists st, statusFunc r o = Ok st
}.

Lemma mutate_returns r res cache o :
  settling r res -> o_kind o = o_kind res -> ObjectKeyFromObject o = ObjectKeyFromObject res ->
  DeletionTimestamp (o_meta o) = None ->
  exists e' o', mutate (mutateFn r cache res o) (ObjectKeyFromObject res) = Ok (e', o') /\
    same_identity (o_meta o) (o_meta o') /\ place o' = place res.
Proof.
  intros Hs Hk Hkey Hd.
  assert (exists e' o', mutateFn r cache res o = Ok (e', o')) as (e' & o' & Hm).
  { rewrite mutateFn_alive by done. cbv zeta. destruct (_ || _); [|by eexists _, _].
    destruct (settling_update r res Hs (with_meta o (restored_meta res (o_meta o))) Hk
      (restored_carries _ _)) as [[e1 o1] ->]. by eexists _, _. }
  destruct (mutateFn_restores _ _ _ _ _ _ (settling_meta r res Hs) Hd Hm) as (Hkind & Hid & _).
  assert (ObjectKeyFromObject o' = ObjectKeyFromObject res) as Hkey'.
  { rewrite <- Hkey. unfold ObjectKeyFromObject. by destruct Hid as (-> & -> & _). }
  exists e', o'. split_and!; [by apply mutate_Ok|done|]. unfold place. congruence.
Qed.

(** After an accepted write the answer of the server is good to go on with. *)
Lemma written_returns r res s g c sent got w :
  settling r res -> place sent = place res -> DeletionTimestamp (o_meta sent) = None ->
  persisted sent got -> stored w (o_kind sent) (ObjectKeyFromObject sent) = Some got ->
  (forall k key, (k, key) <> (o_kind sent, ObjectKeyFromObject sent) ->
     stored w k key = stored (op_world s) k key) ->
  (forall key, stored_ssp w key = stored_ssp (op_world s) key) ->
  DeletionTimestamp (o_meta got) = None /\ place got = place res /\
  (exists st, statusFunc r got = Ok st) /\
  frame (eq (place res)) s (with_world (with_world s (op_world s) g) w c).
Proof.
  intros Hs Hp Hd Hpers Hst Hrest Hssp. destruct (stored_wf _ _ _ _ Hst) as (Hk & Hkey & _ & Hr).
  split_and!.
  - by rewrite (persisted_alive _ _ Hpers).
  - rewrite <- Hp. unfold place. congruence.
  - apply (settling_status r res Hs); [|done]. injection Hp as Hpk _. congruence.
  - apply (frame_trans _ s (with_world s (op_world s) g)); [apply frame_read|].
    apply frame_call; [|exact Hssp]. intros [k key] Hq. apply Hrest. by rewrite <- Hp in Hq.
Qed.

(** The part of [Reconcile] that talks to the server. An object with an immutable
    spec may have to be deleted. *)
Lemma createOrUpdate_returns r res s :
  settling r res -> alive (place res) s ->
  exists op existing res' found s1,
    createOrUpdateWithImmutableSpec r res (namedResource res) s =
      (Ok (op, existing, res', found), s1) /\
    op_cache s1 = op_cache s /\ DeletionTimestamp (o_meta found) = None /\ place found = place res /\
    frame (eq (place res)) s s1 /\
    ((op <> OperationResultDeleted /\ exists st, statusFunc r found = Ok st) \/
     (op = OperationResultDeleted /\ immutableSpec r = true /\
      exists o, stored (op_world s) (place res).1 (place res).2 = Some o /\
        cl_Delete (place res).1 (place res).2 (op_world s) = (inr tt, op_world s1))).
Proof.
  intros Hs Ha. unfold createOrUpdateWithImmutableSpec, Get, call. run_monad.
  rewrite namedResource_kind, namedResource_key.
  destruct (stored (op_world s) (o_kind res) (ObjectKeyFromObject res)) as [o|] eqn:Ho.
  - rewrite (quiet_get_some _ _ _ _ Ho). cbn.
    destruct (stored_wf _ _ _ _ Ho) as (Hk & Hkey & _ & Hrep).
    destruct (mutate_returns r res (op_cache s) o Hs Hk Hkey (Ha o Ho)) as (e' & o' & -> & Hm & Hp).
    destruct Hm as (_ & _ & _ & Hv & _ & Hd). rewrite (Ha o Ho) in Hd.
    assert (o_kind o' = (place res).1 /\ ObjectKeyFromObject o' = (place res).2) as [Hk' Hkey'] by by rewrite <- Hp.
    cbn. unfold DeepEqual. case_bool_decide as Heq.
    + eexists _, _, _, _, _. split; [done|]. do 4 (split; [done|]). left. split; [done|].
      destruct (settling_status r res Hs o Hk Hrep) as [st Hst]. exists st.
      by rewrite <- (settling_proper r res Hs _ _ Heq).
    + destruct (immutableSpec r && _) eqn:EI; cbn.
      * apply andb_true_iff in EI as [EI _]. unfold Delete, call. cbn. rewrite Hk', Hkey'. cbn.
        destruct (quiet_delete _ _ _ _ Ho) as (w1 & HD & _ & Hrest). rewrite HD. cbn.
        eexists _, _, _, _, _. split; [done|]. do 3 (split; [done|]). split.
        -- apply (frame_trans _ s (with_world s (op_world s) (CGet (o_kind res) (ObjectKeyFromObject res))));
             [apply frame_read|].
           apply frame_call; [|intros; by eapply delete_keeps_ssp]. intros [k key] Hq. by apply Hrest.
        -- right. by eauto.
      * unfold Update, call. cbn.
        change (stored (op_world s) (place res).1 (place res).2 = Some o) in Ho. rewrite <- Hk', <- Hkey' in Ho.
        destruct (quiet_update _ o' o Ho) as (o1 & w1 & Hup & Hpers & Hst & Hrest); [done|].
        rewrite Hup. cbn. destruct (written_returns r res s (CGet (o_kind res) (ObjectKeyFromObject res))
          (CUpdate o') o' o1 w1 Hs Hp Hd Hpers Hst Hrest) as (? & ? & ? & ?).
        { intros key. by eapply update_keeps_ssp. }
        eexists _, _, _, _, _. split; [done|]. do 4 (split; [done|]). by left.
  - destruct (quiet_get_none _ _ _ Ho) as (e & -> & He). cbn. rewrite He. cbn.
    destruct (mutate_returns r res (op_cache s) (namedResource res) Hs (namedResource_kind res)
      (namedResource_key res) eq_refl) as (e' & o' & -> & Hm & Hp). cbn.
    unfold Create, call. cbn.
    change (stored (op_world s) (place res).1 (place res).2 = None) in Ho. rewrite <- Hp in Ho.
    destruct (quiet_create _ o' Ho) as (o1 & w1 & Hup & Hpers & Hst & Hrest). rewrite Hup. cbn.
    destruct (written_returns r res s (CGet (o_kind res) (ObjectKeyFromObject res))
      (CCreate o') o' o1 w1 Hs Hp) as (? & ? & ? & ?); try done.
    { by destruct Hm as (_ & _ & _ & _ & _ & ->). }
    { intros key. by eapply create_keeps_ssp. }
    eexists _, _, _, _, _. split; [done|]. do 4 (split; [done|]). by left.
Qed.

(** A round on one object returns and leaves it converged, or deletes it. *)
Lemma Reconcile_settles r res s :
  settling r res -> alive (place res) s ->
  exists rr s1, Reconcile r s = (Ok rr, s1) /\ frame (eq (place res)) s s1 /\
    (converged r res s1 \/
     (rr_OperationResult rr = OperationResultDeleted /\ immutableSpec r = true /\
      exists o, stored (op_world s) (place res).1 (place res).2 = Some o /\
        cl_Delete (place res).1 (place res).2 (op_world s) = (inr tt, op_world s1))).
Proof.
  intros Hs Ha. pose proof (settling_prepared r res Hs) as Hp.
  destruct (createOrUpdate_returns r res s Hs Ha)
    as (op & ex & res' & found & s1 & E & Hc & Hd & Hpl & Hf & Hcase).
  destruct (Reconcile_prepared r res s Hp) as [w HR]. rewrite E in HR.
  destruct Hcase as [[Hop [st Hst]]|(-> & Hi & Hdel)].
  - rewrite bool_decide_false in HR by done. rewrite bool_decide_false in HR by (rewrite Hd; by intros []).
    cbn in HR. rewrite Hst in HR. eexists _, _. split; [exact HR|]. split.
    + eapply frame_trans; [exact Hf|]. rewrite <- Hpl. apply frame_cache_Add.
    + left. eapply (Reconcile_converges r res); eauto using settling_meta, settling_proper.
  - rewrite bool_decide_true in HR by done. eexists _, _. split; [exact HR|]. split.
    + eapply frame_trans; [exact Hf|]. rewrite <- Hpl. apply frame_cache_Remove.
    + by right.
Qed.

(** Whether an object is converged is decided at its place. *)
Lemma converged_agree r res s s' : agree (place res) s s' -> converged r res s -> converged r res s'.
Proof.
  intros [Hst Hca] (o & st & Ho & Hd & Hm & Hc & Hs). exists o, st. cbn in Hst.
  rewrite Hst. split_and!; try done. destruct (stored_wf _ _ _ _ Ho) as (Hk & Hkey & _).
  unfold Cache.Contains in *. rewrite cacheKeyFromObj_place in *.
  replace (place o) with (place res) in * by (unfold place; congruence). by rewrite Hca.
Qed.

Lemma converged_alive r res s : converged r res s -> alive (place res) s.
Proof. intros (o & st & Ho & Hd & _) o'. cbn. rewrite Ho. by intros [= <-]. Qed.

Definition only_reads s s' : Prop := op_world s' = op_world s /\ extends (fun c => is_read c = true) s s'.

Lemma only_reads_refl s : only_reads s s.
Proof. split; [done|reflexivity]. Qed.
Lemma only_reads_trans s1 s2 s3 : only_reads s1 s2 -> only_reads s2 s3 -> only_reads s1 s3.
Proof. intros [? ?] [? ?]. split; [congruence|by etransitivity]. Qed.

(** From then on rounds on that object only read it. *)
Lemma Reconcile_settled r res s :
  prepared r = Ok res -> AlwaysCallUpdateFunc r = false -> converged r res s ->
  exists rr s1, Reconcile r s = (Ok rr, s1) /\ rr_OperationResult rr = OperationResultNone /\
    converged r res s1 /\ frame (eq (place res)) s s1 /\ only_reads s s1.
Proof.
  intros Hp Hal Hc. destruct (converged_step r res s Hp Hal Hc) as (rr & s1 & o & E & Hop & _ & Ho & ->).
  destruct (stored_wf _ _ _ _ Ho) as (Hk & Hkey & _).
  set (o1 := with_meta o (restored_meta res (o_meta o))).
  assert (place o1 = place res) as Hpl by (unfold place; by rewrite <- Hk, <- Hkey).
  eexists _, _. split; [exact E|]. split_and!; [done| | |].
  - destruct Hc as (o2 & st & Ho2 & Hd & Hm & Hv & Hst). rewrite Ho in Ho2. injection Ho2 as <-.
    exists o, st. split_and!; try done. cbn. apply (Cache.Contains_Add _ o1 o eq_refl).
    exact (same_version_refl _ _ _ _ Ho).
  - rewrite <- Hpl. exact (frame_cache_Add (with_world s (op_world s) (CGet (o_kind res) (ObjectKeyFromObject res))) o1).
  - split; [done|]. exists [CGet (o_kind res) (ObjectKeyFromObject res)]. split; [done|]. by constructor.
Qed.

(** *** What a round writes, for any update function that keeps the identity *)

(** After the server answered with [got], the object is in the cache. *)
Lemma Reconcile_finishes r res s op existing res' found s1 got :
  prepared r = Ok res -> op <> OperationResultDeleted ->
  (forall o, o_kind o = o_kind res -> replicas_set o -> exists st, statusFunc r o = Ok st) ->
  Proper ((≡) ==> (=)) (statusFunc r) ->
  createOrUpdateWithImmutableSpec r res (namedResource res) s = (Ok (op, existing, res', found), s1) ->
  stored (op_world s1) (o_kind res) (ObjectKeyFromObject res) = Some got ->
  got ≡ found -> same_identity (o_meta got) (o_meta found) -> o_kind found = o_kind got ->
  DeletionTimestamp (o_meta got) = None -> frame (eq (place res)) s s1 ->
  exists rr s2, Reconcile r s = (Ok rr, s2) /\ rr_OperationResult rr = op /\
    frame (eq (place res)) s s2 /\ op_world s2 = op_world s1 /\ op_trace s2 = op_trace s1 /\
    Cache.Contains (op_cache s2) got = true.
Proof.
  intros Hp Hop Hst HP E Hgot Heq (Hn & Hns & Hu & Hv & Hg & Hd) Hk Hal Hf.
  destruct (stored_wf _ _ _ _ Hgot) as (Hkg & Hkey & _ & Hrep).
  destruct (Hst got Hkg Hrep) as [st Est]. rewrite (HP _ _ Heq) in Est.
  destruct (Reconcile_prepared r res s Hp) as [w HR]. rewrite E in HR.
  rewrite bool_decide_false in HR by done. rewrite bool_decide_false in HR by (rewrite Hd, Hal; by intros []).
  cbn in HR. rewrite Est in HR. eexists _, _. split; [exact HR|].
  assert (place found = place got) as Hpl.
  { unfold place, ObjectKeyFromObject. by rewrite Hk, Hn, Hns. }
  split_and!; try done.
  - eapply frame_trans; [exact Hf|]. replace (place res) with (place found) by (rewrite Hpl; unfold place; congruence).
    apply frame_cache_Add.
  - apply Cache.Contains_Add.
    + rewrite !cacheKeyFromObj_place. by rewrite Hpl.
    + pose proof (same_version_refl _ _ _ _ Hgot) as Hsv. unfold Cache.same_version in *. by rewrite Hu, Hg, Hv.
Qed.

Section writes.
Context (r : reconcileBuilder) (res : Object) (s : OpSt W).
Hypothesis res_prepared : prepared r = Ok res.
Hypothesis status_total :
  forall o, o_kind o = o_kind res -> replicas_set o -> exists st, statusFunc r o = Ok st.
Hypothesis status_proper : Proper ((≡) ==> (=)) (statusFunc r).

(** An object that is there stays as it is, or is written as it was changed. *)
Lemma Reconcile_found o e' o' :
  immutableSpec r = false ->
  stored (op_world s) (o_kind res) (ObjectKeyFromObject res) = Some o ->
  DeletionTimestamp (o_meta o) = None -> mutateFn r (op_cache s) res o = Ok (e', o') ->
  o_kind o' = o_kind o -> same_identity (o_meta o) (o_meta o') ->
  exists rr s1 got, Reconcile r s = (Ok rr, s1) /\ frame (eq (place res)) s s1 /\
    stored (op_world s1) (o_kind res) (ObjectKeyFromObject res) = Some got /\
    DeletionTimestamp (o_meta got) = None /\ Cache.Contains (op_cache s1) got = true /\
    ((got = o /\ o ≡ o' /\ only_reads s s1 /\ rr_OperationResult rr = OperationResultNone) \/
     (~ o ≡ o' /\ persisted o' got /\ cl_Update o' (op_world s) = (inr got, op_world s1))).
Proof.
  intros Him Ho Hal Hm Hk' Hid. destruct (stored_wf _ _ _ _ Ho) as (Hk & Hkey & _).
  assert (ObjectKeyFromObject o' = ObjectKeyFromObject res) as Hkey'.
  { rewrite <- Hkey. unfold ObjectKeyFromObject. by destruct Hid as (-> & -> & _). }
  set (s0 := with_world s (op_world s) (CGet (o_kind res) (ObjectKeyFromObject res))).
  assert (forall P, createOrUpdateWithImmutableSpec r res (namedResource res) s = P <->
    (if DeepEqual o o' then (Ok (OperationResultNone, Some o, e', o'), s0)
     else (obj ← wrapping "failed updating object: " (Update o');
           mret (OperationResultUpdated, Some o, e', obj)) s0) = P) as Hrun.
  { intros P. unfold createOrUpdateWithImmutableSpec, Get, call. run_monad.
    rewrite namedResource_kind, namedResource_key, (quiet_get_some _ _ _ _ Ho). cbn.
    rewrite (proj2 (mutate_Ok _ _ e' o')) by done. cbn. rewrite Him. by destruct (DeepEqual o o'). }
  unfold DeepEqual in Hrun. case_bool_decide as Heq.
  - destruct (Reconcile_finishes r res s OperationResultNone (Some o) e' o' s0 o)
      as (rr & s1 & E & Hop & Hf & Hw & Ht & Hc); try done; [by apply Hrun|].
    exists rr, s1, o. split_and!; try done; [by rewrite Hw|]. left. split_and!; try done.
    split; [by rewrite Hw|]. exists [CGet (o_kind res) (ObjectKeyFromObject res)].
    rewrite Ht. split; [done|]. by constructor.
  - assert (stored (op_world s) (o_kind o') (ObjectKeyFromObject o') = Some o) as Ho'
      by by rewrite Hk', Hk, Hkey'.
    destruct (quiet_update _ o' o Ho') as (got & w1 & Hup & Hpers & Hst & Hrest); [apply Hid|].
    rewrite Hk', Hk, Hkey' in Hst, Hrest.
    assert (DeletionTimestamp (o_meta got) = None) as Hd.
    { rewrite (persisted_alive _ _ Hpers). destruct Hid as (_ & _ & _ & _ & _ & ->). done. }
    destruct (Reconcile_finishes r res s OperationResultUpdated (Some o) e' got
      (with_world s0 w1 (CUpdate o')) got) as (rr & s1 & E & Hop & Hf & Hw & Ht & Hc); try done.
    { apply Hrun. unfold Update, call, wrapping. run_monad. by rewrite Hup. }
    { apply (frame_trans _ s s0); [apply frame_read|].
      apply frame_call; [|intros; by eapply update_keeps_ssp]. intros [k key] Hq. by apply Hrest. }
    exists rr, s1, got. rewrite Hw. split_and!; try done. by right.
Qed.

(** A missing object is created as it was made. *)
Lemma Reconcile_created e' o' :
  stored (op_world s) (o_kind res) (ObjectKeyFromObject res) = None ->
  mutateFn r (op_cache s) res (namedResource res) = Ok (e', o') ->
  o_kind o' = o_kind res -> same_identity (o_meta (namedResource res)) (o_meta o') ->
  exists rr s1 got, Reconcile r s = (Ok rr, s1) /\ frame (eq (place res)) s s1 /\
    stored (op_world s1) (o_kind res) (ObjectKeyFromObject res) = Some got /\
    DeletionTimestamp (o_meta got) = None /\ Cache.Contains (op_cache s1) got = true /\
    persisted o' got /\ cl_Create o' (op_world s) = (inr got, op_world s1).
Proof.
  intros Ho Hm Hk' Hid.
  assert (ObjectKeyFromObject o' = ObjectKeyFromObject res) as Hkey'.
  { unfold ObjectKeyFromObject. by destruct Hid as (-> & -> & _). }
  assert (stored (op_world s) (o_kind o') (ObjectKeyFromObject o') = None) as Ho' by by rewrite Hk', Hkey'.
  destruct (quiet_create _ o' Ho') as (got & w1 & Hup & Hpers & Hst & Hrest).
  rewrite Hk', Hkey' in Hst, Hrest. destruct (quiet_get_none _ _ _ Ho) as (err & HG & He).
  assert (DeletionTimestamp (o_meta got) = None) as Hd.
  { rewrite (persisted_alive _ _ Hpers). by destruct Hid as (_ & _ & _ & _ & _ & ->). }
  set (s0 := with_world s (op_world s) (CGet (o_kind res) (ObjectKeyFromObject res))).
  destruct (Reconcile_finishes r res s OperationResultCreated None e' got
    (with_world s0 w1 (CCreate o')) got) as (rr & s1 & E & Hop & Hf & Hw & Ht & Hc); try done.
  { unfold createOrUpdateWithImmutableSpec, Get, call. run_monad.
    rewrite namedResource_kind, namedResource_key, HG. cbn. rewrite He. cbn.
    rewrite (proj2 (mutate_Ok _ _ e' o')) by done. cbn. unfold Create, call. cbn. by rewrite Hup. }
  { apply (frame_trans _ s s0); [apply frame_read|].
    apply frame_call; [|intros; by eapply create_keeps_ssp]. intros [k key] Hq. by apply Hrest. }
  exists rr, s1, got. rewrite Hw. by split_and!.
Qed.
End writes.

(** ** Tasks at different places *)

(** A step of a round at one place, with what it needs and what it leaves there. *)
Record Task := mkTask {
  t_run : Op W ReconcileResult;
  t_place : Place;
  t_pre : OpSt W -> Prop;
  t_post : OpSt W -> Prop
}.

(** A [quiet] task only reads. *)
Record good_task (quiet : bool) (t : Task) : Prop := {
  gt_pre : forall s s', agree (t_place t) s s' -> t_pre t s -> t_pre t s';
  gt_post : forall s s', agree (t_place t) s s' -> t_post t s -> t_post t s';
  gt_runs : forall s, t_pre t s ->
    exists rr s', t_run t s = (Ok rr, s') /\ t_post t s' /\ frame (eq (t_place t)) s s' /\
      (quiet = true -> only_reads s s' /\ rr_OperationResult rr = OperationResultNone)
}.

Lemma frame_others F p s s' : frame F s s' -> ~ F p -> agree p s s'.
Proof. intros (A & _) Hp. by apply A. Qed.

Lemma CollectResourceStatus_cons req f (fs : list (Request -> Op W ReconcileResult)) s rr s1 out s2 :
  f req s = (Ok rr, s1) -> CollectResourceStatus req fs s1 = (Ok out, s2) ->
  CollectResourceStatus req (f :: fs) s = (Ok (rr :: out), s2).
Proof.
  intros E1 E2. refine (eq_trans (bind_returns _ _ _ _ _ E1) _). exact (bind_returns _ _ _ _ _ E2).
Qed.

Lemma tasks_run quiet req fs ts s :
  Forall2 (fun f t => forall s, f req s = t_run t s) fs ts -> Forall (good_task quiet) ts ->
  NoDup (t_place <$> ts) -> Forall (fun t => t_pre t s) ts ->
  exists out s', CollectResourceStatus req fs s = (Ok out, s') /\ Forall (fun t => t_post t s') ts /\
    frame (.∈ t_place <$> ts) s s' /\
    (quiet = true -> only_reads s s' /\
       Forall (fun rr => rr_OperationResult rr = OperationResultNone) out).
Proof.
  intros Hf. revert s. induction Hf as [|f t fs ts Hft Hf IH]; intros s Hg Hnd Hpre.
  { exists [], s. split_and!; [done|done|done|]. intros _. split; [apply only_reads_refl|constructor]. }
  apply Forall_cons in Hg as [Hg1 Hg]. apply Forall_cons in Hpre as [Hpre1 Hpre].
  rewrite fmap_cons in *. apply NoDup_cons in Hnd as [Hni Hnd].
  destruct (gt_runs quiet t Hg1 s Hpre1) as (rr & s1 & E1 & P1 & F1 & Q1).
  destruct (IH s1 Hg Hnd) as (out & s2 & E2 & P2 & F2 & Q2).
  { apply Forall_forall. intros t' Ht'. refine (gt_pre quiet t' _ s s1 _ _);
      [by eapply Forall_forall| |by eapply (Forall_forall (fun t => t_pre t s))].
    apply (frame_others _ _ _ _ F1). intros E. apply Hni. rewrite E. by apply list_elem_of_fmap_2. }
  exists (rr :: out), s2. split_and!.
  - eapply CollectResourceStatus_cons; [by rewrite Hft|done].
  - constructor; [|done]. refine (gt_post quiet t Hg1 s1 s2 _ P1). by apply (frame_others _ _ _ _ F2).
  - eapply frame_trans; (eapply frame_mono; [|eassumption]); cbn; set_solver.
  - intros Hq. destruct (Q1 Hq), (Q2 Hq). split; [by eapply only_reads_trans|by constructor].
Qed.

(** A builder as a task: with nothing in the way it converges, and stays so. *)
Definition builder_task (quiet : bool) r res : Task :=
  mkTask (Reconcile r) (place res) (if quiet then converged r res else alive (place res)) (converged r res).

Lemma builder_task_good quiet r res :
  settling r res -> AlwaysCallUpdateFunc r = false -> immutableSpec r = false ->
  good_task quiet (builder_task quiet r res).
Proof.
  intros Hs Hal Hi. split; cbn.
  - intros s s' Ha. destruct quiet; [by apply converged_agree|by apply alive_agree].
  - intros s s' Ha. by apply converged_agree.
  - intros s Hpre. destruct quiet.
    + destruct (Reconcile_settled r res s (settling_prepared _ _ Hs) Hal Hpre) as (rr & s1 & E & Hop & Hc & Hf & Hr).
      exists rr, s1. by split_and!.
    + destruct (Reconcile_settles r res s Hs Hpre) as (rr & s1 & E & Hf & [Hc|(_ & ? & _)]); [|congruence].
      exists rr, s1. by split_and!.
Qed.

(** ** Operands *)

(** The parts of a request that do not change when the operator writes the
    status of the SSP: what the objects of an operand depend on. *)
Definition norm (req : Request) : Request :=
  let i := Instance req in
  mkRequest (NamespacedName req)
    (mkSSP (ssp_type i) (unversioned (ssp_meta i)) (ssp_spec i) zeroStatus)
    false (TopologyMode req) (req_CrdList req) (OLMDeployment req) (SSPServiceHostname req).

Definition same_stored p s s' : Prop :=
  stored (op_world s') p.1 p.2 = stored (op_world s) p.1 p.2.

Lemma alive_same p s s' : same_stored p s s' -> alive p s -> alive p s'.
Proof. intros E Ha o. rewrite E. apply Ha. Qed.

(** What the controller needs of an operand to come to rest with it. *)
Class Settling (op : Operand W) := {
  (** the places that the operand reads or writes *)
  region : Request -> Place -> Prop;
  (** when it can start *)
  startable : Request -> OpSt W -> Prop;
  (** how many rounds it works *)
  work : nat;
  (** the state that is reached when so many rounds of work are left *)
  phase : nat -> Request -> OpSt W -> Prop;
  startable_same : forall req s s',
    (forall p, region req p -> same_stored p s s') -> startable req s -> startable req s';
  phase_start : forall req s, startable req s -> phase work req s;
  phase_mono : forall n req s, phase n req s -> phase (S n) req s;
  phase_agree : forall n req s s',
    (forall p, region req p -> agree p s s') -> phase n req s -> phase n req s';
  phase_round : forall n req s, phase n (norm req) s ->
    exists rs s', operand_Reconcile op req s = (Ok rs, s') /\ phase (pred n) (norm req) s' /\
      frame (region (norm req)) s s' /\
      (n = 0 -> only_reads s s' /\ Forall (fun rr => rr_OperationResult rr = OperationResultNone) rs)
}.

Lemma phase_le `{!Settling op} n m req s : n <= m -> phase n req s -> phase m req s.
Proof. induction 1; [done|]. intros. apply phase_mono. auto. Qed.

(** *** Operands with a fixed list of objects *)

Definition with_request (r : reconcileBuilder) (req : Request) : reconcileBuilder :=
  mkReconcileBuilder req (resource r) (isClusterResource r) (appLabels r) (updateFunc r)
    (statusFunc r) (immutableSpec r) (specGetter r) (AlwaysCallUpdateFunc r).

Lemma prepared_norm r req : prepared (with_request r req) = prepared (with_request r (norm req)).
Proof. reflexivity. Qed.

Lemma settling_norm r res req :
  request r = norm req -> settling r res -> settling (with_request r req) res.
Proof.
  intros Hr Hs. split; [|apply Hs..]. rewrite prepared_norm, <- Hr.
  destruct r. apply Hs.
Qed.

(** Builders that only write what changed, and may do so. *)
Definition plain_builder r : Prop := AlwaysCallUpdateFunc r = false /\ immutableSpec r = false.

(** The builders of the list can be made, settle, and are for different objects. *)
Record settling_list (req : Request) (fs : list BuilderFunc) (rs : list reconcileBuilder)
    (ress : list Object) : Prop := {
  sl_made : Forall2 (fun (f : BuilderFunc) r => f req = Ok r) fs rs;
  sl_request : Forall (fun r => request r = req) rs;
  sl_settling : Forall2 (fun r res => settling r res /\ plain_builder r) rs ress;
  sl_distinct : NoDup (place <$> ress)
}.

(** The builders do not depend on the status of the SSP. *)
Definition stable_funcs (funcs : Request -> list BuilderFunc) : Prop := forall req,
  funcs req = funcs (norm req) /\
  Forall (fun f : BuilderFunc => forall r, f (norm req) = Ok r -> f req = Ok (with_request r req))
    (funcs (norm req)).

Section static.
Context (funcs : Request -> list BuilderFunc).
Hypothesis stable : stable_funcs funcs.

Definition static_places (req : Request) : list Place :=
  omap (fun f : BuilderFunc => match f req with Ok r => Some (place (resource r)) | _ => None end)
    (funcs req).

Definition static_phase (n : nat) (req : Request) s : Prop :=
  exists rs ress, settling_list req (funcs req) rs ress /\
    Forall2 (fun r res => if n is 0 then converged r res s else alive (place res) s) rs ress.

Lemma static_places_eq req rs ress :
  settling_list req (funcs req) rs ress -> static_places req = place <$> ress.
Proof.
  intros [Hm _ Hs _]. unfold static_places. revert ress Hs.
  induction Hm as [|f r fs rs Hr Hm IH]; intros ress Hs; inversion Hs as [|? res ? ress' [Hr' _] Hs']; subst.
  - done.
  - cbn. rewrite Hr, (IH _ Hs'). cbn. f_equal.
    destruct (prepared_keeps _ _ (settling_prepared _ _ Hr')) as (Hk & Hkey & _).
    unfold place. by rewrite Hk, Hkey.
Qed.

(** The tasks of a round. *)
Definition static_tasks (quiet : bool) (req : Request) rs ress : list Task :=
  zip_with (fun r => builder_task quiet (with_request r req)) rs ress.

Lemma static_tasks_good quiet req rs ress :
  settling_list (norm req) (funcs (norm req)) rs ress ->
  Forall2 (fun f t => forall s, f req s = t_run t s) (run_builder <$> funcs req)
    (static_tasks quiet req rs ress) /\
  Forall (good_task quiet) (static_tasks quiet req rs ress) /\
  t_place <$> static_tasks quiet req rs ress = place <$> ress.
Proof.
  intros [Hm Hq Hs _]. destruct (stable req) as [-> Hst]. clear -Hm Hq Hs Hst.
  revert ress Hs. induction Hm as [|f r fs rs Hr Hm IH]; intros ress Hs;
    inversion Hs as [|? res ? ress' [Hr' [Ha Hi]] Hs']; subst; [done|].
  apply Forall_cons in Hq as [Hq1 Hq]. apply Forall_cons in Hst as [Hf Hst].
  destruct (IH Hq Hst _ Hs') as (T1 & T2 & T3). cbn. split_and!.
  - constructor; [|done]. intros s. unfold run_builder. by rewrite (Hf r Hr).
  - constructor; [|done]. apply builder_task_good; [by apply settling_norm|done..].
  - exact (f_equal (cons _) T3).
Qed.

Lemma static_tasks_pre (P : reconcileBuilder -> Object -> Prop) (Q : Task -> Prop) quiet req rs ress :
  length rs = length ress ->
  (forall r res, P r res <-> Q (builder_task quiet (with_request r req) res)) ->
  Forall2 P rs ress <-> Forall Q (static_tasks quiet req rs ress).
Proof.
  intros Hl HPQ. revert ress Hl. induction rs as [|r rs IH]; intros [|res ress] Hl; cbn; try done.
  injection Hl as Hl. rewrite Forall2_cons, Forall_cons, HPQ, IH by done. done.
Qed.

Lemma static_round n req s :
  static_phase n (norm req) s ->
  exists rs s', CollectResourceStatus req (run_builder <$> funcs req) s = (Ok rs, s') /\
    static_phase (pred n) (norm req) s' /\ frame (.∈ static_places (norm req)) s s' /\
    (n = 0 -> only_reads s s' /\ Forall (fun rr => rr_OperationResult rr = OperationResultNone) rs).
Proof.
  intros (rs & ress & Hl & Hph). set (quiet := bool_decide (n = 0)).
  destruct (static_tasks_good quiet req rs ress Hl) as (T1 & T2 & T3).
  pose proof (Forall2_length _ _ _ Hph) as Hlen.
  destruct (tasks_run quiet req _ _ s T1 T2) as (out & s' & E & P & F & Q).
  { rewrite T3. apply Hl. }
  { refine (proj1 (static_tasks_pre _ _ quiet req rs ress Hlen _) Hph). intros r res.
    unfold quiet. cbn. by destruct n. }
  rewrite T3, <- (static_places_eq _ _ _ Hl) in F. exists out, s'. split_and!; [done| |done|].
  - exists rs, ress. split; [done|].
    assert (Forall2 (fun r res => converged r res s') rs ress) as Hc.
    { refine (proj2 (static_tasks_pre _ _ quiet req rs ress Hlen _) P). by intros r res. }
    eapply Forall2_impl; [exact Hc|]. intros r res Hr. destruct (pred n); [done|]. exact (converged_alive _ _ _ Hr).
  - intros ->. by apply Q.
Qed.

Lemma static_phase_start req s :
  (exists rs ress, settling_list req (funcs req) rs ress) ->
  Forall (fun p => alive p s) (static_places req) -> static_phase 1 req s.
Proof.
  intros (rs & ress & Hl) Ha. exists rs, ress. split; [done|].
  rewrite (static_places_eq _ _ _ Hl), Forall_fmap in Ha.
  apply Forall2_same_length_lookup_2; [by eapply Forall2_length, Hl|].
  intros i r res _ Hres. by eapply (Forall_lookup_1 _ _ _ _ Ha).
Qed.

Lemma static_phase_mono n req s : static_phase n req s -> static_phase (S n) req s.
Proof.
  intros (rs & ress & Hl & Hph). exists rs, ress. split; [done|].
  eapply Forall2_impl; [exact Hph|]. intros r res. destruct n; [apply converged_alive|done].
Qed.

Lemma static_phase_agree n req s s' :
  (forall p, p ∈ static_places req -> agree p s s') -> static_phase n req s -> static_phase n req s'.
Proof.
  intros Hag (rs & ress & Hl & Hph). exists rs, ress. split; [done|].
  rewrite (static_places_eq _ _ _ Hl) in Hag.
  apply Forall2_same_length_lookup_2; [by eapply Forall2_length|]. intros i r res Hr Hres.
  pose proof (Forall2_lookup_lr _ _ _ _ _ _ Hph Hr Hres) as Hx.
  assert (agree (place res) s s') by (apply Hag, list_elem_of_fmap_2; by eapply list_elem_of_lookup_2).
  destruct n; [by eapply converged_agree|by eapply alive_agree].
Qed.

Lemma all_alive_same ps s s' :
  (forall p, p ∈ ps -> same_stored p s s') -> Forall (fun p => alive p s) ps -> Forall (fun p => alive p s') ps.
Proof.
  intros Hsame Ha. apply Forall_forall. intros p Hp. eapply alive_same; [by apply Hsame|].
  by eapply (Forall_forall (fun p => alive p s)).
Qed.

Context (can_run : Request -> Prop).
Hypothesis runs : forall req, can_run req -> exists rs ress, settling_list req (funcs req) rs ress.

Definition static_settling (op : Operand W) :
  (forall req, operand_Reconcile op req = CollectResourceStatus req (run_builder <$> funcs req)) ->
  Settling op.
Proof.
  intros Hop. refine {| region req := (.∈ static_places req); work := 1; phase := static_phase;
    startable req s := can_run req /\ Forall (fun p => alive p s) (static_places req) |}.
  - intros req s s' Hsame [Hrun Ha]. split; [done|]. by eapply all_alive_same.
  - intros req s [Hrun Ha]. by apply static_phase_start; [apply runs|].
  - apply static_phase_mono.
  - apply static_phase_agree.
  - intros n req s Hph. rewrite Hop. by apply static_round.
Defined.
End static.
End quiet.
