(* ===== verification/TemplateValidatorOperand.v ===== *)
(** * The template validator operand (internal/operands/template-validator)

    The objects that run the template validator, from the SSP spec: its
    deployment with the requested number of replicas and node placement, its
    services, TLS options, webhook registration, disruption budget and network
    policies. *)

From S2P Require Import Prelude GoRuntime KubeTypes SspTypes Architecture KubeClient Cluster Common Samples Resource ResourceProofs SspController Contracts StaticOperands NetworkPolicies CommonTemplates Tls Controllers.

Module TemplateValidatorOperand.
Import Labels.

(** ** resources.go *)

Definition operandName : string := "template-validator".
Definition operandComponent : AppComponent := AppComponentTemplating.
Definition VirtTemplateValidator : string := "virt-template-validator".
Definition TemplateValidatorMetricsServiceName : string := "template-validator-metrics".
Definition MetricsPort : Z := 8443.
Definition WebhookPort : Z := 9443.
Definition webhookPortName : string := "http-webhook".
Definition KubevirtIo : string := "kubevirt.io".
Definition SecretName : string := "virt-template-validator-certs".
Definition ClusterRoleName : string := "template:view".
Definition ClusterRoleBindingName : string := "template-validator".
Definition WebhookName : string := VirtTemplateValidator.
Definition ServiceAccountName : string := "template-validator".
Definition ServiceName : string := VirtTemplateValidator.
Definition DeploymentName : string := VirtTemplateValidator.
Definition ConfigMapName : string := VirtTemplateValidator.
Definition PrometheusLabel : string := "prometheus.ssp.kubevirt.io".
Definition kubernetesHostnameTopologyKey : string := "kubernetes.io/hostname".
Definition RequiredSCCAnnotation : string := "openshift.io/required-scc".
Definition TLSOptionsFilename : string := "tls-config.json".
Definition VmValidatePath : string := "/virtualmachine-validate".
Definition TemplateValidatePath : string := "/template-validate".
Definition defaultTemplateValidatorImage : string :=
  "quay.io/kubevirt/kubevirt-template-validator:latest".
(** [kubevirtv1.ApiSupportedWebhookVersions] *)
Definition ApiSupportedWebhookVersions : list string := ["v1alpha3"; "v1"].

Definition CommonLabels : smap := {[ KubevirtIo := VirtTemplateValidator ]}.

Definition object (name namespace : string) (labels annotations : gomap) (body : Body) : Object :=
  mkObject (mkTypeMeta "" "")
    (with_annotations (with_labels (newMeta name namespace) labels) annotations) body.

Definition newClusterRole : Object :=
  object ClusterRoleName "" (Some {[ KubevirtIo := "" ]}) None
    (ClusterRole [mkRule ["template.openshift.io"] ["templates"] ["list"; "watch"];
                  mkRule ["kubevirt.io"] ["virtualmachines"] ["list"; "watch"]]).

Definition newServiceAccount (namespace : string) : Object :=
  object ServiceAccountName namespace (Some CommonLabels) None ServiceAccount.

Definition newClusterRoleBinding (namespace : string) : Object :=
  object ClusterRoleBindingName "" (Some CommonLabels) None
    (ClusterRoleBinding (mkRoleRef "rbac.authorization.k8s.io" "ClusterRole" ClusterRoleName)
       [mkSubject "ServiceAccount" "" ServiceAccountName namespace]).

Definition newService (namespace : string) : Object :=
  object ServiceName namespace (Some CommonLabels)
    (Some {[ "service.beta.openshift.io/serving-cert-secret-name" := SecretName ]})
    (Service (mkServiceSpec [mkServicePort webhookPortName "" 443 (FromInt32 WebhookPort)]
                CommonLabels "" "" "" None ∅)).

Definition newPodAntiAffinity (key topologyKey operator : string) (values : list string) : PodAffinity :=
  mkPodAffinity []
    [mkWeighted 1 (mkPodAffinityTerm (Some (mkSelector ∅ [mkReq key operator values])) topologyKey ∅)].

Definition probe (initialDelay failureThreshold : Z) : Probe :=
  mkProbe "/readyz" (FromInt32 WebhookPort) "HTTPS" initialDelay 10 failureThreshold.

Definition podLabels : smap :=
  <["name" := DeploymentName]> (<[PrometheusLabel := "true"]> CommonLabels).

Definition newPodSpec (image : string) : PodSpec := {|
  ps_SecurityContext := Some (mkPodSecurityContext (Some true) (Some "RuntimeDefault"));
  ps_ServiceAccountName := ServiceAccountName;
  ps_PriorityClassName := "system-cluster-critical";
  ps_Containers := [ {|
    c_Name := "webhook";
    c_Image := image;
    c_ImagePullPolicy := "IfNotPresent";
    c_TerminationMessagePolicy := "FallbackToLogsOnError";
    c_Requests := {[ "cpu" := "50m"; "memory" := "100Mi" ]};
    c_Args := ["--webhook-port=" +:+ itoa WebhookPort; "--metrics-port=" +:+ itoa MetricsPort;
               "--cert-dir=/etc/webhook/certs"];
    c_VolumeMounts := [mkVolumeMount "tls" "/etc/webhook/certs" true;
                       mkVolumeMount "config-map" "/tls-options" true];
    c_SecurityContext := Some (mkSecurityContext (Some true) (Some false) ["ALL"]);
    c_Ports := [mkContainerPort webhookPortName WebhookPort "TCP";
                mkContainerPort ServiceController.MetricsPortName MetricsPort "TCP"];
    c_LivenessProbe := Some (probe 10 5);
    c_ReadinessProbe := Some (probe 5 2);
    c_other := ∅ |} ];
  ps_Volumes := [mkVolume "tls" (VolSecret SecretName); mkVolume "config-map" (VolConfigMap ConfigMapName)];
  ps_Affinity := Some (mkAffinity None None (Some (newPodAntiAffinity KubevirtIo
                   kubernetesHostnameTopologyKey "In" [VirtTemplateValidator])));
  ps_NodeSelector := None;
  ps_Tolerations := [];
  ps_other := ∅
|}.

Definition newDeployment (namespace : string) (replicas : Z) (image : string) : Object :=
  let scc : smap := {[ RequiredSCCAnnotation := RequiredSCCAnnotationValue ]} in
  object DeploymentName namespace (Some {[ "name" := DeploymentName ]}) (Some scc)
    (Deployment {|
       dep_Replicas := Some replicas;
       dep_Selector := Some (mkSelector CommonLabels []);
       dep_Template := mkPodTemplate
         (with_annotations (with_labels (newMeta VirtTemplateValidator "") (Some podLabels)) (Some scc))
         (newPodSpec image);
       dep_other := ∅ |} (mkDeploymentStatus 0 0)).

Definition newConfigMap (namespace tlsOptionsJson : string) : Object :=
  object ConfigMapName namespace (Some CommonLabels) None
    (ConfigMap None (Some {[ TLSOptionsFilename := tlsOptionsJson ]}) None).

Definition webhookRef (serviceNamespace path : string) : option ServiceReference :=
  Some (mkServiceReference ServiceName serviceNamespace (Some path)).

Definition newValidatingWebhook (serviceNamespace : string) : Object :=
  object WebhookName "" None (Some {[ "service.beta.openshift.io/inject-cabundle" := "true" ]})
    (ValidatingWebhookConfiguration
       [ mkValidatingWebhook "virtualmachine-admission.ssp.kubevirt.io"
           (webhookRef serviceNamespace VmValidatePath) "" None None
           ((fun version => mkRuleWithOperations ["CREATE"; "UPDATE"] ["kubevirt.io"] [version]
                              ["virtualmachines"]) <$> ApiSupportedWebhookVersions)
           (Some "Fail") (Some "None") ["v1"] ∅;
         mkValidatingWebhook "template-admission.ssp.kubevirt.io"
           (webhookRef serviceNamespace TemplateValidatePath) ""
           (Some (mkSelector {[ CommonTemplates.TemplateTypeLabel
                                := CommonTemplates.TemplateTypeLabelBaseValue ]} [])) None
           [mkRuleWithOperations ["DELETE"] ["template.openshift.io"] ["v1"] ["templates"]]
           (Some "Fail") (Some "None") ["v1"] ∅ ]).

Definition PrometheusServiceLabels : smap :=
  {[ ServiceController.PrometheusLabelKey := ServiceController.PrometheusLabelValue;
     ServiceController.MetricsServiceKey := TemplateValidatorMetricsServiceName ]}.

Definition newPrometheusService (namespace : string) : Object :=
  object TemplateValidatorMetricsServiceName namespace (Some PrometheusServiceLabels) None
    (Service (mkServiceSpec
       [mkServicePort ServiceController.MetricsPortName "TCP" 443
          (FromString ServiceController.MetricsPortName)]
       CommonLabels "" "ClusterIP" "" None ∅)).

Definition newNetworkPolicies (namespace : string) : list Object :=
  [ NetworkPolicies.NewEgressToKubeAPIAndDNS NetworkPolicies.NewOpenShiftGenerator namespace
      KubevirtIo [VirtTemplateValidator];
    NetworkPolicies.NewIngressToVirtTemplateValidatorWebhookAndMetrics namespace ].

Definition newPodDisruptionBudget (namespace : string) : Object :=
  object DeploymentName namespace None None
    (PodDisruptionBudget (mkPDBSpec (Some (mkSelector CommonLabels [])) (Some (FromInt32 1)) ∅)).

(** ** Node placement (reconcile.go) *)

Definition with_NodeAffinity (a : Affinity) n := mkAffinity n (aff_PodAffinity a) (aff_PodAntiAffinity a).
Definition with_PodAffinity (a : Affinity) p := mkAffinity (aff_NodeAffinity a) p (aff_PodAntiAffinity a).
Definition with_PodAntiAffinity (a : Affinity) p := mkAffinity (aff_NodeAffinity a) (aff_PodAffinity a) p.

Definition mergeNodeAffinity (current : Affinity) (config : option NodeAffinity) : Affinity :=
  match config with
  | None => current
  | Some config =>
      match aff_NodeAffinity current with
      | None => with_NodeAffinity current (Some config)
      | Some cur =>
          let required := match na_Required config with
            | None => na_Required cur
            | Some terms =>
                match na_Required cur with
                | None => Some terms
                | Some curTerms => Some (curTerms ++ terms)
                end
            end in
          with_NodeAffinity current
            (Some (mkNodeAffinity required (na_Preferred cur ++ na_Preferred config)))
      end
  end.

(** The merge of two pod (anti-)affinities. *)
Definition merge_terms (current config : option PodAffinity) : option PodAffinity :=
  match config with
  | None => current
  | Some config =>
      match current with
      | None => Some config
      | Some cur => Some (mkPodAffinity (pa_Required cur ++ pa_Required config)
                            (pa_Preferred cur ++ pa_Preferred config))
      end
  end.

Definition mergePodAffinity (current : Affinity) (config : option PodAffinity) : Affinity :=
  with_PodAffinity current (merge_terms (aff_PodAffinity current) config).
Definition mergePodAntiAffinity (current : Affinity) (config : option PodAffinity) : Affinity :=
  with_PodAntiAffinity current (merge_terms (aff_PodAntiAffinity current) config).

Definition injectPlacementMetadata (podSpec : PodSpec) (componentConfig : option TemplateValidator)
    : PodSpec :=
  match componentConfig ≫= tv_Placement with
  | None => podSpec
  | Some nodePlacement =>
      let selector := default ∅ (ps_NodeSelector podSpec) ∪ npl_NodeSelector nodePlacement in
      let affinity := match npl_Affinity nodePlacement with
        | None => ps_Affinity podSpec
        | Some config =>
            match ps_Affinity podSpec with
            | None => Some config
            | Some current =>
                let a := mergeNodeAffinity current (aff_NodeAffinity config) in
                let a := mergePodAffinity a (aff_PodAffinity config) in
                Some (mergePodAntiAffinity a (aff_PodAntiAffinity config))
            end
        end in
      {| ps_SecurityContext := ps_SecurityContext podSpec;
         ps_ServiceAccountName := ps_ServiceAccountName podSpec;
         ps_PriorityClassName := ps_PriorityClassName podSpec;
         ps_Containers := ps_Containers podSpec;
         ps_Volumes := ps_Volumes podSpec;
         ps_Affinity := affinity;
         ps_NodeSelector := Some selector;
         ps_Tolerations := ps_Tolerations podSpec ++ npl_Tolerations nodePlacement;
         ps_other := ps_other podSpec |}
  end.

(** ** Update functions *)

Definition with_CABundle (w : ValidatingWebhook) (bundle : string) : ValidatingWebhook :=
  mkValidatingWebhook (wh_Name w) (wh_Service w) bundle (wh_ObjectSelector w) (wh_NamespaceSelector w)
    (wh_Rules w) (wh_FailurePolicy w) (wh_SideEffects w) (wh_AdmissionReviewVersions w) (wh_other w).

(** [copyFoundCaBundles]: the bundle of the first found webhook of that name. *)
Definition copyFoundCaBundles (newWebhooks foundWebhooks : list ValidatingWebhook)
    : list ValidatingWebhook :=
  (fun newWebhook =>
     match find_first (fun foundWebhook => bool_decide (wh_Name newWebhook = wh_Name foundWebhook))
             foundWebhooks with
     | Some foundWebhook => with_CABundle newWebhook (wh_CABundle foundWebhook)
     | None => newWebhook
     end) <$> newWebhooks.

Definition updateWebhook : ResourceUpdateFunc := fun newRes foundRes =>
  match o_body newRes, o_body foundRes with
  | ValidatingWebhookConfiguration new, ValidatingWebhookConfiguration found =>
      let new := copyFoundCaBundles new found in
      Ok (with_body newRes (ValidatingWebhookConfiguration new),
          with_body foundRes (ValidatingWebhookConfiguration new))
  | _, _ => Panic "interface conversion"
  end.

Definition updatePodDisruptionBudget : ResourceUpdateFunc := fun newRes foundRes =>
  match o_body newRes, o_body foundRes with
  | PodDisruptionBudget spec, PodDisruptionBudget _ =>
      Ok (newRes, with_body foundRes (PodDisruptionBudget spec))
  | _, _ => Panic "interface conversion"
  end.

(** ** Reconcile and Cleanup *)

Section operand.
Context `{Process} `{R : Tls.TlsRuntime Tls.SSPTLSOptions}.

Definition ns (req : Request) : string := key_Namespace (NamespacedName req).

Definition namespaced (o : Request -> Object) : BuilderFunc := fun req =>
  Ok (WithAppLabels (NamespacedResource req (o req)) operandName operandComponent).
Definition clustered (o : Request -> Object) : BuilderFunc := fun req =>
  Ok (WithAppLabels (ClusterResource req (o req)) operandName operandComponent).

Definition reconcileClusterRole : BuilderFunc := clustered (fun _ => newClusterRole).
Definition reconcileServiceAccount : BuilderFunc := namespaced (fun req => newServiceAccount (ns req)).
Definition reconcileClusterRoleBinding : BuilderFunc :=
  clustered (fun req => newClusterRoleBinding (ns req)).
Definition reconcileService : BuilderFunc := namespaced (fun req => newService (ns req)).
Definition reconcilePrometheusService : BuilderFunc :=
  namespaced (fun req => newPrometheusService (ns req)).

Definition getTemplateValidatorImage : string :=
  Env.EnvOrDefault Env.TemplateValidatorImageKey defaultTemplateValidatorImage.

Definition numberOfReplicas (req : Request) : Z :=
  match spec_TemplateValidator (ssp_spec (Instance req)) ≫= tv_Replicas with
  | None => 1
  | Some n => if IsSingleReplicaTopologyMode req && bool_decide (n > 1)%Z then 1 else n
  end.

(** The deployment with labels and placement in its pod template. *)
Definition desiredDeployment (req : Request) : Object :=
  let deployment := newDeployment (ns req) (numberOfReplicas req) getTemplateValidatorImage in
  match o_body deployment with
  | Deployment spec status =>
      let t := dep_Template spec in
      let t := mkPodTemplate (AddAppLabels (Instance req) operandName operandComponent (pt_meta t))
                 (injectPlacementMetadata (pt_spec t) (spec_TemplateValidator (ssp_spec (Instance req)))) in
      with_body deployment
        (Deployment (mkDeploymentSpec (dep_Replicas spec) (dep_Selector spec) t (dep_other spec)) status)
  | _ => deployment
  end.

Definition reconcileDeployment : BuilderFunc := fun req =>
  if bool_decide (getTemplateValidatorImage = "") then
    Panic "Cannot reconcile without valid image name"
  else namespaced desiredDeployment req.

Definition reconcileConfigMap : BuilderFunc := fun req =>
  sspTLSOptions ← Tls.NewSSPTLSOptions (spec_TLSSecurityProfile (ssp_spec (Instance req)));
  namespaced (fun req => newConfigMap (ns req) (Tls.json_Marshal sspTLSOptions)) req.

Definition reconcileValidatingWebhook : BuilderFunc := fun req =>
  Ok (UpdateFunc (WithAppLabels (ClusterResource req (newValidatingWebhook (ns req)))
                    operandName operandComponent) updateWebhook).

Definition reconcilePodDisruptionBudget : BuilderFunc := fun req =>
  Ok (UpdateFunc (WithAppLabels (NamespacedResource req (newPodDisruptionBudget (ns req)))
                    operandName operandComponent) updatePodDisruptionBudget).

Definition reconcileNetworkPolicies (req : Request) : list BuilderFunc :=
  (fun policy => namespaced (fun _ => policy)) <$> newNetworkPolicies (ns req).

Definition funcs (req : Request) : list BuilderFunc :=
  [reconcileClusterRole; reconcileServiceAccount; reconcileClusterRoleBinding; reconcileService;
   reconcilePrometheusService; reconcileConfigMap; reconcileDeployment; reconcileValidatingWebhook] ++
  (if negb (IsSingleReplicaTopologyMode req) then [reconcilePodDisruptionBudget] else []) ++
  reconcileNetworkPolicies req.

Definition cleaned (req : Request) : list Object :=
  [newClusterRole; newClusterRoleBinding (ns req); newValidatingWebhook (ns req)].

Definition watchTypes : list WatchType :=
  [ mkWatchType KServiceAccount "" false; mkWatchType KService "" false;
    mkWatchType KDeployment "" true; mkWatchType KConfigMap "" false;
    mkWatchType KNetworkPolicy "" false; mkWatchType KPodDisruptionBudget "" false ].
Definition watchClusterTypes : list WatchType :=
  [ mkWatchType KClusterRole "" false; mkWatchType KClusterRoleBinding "" false;
    mkWatchType KValidatingWebhookConfiguration "" false ].

Context `{Client W}.

Definition Reconcile (req : Request) : Op W (list ReconcileResult) :=
  CollectResourceStatus req (run_builder <$> funcs req).
Definition Cleanup (req : Request) : Op W (list CleanupResult) := DeleteAll req (cleaned req).
Definition operand : Operand W := mkOperand operandName watchTypes watchClusterTypes Reconcile Cleanup.
End operand.

(** ** Correctness *)

Lemma updateWebhook_keeps_meta : keeps_meta updateWebhook.
Proof.
  intros e o e' o'. unfold updateWebhook, o_kind. intros Hf. repeat case_match; by simplify_eq.
Qed.
Lemma updatePodDisruptionBudget_keeps_meta : keeps_meta updatePodDisruptionBudget.
Proof.
  intros e o e' o'. unfold updatePodDisruptionBudget, o_kind. intros Hf. repeat case_match; by simplify_eq.
Qed.

#[export] Hint Resolve updateWebhook_keeps_meta updatePodDisruptionBudget_keeps_meta : ssp.

Section correctness.
Context `{Process} `{R : Tls.TlsRuntime Tls.SSPTLSOptions}.

Lemma namespaced_good req cleaned o :
  Namespace (o_meta (o req)) = ns req ->
  forall r, namespaced o req = Ok r -> good_builder req cleaned r.
Proof. intros Ho r [= <-]. split; [done|apply defaultUpdateFunc_keeps_meta|done|exact Ho]. Qed.

Lemma clustered_good req cleaned o :
  Exists (same_object (o req)) cleaned ->
  forall r, clustered o req = Ok r -> good_builder req cleaned r.
Proof. intros Ho r [= <-]. split; [done|apply defaultUpdateFunc_keeps_meta|done|exact Ho]. Qed.

#[export] Instance static : StaticOperand funcs cleaned.
Proof.
  intros req. unfold funcs. apply Forall_app. split; [|apply Forall_app; split].
  - repeat apply Forall_cons_2; try apply Forall_nil_2; try (by apply namespaced_good).
    + apply clustered_good. by left.
    + apply clustered_good. right. by left.
    + intros r (o & _ & Hr)%outcome_bind_Ok. by refine (namespaced_good _ _ _ _ _ Hr).
    + intros r. unfold reconcileDeployment. case_bool_decide; [done|]. by apply namespaced_good.
    + intros r [= <-]. split; [done|apply updateWebhook_keeps_meta|done|]. right. right. by left.
  - destruct (IsSingleReplicaTopologyMode req); cbn; [apply Forall_nil_2|].
    apply Forall_singleton. intros r [= <-].
    by split; [|apply updatePodDisruptionBudget_keeps_meta|..].
  - apply Forall_fmap, Forall_forall. intros p Hp. refine (namespaced_good req _ (fun _ => p) _).
    unfold newNetworkPolicies in Hp. rewrite !elem_of_cons, elem_of_nil in Hp.
    by destruct Hp as [->|[->|[]]].
Qed.

(** whatever the operand writes goes away with the SSP: the object is one of
    those that [Cleanup] deletes, or it is in the namespace of the SSP and has
    the SSP as its controller, so that the garbage collector deletes it. The
    operand makes no other writes. *)
Theorem writes_go_with_ssp `{Client W} req :
  issued (W := W) (static_call req (cleaned req)) (Reconcile req).
Proof. apply static_issued, _. Qed.

Lemma templateValidator_contract `{Client W} : OperandContract (operand (W := W)).
Proof. exact (static_contract funcs cleaned operandName watchTypes watchClusterTypes). Qed.

(** *** Placement *)

Definition node_required (a : option Affinity) : list Opaque :=
  default [] ((a ≫= aff_NodeAffinity) ≫= na_Required).
Definition node_preferred (a : option Affinity) : list Opaque :=
  default [] (na_Preferred <$> (a ≫= aff_NodeAffinity)).
Definition pod_required (a : option PodAffinity) : list PodAffinityTerm := default [] (pa_Required <$> a).
Definition pod_preferred (a : option PodAffinity) : list WeightedPodAffinityTerm :=
  default [] (pa_Preferred <$> a).

Lemma merge_terms_spec a b :
  pod_required (merge_terms a b) = pod_required a ++ pod_required b /\
  pod_preferred (merge_terms a b) = pod_preferred a ++ pod_preferred b.
Proof. destruct a, b; cbn; rewrite ?app_nil_r; done. Qed.

Lemma mergeNodeAffinity_spec a n :
  let a' := mergeNodeAffinity a n in
  node_required (Some a') = node_required (Some a) ++ default [] (n ≫= na_Required) /\
  node_preferred (Some a') = node_preferred (Some a) ++ default [] (na_Preferred <$> n) /\
  aff_PodAffinity a' = aff_PodAffinity a /\ aff_PodAntiAffinity a' = aff_PodAntiAffinity a.
Proof.
  destruct a as [[[req pref]|] pa paa], n as [[[r|] p]|]; cbn; rewrite ?app_nil_r; try done.
  by destruct req.
Qed.

(** injecting the placement of the SSP spec into a pod keeps every scheduling
    term, node selector and toleration of the operator and adds those of the
    user behind them; a node selector of the operator wins over one of the user
    with the same key; nothing else in the pod changes. *)
Theorem placement_merged ps c p :
  (c ≫= tv_Placement) = Some p ->
  let ps' := injectPlacementMetadata ps c in
  (forall k, default ∅ (ps_NodeSelector ps') !! k =
     match default ∅ (ps_NodeSelector ps) !! k with Some v => Some v | None => npl_NodeSelector p !! k end) /\
  ps_Tolerations ps' = ps_Tolerations ps ++ npl_Tolerations p /\
  node_required (ps_Affinity ps') = node_required (ps_Affinity ps) ++ node_required (npl_Affinity p) /\
  node_preferred (ps_Affinity ps') = node_preferred (ps_Affinity ps) ++ node_preferred (npl_Affinity p) /\
  (forall f, f = aff_PodAffinity \/ f = aff_PodAntiAffinity ->
     pod_required (ps_Affinity ps' ≫= f)
       = pod_required (ps_Affinity ps ≫= f) ++ pod_required (npl_Affinity p ≫= f) /\
     pod_preferred (ps_Affinity ps' ≫= f)
       = pod_preferred (ps_Affinity ps ≫= f) ++ pod_preferred (npl_Affinity p ≫= f)) /\
  ps_Containers ps' = ps_Containers ps /\ ps_Volumes ps' = ps_Volumes ps /\
  ps_SecurityContext ps' = ps_SecurityContext ps /\
  ps_ServiceAccountName ps' = ps_ServiceAccountName ps.
Proof.
  intros Hp ps'. subst ps'. unfold injectPlacementMetadata. rewrite Hp. cbn.
  split; [|split; [done|]].
  { intros k. rewrite lookup_union. destruct (default ∅ (ps_NodeSelector ps) !! k) as [v|]; cbn;
      by destruct (npl_NodeSelector p !! k). }
  destruct (npl_Affinity p) as [config|]; [|cbn; rewrite !app_nil_r; split_and!; try done;
    intros f [->| ->]; cbn; by rewrite !app_nil_r].
  destruct (ps_Affinity ps) as [current|]; [|cbn; split_and!; try done; intros f [->| ->]; done].
  destruct (mergeNodeAffinity_spec current (aff_NodeAffinity config)) as (H1 & H2 & H3 & H4).
  split_and!; [exact H1|exact H2| |done..].
  intros f [->| ->]; cbn; rewrite ?H3, ?H4; apply merge_terms_spec.
Qed.

(** *** The webhook registration *)

Lemma with_CABundle_same w : with_CABundle w (wh_CABundle w) = w.
Proof. by destruct w. Qed.

(** Copying the bundles of webhooks that were written before changes nothing:
    the certificate that OpenShift injected survives every round. *)
Lemma copyFoundCaBundles_idempotent new found :
  NoDup (wh_Name <$> new) ->
  copyFoundCaBundles new (copyFoundCaBundles new found) = copyFoundCaBundles new found.
Proof.
  intros HN. unfold copyFoundCaBundles at 1 3. apply list_fmap_ext. intros i w Hw.
  set (copied := copyFoundCaBundles new found).
  assert (Hlk : exists w', find_first (fun x => bool_decide (wh_Name w = wh_Name x)) copied = Some w' /\
    wh_CABundle w' = match find_first (fun x => bool_decide (wh_Name w = wh_Name x)) found with
                     | Some x => wh_CABundle x | None => wh_CABundle w end).
  { subst copied. revert i Hw HN. induction new as [|n new IH]; intros i Hw HN; [done|].
    rewrite fmap_cons, NoDup_cons in HN. destruct HN as [Hn HN]. destruct i as [|i]; cbn in Hw.
    - simplify_eq. cbn. destruct (find_first _ found) as [x|]; cbn; rewrite bool_decide_true by done; eauto.
    - cbn. rewrite bool_decide_false; [by apply (IH i)|]. intros E. apply Hn.
      apply list_elem_of_fmap. exists w. split; [|by eapply list_elem_of_lookup_2].
      destruct (find_first _ found) in E; cbn in E; done. }
  destruct Hlk as (w' & -> & ->).
  destruct (find_first _ found) as [x|]; [done|]. by rewrite with_CABundle_same.
Qed.

(** after an update of the webhook registration every webhook is as the
    operator wants it, except that it keeps the CA bundle that was injected into
    the webhook of the same name; a further update changes nothing. *)
Theorem webhook_keeps_bundle e o new found :
  o_body e = ValidatingWebhookConfiguration new -> o_body o = ValidatingWebhookConfiguration found ->
  NoDup (wh_Name <$> new) ->
  exists e' o' got, updateWebhook e o = Ok (e', o') /\ o_meta o' = o_meta o /\
    o_body o' = ValidatingWebhookConfiguration got /\
    Forall2 (fun w w' =>
      w' = with_CABundle w (match find_first (fun x => bool_decide (wh_Name w = wh_Name x)) found with
                            | Some x => wh_CABundle x | None => wh_CABundle w end)) new got /\
    (exists e'', updateWebhook e o' = Ok (e'', o')).
Proof.
  intros He Ho HN. unfold updateWebhook. rewrite He, Ho.
  eexists _, _, (copyFoundCaBundles new found). split; [done|]. split_and!; [done|done| |].
  - unfold copyFoundCaBundles. apply Forall2_fmap_r, Forall_Forall2_diag, Forall_forall. intros w _.
    unfold compose. cbv beta. destruct (find_first (fun x => bool_decide (wh_Name w = wh_Name x)) found);
      [done|by rewrite with_CABundle_same].
  - cbn. rewrite copyFoundCaBundles_idempotent by done. by eexists.
Qed.

(** *** The parts fit together *)

Definition pod_of (o : Object) : option PodTemplateSpec :=
  match o_body o with Deployment spec _ => Some (dep_Template spec) | _ => None end.
Definition service_of (o : Object) : option ServiceSpec :=
  match o_body o with Service spec => Some spec | _ => None end.

(** A target port is open on some container of a pod. *)
Definition exposes (p : PodSpec) (port : IntOrString) : bool :=
  existsb (fun c => existsb (fun cp =>
    match port with
    | FromInt32 n => bool_decide (cp_ContainerPort cp = n)
    | FromString name => bool_decide (cp_Name cp = name)
    end) (c_Ports c)) (ps_Containers p).

(** A service sends traffic to a pod: its selector matches and every target
    port is open. *)
Definition serves (svc : Object) (pod : PodTemplateSpec) : Prop :=
  exists spec, service_of svc = Some spec /\
    NetworkPolicies.selects (mkSelector (svc_Selector spec) [])
      (default ∅ (KubeTypes.Labels (pt_meta pod))) = true /\
    forallb (fun p => exposes (pt_spec pod) (sp_TargetPort p)) (svc_Ports spec) = true.

Lemma pod_containers image c :
  ps_Containers (injectPlacementMetadata (newPodSpec image) c) = ps_Containers (newPodSpec image).
Proof. unfold injectPlacementMetadata. by destruct (c ≫= tv_Placement). Qed.

Lemma pod_volumes image c :
  ps_Volumes (injectPlacementMetadata (newPodSpec image) c) = ps_Volumes (newPodSpec image).
Proof. unfold injectPlacementMetadata. by destruct (c ≫= tv_Placement). Qed.

Lemma pod_account image c :
  ps_ServiceAccountName (injectPlacementMetadata (newPodSpec image) c) = ServiceAccountName.
Proof. unfold injectPlacementMetadata. by destruct (c ≫= tv_Placement). Qed.

(** The pod template of [desiredDeployment]. *)
Definition desiredPod (req : Request) : PodTemplateSpec :=
  mkPodTemplate
    (AddAppLabels (Instance req) operandName operandComponent
       (with_annotations (with_labels (newMeta VirtTemplateValidator "") (Some podLabels))
          (Some {[ RequiredSCCAnnotation := RequiredSCCAnnotationValue ]})))
    (injectPlacementMetadata (newPodSpec getTemplateValidatorImage)
       (spec_TemplateValidator (ssp_spec (Instance req)))).

(** The identifying label of the pods survives the labels of the SSP. *)
Lemma pod_label instance :
  addCommonLabels podLabels instance operandName operandComponent !! KubevirtIo
    = Some VirtTemplateValidator.
Proof. rewrite addCommonLabels_foreign; [done|]. by apply (bool_decide_unpack (KubevirtIo ∉ app_label_keys)). Qed.

Lemma selects_common ls :
  ls !! KubevirtIo = Some VirtTemplateValidator ->
  NetworkPolicies.selects (mkSelector CommonLabels []) ls = true.
Proof.
  intros Hl. unfold NetworkPolicies.selects. cbn [MatchExpressions MatchLabels forallb].
  rewrite andb_true_r, bool_decide_eq_true. unfold CommonLabels. by apply map_singleton_subseteq_l.
Qed.

Lemma policies_select ls namespace :
  ls !! KubevirtIo = Some VirtTemplateValidator ->
  Forall (fun o => exists spec, NetworkPolicies.policy_spec o = Some spec /\
    NetworkPolicies.selects (np_PodSelector spec) ls = true) (newNetworkPolicies namespace).
Proof.
  intros Hl. unfold newNetworkPolicies. repeat apply Forall_cons_2; [..|apply Forall_nil_2];
    (eexists; split; [reflexivity|]).
  - unfold NetworkPolicies.selects, NetworkPolicies.requirement_holds.
    cbn [np_PodSelector MatchExpressions MatchLabels forallb req_Key].
    rewrite Hl, (bool_decide_true (∅ ⊆ ls)) by apply map_empty_subseteq. done.
  - by apply selects_common.
Qed.

(** C32: for every SSP the objects of the operand fit together. The pods of the
    deployment are those that the deployment, both services, the disruption
    budget and the network policies select; the ports of the services are open
    on them and reachable through the policies; they run under the service
    account that the role binding gives the role; the mounted ConfigMap is the
    one with the TLS options; and the webhooks call the service. *)
Theorem objects_fit req tls :
  exists pod, pod_of (desiredDeployment req) = Some pod /\
  let ls := default ∅ (KubeTypes.Labels (pt_meta pod)) in
  (forall spec st, o_body (desiredDeployment req) = Deployment spec st ->
     exists sel, dep_Selector spec = Some sel /\ NetworkPolicies.selects sel ls = true) /\
  serves (newService (ns req)) pod /\ serves (newPrometheusService (ns req)) pod /\
  (exists spec sel, o_body (newPodDisruptionBudget (ns req)) = PodDisruptionBudget spec /\
     pdb_Selector spec = Some sel /\ NetworkPolicies.selects sel ls = true) /\
  (forall port src nsl, port = WebhookPort \/ port = MetricsPort ->
     NetworkPolicies.ingress_allowed (newNetworkPolicies (ns req)) ls src nsl "TCP" port = true) /\
  ps_ServiceAccountName (pt_spec pod) = Name (o_meta (newServiceAccount (ns req))) /\
  (exists rr, o_body (newClusterRoleBinding (ns req)) = ClusterRoleBinding rr
       [mkSubject "ServiceAccount" "" (ps_ServiceAccountName (pt_spec pod)) (ns req)] /\
     rr_Name rr = Name (o_meta newClusterRole)) /\
  mkVolume "config-map" (VolConfigMap (Name (o_meta (newConfigMap (ns req) tls)))) ∈ ps_Volumes (pt_spec pod) /\
  (exists ws, o_body (newValidatingWebhook (ns req)) = ValidatingWebhookConfiguration ws /\
     Forall (fun w => exists path, wh_Service w = Some
       (mkServiceReference (Name (o_meta (newService (ns req))))
          (Namespace (o_meta (newService (ns req)))) (Some path))) ws).
Proof.
  exists (desiredPod req). split; [reflexivity|]. cbn [pt_meta pt_spec desiredPod].
  set (ls := default ∅ _).
  assert (Hl : ls !! KubevirtIo = Some VirtTemplateValidator) by apply pod_label.
  assert (Hsel := selects_common ls Hl).
  split_and!.
  - intros spec st [= <- _]. eexists. split; [reflexivity|exact Hsel].
  - eexists. split; [reflexivity|]. split; [exact Hsel|].
    unfold exposes. cbn [pt_spec desiredPod]. rewrite pod_containers. vm_compute. reflexivity.
  - eexists. split; [reflexivity|]. split; [exact Hsel|].
    unfold exposes. cbn [pt_spec desiredPod]. rewrite pod_containers. vm_compute. reflexivity.
  - eexists _, _. split; [reflexivity|]. split; [reflexivity|exact Hsel].
  - intros port src nsl Hport. unfold NetworkPolicies.ingress_allowed, newNetworkPolicies.
    cbn [existsb]. apply orb_true_iff. right. apply orb_true_iff. left.
    change (NetworkPolicies.selects (mkSelector CommonLabels []) ls && true &&
      (NetworkPolicies.port_matches [NetworkPolicies.TCP 8443; NetworkPolicies.TCP 9443] "TCP" port
       || false) = true).
    rewrite Hsel. by destruct Hport as [->| ->].
  - apply pod_account.
  - eexists. rewrite pod_account. split; reflexivity.
  - rewrite pod_volumes. right. left.
  - eexists. split; [reflexivity|]. repeat apply Forall_cons_2; [by eexists..|apply Forall_nil_2].
Qed.

(** *** Replicas and the image *)

End correctness.

Module TemplateValidatorWitness.
Definition placement : NodePlacement :=
  mkNodePlacement {[ "zone" := "a" ]}
    (Some (mkAffinity None None (Some (newPodAntiAffinity "app" "zone" "In" ["db"]))))
    [mkToleration "spot" "Exists" "" "NoSchedule" None].
Definition config : option TemplateValidator := Some (mkTemplateValidator (Some 2%Z) (Some placement)).

Lemma placement_merged_witness :
  ps_Tolerations (injectPlacementMetadata (newPodSpec "image") config)
    = [mkToleration "spot" "Exists" "" "NoSchedule" None].
Proof. apply (placement_merged (newPodSpec "image") config placement). vm_compute. reflexivity. Defined.

Definition registered : Object := newValidatingWebhook "kubevirt".
Definition webhooks_of (o : Object) : list ValidatingWebhook :=
  match o_body o with ValidatingWebhookConfiguration ws => ws | _ => [] end.
Definition injected : list ValidatingWebhook := (fun w => with_CABundle w "CA") <$> webhooks_of registered.

Lemma webhook_keeps_bundle_witness :
  exists e' o' got, updateWebhook registered (with_body registered (ValidatingWebhookConfiguration injected))
      = Ok (e', o') /\ o_meta o' = o_meta registered /\
    o_body o' = ValidatingWebhookConfiguration got /\
    Forall2 (fun w w' =>
      w' = with_CABundle w (match find_first (fun x => bool_decide (wh_Name w = wh_Name x)) injected with
                            | Some x => wh_CABundle x | None => wh_CABundle w end))
      (webhooks_of registered) got /\
    (exists e'', updateWebhook registered o' = Ok (e'', o')).
Proof.
  apply (webhook_keeps_bundle registered (with_body registered (ValidatingWebhookConfiguration injected))
           (webhooks_of registered) injected); [reflexivity|reflexivity|].
  apply (bool_decide_unpack (NoDup _)). vm_compute. exact I.
Defined.
End TemplateValidatorWitness.
End TemplateValidatorOperand.
