(* ===== verification/VmDeleteProtection.v ===== *)
(** * The VM delete protection operand (internal/operands/vm-delete-protection)

    An admission policy, enforced by the API server, that denies the deletion of
    virtual machines with a certain label. *)

From S2P Require Import Prelude GoRuntime KubeTypes SspTypes Architecture KubeClient Cluster Common Samples Resource ResourceProofs SspController Contracts StaticOperands Watches.

Module VmDeleteProtection.
Import Labels.

Definition operandName : string := "vm-delete-protection".
Definition operandComponent : AppComponent := AppComponentVMDeletionProtection.
Definition virtualMachineDeleteProtectionPolicyName : string := "kubevirt-vm-deletion-protection".

(** ** resources.go *)

Definition vmDeleteProtectionCELExpression : string :=
  "(!has(oldObject.metadata.labels) || !(variables.label in oldObject.metadata.labels) || !oldObject.metadata.labels[variables.label].matches('^(true|True)$'))".

(** [kubevirtv1.ApiSupportedVersions] *)
Definition ApiSupportedVersions : list string := ["v1"; "v1alpha3"].

Definition policySpec : VAPSpec := {|
  vap_FailurePolicy := Some "Fail";
  vap_ResourceRules := [mkRuleWithOperations ["DELETE"] ["kubevirt.io"] ApiSupportedVersions ["virtualmachines"]];
  vap_Variables := [("label", "string('kubevirt.io/vm-delete-protection')")];
  vap_Validations := [(vmDeleteProtectionCELExpression,
    "'VirtualMachine ' + string(oldObject.metadata.name) + ' cannot be deleted, disable/remove label \'kubevirt.io/vm-delete-protection\' from VirtualMachine before deleting it'")];
  vap_other := ∅
|}.

Definition newValidatingAdmissionPolicy : Object :=
  mkObject (mkTypeMeta "" "") (newMeta virtualMachineDeleteProtectionPolicyName "")
    (ValidatingAdmissionPolicy policySpec (mkVAPStatus None)).

Definition newValidatingAdmissionPolicyBinding : Object :=
  mkObject (mkTypeMeta "" "") (newMeta virtualMachineDeleteProtectionPolicyName "")
    (ValidatingAdmissionPolicyBinding (mkVAPBSpec virtualMachineDeleteProtectionPolicyName ["Deny"] ∅)).

(** ** reconcile.go *)

Definition updateVAP : ResourceUpdateFunc := fun expected found =>
  match o_body expected, o_body found with
  | ValidatingAdmissionPolicy spec _, ValidatingAdmissionPolicy _ status =>
      Ok (expected, with_body found (ValidatingAdmissionPolicy spec status))
  | _, _ => Panic "interface conversion"
  end.

Definition updateVAPB : ResourceUpdateFunc := fun expected found =>
  match o_body expected, o_body found with
  | ValidatingAdmissionPolicyBinding spec, ValidatingAdmissionPolicyBinding _ =>
      Ok (expected, with_body found (ValidatingAdmissionPolicyBinding spec))
  | _, _ => Panic "interface conversion"
  end.

Definition statusVAP : ResourceStatusFunc := fun resource =>
  match o_body resource with
  | ValidatingAdmissionPolicy _ status =>
      match vap_TypeChecking status with
      | None =>
          let msg := Some "Delete protection VAP type checking in progress" in
          Ok (mkResourceStatus msg msg msg)
      | Some [] => Ok okStatus
      | Some warnings =>
          let msg := Some ("Incorrect VM delete protection VAP CEL expression &{["
                           +:+ Join warnings " " +:+ "]}") in
          Ok (mkResourceStatus None msg msg)
      end
  | _ => Panic "interface conversion"
  end.

Definition reconcileVAP : BuilderFunc := fun req =>
  Ok (StatusFunc (UpdateFunc (WithAppLabels (ClusterResource req newValidatingAdmissionPolicy)
        operandName operandComponent) updateVAP) statusVAP).

Definition reconcileVAPB : BuilderFunc := fun req =>
  Ok (UpdateFunc (WithAppLabels (ClusterResource req newValidatingAdmissionPolicyBinding)
        operandName operandComponent) updateVAPB).

Definition funcs (req : Request) : list BuilderFunc := [reconcileVAP; reconcileVAPB].
Definition cleaned (req : Request) : list Object :=
  [newValidatingAdmissionPolicy; newValidatingAdmissionPolicyBinding].

Definition watchClusterTypes : list WatchType :=
  [ mkWatchType KValidatingAdmissionPolicy "" false; mkWatchType KValidatingAdmissionPolicyBinding "" false ].

Section operand.
Context `{Client W}.

Definition Reconcile (req : Request) : Op W (list ReconcileResult) :=
  CollectResourceStatus req (run_builder <$> funcs req).
Definition Cleanup (req : Request) : Op W (list CleanupResult) := DeleteAll req (cleaned req).
Definition operand : Operand W := mkOperand operandName [] watchClusterTypes Reconcile Cleanup.
End operand.

(** ** Correctness *)

Lemma updateVAP_keeps_meta : keeps_meta updateVAP.
Proof. intros e o e' o'. unfold updateVAP, o_kind. intros Hf. repeat case_match; by simplify_eq. Qed.
Lemma updateVAPB_keeps_meta : keeps_meta updateVAPB.
Proof. intros e o e' o'. unfold updateVAPB, o_kind. intros Hf. repeat case_match; by simplify_eq. Qed.

#[export] Instance static : StaticOperand funcs cleaned.
Proof.
  intros req. repeat apply Forall_cons_2; [..|apply Forall_nil_2]; intros r [= <-].
  - split; [done|apply updateVAP_keeps_meta|done|]. by left.
  - split; [done|apply updateVAPB_keeps_meta|done|]. right. by left.
Qed.

Lemma vmDeleteProtection_contract `{Client W} : OperandContract (operand (W := W)).
Proof. exact (static_contract funcs cleaned operandName [] watchClusterTypes). Qed.

(** The policy with the answer of the type checker. *)
Definition checked (o : Object) (warnings : list string) : Object :=
  match o_body o with
  | ValidatingAdmissionPolicy spec _ =>
      with_body o (ValidatingAdmissionPolicy spec (mkVAPStatus (Some warnings)))
  | _ => o
  end.

(** until the API server has checked the types of the policy the operand
    reports it as not available, so that the SSP is not deployed; the answer of
    the checker changes the report, but the event of that answer passes no
    watch of the operand's kind and starts no round. *)
Theorem type_checking_unnoticed `{MapRange} {W} crds (ops : list (Operand W)) w o spec :
  o_body o = ValidatingAdmissionPolicy spec (mkVAPStatus None) ->
  Forall (fun op => Forall (fun t => wt_Object t = KValidatingAdmissionPolicy ->
                                     WatchFullObject t = false) (WatchClusterTypes op)) ops ->
  w ∈ Watches.watchClusterResources crds ops -> Watches.watch_Object w = KValidatingAdmissionPolicy ->
  (exists st, statusVAP o = Ok st /\ NotAvailable st <> None) /\
  statusVAP (checked o []) = Ok okStatus /\
  Watches.dispatch w (UpdateEvent o (checked o [])) = [].
Proof.
  intros Ho Hops Hw Hk. unfold statusVAP, checked. rewrite Ho. cbn.
  split; [by eexists|]. split; [done|].
  destruct (WatchesProofs.watched_relevant_only _ _ _ _ _ Hw) as (wt & -> & Hfull).
  { rewrite Hk, Forall_concat, Forall_fmap. exact Hops. }
  rewrite WatchesProofs.dispatch_exact, Hfull, bool_decide_false; [done|].
  unfold WatchesProofs.relevant_change. cbn. rewrite Ho. cbn. intuition congruence.
Qed.

Module DeleteProtectionWitness.
Definition stored : Object := newValidatingAdmissionPolicy.
Definition ops : list (Operand MemCluster) := [operand].
Definition watch : Watches.Watch :=
  Watches.watchOf Handlers.EnqueueRequestForAnnotation (mkWatchType KValidatingAdmissionPolicy "" false).

Lemma type_checking_unnoticed_witness :
  Watches.dispatch watch (UpdateEvent stored (checked stored [])) = [].
Proof.
  apply (type_checking_unnoticed (H := sorted_range) (mkCrdList [] []) ops watch stored policySpec).
  - reflexivity.
  - repeat constructor.
  - apply list_elem_of_fmap. exists (mkWatchType KValidatingAdmissionPolicy "" false).
    split; [reflexivity|]. apply list_elem_of_filter. split; [left; reflexivity|].
    apply list_elem_of_fmap. eexists (KValidatingAdmissionPolicy, _). split; [reflexivity|].
    apply elem_of_map_to_list. vm_compute. reflexivity.
  - reflexivity.
Defined.
End DeleteProtectionWitness.
End VmDeleteProtection.
