(* ===== verification/MetricsOperand.v ===== *)
(** * The metrics operand (internal/operands/metrics)

    The objects through which Prometheus scrapes the operator and the template
    validator. The alerts and recording rules themselves are text that a
    vendored registry puts into a PrometheusRule. *)

From S2P Require Import Prelude GoRuntime KubeTypes SspTypes Architecture KubeClient Cluster Common Samples Resource ResourceProofs SspController Contracts StaticOperands Watches NetworkPolicies Controllers TemplateValidatorOperand.

Module MetricsOperand.
Import Labels ServiceController.

(** ** resources.go *)

Definition operandName : string := "metrics".
Definition operandComponent : AppComponent := AppComponentMonitoring.
Definition prometheusRulesCrd : string := "prometheusrules.monitoring.coreos.com".
Definition MonitorNamespace : string := "openshift-monitoring".
Definition PrometheusClusterRoleName : string := "prometheus-k8s-ssp".
Definition PrometheusServiceAccountName : string := "prometheus-k8s".

Definition newMonitoringClusterRole : Object :=
  mkObject (mkTypeMeta "" "") (newMeta PrometheusClusterRoleName "")
    (ClusterRole [mkRule [""] ["services"; "endpoints"; "pods"] ["get"; "list"; "watch"]]).

Definition newMonitoringClusterRoleBinding : Object :=
  mkObject (mkTypeMeta "" "") (newMeta PrometheusClusterRoleName "")
    (ClusterRoleBinding (mkRoleRef "rbac.authorization.k8s.io" "ClusterRole" PrometheusClusterRoleName)
       [mkSubject "ServiceAccount" "" PrometheusServiceAccountName MonitorNamespace]).

Definition ServiceMonitorLabels : smap :=
  {[ "openshift.io/cluster-monitoring" := "true"; PrometheusLabelKey := PrometheusLabelValue;
     "k8s-app" := "kubevirt" ]}.

Definition serviceCABundle : SecretOrConfigMap := CAConfigMap "openshift-service-ca.crt" "service-ca.crt".
Definition olmManagedCABundle : SecretOrConfigMap := CASecret "ssp-operator-service-cert" "olmCAKey".

Definition getCAConfigForServiceMonitor (olmDeployment : bool) : SecretOrConfigMap :=
  if olmDeployment then olmManagedCABundle else serviceCABundle.

Definition newServiceMonitor (name namespace : string) (ca : SecretOrConfigMap) (serverName : string)
    (selector : LabelSelector) : Object :=
  mkObject (mkTypeMeta "" "") (with_labels (newMeta name namespace) (Some ServiceMonitorLabels))
    (ServiceMonitor {|
       smon_NamespaceAny := true;
       smon_Selector := selector;
       smon_Port := MetricsPortName;
       smon_Scheme := Some "https";
       smon_HonorLabels := true;
       smon_CA := ca;
       smon_ServerName := Some serverName;
       smon_other := ∅ |}).

Definition ns (req : Request) : string := key_Namespace (NamespacedName req).

Definition newValidatorServiceMonitor (req : Request) : Object :=
  let name := TemplateValidatorOperand.TemplateValidatorMetricsServiceName in
  newServiceMonitor name (ns req) serviceCABundle
    (TemplateValidatorOperand.VirtTemplateValidator +:+ "." +:+ ns req +:+ ".svc")
    (mkSelector {[ MetricsServiceKey := name ]} []).

Definition newSspServiceMonitor (req : Request) : Object :=
  newServiceMonitor SspOperatorMetricsServiceName (ns req)
    (getCAConfigForServiceMonitor (OLMDeployment req)) (SSPServiceHostname req)
    (mkSelector {[ MetricsServiceKey := SspOperatorMetricsServiceName ]} []).

(** ** The rules (pkg/monitoring/rules/rules.go) *)

(** The registry of operator-observability-toolkit with the repository's rules:
    the spec of the PrometheusRule, or an error. *)
Class RuleRegistry := { registered_rules : outcome Opaque }.

Definition RuleName : string := "prometheus-k8s-rules-cnv".

Definition BuildPrometheusRule `{RuleRegistry} (namespace : string) : outcome Object :=
  spec ← registered_rules;
  Ok (mkObject (mkTypeMeta "PrometheusRule" "monitoring.coreos.com/v1")
        (with_labels (newMeta RuleName namespace)
           (Some {[ "prometheus" := "k8s"; "role" := "alert-rules"; "kubevirt.io" := "prometheus-rules";
                    PrometheusLabelKey := PrometheusLabelValue ]}))
        (PrometheusRule spec)).

(** ** reconcile.go *)

Section operand.
Context `{RuleRegistry}.

Definition namespaced (o : Object) : BuilderFunc := fun req =>
  Ok (WithAppLabels (NamespacedResource req o) operandName operandComponent).
Definition clustered (o : Object) : BuilderFunc := fun req =>
  Ok (WithAppLabels (ClusterResource req o) operandName operandComponent).

Definition reconcileValidatorMetricsMonitor : BuilderFunc := fun req =>
  namespaced (newValidatorServiceMonitor req) req.
Definition reconcileSspMetricsMonitor : BuilderFunc := fun req =>
  namespaced (newSspServiceMonitor req) req.
Definition reconcilePrometheusRule : BuilderFunc := fun req =>
  prometheusRule ← BuildPrometheusRule (ns req);
  namespaced prometheusRule req.
Definition reconcileMonitoringRbacRole : BuilderFunc := clustered newMonitoringClusterRole.
Definition reconcileMonitoringRbacRoleBinding : BuilderFunc := clustered newMonitoringClusterRoleBinding.

Definition funcs (req : Request) : list BuilderFunc :=
  [reconcileValidatorMetricsMonitor; reconcileSspMetricsMonitor; reconcilePrometheusRule;
   reconcileMonitoringRbacRole; reconcileMonitoringRbacRoleBinding].
Definition cleaned (req : Request) : list Object :=
  [newMonitoringClusterRole; newMonitoringClusterRoleBinding].

Definition watchTypes : list WatchType :=
  [ mkWatchType KPrometheusRule "" false; mkWatchType KServiceMonitor "" false ].
Definition watchClusterTypes : list WatchType :=
  [ mkWatchType KClusterRole prometheusRulesCrd false;
    mkWatchType KClusterRoleBinding prometheusRulesCrd false ].

Context `{Client W}.

Definition Reconcile (req : Request) : Op W (list ReconcileResult) :=
  CollectResourceStatus req (run_builder <$> funcs req).
Definition Cleanup (req : Request) : Op W (list CleanupResult) := DeleteAll req (cleaned req).
Definition operand : Operand W := mkOperand operandName watchTypes watchClusterTypes Reconcile Cleanup.
End operand.

(** ** Correctness *)

#[export] Instance static `{RuleRegistry} : StaticOperand funcs cleaned.
Proof.
  intros req. repeat apply Forall_cons_2; [..|apply Forall_nil_2].
  - intros r [= <-]. by split; [|apply defaultUpdateFunc_keeps_meta|..].
  - intros r [= <-]. by split; [|apply defaultUpdateFunc_keeps_meta|..].
  - intros r (o & (spec & _ & [= <-])%outcome_bind_Ok & [= <-])%outcome_bind_Ok.
    by split; [|apply defaultUpdateFunc_keeps_meta|..].
  - intros r [= <-]. split; [done|apply defaultUpdateFunc_keeps_meta|done|]. by left.
  - intros r [= <-]. split; [done|apply defaultUpdateFunc_keeps_meta|done|]. right. by left.
Qed.

Lemma metrics_contract `{RuleRegistry} `{Client W} : OperandContract (operand (W := W)).
Proof. exact (static_contract funcs cleaned operandName watchTypes watchClusterTypes). Qed.

(** A service monitor scrapes a service: its selector matches the labels of the
    service and its port is one of the service's, by name. *)
Definition scrapes (monitor service : Object) : bool :=
  match o_body monitor, o_body service with
  | ServiceMonitor m, Service s =>
      NetworkPolicies.selects (smon_Selector m) (default ∅ (KubeTypes.Labels (o_meta service))) &&
      existsb (fun p => bool_decide (sp_Name p = smon_Port m)) (svc_Ports s)
  | _, _ => false
  end.

(** each of the two service monitors scrapes its own metrics service and not
    the other one, for every request and every version of the operator; the
    services are those that the template validator operand and the service
    controller create. *)
Theorem monitors_find_services `{Process} req deploymentNs partOf :
  let validator := TemplateValidatorOperand.newPrometheusService (ns req) in
  let operator := ServiceObject deploymentNs partOf in
  scrapes (newValidatorServiceMonitor req) validator = true /\
  scrapes (newSspServiceMonitor req) operator = true /\
  scrapes (newValidatorServiceMonitor req) operator = false /\
  scrapes (newSspServiceMonitor req) validator = false.
Proof.
  assert (Hl : default ∅ (KubeTypes.Labels (o_meta (ServiceObject deploymentNs partOf))) !! MetricsServiceKey
    = Some SspOperatorMetricsServiceName) by (unfold ServiceObject; by case_bool_decide).
  assert (Hs : forall k, NetworkPolicies.selects (mkSelector {[ MetricsServiceKey := k ]} [])
     (default ∅ (KubeTypes.Labels (o_meta (ServiceObject deploymentNs partOf))))
     = bool_decide (k = SspOperatorMetricsServiceName)).
  { intros k. unfold NetworkPolicies.selects. cbn [MatchLabels MatchExpressions forallb].
    rewrite andb_true_r. apply bool_decide_ext. rewrite map_singleton_subseteq_l, Hl. naive_solver. }
  split_and!; [reflexivity|..|reflexivity]; unfold scrapes; cbn [o_body newSspServiceMonitor
    newValidatorServiceMonitor newServiceMonitor ServiceObject smon_Selector]; by rewrite Hs.
Qed.

(** the declarations of the operand attach the CRD of Prometheus rules to the
    cluster roles, not to the rules: rules and service monitors are watched
    although the CRD does not exist, and the controller still refuses to work
    without it. *)
Theorem rules_watched_without_crd `{RuleRegistry} `{MapRange} `{Client W} crds k :
  k = KPrometheusRule \/ k = KServiceMonitor ->
  (exists w, w ∈ Watches.watchNamespacedResources crds [operand (W := W)] /\ Watches.watch_Object w = k) /\
  prometheusRulesCrd ∈ SspController.getRequiredCrds (operand (W := W)).
Proof.
  intros Hk. split.
  - exists (Watches.watchOf Handlers.EnqueueRequestForOwner (mkWatchType k "" false)). split; [|done].
    apply (proj2 (WatchesProofs.watchResources_spec crds _ _ WatchTypes)).
    exists (mkWatchType k "" false). by destruct Hk as [->| ->]; (split; [reflexivity|]); (split; [left|]).
  - apply (bool_decide_unpack (prometheusRulesCrd ∈ _)). vm_compute. exact I.
Qed.

Module MetricsWitness.
Definition no_rules : RuleRegistry := {| registered_rules := Ok ∅ |}.
Lemma rules_watched_without_crd_witness :
  prometheusRulesCrd ∈ SspController.getRequiredCrds (operand (H := no_rules) (W := MemCluster)).
Proof.
  apply (rules_watched_without_crd (H := no_rules) (H0 := sorted_range) (mkCrdList [] [prometheusRulesCrd])
           KPrometheusRule). left. reflexivity.
Defined.
End MetricsWitness.
End MetricsOperand.
