(* ===== verification/VmConsoleProxy.v ===== *)
(** * The VM console proxy operand (internal/operands/vm-console-proxy) and its
      bundle (internal/vm-console-proxy-bundle)

    An optional service that hands out tokens for VM consoles. Its objects come
    from a YAML file of the image. They are deployed while the feature is enabled
    in the SSP spec and removed when it is not. *)

From S2P Require Import Prelude GoRuntime KubeTypes SspTypes Architecture KubeClient Cluster Common Samples Resource ResourceProofs SspController Contracts NetworkPolicies Tls StaticOperands TemplateValidatorOperand.

Module VmConsoleProxy.
Import Labels.

(** ** The bundle *)

Record Bundle := mkBundle {
  b_ServiceAccount : option Object;
  b_ClusterRoles : list Object;
  b_ClusterRoleBinding : option Object;
  b_RoleBinding : option Object;
  b_Service : option Object;
  b_Deployment : option Object;
  b_ConfigMap : option Object;
  b_ApiService : option Object
}.

Definition emptyBundle : Bundle := mkBundle None [] None None None None None None.

(** The kinds of which a bundle has one object. *)
Inductive Slot :=
| SlotServiceAccount | SlotClusterRoleBinding | SlotRoleBinding | SlotService | SlotDeployment
| SlotConfigMap | SlotApiService.

#[export] Instance Slot_eq_dec : EqDecision Slot.
Proof. solve_decision. Defined.

Definition slot_of (kind : string) : option Slot :=
  if bool_decide (kind = "ServiceAccount") then Some SlotServiceAccount
  else if bool_decide (kind = "ClusterRoleBinding") then Some SlotClusterRoleBinding
  else if bool_decide (kind = "RoleBinding") then Some SlotRoleBinding
  else if bool_decide (kind = "Service") then Some SlotService
  else if bool_decide (kind = "Deployment") then Some SlotDeployment
  else if bool_decide (kind = "ConfigMap") then Some SlotConfigMap
  else if bool_decide (kind = "APIService") then Some SlotApiService
  else None.

Definition slot_get (b : Bundle) (s : Slot) : option Object :=
  match s with
  | SlotServiceAccount => b_ServiceAccount b
  | SlotClusterRoleBinding => b_ClusterRoleBinding b
  | SlotRoleBinding => b_RoleBinding b
  | SlotService => b_Service b
  | SlotDeployment => b_Deployment b
  | SlotConfigMap => b_ConfigMap b
  | SlotApiService => b_ApiService b
  end.

Definition slot_set (b : Bundle) (s : Slot) (o : Object) : Bundle :=
  let new t old := match s, t with
    | SlotServiceAccount, SlotServiceAccount | SlotClusterRoleBinding, SlotClusterRoleBinding
    | SlotRoleBinding, SlotRoleBinding | SlotService, SlotService | SlotDeployment, SlotDeployment
    | SlotConfigMap, SlotConfigMap | SlotApiService, SlotApiService => Some o
    | _, _ => old
    end in
  mkBundle (new SlotServiceAccount (b_ServiceAccount b)) (b_ClusterRoles b)
    (new SlotClusterRoleBinding (b_ClusterRoleBinding b)) (new SlotRoleBinding (b_RoleBinding b))
    (new SlotService (b_Service b)) (new SlotDeployment (b_Deployment b))
    (new SlotConfigMap (b_ConfigMap b)) (new SlotApiService (b_ApiService b)).

Definition add_role (b : Bundle) (o : Object) : Bundle :=
  mkBundle (b_ServiceAccount b) (b_ClusterRoles b ++ [o]) (b_ClusterRoleBinding b) (b_RoleBinding b)
    (b_Service b) (b_Deployment b) (b_ConfigMap b) (b_ApiService b).

(** A document of the file: its kind, and its conversion to the typed object. *)
Record Document := mkDocument { doc_Kind : string; doc_Object : outcome Object }.

Definition loadDocument (b : Bundle) (d : Document) : outcome Bundle :=
  if bool_decide (doc_Kind d = "ClusterRole") then o ← doc_Object d; Ok (add_role b o)
  else
    match slot_of (doc_Kind d) with
    | None =>
        if bool_decide (doc_Kind d = "") then Err (EMsg "empty Kind found in vm-console-proxy bundle")
        else Err (EMsg ("unsupported Kind found in vm-console-proxy bundle: " +:+ doc_Kind d))
    | Some s =>
        match slot_get b s with
        | Some _ => Err (EMsg ("duplicate Kind found in vm-console-proxy bundle: " +:+ doc_Kind d))
        | None => o ← doc_Object d; Ok (slot_set b s o)
        end
    end.

(** [loadBundleFromBytes], given the documents that the decoder finds. *)
Fixpoint loadBundle (b : Bundle) (docs : list Document) : outcome Bundle :=
  match docs with
  | [] => Ok b
  | d :: docs' => b' ← loadDocument b d; loadBundle b' docs'
  end.

Definition missingFields (b : Bundle) : list string :=
  let missing (o : option Object) name := match o with None => [name] | Some _ => [] end in
  missing (b_ServiceAccount b) "ServiceAccount" ++
  match b_ClusterRoles b with [] => ["ClusterRole"] | _ => [] end ++
  missing (b_ClusterRoleBinding b) "ClusterRoleBinding" ++ missing (b_RoleBinding b) "RoleBinding" ++
  missing (b_Service b) "Service" ++ missing (b_Deployment b) "Deployment" ++
  missing (b_ConfigMap b) "ConfigMap" ++ missing (b_ApiService b) "ApiService".

Definition validateBundle (b : Bundle) : outcome unit :=
  match missingFields b with
  | [] => Ok tt
  | fields => Err (EMsg ("bundle is missing these objects: [" +:+ Join fields " " +:+ "]"))
  end.

Definition ReadBundle (docs : list Document) : outcome Bundle :=
  b ← loadBundle emptyBundle docs; _ ← validateBundle b; Ok b.

(** ** The operand *)

Definition operandName : string := "vm-console-proxy".
Definition operandComponent : AppComponent := AppComponentOf "vm-console-proxy".
Definition routeName : string := "vm-console-proxy".
Definition defaultVmConsoleProxyImage : string := "quay.io/kubevirt/vm-console-proxy:v0.9.0".
Definition tlsConfigFilename : string := "tls-profile-v1.yaml".

(** The fields are set once the bundle was validated. *)
Record vmConsoleProxy := mkVmConsoleProxy {
  serviceAccount : Object;
  clusterRoles : list Object;
  clusterRoleBinding : Object;
  roleBinding : Object;
  service : Object;
  deployment : Object;
  configMap : Object;
  apiService : Object
}.

(** [New]; a nil field would panic when it is first used. *)
Definition New (b : Bundle) : option vmConsoleProxy :=
  sa ← b_ServiceAccount b; crb ← b_ClusterRoleBinding b; rb ← b_RoleBinding b; svc ← b_Service b;
  dep ← b_Deployment b; cm ← b_ConfigMap b; api ← b_ApiService b;
  Some (mkVmConsoleProxy sa (b_ClusterRoles b) crb rb svc dep cm api).

(** *** TLS *)

(** [proxyv1.TlsProfile] and its YAML. *)
Record TlsProfile := mkTlsProfile { proxy_MinTLSVersion : string; proxy_Ciphers : list string }.
Class ProxyYaml := { yaml_Marshal : TlsProfile -> outcome string }.

Section operand.
Context `{Process} `{R : Tls.TlsRuntime Tls.SSPTLSOptions} `{ProxyYaml}.

Definition profileSpecOf (tlsProfile : TLSSecurityProfile) : outcome TLSProfileSpec :=
  if bool_decide (tls_Type tlsProfile = "Custom") then
    match tls_Custom tlsProfile with
    | None => Err (EMsg "tlsProfile is invalid: custom filed is empty")
    | Some spec => Ok spec
    end
  else
    match Tls.TLSProfiles !! tls_Type tlsProfile with
    | None => Err (EMsg ("tlsProfile type is invalid: " +:+ tls_Type tlsProfile))
    | Some spec => Ok spec
    end.

Definition proxyProfile (profileSpec : TLSProfileSpec) : outcome TlsProfile :=
  let v := tls_MinTLSVersion profileSpec in
  if bool_decide (v ∈ ["VersionTLS10"; "VersionTLS11"; "VersionTLS12"; "VersionTLS13"]) then
    Ok (mkTlsProfile v (filter (fun cipher => cipher ∈ Tls.tls_CipherSuites.*1)
                          (Tls.OpenSSLToIANACipherSuites (tls_Ciphers profileSpec))))
  else Err (EMsg ("unsupported TLS version: " +:+ v)).

Definition createTlsConfigFile (tlsProfile : option TLSSecurityProfile) : outcome string :=
  match tlsProfile with
  | None => Ok "{}"
  | Some tlsProfile =>
      profileSpec ← profileSpecOf tlsProfile;
      result ← proxyProfile profileSpec;
      wrap_err "failed to marshal TLS profile confing to yaml: " (yaml_Marshal result)
  end.

(** *** The objects *)

Definition ins (req : Request) : string := Namespace (ssp_meta (Instance req)).
Definition in_namespace (o : Object) (ns : string) : Object := with_meta o (with_namespace (o_meta o) ns).

Definition labelled (r : reconcileBuilder) : reconcileBuilder := WithAppLabels r operandName operandComponent.

Definition index_panic {A} : outcome A := Panic "index out of range [0] with length 0".
Definition nil_panic {A} : outcome A := Panic "invalid memory address or nil pointer dereference".

Definition subject_in (ns : string) (subjects : list Subject) : outcome (list Subject) :=
  match subjects with
  | [] => index_panic
  | s :: ss => Ok (mkSubject (sub_Kind s) (sub_APIGroup s) (sub_Name s) ns :: ss)
  end.

Definition reconcileServiceAccount (serviceAccount : Object) : BuilderFunc := fun req =>
  Ok (labelled (NamespacedResource req (in_namespace serviceAccount (ins req)))).

Definition reconcileClusterRole (clusterRole : Object) : BuilderFunc := fun req =>
  Ok (labelled (ClusterResource req clusterRole)).

(** In the two functions below and in those for the deployment, the ConfigMap
    and the API service, the last branch does not occur for the typed fields of
    the operand. *)
Definition reconcileClusterRoleBinding (crb : Object) : BuilderFunc := fun req =>
  match o_body crb with
  | ClusterRoleBinding ref subjects =>
      subjects ← subject_in (ins req) subjects;
      Ok (labelled (ClusterResource req (with_body crb (ClusterRoleBinding ref subjects))))
  | _ => nil_panic
  end.

Definition reconcileRoleBinding (rb : Object) : BuilderFunc := fun req =>
  match o_body rb with
  | RoleBinding ref subjects =>
      subjects ← subject_in (ins req) subjects;
      Ok (labelled (ClusterResource req (with_body rb (RoleBinding ref subjects))))
  | _ => nil_panic
  end.

Definition reconcileConfigMap (cm : Object) : BuilderFunc := fun req =>
  tlsConfigYaml ← createTlsConfigFile (spec_TLSSecurityProfile (ssp_spec (Instance req)));
  match o_body cm with
  | ConfigMap immutable (Some data) binaryData =>
      Ok (labelled (NamespacedResource req
        (with_body (in_namespace cm (ins req))
           (ConfigMap immutable (Some (<[tlsConfigFilename := tlsConfigYaml]> data)) binaryData))))
  | ConfigMap _ None _ => Panic "assignment to entry in nil map"
  | _ => nil_panic
  end.

Definition reconcileService (service : Object) : BuilderFunc := fun req =>
  Ok (labelled (NamespacedResource req (in_namespace service (ins req)))).

Definition getVmConsoleProxyImage : string :=
  Env.EnvOrDefault Env.VmConsoleProxyImageKey defaultVmConsoleProxyImage.

(** [metav1.SetMetaDataAnnotation] *)
Definition SetMetaDataAnnotation (m : ObjectMeta) (ann value : string) : ObjectMeta :=
  with_annotations m (Some (<[ann := value]> (default ∅ (Annotations m)))).

Definition with_image (c : Container) (image : string) : Container := {|
  c_Name := c_Name c; c_Image := image; c_ImagePullPolicy := c_ImagePullPolicy c;
  c_TerminationMessagePolicy := "FallbackToLogsOnError";
  c_Requests := c_Requests c; c_Args := c_Args c; c_VolumeMounts := c_VolumeMounts c;
  c_SecurityContext := c_SecurityContext c; c_Ports := c_Ports c;
  c_LivenessProbe := c_LivenessProbe c; c_ReadinessProbe := c_ReadinessProbe c;
  c_other := c_other c |}.

Definition with_containers (p : PodSpec) (cs : list Container) : PodSpec := {|
  ps_SecurityContext := ps_SecurityContext p; ps_ServiceAccountName := ps_ServiceAccountName p;
  ps_PriorityClassName := ps_PriorityClassName p; ps_Containers := cs; ps_Volumes := ps_Volumes p;
  ps_Affinity := ps_Affinity p; ps_NodeSelector := ps_NodeSelector p;
  ps_Tolerations := ps_Tolerations p; ps_other := ps_other p |}.

Definition deploymentPod (instance : SSP) (t : PodTemplateSpec) : outcome PodTemplateSpec :=
  match ps_Containers (pt_spec t) with
  | [] => index_panic
  | c :: cs =>
      Ok (mkPodTemplate
        (AddAppLabels instance operandName operandComponent
           (SetMetaDataAnnotation (pt_meta t) TemplateValidatorOperand.RequiredSCCAnnotation
              RequiredSCCAnnotationValue))
        (with_containers (pt_spec t) (with_image c getVmConsoleProxyImage :: cs)))
  end.

Definition reconcileDeployment (deployment : Object) : BuilderFunc := fun req =>
  match o_body deployment with
  | Deployment spec status =>
      template ← deploymentPod (Instance req) (dep_Template spec);
      let meta := SetMetaDataAnnotation (with_namespace (o_meta deployment) (ins req))
                    TemplateValidatorOperand.RequiredSCCAnnotation RequiredSCCAnnotationValue in
      Ok (labelled (NamespacedResource req
        (mkObject (o_type deployment) meta
           (Deployment (mkDeploymentSpec (dep_Replicas spec) (dep_Selector spec) template
                          (dep_other spec)) status))))
  | _ => nil_panic
  end.

(** The expected object is changed too, through its pointer. *)
Definition updateApiService : ResourceUpdateFunc := fun expected found =>
  match o_body expected, o_body found with
  | APIService e, APIService f =>
      let spec := mkAPIServiceSpec (api_Service e) (api_CABundle f) (api_other e) in
      Ok (with_body expected (APIService spec), with_body found (APIService spec))
  | _, _ => Panic "interface conversion"
  end.

Definition reconcileApiService (apiService : Object) : BuilderFunc := fun req =>
  match o_body apiService with
  | APIService spec =>
      match api_Service spec with
      | None => nil_panic
      | Some (_, name) =>
          Ok (UpdateFunc (labelled (ClusterResource req
                (with_body apiService
                   (APIService (mkAPIServiceSpec (Some (ins req, name)) (api_CABundle spec)
                                  (api_other spec)))))) updateApiService)
      end
  | _ => nil_panic
  end.

Definition newNetworkPolicies (namespace : string) : list Object :=
  [ NetworkPolicies.NewEgressToKubeAPIAndDNS NetworkPolicies.NewOpenShiftGenerator namespace
      NetworkPolicies.LabelVMConsoleProxyKubevirtIo ["vm-console-proxy"];
    NetworkPolicies.NewIngressToVMConsoleProxyAPI namespace ].

Definition reconcileNetworkPolicies (req : Request) : list BuilderFunc :=
  (fun policy req => Ok (labelled (NamespacedResource req policy))) <$>
    newNetworkPolicies (key_Namespace (NamespacedName req)).

Definition reconcileFuncs (v : vmConsoleProxy) (req : Request) : list BuilderFunc :=
  [reconcileServiceAccount (serviceAccount v)] ++
  (reconcileClusterRole <$> clusterRoles v) ++
  [reconcileClusterRoleBinding (clusterRoleBinding v); reconcileRoleBinding (roleBinding v);
   reconcileConfigMap (configMap v); reconcileService (service v);
   reconcileDeployment (deployment v); reconcileApiService (apiService v)] ++
  reconcileNetworkPolicies req.

(** *** Deleting *)

Definition oldApiService : Object :=
  mkObject (mkTypeMeta "" "") (newMeta "v1alpha1.token.kubevirt.io" "")
    (APIService (mkAPIServiceSpec None "" ∅)).

(** The selector of [client.MatchingLabels], sorted by key. *)
Definition operandLabels : ListOptions :=
  mkListOptions ""
    [ mkReq AppKubernetesComponentLabel "=" [component_string operandComponent];
      mkReq AppKubernetesManagedByLabel "=" [AppKubernetesManagedByValue];
      mkReq AppKubernetesNameLabel "=" [operandName] ].

Section client.
Context `{Client W}.

Definition findResourcesUsingLabels (name : string) (k : Kind) : Op W (list Object) :=
  items ← wrapping "error listing objects: " (List k operandLabels);
  mret (filter (fun item => Name (o_meta item) = name) items).

Definition deleteRoute (req : Request) : Op W (list CleanupResult) :=
  routes ← findResourcesUsingLabels routeName KRoute;
  DeleteAll req routes.

Definition deleteOldApiService (req : Request) : Op W CleanupResult :=
  Resource.Cleanup req oldApiService.

Definition Cleanup (v : vmConsoleProxy) (req : Request) : Op W (list CleanupResult) :=
  routeCleanupResults ← deleteRoute req;
  oldApiServiceCleanup ← deleteOldApiService req;
  serviceAccounts ← findResourcesUsingLabels (Name (o_meta (serviceAccount v))) KServiceAccount;
  configMaps ← findResourcesUsingLabels (Name (o_meta (configMap v))) KConfigMap;
  services ← findResourcesUsingLabels (Name (o_meta (service v))) KService;
  deployments ← findResourcesUsingLabels (Name (o_meta (deployment v))) KDeployment;
  cleanupResults ← DeleteAll req
    (serviceAccounts ++ configMaps ++ services ++ deployments ++ clusterRoles v ++
     [clusterRoleBinding v; roleBinding v; apiService v]);
  mret (routeCleanupResults ++ [oldApiServiceCleanup] ++ cleanupResults).

Definition pendingResults (cleanupResults : list CleanupResult) : list ReconcileResult :=
  (fun c => ResourceDeletedResult (cu_Resource c) OperationResultDeleted) <$>
    filter (fun c => Deleted c = false) cleanupResults.

Definition serviceEnabled (req : Request) : bool :=
  match spec_TokenGenerationService (ssp_spec (Instance req)) with
  | None => false
  | Some tgs => tgs_Enabled tgs
  end.

Definition Reconcile (v : vmConsoleProxy) (req : Request) : Op W (list ReconcileResult) :=
  if negb (serviceEnabled req) then
    cleanupResults ← Cleanup v req;
    mret (pendingResults cleanupResults)
  else
    reconcileResults ← CollectResourceStatus req (run_builder <$> reconcileFuncs v req);
    oldApiServiceCleanup ← deleteOldApiService req;
    routeCleanupResults ← deleteRoute req;
    mret (reconcileResults ++ pendingResults (oldApiServiceCleanup :: routeCleanupResults)).

Definition watchTypes : list WatchType :=
  [ mkWatchType KServiceAccount "" false; mkWatchType KService "" false;
    mkWatchType KDeployment "" true; mkWatchType KConfigMap "" false;
    mkWatchType KRoute "" false; mkWatchType KNetworkPolicy "" false ].
Definition watchClusterTypes : list WatchType :=
  [ mkWatchType KClusterRole "" false; mkWatchType KClusterRoleBinding "" false;
    mkWatchType KAPIService "" false ].

Definition operand (v : vmConsoleProxy) : Operand W :=
  mkOperand operandName watchTypes watchClusterTypes (Reconcile v) (Cleanup v).
End client.
End operand.
End VmConsoleProxy.
