(* ===== verification/VmConsoleProxyProofs.v ===== *)
(** * The VM console proxy operand is correct

    Which files are accepted as a bundle and what they become; what a round of
    the operand writes and deletes with the service enabled and disabled; that
    the TLS settings of the proxy are those of the operator. *)

From S2P Require Import Prelude GoRuntime KubeTypes SspTypes Architecture KubeClient Cluster Common Samples Resource ResourceProofs CleanupProofs SspController Contracts NetworkPolicies Tls StaticOperands VmConsoleProxy.

Module VmConsoleProxyProofs.
Import VmConsoleProxy.

(** ** The bundle *)

Definition is_role (d : Document) : Prop := doc_Kind d = "ClusterRole".
Definition fills (s : Slot) (d : Document) : Prop := slot_of (doc_Kind d) = Some s.
#[export] Instance is_role_dec d : Decision (is_role d) := _.
#[export] Instance fills_dec s d : Decision (fills s d) := decide (slot_of (doc_Kind d) = Some s).

Definition converts (d : Document) (o : Object) : Prop := doc_Object d = Ok o.

(** A bundle is what a file describes: every document has a known kind, each of
    the single kinds occurs once, there is a cluster role, and the roles keep
    their order. *)
Definition describes (docs : list Document) (b : Bundle) : Prop :=
  Forall (fun d => is_role d \/ exists s, fills s d) docs /\
  (forall s, exists d o, filter (fills s) docs = [d] /\ converts d o /\ slot_get b s = Some o) /\
  Forall2 converts (filter is_role docs) (b_ClusterRoles b) /\ b_ClusterRoles b <> [].

(** What loading a list of documents into a bundle does. *)
Definition loaded (b0 : Bundle) (docs : list Document) (b : Bundle) : Prop :=
  Forall (fun d => is_role d \/ exists s, fills s d) docs /\
  (forall s, match filter (fills s) docs with
             | [] => slot_get b s = slot_get b0 s
             | [d] => slot_get b0 s = None /\ exists o, converts d o /\ slot_get b s = Some o
             | _ => False
             end) /\
  exists roles, b_ClusterRoles b = b_ClusterRoles b0 ++ roles /\
    Forall2 converts (filter is_role docs) roles.

Lemma slot_get_set b s t o :
  slot_get (slot_set b s o) t = if decide (s = t) then Some o else slot_get b t.
Proof. by destruct s, t. Qed.

Lemma bundle_ext b b' :
  (forall s, slot_get b s = slot_get b' s) -> b_ClusterRoles b = b_ClusterRoles b' -> b = b'.
Proof.
  intros Hs Hr. destruct b, b'; cbn in *; subst.
  pose proof (Hs SlotServiceAccount). pose proof (Hs SlotClusterRoleBinding).
  pose proof (Hs SlotRoleBinding). pose proof (Hs SlotService). pose proof (Hs SlotDeployment).
  pose proof (Hs SlotConfigMap). pose proof (Hs SlotApiService). cbn in *. by subst.
Qed.

Lemma loadDocument_role b d : is_role d ->
  forall b', loadDocument b d = Ok b' <-> exists o, converts d o /\ b' = add_role b o.
Proof.
  unfold is_role, loadDocument, converts. intros -> b'. rewrite bool_decide_true by done.
  destruct (doc_Object d); cbn; naive_solver.
Qed.

Lemma loadDocument_slot b d s : fills s d ->
  forall b', loadDocument b d = Ok b' <->
    slot_get b s = None /\ exists o, converts d o /\ b' = slot_set b s o.
Proof.
  unfold fills, loadDocument, converts. intros Hs b'. rewrite bool_decide_false, Hs.
  - destruct (slot_get b s), (doc_Object d); cbn; naive_solver.
  - intros E. by rewrite E in Hs.
Qed.

Lemma loadDocument_known b d b' :
  loadDocument b d = Ok b' -> is_role d \/ exists s, fills s d.
Proof.
  unfold loadDocument, is_role, fills. case_bool_decide as Hr; [by left|].
  destruct (slot_of (doc_Kind d)) as [s|]; [eauto|]. by case_bool_decide.
Qed.

Lemma role_fills_nothing d s : is_role d -> ~ fills s d.
Proof. unfold is_role, fills. by intros ->. Qed.

Lemma fills_inj s t d : fills s d -> fills t d -> s = t.
Proof. unfold fills. congruence. Qed.

Lemma loaded_role b0 d docs b : is_role d ->
  loaded b0 (d :: docs) b <-> exists o, converts d o /\ loaded (add_role b0 o) docs b.
Proof.
  intros Hd. unfold loaded. rewrite Forall_cons, filter_cons_True by done.
  assert (Hf : forall s, filter (fills s) (d :: docs) = filter (fills s) docs)
    by (intros s; apply filter_cons_False, role_fills_nothing, Hd).
  split.
  - intros ((_ & Hk) & Hs & roles & Hr & HF). apply Forall2_cons_inv_l in HF as (o & roles' & Ho & HF & ->).
    exists o. split_and!; [done..| |].
    + intros s. specialize (Hs s). by rewrite Hf in Hs.
    + exists roles'. cbn. by rewrite Hr, <- app_assoc.
  - intros (o & Ho & Hk & Hs & roles & Hr & HF). split_and!; [by left|done| |].
    + intros s. rewrite Hf. exact (Hs s).
    + exists (o :: roles). cbn in Hr. rewrite Hr, <- app_assoc. split; [done|by constructor].
Qed.

Lemma loaded_slot b0 d docs b s : fills s d ->
  loaded b0 (d :: docs) b <->
  slot_get b0 s = None /\ exists o, converts d o /\ loaded (slot_set b0 s o) docs b.
Proof.
  intros Hd. assert (Hnr : ~ is_role d) by (intros Hr; by eapply role_fills_nothing).
  unfold loaded. rewrite Forall_cons, filter_cons_False by done.
  assert (Hf : filter (fills s) (d :: docs) = d :: filter (fills s) docs) by by apply filter_cons_True.
  assert (Hg : forall t, t <> s -> filter (fills t) (d :: docs) = filter (fills t) docs).
  { intros t Ht. apply filter_cons_False. intros Hd'. by apply Ht, (fills_inj t s d). }
  split.
  - intros ((_ & Hk) & Hs & HR). pose proof (Hs s) as Hss. rewrite Hf in Hss.
    destruct (filter (fills s) docs) as [|] eqn:Ef; [|done]. destruct Hss as [Hn (o & Ho & Hb)].
    split; [done|]. exists o. split_and!; [done..| |done]. intros t. rewrite slot_get_set.
    destruct (decide (s = t)) as [<-|Hst]; [by rewrite Ef|]. specialize (Hs t).
    by rewrite Hg in Hs.
  - intros (Hn & o & Ho & Hk & Hs & HR). split_and!; [by right; exists s|done| |done].
    intros t. specialize (Hs t). rewrite slot_get_set in Hs.
    destruct (decide (s = t)) as [<-|Hst]; [|by rewrite Hg].
    rewrite Hf. destruct (filter (fills s) docs) as [|? [|]]; [eauto|by destruct Hs|done].
Qed.

Lemma loadBundle_loaded docs : forall b0 b, loadBundle b0 docs = Ok b <-> loaded b0 docs b.
Proof.
  induction docs as [|d docs IH]; intros b0 b.
  - cbn. split.
    + intros [= ->]. split_and!; [constructor|done|]. exists []. by rewrite app_nil_r.
    + intros (_ & Hs & roles & Hr & ->%Forall2_nil_inv_l). f_equal.
      rewrite app_nil_r in Hr. symmetry. by apply bundle_ext.
  - assert (Hstep : loadBundle b0 (d :: docs) = Ok b <->
      exists b1, loadDocument b0 d = Ok b1 /\ loaded b1 docs b).
    { cbn. rewrite outcome_bind_Ok. by setoid_rewrite IH. }
    rewrite Hstep. clear Hstep. split.
    + intros (b1 & Hl & Hb). destruct (loadDocument_known _ _ _ Hl) as [Hr|[s Hs]].
      * destruct (proj1 (loadDocument_role b0 d Hr b1) Hl) as (o & Ho & ->). apply loaded_role; eauto.
      * destruct (proj1 (loadDocument_slot b0 d s Hs b1) Hl) as (Hn & o & Ho & ->).
        apply (loaded_slot _ _ _ _ s Hs). eauto.
    + intros Hl. pose proof Hl as ([Hk _]%Forall_cons & _). destruct Hk as [Hr|[s Hs]].
      * apply loaded_role in Hl as (o & Ho & Hl); [|done]. exists (add_role b0 o).
        split; [|done]. apply loadDocument_role; eauto.
      * destruct (proj1 (loaded_slot b0 d docs b s Hs) Hl) as (Hn & o & Ho & Hl'). exists (slot_set b0 s o).
        split; [|done]. apply (loadDocument_slot _ _ s Hs). eauto.
Qed.

Lemma missingFields_nil b :
  missingFields b = [] <-> (forall s, is_Some (slot_get b s)) /\ b_ClusterRoles b <> [].
Proof.
  unfold missingFields. split.
  - destruct b as [[] [] [] [] [] [] [] []]; cbn; try done. intros _. split; [|done].
    by intros []; eexists.
  - intros [Hs Hr].
    assert (Hm : forall (s : Slot) (n : string), match slot_get b s with None => [n] | Some _ => [] end = [])
      by (intros s n; by destruct (Hs s) as [o ->]).
    pose proof (Hm SlotServiceAccount) as H1. pose proof (Hm SlotClusterRoleBinding) as H2.
    pose proof (Hm SlotRoleBinding) as H3. pose proof (Hm SlotService) as H4.
    pose proof (Hm SlotDeployment) as H5. pose proof (Hm SlotConfigMap) as H6.
    pose proof (Hm SlotApiService) as H7. cbn in *.
    rewrite H1, H2, H3, H4, H5, H6, H7. by destruct (b_ClusterRoles b).
Qed.

Lemma loaded_complete docs b :
  loaded emptyBundle docs b /\ (forall s, is_Some (slot_get b s)) /\ b_ClusterRoles b <> []
  <-> describes docs b.
Proof.
  unfold loaded, describes. split.
  - intros ((Hk & Hs & roles & Hr & HF) & Hsome & Hne). cbn in Hr. subst roles.
    split_and!; try done. intros s. specialize (Hs s). specialize (Hsome s).
    destruct (filter (fills s) docs) as [|d [|]]; [| |done].
    + rewrite Hs in Hsome. by destruct s, Hsome.
    + destruct Hs as [_ (o & Ho & Hb)]. eauto.
  - intros (Hk & Hs & HF & Hne). split_and!; try done.
    + intros s. destruct (Hs s) as (d & o & -> & Ho & Hb). split; [by destruct s|eauto].
    + by exists (b_ClusterRoles b).
    + intros s. destruct (Hs s) as (d & o & _ & _ & ->). by eexists.
Qed.

Lemma ReadBundle_describes docs b : ReadBundle docs = Ok b <-> describes docs b.
Proof.
  rewrite <- loaded_complete, <- missingFields_nil, <- loadBundle_loaded.
  unfold ReadBundle, validateBundle. rewrite outcome_bind_Ok. split.
  - intros (b' & Hl & Hb). destruct (missingFields b') eqn:E; [|done]. by injection Hb as <-.
  - intros [Hl Hm]. exists b. by rewrite Hm.
Qed.

(** the file of the VM console proxy is accepted exactly when every document
    has a known kind and converts, each of the kinds with one object occurs once
    and there is a cluster role; the bundle then holds those objects, the
    cluster roles in the order of the file. *)
Theorem ReadBundle_exact docs b : ReadBundle docs = Ok b <-> describes docs b.
Proof. apply ReadBundle_describes. Qed.

(** The operand of a bundle that was accepted has all of its fields. *)
Record typed (v : vmConsoleProxy) : Prop := {
  typed_ServiceAccount : o_kind (serviceAccount v) = KServiceAccount;
  typed_ClusterRoles : Forall (fun o => o_kind o = KClusterRole) (clusterRoles v);
  typed_ClusterRoleBinding : o_kind (clusterRoleBinding v) = KClusterRoleBinding;
  typed_RoleBinding : o_kind (roleBinding v) = KRoleBinding;
  typed_Service : o_kind (service v) = KService;
  typed_Deployment : o_kind (deployment v) = KDeployment;
  typed_ConfigMap : o_kind (configMap v) = KConfigMap;
  typed_ApiService : o_kind (apiService v) = KAPIService
}.

Definition slot_kind (s : Slot) : Kind :=
  match s with
  | SlotServiceAccount => KServiceAccount | SlotClusterRoleBinding => KClusterRoleBinding
  | SlotRoleBinding => KRoleBinding | SlotService => KService | SlotDeployment => KDeployment
  | SlotConfigMap => KConfigMap | SlotApiService => KAPIService
  end.

(** What the converter promises: it fills the Go type that it is given. *)
Definition well_converted (d : Document) : Prop :=
  forall o, converts d o ->
    (is_role d -> o_kind o = KClusterRole) /\ forall s, fills s d -> o_kind o = slot_kind s.

(** an operand that is made from an accepted file has every field, and each
    field holds an object of its Go type, so that using it never dereferences
    nil. *)
Theorem New_typed docs b :
  Forall well_converted docs -> ReadBundle docs = Ok b -> exists v, New b = Some v /\ typed v.
Proof.
  rewrite ReadBundle_describes. intros Hc (_ & Hs & HF & _). rewrite Forall_forall in Hc.
  assert (Hk : forall s, exists o, slot_get b s = Some o /\ o_kind o = slot_kind s).
  { intros s. destruct (Hs s) as (d & o & Hf & Ho & Hb). exists o. split; [done|].
    assert (d ∈ filter (fills s) docs) as [Hd Hin]%list_elem_of_filter by (rewrite Hf; left).
    by apply (Hc d Hin o Ho). }
  destruct (Hk SlotServiceAccount) as (sa & Hsa & ?), (Hk SlotClusterRoleBinding) as (crb & Hcrb & ?),
    (Hk SlotRoleBinding) as (rb & Hrb & ?), (Hk SlotService) as (svc & Hsvc & ?),
    (Hk SlotDeployment) as (dep & Hdep & ?), (Hk SlotConfigMap) as (cm & Hcm & ?),
    (Hk SlotApiService) as (api & Hapi & ?).
  cbn in *. unfold New. rewrite Hsa, Hcrb, Hrb, Hsvc, Hdep, Hcm, Hapi. cbn.
  eexists. split; [done|]. split; cbn; try done.
  eapply Forall2_Forall_r; [exact HF|]. apply Forall_forall.
  intros d [Hd Hin]%list_elem_of_filter o Ho. by apply (Hc d Hin o Ho).
Qed.

(** ** A round with the service enabled *)

Section operand.
Context `{Process} `{R : Tls.TlsRuntime Tls.SSPTLSOptions} `{ProxyYaml}.

(** The objects that [Cleanup] deletes by name rather than by label. *)
Definition cleaned (v : vmConsoleProxy) : list Object :=
  clusterRoles v ++ [clusterRoleBinding v; roleBinding v; apiService v].

Lemma updateApiService_keeps_meta : keeps_meta updateApiService.
Proof. intros e o e' o'. unfold updateApiService, o_kind. intros Hf. repeat case_match; by simplify_eq. Qed.

Lemma labelled_good req cl o :
  Namespace (o_meta o) = key_Namespace (NamespacedName req) ->
  good_builder req cl (labelled (NamespacedResource req o)).
Proof. intros Ho. split; [done|apply defaultUpdateFunc_keeps_meta|done|exact Ho]. Qed.

Lemma labelled_cluster_good req cl o :
  Exists (same_object o) cl -> good_builder req cl (labelled (ClusterResource req o)).
Proof. intros Ho. split; [done|apply defaultUpdateFunc_keeps_meta|done|exact Ho]. Qed.

Lemma in_cleaned v o o' :
  o' ∈ cleaned v -> same_object o o' -> Exists (same_object o) (cleaned v).
Proof. intros Hin Hs. apply Exists_exists. eauto. Qed.

Lemma reconcileFuncs_good v req :
  ins req = key_Namespace (NamespacedName req) ->
  Forall (fun f : BuilderFunc => forall r, f req = Ok r -> good_builder req (cleaned v) r)
    (reconcileFuncs v req).
Proof.
  intros Hns. unfold reconcileFuncs. repeat (apply Forall_app; split).
  - apply Forall_singleton. intros r [= <-]. by apply labelled_good.
  - apply Forall_fmap, Forall_forall. intros o Ho r [= <-]. apply labelled_cluster_good.
    apply (in_cleaned v o o); [|done]. apply elem_of_app. by left.
  - repeat apply Forall_cons_2; try apply Forall_nil_2.
    + unfold reconcileClusterRoleBinding. intros r Hr. case_match eqn:E; try done.
      apply outcome_bind_Ok in Hr as (ss & _ & [= <-]). apply labelled_cluster_good.
      apply (in_cleaned v _ (clusterRoleBinding v)); [unfold cleaned; set_solver|].
      split; [|done]. unfold o_kind. by rewrite E.
    + unfold reconcileRoleBinding. intros r Hr. case_match eqn:E; try done.
      apply outcome_bind_Ok in Hr as (ss & _ & [= <-]). apply labelled_cluster_good.
      apply (in_cleaned v _ (roleBinding v)); [unfold cleaned; set_solver|].
      split; [|done]. unfold o_kind. by rewrite E.
    + unfold reconcileConfigMap. intros r (yaml & _ & Hr)%outcome_bind_Ok.
      repeat case_match; simplify_eq. by apply labelled_good.
    + intros r [= <-]. by apply labelled_good.
    + unfold reconcileDeployment. intros r Hr. case_match; try done.
      apply outcome_bind_Ok in Hr as (t & _ & [= <-]). by apply labelled_good.
    + unfold reconcileApiService. intros r Hr. case_match eqn:E; try done.
      repeat case_match; simplify_eq. split; [done|apply updateApiService_keeps_meta|done|].
      apply (in_cleaned v _ (apiService v)); [unfold cleaned; set_solver|].
      split; [|done]. unfold o_kind. by rewrite E.
  - unfold reconcileNetworkPolicies, newNetworkPolicies.
    repeat apply Forall_cons_2; try apply Forall_nil_2; intros r [= <-]; by apply labelled_good.
Qed.

(** ** Reading and deleting *)

(** A call that is a read or deletes an object that belongs to the SSP. *)
Definition removes_owned (req : Request) (c : ApiCall) : Prop :=
  exists resources, cleanup_call req resources c.

Lemma removes_owned_read req c : is_read c = true -> removes_owned req c.
Proof. exists []. by left. Qed.

Lemma removes_owned_leaves_ssp req c : removes_owned req c -> writes_ssp c = false.
Proof. intros (resources & [Hr|(res & found & e & _ & _ & -> & _)]); [by destruct c|done]. Qed.

Section client.
Context `{Client W}.

Lemma DeleteAll_removes_owned req l : issued (W := W) (removes_owned req) (DeleteAll req l).
Proof.
  apply issued_mapM. intros o Ho. eapply issued_mono; [|by apply Cleanup_issued]. by eexists.
Qed.

Lemma Cleanup_removes_owned req o : issued (W := W) (removes_owned req) (Resource.Cleanup req o).
Proof. eapply issued_mono; [|apply (Cleanup_issued req o [o]); left]. by eexists. Qed.

Lemma find_issued (P : ApiCall -> Prop) name k :
  (forall opts, P (CList k opts)) -> issued (W := W) P (findResourcesUsingLabels name k).
Proof.
  intros HP. apply issued_bind; [|intros; apply issued_ret]. apply issued_wrapping, issued_call, HP.
Qed.

Lemma deleteRoute_removes_owned req : issued (W := W) (removes_owned req) (deleteRoute req).
Proof.
  apply issued_bind; [|intros; apply DeleteAll_removes_owned].
  apply find_issued. intros. by apply removes_owned_read.
Qed.

Lemma Cleanup_only_deletes v req : issued (W := W) (removes_owned req) (Cleanup v req).
Proof.
  unfold Cleanup. apply issued_bind; [apply deleteRoute_removes_owned|intros ?].
  apply issued_bind; [apply Cleanup_removes_owned|intros ?].
  do 4 (apply issued_bind; [apply find_issued; intros; by apply removes_owned_read|intros ?]).
  apply issued_bind; [apply DeleteAll_removes_owned|intros]. apply issued_ret.
Qed.


Lemma vmConsoleProxy_contract v : OperandContract (operand (W := W) v).
Proof.
  split; intros req; cbn.
  - unfold Reconcile. destruct (negb _).
    + apply issued_bind; [|intros; apply issued_ret].
      eapply issued_mono; [|apply Cleanup_only_deletes].
      apply removes_owned_leaves_ssp.
    + apply issued_bind; [|intros results; apply issued_bind; [apply Cleanup_leaves_ssp|intros old]].
      * apply Collect_leaves_ssp, Forall_fmap, Forall_forall. intros f _ req'.
        unfold run_builder, compose. apply issued_bind; [apply issued_lift|intros; apply Reconcile_leaves_ssp].
      * apply issued_bind; [|intros; apply issued_ret].
        eapply issued_mono; [|apply deleteRoute_removes_owned].
        apply removes_owned_leaves_ssp.
  - eapply issued_mono; [|apply Cleanup_only_deletes].
    apply removes_owned_leaves_ssp.
Qed.

(** ** A round with the service disabled *)

Lemma pendingResults_nil cs :
  Forall (fun c => Deleted c = true) cs <-> pendingResults cs = [].
Proof.
  unfold pendingResults. induction cs as [|c cs IH]; [by split|].
  rewrite Forall_cons, IH, filter_cons. destruct (Deleted c); cbn; naive_solver.
Qed.

(** with the service disabled, a round only reads and deletes objects that
    belong to the SSP, and reports every object that is not gone yet as being
    deleted, so that the SSP is not reported as available before the cleanup is
    complete. *)
Theorem disabled_only_deletes v req :
  serviceEnabled req = false ->
  issued (W := W) (removes_owned req) (Reconcile v req) /\
  (forall s results s', Reconcile v req s = (Ok results, s') ->
     exists cleanups, Cleanup v req s = (Ok cleanups, s') /\
       results = pendingResults cleanups /\
       (Forall (fun c => Deleted c = true) cleanups <-> results = []) /\
       Forall (fun r => NotAvailable (Status r) <> None /\ Progressing (Status r) <> None /\
                        Degraded (Status r) <> None) results).
Proof.
  intros He. unfold Reconcile. rewrite He. cbn [negb]. split.
  - apply issued_bind; [apply Cleanup_only_deletes|intros; apply issued_ret].
  - intros s results s' Hr. unfold mbind, M_bind in Hr.
    destruct (Cleanup v req s) as [[cleanups|e|p] s1]; [|done..]. injection Hr as <- <-.
    exists cleanups. split; [done|]. split; [done|]. split; [apply pendingResults_nil|].
    unfold pendingResults. by apply Forall_fmap, Forall_forall.
Qed.

(** ** What a cleanup finds *)

Lemma requirement_eq ls k v :
  ls !! k = Some v -> requirement_matches (Some ls) (mkReq k "=" [v]) = true.
Proof.
  intros Hl. unfold requirement_matches, map_has, map_get. cbn [req_Key req_Operator req_Values].
  change (Some ls ≫= lookup k) with (ls !! k). rewrite Hl.
  rewrite bool_decide_true by (by eexists). cbn [default andb].
  rewrite (proj2 (contains_true [v] v)) by set_solver. done.
Qed.

Lemma labelled_selected r res :
  appLabels r = Some (operandName, operandComponent) -> prepared r = Ok res ->
  list_selects operandLabels res = true.
Proof.
  intros Ha Hp. apply setOwner_keeps in Hp as (_ & _ & _ & Hl).
  unfold add_app_labels in Hl. rewrite Ha in Hl. cbn in Hl.
  destruct (Labels.addCommonLabels_get (Labels.getOrCreateLabels (o_meta (resource r)))
              (Instance (request r)) operandName operandComponent) as (Hn & Hc & Hm).
  unfold list_selects. rewrite bool_decide_true by done. cbn [lo_Requirements operandLabels forallb].
  rewrite Hl, !requirement_eq by done. done.
Qed.

Definition found_by_label (v : vmConsoleProxy) (k : Kind) : option Object :=
  match k with
  | KServiceAccount => Some (serviceAccount v)
  | KConfigMap => Some (configMap v)
  | KService => Some (service v)
  | KDeployment => Some (deployment v)
  | _ => None
  end.

(** What a builder of the operand prepares. *)
Definition written_as (v : vmConsoleProxy) (r : reconcileBuilder) : Prop :=
  appLabels r = Some (operandName, operandComponent) /\
  forall o, found_by_label v (o_kind (resource r)) = Some o -> Name (o_meta (resource r)) = Name (o_meta o).

Lemma written_by_label v r o :
  appLabels r = Some (operandName, operandComponent) ->
  found_by_label v (o_kind (resource r)) = Some o -> Name (o_meta (resource r)) = Name (o_meta o) ->
  written_as v r.
Proof. intros Hl Ho Hn. split; [done|]. intros o'. rewrite Ho. by intros [= <-]. Qed.

Lemma written_otherwise v r :
  appLabels r = Some (operandName, operandComponent) ->
  found_by_label v (o_kind (resource r)) = None -> written_as v r.
Proof. intros Hl Ho. split; [done|]. intros o. by rewrite Ho. Qed.

Lemma reconcileFuncs_written v req :
  typed v ->
  Forall (fun f : BuilderFunc => forall r, f req = Ok r -> written_as v r) (reconcileFuncs v req).
Proof.
  intros []. unfold reconcileFuncs. repeat (apply Forall_app; split).
  - apply Forall_singleton. intros r [= <-].
    apply (written_by_label v _ (serviceAccount v)); [done| |done].
      change (found_by_label v (o_kind (serviceAccount v)) = Some (serviceAccount v)). by rewrite typed_ServiceAccount0.
  - apply Forall_fmap, Forall_forall. intros o Ho r [= <-]. apply written_otherwise; [done|].
    rewrite Forall_forall in typed_ClusterRoles0. cbn. by rewrite (typed_ClusterRoles0 o Ho).
  - repeat apply Forall_cons_2; try apply Forall_nil_2; intros r Hr.
    + unfold reconcileClusterRoleBinding in Hr. case_match; try done.
      apply outcome_bind_Ok in Hr as (ss & _ & [= <-]). by apply written_otherwise.
    + unfold reconcileRoleBinding in Hr. case_match; try done.
      apply outcome_bind_Ok in Hr as (ss & _ & [= <-]). by apply written_otherwise.
    + apply outcome_bind_Ok in Hr as (y & _ & Hr). repeat case_match; simplify_eq.
      by apply (written_by_label v _ (configMap v)).
    + injection Hr as <-.
      apply (written_by_label v _ (service v)); [done| |done].
      change (found_by_label v (o_kind (service v)) = Some (service v)). by rewrite typed_Service0.
    + unfold reconcileDeployment in Hr. case_match; try done.
      apply outcome_bind_Ok in Hr as (t & _ & [= <-]). by apply (written_by_label v _ (deployment v)).
    + unfold reconcileApiService in Hr. repeat case_match; simplify_eq. by apply written_otherwise.
  - unfold reconcileNetworkPolicies, newNetworkPolicies.
    repeat apply Forall_cons_2; try apply Forall_nil_2; intros r [= <-]; by apply written_otherwise.
Qed.

(** what a round writes by label is found again by the cleanup: every
    ServiceAccount, ConfigMap, Service and Deployment that a builder prepares is
    selected by the labels of [findResourcesUsingLabels] and has the name that
    [Cleanup] looks for. *)
Theorem cleanup_finds_written v req r res o :
  typed v -> Exists (fun f : BuilderFunc => f req = Ok r) (reconcileFuncs v req) ->
  prepared r = Ok res -> found_by_label v (o_kind res) = Some o ->
  list_selects operandLabels res = true /\ Name (o_meta res) = Name (o_meta o).
Proof.
  intros Ht (f & Hf & Hr)%Exists_exists Hp Ho.
  destruct (proj1 (Forall_forall _ _) (reconcileFuncs_written v req Ht) f Hf r Hr) as [Hl Hn].
  split; [by eapply labelled_selected|].
  destruct (prepared_keeps _ _ Hp) as (Hk & Hkey & _). rewrite Hk in Ho.
  rewrite <- (Hn o Ho). by injection Hkey.
Qed.

(** *** Network policies stay *)

Definition spares_policies (c : ApiCall) : Prop :=
  match c with
  | CDelete k _ => k <> KNetworkPolicy
  | CCreate _ | CUpdate _ => False
  | _ => True
  end.

Lemma Cleanup_spares req o :
  o_kind o <> KNetworkPolicy -> issued (W := W) spares_policies (Resource.Cleanup req o).
Proof.
  intros Ho. eapply issued_mono; [|apply (Cleanup_issued req o [o]); left].
  intros c [Hr|(res & found & e & ->%list_elem_of_singleton & _ & -> & _)]; [by destruct c|done].
Qed.

Lemma DeleteAll_spares req l :
  Forall (fun o => o_kind o <> KNetworkPolicy) l -> issued (W := W) spares_policies (DeleteAll req l).
Proof.
  intros Hl. apply issued_mapM. intros o Ho. rewrite Forall_forall in Hl. by apply Cleanup_spares, Hl.
Qed.

Lemma find_kind name k :
  returns (S := OpSt W) (Forall (fun o => o_kind o = k)) (findResourcesUsingLabels name k).
Proof.
  unfold findResourcesUsingLabels. eapply (returns_bind (Forall (fun o => o_kind o = k))).
  - intros s l s'. unfold wrapping, List, call. destruct (cl_List k operandLabels (op_world s)) as [[e|os] w] eqn:E;
      cbn; [done|]. intros [= <- _]. by eapply cl_List_kind.
  - intros l Hl. apply returns_ret, Forall_forall. intros o [_ Ho]%list_elem_of_filter.
    by apply (proj1 (Forall_forall _ _) Hl).
Qed.

Lemma not_policy k l :
  Forall (fun o => o_kind o = k) l -> k <> KNetworkPolicy -> Forall (fun o => o_kind o <> KNetworkPolicy) l.
Proof. intros Hl Hk. eapply Forall_impl; [exact Hl|]. by intros o ->. Qed.

(** disabling the service leaves its network policies: a round that removes
    the objects of the operand deletes no NetworkPolicy. *)
Theorem disabled_keeps_policies v req :
  typed v -> serviceEnabled req = false -> issued (W := W) spares_policies (Reconcile v req).
Proof.
  intros [] He. unfold Reconcile. rewrite He. cbn [negb].
  apply issued_bind; [|intros; apply issued_ret]. unfold Cleanup, deleteRoute.
  apply issued_bind; [|intros ?].
  { eapply issued_bind_returns; [by apply find_issued|apply find_kind|].
    intros l Hl. apply DeleteAll_spares. by eapply not_policy. }
  apply issued_bind; [by apply Cleanup_spares|intros ?].
  do 4 (eapply issued_bind_returns; [by apply find_issued|apply find_kind|intros ? ?]).
  apply issued_bind; [|intros; apply issued_ret]. apply DeleteAll_spares.
  repeat (apply Forall_app; split); try (by eapply not_policy);
    repeat apply Forall_cons_2; try apply Forall_nil_2; congruence.
Qed.
End client.

(** ** TLS *)

Lemma secure_ciphers (names : list string) :
  omap Tls.GetKnownCipherId (filter (fun c => c ∈ Tls.tls_CipherSuites.*1) names)
  = omap Tls.GetKnownCipherId names.
Proof.
  induction names as [|n names IH]; [done|]. rewrite filter_cons.
  destruct (decide (n ∈ Tls.tls_CipherSuites.*1)) as [Hin|Hin]; cbn; rewrite IH; [done|].
  unfold Tls.GetKnownCipherId at 2. destruct (find_first _ _) as [x|] eqn:E; [|done].
  exfalso. apply Hin. apply find_first_Some in E as (l1 & l2 & El & Hn & _).
  apply bool_decide_eq_true in Hn as <-. rewrite El. apply list_elem_of_fmap. exists x. set_solver.
Qed.

Lemma TLSVersion_known v id :
  Tls.TLSVersion v = inr id -> v <> "" ->
  v ∈ ["VersionTLS10"; "VersionTLS11"; "VersionTLS12"; "VersionTLS13"].
Proof.
  intros Hv Hne. unfold Tls.TLSVersion in Hv. repeat case_bool_decide; subst; try done; set_solver.
Qed.

(** the TLS configuration that is handed to the proxy is the one of the
    operator's own servers: for a profile with which the operator serves, and
    whose minimal version is given, the file names the same minimal version and
    the same ciphers. *)
Theorem proxy_matches_operator i others p cfg operator_cfg spec :
  spec_TLSSecurityProfile (ssp_spec i) = Some p -> Tls.selected p = Some spec ->
  tls_MinTLSVersion spec <> "" ->
  Tls.getConfigForClient (inr (i :: others)) cfg = Ok operator_cfg ->
  exists profile,
    createTlsConfigFile (Some p) =
      wrap_err "failed to marshal TLS profile confing to yaml: " (yaml_Marshal profile) /\
    Tls.TLSVersion (proxy_MinTLSVersion profile) = inr (Tls.MinVersion operator_cfg) /\
    omap Tls.GetKnownCipherId (proxy_Ciphers profile) = Tls.CipherSuites operator_cfg.
Proof.
  intros Hp Hs Hne Hc. cbn in Hc. rewrite Hp in Hc. fold (Tls.selected p) in Hc. rewrite Hs in Hc.
  destruct (Tls.TLSVersion (tls_MinTLSVersion spec)) as [e|id] eqn:Ev; [done|].
  injection Hc as <-. cbn [createTlsConfigFile].
  assert (profileSpecOf p = Ok spec) as ->.
  { unfold profileSpecOf, Tls.selected in *. case_bool_decide; by rewrite Hs. }
  unfold proxyProfile. simpl. rewrite bool_decide_true by (by eapply TLSVersion_known).
  eexists. split; [reflexivity|]. cbn. split; [done|]. apply secure_ciphers.
Qed.

(** A profile that crashes the other servers is an error here. *)
Lemma createTlsConfigFile_no_panic p :
  (forall t m, yaml_Marshal t <> Panic m) -> forall m, createTlsConfigFile p <> Panic m.
Proof.
  intros Hy m. destruct p as [p|]; [|done]. cbn. unfold profileSpecOf, proxyProfile, wrap_err.
  repeat case_bool_decide; repeat (case_match; simplify_eq/=); try done;
    intros ?; simplify_eq; by eapply Hy.
Qed.

(** ** The API service *)

(** The certificate that OpenShift injects survives every update. *)
Lemma updateApiService_keeps_bundle e o spec fspec :
  o_body e = APIService spec -> o_body o = APIService fspec ->
  exists e' o' spec', updateApiService e o = Ok (e', o') /\ o_body o' = APIService spec' /\
    api_CABundle spec' = api_CABundle fspec /\ api_Service spec' = api_Service spec /\
    updateApiService e o' = Ok (e', o').
Proof.
  intros He Ho. unfold updateApiService. rewrite He, Ho. eexists _, _, _.
  split; [done|]. by split_and!.
Qed.
End operand.

(** ** Instances *)

Module ProxyWitness.
Definition obj (name namespace : string) (b : Body) : Object :=
  mkObject (mkTypeMeta "" "") (newMeta name namespace) b.
Definition roleRef : RoleRef := mkRoleRef "rbac.authorization.k8s.io" "ClusterRole" "vm-console-proxy".
Definition subject : Subject := mkSubject "ServiceAccount" "" "vm-console-proxy" "".
Definition container : Container := {|
  c_Name := "console"; c_Image := ""; c_ImagePullPolicy := ""; c_TerminationMessagePolicy := "";
  c_Requests := ∅; c_Args := []; c_VolumeMounts := []; c_SecurityContext := None; c_Ports := [];
  c_LivenessProbe := None; c_ReadinessProbe := None; c_other := ∅ |}.
Definition podSpec : PodSpec := {|
  ps_SecurityContext := None; ps_ServiceAccountName := "vm-console-proxy"; ps_PriorityClassName := "";
  ps_Containers := [container]; ps_Volumes := []; ps_Affinity := None; ps_NodeSelector := None;
  ps_Tolerations := []; ps_other := ∅ |}.

Definition docs : list Document :=
  [ mkDocument "ServiceAccount" (Ok (obj "vm-console-proxy" "kubevirt" ServiceAccount));
    mkDocument "ClusterRole" (Ok (obj "vm-console-proxy" "" (ClusterRole [])));
    mkDocument "ClusterRole" (Ok (obj "token.kubevirt.io:generate" "" (ClusterRole [])));
    mkDocument "ClusterRoleBinding" (Ok (obj "vm-console-proxy" "" (ClusterRoleBinding roleRef [subject])));
    mkDocument "RoleBinding" (Ok (obj "vm-console-proxy" "kube-system" (RoleBinding roleRef [subject])));
    mkDocument "Service" (Ok (obj "vm-console-proxy" "kubevirt"
      (Service (mkServiceSpec [] ∅ "" "" "" None ∅))));
    mkDocument "Deployment" (Ok (obj "vm-console-proxy" "kubevirt"
      (Deployment (mkDeploymentSpec None None (mkPodTemplate (newMeta "" "") podSpec) ∅)
         (mkDeploymentStatus 0 0))));
    mkDocument "ConfigMap" (Ok (obj "vm-console-proxy" "kubevirt" (ConfigMap None (Some ∅) None)));
    mkDocument "APIService" (Ok (obj "v1.token.kubevirt.io" ""
      (APIService (mkAPIServiceSpec (Some ("kubevirt", "vm-console-proxy")) "" ∅)))) ].

Definition bundle : Bundle := match ReadBundle docs with Ok b => b | _ => emptyBundle end.
Definition proxy : vmConsoleProxy :=
  match New bundle with
  | Some v => v
  | None => let o := obj "" "" NamespaceObj in mkVmConsoleProxy o [] o o o o o o
  end.

Lemma proxy_typed : typed proxy.
Proof. split; try reflexivity. repeat constructor. Qed.

Lemma docs_converted : Forall well_converted docs.
Proof.
  repeat apply Forall_cons_2; try apply Forall_nil_2; intros o [= <-];
    (split; [intros Hd|intros s Hs; vm_compute in Hs]); try done; by simplify_eq.
Qed.

Lemma New_typed_witness : exists v, New bundle = Some v /\ typed v.
Proof. apply (New_typed docs bundle); [exact docs_converted|reflexivity]. Defined.

Definition with_service (enabled : bool) : Request :=
  mkRequest (ssp_key Samples.ssp)
    (mkSSP (ssp_type Samples.ssp) (ssp_meta Samples.ssp)
       (mkSSPSpec None None None (mkCommonTemplates "openshift" []) None
          (Some (mkTokenGenerationService enabled))) zeroStatus)
    false "HighlyAvailable" (mkCrdList [] []) false "ssp-service".

Definition plain_yaml : ProxyYaml := {| yaml_Marshal := fun t => Ok (proxy_MinTLSVersion t) |}.


Lemma disabled_only_deletes_witness :
  issued (W := MemCluster) (removes_owned (with_service false))
    (Reconcile (H := Samples.process) (R := Tls.TlsWitness.runtime) (H0 := plain_yaml) proxy (with_service false)).
Proof.
  apply (disabled_only_deletes (H := Samples.process) (R := Tls.TlsWitness.runtime) (H0 := plain_yaml)
           proxy (with_service false)). reflexivity.
Defined.

Lemma disabled_keeps_policies_witness :
  issued (W := MemCluster) spares_policies
    (Reconcile (H := Samples.process) (R := Tls.TlsWitness.runtime) (H0 := plain_yaml) proxy (with_service false)).
Proof.
  apply (disabled_keeps_policies (H := Samples.process) (R := Tls.TlsWitness.runtime) (H0 := plain_yaml)
           proxy (with_service false)); [exact proxy_typed|reflexivity].
Defined.

Definition built : reconcileBuilder :=
  labelled (NamespacedResource (with_service true) (in_namespace (serviceAccount proxy) "kubevirt")).
Definition written : Object := match prepared built with Ok o => o | _ => serviceAccount proxy end.

Lemma cleanup_finds_written_witness :
  list_selects operandLabels written = true /\ Name (o_meta written) = "vm-console-proxy".
Proof.
  apply (cleanup_finds_written (H := Samples.process) (R := Tls.TlsWitness.runtime) (H0 := plain_yaml)
           proxy (with_service true) built written (serviceAccount proxy)).
  - exact proxy_typed.
  - left. reflexivity.
  - reflexivity.
  - reflexivity.
Defined.

Lemma proxy_matches_operator_witness :
  exists profile,
    createTlsConfigFile (R := Tls.TlsWitness.runtime) (H0 := plain_yaml)
      (Some (mkTLSSecurityProfile "Modern" None)) =
      wrap_err "failed to marshal TLS profile confing to yaml: " (yaml_Marshal (ProxyYaml := plain_yaml) profile) /\
    Tls.TLSVersion (proxy_MinTLSVersion profile) = inr Tls.VersionTLS13 /\
    omap (Tls.GetKnownCipherId (R := Tls.TlsWitness.runtime)) (proxy_Ciphers profile)
      = [4865%Z; 4866%Z; 4867%Z].
Proof.
  apply (proxy_matches_operator (R := Tls.TlsWitness.runtime) (H0 := plain_yaml)
           (Tls.TlsWitness.with_profile (mkTLSSecurityProfile "Modern" None)) []
           (mkTLSSecurityProfile "Modern" None) (Tls.mkConfig None 0 [])
           (Tls.mkConfig None Tls.VersionTLS13 [4865%Z; 4866%Z; 4867%Z])
           (mkTLSProfileSpec Tls.tls13Ciphers "VersionTLS13")).
  - reflexivity.
  - vm_compute. reflexivity.
  - discriminate.
  - vm_compute. reflexivity.
Defined.
End ProxyWitness.
End VmConsoleProxyProofs.
