(* ===== verification/MonitoringRules.v ===== *)
(** * Alerts, recording rules and metrics (pkg/monitoring)

    The rules are data that [SetupRules] completes and puts into a registry of
    the vendored observability toolkit; the metrics operand reads the registry
    in every round. *)

From stdpp Require Import sorting.
From Stdlib Require Import Ascii.
From S2P Require Import Prelude GoRuntime KubeTypes SspTypes Architecture KubeClient Common Samples Resource TemplateValidatorOperand MetricsOperand.

Module MonitoringRules.

(** ** Strings of the rules *)

Definition dq : string := String "034"%char EmptyString.
Definition percent : ascii := "%"%char.

(** [strings.Count s sub] for a [sub] that is not empty; [skip] bytes belong to
    the occurrence counted last. *)
Fixpoint count_from (sub : string) (skip : nat) (s : string) : nat :=
  match s with
  | EmptyString => 0
  | String _ s' =>
      match skip with
      | S skip' => count_from sub skip' s'
      | O => if HasPrefix s sub then S (count_from sub (Nat.pred (String.length sub)) s')
             else count_from sub 0 s'
      end
  end.
Definition Count (s sub : string) : nat := count_from sub 0 s.

Fixpoint has_byte (c : ascii) (s : string) : bool :=
  match s with
  | EmptyString => false
  | String c' s' => bool_decide (c' = c) || has_byte c s'
  end.

(** [fmt.Sprintf] with a single string: a text in which [%s] is the only verb. *)
Class GoFmt := {
  Sprintf : string -> string -> string;
  Sprintf_s : forall pre post arg, has_byte percent pre = false -> has_byte percent post = false ->
    Sprintf (pre +:+ "%s" +:+ post) arg = pre +:+ arg +:+ post
}.

(** ** The data *)

Inductive MetricType := CounterType | GaugeType | GaugeVecType.
Record MetricOpts := mkOpts { m_Name : string; m_Help : string }.
Record Metric := mkMetric { metric_Opts : MetricOpts; metric_Type : MetricType }.

Record RecordingRule := mkRecording {
  rr_MetricsOpts : MetricOpts;
  rr_MetricType : MetricType;
  rr_Expr : string
}.

Record Rule := mkAlertRule {
  rule_Record : string;
  rule_Alert : string;
  rule_Expr : string;
  rule_For : option string;
  rule_Annotations : smap;
  rule_Labels : smap
}.
Record RuleGroup := mkGroup { grp_Name : string; grp_Rules : list Rule }.

(** *** The metrics of the operator and of the template validator *)

Definition sspOperatorReconcileSucceeded : Metric :=
  mkMetric (mkOpts "kubevirt_ssp_operator_reconcile_succeeded"
    "Set to 1 if the reconcile process of all operands completes with no errors, and to 0 otherwise") GaugeType.
Definition vmRbdVolume : Metric :=
  mkMetric (mkOpts "kubevirt_ssp_vm_rbd_block_volume_without_rxbounce"
    "VM with RBD mounted Block volume (without rxbounce option set)") GaugeVecType.
Definition commonTemplatesRestored : Metric :=
  mkMetric (mkOpts "kubevirt_ssp_common_templates_restored_total"
    "The total number of common templates restored by the operator back to their original state") CounterType.
Definition templateValidatorRejected : Metric :=
  mkMetric (mkOpts "kubevirt_ssp_template_validator_rejected_total"
    "The total number of rejected template validators") CounterType.

Definition operatorMetrics : list Metric := [sspOperatorReconcileSucceeded].
Definition rbdMetrics : list Metric := [vmRbdVolume].
Definition templateMetrics : list Metric := [commonTemplatesRestored].
Definition validatorMetrics : list Metric := [templateValidatorRejected].

(** [SetupMetrics] of the two programs: the lists that they register. *)
Definition operatorSetupMetrics : list (list Metric) := [operatorMetrics; rbdMetrics; templateMetrics].
Definition validatorSetupMetrics : list (list Metric) := [validatorMetrics].

(** *** The alerts *)

Definition withVMLabel (expr : string) : string :=
  "label_replace(" +:+ expr +:+ ", " +:+ dq +:+ "vm" +:+ dq +:+ ", " +:+ dq +:+ "$1" +:+ dq +:+ ", "
  +:+ dq +:+ "name" +:+ dq +:+ ", " +:+ dq +:+ "(.+)" +:+ dq +:+ ")".

Definition severityAlertLabelKey : string := "severity".
Definition healthImpactAlertLabelKey : string := "operator_health_impact".

Definition impact (severity health : string) : smap :=
  {[ severityAlertLabelKey := severity; healthImpactAlertLabelKey := health ]}.
Definition alert (name expr : string) (for_ : option string) (annotations : smap) (labels : smap) : Rule :=
  mkAlertRule "" name expr for_ annotations labels.

Definition operatorAlerts : list Rule := [
  alert "SSPDown" "cluster:kubevirt_ssp_operator_up:sum == 0" (Some "5m")
    {[ "summary" := "All SSP operator pods are down." ]} (impact "critical" "critical");
  alert "SSPTemplateValidatorDown" "cluster:kubevirt_ssp_template_validator_up:sum == 0" (Some "5m")
    {[ "summary" := "All Template Validator pods are down." ]} (impact "critical" "critical");
  alert "SSPFailingToReconcile"
    "(cluster:kubevirt_ssp_operator_reconcile_succeeded:sum == 0) and (cluster:kubevirt_ssp_operator_up:sum > 0)"
    (Some "5m")
    {[ "summary" := "The ssp-operator pod is up but failing to reconcile." ]} (impact "critical" "critical");
  alert "SSPHighRateRejectedVms" "cluster:kubevirt_ssp_template_validator_rejected:increase1h > 5" (Some "5m")
    {[ "summary" := "High rate of rejected Vms." ]} (impact "warning" "warning");
  alert "SSPCommonTemplatesModificationReverted"
    "cluster:kubevirt_ssp_common_templates_restored:increase1h > 0" (Some "0m")
    {[ "summary" := "Common Templates manual modifications were reverted by the operator." ]}
    (impact "warning" "none");
  alert "VMStorageClassWarning"
    (withVMLabel ("kubevirt_ssp_vm_rbd_block_volume_without_rxbounce * on(name, namespace) (kubevirt_vmi_info{guest_os_name="
       +:+ dq +:+ "Microsoft Windows" +:+ dq +:+ "} > 0 or kubevirt_vmi_info{os=~" +:+ dq +:+ "windows.*" +:+ dq
       +:+ "} > 0) > 0"))
    None
    {[ "summary" := "Virtual Machine '{{ $labels.name }}' in namespace '{{ $labels.namespace }}' may cause reports of bad crc/signature errors due to certain I/O patterns.";
       "description" := "When running Windows VMs using ODF storage with 'rbd' mounter or 'rbd.csi.ceph.com provisioner', the VM '{{ $labels.name }}' may cause reports of bad crc/signature errors due to certain I/O patterns. Cluster performance can be severely degraded if the number of re-transmissions due to crc errors causes network saturation." ]}
    (impact "warning" "none") ].

(** *** The recording rules *)

Definition CommonTemplatesRestoredIncreaseQuery : string :=
  "sum(increase(kubevirt_ssp_common_templates_restored_total{pod=~'ssp-operator.*'}[1h]))".
Definition TemplateValidatorRejectedIncreaseQuery : string :=
  "sum(increase(kubevirt_ssp_template_validator_rejected_total{pod=~'virt-template-validator.*'}[1h]))".

Definition gauge (name help expr : string) : RecordingRule := mkRecording (mkOpts name help) GaugeType expr.

Definition operatorRecordingRules : list RecordingRule := [
  gauge "kubevirt_ssp_operator_up" "[Deprecated] The total number of running ssp-operator pods"
    "sum(up{pod=~'ssp-operator.*'}) OR on() vector(0)";
  gauge "cluster:kubevirt_ssp_operator_up:sum" "The number of ssp-operator pods that are up"
    "sum(up{pod=~'ssp-operator.*'}) OR on() vector(0)";
  gauge "kubevirt_ssp_template_validator_up"
    "[Deprecated] The total number of running virt-template-validator pods"
    "sum(up{pod=~'virt-template-validator.*'}) OR on() vector(0)";
  gauge "cluster:kubevirt_ssp_template_validator_up:sum"
    "The number of virt-template-validator pods that are up"
    "sum(up{pod=~'virt-template-validator.*'}) OR on() vector(0)";
  gauge "kubevirt_ssp_operator_reconcile_succeeded_aggregated"
    "[Deprecated] The total number of ssp-operator pods reconciling with no errors"
    "sum(kubevirt_ssp_operator_reconcile_succeeded)";
  gauge "cluster:kubevirt_ssp_operator_reconcile_succeeded:sum"
    "The number of ssp-operator pods reconciling with no errors"
    "sum(kubevirt_ssp_operator_reconcile_succeeded)";
  gauge "kubevirt_ssp_template_validator_rejected_increase"
    "[Deprecated] The increase in the number of rejected template validators, over the last hour"
    (TemplateValidatorRejectedIncreaseQuery +:+ " OR on() vector(0)");
  gauge "cluster:kubevirt_ssp_template_validator_rejected:increase1h"
    "The increase in the number of rejected template validators, over the last hour"
    (TemplateValidatorRejectedIncreaseQuery +:+ " OR on() vector(0)");
  gauge "kubevirt_ssp_common_templates_restored_increase"
    "[Deprecated] The increase in the number of common templates restored by the operator back to their original state, over the last hour"
    (CommonTemplatesRestoredIncreaseQuery +:+ " OR on() vector(0)");
  gauge "cluster:kubevirt_ssp_common_templates_restored:increase1h"
    "The increase in the number of common templates restored by the operator back to their original state, over the last hour"
    (CommonTemplatesRestoredIncreaseQuery +:+ " OR on() vector(0)") ].

Definition vmiRecordingRules : list RecordingRule := [
  gauge "cnv:vmi_status_running:count"
    "The total number of running VMIs, labeled with node, instance type, preference and guest OS information"
    ("sum(kubevirt_vmi_phase_count{phase=" +:+ dq +:+ "running" +:+ dq +:+ "}) by "
     +:+ "(node,os,workload,flavor,instance_type,preference,guest_os_kernel_release,guest_os_machine,guest_os_name,guest_os_version_id)") ].

(** ** The registry (operatorrules) *)

Record Registry := mkRegistry {
  registeredRecordingRules : gmap string RecordingRule;
  registeredAlerts : gmap string Rule
}.
Definition NewRegistry : Registry := mkRegistry ∅ ∅.

Definition recordingKey (r : RecordingRule) : string := m_Name (rr_MetricsOpts r) +:+ ":" +:+ rr_Expr r.
Definition alertKey (r : Rule) : string := rule_Alert r +:+ ":" +:+ rule_Expr r.
Definition recordKey (r : Rule) : string := rule_Record r +:+ ":" +:+ rule_Expr r.

(** The loops of [RegisterRecordingRules] and [RegisterAlerts]. *)
Definition store {A} (key : A -> string) (m : gmap string A) (l : list A) : gmap string A :=
  foldl (fun m a => <[key a := a]> m) m l.

Definition RegisterRecordingRules (r : Registry) (lists : list (list RecordingRule)) : Registry :=
  mkRegistry (foldl (store recordingKey) (registeredRecordingRules r) lists) (registeredAlerts r).
Definition RegisterAlerts (r : Registry) (lists : list (list Rule)) : Registry :=
  mkRegistry (registeredRecordingRules r) (foldl (store alertKey) (registeredAlerts r) lists).

(** [slices.SortFunc] with the comparison of the keys. *)
Definition by_key {A} (key : A -> string) (a b : A) : Prop := String.le (key a) (key b).
Definition SortFunc {A} (key : A -> string) (l : list A) : list A := merge_sort (by_key key) l.

Section list.
Context `{MapRange}.

Definition values {A} (m : gmap string A) : list A := (map_range m).*2.

Definition ListRecordingRules (r : Registry) : list RecordingRule :=
  SortFunc recordingKey (values (registeredRecordingRules r)).
Definition ListAlerts (r : Registry) : list Rule := SortFunc alertKey (values (registeredAlerts r)).

Definition buildRecordingRule (r : RecordingRule) : Rule :=
  mkAlertRule (m_Name (rr_MetricsOpts r)) "" (rr_Expr r) None ∅ ∅.
Definition buildRecordingRulesRules (r : Registry) : list Rule :=
  SortFunc recordKey (buildRecordingRule <$> values (registeredRecordingRules r)).

Definition buildPrometheusRuleSpec (r : Registry) : outcome (list RuleGroup) :=
  let groups :=
    (if bool_decide (registeredRecordingRules r = ∅) then []
     else [mkGroup "recordingRules.rules" (buildRecordingRulesRules r)]) ++
    (if bool_decide (registeredAlerts r = ∅) then [] else [mkGroup "alerts.rules" (ListAlerts r)]) in
  match groups with
  | [] => Err (EMsg "no registered recording rule or alert")
  | _ => Ok groups
  end.
End list.

(** The registry as the metrics operand sees it, with the marshaller of the
    rules. *)
Definition rule_registry `{MapRange} (encode : list RuleGroup -> Opaque) (r : Registry)
    : MetricsOperand.RuleRegistry :=
  {| MetricsOperand.registered_rules := encode <$> buildPrometheusRuleSpec r |}.

(** ** Completing and registering the rules *)

Definition prometheusRunbookAnnotationKey : string := "runbook_url".
Definition partOfAlertLabelKey : string := "kubernetes_operator_part_of".
Definition partOfAlertLabelValue : string := "kubevirt".
Definition componentAlertLabelKey : string := "kubernetes_operator_component".
Definition componentAlertLabelValue : string := "ssp-operator".
Definition defaultRunbookURLTemplate : string := "https://kubevirt.io/monitoring/runbooks/%s".
Definition runbookURLTemplateEnv : string := "RUNBOOK_URL_TEMPLATE".

Section setup.
Context `{Process} `{GoFmt}.

Definition getRunbookURLTemplate : outcome string :=
  let runbookURLTemplate := default defaultRunbookURLTemplate (LookupEnv runbookURLTemplateEnv) in
  if bool_decide (Count runbookURLTemplate "%s" <> 1) then
    Err (EMsg "runbook URL template must have exactly 1 %s substring")
  else Ok runbookURLTemplate.

(** The body of the loop of [alerts.Register]. *)
Definition decorate (runbookURLTemplate : string) (a : Rule) : Rule :=
  mkAlertRule (rule_Record a) (rule_Alert a) (rule_Expr a) (rule_For a)
    (<[prometheusRunbookAnnotationKey := Sprintf runbookURLTemplate (rule_Alert a)]> (rule_Annotations a))
    (<[componentAlertLabelKey := componentAlertLabelValue]>
       (<[partOfAlertLabelKey := partOfAlertLabelValue]> (rule_Labels a))).

Definition alerts_Register (r : Registry) : outcome Registry :=
  runbookURLTemplate ← getRunbookURLTemplate;
  Ok (RegisterAlerts r [decorate runbookURLTemplate <$> operatorAlerts]).

Definition recordingrules_Register (r : Registry) : outcome Registry :=
  Ok (RegisterRecordingRules r [operatorRecordingRules; vmiRecordingRules]).

Definition SetupRules (r : Registry) : outcome Registry :=
  r ← recordingrules_Register r;
  alerts_Register r.
End setup.

(** ** The tools that list metrics and rules (tools/) *)

Section tools.
Context `{Process} `{GoFmt} `{MapRange}.

(** [strings.ToUpper] of the base type of a metric. *)
Definition base_type (t : MetricType) : string :=
  match t with CounterType => "COUNTER" | GaugeType | GaugeVecType => "GAUGE" end.

Record MetricFamily := mkFamily { mf_Name : string; mf_Help : string; mf_Type : string }.
Record RecordingRuleOutput := mkRuleOutput { ro_Record : string; ro_Expr : string; ro_Type : string }.

(** [excludedMetrics] of metrics_json_generator.go is empty. *)
Definition excludedMetrics : gset string := ∅.

(** metrics_json_generator.go: the metrics that are no recording rules, and the
    recording rules. [metrics] are those that were registered. *)
Definition collect (metrics : list Metric) (r : Registry) : list MetricFamily * list RecordingRuleOutput :=
  let metricFamilies :=
    (fun m => mkFamily (m_Name (metric_Opts m)) (m_Help (metric_Opts m)) (base_type (metric_Type m)))
      <$> filter (fun m => m_Name (metric_Opts m) ∉ excludedMetrics) metrics in
  let rules := filter (fun rr => m_Name (rr_MetricsOpts rr) ∉ excludedMetrics) (ListRecordingRules r) in
  let recNames : gset string := list_to_set ((fun rr => m_Name (rr_MetricsOpts rr)) <$> rules) in
  (filter (fun mf => mf_Name mf ∉ recNames) metricFamilies,
   (fun rr => mkRuleOutput (m_Name (rr_MetricsOpts rr)) (rr_Expr rr) (base_type (rr_MetricType rr))) <$> rules).

(** test_rules_writer.go: the groups of the PrometheusRule. *)
Definition test_rules : outcome (list RuleGroup) :=
  match (r ← SetupRules NewRegistry; buildPrometheusRuleSpec r) with
  | Err err => Panic (Error err)
  | m => m
  end.

(** [if err != nil { panic(err) }] *)
Definition panic_on_error {A} (m : outcome A) : outcome A :=
  match m with Err err => Panic (Error err) | m => m end.

(** metricsdocs.go: what is printed. [RegisterMetrics], [ListMetrics] and
    [BuildMetricsDocs] are those of the toolkit. *)
Definition docs_title : string := "SSP Operator metrics".
Definition metrics_docs (RegisterMetrics : list (list Metric) -> outcome unit) (ListMetrics : list Metric)
    (BuildMetricsDocs : string -> list Metric -> list RecordingRule -> string) : outcome string :=
  _ ← panic_on_error (RegisterMetrics operatorSetupMetrics);
  _ ← panic_on_error (RegisterMetrics validatorSetupMetrics);
  r ← panic_on_error (SetupRules NewRegistry);
  Ok (BuildMetricsDocs docs_title ListMetrics (ListRecordingRules r)).
End tools.

(** ** The order of the maps does not matter *)

#[export] Instance by_key_transitive {A} (key : A -> string) : Transitive (by_key key).
Proof. intros a b c. unfold by_key. by etransitivity. Qed.
#[export] Instance by_key_total {A} (key : A -> string) : Total (by_key key).
Proof. intros a b. unfold by_key. apply String.le_total. Qed.

(** Sorting by a key that tells the elements apart is the same for every order
    of the elements. *)
Lemma SortFunc_perm {A} (key : A -> string) l k :
  NoDup (key <$> l) -> l ≡ₚ k -> SortFunc key l = SortFunc key k.
Proof.
  intros Hn Hp. unfold SortFunc. apply (Sorted_unique_strong (by_key key)).
  - intros x y Hx Hy H1 H2. rewrite merge_sort_Permutation in Hx, Hy. rewrite <- Hp in Hy.
    assert (key x = key y) as E by by apply (anti_symm String.le).
    apply list_elem_of_lookup in Hx as [i Hi]. apply list_elem_of_lookup in Hy as [j Hj].
    assert (i = j) as <-; [|congruence].
    apply (NoDup_lookup (key <$> l) i j (key x)); [done|..]; rewrite list_lookup_fmap.
    + by rewrite Hi.
    + by rewrite Hj, E.
  - apply (Sorted_merge_sort _).
  - apply (Sorted_merge_sort _).
  - by rewrite !merge_sort_Permutation.
Qed.

(** Every rule is stored under its own key. *)
Definition keyed {A} (key : A -> string) (m : gmap string A) : Prop := map_Forall (fun k a => k = key a) m.

Lemma keyed_store {A} (key : A -> string) l m : keyed key m -> keyed key (store key m l).
Proof.
  revert m. induction l as [|a l IH]; intros m Hm; [done|]. apply IH. by apply map_Forall_insert_2.
Qed.

Lemma keyed_store_lists {A} (key : A -> string) ls m : keyed key m -> keyed key (foldl (store key) m ls).
Proof. revert m. induction ls as [|l ls IH]; intros m Hm; [done|]. by apply IH, keyed_store. Qed.

Lemma values_perm `{MapRange} {A} (m : gmap string A) : values m ≡ₚ (map_to_list m).*2.
Proof. unfold values. by rewrite map_range_perm. Qed.

Lemma values_keys `{MapRange} {A} (key : A -> string) (m : gmap string A) :
  keyed key m -> key <$> values m = (map_range m).*1.
Proof.
  intros Hk. unfold values. rewrite <- list_fmap_compose. apply list_fmap_ext. intros i [k a] Hi. cbn.
  symmetry. apply Hk. by apply elem_of_map_range, (list_elem_of_lookup_2 _ i).
Qed.

(** the PrometheusRule does not depend on the order in which Go visits the maps
    of the registry: for every registry that can be built by registering rules,
    any two orders give the same spec, so that two rounds of the operator compare
    the same desired object. *)
Theorem spec_deterministic (R1 R2 : MapRange) recordings alerts :
  let r := RegisterAlerts (RegisterRecordingRules NewRegistry recordings) alerts in
  buildPrometheusRuleSpec (H := R1) r = buildPrometheusRuleSpec (H := R2) r.
Proof.
  cbn. set (r := RegisterAlerts _ _).
  assert (keyed recordingKey (registeredRecordingRules r)) as Hr by by apply keyed_store_lists.
  assert (keyed alertKey (registeredAlerts r)) as Ha by by apply keyed_store_lists.
  unfold buildPrometheusRuleSpec, buildRecordingRulesRules, ListAlerts.
  rewrite (SortFunc_perm alertKey (values (H := R1) (registeredAlerts r)) (values (H := R2) (registeredAlerts r))).
  - rewrite (SortFunc_perm recordKey (buildRecordingRule <$> values (H := R1) (registeredRecordingRules r))
               (buildRecordingRule <$> values (H := R2) (registeredRecordingRules r))); [done|..].
    + rewrite <- list_fmap_compose. change (recordKey ∘ buildRecordingRule) with recordingKey.
      rewrite values_keys by done. apply NoDup_map_range.
    + by rewrite !values_perm.
  - rewrite values_keys by done. apply NoDup_map_range.
  - by rewrite !values_perm.
Qed.

(** ** The rules fit together *)

(** Registering rules with different keys keeps them all. *)
Lemma store_values {A} (key : A -> string) l :
  NoDup (key <$> l) -> (map_to_list (store key ∅ l)).*2 ≡ₚ l /\ dom (store key ∅ l) = list_to_set (key <$> l).
Proof.
  induction l as [|a l IH] using rev_ind; intros Hn.
  - change (store key ∅ []) with (∅ : gmap string A). split; [by rewrite map_to_list_empty|apply dom_empty_L].
  - rewrite fmap_app in Hn. apply NoDup_app in Hn as (Hl & Hd & _). destruct (IH Hl) as [IH1 IH2].
    unfold store in *. rewrite foldl_snoc. split.
    + rewrite map_to_list_insert; [|].
      * cbn. rewrite IH1. apply Permutation_cons_append.
      * apply not_elem_of_dom. rewrite IH2, elem_of_list_to_set. intros Hk. apply (Hd _ Hk). by left.
    + rewrite dom_insert_L, IH2, fmap_app, list_to_set_app_L. cbn. set_solver.
Qed.

Lemma store_lists {A} (key : A -> string) ls m : foldl (store key) m ls = store key m (concat ls).
Proof.
  revert m. induction ls as [|l ls IH]; intros m; [done|]. cbn. rewrite IH. unfold store. by rewrite foldl_app.
Qed.

Lemma SortFunc_permutation {A} (key : A -> string) l : SortFunc key l ≡ₚ l.
Proof. apply merge_sort_Permutation. Qed.

(** *** The template of the runbook URLs *)

Lemma prefix_percent c s : c <> percent -> HasPrefix (String c s) "%s" = false.
Proof. intros Hc. unfold HasPrefix. cbn [String.prefix]. by destruct (ascii_dec _ c) as [E|E]; [destruct Hc|]. Qed.

Lemma count_no_percent s : has_byte percent s = false -> Count s "%s" = 0.
Proof.
  unfold Count. induction s as [|c s IH]; [done|]. cbn [has_byte]. intros [Hc Hs]%orb_false_elim.
  apply bool_decide_eq_false in Hc. cbn [count_from]. by rewrite prefix_percent, IH.
Qed.

Lemma count_template pre post :
  has_byte percent pre = false -> has_byte percent post = false -> Count (pre +:+ "%s" +:+ post) "%s" = 1.
Proof.
  intros Hpre Hpost. unfold Count. induction pre as [|c pre IH].
  - change (count_from "%s" 0 (String percent ("s" +:+ post)) = 1). cbn [count_from].
    change (String percent ("s" +:+ post)) with ("%s" +:+ post). unfold HasPrefix. rewrite prefix_app. cbn.
    f_equal. by apply count_no_percent.
  - cbn [has_byte] in Hpre. apply orb_false_elim in Hpre as [Hc Hs]. apply bool_decide_eq_false in Hc.
    rewrite append_cons. cbn [count_from]. by rewrite prefix_percent, IH.
Qed.

(** *** The names in an expression *)

Definition name_byte (c : ascii) : bool :=
  let n := nat_of_ascii c in
  (48 <=? n)%nat && (n <=? 58)%nat || (65 <=? n)%nat && (n <=? 90)%nat
  || (97 <=? n)%nat && (n <=? 122)%nat || (n =? 95)%nat.

(** The maximal runs of letters, digits, underscores and colons. *)
Fixpoint tokens (s : string) : list string :=
  match s with
  | EmptyString => [""]
  | String c s' =>
      if name_byte c then
        match tokens s' with [] => [String c ""] | w :: ws => String c w :: ws end
      else "" :: tokens s'
  end.

(** The metrics of this repository that an expression names. *)
Definition references (expr : string) : list string :=
  filter (fun n => HasPrefix n "kubevirt_ssp_" || HasPrefix n "cluster:" = true) (tokens expr).

Definition metric_names (lists : list (list Metric)) : list string :=
  (fun m => m_Name (metric_Opts m)) <$> concat lists.
Definition record_names (l : list RecordingRule) : list string := (fun r => m_Name (rr_MetricsOpts r)) <$> l.

Definition allRecordingRules : list RecordingRule := operatorRecordingRules ++ vmiRecordingRules.
Definition allMetrics : list string := metric_names (operatorSetupMetrics ++ validatorSetupMetrics).

(** What the monitoring of KubeVirt asks of every alert, apart from the fields
    that [Register] fills in. *)
Definition classified (a : Rule) : bool :=
  bool_decide (is_Some (rule_Annotations a !! "summary")) &&
  match rule_Labels a !! severityAlertLabelKey, rule_Labels a !! healthImpactAlertLabelKey with
  | Some severity, Some health =>
      contains ["critical"; "warning"; "info"] severity && contains ["critical"; "warning"; "none"] health
  | _, _ => false
  end.

Definition resolved (a : Rule) : Prop :=
  Forall (fun n => n ∈ record_names allRecordingRules \/ n ∈ allMetrics) (references (rule_Expr a)).

Lemma alerts_classified : Forall (fun a => classified a = true /\ resolved a) operatorAlerts.
Proof. apply (bool_decide_unpack _). vm_compute. exact I. Qed.

Lemma recordings_resolved : Forall (fun r => Forall (fun n => n ∈ allMetrics) (references (rr_Expr r))) allRecordingRules.
Proof. apply (bool_decide_unpack _). vm_compute. exact I. Qed.

Section correct.
Context `{Process} `{GoFmt} `{MapRange}.

Lemma getRunbookURLTemplate_Ok pre post :
  default defaultRunbookURLTemplate (LookupEnv runbookURLTemplateEnv) = pre +:+ "%s" +:+ post ->
  has_byte percent pre = false -> has_byte percent post = false ->
  getRunbookURLTemplate = Ok (pre +:+ "%s" +:+ post).
Proof.
  unfold getRunbookURLTemplate. intros -> Hpre Hpost. rewrite count_template by done.
  by rewrite bool_decide_false by (intros E; by apply E).
Qed.

Lemma ListAlerts_perm r : ListAlerts r ≡ₚ (map_to_list (registeredAlerts r)).*2.
Proof. unfold ListAlerts. by rewrite SortFunc_permutation, values_perm. Qed.
Lemma ListRecordingRules_perm r : ListRecordingRules r ≡ₚ (map_to_list (registeredRecordingRules r)).*2.
Proof. unfold ListRecordingRules. by rewrite SortFunc_permutation, values_perm. Qed.

(** The registry after [SetupRules] holds every rule of the repository. *)
Lemma SetupRules_lists template r :
  getRunbookURLTemplate = Ok template -> SetupRules NewRegistry = Ok r ->
  ListAlerts r ≡ₚ decorate template <$> operatorAlerts /\ ListRecordingRules r ≡ₚ allRecordingRules.
Proof.
  intros Ht Hr. rewrite ListAlerts_perm, ListRecordingRules_perm.
  unfold SetupRules, alerts_Register in Hr. cbn [mbind outcome_bind recordingrules_Register] in Hr.
  rewrite Ht in Hr. injection Hr as <-. unfold RegisterAlerts, RegisterRecordingRules. cbn [registeredAlerts registeredRecordingRules NewRegistry].
  rewrite !store_lists. split.
  - cbn [concat]. rewrite app_nil_r. apply store_values. rewrite <- list_fmap_compose.
    change (alertKey ∘ decorate template) with alertKey. apply (bool_decide_unpack _). by vm_compute.
  - cbn [concat]. rewrite app_nil_r. apply store_values. apply (bool_decide_unpack _). by vm_compute.
Qed.

Lemma spec_Ok r : registeredRecordingRules r <> ∅ -> is_Ok (buildPrometheusRuleSpec r).
Proof.
  intros Hr. unfold buildPrometheusRuleSpec. rewrite (bool_decide_false (registeredRecordingRules r = ∅)) by done.
  case_bool_decide; by eexists.
Qed.

(** Once the rules are set up, the PrometheusRule can be built. *)
Lemma build_ready encode r namespace :
  SetupRules NewRegistry = Ok r ->
  is_Ok (MetricsOperand.BuildPrometheusRule (H := rule_registry encode r) namespace).
Proof.
  intros (r1 & Hr1 & (template & _ & Hr)%outcome_bind_Ok)%outcome_bind_Ok.
  assert (registeredRecordingRules r <> ∅) as Hne.
  { injection Hr1 as <-. injection Hr as <-. intros E.
    apply (f_equal (fun m => bool_decide (m = ∅))) in E. by vm_compute in E. }
  unfold MetricsOperand.BuildPrometheusRule, rule_registry. cbn [MetricsOperand.registered_rules].
  destruct (spec_Ok r Hne) as [groups ->]. by eexists.
Qed.

(** C15: for every runbook URL template in which [%s] is the only verb the rules are
    registered: all alerts have different names, each has a summary, its runbook
    URL, the labels of the operator and known values of severity and health
    impact, and every metric of this repository that an alert or recording rule
    names is a recording rule or a metric that the operator or the template
    validator exports. The metrics operand can then build its PrometheusRule. *)
Theorem rules_complete encode pre post :
  default defaultRunbookURLTemplate (LookupEnv runbookURLTemplateEnv) = pre +:+ "%s" +:+ post ->
  has_byte percent pre = false -> has_byte percent post = false ->
  exists r, SetupRules NewRegistry = Ok r /\
    NoDup (rule_Alert <$> ListAlerts r) /\
    Forall (fun a =>
      classified a = true /\
      rule_Annotations a !! prometheusRunbookAnnotationKey = Some (pre +:+ rule_Alert a +:+ post) /\
      rule_Labels a !! partOfAlertLabelKey = Some partOfAlertLabelValue /\
      rule_Labels a !! componentAlertLabelKey = Some componentAlertLabelValue /\
      Forall (fun n => n ∈ record_names (ListRecordingRules r) \/ n ∈ allMetrics) (references (rule_Expr a)))
      (ListAlerts r) /\
    Forall (fun rr => Forall (fun n => n ∈ allMetrics) (references (rr_Expr rr))) (ListRecordingRules r) /\
    forall namespace, is_Ok (MetricsOperand.BuildPrometheusRule (H := rule_registry encode r) namespace).
Proof.
  intros Ht Hpre Hpost. pose proof (getRunbookURLTemplate_Ok pre post Ht Hpre Hpost) as Hg.
  assert (exists r, SetupRules NewRegistry = Ok r) as [r Hr].
  { unfold SetupRules, alerts_Register. cbn. rewrite Hg. by eexists. }
  destruct (SetupRules_lists _ _ Hg Hr) as [Ha Hrr].
  assert (record_names (ListRecordingRules r) ≡ₚ record_names allRecordingRules) as Hn.
  { unfold record_names. by rewrite Hrr. }
  exists r. split_and!; [done|..].
  - rewrite Ha, <- list_fmap_compose. apply (bool_decide_unpack _). by vm_compute.
  - rewrite Ha. apply Forall_fmap. eapply Forall_impl; [apply alerts_classified|]. intros a [Hc Hres].
    split_and!.
    + unfold classified in *. cbn. rewrite !lookup_insert_ne by done. done.
    + cbn. rewrite lookup_insert, decide_True by done. by rewrite Sprintf_s.
    + cbn. rewrite lookup_insert_ne by done. by rewrite lookup_insert, decide_True.
    + cbn. by rewrite lookup_insert, decide_True.
    + eapply Forall_impl; [exact Hres|]. intros n. cbn. by rewrite Hn.
  - rewrite Hrr. apply recordings_resolved.
  - intros namespace. by apply build_ready.
Qed.
End correct.

(** The collector lists every name once: no family is a recording rule, and a
    registered metric that is no recording rule is listed. *)
Lemma collect_disjoint `{MapRange} metrics r :
  let '(families, rules) := collect metrics r in
  Forall (fun mf => mf_Name mf ∉ ro_Record <$> rules) families /\
  forall m, m ∈ metrics ->
    m_Name (metric_Opts m) ∈ (mf_Name <$> families) ++ (ro_Record <$> rules).
Proof.
  unfold collect. set (rules := filter _ (ListRecordingRules r)). set (recNames := list_to_set _).
  assert (forall n, n ∈ recNames <-> n ∈ ro_Record <$> ((fun rr => mkRuleOutput (m_Name (rr_MetricsOpts rr)) (rr_Expr rr)
            (base_type (rr_MetricType rr))) <$> rules)) as Hn.
  { intros n. subst recNames. rewrite elem_of_list_to_set, <- list_fmap_compose. done. }
  split.
  - apply Forall_forall. intros mf [Hmf _]%list_elem_of_filter. by rewrite <- Hn.
  - intros m Hm. rewrite elem_of_app. destruct (decide (m_Name (metric_Opts m) ∈ recNames)) as [Hr|Hr].
    + right. by apply Hn.
    + left. apply list_elem_of_fmap. exists (mkFamily (m_Name (metric_Opts m)) (m_Help (metric_Opts m)) (base_type (metric_Type m))).
      split; [done|]. apply list_elem_of_filter. split; [done|]. apply list_elem_of_fmap. exists m. split; [done|].
      apply list_elem_of_filter. split; [apply not_elem_of_empty|done].
Qed.

(** The documentation has every recording rule of the repository; the tool panics
    when the template of the runbook URLs is invalid. *)
Lemma metrics_docs_complete `{Process} `{GoFmt} `{MapRange} register metrics build out :
  metrics_docs register metrics build = Ok out ->
  is_Ok getRunbookURLTemplate /\ exists rules, out = build docs_title metrics rules /\
    rules ≡ₚ allRecordingRules.
Proof.
  unfold metrics_docs, panic_on_error. intros (u1 & _ & Ho)%outcome_bind_Ok.
  apply outcome_bind_Ok in Ho as (u2 & _ & Ho). apply outcome_bind_Ok in Ho as (r & Hr & [= <-]).
  destruct (SetupRules NewRegistry) as [r'| |] eqn:E; simplify_eq. pose proof E as E'.
  unfold SetupRules, alerts_Register in E'. cbn in E'. destruct getRunbookURLTemplate as [t| |] eqn:Et; [|done..].
  split; [by eexists|]. eexists. split; [done|]. apply (SetupRules_lists t r Et E).
Qed.

(** The check of the template does not see that a percent sign is escaped: the
    URL of such a template does not name the alert. *)
Lemma escaped_template_accepted : Count "https://example.com/100%%s" "%s" = 1.
Proof. reflexivity. Qed.

Module RulesWitness.
(** Replaces the first [%s]. *)
Fixpoint substitute (s arg : string) : string :=
  match s with
  | EmptyString => EmptyString
  | String c s' =>
      if HasPrefix s "%s" then arg +:+ drop 1 s' else String c (substitute s' arg)
  end.
Lemma substitute_s pre post arg :
  has_byte percent pre = false -> has_byte percent post = false ->
  substitute (pre +:+ "%s" +:+ post) arg = pre +:+ arg +:+ post.
Proof.
  intros Hpre _. induction pre as [|c pre IH].
  - change (substitute (String percent ("s" +:+ post)) arg = arg +:+ post). cbn [substitute].
    change (String percent ("s" +:+ post)) with ("%s" +:+ post). unfold HasPrefix. by rewrite prefix_app.
  - cbn [has_byte] in Hpre. apply orb_false_elim in Hpre as [Hc Hs]. apply bool_decide_eq_false in Hc.
    rewrite (append_cons c pre ("%s" +:+ post)), (append_cons c pre (arg +:+ post)). cbn [substitute]. by rewrite prefix_percent, IH.
Qed.
Definition fmt : GoFmt := {| Sprintf := substitute; Sprintf_s := substitute_s |}.

Lemma rules_complete_witness :
  exists r, SetupRules (H := Samples.process) (H0 := fmt) NewRegistry = Ok r /\
    NoDup (rule_Alert <$> ListAlerts (H := sorted_range) r).
Proof.
  destruct (rules_complete (H := Samples.process) (H0 := fmt) (H1 := sorted_range) (fun _ => ∅)
              "https://kubevirt.io/monitoring/runbooks/" "") as (r & Hr & Hn & _).
  - reflexivity.
  - reflexivity.
  - reflexivity.
  - exists r. split; [exact Hr|exact Hn].
Defined.
End RulesWitness.
End MonitoringRules.
