(* ===== verification/Setup.v ===== *)
(** * Putting the operator together (internal/controllers/setup.go, internal/env)

    Which controllers and operands the operator creates on which cluster, and
    how the manager is set up: the CRD watch decides once, when a controller is
    added, what is missing, and stops the manager when that answer changes. *)

From stdpp Require Import relations.
From S2P Require Import Prelude GoRuntime KubeTypes SspTypes Architecture KubeClient Cluster Common Samples CrdWatch Resource SspController ControllerProofs Contracts CommonTemplates CommonTemplatesProofs Json TemplateBundle DataSources DataSourcesProofs Controllers Watches Tls StaticOperands TemplateValidatorOperand VmDeleteProtection MetricsOperand VmConsoleProxy VmConsoleProxyProofs.

Module Setup.

(** ** The cluster (env.go) *)

(** What the API server answers about the cluster, and the classification of
    its errors by the client libraries. *)
Class ClusterConfig := {
  get_ClusterVersion : error + unit;
  get_Infrastructure : error + string;
  IsNoMatchError : error -> bool;
  IsGroupDiscoveryFailed : error -> bool
}.

Section cluster.
Context `{ClusterConfig}.

Definition RunningOnOpenshift : outcome bool :=
  match get_ClusterVersion with
  | inl err =>
      if IsNoMatchError err || IsNotFound err || IsGroupDiscoveryFailed err then Ok false
      else Err err
  | inr _ => Ok true
  end.

Definition GetInfrastructureTopology : outcome string :=
  match get_Infrastructure with
  | inl err => Err err
  | inr topology => Ok topology
  end.
End cluster.

(** ** The controllers *)

Definition vmControllerName : string := "vm-controller".
(** [getVmCrd] *)
Definition getVmCrd : string := "virtualmachine" +:+ "s" +:+ "." +:+ "kubevirt.io".

(** The implementations of [Controller], as their constructors leave them. *)
Inductive Controller (W : Type) :=
| serviceReconciler (operatorNamespace : string)
| webhookCtrl
| vmController
| newSspController (topology : string) (operands : list (Operand W)) (olm : bool) (hostname : string).
Arguments serviceReconciler {_}.
Arguments webhookCtrl {_}.
Arguments vmController {_}.
Arguments newSspController {_}.

Definition controller_Name {W} (c : Controller W) : string :=
  match c with
  | serviceReconciler _ => ServiceController.ServiceControllerName
  | webhookCtrl => "validating-webhook-controller"
  | vmController => vmControllerName
  | newSspController _ _ _ _ => "ssp-controller"
  end.

Definition RequiredCrds {W} (c : Controller W) : list string :=
  match c with
  | serviceReconciler _ | webhookCtrl => []
  | vmController => [getVmCrd]
  | newSspController _ ops _ _ => concat (SspController.getRequiredCrds <$> ops)
  end.

Section create.
Context `{Process} `{ClusterConfig} `{R : Tls.TlsRuntime Tls.SSPTLSOptions} `{VmConsoleProxy.ProxyYaml}
  `{MetricsOperand.RuleRegistry} `{MapRange} `{Client W}.
(** The decoder of the templates' objects, the two bundle files. *)
Context (decode : string -> outcome json).
Context (templatesFile : error + list (error + Object))
  (proxyFile : outcome (list VmConsoleProxy.Document)).

Definition CreateServiceController : outcome (Controller W) :=
  namespace ← wrap_err "error getting operator namespace: " Env.GetOperatorNamespace;
  Ok (serviceReconciler namespace).

(** The operands that exist on every cluster. *)
Definition basicOperands (sources : DataSourceCollection) (openshift : bool) : list (Operand W) :=
  [ DataSources.operand (DataSources.mkDataSources sources openshift); VmDeleteProtection.operand ].

(** The operand of a bundle whose fields are all set. *)
Definition proxyOperand (bundle : VmConsoleProxy.Bundle) : outcome (Operand W) :=
  match VmConsoleProxy.New bundle with
  | Some v => Ok (VmConsoleProxy.operand v)
  | None => Panic "invalid memory address or nil pointer dereference"
  end.

Definition openshiftOperands (templates : list Object) (bundle : VmConsoleProxy.Bundle)
    : outcome (list (Operand W)) :=
  templatesOperand ← wrap_err "failed to create common templates operand: " (CommonTemplates.New templates);
  proxy ← proxyOperand bundle;
  Ok [ MetricsOperand.operand; TemplateValidatorOperand.operand;
       CommonTemplates.operand templatesOperand; proxy ].

Definition CreateControllers (olmDeployment : bool) (sspServiceHostname : string)
    : outcome (list (Controller W)) :=
  runningOnOpenShift ← wrap_err "failed to check if running on openshift: " RunningOnOpenshift;
  templates ← wrap_err "failed to read template bundle: " (TemplateBundle.ReadTemplates templatesFile);
  sources ← wrap_err "failed to collect DataSource names from templates: "
    (TemplateBundle.CollectDataSources decode templates);
  bundle ← wrap_err "failed to read vm-console-proxy bundle: "
    (docs ← proxyFile; VmConsoleProxy.ReadBundle docs);
  more ← (if (runningOnOpenShift : bool) then openshiftOperands templates bundle else Ok []);
  topology ← (if (runningOnOpenShift : bool)
              then wrap_err "failed to get infrastructure topology: " GetInfrastructureTopology
              else Ok "HighlyAvailable");
  serviceController ← wrap_err "failed to create service controller: " CreateServiceController;
  Ok [ serviceController; webhookCtrl; vmController;
       newSspController topology (basicOperands sources runningOnOpenShift ++ more)
         olmDeployment sspServiceHostname ].
End create.

(** ** The manager *)

(** What controller-runtime answers when something is added to the manager. *)
Class Manager := {
  mgr_Add : string -> option error;
  mgr_Complete : string -> option error;
  mgr_Start : option error
}.

Definition or_error {A} (e : option error) (a : A) : outcome A :=
  match e with Some err => Err err | None => Ok a end.

(** What [AddToManager] leaves behind: a runnable, a controller, or nothing. The
    watches are those for the objects of the operands; the watch of the SSP itself
    ([Watches.watchSspResource]) does not depend on the cluster. *)
Inductive Registered (W : Type) :=
| RegRunnable (operatorNamespace : string)
| RegWebhook
| RegVm
| RegNothing
| RegSsp (c : SspController.sspController W) (watches : list Watches.Watch).
Arguments RegRunnable {_}.
Arguments RegWebhook {_}.
Arguments RegVm {_}.
Arguments RegNothing {_}.
Arguments RegSsp {_}.

Section manager.
Context `{Manager} `{SetRange} `{MapRange} {W : Type}.

Definition service_AddToManager (operatorNamespace : string) : outcome (Registered W) :=
  or_error (mgr_Add ServiceController.ServiceControllerName) (RegRunnable operatorNamespace).

Definition webhook_AddToManager : outcome (Registered W) :=
  or_error (mgr_Complete (controller_Name (W := W) webhookCtrl)) RegWebhook.

Definition vm_AddToManager (crdWatch : CrdWatch.CrdWatch) : outcome (Registered W) :=
  crdExists ← CrdWatch.CrdExists crdWatch getVmCrd;
  if (crdExists : bool) then or_error (mgr_Complete vmControllerName) RegVm else Ok RegNothing.

(** The controller asks the CRD watch once, here, what is missing. *)
Definition ssp_AddToManager (crdWatch : CrdWatch.CrdWatch) (topology : string) (ops : list (Operand W))
    (olm : bool) (hostname : string) : outcome (Registered W) :=
  _ ← CrdWatch.MissingCrds crdWatch;
  let crdList := CrdWatch.view crdWatch in
  or_error (mgr_Complete "ssp-controller")
    (RegSsp (SspController.NewSspController topology ops olm hostname crdList)
       (Watches.watchClusterResources crdList ops ++ Watches.watchNamespacedResources crdList ops)).

Definition AddToManager (crdWatch : CrdWatch.CrdWatch) (c : Controller W) : outcome (Registered W) :=
  match c with
  | serviceReconciler ns => service_AddToManager ns
  | webhookCtrl => webhook_AddToManager
  | vmController => vm_AddToManager crdWatch
  | newSspController topology ops olm hostname => ssp_AddToManager crdWatch topology ops olm hostname
  end.

(** [listed] is the answer of the API server to the list of CRDs. *)
Definition setupManager (controllers : list (Controller W)) (listed : error + list string)
    : outcome (CrdWatch.CrdWatch * list (Registered W)) :=
  let requiredCrds := concat (RequiredCrds <$> controllers) in
  let crdWatch := CrdWatch.set_handlers (CrdWatch.New requiredCrds) in
  crdWatch ← wrap_err "failed to initialize CRD watch: " (CrdWatch.Init crdWatch listed);
  _ ← CrdWatch.MissingCrds crdWatch;
  _ ← wrap_err "failed to add CRD watch to manager: " (or_error (mgr_Add "crd-watch") tt);
  registered ← mapM (fun c => wrap_err ("error adding " +:+ controller_Name c +:+ ": ")
                                (AddToManager crdWatch c)) controllers;
  Ok (crdWatch, registered).

Definition StartControllers (controllers : list (Controller W)) (listed : error + list string)
    : outcome unit :=
  _ ← wrap_err "failed to setup manager: " (setupManager controllers listed);
  wrap_err "failed to start manager: " (or_error mgr_Start tt).
End manager.

(** ** Correctness *)

Definition operandNames (openshift : bool) : list string :=
  ["data-sources"; "vm-delete-protection"] ++
  if openshift then ["metrics"; "template-validator"; "common-templates"; "vm-console-proxy"] else [].

Definition requiredNames (openshift : bool) : list string :=
  [getVmCrd; DataSources.dataSourceCrd; DataSources.dataImportCronCrd] ++
  if openshift then [MetricsOperand.prometheusRulesCrd; MetricsOperand.prometheusRulesCrd] else [].

Section created.
Context `{Process} `{ClusterConfig} `{R : Tls.TlsRuntime Tls.SSPTLSOptions} `{VmConsoleProxy.ProxyYaml}
  `{MetricsOperand.RuleRegistry} `{MapRange} `{Client W}.
Context (decode : string -> outcome json).
Context (templatesFile : error + list (error + Object))
  (proxyFile : outcome (list VmConsoleProxy.Document)).

Lemma wrap_err_Ok {A} prefix (m : outcome A) a : wrap_err prefix m = Ok a <-> m = Ok a.
Proof. by destruct m. Qed.

(** What the operands of a cluster have in common, whatever their state. *)
Definition declared (openshift : bool) (ops : list (Operand W)) : Prop :=
  Forall OperandContract ops /\ operand_Name <$> ops = operandNames openshift /\
  concat (SspController.getRequiredCrds <$> ops) = tail (requiredNames openshift).

Lemma openshiftOperands_declared sources templates bundle more :
  openshiftOperands templates bundle = Ok more -> declared true (basicOperands sources true ++ more).
Proof.
  unfold openshiftOperands, proxyOperand. intros (t & _ & Hm)%outcome_bind_Ok.
  apply outcome_bind_Ok in Hm as (p & Hp & [= <-]). case_match; simplify_eq.
  split; [|by split]. repeat apply Forall_cons_2; try apply Forall_nil_2.
  - apply dataSources_contract.
  - apply VmDeleteProtection.vmDeleteProtection_contract.
  - apply MetricsOperand.metrics_contract.
  - apply TemplateValidatorOperand.templateValidator_contract.
  - apply commonTemplates_contract.
  - apply VmConsoleProxyProofs.vmConsoleProxy_contract.
Qed.

Lemma basicOperands_declared sources : declared false (basicOperands sources false).
Proof.
  split; [|by split]. repeat apply Forall_cons_2; try apply Forall_nil_2.
  - apply dataSources_contract.
  - apply VmDeleteProtection.vmDeleteProtection_contract.
Qed.

Lemma created_shape olm hostname cs :
  CreateControllers decode templatesFile proxyFile olm hostname = Ok cs ->
  exists openshift ns topology ops,
    RunningOnOpenshift = Ok openshift /\ declared openshift ops /\
    (openshift = false -> topology = "HighlyAvailable") /\
    cs = [serviceReconciler ns; webhookCtrl; vmController; newSspController topology ops olm hostname].
Proof.
  unfold CreateControllers. intros (openshift & Ho%wrap_err_Ok & Hc)%outcome_bind_Ok.
  apply outcome_bind_Ok in Hc as (templates & _ & Hc). apply outcome_bind_Ok in Hc as (sources & _ & Hc).
  apply outcome_bind_Ok in Hc as (bundle & _ & Hc). apply outcome_bind_Ok in Hc as (more & Hm & Hc).
  apply outcome_bind_Ok in Hc as (topology & Ht & Hc).
  apply outcome_bind_Ok in Hc as (c & Hs%wrap_err_Ok & [= <-]).
  apply outcome_bind_Ok in Hs as (ns & _ & [= <-]).
  exists openshift, ns, topology, (basicOperands sources openshift ++ more).
  split; [done|]. split_and!; [|by intros ->; simplify_eq/=|done].
  destruct openshift; [by apply (openshiftOperands_declared sources templates bundle)|].
  injection Hm as <-. rewrite app_nil_r. apply basicOperands_declared.
Qed.

(** The controllers that are created depend on the cluster only through the
    operands of the SSP controller: outside OpenShift these are the data sources
    and the delete protection, on OpenShift the four others too. Every operand
    keeps the contract of the controller, their names differ, and the CRDs that
    the operator waits for are exactly those that they declare, and the one of
    virtual machines. *)
Theorem CreateControllers_operands olm hostname cs :
  CreateControllers decode templatesFile proxyFile olm hostname = Ok cs ->
  exists openshift ns topology ops,
    RunningOnOpenshift = Ok openshift /\
    cs = [serviceReconciler ns; webhookCtrl; vmController; newSspController topology ops olm hostname] /\
    Forall OperandContract ops /\ operand_Name <$> ops = operandNames openshift /\
    NoDup (operand_Name <$> ops) /\ concat (RequiredCrds <$> cs) = requiredNames openshift.
Proof.
  intros (openshift & ns & topology & ops & Ho & (HC & Hn & Hr) & _ & ->)%created_shape.
  exists openshift, ns, topology, ops. split_and!; try done.
  - rewrite Hn. destruct openshift; apply (bool_decide_unpack (NoDup _)); by vm_compute.
  - cbn. by rewrite app_nil_r, Hr.
Qed.
End created.

(** *** A running manager *)

Section running.
Context `{SetRange}.

(** A watch whose handlers stop the manager. *)
Record armed (c : CrdWatch.CrdWatch) : Prop := {
  armed_inv : CrdWatch.inv c;
  armed_init : CrdWatch.initialized c = true;
  armed_added : CrdWatch.AllCrdsAddedHandler c = true;
  armed_removed : CrdWatch.SomeCrdRemovedHandler c = true
}.

(** The watch went on from [c] to [c']: it called handlers, or the answer to
    whether CRDs are missing is the same. *)
Definition notices (c c' : CrdWatch.CrdWatch) : Prop :=
  armed c' /\ exists l, CrdWatch.calls c' = CrdWatch.calls c ++ l /\
    (l = [] -> CrdWatch.complete c' = CrdWatch.complete c).

Lemma notices_trans c1 c2 c3 : notices c1 c2 -> notices c2 c3 -> notices c1 c3.
Proof.
  intros (_ & l1 & H1 & E1) (Ha & l2 & H2 & E2). split; [done|]. exists (l1 ++ l2).
  rewrite H2, H1, app_assoc. split; [done|]. intros [-> ->]%app_eq_nil. by rewrite E2, E1.
Qed.

Lemma notices_refl c : armed c -> notices c c.
Proof. intros Ha. split; [done|]. exists []. by rewrite app_nil_r. Qed.

Lemma armed_crdAdded c n : armed c -> armed (CrdWatch.crdAdded c n).
Proof.
  intros []. split; [by apply CrdWatch.inv_crdAdded|..]; unfold CrdWatch.crdAdded; by repeat case_match.
Qed.

Lemma armed_crdDeleted c n : armed c -> armed (CrdWatch.crdDeleted c n).
Proof.
  intros []. split; [by apply CrdWatch.inv_crdDeleted|..]; unfold CrdWatch.crdDeleted; by repeat case_match.
Qed.

Lemma notices_crdAdded c n : armed c -> notices c (CrdWatch.crdAdded c n).
Proof.
  intros Ha. split; [by apply armed_crdAdded|]. destruct Ha.
  destruct (CrdWatch.handlers_fire c n) as [E _]; try done. rewrite E. eexists. split; [done|].
  pose proof (CrdWatch.crdAdded_sets c n) as (_ & Hm & _). unfold CrdWatch.complete in *. rewrite Hm.
  destruct (decide (CrdWatch.missingCrds c = ∅)) as [->|Hne].
  - assert (∅ ∖ {[n]} =@{gset string} ∅) as -> by set_solver. done.
  - rewrite (bool_decide_false (CrdWatch.missingCrds c = ∅)) by done.
    by destruct (bool_decide (_ ∖ _ = ∅)).
Qed.

Lemma notices_crdDeleted c n : armed c -> notices c (CrdWatch.crdDeleted c n).
Proof.
  intros Ha. split; [by apply armed_crdDeleted|]. destruct Ha.
  destruct (CrdWatch.handlers_fire c n) as [_ E]; try done. rewrite E. eexists. split; [done|].
  pose proof (CrdWatch.crdDeleted_sets c n) as (_ & Hm & _). unfold CrdWatch.complete in *.
  destruct (decide (CrdWatch.missingCrds c = ∅)) as [->|Hne].
  - rewrite (bool_decide_true (∅ = ∅)) by done.
    by destruct (bool_decide (CrdWatch.missingCrds (CrdWatch.crdDeleted c n) = ∅)).
  - intros _. rewrite Hm, (bool_decide_false (CrdWatch.missingCrds c = ∅)) by done.
    apply bool_decide_false. case_bool_decide; set_solver.
Qed.

Lemma notices_foldl (f : CrdWatch.CrdWatch -> string -> CrdWatch.CrdWatch) l :
  (forall c n, armed c -> notices c (f c n)) -> forall c, armed c -> notices c (foldl f c l).
Proof.
  intros Hf. induction l as [|n l IH]; intros c Hc; cbn; [by apply notices_refl|].
  pose proof (Hf c n Hc) as Hn. eapply notices_trans; [done|]. apply IH, Hn.
Qed.

Lemma notices_sync c listed c' : armed c -> CrdWatch.sync c listed = Ok c' -> notices c c'.
Proof.
  intros Ha (names & _ & ->)%CrdWatch.sync_fold.
  pose proof (notices_foldl CrdWatch.crdAdded
    (set_range ((list_to_set names : gset string) ∖ CrdWatch.existingCrds c)) notices_crdAdded c Ha) as Hn.
  eapply notices_trans; [done|]. apply notices_foldl; [apply notices_crdDeleted|apply Hn].
Qed.

Lemma notices_step c c' : armed c -> CrdWatch.step c c' -> notices c c'.
Proof.
  intros Ha. destruct 1 as [c n|c obj c' Hd|c l c' Hs|c l c' Hi|c].
  - by apply notices_crdAdded.
  - destruct obj; simplify_eq/=. by apply notices_crdDeleted.
  - by eapply notices_sync.
  - apply outcome_bind_Ok in Hi as (c1 & Hs & [= <-]).
    destruct (notices_sync _ _ _ Ha Hs) as ([] & Hl). split; [by split|exact Hl].
  - destruct Ha. split; [by split|]. exists []. by rewrite app_nil_r.
Qed.

Lemma notices_steps c c' : armed c -> rtc CrdWatch.step c c' -> notices c c'.
Proof.
  intros Ha Hs. induction Hs as [c|c c1 c' H1 _ IH]; [by apply notices_refl|].
  pose proof (notices_step _ _ Ha H1) as Hn. eapply notices_trans; [done|]. apply IH, Hn.
Qed.

Context `{Manager} `{MapRange} {W : Type}.

Lemma setup_armed (controllers : list (Controller W)) listed crdWatch registered :
  setupManager controllers listed = Ok (crdWatch, registered) ->
  armed crdWatch /\ mapM (fun c => wrap_err ("error adding " +:+ controller_Name c +:+ ": ")
                                   (AddToManager crdWatch c)) controllers = Ok registered.
Proof.
  unfold setupManager. intros (c & Hi%wrap_err_Ok & Hr)%outcome_bind_Ok.
  apply outcome_bind_Ok in Hr as (names & _ & Hr). apply outcome_bind_Ok in Hr as (u & _ & Hr).
  apply outcome_bind_Ok in Hr as (regs & Hm & [= <- <-]). split; [|done].
  apply outcome_bind_Ok in Hi as (c1 & Hs & [= <-]).
  set (c0 := CrdWatch.set_handlers _) in Hs.
  assert (Hc1 : CrdWatch.inv c1 /\ CrdWatch.AllCrdsAddedHandler c1 = true /\ CrdWatch.SomeCrdRemovedHandler c1 = true).
  { apply CrdWatch.sync_fold in Hs as (ns & _ & ->). split.
    - apply CrdWatch.foldl_keeps; [apply CrdWatch.inv_crdDeleted|].
      apply CrdWatch.foldl_keeps; [apply CrdWatch.inv_crdAdded|]. unfold CrdWatch.inv. cbn. set_solver.
    - apply (CrdWatch.foldl_keeps (fun c => CrdWatch.AllCrdsAddedHandler c = true /\ CrdWatch.SomeCrdRemovedHandler c = true)).
      { intros c n. unfold CrdWatch.crdDeleted. by repeat case_match. }
      apply (CrdWatch.foldl_keeps (fun c => CrdWatch.AllCrdsAddedHandler c = true /\ CrdWatch.SomeCrdRemovedHandler c = true)); [|done].
      intros c n. unfold CrdWatch.crdAdded. by repeat case_match. }
  destruct Hc1 as (Hinv & Ha & Hd). by split.
Qed.

Lemma registered_ssp crdWatch (controllers : list (Controller W)) registered c watches :
  mapM (fun c => wrap_err ("error adding " +:+ controller_Name c +:+ ": ")
                   (AddToManager crdWatch c)) controllers = Ok registered ->
  RegSsp c watches ∈ registered ->
  exists topology ops olm hostname, newSspController topology ops olm hostname ∈ controllers /\
    c = SspController.NewSspController topology ops olm hostname (CrdWatch.view crdWatch) /\
    watches = Watches.watchClusterResources (CrdWatch.view crdWatch) ops ++
              Watches.watchNamespacedResources (CrdWatch.view crdWatch) ops.
Proof.
  intros Hm%mapM_outcome_Ok Hin. apply list_elem_of_lookup in Hin as [i Hi].
  destruct (Forall2_lookup_r _ _ _ _ _ Hm Hi) as (ctl & Hc & Ha%wrap_err_Ok).
  destruct ctl as [| | |topology ops olm hostname]; cbn in Ha;
    unfold service_AddToManager, webhook_AddToManager, vm_AddToManager, ssp_AddToManager, or_error in Ha.
  - by case_match.
  - by case_match.
  - apply outcome_bind_Ok in Ha as ([] & _ & Ha); [by case_match|done].
  - apply outcome_bind_Ok in Ha as (names & _ & Ha). case_match; simplify_eq.
    exists topology, ops, olm, hostname. split; [by eapply list_elem_of_lookup_2|done].
Qed.

Lemma missing_complete crdWatch topology ops olm hostname :
  SspController.areCrdsMissing (W := W)
    (SspController.NewSspController topology ops olm hostname (CrdWatch.view crdWatch))
  = negb (CrdWatch.complete crdWatch).
Proof.
  unfold SspController.NewSspController, CrdWatch.complete. cbn. rewrite <- bool_decide_not.
  apply bool_decide_ext. pose proof (list_to_set_range (CrdWatch.missingCrds crdWatch)) as E.
  destruct (set_range (CrdWatch.missingCrds crdWatch)) as [|x l]; cbn in *; rewrite <- E.
  - split; [by intros ?%Nat.lt_irrefl|done].
  - split; [intros _; set_solver|intros _; apply Nat.lt_0_succ].
Qed.

(** The watch asks for the CRDs of all controllers. *)
Lemma setup_required (controllers : list (Controller W)) listed crdWatch registered :
  setupManager controllers listed = Ok (crdWatch, registered) ->
  CrdWatch.requiredCrds crdWatch = list_to_set (concat (RequiredCrds <$> controllers)).
Proof.
  unfold setupManager. intros (c & Hi%wrap_err_Ok & Hr)%outcome_bind_Ok.
  apply outcome_bind_Ok in Hr as (names & _ & Hr). apply outcome_bind_Ok in Hr as (u & _ & Hr).
  apply outcome_bind_Ok in Hr as (regs & _ & [= <- _]). apply outcome_bind_Ok in Hi as (c1 & Hs & [= <-]).
  apply CrdWatch.sync_fold in Hs as (ns & _ & ->). cbn.
  rewrite !CrdWatch.required_foldl; [done|intros; apply CrdWatch.crdAdded_sets|intros; apply CrdWatch.crdDeleted_sets].
Qed.

Lemma no_crd_missing crdWatch topology ops olm hostname crd :
  armed crdWatch -> crd ∈ CrdWatch.requiredCrds crdWatch ->
  SspController.areCrdsMissing (W := W)
    (SspController.NewSspController topology ops olm hostname (CrdWatch.view crdWatch)) = false ->
  CrdExists (CrdWatch.view crdWatch) crd = true.
Proof.
  intros Ha Hc. rewrite missing_complete, negb_false_iff. unfold CrdWatch.complete.
  rewrite bool_decide_eq_true, (armed_inv _ Ha). intros Hm. unfold CrdExists. apply contains_true. cbn.
  rewrite set_range_perm, elem_of_elements. set_solver.
Qed.

(** C21: the decision of the SSP controller, taken when it is added to the manager,
    whether CRDs are missing is never out of date: as long as the CRD watch, in
    any sequence of events, lists and handlers, has not stopped the manager, it
    still agrees with what the watch knows. *)
Theorem decision_up_to_date (controllers : list (Controller W)) listed crdWatch registered c watches crdWatch' :
  setupManager controllers listed = Ok (crdWatch, registered) -> RegSsp c watches ∈ registered ->
  rtc CrdWatch.step crdWatch crdWatch' ->
  CrdWatch.calls crdWatch' = CrdWatch.calls crdWatch ->
  (SspController.areCrdsMissing c = true <-> CrdWatch.missingCrds crdWatch' <> ∅).
Proof.
  intros [Ha Hm]%setup_armed Hr Hs Hcalls.
  destruct (registered_ssp _ _ _ _ _ Hm Hr) as (topology & ops & olm & hostname & _ & -> & _).
  destruct (notices_steps _ _ Ha Hs) as (_ & l & Hl & He). rewrite Hcalls in Hl.
  assert (l = []) as Hn by (apply (app_inv_head (CrdWatch.calls crdWatch)); by rewrite app_nil_r).
  rewrite missing_complete, <- (He Hn). unfold CrdWatch.complete.
  rewrite negb_true_iff. by rewrite bool_decide_eq_false.
Qed.
End running.

(** *** The operator as a whole *)

Section operator.
Context `{Process} `{ClusterConfig} `{R : Tls.TlsRuntime Tls.SSPTLSOptions} `{VmConsoleProxy.ProxyYaml}
  `{MetricsOperand.RuleRegistry} `{MapRange} `{SetRange} `{Manager} `{Client W}.
Context (decode : string -> outcome json).
Context (templatesFile : error + list (error + Object))
  (proxyFile : outcome (list VmConsoleProxy.Document)).

End operator.

(** *** Instances *)

Module SetupWitness.
Definition kubernetes : ClusterConfig := {|
  get_ClusterVersion := inl (EStatus StatusReasonNotFound "not found");
  get_Infrastructure := inl (EMsg "no such kind");
  IsNoMatchError := fun _ => false; IsGroupDiscoveryFailed := fun _ => false |}.
Definition openshift : ClusterConfig := {|
  get_ClusterVersion := inr tt; get_Infrastructure := inr "SingleReplica";
  IsNoMatchError := fun _ => false; IsGroupDiscoveryFailed := fun _ => false |}.
Definition manager : Manager :=
  {| mgr_Add := fun _ => None; mgr_Complete := fun _ => None; mgr_Start := None |}.

Definition decode (s : string) : outcome json := Ok (JObject []).
Definition create (config : ClusterConfig) : outcome (list (Controller MemCluster)) :=
  CreateControllers (H := Samples.process) (H0 := config) (R := Tls.TlsWitness.runtime)
    (H1 := VmConsoleProxyProofs.ProxyWitness.plain_yaml) (H2 := MetricsOperand.MetricsWitness.no_rules)
    (H3 := sorted_range) decode (inr []) (Ok VmConsoleProxyProofs.ProxyWitness.docs) false "ssp".
Definition controllers (config : ClusterConfig) : list (Controller MemCluster) :=
  match create config with Ok cs => cs | _ => [] end.

Lemma CreateControllers_operands_witness :
  exists os ns topology ops,
    RunningOnOpenshift (H := openshift) = Ok os /\
    controllers openshift = [serviceReconciler ns; webhookCtrl; vmController;
                             newSspController topology ops false "ssp"] /\
    Forall OperandContract ops /\ operand_Name <$> ops = operandNames os /\
    NoDup (operand_Name <$> ops) /\ concat (RequiredCrds <$> controllers openshift) = requiredNames os.
Proof.
  apply (CreateControllers_operands (H := Samples.process) (H0 := openshift) (R := Tls.TlsWitness.runtime)
           (H1 := VmConsoleProxyProofs.ProxyWitness.plain_yaml) (H2 := MetricsOperand.MetricsWitness.no_rules)
           (H3 := sorted_range) decode (inr []) (Ok VmConsoleProxyProofs.ProxyWitness.docs) false "ssp").
  reflexivity.
Defined.

(** A manager that was set up while the CRDs of CDI did not exist. *)
Definition set_up : CrdWatch.CrdWatch * list (Registered MemCluster) :=
  match setupManager (H := manager) (H0 := sorted_set_range) (H1 := sorted_range)
          (controllers kubernetes) (inr [getVmCrd]) with
  | Ok r => r
  | _ => (CrdWatch.New [], [])
  end.
Definition ssp_of (regs : list (Registered MemCluster)) : SspController.sspController MemCluster :=
  match regs with
  | [_; _; _; RegSsp c _] => c
  | _ => SspController.mkController [] "" false false "" (mkCrdList [] [])
  end.
Definition watches_of (regs : list (Registered MemCluster)) : list Watches.Watch :=
  match regs with [_; _; _; RegSsp _ ws] => ws | _ => [] end.
Definition later : CrdWatch.CrdWatch := CrdWatch.crdAdded set_up.1 DataSources.dataSourceCrd.

Lemma decision_up_to_date_witness :
  SspController.areCrdsMissing (ssp_of set_up.2) = true <-> CrdWatch.missingCrds later <> ∅.
Proof.
  apply (decision_up_to_date (H := sorted_set_range) (H0 := manager) (H1 := sorted_range)
           (controllers kubernetes) (inr [getVmCrd]) set_up.1 set_up.2 (ssp_of set_up.2)
           (watches_of set_up.2) later).
  - reflexivity.
  - right. right. right. left.
  - apply rtc_once, CrdWatch.step_add.
  - reflexivity.
Defined.

(** The deletion of an SSP outside OpenShift, in an empty cluster. *)
Definition request : Request := with_instance Samples.request ControllerWitness.deleting.
Definition state : OpSt MemCluster := ControllerWitness.state ControllerWitness.deleting.
Definition trace : list ApiCall := op_trace (SspController.cleanup (ssp_of set_up.2) request state).2.
Definition finalized : SSP :=
  match trace !! 13 with Some (CUpdateSSP u) => u | _ => ControllerWitness.deleting end.

End SetupWitness.
End Setup.
