(* ===== verification/FileWatch.v ===== *)
(** * Watching files (internal/template-validator/filewatch/filewatch.go)

    A watch maps directories to callbacks. [Run] registers the directories with
    the operating system, then runs every callback, then runs the callbacks of a
    directory whenever an event of it arrives. The files change at any time, the
    loop around [Run] restarts it after an error, and [Add] may be called by
    other goroutines; an execution is a sequence of steps of these parties.

    A callback reads its files and stores the result in one step: all callbacks
    run in the goroutine of the watch, and a change of the files while one runs
    is in the order of the steps a change after it. *)

From stdpp Require Import relations.
From S2P Require Import Prelude GoRuntime.

Module FileWatch.

(** ** Events of fsnotify *)

(** The bits of [fsnotify.Op]. *)
Definition Create : Z := 1.
Definition Write : Z := 2.
Definition Remove : Z := 4.
Definition Rename : Z := 8.
Definition Chmod : Z := 16.
Definition modificationEvents : Z := Z.lor (Z.lor Create Write) Remove.

Record Event := mkEvent { ev_Name : string; ev_Op : Z }.

(** [handleEvent] returns at once for the other events. *)
Definition modification (e : Event) : bool := bool_decide (Z.land (ev_Op e) modificationEvents <> 0%Z).

Section watch.
(** The files, and the state that the callbacks change. *)
Context {D S : Type}.
Definition Callback := D -> S -> S.

(** *** The watch *)

Record watch := mkWatch { callbacks : gmap string Callback; running : bool }.

Definition New : watch := mkWatch ∅ false.

(** Under the lock. *)
Definition Add (w : watch) (path : string) (callback : Callback) : outcome watch :=
  if running w then Err (EMsg "cannot add to a running watch")
  else Ok (mkWatch (<[path := callback]> (callbacks w)) (running w)).

Definition set_running (w : watch) (b : bool) : watch := mkWatch (callbacks w) b.

(** One iteration of the loop of [handleEvent]. *)
Definition handle (e : Event) (path : string) (callback : Callback) (d : D) (s : S) : S :=
  if HasPrefix (ev_Name e) path then callback d s else s.

(** *** Executions *)

(** Where the goroutine that runs the watch is: before [Run], in [Run] before
    and while the directories are registered, in [runCallbacks], in the [select]
    of [processEvents], in [handleEvent], between two runs, or finished. A range
    over the callbacks has the rest of its entries. *)
Inductive Phase :=
| Top
| Starting
| Registering (rest : list (string * Callback))
| Calling (rest : list (string * Callback))
| Processing
| Handling (e : Event) (rest : list (string * Callback))
| Waiting
| Exited.

Record Sys := mkSys {
  files : D;
  state : S;
  w : watch;
  watched : gset string; (* directories registered with the operating system *)
  queue : list Event; (* [watcher.Events] *)
  stopped : bool; (* the channel [done] is closed *)
  phase : Phase
}.

Definition at_phase (s : Sys) (p : Phase) : Sys :=
  mkSys (files s) (state s) (w s) (watched s) (queue s) (stopped s) p.
(** The deferred calls of [Run]: the watcher is closed, [running] is reset. *)
Definition leave (s : Sys) (p : Phase) : Sys :=
  mkSys (files s) (state s) (set_running (w s) false) ∅ [] (stopped s) p.

(** [changes p d d']: the files of directory [p] change from [d] to [d'];
    [allowed p f]: the client of the watch adds callback [f] for directory [p]. *)
Context (changes : string -> D -> D -> Prop) (allowed : string -> Callback -> Prop).

(** Steps of the file system and of other goroutines. *)
Inductive env_step : Sys -> Sys -> Prop :=
(* the files change; the kernel reports it if the directory is registered *)
| step_change s p d e : changes p (files s) d -> modification e = true -> HasPrefix (ev_Name e) p = true ->
    env_step s (mkSys d (state s) (w s) (watched s)
              (if bool_decide (p ∈ watched s) then queue s ++ [e] else queue s) (stopped s) (phase s))
(* any other event *)
| step_event s e :
    env_step s (mkSys (files s) (state s) (w s) (watched s) (queue s ++ [e]) (stopped s) (phase s))
(* another goroutine *)
| step_stop s :
    env_step s (mkSys (files s) (state s) (w s) (watched s) (queue s) true (phase s))
| step_add s path callback w' : allowed path callback -> Add (w s) path callback = Ok w' ->
    env_step s (mkSys (files s) (state s) w' (watched s) (queue s) (stopped s) (phase s)).

(** Steps of the goroutine: the loop around [Run], and [Run]. *)
Inductive run_step : Sys -> Sys -> Prop :=
| step_exit s : phase s = Top \/ phase s = Waiting -> stopped s = true -> run_step s (at_phase s Exited)
| step_again s : phase s = Waiting -> run_step s (at_phase s Top)
(* [Run] *)
| step_NewWatcher s : phase s = Top ->
    run_step s (mkSys (files s) (state s) (w s) ∅ [] (stopped s) Starting)
| step_NewWatcher_error s : phase s = Top -> run_step s (at_phase s Waiting)
| step_running s rest : phase s = Starting -> rest ≡ₚ map_to_list (callbacks (w s)) ->
    run_step s (mkSys (files s) (state s) (set_running (w s) true) (watched s) (queue s) (stopped s)
              (Registering rest))
| step_register s path callback rest : phase s = Registering ((path, callback) :: rest) ->
    run_step s (mkSys (files s) (state s) (w s) ({[path]} ∪ watched s) (queue s) (stopped s)
              (Registering rest))
| step_register_error s path callback rest : phase s = Registering ((path, callback) :: rest) ->
    run_step s (leave s Waiting)
| step_registered s rest : phase s = Registering [] -> rest ≡ₚ map_to_list (callbacks (w s)) ->
    run_step s (at_phase s (Calling rest))
| step_call s path callback rest : phase s = Calling ((path, callback) :: rest) ->
    run_step s (mkSys (files s) (callback (files s) (state s)) (w s) (watched s) (queue s) (stopped s)
              (Calling rest))
| step_called s : phase s = Calling [] -> run_step s (at_phase s Processing)
| step_done s : phase s = Processing -> stopped s = true -> run_step s (leave s Exited)
| step_closed s : phase s = Processing -> run_step s (leave s Exited)
| step_error s : phase s = Processing -> run_step s (leave s Waiting)
| step_ignore s e q : phase s = Processing -> queue s = e :: q -> modification e = false ->
    run_step s (mkSys (files s) (state s) (w s) (watched s) q (stopped s) Processing)
| step_take s e q rest : phase s = Processing -> queue s = e :: q -> modification e = true ->
    rest ≡ₚ map_to_list (callbacks (w s)) ->
    run_step s (mkSys (files s) (state s) (w s) (watched s) q (stopped s) (Handling e rest))
| step_handle s e path callback rest : phase s = Handling e ((path, callback) :: rest) ->
    run_step s (mkSys (files s) (handle e path callback (files s) (state s)) (w s) (watched s) (queue s)
              (stopped s) (Handling e rest))
| step_handled s e : phase s = Handling e [] -> run_step s (at_phase s Processing).

Definition step (s s' : Sys) : Prop := env_step s s' \/ run_step s s'.

Definition initial (d : D) (s : S) (w : watch) : Sys := mkSys d s w ∅ [] false Top.

(** A callback that was added stays. *)
Lemma callbacks_grow s s' :
  rtc step s s' -> dom (callbacks (w s)) ⊆ dom (callbacks (w s')).
Proof.
  induction 1 as [|s1 s2 s3 Hs _ IH]; [done|]. etransitivity; [|exact IH].
  destruct Hs as [Hs|Hs]; [|by destruct Hs]. destruct Hs as [| | |s p f w' _ Hw]; try done.
  unfold Add in Hw. destruct (running (w s)); [done|]. injection Hw as <-. cbn. rewrite dom_insert. set_solver.
Qed.

(** ** No change is missed *)

(** What the callbacks achieve: [fresh p d s] says that the state [s] reflects
    the files [d] of directory [p]. *)
Class Reflects (fresh : string -> D -> S -> Prop) : Prop := {
  reflects_own p f d s : allowed p f -> fresh p d (f d s);
  reflects_other p q f d s : allowed p f -> p <> q -> fresh q d s -> fresh q d (f d s);
  reflects_change p q d d' s : changes p d d' -> p <> q -> fresh q d s -> fresh q d' s
}.

Context (fresh : string -> D -> S -> Prop) `{!Reflects fresh}.

Definition active (p : Phase) : bool :=
  match p with Registering _ | Calling _ | Processing | Handling _ _ => true | _ => false end.

(** A directory is reflected, or an event that will run its callback waits. *)
Definition tracked (s : Sys) (p : string) : Prop :=
  fresh p (files s) (state s) \/
  Exists (fun e => modification e = true /\ HasPrefix (ev_Name e) p = true) (queue s).

Definition paths (rest : list (string * Callback)) : list string := rest.*1.

Definition complete (s : Sys) (rest : list (string * Callback)) : Prop :=
  forall p f, (p, f) ∈ rest -> callbacks (w s) !! p = Some f.

Definition good (s : Sys) : Prop :=
  map_Forall (fun p f => allowed p f) (callbacks (w s)) /\
  running (w s) = active (phase s) /\
  match phase s with
  | Registering rest => complete s rest /\
      forall p, p ∈ dom (callbacks (w s)) -> p ∈ watched s \/ p ∈ paths rest
  | Calling rest => complete s rest /\ dom (callbacks (w s)) ⊆ watched s /\
      forall p, p ∈ dom (callbacks (w s)) -> tracked s p \/ p ∈ paths rest
  | Processing => dom (callbacks (w s)) ⊆ watched s /\ forall p, p ∈ dom (callbacks (w s)) -> tracked s p
  | Handling e rest => complete s rest /\ dom (callbacks (w s)) ⊆ watched s /\
      forall p, p ∈ dom (callbacks (w s)) ->
        tracked s p \/ (HasPrefix (ev_Name e) p = true /\ p ∈ paths rest)
  | _ => True
  end.

Lemma complete_all s rest : rest ≡ₚ map_to_list (callbacks (w s)) -> complete s rest.
Proof. intros Hr p f Hin. rewrite Hr in Hin. by apply elem_of_map_to_list in Hin. Qed.

Lemma paths_all s rest p :
  rest ≡ₚ map_to_list (callbacks (w s)) -> p ∈ dom (callbacks (w s)) -> p ∈ paths rest.
Proof.
  intros Hr [f Hf]%elem_of_dom. unfold paths. apply list_elem_of_fmap. exists (p, f). split; [done|].
  rewrite Hr. by apply elem_of_map_to_list.
Qed.

(** A change of the files keeps every directory tracked that was. *)
Lemma tracked_change s p d e q phase' :
  changes p (files s) d -> modification e = true -> HasPrefix (ev_Name e) p = true -> q ∈ watched s ->
  tracked s q ->
  tracked (mkSys d (state s) (w s) (watched s)
             (if bool_decide (p ∈ watched s) then queue s ++ [e] else queue s) (stopped s) phase') q.
Proof.
  intros Hc Hm Hp Hq Ht. unfold tracked in *. cbn. destruct (decide (p = q)) as [->|Hne].
  - right. rewrite bool_decide_true by done. apply Exists_app. right. by left.
  - destruct Ht as [Hf|He]; [left; by eapply reflects_change|right].
    case_bool_decide; [apply Exists_app; by left|done].
Qed.

(** A callback makes its own directory fresh and keeps the others. *)
Lemma tracked_call s p f q phase' :
  allowed p f -> tracked s q ->
  tracked (mkSys (files s) (f (files s) (state s)) (w s) (watched s) (queue s) (stopped s) phase') q.
Proof.
  intros Hp [Hf|He]; [left|by right]. cbn. destruct (decide (p = q)) as [->|Hne].
  - by apply reflects_own.
  - by eapply reflects_other.
Qed.

Lemma good_initial d s w0 :
  running w0 = false -> map_Forall (fun p f => allowed p f) (callbacks w0) -> good (initial d s w0).
Proof. by intros. Qed.

Lemma good_change s p d e :
  changes p (files s) d -> modification e = true -> HasPrefix (ev_Name e) p = true -> good s ->
  good (mkSys d (state s) (w s) (watched s)
          (if bool_decide (p ∈ watched s) then queue s ++ [e] else queue s) (stopped s) (phase s)).
Proof.
  intros Hc Hm Hp (Ha & Hr & Hg). split; [done|]. split; [done|]. cbn.
  destruct (phase s) as [| |rest|rest| |e' rest| |]; cbn in *; try done.
  - destruct Hg as (HC & Hd & Ht). split_and!; [done..|]. intros q Hq.
    destruct (Ht q Hq) as [?|?]; [left; apply tracked_change; auto|by right].
  - destruct Hg as (Hd & Ht). split; [done|]. intros q Hq. apply tracked_change; auto.
  - destruct Hg as (HC & Hd & Ht). split_and!; [done..|]. intros q Hq.
    destruct (Ht q Hq) as [?|?]; [left; apply tracked_change; auto|by right].
Qed.

Lemma tracked_event s e q phase' stopped' :
  tracked s q ->
  tracked (mkSys (files s) (state s) (w s) (watched s) (queue s ++ [e]) stopped' phase') q.
Proof. intros [Hf|He]; [by left|right]. apply Exists_app. by left. Qed.

Lemma good_event s e :
  good s -> good (mkSys (files s) (state s) (w s) (watched s) (queue s ++ [e]) (stopped s) (phase s)).
Proof.
  intros (Ha & Hr & Hg). split; [done|]. split; [done|]. cbn.
  destruct (phase s) as [| |rest|rest| |e' rest| |]; cbn in *; try done.
  - destruct Hg as (HC & Hd & Ht). split_and!; [done..|]. intros q Hq.
    destruct (Ht q Hq) as [?|?]; [left; by apply tracked_event|by right].
  - destruct Hg as (Hd & Ht). split; [done|]. intros q Hq. by apply tracked_event, Ht.
  - destruct Hg as (HC & Hd & Ht). split_and!; [done..|]. intros q Hq.
    destruct (Ht q Hq) as [?|?]; [left; by apply tracked_event|by right].
Qed.

(** While [Run] is active, nobody adds a callback. *)
Lemma good_add s path callback w' :
  allowed path callback -> Add (w s) path callback = Ok w' -> good s ->
  good (mkSys (files s) (state s) w' (watched s) (queue s) (stopped s) (phase s)).
Proof.
  unfold Add. intros Hc Hw (Ha & Hr & Hg). destruct (running (w s)) eqn:E; [done|].
  injection Hw as <-. split; [by apply map_Forall_insert_2|]. split; [done|]. cbn.
  by destruct (phase s).
Qed.

Lemma complete_cons s p f rest :
  complete s ((p, f) :: rest) -> callbacks (w s) !! p = Some f /\ complete s rest.
Proof. intros HC. split; [apply HC; by left|]. intros q g Hq. apply HC. by right. Qed.

Lemma good_register s p f rest :
  phase s = Registering ((p, f) :: rest) -> good s ->
  good (mkSys (files s) (state s) (w s) ({[p]} ∪ watched s) (queue s) (stopped s) (Registering rest)).
Proof.
  intros Hph (Ha & Hr & Hg). rewrite Hph in Hr, Hg. destruct Hg as [HC Ht].
  apply complete_cons in HC as [_ HC]. split; [done|]. split; [done|]. split; [done|].
  intros q Hq. cbn in *. destruct (Ht q Hq) as [?|[->|?]%elem_of_cons]; set_solver.
Qed.

Lemma good_call s p f rest :
  phase s = Calling ((p, f) :: rest) -> good s ->
  good (mkSys (files s) (f (files s) (state s)) (w s) (watched s) (queue s) (stopped s) (Calling rest)).
Proof.
  intros Hph (Ha & Hr & Hg). rewrite Hph in Hr, Hg. destruct Hg as (HC & Hd & Ht).
  apply complete_cons in HC as [Hp HC]. pose proof (Ha _ _ Hp) as Hal.
  split; [done|]. split; [done|]. split; [done|]. split; [done|]. intros q Hq. cbn in Hq.
  destruct (Ht q Hq) as [?|[->|?]%elem_of_cons]; [left; by apply (tracked_call s p)| |by right].
  left. left. by apply reflects_own.
Qed.

Lemma good_handle s e p f rest :
  phase s = Handling e ((p, f) :: rest) -> good s ->
  good (mkSys (files s) (handle e p f (files s) (state s)) (w s) (watched s) (queue s) (stopped s)
          (Handling e rest)).
Proof.
  intros Hph (Ha & Hr & Hg). rewrite Hph in Hr, Hg. destruct Hg as (HC & Hd & Ht).
  apply complete_cons in HC as [Hp HC]. pose proof (Ha _ _ Hp) as Hal.
  split; [done|]. split; [done|]. split; [done|]. split; [done|]. intros q Hq. cbn in Hq. unfold handle.
  destruct (HasPrefix (ev_Name e) p) eqn:Hpre.
  - destruct (Ht q Hq) as [?|[Hpq [->|?]%elem_of_cons]]; [left; by apply (tracked_call s p)| |by right].
    left. left. by apply reflects_own.
  - destruct (Ht q Hq) as [?|[Hpq [->|?]%elem_of_cons]]; [by left| |by right]. cbn in Hpq. congruence.
Qed.

Lemma good_take s e q rest :
  phase s = Processing -> queue s = e :: q -> rest ≡ₚ map_to_list (callbacks (w s)) -> good s ->
  good (mkSys (files s) (state s) (w s) (watched s) q (stopped s) (Handling e rest)).
Proof.
  intros Hph Hq Hrest (Ha & Hr & Hg). rewrite Hph in Hr, Hg. destruct Hg as (Hd & Ht).
  split; [done|]. split; [done|]. split; [by apply complete_all|]. split; [done|]. intros p Hp. cbn in Hp.
  destruct (Ht p Hp) as [Hf|He]; [by left; left|]. rewrite Hq in He.
  apply Exists_cons in He as [[_ He]|He]; [right|by left; right]. split; [done|]. by eapply paths_all.
Qed.

Lemma good_ignore s e q :
  phase s = Processing -> queue s = e :: q -> modification e = false -> good s ->
  good (mkSys (files s) (state s) (w s) (watched s) q (stopped s) Processing).
Proof.
  intros Hph Hq Hm (Ha & Hr & Hg). rewrite Hph in Hr, Hg. destruct Hg as (Hd & Ht).
  split; [done|]. split; [done|]. split; [done|]. intros p Hp. cbn in Hp.
  destruct (Ht p Hp) as [Hf|He]; [by left|]. rewrite Hq in He.
  apply Exists_cons in He as [[He _]|He]; [congruence|by right].
Qed.

Lemma good_leave s p : active p = false -> good s -> good (leave s p).
Proof. intros Hp (Ha & _ & _). split; [done|]. split; [done|]. by destruct p. Qed.

Lemma good_idle s p :
  active p = false -> active (phase s) = false -> good s -> good (at_phase s p).
Proof. intros Hp Hs (Ha & Hr & _). split; [done|]. split; [cbn; by rewrite Hr, Hs, Hp|]. by destruct p. Qed.

Lemma watch_good_step s s' : good s -> step s s' -> good s'.
Proof.
  intros Hg [Hs|Hs]; [destruct Hs as [s p d e ? ? ?|s e|s|s p f w' ? ?]|destruct Hs as
    [s Hph ?|s Hph|s Hph|s Hph|s rest Hph Hrest|s p f rest Hph|s p f rest Hph
    |s rest Hph Hrest|s p f rest Hph|s Hph|s Hph ?|s Hph|s Hph|s e q Hph Hq ?|s e q rest Hph Hq ? Hrest
    |s e p f rest Hph|s e Hph]].
  - by apply good_change.
  - by apply good_event.
  - destruct Hg as (Ha & Hr & Hg). split; [done|]. by split.
  - by eapply good_add.
  - apply good_idle; [done|by destruct Hph as [-> | ->]|done].
  - apply good_idle; [done|by rewrite Hph|done].
  - destruct Hg as (Ha & Hr & _). split; [done|]. rewrite Hph in Hr. by split.
  - apply good_idle; [done|by rewrite Hph|done].
  - destruct Hg as (Ha & _ & _). split; [done|]. split; [done|]. split; [by apply complete_all|].
    intros p Hp. right. by eapply paths_all.
  - by eapply good_register.
  - by apply good_leave.
  - destruct Hg as (Ha & Hr & Hg). rewrite Hph in Hr, Hg. destruct Hg as [_ Ht].
    split; [done|]. split; [done|]. split; [by apply complete_all|]. split.
    + intros p Hp. destruct (Ht p Hp) as [?|?%elem_of_nil]; [done|done].
    + intros p Hp. right. by eapply paths_all.
  - by eapply good_call.
  - destruct Hg as (Ha & Hr & Hg). rewrite Hph in Hr, Hg. destruct Hg as (_ & Hd & Ht).
    split; [done|]. split; [done|]. split; [done|]. intros p Hp.
    destruct (Ht p Hp) as [?|?%elem_of_nil]; [done|done].
  - by apply good_leave.
  - by apply good_leave.
  - by apply good_leave.
  - by eapply good_ignore.
  - by eapply good_take.
  - by eapply good_handle.
  - destruct Hg as (Ha & Hr & Hg). rewrite Hph in Hr, Hg. destruct Hg as (_ & Hd & Ht).
    split; [done|]. split; [done|]. split; [done|]. intros p Hp.
    destruct (Ht p Hp) as [?|[_ ?%elem_of_nil]]; [done|done].
Qed.

Lemma good_reachable d s w0 s' :
  running w0 = false -> map_Forall (fun p f => allowed p f) (callbacks w0) ->
  rtc step (initial d s w0) s' -> good s'.
Proof.
  intros Hr Ha Hs. assert (good (initial d s w0)) as Hg by by apply good_initial.
  revert Hg. induction Hs; eauto using watch_good_step.
Qed.

(** No change of a watched directory is missed. In every execution, whatever
    the interleaving of file changes, errors, restarts of the watch and calls of
    [Add], whenever the watch waits for events and none is queued, the state
    reflects the current files of every directory that was added. *)
Theorem no_lost_update d s w0 s' :
  running w0 = false -> map_Forall (fun p f => allowed p f) (callbacks w0) ->
  rtc step (initial d s w0) s' -> phase s' = Processing -> queue s' = [] ->
  forall p, p ∈ dom (callbacks (w s')) -> fresh p (files s') (state s').
Proof.
  intros Hr Ha Hs Hph Hq p Hp. destruct (good_reachable _ _ _ _ Hr Ha Hs) as (_ & _ & Hg).
  rewrite Hph in Hg. destruct Hg as [_ Ht]. destruct (Ht p Hp) as [?|He]; [done|].
  rewrite Hq in He. by apply Exists_nil in He.
Qed.

(** ** [Run] always comes back to its channels *)

(** How many steps of [Run] are left before it waits, returns or fails. *)
Definition steps_left (s : Sys) : nat :=
  let n := size (callbacks (w s)) in
  match phase s with
  | Starting => 2 * n + 3
  | Registering rest => List.length rest + n + 2
  | Calling rest => List.length rest + 1
  | Handling _ rest => List.length rest + 1
  | _ => 0
  end.

Lemma length_callbacks (m : gmap string Callback) rest :
  rest ≡ₚ map_to_list m -> List.length rest = size m.
Proof. intros ->. by rewrite length_map_to_list. Qed.

(** A step of the goroutine while it is inside [Run], away from its channels. *)
Definition busy_step (s' s : Sys) : Prop := 0 < steps_left s /\ run_step s s'.

Lemma busy_step_decreases s s' : busy_step s' s -> steps_left s' < steps_left s.
Proof.
  unfold busy_step, steps_left. intros [Hpos Hs].
  destruct Hs as [s [-> | ->] ?|s Hph|s Hph|s Hph|s rest Hph Hrest|s p f rest Hph|s p f rest Hph
    |s rest Hph Hrest|s p f rest Hph|s Hph|s Hph ?|s Hph|s Hph|s e q Hph Hq ?|s e q rest Hph Hq ? Hrest
    |s e p f rest Hph|s e Hph];
    try (rewrite Hph in *); try (apply length_callbacks in Hrest); cbn in *; lia.
Qed.

Lemma busy_not_stuck s : 0 < steps_left s -> exists s', run_step s s'.
Proof.
  unfold steps_left. destruct (phase s) as [| |[|[p f] rest]|[|[p f] rest]| |e [|[p f] rest]| |] eqn:Hph;
    intros Hpos; try lia; eexists.
  - by apply (step_running s (map_to_list (callbacks (w s)))).
  - by apply (step_registered s (map_to_list (callbacks (w s)))).
  - by eapply step_register.
  - by apply step_called.
  - by eapply step_call.
  - by eapply step_handled.
  - by eapply step_handle.
Qed.

Lemma idle_step_bound s s' :
  steps_left s = 0 -> run_step s s' -> steps_left s' <= 2 * size (callbacks (w s')) + 3.
Proof.
  unfold steps_left. intros H0 Hs.
  destruct Hs as [s [Hph|Hph] ?|s Hph|s Hph|s Hph|s rest Hph Hrest|s p f rest Hph|s p f rest Hph
    |s rest Hph Hrest|s p f rest Hph|s Hph|s Hph ?|s Hph|s Hph|s e q Hph Hq ?|s e q rest Hph Hq ? Hrest
    |s e p f rest Hph|s e Hph];
    rewrite Hph in *; try (apply length_callbacks in Hrest); cbn in *; lia.
Qed.

End watch.
End FileWatch.
