(* ===== verification/TlsWatch.v ===== *)
(** * The template validator follows its certificate and TLS options
      (internal/template-validator/tlsinfo/tlsinfo.go)

    [TLSInfo] adds two directories to a file watch and runs the watch in a
    goroutine. Together with the executions of the watch this gives what the
    servers rely on: they serve with the files that are there. *)

From stdpp Require Import relations.
From S2P Require Import Prelude GoRuntime KubeTypes SspTypes Tls FileWatch.

Module TlsWatch.
Import Tls.

(** ** Loading *)

(** [tls.X509KeyPair] and [x509.ParseCertificate] of the first certificate. *)
Class X509 := {
  X509KeyPair : string -> string -> error + string;
  ParseLeaf : string -> error + unit
}.

(** What reading the files of the two directories gives. *)
Record Files := mkFiles {
  certFile : error + string;
  keyFile : error + string;
  optionsFile : error + string
}.

Section tls.
Context `{R : TlsRuntime SSPTLSOptions} `{X509}.

(** The wrapped errors are formatted with [%v]. *)
Definition loadCertificates (d : Files) : error + string :=
  match certFile d with
  | inl err => inl err
  | inr certBytes =>
      match keyFile d with
      | inl err => inl err
      | inr keyBytes =>
          match X509KeyPair certBytes keyBytes with
          | inl err => inl (EMsg ("failed to load certificate: " +:+ Error err))
          | inr cert =>
              match ParseLeaf cert with
              | inl err => inl (EMsg ("failed to load leaf certificate: " +:+ Error err))
              | inr _ => inr cert
              end
          end
      end
  end.

Definition certsCallback : FileWatch.Callback (D := Files) (S := TLSInfo) := fun d ti =>
  updateCertificates ti (loadCertificates d).
Definition optionsCallback : FileWatch.Callback (D := Files) (S := TLSInfo) := fun d ti =>
  updateTLSOptions ti (optionsFile d).

Context (CertsDirectory TLSOptionsDirectory : string).

Notation watch := (FileWatch.watch (D := Files) (S := TLSInfo)).

Definition initCerts (d : Files) (ti : TLSInfo) (w : watch) : outcome (TLSInfo * watch) :=
  let ti := certsCallback d ti in
  w ← wrap_err "error adding directory to watch: " (FileWatch.Add w CertsDirectory certsCallback);
  Ok (ti, w).

Definition initCryptoConfig (d : Files) (ti : TLSInfo) (w : watch) : outcome (TLSInfo * watch) :=
  let ti := optionsCallback d ti in
  w ← wrap_err "error adding directory to watch: " (FileWatch.Add w TLSOptionsDirectory optionsCallback);
  Ok (ti, w).

(** [Init] up to the start of the goroutine; [stopWatch] says whether the
    channel exists. The files may change between the two reads. *)
Definition Init (stopWatch : bool) (ti : TLSInfo) (d d' : Files) : outcome (TLSInfo * watch) :=
  if stopWatch then Err (EMsg "certificate watcher was already initialized")
  else
    '(ti, w) ← initCerts d ti FileWatch.New;
    initCryptoConfig d' ti w.

(** ** The callbacks reflect the files *)

(** A change of a directory concerns its own files. *)
Definition changes (p : string) (d d' : Files) : Prop :=
  (p <> CertsDirectory -> certFile d' = certFile d /\ keyFile d' = keyFile d) /\
  (p <> TLSOptionsDirectory -> optionsFile d' = optionsFile d).

Definition allowed (p : string) (f : FileWatch.Callback) : Prop :=
  (p = CertsDirectory /\ f = certsCallback) \/ (p = TLSOptionsDirectory /\ f = optionsCallback).

(** The state is what a callback would make of it. *)
Definition fresh (p : string) (d : Files) (ti : TLSInfo) : Prop :=
  (p = CertsDirectory -> certsCallback d ti = ti) /\
  (p = TLSOptionsDirectory -> optionsCallback d ti = ti).

Context (distinct : CertsDirectory <> TLSOptionsDirectory).

Lemma loadCertificates_same d d' :
  certFile d' = certFile d -> keyFile d' = keyFile d -> loadCertificates d' = loadCertificates d.
Proof. unfold loadCertificates. by intros -> ->. Qed.

#[export] Instance tls_reflects : FileWatch.Reflects changes allowed fresh.
Proof.
  split.
  - intros p f d s [[-> ->]|[-> ->]]; (split; [|]); intros E; try (by destruct distinct);
      unfold certsCallback, optionsCallback; [apply certs_overwrite|apply options_overwrite].
  - intros p q f d s [[-> ->]|[-> ->]] Hne [Hc Ho]; (split; [|]); intros E; subst; try done;
      unfold certsCallback, optionsCallback in *.
    + by rewrite <- updates_commute, Ho.
    + by rewrite updates_commute, Hc.
  - intros p q d d' s [Hc Ho] Hne [Hfc Hfo]. split; intros E; subst q.
    + rewrite <- (Hfc eq_refl) at 2. unfold certsCallback. f_equal.
      destruct (Hc Hne). by apply loadCertificates_same.
    + rewrite <- (Hfo eq_refl) at 2. unfold optionsCallback. f_equal. by apply Ho.
Qed.

(** The two updates determine the whole state. *)
Lemma updates_determine ti ti' l f :
  updateTLSOptions (updateCertificates ti l) f = updateTLSOptions (updateCertificates ti' l) f.
Proof.
  unfold updateTLSOptions. destruct (loadTLSOptions f) as [|o]; [by destruct l|].
  destruct (IsEmpty o); [by destruct l|]. by destruct (MinTLSVersionId o), l.
Qed.

Lemma fresh_state d ti :
  fresh CertsDirectory d ti -> fresh TLSOptionsDirectory d ti ->
  ti = Tls.Init (loadCertificates d) (optionsFile d).
Proof.
  intros [Hc _] [_ Ho]. specialize (Hc eq_refl). specialize (Ho eq_refl).
  unfold certsCallback, optionsCallback in *. unfold Tls.Init.
  rewrite <- Ho, <- Hc at 1. apply updates_determine.
Qed.

Lemma Init_Ok ti d d' ti' w :
  Init false ti d d' = Ok (ti', w) ->
  FileWatch.running w = false /\
  map_Forall (fun p f => allowed p f) (FileWatch.callbacks w) /\
  dom (FileWatch.callbacks w) = {[CertsDirectory; TLSOptionsDirectory]}.
Proof.
  cbn. intros [= _ <-]. split; [done|]. cbn. split.
  - apply map_Forall_insert_2; [by right|]. apply map_Forall_insert_2; [by left|]. apply map_Forall_empty.
  - rewrite !dom_insert_L, dom_empty_L. set_solver.
Qed.

End tls.

(** ** Stopping the goroutine *)

(** [Clean] closes the channel [stopWatch] and then sets the field to nil; the
    goroutine of [Init] reads the field again whenever it waits. *)
Module Stopping.
(** A channel that a goroutine received from the field: nil, or the channel. *)
Inductive Phase :=
| AtTop
| InRun (done : option unit)
| RunFailed
| InSleep (done : option unit)
| Exited.

Record Loop := mkLoop { field : option unit; closed : bool; cleaned : bool; phase : Phase }.

Definition initial : Loop := mkLoop (Some tt) false false AtTop.

(** A receive from the channel is possible: it is not nil and it is closed. *)
Definition ready (l : Loop) (c : option unit) : bool :=
  match c with Some _ => closed l | None => false end.

Definition at_phase (l : Loop) (p : Phase) : Loop := mkLoop (field l) (closed l) (cleaned l) p.

(** The two statements of [Clean], which other goroutines may interrupt. *)
Definition Clean_close (l : Loop) : Loop := mkLoop (field l) true (cleaned l) (phase l).
Definition Clean_nil (l : Loop) : Loop := mkLoop None (closed l) true (phase l).

Inductive step : Loop -> Loop -> Prop :=
(* [Clean] *)
| step_close l : field l <> None -> closed l = false -> step l (Clean_close l)
| step_nil l : closed l = true -> cleaned l = false -> step l (Clean_nil l)
(* the goroutine *)
| step_top_exit l : phase l = AtTop -> ready l (field l) = true -> step l (at_phase l Exited)
| step_top_run l : phase l = AtTop -> ready l (field l) = false -> step l (at_phase l (InRun (field l)))
| step_run_done l c : phase l = InRun c -> ready l c = true -> step l (at_phase l Exited)
| step_run_error l c : phase l = InRun c -> step l (at_phase l RunFailed)
| step_sleep l : phase l = RunFailed -> step l (at_phase l (InSleep (field l)))
| step_sleep_done l c : phase l = InSleep c -> ready l c = true -> step l (at_phase l Exited)
| step_sleep_timer l c : phase l = InSleep c -> step l (at_phase l AtTop).

(** The goroutine has lost the channel. *)
Definition lost (l : Loop) : Prop :=
  cleaned l = true /\ field l = None /\ closed l = true /\
  match phase l with
  | AtTop | RunFailed => True
  | InRun c | InSleep c => c = None
  | Exited => False
  end.

Lemma lost_step l l' : lost l -> step l l' -> lost l'.
Proof.
  intros (Hc & Hf & Hcl & Hp) Hs. destruct Hs as
    [l H1 H2|l H1 H2|l Hph Hr|l Hph Hr|l c Hph Hr|l c Hph|l Hph|l c Hph Hr|l c Hph];
    try congruence; try (rewrite Hph in Hp); subst; unfold lost, at_phase, Clean_close, Clean_nil, ready in *; cbn in *;
    rewrite ?Hf in *; try done.
Qed.

Lemma lost_steps l l' : rtc step l l' -> lost l -> lost l'.
Proof. induction 1; eauto using lost_step. Qed.

(** the end of the watch can be missed: there is an execution in which [Clean]
    has returned and from which the goroutine of [Init] never exits. *)
Theorem Clean_missed : exists l,
  rtc step initial l /\ cleaned l = true /\ forall l', rtc step l l' -> phase l' <> Exited.
Proof.
  exists (mkLoop None true true RunFailed). split_and!; [|done|].
  - eapply rtc_l; [by apply step_top_run|]. eapply rtc_l; [by eapply step_run_error|].
    eapply rtc_l; [by apply step_close|]. eapply rtc_l; [by apply step_nil|]. constructor.
  - intros l' Hs E. assert (Hl : lost l') by (eapply lost_steps; [exact Hs|by split_and!]).
    destruct Hl as (_ & _ & _ & Hl). by rewrite E in Hl.
Qed.
End Stopping.

(** ** Instances *)

Module TlsWatchWitness.
Definition certsDir : string := "/etc/webhook/certs".
Definition optionsDir : string := "/tls-options".

(** Certificates are taken as they are. *)
Definition plain_x509 : X509 := {| X509KeyPair := fun c _ => inr c; ParseLeaf := fun _ => inr tt |}.
#[local] Existing Instance TlsWitness.runtime.
#[local] Existing Instance plain_x509.

Definition old : Files := mkFiles (inr "old") (inr "key") (inr (TlsWitness.marshal (mkSSPTLSOptions "1.2" []))).
Definition new : Files := mkFiles (inr "new") (inr "key") (optionsFile old).

Lemma distinct : certsDir <> optionsDir.
Proof. discriminate. Qed.

Definition entries : list (string * FileWatch.Callback (D := Files) (S := TLSInfo)) :=
  [(optionsDir, optionsCallback); (certsDir, certsCallback)].
Definition added : FileWatch.watch := FileWatch.mkWatch (<[optionsDir := optionsCallback]> {[certsDir := certsCallback]}) false.

Lemma entries_all : entries ≡ₚ map_to_list (FileWatch.callbacks added).
Proof.
  change (FileWatch.callbacks added) with
    (<[optionsDir := optionsCallback]> ({[certsDir := certsCallback]} : gmap string (FileWatch.Callback (D := Files) (S := TLSInfo)))).
  rewrite map_to_list_insert by (by apply lookup_singleton_ne). by rewrite map_to_list_singleton.
Qed.

Definition ti : TLSInfo := Tls.Init (inr "old") (optionsFile old).

(** The certificate is renewed after the watch read it and before it waits. *)
Definition renewed : FileWatch.Sys :=
  FileWatch.mkSys new ti (FileWatch.set_running added true) {[certsDir; optionsDir]}
    [FileWatch.mkEvent "/etc/webhook/certs/tls.crt" FileWatch.Write] false (FileWatch.Calling []).
Definition served : FileWatch.Sys :=
  FileWatch.mkSys new (certsCallback new ti) (FileWatch.set_running added true) {[certsDir; optionsDir]}
    [] false FileWatch.Processing.

Lemma renewed_run :
  rtc (FileWatch.step (changes certsDir optionsDir) (allowed certsDir optionsDir))
    (FileWatch.initial old ti added) renewed.
Proof.
  eapply rtc_l; [right; by apply FileWatch.step_NewWatcher|].
  eapply rtc_l; [right; by apply (FileWatch.step_running _ entries); [|apply entries_all]|].
  eapply rtc_l; [right; by eapply FileWatch.step_register|].
  eapply rtc_l; [right; by eapply FileWatch.step_register|].
  eapply rtc_l; [right; by apply (FileWatch.step_registered _ entries); [|apply entries_all]|].
  eapply rtc_l; [right; by eapply FileWatch.step_call|].
  eapply rtc_l; [right; by eapply FileWatch.step_call|].
  eapply rtc_l; [left; apply (FileWatch.step_change _ _ _ certsDir new
                   (FileWatch.mkEvent "/etc/webhook/certs/tls.crt" FileWatch.Write)); [|done|done]|].
  { split; [by intros []|done]. }
  cbn. rewrite bool_decide_true by set_solver. cbn. replace (_ ∪ _) with ({[certsDir; optionsDir]} : gset string) by set_solver.
  constructor.
Qed.

Lemma served_run :
  rtc (FileWatch.step (changes certsDir optionsDir) (allowed certsDir optionsDir))
    (FileWatch.initial old ti added) served.
Proof.
  etransitivity; [apply renewed_run|].
  eapply rtc_l; [right; by apply FileWatch.step_called|].
  eapply rtc_l; [right; by eapply (FileWatch.step_take _ _ _ entries); [..|apply entries_all]|].
  eapply rtc_l; [right; by eapply FileWatch.step_handle|].
  eapply rtc_l; [right; by eapply FileWatch.step_handle|].
  eapply rtc_l; [right; by eapply FileWatch.step_handled|]. constructor.
Qed.

End TlsWatchWitness.
End TlsWatch.
