(* ===== verification/ErrGroup.v ===== *)
(** * Goroutines of the servers (golang.org/x/sync/errgroup, net/http)

    Both programs run their HTTP servers in an error group: one goroutine per
    server that serves until the server is shut down, one per server that waits
    for the end of the context and shuts it down, and for the operator one that
    watches the certificate. The context of the group ends when the program gets
    a signal or when the first goroutine fails. *)

From stdpp Require Import relations list numbers.
From S2P Require Import Prelude GoRuntime.

Module ErrGroup.

(** ** The goroutines *)

Definition ErrServerClosed : error := EMsg "http: Server closed".

(** [errors.Is err target] for a target that is compared by identity. *)
Fixpoint Is (err target : error) : bool :=
  bool_decide (err = target) ||
  match err with EWrap _ inner => Is inner target | _ => false end.

(** The servers are numbered. *)
Inductive Task :=
| Serve (server : nat)
| Shutdown (server : nat)
| WatchCertificate.

(** A goroutine that has returned has the error that [startServer],
    [shutdownServer] or the watcher returned. *)
Inductive Status :=
| Running
| ShuttingDown (* in [server.Shutdown] *)
| Returned (err : option error).

#[export] Instance Task_eq_dec : EqDecision Task.
Proof. solve_decision. Defined.

Record Group := mkGroup {
  tasks : list (Task * Status);
  cancelled : bool; (* the context of the group is done *)
  failed : option error; (* the first error *)
  down : gset nat (* servers of which [Shutdown] was called *)
}.

Definition start (l : list Task) : Group := mkGroup ((fun t => (t, Running)) <$> l) false None ∅.

(** What [startServer] makes of the result of [ListenAndServe], which is never
    nil. *)
Definition startServer (err : error) : option error :=
  if Is err ErrServerClosed then None else Some err.

Definition set_status (g : Group) (i : nat) (t : Task) (s : Status) (servers : gset nat) : Group :=
  mkGroup (<[i := (t, s)]> (tasks g)) (cancelled g) (failed g) (servers ∪ down g).

(** The wrapper of [Group.Go]: the first error is kept and ends the context. *)
Definition return_from (g : Group) (i : nat) (t : Task) (err : option error) : Group :=
  mkGroup (<[i := (t, Returned err)]> (tasks g))
    (match err with Some _ => true | None => cancelled g end)
    (match failed g with Some e => Some e | None => err end)
    (down g).

Inductive step : Group -> Group -> Prop :=
(* the server fails, or it was shut down *)
| step_serve g i s err : tasks g !! i = Some (Serve s, Running) ->
    (Is err ErrServerClosed = true -> s ∈ down g) ->
    step g (return_from g i (Serve s) (startServer err))
| step_shutdown g i s : tasks g !! i = Some (Shutdown s, Running) -> cancelled g = true ->
    step g (set_status g i (Shutdown s) ShuttingDown {[s]})
| step_shut g i s err : tasks g !! i = Some (Shutdown s, ShuttingDown) ->
    step g (return_from g i (Shutdown s) err)
| step_watched g i : tasks g !! i = Some (WatchCertificate, Running) -> cancelled g = true ->
    step g (return_from g i WatchCertificate None)
| step_watch_error g i err : tasks g !! i = Some (WatchCertificate, Running) ->
    step g (return_from g i WatchCertificate (Some err)).

(** The signal of the program. *)
Inductive signal : Group -> Group -> Prop :=
| signal_received g : signal g (mkGroup (tasks g) true (failed g) (down g)).

Definition sys_step (g g' : Group) : Prop := step g g' \/ signal g g'.

(** [Wait] returns. *)
Definition is_returned (t : Task * Status) : bool := match t.2 with Returned _ => true | _ => false end.
Definition finished (g : Group) : Prop := Forall (fun t => is_returned t = true) (tasks g).

(** ** Termination *)

Definition task_steps (t : Task * Status) : nat :=
  match t with
  | (_, Returned _) => 0
  | (Shutdown _, Running) => 2
  | _ => 1
  end.
Definition steps_left (g : Group) : nat := sum_list_with task_steps (tasks g).

Lemma sum_list_insert {A} (f : A -> nat) l i x y :
  l !! i = Some x -> sum_list_with f (<[i := y]> l) + f x = sum_list_with f l + f y.
Proof.
  revert i. induction l as [|z l IH]; intros [|i] Hi; simplify_eq/=; [lia|].
  specialize (IH i Hi). lia.
Qed.

Lemma step_decreases g g' : step g g' -> steps_left g' < steps_left g.
Proof.
  unfold steps_left. destruct 1 as [g i s err Hi _|g i s Hi _|g i s err Hi|g i Hi _|g i err Hi]; cbn;
    [pose proof (sum_list_insert task_steps _ _ _ (Serve s, Returned (startServer err)) Hi)
    |pose proof (sum_list_insert task_steps _ _ _ (Shutdown s, ShuttingDown) Hi)
    |pose proof (sum_list_insert task_steps _ _ _ (Shutdown s, Returned err) Hi)
    |pose proof (sum_list_insert task_steps _ _ _ (WatchCertificate, Returned None) Hi)
    |pose proof (sum_list_insert task_steps _ _ _ (WatchCertificate, Returned (Some err)) Hi)];
    cbn in *; lia.
Qed.

(** ** The group stops *)

(** Every server has a goroutine that shuts it down. *)
Definition covered (l : list Task) : Prop := forall s, Serve s ∈ l -> Shutdown s ∈ l.

(** What holds of every reachable group: the goroutines are those that were
    started, [Shutdown] was called by the goroutines that are past the wait, a
    goroutine is past its wait only when the context is done or it failed, and
    the first error is one that a goroutine returned. *)
Record good (l : list Task) (g : Group) : Prop := {
  good_tasks : (tasks g).*1 = l;
  good_down s : s ∈ down g -> cancelled g = true;
  good_shutdown s st : (Shutdown s, st) ∈ tasks g -> st = Running \/ s ∈ down g;
  good_returned t err : (t, Returned err) ∈ tasks g ->
    match err with
    | Some _ => failed g <> None
    | None => cancelled g = true
    end;
  good_phase t : (t, ShuttingDown) ∈ tasks g -> exists s, t = Shutdown s;
  good_failed e : failed g = Some e -> cancelled g = true /\ exists t, (t, Returned (Some e)) ∈ tasks g
}.

Lemma good_start l : good l (start l).
Proof.
  split; cbn.
  - rewrite <- list_fmap_compose. apply list_fmap_id.
  - set_solver.
  - intros s st (t & [= <- ->] & _)%list_elem_of_fmap. by left.
  - intros t err (t' & [= _] & _)%list_elem_of_fmap.
  - intros t (t' & [= _] & _)%list_elem_of_fmap.
  - done.
Qed.

Lemma elem_of_insert_inv {A} (l : list A) i x y : y ∈ <[i := x]> l -> y = x \/ y ∈ l.
Proof.
  intros [j Hj]%list_elem_of_lookup. apply list_lookup_insert_Some in Hj as [(-> & -> & _)|[_ Hj]]; [by left|].
  right. by eapply list_elem_of_lookup_2.
Qed.

Lemma fst_insert (l : list (Task * Status)) i t st st' :
  l !! i = Some (t, st) -> (<[i := (t, st')]> l).*1 = l.*1.
Proof.
  intros Hi. rewrite list_fmap_insert. apply list_insert_id. by rewrite list_lookup_fmap, Hi.
Qed.

(** An entry that returned with an error stays. *)
Lemma returned_insert (l : list (Task * Status)) i t t' st st' e :
  l !! i = Some (t, st) -> (forall e, st <> Returned e) -> (t', Returned e) ∈ l ->
  (t', Returned e) ∈ <[i := (t, st')]> l.
Proof.
  intros Hi Hst [j Hj]%list_elem_of_lookup. apply list_elem_of_lookup. exists j.
  rewrite list_lookup_insert_ne; [done|]. intros ->. rewrite Hi in Hj. naive_solver.
Qed.

Lemma good_return l g i t st err :
  good l g -> tasks g !! i = Some (t, st) -> (forall e, st <> Returned e) ->
  (forall s, t = Shutdown s -> s ∈ down g) -> (err = None -> cancelled g = true) ->
  good l (return_from g i t err).
Proof.
  intros [Ht Hd Hs Hr Hp Hf] Hi Hst Hdown Herr. split; cbn.
  - rewrite <- Ht. by eapply fst_insert.
  - intros s Hin. destruct err; [done|]. by eapply Hd.
  - intros s st' [[= <- ->]|Hin]%elem_of_insert_inv; [right; by apply Hdown|by apply Hs].
  - intros t' err' [[= -> ->]|Hin]%elem_of_insert_inv.
    + destruct err; [by destruct (failed g)|by apply Herr].
    + specialize (Hr _ _ Hin). destruct err'; [by destruct (failed g)|by destruct err].
  - intros t' [[= _]|Hin]%elem_of_insert_inv. by apply Hp.
  - intros e He. destruct (failed g) as [e'|] eqn:E.
    + injection He as ->. destruct (Hf e eq_refl) as [Hc [t' Ht']]. split; [by destruct err|].
      exists t'. by eapply returned_insert.
    + subst err. split; [done|]. exists t. apply list_elem_of_lookup. exists i.
      apply list_lookup_insert_eq. by eapply lookup_lt_Some.
Qed.

Lemma good_step_group l g g' : good l g -> step g g' -> good l g'.
Proof.
  intros Hg. destruct 1 as [g i s err Hi Hc|g i s Hi Hc|g i s err Hi|g i Hi Hc|g i err Hi].
  - eapply good_return; [done|done|done|done|]. unfold startServer.
    destruct (Is err ErrServerClosed); [|done]. intros _. by eapply Hg, Hc.
  - destruct Hg as [Ht Hd Hs Hr Hp Hf]. split; cbn.
    + rewrite <- Ht. by eapply fst_insert.
    + done.
    + intros s' st' [[= -> ->]|Hin]%elem_of_insert_inv; [set_solver|]. destruct (Hs _ _ Hin); set_solver.
    + intros t err [[= _]|Hin]%elem_of_insert_inv. by apply (Hr _ _ Hin).
    + intros t [[= ->]|Hin]%elem_of_insert_inv; [by exists s|by apply Hp].
    + intros e He. destruct (Hf e He) as [_ [t Hin]]. split; [done|]. exists t. by eapply returned_insert.
  - eapply good_return; [done|done|done| |].
    + intros s' [= <-]. destruct (good_shutdown _ _ Hg s ShuttingDown) as [|]; [|done|done].
      by eapply list_elem_of_lookup_2.
    + intros _. eapply (good_down _ _ Hg s).
      destruct (good_shutdown _ _ Hg s ShuttingDown) as [|]; [|done|done]. by eapply list_elem_of_lookup_2.
  - by eapply good_return.
  - by eapply good_return.
Qed.

Lemma good_sys l g : rtc sys_step (start l) g -> good l g.
Proof.
  revert g. apply (rtc_ind_r (good l)); [apply good_start|].
  intros g1 g2 _ [Hstep|Hsig] Hg; [by eapply good_step_group|].
  destruct Hsig as [g]. destruct Hg as [Ht Hd Hsh Hr Hp Hf]. split; cbn; try done.
  - intros t err Hin. specialize (Hr t err Hin). by destruct err.
  - intros e He. split; [done|]. by apply Hf.
Qed.

(** Once the context is done, some goroutine can go on until all have returned. *)
Lemma progress l g :
  covered l -> good l g -> cancelled g = true -> ~ finished g -> exists g', step g g'.
Proof.
  intros Hc Hg Hd Hn.
  assert (exists i t st, tasks g !! i = Some (t, st) /\ is_returned (t, st) = false) as (i & t & st & Hi & Hst).
  { apply not_Forall_Exists, Exists_exists in Hn as ([t st] & Hin & Hst); [|solve_decision].
    apply list_elem_of_lookup in Hin as [i Hi]. exists i, t, st. split; [done|]. by apply not_true_is_false. }
  destruct st as [| |err]; [| |done].
  - destruct t as [s|s|].
    + destruct (decide (s ∈ down g)) as [Hs|Hs].
      { eexists. by apply (step_serve g i s ErrServerClosed). }
      assert (Shutdown s ∈ l) as Hl.
      { apply Hc. rewrite <- (good_tasks _ _ Hg). apply list_elem_of_fmap. eexists (_, _).
        split; [done|]. by eapply list_elem_of_lookup_2. }
      rewrite <- (good_tasks _ _ Hg) in Hl. apply list_elem_of_fmap in Hl as ([t st] & [= <-] & Hin).
      destruct (good_shutdown _ _ Hg s st Hin) as [->|]; [|done].
      apply list_elem_of_lookup in Hin as [j Hj]. eexists. by eapply step_shutdown.
    + eexists. by eapply step_shutdown.
    + eexists. by eapply step_watched.
  - destruct (good_phase _ _ Hg t) as [s ->]; [by eapply list_elem_of_lookup_2|].
    eexists. by apply (step_shut g i s None).
Qed.

Lemma steps_accessible g : Acc (flip step) g.
Proof.
  remember (steps_left g) as n eqn:En. revert g En.
  induction n as [n IH] using lt_wf_ind. intros g ->. constructor. intros g' Hs.
  by apply (IH (steps_left g')); [apply step_decreases|].
Qed.

Lemma finished_down l g s : covered l -> good l g -> finished g -> Serve s ∈ l -> s ∈ down g.
Proof.
  intros Hc Hg Hf Hs%Hc. rewrite <- (good_tasks _ _ Hg) in Hs.
  apply list_elem_of_fmap in Hs as ([t st] & [= <-] & Hin).
  destruct (good_shutdown _ _ Hg s st Hin) as [->|]; [|done].
  unfold finished in Hf. rewrite Forall_forall in Hf. by specialize (Hf _ Hin).
Qed.

(** Nobody returns while the context lives. *)
Lemma live_running l g : good l g -> cancelled g = false -> Forall (fun t => t.2 = Running) (tasks g).
Proof.
  intros Hg Hc. apply Forall_forall. intros [t [| |[e|]]] Hin; [done|..]; exfalso.
  - destruct (good_phase _ _ Hg t Hin) as [s ->]. destruct (good_shutdown _ _ Hg s _ Hin) as [|Hs]; [done|].
    by rewrite (good_down _ _ Hg s Hs) in Hc.
  - pose proof (good_returned _ _ Hg t _ Hin) as Hr. cbn in Hr. destruct (failed g) as [e'|] eqn:E; [|done].
    destruct (good_failed _ _ Hg e' E) as [E' _]. congruence.
  - pose proof (good_returned _ _ Hg t _ Hin) as Hr. cbn in Hr. congruence.
Qed.

(** The error of [Wait] is nil exactly when no goroutine failed. *)
Lemma failed_None l g :
  good l g -> finished g -> (failed g = None <-> Forall (fun t => t.2 = Returned None) (tasks g)).
Proof.
  intros Hg Hf. split.
  - intros Hn. apply Forall_forall. intros [t st] Hin. unfold finished in Hf. rewrite Forall_forall in Hf.
    specialize (Hf _ Hin). destruct st as [| |[e|]]; try done.
    pose proof (good_returned _ _ Hg t _ Hin) as Hr. by rewrite Hn in Hr.
  - intros Ha. destruct (failed g) as [e|] eqn:E; [|done]. exfalso.
    destruct (good_failed _ _ Hg e E) as [_ [t Hin]]. rewrite Forall_forall in Ha. by specialize (Ha _ Hin).
Qed.

(** The goroutines of the template validator ([App.Run]: metrics and webhook
    server) and of the metrics server of the operator
    ([prometheusServer.Start]). *)
Definition validatorTasks : list Task := [Serve 0; Serve 1; Shutdown 0; Shutdown 1].
Definition prometheusTasks : list Task := [WatchCertificate; Serve 0; Shutdown 0].

Lemma program_covered l : l = validatorTasks \/ l = prometheusTasks -> covered l.
Proof. intros [-> | ->] s Hs; unfold validatorTasks, prometheusTasks in *; set_solver. Qed.


(** A server of the template validator cannot listen: both are shut down and the
    program ends with the error of the first. *)
Module GroupWitness.
Definition port_in_use : error := EMsg "listen tcp 0.0.0.0:8443: bind: address already in use".
Definition ended : Group :=
  mkGroup [(Serve 0, Returned (Some port_in_use)); (Serve 1, Returned None);
           (Shutdown 0, Returned None); (Shutdown 1, Returned None)] true (Some port_in_use) {[0; 1]}.

Lemma ended_run : rtc sys_step (start validatorTasks) ended.
Proof.
  eapply rtc_l; [left; by apply (step_serve _ 0 0 port_in_use)|].
  eapply rtc_l; [left; by apply (step_shutdown _ 3 1)|].
  eapply rtc_l; [left; apply (step_serve _ 1 1 ErrServerClosed); [done|intros _; set_solver]|].
  eapply rtc_l; [left; by apply (step_shutdown _ 2 0)|].
  eapply rtc_l; [left; by apply (step_shut _ 3 1 None)|].
  eapply rtc_l; [left; by apply (step_shut _ 2 0 None)|].
  unfold ended, return_from, set_status. cbn. replace ({[0]} ∪ ({[1]} ∪ ∅)) with ({[0; 1]} : gset nat) by set_solver.
  constructor.
Qed.

End GroupWitness.
End ErrGroup.
