(* ===== verification/ValidatorProgram.v ===== *)
(** * The template validator as a program
      (internal/template-validator: validator/app.go, service/service.go,
      virtinformers/informers.go)

    Its command line, its two servers, its informers, and how they fit the
    Deployment, the Service and the webhooks that the operator creates for it. *)

From stdpp Require Import relations.
From Stdlib Require Import Ascii.
From S2P Require Import Prelude GoRuntime KubeTypes SspTypes Architecture KubeClient Common Samples NetworkPolicies CommonTemplates Json VmCache RulePath Validation AdmissionHook Controllers Tls TemplateValidatorOperand FileWatch TlsWatch ErrGroup.

Module ValidatorProgram.
Import AdmissionHook TemplateLabels.

(** ** Options *)

Record App := mkApp {
  BindAddress : string;
  app_MetricsPort : Z;
  app_WebhookPort : Z;
  certsDir : string;
  versionOnly : bool
}.

Definition defaultMetricsPort : Z := 8443.
Definition defaultWebhookPort : Z := 9443.
Definition defaultHost : string := "0.0.0.0".
Definition tlsOptionsDirectory : string := "/tls-options".

(** The values before the command line is parsed. *)
Definition AddFlags : App := mkApp defaultHost defaultMetricsPort defaultWebhookPort "" false.

Definition MetricsAddress (app : App) : string := BindAddress app +:+ ":" +:+ itoa (app_MetricsPort app).
Definition WebhookAddress (app : App) : string := BindAddress app +:+ ":" +:+ itoa (app_WebhookPort app).

(** *** The command line (pflag)

    Arguments of the form [--name=value] for the options of the program; the
    other forms, and the options of the logging library, are a parameter, as
    are the integers that are not written in plain decimals. *)
Class CommandLine := {
  otherArguments : App -> list string -> outcome App;
  otherInteger : string -> option Z
}.

Definition digit (c : ascii) : option Z :=
  let n := Z.of_nat (nat_of_ascii c) in
  if bool_decide (48 <= n <= 57)%Z then Some (n - 48)%Z else None.

Fixpoint decimal (acc : Z) (s : string) : option Z :=
  match s with
  | EmptyString => Some acc
  | String c s' => d ← digit c; decimal (10 * acc + d) s'
  end.

(** The text before and after the first [=]. *)
Fixpoint cut (s : string) : option (string * string) :=
  match s with
  | EmptyString => None
  | String c s' => if bool_decide (c = "="%char) then Some ("", s')
                   else '(name, value) ← cut s'; Some (String c name, value)
  end.

Section parse.
Context `{CommandLine}.

(** [strconv.ParseInt s 0 64] *)
Definition ParseInt (s : string) : outcome Z :=
  let plain := match s with
               | String "0" (String _ _) | EmptyString => None
               | _ => decimal 0 s
               end in
  match (match plain with Some z => Some z | None => otherInteger s end) with
  | Some z => if bool_decide (in_int64 z) then Ok z else Err (EMsg "value out of range")
  | None => Err (EMsg "invalid syntax")
  end.

(** The options of the program and how they are set. *)
Definition set_flag (app : App) (name value : string) : option (outcome App) :=
  if bool_decide (name = "listen") then
    Some (Ok (mkApp value (app_MetricsPort app) (app_WebhookPort app) (certsDir app) (versionOnly app)))
  else if bool_decide (name = "metrics-port") then
    Some (p ← ParseInt value;
          Ok (mkApp (BindAddress app) p (app_WebhookPort app) (certsDir app) (versionOnly app)))
  else if bool_decide (name = "webhook-port") then
    Some (p ← ParseInt value;
          Ok (mkApp (BindAddress app) (app_MetricsPort app) p (certsDir app) (versionOnly app)))
  else if bool_decide (name = "cert-dir") then
    Some (Ok (mkApp (BindAddress app) (app_MetricsPort app) (app_WebhookPort app) value (versionOnly app)))
  else if bool_decide (name = "version") then
    Some (match ParseBool value with
          | Some b => Ok (mkApp (BindAddress app) (app_MetricsPort app) (app_WebhookPort app) (certsDir app) b)
          | None => Err (EMsg "invalid syntax")
          end)
  else None.

Fixpoint parse (app : App) (args : list string) : outcome App :=
  match args with
  | [] => Ok app
  | a :: rest =>
      match (if HasPrefix a "--" then cut (drop 2 a) else None) with
      | Some (name, value) =>
          match set_flag app name value with
          | Some r => app' ← r; parse app' rest
          | None => otherArguments app args
          end
      | None => otherArguments app args
      end
  end.
End parse.

(** ** Servers *)

Inductive Handler := MetricsHandler | VmHook | TemplateHook | ReadyHandler.

Record Server := mkServer {
  srv_Addr : string;
  srv_Handler : list (string * Handler);
  srv_TLSConfig : option (Tls.TLSInfo -> outcome Tls.Config)
}.

(** [Webhooks.Register] *)
Definition webhook_routes : list (string * Handler) :=
  [(TemplateValidatorOperand.VmValidatePath, VmHook); (TemplateValidatorOperand.TemplateValidatePath, TemplateHook)].

Definition createMetricsServer (app : App) : Server :=
  mkServer (MetricsAddress app) [("/metrics", MetricsHandler)] None.
Definition createWebhookServer (app : App) : Server :=
  mkServer (WebhookAddress app) (webhook_routes ++ [("/readyz", ReadyHandler)]) None.

(** The configuration of every connection is asked for when it is opened. *)
Definition createTLSConfig : Tls.TLSInfo -> outcome Tls.Config := Tls.CreateTlsConfig.
Definition with_tls (s : Server) (on : bool) : Server :=
  mkServer (srv_Addr s) (srv_Handler s) (if on then Some createTLSConfig else srv_TLSConfig s).

(** ** Informers *)

(** What the client libraries answer while the informers are created. *)
Class ClientLibrary := {
  GetConfig : option error;
  GVKForObject : string -> option error;
  HTTPClientFor : option error;
  RESTClientForGVK : string -> option error;
  ListWithContext : string -> option error (* one page of the resource *)
}.

Definition or_error (e : option error) : outcome unit :=
  match e with Some err => Err err | None => Ok tt end.

Record Informers := mkInformers {
  templateSynced : bool; (* [templateInformer.HasSynced] *)
  inf_vmCache : VmCache.vmCache;
  stopCh : bool
}.

Section informers.
Context `{ClientLibrary}.

Definition restClientForObject (kind : string) : outcome unit :=
  _ ← or_error (GVKForObject kind);
  _ ← or_error HTTPClientFor;
  or_error (RESTClientForGVK kind).

Definition createTemplateInformer : outcome unit :=
  _ ← restClientForObject "Template";
  or_error (ListWithContext "templates").

Definition createVmCacheReflector : outcome unit :=
  _ ← restClientForObject "VirtualMachine";
  or_error (ListWithContext "virtualmachines").

Definition NewInformers : outcome Informers :=
  _ ← or_error GetConfig;
  _ ← createTemplateInformer;
  _ ← createVmCacheReflector;
  Ok (mkInformers false VmCache.NewVmCache false).
End informers.

(** The goroutines that [Start] creates: the template informer lists once, the
    reflector replaces and updates the cache. *)
Inductive inf_step : Informers -> Informers -> Prop :=
| step_templates i : inf_step i (mkInformers true (inf_vmCache i) (stopCh i))
| step_vms i v : VmCache.step VmCache.vmNeedsTemplate (inf_vmCache i) v ->
    inf_step i (mkInformers (templateSynced i) v (stopCh i)).

(** [Start] returns once [WaitForCacheSync] does. *)
Definition Start_returns (i : Informers) : bool := templateSynced i || stopCh i.
Definition Stop (i : Informers) : Informers := mkInformers (templateSynced i) (inf_vmCache i) true.

(** ** The program *)

(** [if err != nil { panic(err) }] *)
Definition must {A} (m : outcome A) : outcome A :=
  match m with Err err => Panic (Error err) | _ => m end.

Notation watch := (FileWatch.watch (D := TlsWatch.Files) (S := Tls.TLSInfo)).

Record Program := mkProgram {
  metricsServer : Server;
  webhookServer : Server;
  tlsInfo : option (Tls.TLSInfo * watch);
  informers : Informers
}.

Section run.
Context `{CommandLine} `{ClientLibrary} `{R : Tls.TlsRuntime Tls.SSPTLSOptions} `{TlsWatch.X509}.

(** The state of the certificates and the watch of their directories, when TLS
    is enabled; the files are read twice. *)
Definition setupTLS (app : App) (d d' : TlsWatch.Files) : outcome (option (Tls.TLSInfo * watch)) :=
  if bool_decide (certsDir app = "") then Ok None
  else
    r ← TlsWatch.Init (certsDir app) tlsOptionsDirectory false Tls.zeroTLSInfo d d';
    Ok (Some r).

(** [Run] up to the start of the goroutines; [SetupMetrics] is what registering
    the metrics answers. *)
Definition prepare (app : App) (SetupMetrics : outcome unit) (d d' : TlsWatch.Files)
    : outcome (option Program) :=
  if versionOnly app then Ok None
  else
    inf ← must NewInformers;
    _ ← must SetupMetrics;
    tls ← must (setupTLS app d d');
    let on := bool_decide (is_Some tls) in
    Ok (Some (mkProgram (with_tls (createMetricsServer app) on) (with_tls (createWebhookServer app) on) tls inf)).

(** The end of [Run], when [g.Wait] returns. *)
Definition Run_result (g : ErrGroup.Group) : outcome unit :=
  must (or_error (ErrGroup.failed g)).

(** [Main]: the options, then the program. *)
Definition Main (args : list string) (SetupMetrics : outcome unit) (d d' : TlsWatch.Files)
    : outcome (option Program) :=
  app ← parse AddFlags args;
  prepare app SetupMetrics d d'.
End run.

(** ** The program fits its Deployment *)

Import TemplateValidatorOperand.

(** The directory of the container is the content of the volume source. *)
Definition mounted (pod : PodSpec) (c : Container) (path : string) (source : VolumeSource) : Prop :=
  exists name, mkVolumeMount name path true ∈ c_VolumeMounts c /\ mkVolume name source ∈ ps_Volumes pod.

(** A server listens on a port of the container. *)
Definition listens (app : App) (s : Server) (c : Container) (name : string) (port : Z) : Prop :=
  srv_Addr s = BindAddress app +:+ ":" +:+ itoa port /\ mkContainerPort name port "TCP" ∈ c_Ports c.

(** A probe of the container reaches a route of the server. *)
Definition answers (s : Server) (port : Z) (p : option Probe) : Prop :=
  exists probe, p = Some probe /\ pr_Port probe = FromInt32 port /\
    pr_Scheme probe = "HTTPS" /\ is_Some (srv_TLSConfig s) /\ pr_Path probe ∈ (srv_Handler s).*1.

(** What the informers list and watch. *)
Definition informerResources : list (string * string) :=
  [("template.openshift.io", "templates"); ("kubevirt.io", "virtualmachines")].
Definition granted (rules : list PolicyRule) (r : string * string) : Prop :=
  Exists (fun rule => r.1 ∈ APIGroups rule /\ r.2 ∈ Resources rule /\ "list" ∈ Verbs rule /\ "watch" ∈ Verbs rule) rules.

Section fits.
Context `{Process} `{CommandLine} `{ClientLibrary} `{R : Tls.TlsRuntime Tls.SSPTLSOptions} `{TlsWatch.X509}.

(** The options of the container, parsed. *)
Definition deployedApp : App := mkApp defaultHost MetricsPort WebhookPort "/etc/webhook/certs" false.

Definition deployedProgram (inf : Informers) (tls : Tls.TLSInfo * watch) : Program :=
  mkProgram (with_tls (createMetricsServer deployedApp) true)
    (with_tls (createWebhookServer deployedApp) true) (Some tls) inf.

Lemma deployed_parse image : parse AddFlags (concat (c_Args <$> ps_Containers (newPodSpec image))) = Ok deployedApp.
Proof. reflexivity. Qed.

Lemma deployed_prepare SetupMetrics d d' inf :
  NewInformers = Ok inf -> SetupMetrics = Ok tt ->
  exists tls, TlsWatch.Init (certsDir deployedApp) tlsOptionsDirectory false Tls.zeroTLSInfo d d' = Ok tls /\
    prepare deployedApp SetupMetrics d d' = Ok (Some (deployedProgram inf tls)).
Proof.
  intros Hi ->. eexists. split; [reflexivity|]. unfold prepare. cbn [versionOnly deployedApp]. rewrite Hi. reflexivity.
Qed.

(** C33: the template validator fits the objects that the operator creates for it.
    Started with the arguments of its container it serves both servers with TLS
    from the certificate of the service and the options that the operator writes,
    which it watches as two directories; it listens on the ports of the container,
    answers the probes and the paths of the webhooks, and may list what its
    informers list. *)
Theorem program_fits_deployment req tlsOptions SetupMetrics d d' inf :
  NewInformers = Ok inf -> SetupMetrics = Ok tt ->
  exists pod c app prog tls,
    pod_of (desiredDeployment req) = Some pod /\ ps_Containers (pt_spec pod) = [c] /\
    parse AddFlags (c_Args c) = Ok app /\ Main (c_Args c) SetupMetrics d d' = Ok (Some prog) /\
    tlsInfo prog = Some tls /\
    TlsWatch.Init (certsDir app) tlsOptionsDirectory false Tls.zeroTLSInfo d d' = Ok tls /\
    certsDir app <> tlsOptionsDirectory /\
    (exists secret, mounted (pt_spec pod) c (certsDir app) (VolSecret secret) /\
       default ∅ (Annotations (o_meta (newService (ns req))))
         !! "service.beta.openshift.io/serving-cert-secret-name" = Some secret) /\
    mounted (pt_spec pod) c tlsOptionsDirectory (VolConfigMap (Name (o_meta (newConfigMap (ns req) tlsOptions)))) /\
    listens app (webhookServer prog) c webhookPortName WebhookPort /\
    listens app (metricsServer prog) c ServiceController.MetricsPortName MetricsPort /\
    answers (webhookServer prog) (app_WebhookPort app) (c_LivenessProbe c) /\
    answers (webhookServer prog) (app_WebhookPort app) (c_ReadinessProbe c) /\
    (exists ws, o_body (newValidatingWebhook (ns req)) = ValidatingWebhookConfiguration ws /\
       Forall (fun w => exists service path, wh_Service w = Some (mkServiceReference service (ns req) (Some path)) /\
                          path ∈ (srv_Handler (webhookServer prog)).*1) ws) /\
    NoDup (srv_Handler (webhookServer prog)).*1 /\
    (exists rules, o_body newClusterRole = ClusterRole rules /\ Forall (granted rules) informerResources).
Proof.
  intros Hi Hm. destruct (deployed_prepare SetupMetrics d d' inf Hi Hm) as (tls & Ht & Hp).
  exists (desiredPod req). eexists. exists deployedApp, (deployedProgram inf tls), tls.
  split; [reflexivity|]. split; [cbn [pt_spec desiredPod]; apply pod_containers|].
  split; [reflexivity|]. split_and!; try reflexivity.
  - exact Hp.
  - exact Ht.
  - discriminate.
  - exists SecretName. split; [|by vm_compute]. exists "tls". split; [by left|]. cbn [pt_spec desiredPod].
    rewrite pod_volumes. by left.
  - exists "config-map". split; [right; by left|]. cbn [pt_spec desiredPod]. rewrite pod_volumes. right. by left.
  - split; [reflexivity|by left].
  - split; [reflexivity|right; by left].
  - eexists. split_and!; [reflexivity|reflexivity|reflexivity|by eexists|]. right. right. by left.
  - eexists. split_and!; [reflexivity|reflexivity|reflexivity|by eexists|]. right. right. by left.
  - eexists. split; [reflexivity|]. repeat apply Forall_cons_2; [| |apply Forall_nil_2]; eexists _, _; (split; [reflexivity|]).
    + by left.
    + right. by left.
  - apply (bool_decide_unpack _). by vm_compute.
  - eexists. split; [reflexivity|]. apply (bool_decide_unpack _). by vm_compute.
Qed.
End fits.

(** ** The servers start before the cache of virtual machines is filled *)

(** [Start] waits for the templates only: when the program starts to serve, the
    cache may still be empty, and then the deletion of any template is admitted,
    whatever virtual machines refer to it. *)
Theorem deletion_admitted_early : exists i,
  rtc inf_step (mkInformers false VmCache.NewVmCache false) i /\ Start_returns i = true /\
  forall `{SetRange} decodeTemplate ar req template templates n,
    ar_Request ar = Some req -> ar_Resource req = "templates" -> ar_Operation req = "DELETE" ->
    decodeTemplate (ar_OldObject req) = Ok template ->
    let s := mkHookSt templates (inf_vmCache i) n in
    admitTemplate decodeTemplate ar s = (Ok ToAdmissionResponseOK, s).
Proof.
  exists (mkInformers true VmCache.NewVmCache false). split; [|split; [done|]].
  - eapply rtc_l; [apply step_templates|]. constructor.
  - intros R decodeTemplate ar req template templates n Hr Hres Hop Hd. cbn.
    unfold admitTemplate, GetAdmissionReviewTemplate. rewrite Hr. run_monad.
    rewrite !bool_decide_true by done. cbn. rewrite Hd. cbn. by repeat case_match.
Qed.

Module ProgramWitness.
#[local] Existing Instance Tls.TlsWitness.runtime.
#[local] Existing Instance TlsWatch.TlsWatchWitness.plain_x509.
Definition cmdline : CommandLine :=
  {| otherArguments := fun _ _ => Err (EMsg "unknown flag"); otherInteger := fun _ => None |}.
Definition reachable_api : ClientLibrary :=
  {| GetConfig := None; GVKForObject := fun _ => None; HTTPClientFor := None;
     RESTClientForGVK := fun _ => None; ListWithContext := fun _ => None |}.

Lemma program_fits_deployment_witness :
  exists pod, pod_of (desiredDeployment (H := Samples.process) Samples.request) = Some pod.
Proof.
  destruct (program_fits_deployment (H := Samples.process) (H0 := cmdline) (H1 := reachable_api)
    Samples.request "{}" (Ok tt) TlsWatch.TlsWatchWitness.old TlsWatch.TlsWatchWitness.old
    (mkInformers false VmCache.NewVmCache false)) as (pod & _ & _ & _ & _ & Hp & _).
  - reflexivity.
  - reflexivity.
  - exists pod. exact Hp.
Defined.
End ProgramWitness.
End ValidatorProgram.
