(* ===== verification/OperatorMain.v ===== *)
(** * The operator as a program (main.go)

    The start of the operator, step by step: every failure ends the process, and
    the controllers start last. *)

From S2P Require Import Prelude GoRuntime KubeTypes SspTypes Architecture KubeClient Cluster Common Samples CrdWatch Resource SspController ControllerProofs Contracts CommonTemplates Json TemplateBundle DataSources Controllers Tls StaticOperands TemplateValidatorOperand MetricsOperand VmConsoleProxy VmConsoleProxyProofs MonitoringRules Setup ErrGroup.

Module OperatorMain.
Import Setup MonitoringRules.

(** ** The host name *)

Record Certificate := mkCertificate { CommonName : string; DNSNames : list string }.

(** [pem.Decode] and [x509.ParseCertificate] *)
Class Certificates := {
  pem_Decode : string -> option string;
  ParseCertificate : string -> error + Certificate
}.

Definition extractHostnameFromCert `{Certificates} (certFile : error + string) : outcome string :=
  match certFile with
  | inl err => Err (EWrap "failed to read certificate file: " err)
  | inr certBytes =>
      match pem_Decode certBytes with
      | None => Err (EMsg "failed to parse certificate PEM")
      | Some block =>
          match ParseCertificate block with
          | inl err => Err (EWrap "failed to parse certificate: " err)
          | inr cert =>
              if bool_decide (CommonName cert = "") then
                Err (EMsg "failed to extract common name from certificate")
              else
                match DNSNames cert with
                | [] => Panic "index out of range [0] with length 0"
                | name :: _ =>
                    if bool_decide (CommonName cert = name) then Ok (CommonName cert)
                    else Err (EMsg "failed to extract common name from certificate")
                end
          end
      end
  end.

(** ** The metrics server *)

Definition sdkTLSDir (TempDir : string) : string := TempDir +:+ "/k8s-webhook-server/serving-certs".
Definition sdkTLSCrt : string := "tls.crt".
Definition sdkTLSKey : string := "tls.key".

Record prometheusServer := mkPrometheusServer {
  certPath : string;
  keyPath : string;
  serverAddress : string
}.

#[export] Instance prometheusServer_eq_dec : EqDecision prometheusServer.
Proof. solve_decision. Defined.

Definition NeedLeaderElection (s : prometheusServer) : bool := false.

(** The configuration for one handshake; [certificate] is what the watcher of the
    certificate files serves at that time. *)
Definition getPrometheusTLSConfig `{R : Tls.TlsRuntime Tls.SSPTLSOptions} (certificate : string)
    (ssps : error + list SSP) : outcome Tls.Config :=
  Tls.getConfigForClient ssps (Tls.mkConfig (Some certificate) 0 []).

(** [http.Server]: the address, the handled paths, and the handshake. *)
Record HttpServer := mkHttpServer {
  Addr : string;
  handled : list string;
  handshake : string -> error + list SSP -> outcome Tls.Config
}.

(** [Start]: the server, and the goroutines that run it until the context ends. *)
Definition prometheusServer_Start `{R : Tls.TlsRuntime Tls.SSPTLSOptions}
    (certwatcher_New : string -> string -> option error) (s : prometheusServer)
    : outcome (HttpServer * ErrGroup.Group) :=
  match certwatcher_New (certPath s) (keyPath s) with
  | Some err => Err err
  | None => Ok (mkHttpServer (serverAddress s) ["/metrics"] getPrometheusTLSConfig,
                ErrGroup.start ErrGroup.prometheusTasks)
  end.

(** ** main *)

Record Flags := mkFlags {
  metricsAddr : string;
  probeAddr : string;
  enableLeaderElection : bool;
  olmDeployment : bool
}.
#[export] Instance Flags_eq_dec : EqDecision Flags.
Proof. solve_decision. Defined.

Definition defaultFlags : Flags := mkFlags ":8443" ":8081" false false.

Definition leaderElectionID : string := "734f7229.kubevirt.io".
Definition webhookPort : Z := 9443.

(** What the libraries answer while the operator starts; the two answers about
    webhooks are those for the two versions of the API. *)
Class StartUp := {
  TempDir : string;
  ReadFile : string -> error + string;
  GetConfig : option error;
  NewClient : option error;
  NewManager : Flags -> option error;
  NewWebhook : string -> option error;
  RegisterMetrics : list (list Metric) -> option error;
  AddReadyzCheck : option error
}.

(** What [main] did, in order. *)
Inductive Action :=
| CreatedControllers
| CreatedManager (flags : Flags)
| CreatedWebhook (version : string)
| RegisteredMetrics
| RegisteredRules
| AddedServer (s : prometheusServer)
| AddedCheck
| StartedControllers.

#[export] Instance Action_eq_dec : EqDecision Action.
Proof. solve_decision. Defined.

Record MainSt := mkMainSt { actions : list Action; registry : Registry }.
Definition initial : MainSt := mkMainSt [] NewRegistry.

Definition did (a : Action) : M MainSt unit :=
  modify_state (fun s => mkMainSt (actions s ++ [a]) (registry s)).
Definition check (e : option error) : M MainSt unit :=
  match e with Some err => throw err | None => mret () end.

Section main.
Context `{Process} `{ClusterConfig} `{R : Tls.TlsRuntime Tls.SSPTLSOptions} `{VmConsoleProxy.ProxyYaml}
  `{MapRange} `{SetRange} `{Manager} `{GoFmt} `{Certificates} `{StartUp} `{Client W}.
Context (decode : string -> outcome json) (encode : list RuleGroup -> Opaque).
Context (templatesFile : error + list (error + Object))
  (proxyFile : outcome (list VmConsoleProxy.Document)).

(** [webhooks.Setup] *)
Definition webhooks_Setup : M MainSt unit :=
  _ ← (match NewWebhook "v1beta2" with
       | Some _ => throw (EMsg "failed to create webhook for v1beta2.SSP")
       | None => did (CreatedWebhook "v1beta2")
       end);
  match NewWebhook "v1beta3" with
  | Some _ => throw (EMsg "failed to create webhook for v1beta3.SSP")
  | None => did (CreatedWebhook "v1beta3")
  end.

Definition setup_rules : M MainSt unit :=
  s ← get_state;
  r ← lift (SetupRules (registry s));
  modify_state (fun s => mkMainSt (actions s ++ [RegisteredRules]) r).

Definition newPrometheusServer (metricsAddr : string) : M MainSt prometheusServer :=
  _ ← check (RegisterMetrics operatorSetupMetrics);
  _ ← did RegisteredMetrics;
  _ ← setup_rules;
  mret (mkPrometheusServer (sdkTLSDir TempDir +:+ "/" +:+ sdkTLSCrt) (sdkTLSDir TempDir +:+ "/" +:+ sdkTLSKey)
          metricsAddr).

(** The controllers for a registry of rules: the metrics operand reads the
    registry of the process whenever it runs. *)
Definition controllersFor (r : Registry) (olm : bool) (hostname : string) : outcome (list (Controller W)) :=
  CreateControllers (H2 := rule_registry encode r) decode templatesFile proxyFile olm hostname.

(** An error is logged and ends the process with status 1. [listed] is the
    answer of the API server to the list of CRDs. *)
Definition main (flags : Flags) (listed : error + list string) : M MainSt unit :=
  sspServiceHostname ← lift (extractHostnameFromCert (ReadFile (sdkTLSDir TempDir +:+ "/" +:+ sdkTLSCrt)));
  _ ← check GetConfig;
  _ ← check NewClient;
  _ ← lift (controllersFor NewRegistry (olmDeployment flags) sspServiceHostname);
  _ ← did CreatedControllers;
  _ ← check (NewManager flags);
  _ ← did (CreatedManager flags);
  _ ← (if bool_decide (default "" (LookupEnv "ENABLE_WEBHOOKS") = "false") then mret () else webhooks_Setup);
  metricsServer ← newPrometheusServer (metricsAddr flags);
  _ ← check (mgr_Add "prometheus");
  _ ← did (AddedServer metricsServer);
  _ ← check AddReadyzCheck;
  _ ← did AddedCheck;
  s ← get_state;
  ctrls ← lift (controllersFor (registry s) (olmDeployment flags) sspServiceHostname);
  _ ← did StartedControllers;
  lift (StartControllers ctrls listed).
End main.

(** ** Correctness *)

(** The metrics server, once it runs, presents the current certificate in every
    handshake that it accepts, and the minimal version and the ciphers do not
    depend on the certificate. *)
Lemma prometheus_handshake `{R : Tls.TlsRuntime Tls.SSPTLSOptions} certwatcher_New s server group :
  prometheusServer_Start certwatcher_New s = Ok (server, group) ->
  Addr server = serverAddress s /\
  forall certificate ssps cfg, handshake server certificate ssps = Ok cfg ->
    Tls.Certificates cfg = Some certificate /\
    forall other, exists cfg', handshake server other ssps = Ok cfg' /\
      Tls.MinVersion cfg' = Tls.MinVersion cfg /\ Tls.CipherSuites cfg' = Tls.CipherSuites cfg.
Proof.
  unfold prometheusServer_Start. case_match; [done|]. intros [= <- <-]. split; [done|].
  intros certificate ssps cfg. cbn. unfold getPrometheusTLSConfig, Tls.getConfigForClient.
  destruct ssps as [err|[|item items]]; [done|by intros [= <-]; split; [|eauto]|].
  repeat case_match; intros; simplify_eq; split; eauto.
Qed.

(** The host name is the common name of the certificate, which must also be the
    first of its DNS names; a certificate with a common name and no DNS names
    makes the operator panic. *)
Theorem extractHostnameFromCert_spec `{Certificates} certBytes block cert :
  pem_Decode certBytes = Some block -> ParseCertificate block = inr cert ->
  (forall h, extractHostnameFromCert (inr certBytes) = Ok h <->
     h <> "" /\ h = CommonName cert /\ head (DNSNames cert) = Some h) /\
  ((exists msg, extractHostnameFromCert (inr certBytes) = Panic msg) <->
     CommonName cert <> "" /\ DNSNames cert = []).
Proof.
  intros Hp Hc. unfold extractHostnameFromCert. rewrite Hp, Hc.
  case_bool_decide as E; [split; naive_solver|].
  destruct (DNSNames cert) as [|name names]; [split; naive_solver|].
  case_bool_decide; split; naive_solver.
Qed.

Section correct.
Context `{Process} `{ClusterConfig} `{R : Tls.TlsRuntime Tls.SSPTLSOptions} `{VmConsoleProxy.ProxyYaml}
  `{MapRange} `{SetRange} `{Manager} `{GoFmt} `{Certificates} `{StartUp} `{Client W}.
Context (decode : string -> outcome json) (encode : list RuleGroup -> Opaque).
Context (templatesFile : error + list (error + Object))
  (proxyFile : outcome (list VmConsoleProxy.Document)).

(** Whether the controllers can be created does not depend on the rules. *)
Lemma controllersFor_registry r r' olm hostname cs :
  controllersFor decode encode templatesFile proxyFile r olm hostname = Ok cs ->
  exists cs', controllersFor decode encode templatesFile proxyFile r' olm hostname = Ok cs'.
Proof.
  unfold controllersFor, CreateControllers, openshiftOperands, proxyOperand, mbind, outcome_bind.
  intros Hc. repeat (case_match; simplify_eq); eauto.
Qed.

(** What has happened when the controllers are started. *)
Definition started_after (flags : Flags) : list Action :=
  [CreatedControllers; CreatedManager flags] ++
  (if bool_decide (default "" (LookupEnv "ENABLE_WEBHOOKS") = "false") then []
   else [CreatedWebhook "v1beta2"; CreatedWebhook "v1beta3"]) ++
  [RegisteredMetrics; RegisteredRules;
   AddedServer (mkPrometheusServer (sdkTLSDir TempDir +:+ "/" +:+ sdkTLSCrt)
                  (sdkTLSDir TempDir +:+ "/" +:+ sdkTLSKey) (metricsAddr flags));
   AddedCheck; StartedControllers].

(** A part of [main] that has not started the controllers. *)
Definition quiet {A} (m : M MainSt A) : Prop := forall s,
  StartedControllers ∉ actions s -> StartedControllers ∉ actions (m s).2.

Lemma started_bind {A B} (m : M MainSt A) (f : A -> M MainSt B) s :
  quiet m -> StartedControllers ∉ actions s -> StartedControllers ∈ actions ((m ≫= f) s).2 ->
  exists a s', m s = (Ok a, s') /\ StartedControllers ∉ actions s' /\
    (m ≫= f) s = f a s' /\ StartedControllers ∈ actions (f a s').2.
Proof.
  unfold mbind, M_bind. intros Hm Hs. specialize (Hm s Hs). destruct (m s) as [[a|e|p] s'] eqn:E; cbn in *.
  - intros Hin. by exists a, s'.
  - done.
  - done.
Qed.

Lemma quiet_lift {A} (m : outcome A) : quiet (lift m).
Proof. by intros s. Qed.
Lemma quiet_check e : quiet (check e).
Proof. intros s. by destruct e. Qed.
Lemma quiet_ret {A} (a : A) : quiet (mret a).
Proof. by intros s. Qed.
Lemma quiet_get : quiet get_state.
Proof. by intros s. Qed.
Lemma quiet_did a : a <> StartedControllers -> quiet (did a).
Proof. intros Ha s Hs. cbn. rewrite elem_of_app, elem_of_cons, elem_of_nil. naive_solver. Qed.
Lemma quiet_bind {A B} (m : M MainSt A) (f : A -> M MainSt B) :
  quiet m -> (forall a, quiet (f a)) -> quiet (m ≫= f).
Proof.
  intros Hm Hf s Hs. unfold mbind, M_bind. specialize (Hm s Hs).
  destruct (m s) as [[a|e|p] s']; cbn in *; [by apply Hf|done|done].
Qed.
Lemma quiet_if {A} (b : bool) (m m' : M MainSt A) : quiet m -> quiet m' -> quiet (if b then m else m').
Proof. by destruct b. Qed.
Lemma quiet_webhooks : quiet webhooks_Setup.
Proof.
  apply quiet_bind; intros; case_match; [by intros ?| |by intros ?|]; by apply quiet_did.
Qed.
Lemma quiet_rules : quiet setup_rules.
Proof.
  apply quiet_bind; [apply quiet_get|]. intros s1. apply quiet_bind; [apply quiet_lift|].
  intros r s Hs. cbn. rewrite elem_of_app, elem_of_cons, elem_of_nil. naive_solver.
Qed.
Lemma quiet_server addr : quiet (newPrometheusServer addr).
Proof.
  apply quiet_bind; [apply quiet_check|]. intros _. apply quiet_bind; [by apply quiet_did|]. intros _.
  apply quiet_bind; [apply quiet_rules|]. intros _. apply quiet_ret.
Qed.
End correct.

#[export] Hint Resolve quiet_if quiet_lift quiet_check quiet_ret quiet_get quiet_did quiet_webhooks quiet_rules quiet_server : ssp.

(** Goes past the next call of a run that starts the controllers. *)
Ltac past_call Hin E :=
  lazymatch type of Hin with
  | StartedControllers ∈ actions ((?m ≫= ?f) ?s).2 =>
      let a := fresh "a" in let s' := fresh "s" in let Eq := fresh "Eq" in let Hin' := fresh "Hin" in
      let Hn := fresh "Hn" in
      destruct (started_bind m f s) as (a & s' & E & Hn & Eq & Hin');
        [auto with ssp|assumption|exact Hin|]; rewrite Eq; clear Eq Hin; rename Hin' into Hin
  end.

#[local] Arguments SetupRules {_ _} _ : simpl never.

Section starts.
Context `{Process} `{ClusterConfig} `{R : Tls.TlsRuntime Tls.SSPTLSOptions} `{VmConsoleProxy.ProxyYaml}
  `{MapRange} `{SetRange} `{Manager} `{GoFmt} `{Certificates} `{StartUp} `{Client W}.
Context (decode : string -> outcome json) (encode : list RuleGroup -> Opaque).
Context (templatesFile : error + list (error + Object))
  (proxyFile : outcome (list VmConsoleProxy.Document)).

Lemma check_Ok e s a s' : check e s = (Ok a, s') -> e = None /\ s' = s.
Proof. destruct e; by intros [=]. Qed.
Lemma lift_Ok {A} (m : outcome A) (s : MainSt) a s' : lift m s = (Ok a, s') -> m = Ok a /\ s' = s.
Proof. by intros [=]. Qed.
Lemma did_Ok x s a s' : did x s = (Ok a, s') -> s' = mkMainSt (actions s ++ [x]) (registry s).
Proof. by intros [= _ <-]. Qed.

Lemma webhooks_Ok s a s' :
  (if bool_decide (default "" (LookupEnv "ENABLE_WEBHOOKS") = "false") then mret () else webhooks_Setup) s
    = (Ok a, s') ->
  s' = mkMainSt (actions s ++ (if bool_decide (default "" (LookupEnv "ENABLE_WEBHOOKS") = "false") then []
                               else [CreatedWebhook "v1beta2"; CreatedWebhook "v1beta3"])) (registry s).
Proof.
  case_bool_decide.
  - intros [= _ <-]. rewrite app_nil_r. by destruct s.
  - unfold webhooks_Setup, did. run_monad.
    destruct (NewWebhook "v1beta2"); [done|]. cbn. destruct (NewWebhook "v1beta3"); [done|]. cbn.
    intros [= _ <-]. cbn. by rewrite <- app_assoc.
Qed.

Lemma server_Ok addr s a s' :
  newPrometheusServer addr s = (Ok a, s') ->
  a = mkPrometheusServer (sdkTLSDir TempDir +:+ "/" +:+ sdkTLSCrt) (sdkTLSDir TempDir +:+ "/" +:+ sdkTLSKey) addr /\
  SetupRules (registry s) = Ok (registry s') /\ actions s' = actions s ++ [RegisteredMetrics; RegisteredRules].
Proof.
  unfold newPrometheusServer, setup_rules, check, did. destruct (RegisterMetrics operatorSetupMetrics); run_monad; [done|].
  destruct (SetupRules (registry s)) as [r| |] eqn:E; [|done|done]. cbn. intros [= <- <-]. cbn.
  by rewrite <- app_assoc.
Qed.

End starts.

Module MainWitness.
Definition certificates : Certificates :=
  {| pem_Decode := Some; ParseCertificate := fun _ => inr (mkCertificate "ssp-operator.svc" ["ssp-operator.svc"]) |}.
Definition startup : StartUp :=
  {| TempDir := "/tmp"; ReadFile := fun _ => inr "certificate"; GetConfig := None; NewClient := None;
     NewManager := fun _ => None; NewWebhook := fun _ => None; RegisterMetrics := fun _ => None;
     AddReadyzCheck := None |}.


(** A certificate without DNS names ends the operator in a panic. *)
Definition nameless : Certificates :=
  {| pem_Decode := Some; ParseCertificate := fun _ => inr (mkCertificate "ssp-operator.svc" []) |}.
Lemma extractHostnameFromCert_spec_witness :
  exists msg, extractHostnameFromCert (H := nameless) (inr "certificate") = Panic msg.
Proof.
  apply (extractHostnameFromCert_spec (H := nameless) "certificate" "certificate" (mkCertificate "ssp-operator.svc" []));
    [reflexivity|reflexivity|]. split; [discriminate|reflexivity].
Defined.
End MainWitness.
End OperatorMain.
