(* ===== verification/CsvGenerator.v ===== *)
(** * The generator of the OLM bundle (hack/csv-generator.go)

    A program that runs when the operator is built: it reads the
    ClusterServiceVersion from the repository, fills in versions and images, and
    prints it with the CRDs and network policies. *)

From stdpp Require Import list.
From S2P Require Import Prelude GoRuntime KubeTypes SspTypes Architecture KubeClient Common Samples Semver Json TemplateValidatorOperand VmConsoleProxy.

Module CsvGenerator.

Record generatorFlags := mkFlags {
  dumpCRDs : bool;
  dumpNPs : bool;
  flag_removeCerts : bool;
  flag_webhookPort : Z;
  csvVersion : string;
  namespace : string;
  operatorImage : string;
  operatorVersion : string;
  validatorImage : string;
  vmConsoleProxyImage : string
}.

(** ** The parts of a ClusterServiceVersion that the generator changes *)

Record EnvVar := mkEnvVar { ev_Name : string; ev_Value : string; ev_other : Opaque }.
(** A volume or a volume mount. *)
Record Named := mkNamed { nm_Name : string; nm_other : Opaque }.
Record Container := mkContainer {
  ct_Name : string;
  ct_Image : string;
  ct_Env : list EnvVar;
  ct_Args : list string;
  ct_VolumeMounts : list Named;
  ct_other : Opaque
}.
Record TemplateSpec := mkTemplateSpec { Containers : list Container; Volumes : list Named; ts_other : Opaque }.
Record WebhookDefinition := mkWebhookDefinition { wd_ContainerPort : Z; wd_other : Opaque }.
Record CSV := mkCSV {
  csv_Name : string;
  csv_Version : option Semver.Version;
  DeploymentSpecs : list TemplateSpec;
  WebhookDefinitions : list WebhookDefinition;
  csv_other : Opaque
}.

Definition with_image (c : Container) (image : string) (env : list EnvVar) : Container :=
  mkContainer (ct_Name c) image env (ct_Args c) (ct_VolumeMounts c) (ct_other c).
Definition with_args (c : Container) (args : list string) : Container :=
  mkContainer (ct_Name c) (ct_Image c) (ct_Env c) args (ct_VolumeMounts c) (ct_other c).
Definition with_mounts (c : Container) (mounts : list Named) : Container :=
  mkContainer (ct_Name c) (ct_Image c) (ct_Env c) (ct_Args c) mounts (ct_other c).

(** [csv.Spec.InstallStrategy.StrategySpec.DeploymentSpecs[0]] *)
Definition first_deployment (csv : CSV) : outcome TemplateSpec :=
  match DeploymentSpecs csv with
  | [] => Panic "index out of range [0] with length 0"
  | d :: _ => Ok d
  end.
Definition set_first (csv : CSV) (d : TemplateSpec) : CSV :=
  mkCSV (csv_Name csv) (csv_Version csv) (d :: tail (DeploymentSpecs csv)) (WebhookDefinitions csv) (csv_other csv).

(** The loops over the containers change the first one named [manager]. *)
Fixpoint on_manager (f : Container -> Container) (l : list Container) : list Container :=
  match l with
  | [] => []
  | c :: l' => if bool_decide (ct_Name c = "manager") then f c :: l' else c :: on_manager f l'
  end.

(** ** Versions and images *)

Definition update_env (flags : generatorFlags) (e : EnvVar) : EnvVar :=
  let set v := if bool_decide (v = "") then e else mkEnvVar (ev_Name e) v (ev_other e) in
  if bool_decide (ev_Name e = Env.TemplateValidatorImageKey) then set (validatorImage flags)
  else if bool_decide (ev_Name e = Env.OperatorVersionKey) then set (operatorVersion flags)
  else if bool_decide (ev_Name e = Env.VmConsoleProxyImageKey) then set (vmConsoleProxyImage flags)
  else e.

Definition updateContainerEnvVars (flags : generatorFlags) (c : Container) : list EnvVar :=
  update_env flags <$> ct_Env c.

Definition replaceVariables (flags : generatorFlags) (csv : CSV) : outcome CSV :=
  match Semver.Parse (csvVersion flags) with
  | None => Err (EMsg "invalid version")
  | Some v =>
      d ← first_deployment csv;
      let containers := on_manager (fun c => with_image c (operatorImage flags) (updateContainerEnvVars flags c))
                          (Containers d) in
      let csv := set_first csv (mkTemplateSpec containers (Volumes d) (ts_other d)) in
      let hooks := if bool_decide (0 < flag_webhookPort flags)%Z
                   then (fun w => mkWebhookDefinition (flag_webhookPort flags) (wd_other w)) <$> WebhookDefinitions csv
                   else WebhookDefinitions csv in
      Ok (mkCSV ("ssp-operator.v" +:+ csvVersion flags) (Some v) (DeploymentSpecs csv) hooks (csv_other csv))
  end.

(** ** Certificates *)

(** [append(s[:i], s[i+1:]...)] moves the elements behind [i] in the array of
    [s]; the last cell of the array keeps its value. *)
Definition shift_down {A} (i : nat) (arr : list A) : list A :=
  take i arr ++ skipn (S i) arr ++ skipn (Nat.pred (List.length arr)) arr.

(** The loop over the mounts, which ends at the first match; the result is the
    shortened slice. *)
Fixpoint remove_first (i n : nat) (arr : list Named) : list Named :=
  match n with
  | O => arr
  | S n' =>
      match arr !! i with
      | Some v => if bool_decide (nm_Name v = "cert")
                  then take (Nat.pred (List.length arr)) (shift_down i arr)
                  else remove_first (S i) n' arr
      | None => arr
      end
  end.

(** The loop over the volumes, which goes on: it ranges over the slice as it was
    at the start, whose array the removal changes. *)
Fixpoint volume_loop (i n : nat) (arr : list Named) (removed : bool) : list Named * bool :=
  match n with
  | O => (arr, removed)
  | S n' =>
      match arr !! i with
      | Some v => if bool_decide (nm_Name v = "cert") then volume_loop (S i) n' (shift_down i arr) true
                  else volume_loop (S i) n' arr removed
      | None => (arr, removed)
      end
  end.
Definition remove_volumes (l : list Named) : list Named :=
  let '(arr, removed) := volume_loop 0 (List.length l) l false in
  if removed then take (Nat.pred (List.length l)) arr else arr.

Definition removeCerts (csv : CSV) : outcome CSV :=
  d ← first_deployment csv;
  let containers := on_manager (fun c =>
    with_mounts c (remove_first 0 (List.length (ct_VolumeMounts c)) (ct_VolumeMounts c))) (Containers d) in
  Ok (set_first csv (mkTemplateSpec containers (remove_volumes (Volumes d)) (ts_other d))).

Definition addOLMArg (csv : CSV) : outcome CSV :=
  d ← first_deployment csv;
  let containers := on_manager (fun c => with_args c (ct_Args c ++ ["--olm-deployment"])) (Containers d) in
  Ok (set_first csv (mkTemplateSpec containers (Volumes d) (ts_other d))).

(** ** Printing *)

Definition buildRelatedImage (imageDesc imageName : string) : json :=
  JObject [("name", JString imageName); ("image", JString imageDesc)].

Definition buildRelatedImages (flags : generatorFlags) : list json :=
  (if bool_decide (validatorImage flags = "") then []
   else [buildRelatedImage (validatorImage flags) "template-validator"]) ++
  (if bool_decide (vmConsoleProxyImage flags = "") then []
   else [buildRelatedImage (vmConsoleProxyImage flags) "vm-console-proxy"]).

(** Updates of the map behind an object. *)
Fixpoint set_key (fields : list (string * json)) (k : string) (v : json) : list (string * json) :=
  match fields with
  | [] => [(k, v)]
  | (k', v') :: rest => if bool_decide (k = k') then (k, v) :: rest else (k', v') :: set_key rest k v
  end.
Definition delete_key (fields : list (string * json)) (k : string) : list (string * json) :=
  filter (fun f => f.1 <> k) fields.

(** [unstructured.RemoveNestedField] *)
Fixpoint RemoveNestedField (obj : json) (fields : list string) : json :=
  match obj, fields with
  | JObject m, [k] => JObject (delete_key m k)
  | JObject m, k :: rest =>
      match Json.get m k with
      | Some v => JObject (set_key m k (RemoveNestedField v rest))
      | None => obj
      end
  | _, _ => obj
  end.

(** [unstructured.SetNestedField] *)
Fixpoint SetNestedField (obj : json) (value : json) (fields : list string) : outcome json :=
  match obj, fields with
  | JObject m, [k] => Ok (JObject (set_key m k value))
  | JObject m, k :: rest =>
      v ← SetNestedField (default (JObject []) (Json.get m k)) value rest;
      Ok (JObject (set_key m k v))
  | _, _ => Err (EMsg "value cannot be set because it is not a map[string]interface{}")
  end.

Definition clean_deployment (j : json) : outcome json :=
  match j with
  | JObject _ =>
      Ok (RemoveNestedField (RemoveNestedField (RemoveNestedField j ["metadata"; "creationTimestamp"])
            ["spec"; "template"; "metadata"; "creationTimestamp"]) ["status"])
  | _ => Panic "interface conversion"
  end.

Definition deploymentsPath : list string := ["spec"; "install"; "spec"; "deployments"].

(** [marshallObject] up to the YAML encoder. *)
Definition marshallObject (obj : json) (relatedImages : list json) : outcome json :=
  let r := RemoveNestedField (RemoveNestedField (RemoveNestedField (RemoveNestedField obj
             ["metadata"; "creationTimestamp"]) ["template"; "metadata"; "creationTimestamp"])
             ["spec"; "template"; "metadata"; "creationTimestamp"]) ["status"] in
  found ← Json.NestedSlice r deploymentsPath;
  r ← (match found with
       | None => Ok r
       | Some deployments =>
           cleaned ← mapM clean_deployment deployments;
           SetNestedField r (JArray cleaned) deploymentsPath
       end);
  match relatedImages with
  | [] => Ok r
  | _ => SetNestedField r (JArray relatedImages) ["spec"; "relatedImages"]
  end.

(** ** The program *)

Section run.
(** The JSON form of the ClusterServiceVersion. *)
Context (to_json : CSV -> json).

(** The changes of the ClusterServiceVersion. *)
Definition generate (flags : generatorFlags) (csv : CSV) : outcome CSV :=
  csv ← replaceVariables flags csv;
  csv ← (if flag_removeCerts flags then removeCerts csv else Ok csv);
  addOLMArg csv.

(** Documents that were printed before a failure stay printed. *)
Definition print (obj : json) (relatedImages : list json) : M (list json) unit :=
  doc ← lift (marshallObject obj relatedImages);
  modify_state (fun out => out ++ [doc]).

(** [dumpFiles]: the files of a directory as reading and decoding them answers. *)
Fixpoint dumpFiles (files : list (outcome json)) : M (list json) unit :=
  match files with
  | [] => mret ()
  | f :: rest => obj ← lift f; _ ← print obj []; dumpFiles rest
  end.

Definition runGenerator (flags : generatorFlags) (file : outcome CSV)
    (crds nps : outcome (list (outcome json))) : M (list json) unit :=
  csv ← lift file;
  csv ← lift (generate flags csv);
  _ ← print (to_json csv) (buildRelatedImages flags);
  _ ← (if dumpCRDs flags then files ← lift crds; dumpFiles files else mret ());
  if dumpNPs flags then files ← lift nps; dumpFiles files else mret ().
End run.

(** ** Removing the certificates *)

Definition is_cert (v : Named) : Prop := nm_Name v = "cert".
Definition without_certs (l : list Named) : list Named := filter (fun v => ~ is_cert v) l.

Lemma take_shift_down {A} (i : nat) (arr : list A) :
  i < List.length arr ->
  take (Nat.pred (List.length arr)) (shift_down i arr) = take i arr ++ skipn (S i) arr.
Proof.
  intros Hi. unfold shift_down. rewrite app_assoc, take_app_le.
  - apply take_ge. rewrite length_app, length_take, length_drop. lia.
  - rewrite length_app, length_take, length_drop. lia.
Qed.

Lemma without_none l : Forall (fun v => ~ is_cert v) l -> without_certs l = l.
Proof.
  induction 1 as [|v l Hv _ IH]; [done|]. unfold without_certs in *. by rewrite filter_cons_True, IH.
Qed.

Lemma without_app l k : without_certs (l ++ k) = without_certs l ++ without_certs k.
Proof. apply filter_app. Qed.

(** A list in which no two elements have the same name has no certificate, or
    one between lists without. *)
Lemma split_certs l :
  NoDup (nm_Name <$> l) ->
  Forall (fun v => ~ is_cert v) l \/
  exists pre c post, l = pre ++ c :: post /\ is_cert c /\
    Forall (fun v => ~ is_cert v) pre /\ Forall (fun v => ~ is_cert v) post.
Proof.
  induction l as [|v l IH]; cbn; [by left|]. intros [Hv Hn]%NoDup_cons.
  destruct (decide (nm_Name v = "cert")) as [Hc|Hc].
  - right. exists [], v, l. split_and!; [done|done|by constructor|]. apply Forall_forall. intros w Hw Hcw.
    apply Hv. rewrite Hc, <- Hcw. by apply list_elem_of_fmap_2.
  - destruct (IH Hn) as [Hl|(pre & c & post & -> & H1 & H2 & H3)]; [left; by constructor|].
    right. exists (v :: pre), c, post. split_and!; [done|done|by constructor|done].
Qed.

Lemma without_split pre c post :
  is_cert c -> Forall (fun v => ~ is_cert v) pre -> Forall (fun v => ~ is_cert v) post ->
  without_certs (pre ++ c :: post) = pre ++ post.
Proof.
  intros Hc Hpre Hpost. rewrite without_app. unfold without_certs at 2.
  rewrite filter_cons_False by (intros Hn; by apply Hn). fold (without_certs post). by rewrite !without_none.
Qed.

(** The loop passes over elements that are no certificates. *)
Lemma volume_loop_skip k i n arr removed :
  (forall j, i <= j < i + k -> exists v, arr !! j = Some v /\ ~ is_cert v) ->
  volume_loop i (k + n) arr removed = volume_loop (i + k) n arr removed.
Proof.
  revert i. induction k as [|k IH]; intros i Hk; [cbn; f_equal; lia|].
  destruct (Hk i) as (v & Hv & Hc); [lia|]. cbn. rewrite Hv, bool_decide_false by done.
  rewrite IH by (intros j Hj; apply Hk; lia). f_equal. lia.
Qed.

Lemma remove_first_skip k i n arr :
  (forall j, i <= j < i + k -> exists v, arr !! j = Some v /\ ~ is_cert v) ->
  remove_first i (k + n) arr = remove_first (i + k) n arr.
Proof.
  revert i. induction k as [|k IH]; intros i Hk; [cbn; f_equal; lia|].
  destruct (Hk i) as (v & Hv & Hc); [lia|]. cbn. rewrite Hv, bool_decide_false by done.
  rewrite IH by (intros j Hj; apply Hk; lia). f_equal. lia.
Qed.

Lemma no_certs_lookup l j :
  Forall (fun v => ~ is_cert v) l -> j < List.length l -> exists v, l !! j = Some v /\ ~ is_cert v.
Proof.
  intros Hl Hj. destruct (lookup_lt_is_Some_2 l j Hj) as [v Hv]. exists v. split; [done|].
  exact (Forall_lookup_1 (fun v => ~ is_cert v) l j v Hl Hv).
Qed.

(** Both loops remove the certificate when names are unique, as Kubernetes
    demands. *)
Lemma remove_volumes_spec l : NoDup (nm_Name <$> l) -> remove_volumes l = without_certs l.
Proof.
  intros [Hl|(pre & c & post & -> & Hc & Hpre & Hpost)]%split_certs; unfold remove_volumes.
  - rewrite <- (Nat.add_0_r (List.length l)) at 1. rewrite volume_loop_skip.
    + cbn. by rewrite without_none.
    + intros j [_ Hj]. by apply no_certs_lookup.
  - rewrite without_split by done.
    rewrite length_app at 1. rewrite volume_loop_skip.
    2: { intros j [_ Hj]. cbn in Hj. rewrite lookup_app_l by done. by apply no_certs_lookup. }
    cbn [List.length volume_loop Nat.add]. rewrite list_lookup_middle by done. rewrite bool_decide_true by done.
    set (arr := shift_down _ _).
    assert (volume_loop (S (List.length pre)) (List.length post) arr true = (arr, true)) as ->.
    { rewrite <- (Nat.add_0_r (List.length post)). rewrite volume_loop_skip; [done|].
      intros j Hj. subst arr. unfold shift_down. rewrite take_app_length, length_app. cbn [List.length].
      change (c :: post) with ([c] ++ post). rewrite (app_assoc pre [c] post).
      rewrite drop_app_ge by (rewrite length_app; cbn; lia).
      replace (S (List.length pre) - List.length (pre ++ [c])) with 0 by (rewrite length_app; cbn; lia).
      rewrite drop_0, lookup_app_r by lia.
      destruct (decide (j - List.length pre < List.length post)) as [Hlt|Hge].
      - rewrite lookup_app_l by done. by apply no_certs_lookup.
      - rewrite lookup_app_r by lia. rewrite drop_app_ge by (rewrite length_app; cbn; lia).
        rewrite lookup_drop, length_app. cbn [List.length].
        apply no_certs_lookup; [done|]. lia. }
    subst arr. rewrite take_shift_down by (rewrite length_app; cbn; lia).
    rewrite take_app_length. change (c :: post) with ([c] ++ post). rewrite app_assoc.
    by rewrite drop_app_length' by (rewrite length_app; cbn; lia).
Qed.

Lemma remove_first_spec l : NoDup (nm_Name <$> l) -> remove_first 0 (List.length l) l = without_certs l.
Proof.
  intros [Hl|(pre & c & post & -> & Hc & Hpre & Hpost)]%split_certs.
  - rewrite <- (Nat.add_0_r (List.length l)) at 1. rewrite remove_first_skip.
    + cbn. by rewrite without_none.
    + intros j [_ Hj]. by apply no_certs_lookup.
  - rewrite without_split by done. rewrite length_app at 1. rewrite remove_first_skip.
    2: { intros j [_ Hj]. cbn in Hj. rewrite lookup_app_l by done. by apply no_certs_lookup. }
    cbn [List.length remove_first Nat.add]. rewrite list_lookup_middle by done. rewrite bool_decide_true by done.
    rewrite take_shift_down by (rewrite length_app; cbn; lia).
    rewrite take_app_length. change (c :: post) with ([c] ++ post). rewrite app_assoc.
    by rewrite drop_app_length' by (rewrite length_app; cbn; lia).
Qed.

(** The loop over the volumes does not remove the second of two. *)
Lemma second_cert_stays : remove_volumes [mkNamed "cert" ∅; mkNamed "cert" ∅] = [mkNamed "cert" ∅].
Proof. reflexivity. Qed.

(** ** The operator that the bundle starts *)

Definition is_manager (c : Container) : Prop := ct_Name c = "manager".
Definition manager_of (d : TemplateSpec) : option Container := head (filter is_manager (Containers d)).
Definition others (d : TemplateSpec) : list Container := filter (fun c => ~ is_manager c) (Containers d).

(** The environment of a container; the last of two variables with the same name
    counts. *)
Definition value_of (env : list EnvVar) (k : string) : option string :=
  ev_Value <$> last (filter (fun e => ev_Name e = k) env).
Definition process_of (arch : string) (env : list EnvVar) : Process :=
  {| LookupEnv := value_of env; GOARCH := arch |}.

(** A change of the manager container that keeps its name. *)
Lemma on_manager_spec f l c :
  (forall c, ct_Name (f c) = ct_Name c) -> head (filter is_manager l) = Some c ->
  head (filter is_manager (on_manager f l)) = Some (f c) /\
  filter (fun c => ~ is_manager c) (on_manager f l) = filter (fun c => ~ is_manager c) l.
Proof.
  intros Hf. induction l as [|x l IH]; [done|]. cbn [on_manager].
  destruct (decide (ct_Name x = "manager")) as [Hx|Hx].
  - rewrite filter_cons_True by done. intros [= ->]. rewrite bool_decide_true by done. split.
    + by rewrite filter_cons_True by (unfold is_manager; by rewrite Hf).
    + rewrite filter_cons_False by (intros Hn; apply Hn; unfold is_manager; by rewrite Hf).
      by rewrite (filter_cons_False _ c) by (intros Hn; by apply Hn).
  - rewrite filter_cons_False by done. intros Hl. destruct (IH Hl) as [IH1 IH2].
    rewrite bool_decide_false by done. split.
    + by rewrite filter_cons_False by done.
    + by rewrite !(filter_cons_True (fun c => ~ is_manager c)), IH2 by done.
Qed.

Lemma update_env_name flags e : ev_Name (update_env flags e) = ev_Name e.
Proof. unfold update_env. by repeat case_bool_decide. Qed.

Lemma value_of_update flags env k :
  value_of (update_env flags <$> env) k =
  ev_Value ∘ update_env flags <$> last (filter (fun e => ev_Name e = k) env).
Proof.
  unfold value_of. replace (filter (fun e => ev_Name e = k) (update_env flags <$> env))
    with (update_env flags <$> filter (fun e => ev_Name e = k) env).
  - rewrite fmap_last. by destruct (last _).
  - induction env as [|e env IH]; [done|]. rewrite (fmap_cons (update_env flags) e env).
    destruct (decide (ev_Name e = k)) as [He|He].
    + rewrite !(filter_cons_True (fun e => ev_Name e = k)) by (by rewrite ?update_env_name). cbn. by rewrite <- IH.
    + by rewrite !(filter_cons_False (fun e => ev_Name e = k)) by (by rewrite ?update_env_name).
Qed.

(** The operator reads a value that was given to the generator. *)
Lemma read_back flags env arch k v dflt :
  k ∈ ev_Name <$> env -> v <> "" ->
  (forall e, ev_Name e = k -> ev_Value (update_env flags e) = v) ->
  Env.EnvOrDefault (H := process_of arch (update_env flags <$> env)) k dflt = v.
Proof.
  intros Hk Hv Hu. unfold Env.EnvOrDefault, Env.Getenv. cbn [LookupEnv process_of]. rewrite value_of_update.
  destruct (last (filter (fun e => ev_Name e = k) env)) as [e|] eqn:E.
  - cbn. rewrite Hu.
    + by rewrite bool_decide_false.
    + apply last_Some_elem_of in E. by apply list_elem_of_filter in E as [? _].
  - exfalso. apply last_None in E. apply list_elem_of_fmap in Hk as (e & -> & He).
    assert (e ∈ filter (fun e' => ev_Name e' = ev_Name e) env) as Hin by by apply list_elem_of_filter.
    rewrite E in Hin. by apply not_elem_of_nil in Hin.
Qed.

(** An operator with some declared variables takes its settings from the flags
    that are set. *)
Definition takes (flags : generatorFlags) (declared : list string) (operator : Process) : Prop :=
  (operatorVersion flags <> "" -> Env.OperatorVersionKey ∈ declared ->
     Env.GetOperatorVersion (H := operator) = operatorVersion flags) /\
  (validatorImage flags <> "" -> Env.TemplateValidatorImageKey ∈ declared ->
     TemplateValidatorOperand.getTemplateValidatorImage (H := operator) = validatorImage flags) /\
  (vmConsoleProxyImage flags <> "" -> Env.VmConsoleProxyImageKey ∈ declared ->
     VmConsoleProxy.getVmConsoleProxyImage (H := operator) = vmConsoleProxyImage flags).

Lemma takes_flags flags env arch : takes flags (ev_Name <$> env) (process_of arch (update_env flags <$> env)).
Proof.
  split_and!; intros Hne Hin; apply read_back; try done; intros e He;
    unfold update_env; rewrite He; by repeat case_bool_decide.
Qed.

(** C19: the bundle starts the operator that was asked for. The generator succeeds
    for a version in semantic form and a deployment whose names are unique; the
    manager container then runs the given image with the argument for OLM, the
    certificate volume and mount are gone exactly when that was asked for, the
    other containers and the names of the variables are as before, and the
    operator that reads its environment takes its version and the images of the
    template validator and of the console proxy from the flags. *)
Theorem generator_configures_operator flags csv d ds c v :
  Semver.Parse (csvVersion flags) = Some v ->
  DeploymentSpecs csv = d :: ds -> manager_of d = Some c ->
  NoDup (nm_Name <$> Volumes d) -> NoDup (nm_Name <$> ct_VolumeMounts c) ->
  exists csv' d' c', generate flags csv = Ok csv' /\ DeploymentSpecs csv' = d' :: ds /\ manager_of d' = Some c' /\
    csv_Name csv' = "ssp-operator.v" +:+ csvVersion flags /\ csv_Version csv' = Some v /\
    ct_Image c' = operatorImage flags /\ ct_Args c' = ct_Args c ++ ["--olm-deployment"] /\
    others d' = others d /\ ev_Name <$> ct_Env c' = ev_Name <$> ct_Env c /\
    Volumes d' = (if flag_removeCerts flags then without_certs (Volumes d) else Volumes d) /\
    ct_VolumeMounts c' =
      (if flag_removeCerts flags then without_certs (ct_VolumeMounts c) else ct_VolumeMounts c) /\
    forall arch, takes flags (ev_Name <$> ct_Env c) (process_of arch (ct_Env c')).
Proof.
  intros Hv Hd Hm Hnv Hnm.
  set (f1 := fun c => with_image c (operatorImage flags) (updateContainerEnvVars flags c)).
  set (f2 := fun c => with_mounts c (remove_first 0 (List.length (ct_VolumeMounts c)) (ct_VolumeMounts c))).
  set (f3 := fun c => with_args c (ct_Args c ++ ["--olm-deployment"])).
  destruct (on_manager_spec f1 (Containers d) c ltac:(done) Hm) as [Hm1 Ho1].
  destruct (on_manager_spec f2 _ (f1 c) ltac:(done) Hm1) as [Hm2 Ho2].
  destruct (on_manager_spec f3 _ (f1 c) ltac:(done) Hm1) as [Hm3 Ho3].
  destruct (on_manager_spec f3 _ (f2 (f1 c)) ltac:(done) Hm2) as [Hm4 Ho4].
  pose proof (fun arch => takes_flags flags (ct_Env c) arch) as Hread.
  assert (ev_Name <$> updateContainerEnvVars flags c = ev_Name <$> ct_Env c) as Hnames.
  { unfold updateContainerEnvVars. rewrite <- list_fmap_compose. apply list_fmap_ext. intros i e _. apply update_env_name. }
  unfold generate, replaceVariables, first_deployment. rewrite Hv, Hd. cbn [mbind outcome_bind].
  destruct (flag_removeCerts flags).
  - unfold removeCerts, addOLMArg, first_deployment. cbn. rewrite Hd. cbn.
    eexists _, _, (f3 (f2 (f1 c))). split; [reflexivity|]. split; [reflexivity|]. split_and!; try done.
    + exact (eq_trans Ho4 (eq_trans Ho2 Ho1)).
    + by apply remove_volumes_spec.
    + by apply remove_first_spec.
  - unfold addOLMArg, first_deployment. cbn. rewrite Hd. cbn.
    eexists _, _, (f3 (f1 c)). split; [reflexivity|]. split; [reflexivity|]. split_and!; try done.
    exact (eq_trans Ho3 Ho1).
Qed.

(** ** What is printed *)

Lemma get_set_key m k v k' : Json.get (set_key m k v) k' = if bool_decide (k' = k) then Some v else Json.get m k'.
Proof.
  induction m as [|[k1 v1] m IH]; cbn; [done|].
  destruct (decide (k = k1)) as [->|Hk]; cbn.
  - rewrite (bool_decide_true (k1 = k1)) by done. cbn. by case_bool_decide.
  - rewrite (bool_decide_false (k = k1)) by done. cbn. rewrite IH.
    destruct (decide (k' = k1)) as [->|Hk'].
    + rewrite (bool_decide_true (k1 = k1)), (bool_decide_false (k1 = k)) by congruence. done.
    + by rewrite (bool_decide_false (k' = k1)) by done.
Qed.

Lemma get_delete_key m k k' : Json.get (delete_key m k) k' = if bool_decide (k' = k) then None else Json.get m k'.
Proof.
  induction m as [|[k1 v1] m IH]; [cbn; by case_bool_decide|].
  unfold delete_key in *. destruct (decide (k1 = k)) as [->|Hk].
  - rewrite filter_cons_False by (intros Hn; by apply Hn). rewrite IH. cbn. repeat case_bool_decide; congruence.
  - rewrite filter_cons_True by done. cbn. rewrite IH. repeat case_bool_decide; congruence.
Qed.

(** A field of an object that [SetNestedField] does not go through. *)
Lemma SetNestedField_other m v k rest r k' :
  SetNestedField (JObject m) v (k :: rest) = Ok r -> k' <> k ->
  exists m', r = JObject m' /\ Json.get m' k' = Json.get m k'.
Proof.
  intros Hr Hk. destruct rest as [|k2 rest].
  - injection Hr as <-. eexists. split; [done|]. by rewrite get_set_key, bool_decide_false.
  - cbn in Hr. apply outcome_bind_Ok in Hr as (x & _ & [= <-]). eexists. split; [done|].
    by rewrite get_set_key, bool_decide_false.
Qed.

Lemma SetNestedField_set obj v fields r :
  fields <> [] -> SetNestedField obj v fields = Ok r -> Json.NestedFieldNoCopy r fields = Ok (Some v).
Proof.
  revert obj r. induction fields as [|k rest IH]; intros obj r Hne Hr; [done|].
  destruct obj; try (by destruct rest). destruct rest as [|k2 rest].
  - injection Hr as <-. cbn. by rewrite get_set_key, bool_decide_true.
  - cbn [SetNestedField] in Hr. apply outcome_bind_Ok in Hr as (x & Hx & [= <-]).
    cbn [Json.NestedFieldNoCopy]. rewrite get_set_key, bool_decide_true by done.
    by apply (IH _ _ ltac:(done) Hx).
Qed.

(** Objects that agree on the fields named by [keys]. *)
Definition agree (keys : list string) (j j' : json) : Prop :=
  exists m m', j = JObject m /\ j' = JObject m' /\ Forall (fun k => Json.get m' k = Json.get m k) keys.

Lemma agree_trans keys j1 j2 j3 : agree keys j1 j2 -> agree keys j2 j3 -> agree keys j1 j3.
Proof.
  intros (m1 & m2 & -> & -> & H12) (m2' & m3 & [= <-] & -> & H23). exists m1, m3. split_and!; [done..|].
  rewrite Forall_forall in H12, H23 |- *. intros k Hk. by rewrite H23, H12.
Qed.

Lemma agree_refl keys m : agree keys (JObject m) (JObject m).
Proof. exists m, m. split_and!; [done..|]. by apply Forall_forall. Qed.

Lemma agree_remove keys m k rest : k ∉ keys -> agree keys (JObject m) (RemoveNestedField (JObject m) (k :: rest)).
Proof.
  intros Hk. destruct rest as [|k2 rest]; cbn.
  - eexists _, _. split_and!; [done..|]. apply Forall_forall. intros k' Hk'.
    rewrite get_delete_key. by case_bool_decide; subst.
  - destruct (Json.get m k) as [v|]; eexists _, _; (split; [done|]); (split; [done|]); apply Forall_forall;
      intros k' Hk'; [|done]. rewrite get_set_key. by case_bool_decide; subst.
Qed.

Lemma agree_set keys m v k rest r :
  k ∉ keys -> SetNestedField (JObject m) v (k :: rest) = Ok r -> agree keys (JObject m) r.
Proof.
  intros Hk Hr.
  assert (exists m', r = JObject m') as [m' ->].
  { destruct rest; cbn in Hr; [injection Hr as <-; by eexists|].
    apply outcome_bind_Ok in Hr as (x & _ & [= <-]). by eexists. }
  exists m, m'. split_and!; [done..|]. apply Forall_forall. intros k' Hk'.
  destruct (SetNestedField_other m v k rest _ k' Hr) as (m'' & [= <-] & E); [by intros ->|done].
Qed.

Lemma removed_field m k k2 :
  forall v, Json.NestedFieldNoCopy (RemoveNestedField (JObject m) [k; k2]) [k; k2] <> Ok (Some v).
Proof.
  intros v. cbn. destruct (Json.get m k) as [x|] eqn:E; cbn.
  - rewrite get_set_key, bool_decide_true by done. destruct x; try done. cbn.
    by rewrite get_delete_key, bool_decide_true.
  - by rewrite E.
Qed.

Lemma agree_nested keys j j' k rest :
  agree keys j j' -> k ∈ keys -> Json.NestedFieldNoCopy j' (k :: rest) = Json.NestedFieldNoCopy j (k :: rest).
Proof.
  intros (m & m' & -> & -> & Ha) Hk. rewrite Forall_forall in Ha. cbn. by rewrite Ha.
Qed.

(** Membership in a list of literal names. *)
Ltac names_differ := apply (bool_decide_unpack _); vm_compute; exact I.

(** Every object that is printed has neither a status nor a creation timestamp,
    and carries the related images that were passed. *)
Theorem printed_clean m images r :
  marshallObject (JObject m) images = Ok r ->
  Json.NestedFieldNoCopy r ["status"] = Ok None /\
  (forall v, Json.NestedFieldNoCopy r ["metadata"; "creationTimestamp"] <> Ok (Some v)) /\
  (images <> [] -> Json.NestedFieldNoCopy r ["spec"; "relatedImages"] = Ok (Some (JArray images))).
Proof.
  unfold marshallObject.
  pose proof (agree_remove [] m "metadata" ["creationTimestamp"] ltac:(names_differ)) as (? & m1 & _ & E1 & _).
  pose proof (removed_field m "metadata" "creationTimestamp") as Hts. rewrite E1 in Hts |- *.
  pose proof (agree_remove ["metadata"] m1 "template" ["metadata"; "creationTimestamp"] ltac:(names_differ)) as A2.
  destruct A2 as (? & m2 & [= <-] & E2 & H2). rewrite E2.
  pose proof (agree_remove ["metadata"] m2 "spec" ["template"; "metadata"; "creationTimestamp"] ltac:(names_differ)) as A3.
  destruct A3 as (? & m3 & [= <-] & E3 & H3). rewrite E3.
  cbn [RemoveNestedField]. set (m4 := delete_key m3 "status").
  assert (agree ["metadata"] (JObject m1) (JObject m4)) as A4.
  { apply (agree_trans _ _ (JObject m2)); [by exists m1, m2|]. apply (agree_trans _ _ (JObject m3)); [by exists m2, m3|].
    apply (agree_remove ["metadata"] m3 "status" []). names_differ. }
  assert (Json.get m4 "status" = None) as Hst by (subst m4; by rewrite get_delete_key, bool_decide_true).
  intros (found & _ & Hr)%outcome_bind_Ok. apply outcome_bind_Ok in Hr as (r5 & H5 & Hr).
  assert (agree ["status"; "metadata"] (JObject m4) r5) as A5.
  { destruct found as [deployments|]; [|injection H5 as <-; apply agree_refl].
    apply outcome_bind_Ok in H5 as (cleaned & _ & H5). eapply agree_set; [|exact H5]. names_differ. }
  assert (agree ["status"; "metadata"] (JObject m4) r) as A6.
  { destruct images; [by injection Hr as <-|]. eapply agree_trans; [exact A5|].
    destruct A5 as (? & m5 & _ & -> & _). eapply agree_set; [|exact Hr]. names_differ. }
  split_and!.
  - rewrite (agree_nested _ _ _ _ _ A6) by names_differ. cbn. by rewrite Hst.
  - intros v. rewrite (agree_nested _ _ _ _ _ A6) by names_differ. rewrite (agree_nested _ _ _ _ _ A4) by names_differ. apply Hts.
  - intros Hi. destruct images; [done|]. by eapply SetNestedField_set.
Qed.

Module GeneratorWitness.
Definition managerContainer : Container :=
  mkContainer "manager" "controller:latest"
    [mkEnvVar "VALIDATOR_IMAGE" "" ∅; mkEnvVar "VM_CONSOLE_PROXY_IMAGE" "" ∅; mkEnvVar "OPERATOR_VERSION" "" ∅;
     mkEnvVar "POD_NAMESPACE" "" ∅]
    ["--leader-elect"] [mkNamed "cert" ∅; mkNamed "tmp" ∅] ∅.
Definition csv : CSV :=
  mkCSV "ssp-operator.v0.0.0" None
    [mkTemplateSpec [mkContainer "kube-rbac-proxy" "proxy" [] [] [] ∅; managerContainer]
       [mkNamed "cert" ∅; mkNamed "tmp" ∅] ∅] [mkWebhookDefinition 443 ∅] ∅.
Definition flags : generatorFlags :=
  mkFlags false false true 9443 "0.21.0" "kubevirt" "operator:0.21" "0.21.0" "validator:0.21" "proxy:0.21".

Lemma generator_configures_operator_witness :
  exists csv' d' c', generate flags csv = Ok csv' /\ DeploymentSpecs csv' = [d'] /\ manager_of d' = Some c' /\
    ct_Image c' = "operator:0.21" /\ Volumes d' = [mkNamed "tmp" ∅].
Proof.
  destruct (generator_configures_operator flags csv
    (mkTemplateSpec [mkContainer "kube-rbac-proxy" "proxy" [] [] [] ∅; managerContainer]
       [mkNamed "cert" ∅; mkNamed "tmp" ∅] ∅) [] managerContainer (Semver.mkVersion 0 21 0 [] []))
    as (csv' & d' & c' & Hg & Hd & Hm & _ & _ & Hi & _ & _ & _ & Hv & _).
  - reflexivity.
  - reflexivity.
  - reflexivity.
  - apply (bool_decide_unpack _). vm_compute. exact I.
  - apply (bool_decide_unpack _). vm_compute. exact I.
  - exists csv', d', c'. repeat (split; [assumption|]). exact Hv.
Defined.
End GeneratorWitness.
End CsvGenerator.
