(* ===== verification/ReferenceVm.v ===== *)
(** * The reference virtual machine (internal/template-validator/kubevirtjobs)

    Optional rules are evaluated on a reference machine in which every optional
    field is present. The code builds it by reflection over the KubeVirt types;
    the model has the types as a table of struct types and the values that they
    describe. *)

From stdpp Require Import list.
From Stdlib Require Import Ascii.
From S2P Require Import Prelude GoRuntime.

Module ReferenceVm.

(** ** Types and values *)

(** The kinds that the code tells apart; a struct type is a name of the table.
    The element type of a map or channel does not matter. *)
Inductive GoType :=
| TBasic (kind : string)
| TMap
| TChan
| TSlice (elem : GoType)
| TPtr (elem : GoType)
| TStruct (name : string).

Inductive GoVal :=
| VZero
| VNil
| VMap
| VChan
| VSlice (l : list GoVal)
| VPtr (v : GoVal)
| VStruct (fields : list (string * GoVal)).

(** The fields of every struct type. *)
Definition Types := gmap string (list (string * GoType)).

Definition MaxDisks : nat := 64.
Definition MaxIfaces : nat := 64.
Definition MaxPortsPerIface : nat := 16.
Definition MaxNTPServers : nat := 8.
Definition MaxItems : nat := 64.

Definition NumItems := gmap string nat.
Definition ForField (ni : NumItems) (name : string) : nat :=
  match ni !! name with Some num => num | None => MaxItems end.

(** [unicode.IsLower] on the first byte; a field name is not empty. *)
Definition isUnexported (name : string) : bool :=
  match name with
  | EmptyString => false
  | String c _ =>
      let n := nat_of_ascii c in
      (97 <=? n)%nat && (n <=? 122)%nat || (n =? 181)%nat ||
      (223 <=? n)%nat && (n <=? 255)%nat && negb (n =? 247)%nat
  end.

Section types.
Context (types : Types) (numItems : NumItems).

(** The zero value of a type. [n] bounds the nesting of structs. *)
Fixpoint zero (n : nat) (t : GoType) : option GoVal :=
  match t with
  | TBasic _ => Some VZero
  | TStruct s =>
      match n with
      | O => None
      | S n' =>
          fields ← types !! s;
          vs ← mapM (fun f => v ← zero n' f.2; Some (f.1, v)) fields;
          Some (VStruct vs)
      end
  | _ => Some VNil
  end.

(** A new element of a slice, or the target of a new pointer; [make] is
    [makeStruct]. *)
Definition make_new (n : nat) (make : string -> GoVal -> option GoVal) (t : GoType) : option GoVal :=
  z ← zero n t;
  match t with
  | TStruct s => make s z
  | _ => Some z
  end.

(** The body of the loop over the fields. *)
Definition make_field (n : nat) (make : string -> GoVal -> option GoVal) (ft : string * GoType)
    (f : string * GoVal) : option (string * GoVal) :=
  if isUnexported ft.1 then Some f
  else
    v ← (match ft.2 with
         | TMap => Some VMap
         | TSlice t =>
             l ← mapM (fun _ => make_new n make t) (seq 0 (ForField numItems ft.1));
             Some (VSlice l)
         | TChan => Some VChan
         | TPtr t => v ← make_new n make t; Some (VPtr v)
         | TStruct s => make s f.2
         | TBasic _ => Some f.2
         end);
    Some (ft.1, v).

(** [makeStruct]: fills the struct value [v] of type [s]. [n] bounds the nesting
    of the calls. *)
Fixpoint makeStruct (n : nat) (s : string) (v : GoVal) : option GoVal :=
  match n with
  | O => None
  | S n' =>
      fields ← types !! s;
      match v with
      | VStruct vs =>
          vs' ← mapM (fun p => make_field n' (makeStruct n') p.1 p.2) (zip fields vs);
          Some (VStruct vs')
      | _ => None
      end
  end.

(** ** What the code relies on *)

(** The struct type that a call of [makeStruct] continues with. *)
Definition continues (t : GoType) : option string :=
  match t with
  | TStruct s | TSlice (TStruct s) | TPtr (TStruct s) => Some s
  | _ => None
  end.

(** The struct types do not contain each other in a circle. *)
Definition ranked (rank : string -> nat) : Prop :=
  forall s fields f t s', types !! s = Some fields -> (f, t) ∈ fields -> continues t = Some s' ->
    is_Some (types !! s') /\ rank s' < rank s.

(** ** What is promised *)

Inductive has_type : GoType -> GoVal -> Prop :=
| ht_basic k : has_type (TBasic k) VZero
| ht_nil_map : has_type TMap VNil
| ht_map : has_type TMap VMap
| ht_nil_chan : has_type TChan VNil
| ht_chan : has_type TChan VChan
| ht_nil_slice t : has_type (TSlice t) VNil
| ht_slice t l : Forall (has_type t) l -> has_type (TSlice t) (VSlice l)
| ht_nil_ptr t : has_type (TPtr t) VNil
| ht_ptr t v : has_type t v -> has_type (TPtr t) (VPtr v)
| ht_struct s fields vs : types !! s = Some fields ->
    Forall2 (fun ft f => ft.1 = f.1 /\ has_type ft.2 f.2) fields vs -> has_type (TStruct s) (VStruct vs).

(** Every exported field is present, down to the basic types. *)
Inductive filled : string -> GoVal -> Prop :=
| filled_struct s fields vs : types !! s = Some fields ->
    Forall2 (fun ft f => isUnexported ft.1 = false -> filled_field ft.1 ft.2 f.2) fields vs ->
    filled s (VStruct vs)
with filled_field : string -> GoType -> GoVal -> Prop :=
| ff_basic name k : filled_field name (TBasic k) VZero
| ff_map name : filled_field name TMap VMap
| ff_chan name : filled_field name TChan VChan
| ff_slice name t l : List.length l = ForField numItems name -> Forall (filled_new t) l ->
    filled_field name (TSlice t) (VSlice l)
| ff_ptr name t v : filled_new t v -> filled_field name (TPtr t) (VPtr v)
| ff_struct name s v : filled s v -> filled_field name (TStruct s) v
with filled_new : GoType -> GoVal -> Prop :=
| fn_struct s v : filled s v -> filled_new (TStruct s) v
| fn_other t v : (forall s, t <> TStruct s) -> zero 0 t = Some v -> filled_new t v.

(** ** Correctness *)

Lemma mapM_zip {A B C} (g : A -> B -> option C) (Q : A -> C -> Prop) l k :
  Forall2 (fun x y => exists z, g x y = Some z /\ Q x z) l k ->
  exists r, mapM (fun p => g p.1 p.2) (zip l k) = Some r /\ Forall2 Q l r.
Proof.
  induction 1 as [|x y l k (z & Hz & HQ) _ (r & Hr & HF)]; [by exists []|].
  exists (z :: r). cbn. rewrite Hz. cbn. rewrite Hr. split; [done|by constructor].
Qed.

Lemma mapM_const {A B} (v : B) (l : list A) : mapM (fun _ => Some v) l = Some (replicate (List.length l) v).
Proof. induction l as [|x l IH]; [done|]. cbn in *. by rewrite IH. Qed.

Lemma zero_typed n t v : zero n t = Some v -> has_type t v.
Proof.
  revert t v. induction n as [|n IH]; intros t v; destruct t as [k| | |t|t|s]; cbn;
    try (intros [= <-]; constructor).
  intros (fields & Hf & Hv)%bind_Some. apply bind_Some in Hv as (vs & Hvs & [= <-]).
  apply mapM_Some in Hvs. econstructor; [exact Hf|]. eapply Forall2_impl; [exact Hvs|].
  intros ft f (v & Hv & [= <-])%bind_Some. split; [done|by apply IH].
Qed.

Context (rank : string -> nat) (Hrank : ranked rank).

(** The struct types below [t] have a rank below [n]. *)
Definition below (n : nat) (t : GoType) : Prop :=
  forall s, continues t = Some s -> is_Some (types !! s) /\ rank s < n.

Lemma below_field n s fields ft :
  types !! s = Some fields -> rank s < S n -> ft ∈ fields -> below n ft.2.
Proof. intros Hf Hs Hin s' Hc. destruct ft as [f t]. destruct (Hrank s fields f t s' Hf Hin Hc). split; [done|lia]. Qed.

Lemma zero_total n t : (forall s, t = TStruct s -> is_Some (types !! s) /\ rank s < n) -> is_Some (zero n t).
Proof.
  revert t. induction n as [|n IH]; intros t Ht; destruct t as [k| | |t|t|s]; cbn; try (by eexists);
    destruct (Ht s eq_refl) as [[fields Hf] Hs]; [lia|]. rewrite Hf. cbn.
  assert (is_Some (mapM (fun f => v ← zero n f.2; Some (f.1, v)) fields)) as [vs ->]; [|by eexists].
  apply mapM_is_Some. apply Forall_forall. intros ft Hin. cbn.
  destruct (IH ft.2) as [v ->]; [|by eexists]. intros s' Es.
  apply (below_field n s fields ft Hf Hs Hin). by rewrite Es.
Qed.

(** A call that fills any value of a struct type below [n]. *)
Definition fills (n : nat) (make : string -> GoVal -> option GoVal) : Prop :=
  forall s v, is_Some (types !! s) -> rank s < n -> has_type (TStruct s) v ->
    exists v', make s v = Some v' /\ has_type (TStruct s) v' /\ filled s v'.

Lemma make_new_fills n make t :
  fills n make -> (forall s, t = TStruct s -> is_Some (types !! s) /\ rank s < n) ->
  exists v, make_new n make t = Some v /\ has_type t v /\ filled_new t v.
Proof.
  intros Hm Ht. destruct (zero_total n t Ht) as [z Hz]. pose proof (zero_typed _ _ _ Hz) as Hzt.
  unfold make_new. rewrite Hz. cbn.
  destruct t as [k| | |t|t|s]; try (by eexists; split; [done|]; split; [done|]; apply fn_other; [|destruct n]).
  destruct (Ht s eq_refl) as [Hs Hr]. destruct (Hm s z Hs Hr Hzt) as (v & Hv & Htv & Hfv).
  exists v. split; [done|]. split; [done|]. by apply fn_struct.
Qed.

Lemma make_field_fills n make ft f :
  fills n make -> below n ft.2 -> ft.1 = f.1 -> has_type ft.2 f.2 ->
  exists f', make_field n make ft f = Some f' /\
    (ft.1 = f'.1 /\ has_type ft.2 f'.2) /\ (isUnexported ft.1 = false -> filled_field ft.1 ft.2 f'.2).
Proof.
  intros Hm Hb Hn Hf. unfold make_field. destruct (isUnexported ft.1); [by exists f|].
  destruct ft as [name t], f as [name' fv]. cbn [fst snd] in *. destruct t as [k| | |t|t|s]; cbn.
  - inversion Hf; subst. eexists. split; [done|]. split; [split; [done|constructor]|constructor].
  - eexists. split; [done|]. split; [split; [done|constructor]|constructor].
  - eexists. split; [done|]. split; [split; [done|constructor]|constructor].
  - destruct (make_new_fills n make t Hm) as (v & Hv & Htv & Hfv); [intros s ->; by apply Hb|].
    assert (mapM (fun _ => make_new n make t) (seq 0 (ForField numItems name)) =
            Some (replicate (ForField numItems name) v)) as ->.
    { rewrite Hv, mapM_const. by rewrite length_seq. }
    eexists. split; [done|]. split; [split; [done|constructor; by apply Forall_replicate]|].
    constructor; [by rewrite length_replicate|by apply Forall_replicate].
  - destruct (make_new_fills n make t Hm) as (v & Hv & Htv & Hfv); [intros s ->; by apply Hb|].
    rewrite Hv. eexists. split; [done|]. split; [split; [done|by constructor]|by constructor].
  - destruct (Hb s eq_refl) as [Hs Hr]. destruct (Hm s fv Hs Hr Hf) as (v & Hv & Htv & Hfv).
    rewrite Hv. eexists. split; [done|]. split; [done|by constructor].
Qed.

Lemma makeStruct_fills n : fills n (makeStruct n).
Proof.
  induction n as [|n IH]; intros s v Hs Hr Hv; [lia|]. cbn [makeStruct].
  inversion Hv as [| | | | | | | | |s' fields vs Hf HF Es Ev]. subst. rewrite Hf. cbn [mbind option_bind].
  destruct (mapM_zip (make_field n (makeStruct n))
    (fun ft f => (ft.1 = f.1 /\ has_type ft.2 f.2) /\ (isUnexported ft.1 = false -> filled_field ft.1 ft.2 f.2))
    fields vs) as (vs' & Hvs & HQ).
  { apply Forall2_same_length_lookup. split; [by eapply Forall2_length|]. intros i ft f Hi Hj.
    destruct (Forall2_lookup_lr _ _ _ _ _ _ HF Hi Hj) as [Hn Ht]. apply make_field_fills; [done| |done|done].
    eapply below_field; [exact Hf|exact Hr|]. by eapply list_elem_of_lookup_2. }
  rewrite Hvs. eexists. split; [done|]. split.
  - econstructor; [exact Hf|]. eapply Forall2_impl; [exact HQ|]. by intros ft f [? _].
  - econstructor; [exact Hf|]. eapply Forall2_impl; [exact HQ|]. by intros ft f [_ ?].
Qed.
End types.

(** *** The bound on the nesting does not matter *)

Section more.
Context (types : Types) (numItems : NumItems).

Lemma mapM_more {A B} (f g : A -> option B) l k :
  (forall x y, f x = Some y -> g x = Some y) -> mapM f l = Some k -> mapM g l = Some k.
Proof. intros Hfg Hk%mapM_Some. apply mapM_Some. eapply Forall2_impl; [exact Hk|]. auto. Qed.

Lemma zero_more n m t v : zero types n t = Some v -> n <= m -> zero types m t = Some v.
Proof.
  revert m t v. induction n as [|n IH]; intros [|m] t v Hv Hm; destruct t; cbn in *; try done; [lia|].
  apply bind_Some in Hv as (fields & Hf & Hv). apply bind_Some in Hv as (vs & Hvs & Hv). rewrite Hf. cbn.
  erewrite mapM_more; [exact Hv| |exact Hvs]. intros ft f (x & Hx & Hx')%bind_Some.
  by rewrite (IH m _ _ Hx) by lia.
Qed.

Definition extends (make make' : string -> GoVal -> option GoVal) : Prop :=
  forall s v r, make s v = Some r -> make' s v = Some r.

Lemma make_new_more n m make make' t v :
  extends make make' -> n <= m -> make_new types n make t = Some v -> make_new types m make' t = Some v.
Proof.
  unfold make_new. intros He Hm (z & Hz & Hv)%bind_Some. rewrite (zero_more n m t z Hz Hm). cbn.
  destruct t; try done. by apply He.
Qed.

Lemma make_field_more n m make make' ft f r :
  extends make make' -> n <= m ->
  make_field types numItems n make ft f = Some r -> make_field types numItems m make' ft f = Some r.
Proof.
  unfold make_field. intros He Hm. destruct (isUnexported ft.1); [done|]. intros (v & Hv & Hr)%bind_Some.
  destruct ft.2 as [k| | |t|t|s]; try by simplify_eq.
  - apply bind_Some in Hv as (l & Hl & Hv).
    erewrite (mapM_more _ (fun _ => make_new types m make' t)); [|intros x y; by apply make_new_more|exact Hl].
    cbn. by simplify_eq.
  - apply bind_Some in Hv as (x & Hx & Hv). rewrite (make_new_more _ _ _ _ _ _ He Hm Hx). cbn. by simplify_eq.
  - rewrite (He _ _ _ Hv). done.
Qed.

Lemma makeStruct_more n m : n <= m -> extends (makeStruct types numItems n) (makeStruct types numItems m).
Proof.
  revert m. induction n as [|n IH]; intros [|m] Hm s v r Hr; try done; [lia|]. cbn in *.
  apply bind_Some in Hr as (fields & Hf & Hr). rewrite Hf. cbn. destruct v; try done.
  apply bind_Some in Hr as (vs & Hvs & Hr). erewrite mapM_more; [exact Hr| |exact Hvs].
  intros [ft f] y. apply make_field_more; [apply IH|]; lia.
Qed.
End more.

(** *** The reference machine *)

Definition referenceItems : NumItems :=
  {[ "Disks" := MaxDisks; "Interfaces" := MaxIfaces; "Ports" := MaxPortsPerIface; "NTPServers" := MaxNTPServers ]}.

(** The domain of [NewDefaultVirtualMachine]. *)
Definition referenceDomain (types : Types) (n : nat) : option GoVal :=
  domSpec ← zero types n (TStruct "DomainSpec");
  makeStruct types referenceItems n "DomainSpec" domSpec.

Lemma referenceItems_bounds name : 1 <= ForField referenceItems name <= 64.
Proof.
  assert (map_Forall (fun _ n => 1 <= n <= 64) referenceItems) as Hb by (apply (bool_decide_unpack _); by vm_compute).
  unfold ForField. destruct (referenceItems !! name) as [n|] eqn:E; [by apply (Hb name)|]. unfold MaxItems. lia.
Qed.

(** C36: building the reference machine terminates and leaves nothing out. If the
    struct types do not contain each other in a circle, then nesting up to the
    rank of the domain type is enough, any larger bound gives the same value, the
    value has the type of the domain, and in it every exported field is present
    down to the basic types: no map, channel, pointer or slice is nil, and every
    slice has between 1 and 64 elements. *)
Theorem reference_complete types rank n :
  ranked types rank -> is_Some (types !! "DomainSpec") -> rank "DomainSpec" < n ->
  exists v, referenceDomain types n = Some v /\
    (forall m, n <= m -> referenceDomain types m = Some v) /\
    has_type types (TStruct "DomainSpec") v /\ filled types referenceItems "DomainSpec" v /\
    forall name, 1 <= ForField referenceItems name <= 64.
Proof.
  intros Hr Hs Hn.
  destruct (zero_total types rank Hr n (TStruct "DomainSpec")) as [z Hz]; [by intros s [= <-]|].
  pose proof (zero_typed types _ _ _ Hz) as Ht.
  destruct (makeStruct_fills types referenceItems rank Hr n "DomainSpec" z Hs Hn Ht) as (v & Hv & Htv & Hfv).
  exists v. unfold referenceDomain. rewrite Hz. cbn [mbind option_bind]. split_and!; [done| |done|done|].
  - intros m Hm. rewrite (zero_more _ n m _ _ Hz Hm). cbn [mbind option_bind]. by apply (makeStruct_more _ _ n m Hm).
  - apply referenceItems_bounds.
Qed.

(** A struct type that contains itself, even behind a pointer, would make the
    recursion go on for ever. *)
Lemma circular_diverges types n :
  types !! "List" = Some [("Next", TPtr (TStruct "List"))] ->
  makeStruct types referenceItems n "List" (VStruct [("Next", VNil)]) = None.
Proof.
  intros Hl. induction n as [|n IH]; [done|]. cbn [makeStruct]. rewrite Hl. cbn [mbind option_bind zip_with].
  assert (make_new types n (makeStruct types referenceItems n) (TStruct "List") = None) as E.
  { unfold make_new. destruct n as [|n]; [done|]. cbn [zero]. rewrite Hl. by destruct n; exact IH. }
  cbn [zip mapM fst snd]. unfold make_field. cbn [fst snd isUnexported]. rewrite E. done.
Qed.

(** ** Defaults of the CD drives (virtualmachine.go) *)

Record CDRomTarget := mkCDRomTarget { ReadOnly : option bool; Tray : string }.
Record Disk := mkDisk { CDRom : option CDRomTarget; disk_other : gmap string string }.

Definition setCDRomTargetDefaults (obj : CDRomTarget) : CDRomTarget :=
  mkCDRomTarget (Some true) (if bool_decide (Tray obj = "") then "closed" else Tray obj).
Definition setVirtualMachineDefaults (template : option (list Disk)) : option (list Disk) :=
  option_map (List.map (fun a => mkDisk (option_map setCDRomTargetDefaults (CDRom a)) (disk_other a))) template.

(** A machine with the shape of a KubeVirt domain. *)
Module ReferenceWitness.
Definition domain : Types := {[
  "DomainSpec" := [("CPU", TPtr (TStruct "CPU")); ("Devices", TStruct "Devices"); ("Annotations", TMap)];
  "CPU" := [("Cores", TBasic "uint32")];
  "Devices" := [("Disks", TSlice (TStruct "Disk")); ("state", TBasic "int")];
  "Disk" := [("Name", TBasic "string"); ("BootOrder", TPtr (TBasic "uint"))] ]}.
Definition depth (s : string) : nat :=
  if bool_decide (s = "DomainSpec") then 2 else if bool_decide (s = "Devices") then 1 else 0.

Lemma domain_ranked : ranked domain depth.
Proof.
  assert (map_Forall (fun s fields => Forall (fun ft => match continues ft.2 with
      | Some s' => bool_decide (is_Some (domain !! s') /\ depth s' < depth s) | None => true end = true) fields) domain) as Hd.
  { apply (bool_decide_unpack _). by vm_compute. }
  intros s fields f t s' Hf Hin Hc. specialize (Hd s fields Hf). rewrite Forall_forall in Hd.
  specialize (Hd _ Hin). cbn in Hd. rewrite Hc in Hd. by apply bool_decide_eq_true in Hd.
Qed.

Lemma reference_complete_witness :
  exists v, referenceDomain domain 3 = Some v /\ has_type domain (TStruct "DomainSpec") v.
Proof.
  destruct (reference_complete domain depth 3) as (v & Hv & _ & Ht & _).
  - exact domain_ranked.
  - eexists. reflexivity.
  - repeat constructor.
  - exists v. split; [exact Hv|exact Ht].
Defined.
End ReferenceWitness.
End ReferenceVm.
