(* ===== verification/Memory.v ===== *)
(** * Structs in memory

    The rest of the development treats objects as values. In Go they are structs
    that share what they point to. This file relates the two: a heap of cells, how
    a struct with pointers and slices is read from it as a value, the cells that
    reading visits, and what it means that a function makes a deep copy. *)

From S2P Require Import Prelude GoRuntime.

Module Memory.

Section memory.
Context {Cell : Type}.

Local Notation Heap := (gmap nat Cell).

Definition alloc (c : Cell) : M Heap nat := fun h =>
  let l := fresh (dom h) in (Ok l, <[l := c]> h).
Definition load (l : nat) : M Heap Cell := fun h =>
  match h !! l with
  | Some c => (Ok c, h)
  | None => (Panic "invalid memory address or nil pointer dereference", h)
  end.

(** How values of type [B] are represented by [A] in memory: the value that is
    read, and the cells that reading visits. *)
Record layout (A B : Type) := mkLayout {
  view : Heap -> A -> option B;
  foot : Heap -> A -> gset nat;
  foot_dom h a b : view h a = Some b -> foot h a ⊆ dom h;
  view_local h h' a b : view h a = Some b -> (forall l, l ∈ foot h a -> h' !! l = h !! l) ->
    view h' a = Some b /\ foot h' a = foot h a
}.
Arguments view {_ _} _ _ _.
Arguments foot {_ _} _ _ _.

(** A function that copies: it only adds cells, the copy reads as the original,
    and all its cells are new. *)
Definition copies {A B} (L : layout A B) (f : A -> M Heap A) : Prop :=
  forall h a b, view L h a = Some b ->
    exists h' a', f a h = (Ok a', h') /\ h ⊆ h' /\ view L h' a' = Some b /\ foot L h' a' ## dom h.

Lemma view_mono {A B} (L : layout A B) h h' a b :
  view L h a = Some b -> h ⊆ h' -> view L h' a = Some b /\ foot L h' a = foot L h a.
Proof.
  intros Hv Hs. apply (view_local _ _ L h); [done|]. intros l Hl.
  assert (l ∈ dom h) as [c Hc]%elem_of_dom by by apply (foot_dom _ _ L h a b).
  etransitivity; [by eapply lookup_weaken|done].
Qed.

(** ** Building blocks *)

(** Data without pointers, copied by assignment. *)
Program Definition plain {A} : layout A A := mkLayout A A (fun _ a => Some a) (fun _ _ => ∅) _ _.
Next Obligation. intros. apply empty_subseteq. Qed.
Next Obligation. done. Qed.

Lemma copies_plain {A} : copies (plain (A := A)) mret.
Proof. intros h a b [= ->]. exists h, b. by split_and!. Qed.

(** Two parts of a struct. *)
Program Definition both {A B A' B'} (L : layout A B) (L' : layout A' B') : layout (A * A') (B * B') :=
  mkLayout _ _ (fun h p => x ← view L h p.1; y ← view L' h p.2; Some (x, y))
    (fun h p => foot L h p.1 ∪ foot L' h p.2) _ _.
Next Obligation.
  intros A B A' B' L L' h p b (x & Hx & (y & Hy & _)%bind_Some)%bind_Some.
  apply foot_dom in Hx. apply foot_dom in Hy. set_solver.
Qed.
Next Obligation.
  intros A B A' B' L L' h h' p b (x & Hx & (y & Hy & Hb)%bind_Some)%bind_Some Hh.
  destruct (view_local _ _ L h h' p.1 x Hx) as [-> ->]; [set_solver|].
  destruct (view_local _ _ L' h h' p.2 y Hy) as [-> ->]; [set_solver|]. done.
Qed.

Definition copy_both {A A'} (f : A -> M Heap A) (f' : A' -> M Heap A') (p : A * A') : M Heap (A * A') :=
  x ← f p.1; y ← f' p.2; mret (x, y).

Lemma copies_both {A B A' B'} (L : layout A B) (L' : layout A' B') f f' :
  copies L f -> copies L' f' -> copies (both L L') (copy_both f f').
Proof.
  intros Hf Hf' h [a a'] b (x & Hx & (y & Hy & [= <-])%bind_Some)%bind_Some. cbn in *.
  destruct (Hf h a x Hx) as (h1 & a1 & E1 & Hs1 & Hv1 & Hd1).
  destruct (view_mono L' h h1 a' y Hy Hs1) as [Hy1 _].
  destruct (Hf' h1 a' y Hy1) as (h2 & a2 & E2 & Hs2 & Hv2 & Hd2).
  destruct (view_mono L h1 h2 a1 x Hv1 Hs2) as [Hv1' Hfoot].
  exists h2, (a1, a2). unfold copy_both, mbind, M_bind. cbn. rewrite E1, E2. split_and!.
  - done.
  - by etransitivity.
  - by rewrite Hv1', Hv2.
  - rewrite Hfoot. apply subseteq_dom in Hs1. set_solver.
Qed.

(** Another form of the value, or of the struct. *)
Program Definition as_value {A B C} (g : B -> C) (L : layout A B) : layout A C :=
  mkLayout _ _ (fun h a => g <$> view L h a) (foot L) _ _.
Next Obligation. intros A B C g L h a c (b & Hb & _)%fmap_Some. by eapply foot_dom. Qed.
Next Obligation.
  intros A B C g L h h' a c (b & Hb & ->)%fmap_Some Hh.
  destruct (view_local _ _ L h h' a b Hb Hh) as [-> ->]. done.
Qed.

Lemma copies_as_value {A B C} (g : B -> C) (L : layout A B) f : copies L f -> copies (as_value g L) f.
Proof.
  intros Hf h a c (b & Hb & ->)%fmap_Some. destruct (Hf h a b Hb) as (h' & a' & E & Hs & Hv & Hd).
  exists h', a'. cbn. rewrite Hv. by split_and!.
Qed.

Program Definition as_struct {R A B} (fields : R -> A) (L : layout A B) : layout R B :=
  mkLayout _ _ (fun h r => view L h (fields r)) (fun h r => foot L h (fields r)) _ _.
Next Obligation. intros. by eapply foot_dom. Qed.
Next Obligation. intros. by eapply view_local. Qed.

Lemma copies_as_struct {R A B} (fields : R -> A) (make : A -> R) (L : layout A B) f g :
  (forall a, fields (make a) = a) -> (forall r h, g r h = ((a ← f (fields r); mret (make a)) : M Heap R) h) ->
  copies L f -> copies (as_struct fields L) g.
Proof.
  intros Hm Hg Hf h r b Hv. destruct (Hf h (fields r) b Hv) as (h' & a' & E & Hs & Hv' & Hd).
  exists h', (make a'). rewrite Hg. unfold mbind, M_bind. rewrite E. cbn. rewrite Hm. by split_and!.
Qed.

(** The elements of an array. *)
Program Definition each {A B} (L : layout A B) : layout (list A) (list B) :=
  mkLayout _ _ (fun h l => mapM (view L h) l) (fun h l => ⋃ (foot L h <$> l)) _ _.
Next Obligation.
  intros A B L h l k Hk%mapM_Some. induction Hk as [|a b l k Hb _ IH]; cbn; [set_solver|].
  apply foot_dom in Hb. set_solver.
Qed.
Next Obligation.
  intros A B L h h' l k Hk%mapM_Some. induction Hk as [|a b l k Hb _ IH]; cbn; intros Hh; [done|].
  destruct (view_local _ _ L h h' a b Hb) as [-> ->]; [set_solver|].
  destruct IH as [IH1 ->]; [set_solver|]. cbn. by rewrite IH1.
Qed.

Lemma copies_each {A B} (L : layout A B) f : copies L f -> copies (each L) (mapM f).
Proof.
  intros Hf h l k Hk%mapM_Some. revert h Hk.
  enough (forall h, Forall2 (fun a b => view L h a = Some b) l k ->
    exists h' l', mapM f l h = (Ok l', h') /\ h ⊆ h' /\
      Forall2 (fun a b => view L h' a = Some b) l' k /\ ⋃ (foot L h' <$> l') ## dom h) as Hgen.
  { intros h Hk. destruct (Hgen h Hk) as (h' & l' & E & Hs & Hv & Hd). exists h', l'.
    split_and!; [done|done|by apply mapM_Some|done]. }
  revert k. induction l as [|a l IH]; intros k h Hk; inversion Hk as [|? b ? k' Hb Hk']; subst.
  { exists h, []. split_and!; [done|done|constructor|]. cbn. set_solver. }
  destruct (Hf h a b Hb) as (h1 & a1 & E1 & Hs1 & Hv1 & Hd1).
  destruct (IH k' h1) as (h2 & l2 & E2 & Hs2 & Hv2 & Hd2).
  { eapply Forall2_impl; [exact Hk'|]. intros x y Hxy. by apply (view_mono L h h1 x y Hxy Hs1). }
  destruct (view_mono L h1 h2 a1 b Hv1 Hs2) as [Hv1' Hfoot].
  exists h2, (a1 :: l2). split_and!.
  - exact (eq_trans (bind_returns _ _ _ _ _ E1) (bind_returns _ _ _ _ _ E2)).
  - by etransitivity.
  - by constructor.
  - cbn. rewrite Hfoot. apply subseteq_dom in Hs1. set_solver.
Qed.

(** ** Pointers and slices *)

(** A type whose values are kept in cells of their own. *)
Class Stored (A : Type) := {
  inj : A -> Cell;
  proj : Cell -> option A;
  proj_inj a : proj (inj a) = Some a
}.

Definition deref {A} `{!Stored A} (h : Heap) (l : nat) : option A :=
  match h !! l with Some c => proj c | None => None end.

Lemma deref_dom {A} `{!Stored A} h l (a : A) : deref h l = Some a -> l ∈ dom h.
Proof. unfold deref. destruct (h !! l) eqn:E; [|done]. intros _. by apply elem_of_dom_2 in E. Qed.

Lemma deref_eq {A} `{!Stored A} h h' l : h' !! l = h !! l -> deref (A := A) h' l = deref h l.
Proof. unfold deref. by intros ->. Qed.

Lemma deref_new {A} `{!Stored A} h l (a : A) : deref (<[l := inj a]> h) l = Some a.
Proof. unfold deref. rewrite lookup_insert_eq. apply proj_inj. Qed.

Program Definition ptr {A B} `{!Stored A} (L : layout A B) : layout (option nat) (option B) :=
  mkLayout _ _
    (fun h p => match p with
                | None => Some None
                | Some l => a ← deref h l; b ← view L h a; Some (Some b)
                end)
    (fun h p => match p with
                | None => ∅
                | Some l => {[l]} ∪ match deref h l with Some a => foot L h a | None => ∅ end
                end) _ _.
Next Obligation.
  intros A B S L h [l|] o; [|set_solver]. intros (a & Ha & (b & Hb & _)%bind_Some)%bind_Some.
  cbn. rewrite Ha. apply foot_dom in Hb. apply deref_dom in Ha. set_solver.
Qed.
Next Obligation.
  intros A B S L h h' [l|] o; [|done]. intros (a & Ha & (b & Hb & Ho)%bind_Some)%bind_Some.
  cbn. rewrite Ha. intros Hh. rewrite (deref_eq h h' l), Ha by (apply Hh; set_solver). cbn.
  destruct (view_local _ _ L h h' a b Hb) as [-> ->]; [set_solver|]. done.
Qed.

(** [**out = **in] and [( *in).DeepCopyInto( *out)] after [*out = new(T)], when the
    pointer is not nil; also the body of every [DeepCopy]. *)
Definition copy_ptr {A} `{!Stored A} (f : A -> M Heap A) (p : option nat) : M Heap (option nat) :=
  match p with
  | None => mret None
  | Some l =>
      c ← load l;
      match proj c with
      | Some a => out ← f a; l' ← alloc (inj out); mret (Some l')
      | None => panic "the cell has another type"
      end
  end.

Lemma copies_ptr {A B} `{!Stored A} (L : layout A B) f : copies L f -> copies (ptr L) (copy_ptr f).
Proof.
  intros Hf h [l|] o; cbn; [|intros [= <-]; exists h, None; by split_and!].
  intros (a & Ha & (b & Hb & [= <-])%bind_Some)%bind_Some.
  destruct (Hf h a b Hb) as (h1 & a1 & E1 & Hs1 & Hv1 & Hd1).
  set (l' := fresh (dom h1)). assert (h1 !! l' = None) as Hl'.
  { apply not_elem_of_dom, is_fresh. }
  assert (h1 ⊆ <[l' := inj a1]> h1) as Hs2 by by apply insert_subseteq.
  destruct (view_mono L h1 _ a1 b Hv1 Hs2) as [Hv2 Hfoot].
  exists (<[l' := inj a1]> h1), (Some l').
  split_and!.
  - unfold deref in Ha. unfold load, mbind, M_bind. destruct (h !! l); [|done]. by rewrite Ha, E1.
  - by etransitivity.
  - rewrite deref_new. cbn. by rewrite Hv2.
  - rewrite deref_new, Hfoot. apply subseteq_dom in Hs1. apply not_elem_of_dom in Hl'. set_solver.
Qed.

(** A slice is a pointer to its array; a nil slice reads as an empty one. *)
Definition slice {A B} `{!Stored (list A)} (L : layout A B) : layout (option nat) (list B) :=
  as_value (default []) (ptr (each L)).

(** [*out = make([]T, len( *in))], then [copy( *out, *in)] or a copy of each element. *)
Definition copy_slice {A} `{!Stored (list A)} (f : A -> M Heap A) : option nat -> M Heap (option nat) :=
  copy_ptr (mapM f).

Lemma copies_slice {A B} `{!Stored (list A)} (L : layout A B) f :
  copies L f -> copies (slice L) (copy_slice f).
Proof. intros. by apply copies_as_value, copies_ptr, copies_each. Qed.

(** ** Independence *)

(** Writes to the cells of the copy, and memory that is allocated later, do not
    change what the original reads; writes to any memory that existed before the
    copy do not change what the copy reads. *)
Definition independent {A B} (L : layout A B) (h h' : Heap) (a a' : A) (b : B) : Prop :=
  (forall h'', (forall l, l ∈ dom h' -> l ∉ foot L h' a' -> h'' !! l = h' !! l) -> view L h'' a = Some b) /\
  (forall h'', (forall l, l ∈ dom h' -> l ∉ dom h -> h'' !! l = h' !! l) -> view L h'' a' = Some b).

Lemma copy_independent {A B} (L : layout A B) f h a b :
  copies L f -> view L h a = Some b ->
  exists h' a', f a h = (Ok a', h') /\ view L h' a' = Some b /\ independent L h h' a a' b.
Proof.
  intros Hf Hv. destruct (Hf h a b Hv) as (h' & a' & E & Hs & Hv' & Hd).
  exists h', a'. split_and!; [done..|]. split; intros h'' Hh.
  - destruct (view_mono L h h' a b Hv Hs) as [Hva Hfoot].
    apply (view_local _ _ L h' h'' a b Hva). intros l Hl. rewrite Hfoot in Hl.
    apply (foot_dom _ _ L h a b Hv) in Hl. apply subseteq_dom in Hs. apply Hh; set_solver.
  - apply (view_local _ _ L h' h'' a' b Hv'). intros l Hl.
    apply (foot_dom _ _ L h' a' b Hv') in Hl as Hl'. apply Hh; set_solver.
Qed.
End memory.
Arguments view {_ _ _} _ _ _.
Arguments foot {_ _ _} _ _ _.
End Memory.

