(* ===== verification/DeepCopy.v ===== *)
(** * Deep copies of SSP resources (zz_generated.deepcopy.go of both API versions)

    Every change that the operator makes to an object of a cache, and every
    conversion of the API server's client, starts from a copy. The structs are
    modelled as they are in memory, with their pointers and slices, together with
    the values of [SspTypes] that they stand for. The copy of a resource is
    shown to read as the same value and to share no memory with the original.

    The types that come from other packages ([ObjectMeta], [DataImportCronSpec],
    [NodePlacement], [TLSSecurityProfile], [Status] and [ListMeta]) have a
    representation that is a parameter; their own copy functions are assumed to
    copy. Where memory is allocated before it is filled ([*out = new(T)] and then
    [( *in).DeepCopyInto( *out)]), the model allocates it with its contents. *)

From S2P Require Import Prelude GoRuntime KubeTypes SspTypes SspWebhook Memory.
Import Memory.

Module DeepCopy.

(** ** Representations *)

(** The structs of other packages, and the cells that only they use. *)
Class Foreign := {
  mObjectMeta : Type;
  mDataImportCronSpec : Type;
  mNodePlacement : Type;
  mTLSSecurityProfile : Type;
  mStatus : Type;
  mListMeta : Type;
  OtherCell : Type
}.

(** [lifecycleapi.Status] *)
Record Status := mkStatus {
  status_Phase : Phase;
  status_Conditions : list Condition;
  status_OperatorVersion : string;
  status_TargetVersion : string;
  status_ObservedVersion : string
}.

Section structs.
Context `{F : Foreign}.

Record mTemplateValidator := mkMTemplateValidator {
  m_Replicas : option nat; m_Placement : option nat }.

Record mDataImportCronTemplate := mkMDataImportCronTemplate {
  m_dict_meta : mObjectMeta; m_dict_spec : mDataImportCronSpec }.

Record mCommonTemplates := mkMCommonTemplates {
  m_ct_Namespace : string; m_ct_DataImportCronTemplates : option nat }.

Record mCluster := mkMCluster {
  m_WorkloadArchitectures : option nat; m_ControlPlaneArchitectures : option nat }.

Record mSSPSpec := mkMSSPSpec {
  m_EnableMultipleArchitectures : option nat;
  m_TemplateValidator : option nat;
  m_Cluster : option nat;
  m_CommonTemplates : mCommonTemplates;
  m_TLSSecurityProfile : option nat;
  m_TokenGenerationService : option nat
}.

Record mSSPStatus := mkMSSPStatus {
  m_Status : mStatus; m_Paused : bool; m_ObservedGeneration : Z }.

Record mSSP := mkMSSP {
  m_TypeMeta : TypeMeta; m_ObjectMeta : mObjectMeta; m_Spec : mSSPSpec; m_SSPStatus : mSSPStatus }.

Record mSSPList := mkMSSPList {
  m_list_TypeMeta : TypeMeta; m_ListMeta : mListMeta; m_Items : option nat }.

(** v1beta2 *)

Record mCommonInstancetypes := mkMCommonInstancetypes { m_URL : option nat }.
Record mTektonPipelines := mkMTektonPipelines { m_tp_Namespace : string }.
Record mTektonTasks := mkMTektonTasks { m_tt_Namespace : string }.

Record mFeatureGates := mkMFeatureGates {
  m_DeployTektonTaskResources : bool;
  m_DeployVmConsoleProxy : bool;
  m_DeployCommonInstancetypes : option nat
}.

Record mSSPSpec2 := mkMSSPSpec2 {
  m2_TemplateValidator : option nat;
  m2_CommonTemplates : mCommonTemplates;
  m2_TLSSecurityProfile : option nat;
  m2_TokenGenerationService : option nat;
  m2_CommonInstancetypes : option nat;
  m2_TektonPipelines : option nat;
  m2_TektonTasks : option nat;
  m2_FeatureGates : option nat
}.

Record mSSP2 := mkMSSP2 {
  m2_TypeMeta : TypeMeta; m2_ObjectMeta : mObjectMeta; m2_Spec : mSSPSpec2; m2_SSPStatus : mSSPStatus }.

Record mSSPList2 := mkMSSPList2 {
  m2_list_TypeMeta : TypeMeta; m2_ListMeta : mListMeta; m2_Items : option nat }.

(** What a pointer may point to, and the arrays of slices. *)
Inductive Cell :=
| CBool (b : bool) | CInt32 (n : Z) | CString (s : string) | CStrings (l : list string)
| CNodePlacement (p : mNodePlacement) | CTLSSecurityProfile (p : mTLSSecurityProfile)
| CTokenGenerationService (t : TokenGenerationService)
| CTemplateValidator (t : mTemplateValidator)
| CDataImportCronTemplate (t : mDataImportCronTemplate)
| CDataImportCronTemplates (l : list mDataImportCronTemplate)
| CCommonTemplates (t : mCommonTemplates) | CCluster (c : mCluster)
| CSSPStatus (s : mSSPStatus)
| CSSPSpec (s : mSSPSpec) | CSSP (s : mSSP) | CSSPs (l : list mSSP) | CSSPList (l : mSSPList)
| CCommonInstancetypes (c : mCommonInstancetypes)
| CTektonPipelines (t : mTektonPipelines) | CTektonTasks (t : mTektonTasks)
| CFeatureGates (g : mFeatureGates)
| CSSPSpec2 (s : mSSPSpec2) | CSSP2 (s : mSSP2) | CSSPs2 (l : list mSSP2) | CSSPList2 (l : mSSPList2)
| COther (c : OtherCell).

Local Notation Heap := (gmap nat Cell).
Local Notation layout := (@Memory.layout Cell).

#[export] Instance CBool_stored : @Stored Cell bool := {|
  inj := CBool; proj c := match c with CBool x => Some x | _ => None end; proj_inj _ := eq_refl |}.
#[export] Instance CInt32_stored : @Stored Cell Z := {|
  inj := CInt32; proj c := match c with CInt32 x => Some x | _ => None end; proj_inj _ := eq_refl |}.
#[export] Instance CString_stored : @Stored Cell string := {|
  inj := CString; proj c := match c with CString x => Some x | _ => None end; proj_inj _ := eq_refl |}.
#[export] Instance CStrings_stored : @Stored Cell (list string) := {|
  inj := CStrings; proj c := match c with CStrings x => Some x | _ => None end; proj_inj _ := eq_refl |}.
#[export] Instance CNodePlacement_stored : @Stored Cell mNodePlacement := {|
  inj := CNodePlacement; proj c := match c with CNodePlacement x => Some x | _ => None end; proj_inj _ := eq_refl |}.
#[export] Instance CTLSSecurityProfile_stored : @Stored Cell mTLSSecurityProfile := {|
  inj := CTLSSecurityProfile; proj c := match c with CTLSSecurityProfile x => Some x | _ => None end; proj_inj _ := eq_refl |}.
#[export] Instance CTokenGenerationService_stored : @Stored Cell TokenGenerationService := {|
  inj := CTokenGenerationService; proj c := match c with CTokenGenerationService x => Some x | _ => None end; proj_inj _ := eq_refl |}.
#[export] Instance CTemplateValidator_stored : @Stored Cell mTemplateValidator := {|
  inj := CTemplateValidator; proj c := match c with CTemplateValidator x => Some x | _ => None end; proj_inj _ := eq_refl |}.
#[export] Instance CDataImportCronTemplate_stored : @Stored Cell mDataImportCronTemplate := {|
  inj := CDataImportCronTemplate; proj c := match c with CDataImportCronTemplate x => Some x | _ => None end; proj_inj _ := eq_refl |}.
#[export] Instance CDataImportCronTemplates_stored : @Stored Cell (list mDataImportCronTemplate) := {|
  inj := CDataImportCronTemplates; proj c := match c with CDataImportCronTemplates x => Some x | _ => None end; proj_inj _ := eq_refl |}.
#[export] Instance CCommonTemplates_stored : @Stored Cell mCommonTemplates := {|
  inj := CCommonTemplates; proj c := match c with CCommonTemplates x => Some x | _ => None end; proj_inj _ := eq_refl |}.
#[export] Instance CCluster_stored : @Stored Cell mCluster := {|
  inj := CCluster; proj c := match c with CCluster x => Some x | _ => None end; proj_inj _ := eq_refl |}.
#[export] Instance CSSPStatus_stored : @Stored Cell mSSPStatus := {|
  inj := CSSPStatus; proj c := match c with CSSPStatus x => Some x | _ => None end; proj_inj _ := eq_refl |}.
#[export] Instance CSSPSpec_stored : @Stored Cell mSSPSpec := {|
  inj := CSSPSpec; proj c := match c with CSSPSpec x => Some x | _ => None end; proj_inj _ := eq_refl |}.
#[export] Instance CSSP_stored : @Stored Cell mSSP := {|
  inj := CSSP; proj c := match c with CSSP x => Some x | _ => None end; proj_inj _ := eq_refl |}.
#[export] Instance CSSPs_stored : @Stored Cell (list mSSP) := {|
  inj := CSSPs; proj c := match c with CSSPs x => Some x | _ => None end; proj_inj _ := eq_refl |}.
#[export] Instance CSSPList_stored : @Stored Cell mSSPList := {|
  inj := CSSPList; proj c := match c with CSSPList x => Some x | _ => None end; proj_inj _ := eq_refl |}.
#[export] Instance CCommonInstancetypes_stored : @Stored Cell mCommonInstancetypes := {|
  inj := CCommonInstancetypes; proj c := match c with CCommonInstancetypes x => Some x | _ => None end; proj_inj _ := eq_refl |}.
#[export] Instance CTektonPipelines_stored : @Stored Cell mTektonPipelines := {|
  inj := CTektonPipelines; proj c := match c with CTektonPipelines x => Some x | _ => None end; proj_inj _ := eq_refl |}.
#[export] Instance CTektonTasks_stored : @Stored Cell mTektonTasks := {|
  inj := CTektonTasks; proj c := match c with CTektonTasks x => Some x | _ => None end; proj_inj _ := eq_refl |}.
#[export] Instance CFeatureGates_stored : @Stored Cell mFeatureGates := {|
  inj := CFeatureGates; proj c := match c with CFeatureGates x => Some x | _ => None end; proj_inj _ := eq_refl |}.
#[export] Instance CSSPSpec2_stored : @Stored Cell mSSPSpec2 := {|
  inj := CSSPSpec2; proj c := match c with CSSPSpec2 x => Some x | _ => None end; proj_inj _ := eq_refl |}.
#[export] Instance CSSP2_stored : @Stored Cell mSSP2 := {|
  inj := CSSP2; proj c := match c with CSSP2 x => Some x | _ => None end; proj_inj _ := eq_refl |}.
#[export] Instance CSSPs2_stored : @Stored Cell (list mSSP2) := {|
  inj := CSSPs2; proj c := match c with CSSPs2 x => Some x | _ => None end; proj_inj _ := eq_refl |}.
#[export] Instance CSSPList2_stored : @Stored Cell mSSPList2 := {|
  inj := CSSPList2; proj c := match c with CSSPList2 x => Some x | _ => None end; proj_inj _ := eq_refl |}.

(** ** The generated functions *)

(** The copy functions of the other packages. *)
Class ForeignCopy := {
  ObjectMeta_DeepCopyInto : mObjectMeta -> M Heap mObjectMeta;
  DataImportCronSpec_DeepCopyInto : mDataImportCronSpec -> M Heap mDataImportCronSpec;
  NodePlacement_DeepCopy : option nat -> M Heap (option nat);
  TLSSecurityProfile_DeepCopyInto : mTLSSecurityProfile -> M Heap mTLSSecurityProfile;
  Status_DeepCopyInto : mStatus -> M Heap mStatus;
  ListMeta_DeepCopyInto : mListMeta -> M Heap mListMeta
}.
Context {FC : ForeignCopy}.

(** A [DeepCopyInto] returns the struct that it writes to [*out]: the fields of
    [*in] where they are not replaced. *)

Definition TokenGenerationService_DeepCopyInto (in_ : TokenGenerationService) : M Heap TokenGenerationService :=
  mret in_.

Definition TemplateValidator_DeepCopyInto (in_ : mTemplateValidator) : M Heap mTemplateValidator :=
  replicas ← copy_ptr (A := Z) mret (m_Replicas in_);
  placement ← match m_Placement in_ with
              | Some p => NodePlacement_DeepCopy (Some p)
              | None => mret None
              end;
  mret (mkMTemplateValidator replicas placement).

Definition DataImportCronTemplate_DeepCopyInto (in_ : mDataImportCronTemplate)
    : M Heap mDataImportCronTemplate :=
  meta ← ObjectMeta_DeepCopyInto (m_dict_meta in_);
  spec ← DataImportCronSpec_DeepCopyInto (m_dict_spec in_);
  mret (mkMDataImportCronTemplate meta spec).

Definition CommonTemplates_DeepCopyInto (in_ : mCommonTemplates) : M Heap mCommonTemplates :=
  crons ← copy_slice DataImportCronTemplate_DeepCopyInto (m_ct_DataImportCronTemplates in_);
  mret (mkMCommonTemplates (m_ct_Namespace in_) crons).

Definition Cluster_DeepCopyInto (in_ : mCluster) : M Heap mCluster :=
  workload ← copy_slice (A := string) mret (m_WorkloadArchitectures in_);
  controlPlane ← copy_slice (A := string) mret (m_ControlPlaneArchitectures in_);
  mret (mkMCluster workload controlPlane).

Definition SSPSpec_DeepCopyInto (in_ : mSSPSpec) : M Heap mSSPSpec :=
  multi ← copy_ptr (A := bool) mret (m_EnableMultipleArchitectures in_);
  validator ← copy_ptr TemplateValidator_DeepCopyInto (m_TemplateValidator in_);
  cluster ← copy_ptr Cluster_DeepCopyInto (m_Cluster in_);
  templates ← CommonTemplates_DeepCopyInto (m_CommonTemplates in_);
  tls ← copy_ptr TLSSecurityProfile_DeepCopyInto (m_TLSSecurityProfile in_);
  tokens ← copy_ptr (A := TokenGenerationService) mret (m_TokenGenerationService in_);
  mret (mkMSSPSpec multi validator cluster templates tls tokens).

Definition SSPStatus_DeepCopyInto (in_ : mSSPStatus) : M Heap mSSPStatus :=
  status ← Status_DeepCopyInto (m_Status in_);
  mret (mkMSSPStatus status (m_Paused in_) (m_ObservedGeneration in_)).

Definition SSP_DeepCopyInto (in_ : mSSP) : M Heap mSSP :=
  meta ← ObjectMeta_DeepCopyInto (m_ObjectMeta in_);
  spec ← SSPSpec_DeepCopyInto (m_Spec in_);
  status ← SSPStatus_DeepCopyInto (m_SSPStatus in_);
  mret (mkMSSP (m_TypeMeta in_) meta spec status).

Definition SSPList_DeepCopyInto (in_ : mSSPList) : M Heap mSSPList :=
  meta ← ListMeta_DeepCopyInto (m_ListMeta in_);
  items ← copy_slice SSP_DeepCopyInto (m_Items in_);
  mret (mkMSSPList (m_list_TypeMeta in_) meta items).

(** *** v1beta2 *)

Definition CommonInstancetypes_DeepCopyInto (in_ : mCommonInstancetypes) : M Heap mCommonInstancetypes :=
  url ← copy_ptr (A := string) mret (m_URL in_);
  mret (mkMCommonInstancetypes url).

Definition TektonPipelines_DeepCopyInto (in_ : mTektonPipelines) : M Heap mTektonPipelines := mret in_.
Definition TektonTasks_DeepCopyInto (in_ : mTektonTasks) : M Heap mTektonTasks := mret in_.

Definition FeatureGates_DeepCopyInto (in_ : mFeatureGates) : M Heap mFeatureGates :=
  instancetypes ← copy_ptr (A := bool) mret (m_DeployCommonInstancetypes in_);
  mret (mkMFeatureGates (m_DeployTektonTaskResources in_) (m_DeployVmConsoleProxy in_) instancetypes).

Definition SSPSpec2_DeepCopyInto (in_ : mSSPSpec2) : M Heap mSSPSpec2 :=
  validator ← copy_ptr TemplateValidator_DeepCopyInto (m2_TemplateValidator in_);
  templates ← CommonTemplates_DeepCopyInto (m2_CommonTemplates in_);
  tls ← copy_ptr TLSSecurityProfile_DeepCopyInto (m2_TLSSecurityProfile in_);
  tokens ← copy_ptr (A := TokenGenerationService) mret (m2_TokenGenerationService in_);
  instancetypes ← copy_ptr CommonInstancetypes_DeepCopyInto (m2_CommonInstancetypes in_);
  pipelines ← copy_ptr (A := mTektonPipelines) mret (m2_TektonPipelines in_);
  tasks ← copy_ptr (A := mTektonTasks) mret (m2_TektonTasks in_);
  gates ← copy_ptr FeatureGates_DeepCopyInto (m2_FeatureGates in_);
  mret (mkMSSPSpec2 validator templates tls tokens instancetypes pipelines tasks gates).

Definition SSP2_DeepCopyInto (in_ : mSSP2) : M Heap mSSP2 :=
  meta ← ObjectMeta_DeepCopyInto (m2_ObjectMeta in_);
  spec ← SSPSpec2_DeepCopyInto (m2_Spec in_);
  status ← SSPStatus_DeepCopyInto (m2_SSPStatus in_);
  mret (mkMSSP2 (m2_TypeMeta in_) meta spec status).

Definition SSPList2_DeepCopyInto (in_ : mSSPList2) : M Heap mSSPList2 :=
  meta ← ListMeta_DeepCopyInto (m2_ListMeta in_);
  items ← copy_slice SSP2_DeepCopyInto (m2_Items in_);
  mret (mkMSSPList2 (m2_list_TypeMeta in_) meta items).

(** *** Copies behind a new pointer: nil for a nil receiver *)

Definition TokenGenerationService_DeepCopy := copy_ptr TokenGenerationService_DeepCopyInto.
Definition TemplateValidator_DeepCopy := copy_ptr TemplateValidator_DeepCopyInto.
Definition DataImportCronTemplate_DeepCopy := copy_ptr DataImportCronTemplate_DeepCopyInto.
Definition CommonTemplates_DeepCopy := copy_ptr CommonTemplates_DeepCopyInto.
Definition Cluster_DeepCopy := copy_ptr Cluster_DeepCopyInto.
Definition SSPSpec_DeepCopy := copy_ptr SSPSpec_DeepCopyInto.
Definition SSPStatus_DeepCopy := copy_ptr SSPStatus_DeepCopyInto.
Definition SSP_DeepCopy := copy_ptr SSP_DeepCopyInto.
Definition SSPList_DeepCopy := copy_ptr SSPList_DeepCopyInto.
Definition CommonInstancetypes_DeepCopy := copy_ptr CommonInstancetypes_DeepCopyInto.
Definition TektonPipelines_DeepCopy := copy_ptr TektonPipelines_DeepCopyInto.
Definition TektonTasks_DeepCopy := copy_ptr TektonTasks_DeepCopyInto.
Definition FeatureGates_DeepCopy := copy_ptr FeatureGates_DeepCopyInto.
Definition SSPSpec2_DeepCopy := copy_ptr SSPSpec2_DeepCopyInto.
Definition SSP2_DeepCopy := copy_ptr SSP2_DeepCopyInto.
Definition SSPList2_DeepCopy := copy_ptr SSPList2_DeepCopyInto.

(** An interface value of [runtime.Object]: nil, or a type and a pointer, which
    may itself be nil. *)
Inductive runtime_type := TSSP | TSSPList | TSSP2 | TSSPList2.
Definition runtime_Object : Type := option (runtime_type * option nat).

(** [if c := in.DeepCopy(); c != nil { return c }; return nil] *)
Definition as_Object (t : runtime_type) (c : option nat) : runtime_Object :=
  match c with Some _ => Some (t, c) | None => None end.

Definition SSP_DeepCopyObject (in_ : option nat) : M Heap runtime_Object :=
  c ← SSP_DeepCopy in_; mret (as_Object TSSP c).
Definition SSPList_DeepCopyObject (in_ : option nat) : M Heap runtime_Object :=
  c ← SSPList_DeepCopy in_; mret (as_Object TSSPList c).
Definition SSP2_DeepCopyObject (in_ : option nat) : M Heap runtime_Object :=
  c ← SSP2_DeepCopy in_; mret (as_Object TSSP2 c).
Definition SSPList2_DeepCopyObject (in_ : option nat) : M Heap runtime_Object :=
  c ← SSPList2_DeepCopy in_; mret (as_Object TSSPList2 c).

(** ** What the structs stand for *)

(** The values of the other packages' structs. *)
Class ForeignLayout := {
  ListMeta : Type;
  ObjectMeta_layout : layout mObjectMeta ObjectMeta;
  DataImportCronSpec_layout : layout mDataImportCronSpec DataImportCronSpec;
  NodePlacement_layout : layout mNodePlacement NodePlacement;
  TLSSecurityProfile_layout : layout mTLSSecurityProfile TLSSecurityProfile;
  Status_layout : layout mStatus Status;
  ListMeta_layout : layout mListMeta ListMeta
}.
Context {FL : ForeignLayout}.

(** Their copy functions copy. *)
Class ForeignCopies : Prop := {
  ObjectMeta_copies : copies ObjectMeta_layout ObjectMeta_DeepCopyInto;
  DataImportCronSpec_copies : copies DataImportCronSpec_layout DataImportCronSpec_DeepCopyInto;
  NodePlacement_copies : copies (ptr NodePlacement_layout) NodePlacement_DeepCopy;
  TLSSecurityProfile_copies : copies TLSSecurityProfile_layout TLSSecurityProfile_DeepCopyInto;
  Status_copies : copies Status_layout Status_DeepCopyInto;
  ListMeta_copies : copies ListMeta_layout ListMeta_DeepCopyInto
}.

Definition TemplateValidator_layout : layout mTemplateValidator TemplateValidator :=
  as_value (fun '(r, p) => mkTemplateValidator r p)
    (as_struct (fun t => (m_Replicas t, m_Placement t))
       (both (ptr (A := Z) plain) (ptr NodePlacement_layout))).

Definition DataImportCronTemplate_layout : layout mDataImportCronTemplate DataImportCronTemplate :=
  as_value (fun '(m, s) => mkDataImportCronTemplate m s)
    (as_struct (fun t => (m_dict_meta t, m_dict_spec t))
       (both ObjectMeta_layout DataImportCronSpec_layout)).

Definition CommonTemplates_layout : layout mCommonTemplates V1beta3.CommonTemplates :=
  as_value (fun '(n, l) => V1beta3.mkCommonTemplates n l)
    (as_struct (fun t => (m_ct_Namespace t, m_ct_DataImportCronTemplates t))
       (both plain (slice DataImportCronTemplate_layout))).

Definition Cluster_layout : layout mCluster V1beta3.Cluster :=
  as_value (fun '(w, c) => V1beta3.mkCluster w c)
    (as_struct (fun t => (m_WorkloadArchitectures t, m_ControlPlaneArchitectures t))
       (both (slice (A := string) plain) (slice (A := string) plain))).

Definition SSPSpec_layout : layout mSSPSpec V1beta3.SSPSpec :=
  as_value (fun '(m, (v, (c, (t, (s, g))))) => V1beta3.mkSSPSpec m v c t s g)
    (as_struct (fun s => (m_EnableMultipleArchitectures s, (m_TemplateValidator s, (m_Cluster s,
        (m_CommonTemplates s, (m_TLSSecurityProfile s, m_TokenGenerationService s))))))
       (both (ptr (A := bool) plain) (both (ptr TemplateValidator_layout) (both (ptr Cluster_layout)
         (both CommonTemplates_layout (both (ptr TLSSecurityProfile_layout)
            (ptr (A := TokenGenerationService) plain))))))).

Definition SSPStatus_layout : layout mSSPStatus V1beta3.SSPStatus :=
  as_value (fun '(s, (p, g)) => V1beta3.mkSSPStatus (status_Phase s) (status_Conditions s)
      (status_OperatorVersion s) (status_TargetVersion s) (status_ObservedVersion s) p g)
    (as_struct (fun s => (m_Status s, (m_Paused s, m_ObservedGeneration s)))
       (both Status_layout (both plain plain))).

Definition SSP_layout : layout mSSP V1beta3.SSP :=
  as_value (fun '(t, (m, (s, st))) => V1beta3.mkSSP t m s st)
    (as_struct (fun s => (m_TypeMeta s, (m_ObjectMeta s, (m_Spec s, m_SSPStatus s))))
       (both plain (both ObjectMeta_layout (both SSPSpec_layout SSPStatus_layout)))).

Definition SSPList_layout : layout mSSPList (TypeMeta * (ListMeta * list V1beta3.SSP)) :=
  as_struct (fun l => (m_list_TypeMeta l, (m_ListMeta l, m_Items l)))
    (both plain (both ListMeta_layout (slice SSP_layout))).

(** *** v1beta2 *)

Definition CommonInstancetypes_layout : layout mCommonInstancetypes (option string) :=
  as_struct m_URL (ptr (A := string) plain).
Definition TektonPipelines_layout : layout mTektonPipelines string := as_struct m_tp_Namespace plain.
Definition TektonTasks_layout : layout mTektonTasks string := as_struct m_tt_Namespace plain.

Definition FeatureGates_layout : layout mFeatureGates V1beta2.FeatureGates :=
  as_value (fun '(t, (p, i)) => V1beta2.mkFeatureGates t p i)
    (as_struct (fun g => (m_DeployTektonTaskResources g, (m_DeployVmConsoleProxy g,
        m_DeployCommonInstancetypes g)))
       (both plain (both plain (ptr (A := bool) plain)))).

Definition SSPSpec2_layout : layout mSSPSpec2 V1beta2.SSPSpec :=
  as_value (fun '(v, (t, (s, (g, (i, (p, (k, f))))))) => V1beta2.mkSSPSpec2 v t s g i p k f)
    (as_struct (fun s => (m2_TemplateValidator s, (m2_CommonTemplates s, (m2_TLSSecurityProfile s,
        (m2_TokenGenerationService s, (m2_CommonInstancetypes s, (m2_TektonPipelines s,
           (m2_TektonTasks s, m2_FeatureGates s))))))))
       (both (ptr TemplateValidator_layout) (both CommonTemplates_layout (both (ptr TLSSecurityProfile_layout)
         (both (ptr (A := TokenGenerationService) plain) (both (ptr CommonInstancetypes_layout)
           (both (ptr TektonPipelines_layout) (both (ptr TektonTasks_layout) (ptr FeatureGates_layout))))))))).

Definition SSP2_layout : layout mSSP2 V1beta2.SSP :=
  as_value (fun '(t, (m, (s, st))) => V1beta2.mkSSP2 t m s st)
    (as_struct (fun s => (m2_TypeMeta s, (m2_ObjectMeta s, (m2_Spec s, m2_SSPStatus s))))
       (both plain (both ObjectMeta_layout (both SSPSpec2_layout SSPStatus_layout)))).

Definition SSPList2_layout : layout mSSPList2 (TypeMeta * (ListMeta * list V1beta2.SSP)) :=
  as_struct (fun l => (m2_list_TypeMeta l, (m2_ListMeta l, m2_Items l)))
    (both plain (both ListMeta_layout (slice SSP2_layout))).

(** ** Every function copies *)

Context {OK : ForeignCopies}.

Create HintDb copies.
#[local] Hint Resolve copies_plain copies_both copies_ptr copies_slice : copies.
#[local] Hint Resolve ObjectMeta_copies DataImportCronSpec_copies TLSSecurityProfile_copies
  Status_copies ListMeta_copies : copies.

(** Two programs that run the same copies of parts in the same order. *)
Ltac same_steps :=
  intros; unfold copy_both; cbn [fst snd]; unfold mbind, M_bind, mret, M_ret;
  repeat match goal with |- context [match ?m ?h with _ => _ end] => destruct (m h) as [[]] end;
  try reflexivity.

(** A struct is copied by copies of its fields, in order, and [make] puts them together. *)
Ltac copies_fields make :=
  try apply copies_as_value;
  eapply (copies_as_struct _ make);
  [..|solve [eauto 20 with copies]]; [by intros; repeat case_match; simplify_eq|same_steps].

Lemma Placement_copies : copies (ptr NodePlacement_layout) (fun p =>
  match p with Some l => NodePlacement_DeepCopy (Some l) | None => mret None end).
Proof.
  intros h [l|] b Hv; [by apply NodePlacement_copies|].
  injection Hv as <-. exists h, None. by split_and!.
Qed.
#[local] Hint Resolve Placement_copies : copies.

Lemma TemplateValidator_copies : copies TemplateValidator_layout TemplateValidator_DeepCopyInto.
Proof. unfold TemplateValidator_DeepCopyInto. copies_fields (fun '(r, p) => mkMTemplateValidator r p). Qed.

Lemma DataImportCronTemplate_copies :
  copies DataImportCronTemplate_layout DataImportCronTemplate_DeepCopyInto.
Proof.
  unfold DataImportCronTemplate_DeepCopyInto. copies_fields (fun '(m, s) => mkMDataImportCronTemplate m s).
Qed.
#[local] Hint Resolve TemplateValidator_copies DataImportCronTemplate_copies : copies.

Lemma CommonTemplates_copies : copies CommonTemplates_layout CommonTemplates_DeepCopyInto.
Proof. unfold CommonTemplates_DeepCopyInto. copies_fields (fun '(n, l) => mkMCommonTemplates n l). Qed.

Lemma Cluster_copies : copies Cluster_layout Cluster_DeepCopyInto.
Proof. unfold Cluster_DeepCopyInto. copies_fields (fun '(w, c) => mkMCluster w c). Qed.
#[local] Hint Resolve CommonTemplates_copies Cluster_copies : copies.

Lemma SSPSpec_copies : copies SSPSpec_layout SSPSpec_DeepCopyInto.
Proof.
  unfold SSPSpec_DeepCopyInto.
  copies_fields (fun '(m, (v, (c, (t, (s, g))))) => mkMSSPSpec m v c t s g).
Qed.

Lemma SSPStatus_copies : copies SSPStatus_layout SSPStatus_DeepCopyInto.
Proof. unfold SSPStatus_DeepCopyInto. copies_fields (fun '(s, (p, g)) => mkMSSPStatus s p g). Qed.
#[local] Hint Resolve SSPSpec_copies SSPStatus_copies : copies.

Lemma SSP_copies : copies SSP_layout SSP_DeepCopyInto.
Proof. unfold SSP_DeepCopyInto. copies_fields (fun '(t, (m, (s, st))) => mkMSSP t m s st). Qed.
#[local] Hint Resolve SSP_copies : copies.

Lemma SSPList_copies : copies SSPList_layout SSPList_DeepCopyInto.
Proof. unfold SSPList_DeepCopyInto. copies_fields (fun '(t, (m, l)) => mkMSSPList t m l). Qed.

Lemma CommonInstancetypes_copies : copies CommonInstancetypes_layout CommonInstancetypes_DeepCopyInto.
Proof. unfold CommonInstancetypes_DeepCopyInto. copies_fields mkMCommonInstancetypes. Qed.

Lemma TektonPipelines_copies : copies TektonPipelines_layout TektonPipelines_DeepCopyInto.
Proof. intros h [n] b [= <-]. exists h, (mkMTektonPipelines n). by split_and!. Qed.

Lemma TektonTasks_copies : copies TektonTasks_layout TektonTasks_DeepCopyInto.
Proof. intros h [n] b [= <-]. exists h, (mkMTektonTasks n). by split_and!. Qed.

Lemma FeatureGates_copies : copies FeatureGates_layout FeatureGates_DeepCopyInto.
Proof. unfold FeatureGates_DeepCopyInto. copies_fields (fun '(t, (p, i)) => mkMFeatureGates t p i). Qed.
#[local] Hint Resolve CommonInstancetypes_copies FeatureGates_copies : copies.

Lemma SSPSpec2_copies : copies SSPSpec2_layout SSPSpec2_DeepCopyInto.
Proof.
  unfold SSPSpec2_DeepCopyInto.
  assert (copies TektonPipelines_layout mret) by exact TektonPipelines_copies.
  assert (copies TektonTasks_layout mret) by exact TektonTasks_copies.
  copies_fields (fun '(v, (t, (s, (g, (i, (p, (k, f))))))) => mkMSSPSpec2 v t s g i p k f).
Qed.
#[local] Hint Resolve SSPSpec2_copies : copies.

Lemma SSP2_copies : copies SSP2_layout SSP2_DeepCopyInto.
Proof. unfold SSP2_DeepCopyInto. copies_fields (fun '(t, (m, (s, st))) => mkMSSP2 t m s st). Qed.
#[local] Hint Resolve SSP2_copies : copies.

Lemma SSPList2_copies : copies SSPList2_layout SSPList2_DeepCopyInto.
Proof. unfold SSPList2_DeepCopyInto. copies_fields (fun '(t, (m, l)) => mkMSSPList2 t m l). Qed.

(** ** Copies of resources *)

(** A resource that is read through a pointer. *)
Definition SSP_at : Heap -> option nat -> option (option V1beta3.SSP) := view (ptr SSP_layout).

(** The copy behind an interface value is a new object that reads as the same
    value, with everything it points to, and is independent of the original. *)
Definition copies_object {A B} `{!@Stored Cell A} (t : runtime_type) (L : layout A B)
    (copyObject : option nat -> M Heap runtime_Object) : Prop :=
  forall h p b, view (ptr L) h p = Some (Some b) ->
    exists h' q, copyObject p h = (Ok (Some (t, Some q)), h') /\
      view (ptr L) h' (Some q) = Some (Some b) /\
      independent (ptr L) h h' p (Some q) (Some b).

Lemma object_copies {A B} `{!@Stored Cell A} t (L : layout A B) f :
  copies L f -> copies_object t L (fun p => c ← copy_ptr f p; mret (as_Object t c)).
Proof.
  intros Hf h p b Hp. destruct (copy_independent _ _ h p _ (copies_ptr L f Hf) Hp)
    as (h' & [q|] & E & Hv & Hi); [|done].
  exists h', q. split; [|done]. exact (bind_returns _ _ _ _ _ E).
Qed.

(** C40: The copy of an SSP that [runtime.Object] promises: changing the copy, or
    allocating memory, leaves the original as it was, and changing the original
    leaves the copy. *)
Theorem SSP_copy_independent h p ssp :
  SSP_at h p = Some (Some ssp) ->
  exists h' q, SSP_DeepCopyObject p h = (Ok (Some (TSSP, Some q)), h') /\
    SSP_at h' (Some q) = Some (Some ssp) /\
    independent (ptr SSP_layout) h h' p (Some q) (Some ssp).
Proof. exact (object_copies TSSP _ _ SSP_copies h p ssp). Qed.

Lemma other_objects_copied :
  copies_object TSSPList SSPList_layout SSPList_DeepCopyObject /\
  copies_object TSSP2 SSP2_layout SSP2_DeepCopyObject /\
  copies_object TSSPList2 SSPList2_layout SSPList2_DeepCopyObject.
Proof.
  split_and!.
  - exact (object_copies TSSPList _ _ SSPList_copies).
  - exact (object_copies TSSP2 _ _ SSP2_copies).
  - exact (object_copies TSSPList2 _ _ SSPList2_copies).
Qed.

(** The object interface of the copy of a nil pointer is nil, not a pointer to nothing. *)
Lemma DeepCopyObject_nil h :
  SSP_DeepCopyObject None h = (Ok None, h) /\ SSPList_DeepCopyObject None h = (Ok None, h) /\
  SSP2_DeepCopyObject None h = (Ok None, h) /\ SSPList2_DeepCopyObject None h = (Ok None, h).
Proof. done. Qed.
End structs.

(** ** An example *)

Module Example.
#[local] Instance values : Foreign := {|
  mObjectMeta := ObjectMeta; mDataImportCronSpec := DataImportCronSpec;
  mNodePlacement := NodePlacement; mTLSSecurityProfile := TLSSecurityProfile;
  mStatus := Status; mListMeta := unit; OtherCell := Empty_set |}.
#[local] Instance value_copies : ForeignCopy := {|
  ObjectMeta_DeepCopyInto := mret; DataImportCronSpec_DeepCopyInto := mret;
  NodePlacement_DeepCopy := copy_ptr (A := mNodePlacement) mret;
  TLSSecurityProfile_DeepCopyInto := mret; Status_DeepCopyInto := mret;
  ListMeta_DeepCopyInto := mret |}.
#[local] Instance value_layouts : ForeignLayout := {|
  ListMeta := unit; ObjectMeta_layout := plain; DataImportCronSpec_layout := plain;
  NodePlacement_layout := plain; TLSSecurityProfile_layout := plain;
  Status_layout := plain; ListMeta_layout := plain |}.
#[local] Instance values_copied : ForeignCopies.
Proof. split; try apply copies_plain. by apply copies_ptr, copies_plain. Qed.

(** A resource with a cluster of one architecture, whose two slices share an array. *)
Definition cells : gmap nat Cell := {[
  0 := CSSP (mkMSSP (mkTypeMeta "SSP" "v1beta3") zeroMeta
         (mkMSSPSpec (Some 1%nat) None (Some 2%nat) (mkMCommonTemplates "kubevirt" None) None None)
         (mkMSSPStatus (mkStatus PhaseDeployed [] "" "" "") false 1));
  1 := CBool true;
  2 := CCluster (mkMCluster (Some 3%nat) (Some 3%nat));
  3 := CStrings ["amd64"] ]}%nat.
Definition resource : V1beta3.SSP :=
  mkSSP (mkTypeMeta "SSP" "v1beta3") zeroMeta
    (mkSSPSpec (Some true) None (Some (mkCluster ["amd64"] ["amd64"])) (mkCommonTemplates "kubevirt" []) None None)
    (mkSSPStatus PhaseDeployed [] "" "" "" false 1).

Lemma SSP_copy_independent_witness :
  exists h' q, SSP_DeepCopyObject (Some 0%nat) cells = (Ok (Some (TSSP, Some q)), h') /\
    SSP_at h' (Some q) = Some (Some resource) /\
    independent (ptr SSP_layout) cells h' (Some 0%nat) (Some q) (Some resource).
Proof. apply (SSP_copy_independent cells (Some 0%nat) resource). vm_compute. reflexivity. Defined.

(** Five new cells: the array that both slices share is copied for each. *)
Example copied_cells : size (SSP_DeepCopyObject (Some 0%nat) cells).2 = 9%nat.
Proof. vm_compute. reflexivity. Qed.
End Example.
End DeepCopy.
