(* ===== verification/Convergence.v ===== *)
(** * The operator comes to rest

    The controller of [SspController] on a cluster without other writers, with
    operands that settle ([Settling]): a number of rounds that depends on the
    operands brings the objects of all of them into the cluster, and every later
    round only reads, writes the status of the SSP once, and thereby causes no
    event that the controller reacts to. *)

From S2P Require Import Prelude GoRuntime KubeTypes SspTypes Architecture KubeClient Cluster Common Samples Resource ResourceProofs SspController StaticOperands Settling Watches.

(** ** Several operands *)

Section operands.
Context `{QuietSSP W}.
Implicit Types (op : Operand W) (s : OpSt W).

(** The operands of a controller, as one that reconciles them in order. *)
Definition all_operands (ops : list (Operand W)) : Operand W :=
  mkOperand "" [] []
    (fun req => results ← mapM (fun o => operand_Reconcile o req) ops; mret (concat results))
    (fun req => results ← mapM (fun o => operand_Cleanup o req) ops; mret (concat results)).

Lemma all_operands_cons op ops req s rs1 s1 rs2 s2 :
  operand_Reconcile op req s = (Ok rs1, s1) ->
  operand_Reconcile (all_operands ops) req s1 = (Ok rs2, s2) ->
  operand_Reconcile (all_operands (op :: ops)) req s = (Ok (rs1 ++ rs2), s2).
Proof.
  intros E1 E2. apply bind_returned in E2 as (rss & s' & E2 & [= <- <-]). cbn.
  rewrite (bind_returns _ _ _ (rs1 :: rss) s'); [done|].
  refine (eq_trans (bind_returns _ _ _ _ _ E1) _). exact (bind_returns _ _ _ _ _ E2).
Qed.

#[export, refine] Instance settling_nil : Settling (all_operands []) := {|
  region _ _ := False; startable _ _ := True; work := 0; phase _ _ _ := True |}.
Proof.
  - done.
  - done.
  - done.
  - done.
  - intros n req s _. exists [], s. split_and!; [done|done|done|].
    intros _. split; [apply only_reads_refl|constructor].
Defined.

(** Two operands with different objects do not disturb each other. *)
#[export, refine] Instance settling_cons op ops `{S1 : !Settling op} `{S2 : !Settling (all_operands ops)} :
    Settling (all_operands (op :: ops)) := {|
  region req p := region (op := op) req p \/ region (op := all_operands ops) req p;
  startable req s := startable (op := op) req s /\ startable (op := all_operands ops) req s /\
    forall p, region (op := op) req p -> ~ region (op := all_operands ops) req p;
  work := work (op := op) `max` work (op := all_operands ops);
  phase n req s := phase (op := op) n req s /\ phase (op := all_operands ops) n req s /\
    forall p, region (op := op) req p -> ~ region (op := all_operands ops) req p |}.
Proof.
  - intros req s s' Hs (A1 & A2 & Hd). split_and!; [| |done];
      (eapply startable_same; [|eassumption]); by auto.
  - intros req s (A1 & A2 & Hd). split_and!; [| |done].
    + apply (phase_le (work (op := op))); [lia|]. by apply phase_start.
    + apply (phase_le (work (op := all_operands ops))); [lia|]. by apply phase_start.
  - intros n req s (A1 & A2 & Hd). split_and!; [by apply phase_mono..|done].
  - intros n req s s' Ha (T1 & T2 & Hd). split_and!; [| |done];
      (eapply phase_agree; [|eassumption]); by auto.
  - intros n req s (T1 & T2 & Hd).
    destruct (phase_round n req s T1) as (rs1 & s1 & E1 & T1' & F1 & Q1).
    destruct (phase_round (op := all_operands ops) n req s1) as (rs2 & s2 & E2 & T2' & F2 & Q2).
    { refine (phase_agree _ _ s s1 _ T2). intros p Hp. eapply frame_others; [exact F1|].
      intros Hp'. by apply (Hd p). }
    exists (rs1 ++ rs2), s2. split_and!.
    + by eapply all_operands_cons.
    + refine (phase_agree _ _ s1 s2 _ T1'). intros p Hp. eapply frame_others; [exact F2|by apply Hd].
    + done.
    + done.
    + eapply frame_trans; (eapply frame_mono; [|eassumption]); by auto.
    + intros Hn. destruct (Q1 Hn), (Q2 Hn). split; [by eapply only_reads_trans|by apply Forall_app].
Defined.
End operands.

(** ** Rounds of the controller *)

Section controller.
Context `{QuietSSP W} `{Process}.
Context (c : SspController.sspController W) (key : ObjectKey).
Context `{!Settling (all_operands (SspController.operands c))}.
Implicit Types (i : SSP) (s : OpSt W).
Import SspController.
#[local] Arguments isPaused : simpl never.
#[local] Arguments Finalizers.ContainsFinalizer : simpl never.

Definition request_of i (changed : bool) : Request :=
  mkRequest key i changed (topologyMode c) (crdList c) (olmDeployment c) (sspServiceHostname c).

(** An SSP that is to be deployed: it went through its first round, has only the
    current finalizer, and is neither deleted nor paused. The server counts
    generations from one. *)
Record deployable i : Prop := {
  dep_initialized : st_Phase (ssp_status i) <> PhaseEmpty;
  dep_finalizer : Finalizers.ContainsFinalizer (ssp_meta i) oldFinalizerName = false;
  dep_alive : DeletionTimestamp (ssp_meta i) = None;
  dep_running : isPaused (ssp_meta i) = false;
  dep_generation : Generation (ssp_meta i) <> 0%Z
}.

(** Two states of an SSP that differ in its status and version. *)
Definition same_ssp i i' : Prop :=
  unversioned (ssp_meta i') = unversioned (ssp_meta i) /\ ssp_type i' = ssp_type i /\
  ssp_spec i' = ssp_spec i.

Lemma same_ssp_norm i i' b b' : same_ssp i i' -> norm (request_of i' b') = norm (request_of i b).
Proof. intros (Hm & Ht & Hs). unfold norm, request_of. cbn. by rewrite Hm, Ht, Hs. Qed.

Lemma same_ssp_trans i i' i'' : same_ssp i i' -> same_ssp i' i'' -> same_ssp i i''.
Proof. intros (? & ? & ?) (? & ? & ?). split_and!; congruence. Qed.

Lemma unversioned_eq m m' : unversioned m' = unversioned m ->
  Name m' = Name m /\ Namespace m' = Namespace m /\ Finalizers m' = Finalizers m /\
  Annotations m' = Annotations m /\ KubeTypes.Labels m' = KubeTypes.Labels m /\
  DeletionTimestamp m' = DeletionTimestamp m /\ Generation m' = Generation m.
Proof. unfold unversioned, with_server. intros [= ]. done. Qed.

Lemma same_ssp_key i i' : same_ssp i i' -> ssp_key i' = ssp_key i.
Proof. intros (Hm & _). apply unversioned_eq in Hm as (? & ? & _). unfold ssp_key. congruence. Qed.

Lemma same_ssp_deployable i i' :
  same_ssp i i' -> st_Phase (ssp_status i') <> PhaseEmpty -> deployable i -> deployable i'.
Proof.
  intros (Hm & _ & _) Hp [_ D2 D3 D4 D5]. apply unversioned_eq in Hm as (_ & _ & Hf & Ha & _ & Hd & Hg).
  split; [done|..].
  - unfold Finalizers.ContainsFinalizer in *. by rewrite Hf.
  - congruence.
  - unfold isPaused in *. by rewrite Ha.
  - congruence.
Qed.

(** The watch of the SSP does not react to the difference. *)
Lemma same_ssp_unnoticed i i' :
  same_ssp i i' -> Predicates.watchSspResource (UpdateEvent i i') = false.
Proof.
  intros (Hm & _ & Hs). apply unversioned_eq in Hm as (_ & _ & Hf & Ha & Hl & Hd & _).
  apply not_true_is_false. rewrite WatchesProofs.watchSspResource_update.
  unfold WatchesProofs.relevant_change. cbn. rewrite Hl, Ha, Hd, Hf, Hs. naive_solver.
Qed.

(** Writing the status of the stored SSP. *)
Lemma statusUpdate_stored i st s :
  stored_ssp (op_world s) (ssp_key i) = Some i ->
  exists i' s', statusUpdate (with_ssp_status i st) s = (Ok (i', None), s') /\
    same_ssp i i' /\ ssp_status i' = st /\ stored_ssp (op_world s') (ssp_key i) = Some i' /\
    (forall p, agree p s s') /\ op_lastSspSpec s' = op_lastSspSpec s /\
    op_trace s' = op_trace s ++ [CStatusUpdateSSP (with_ssp_status i st)].
Proof.
  intros Hi. destruct (quiet_ssp_status (op_world s) (with_ssp_status i st) i Hi eq_refl)
    as (i' & w' & E & Hm & Ht & Hs & Hst & Hi' & Ho).
  exists i', (with_world s w' (CStatusUpdateSSP (with_ssp_status i st))).
  unfold statusUpdate, StatusUpdateSSP, call. run_monad. rewrite E. by split_and!.
Qed.

Lemma reportedStatus_fields now i rs :
  st_Phase (reportedStatus now i rs) <> PhaseEmpty /\
  st_ObservedGeneration (reportedStatus now i rs) = Generation (ssp_meta i).
Proof. unfold reportedStatus. by destruct (_ && _ && _). Qed.

(** The end of a round, after the operands. *)
Lemma report_stored req i s rs s1 :
  Instance req = i -> reconcileOperands c req s = (Ok rs, s1) ->
  stored_ssp (op_world s1) (ssp_key i) = Some i ->
  exists i' st s', reconcileAndReport c req s = (Ok (mkResult false), s') /\
    same_ssp i i' /\ st_Phase (ssp_status i') <> PhaseEmpty /\
    st_ObservedGeneration (ssp_status i') = Generation (ssp_meta i') /\
    stored_ssp (op_world s') (ssp_key i) = Some i' /\ (forall p, agree p s1 s') /\
    op_lastSspSpec s' = op_lastSspSpec s1 /\
    op_trace s' = op_trace s1 ++ [CStatusUpdateSSP (with_ssp_status i st)].
Proof.
  intros Hreq Hrs Hi.
  set (st := reportedStatus (cl_Now (op_world s1)) i rs).
  destruct (statusUpdate_stored i st s1 Hi) as (i' & s' & E & Hs & Hst & Hi' & Ha & Hl & Ht).
  exists i', st, (with_reconcileSucceeded s' (bool_decide (st_Phase (ssp_status i') = PhaseDeployed))).
  pose proof (proj1 (reportedStatus_fields (cl_Now (op_world s1)) i rs)) as Hp.
  pose proof (proj2 (reportedStatus_fields (cl_Now (op_world s1)) i rs)) as Hg.
  destruct (unversioned_eq _ _ (proj1 Hs)) as (_ & _ & _ & _ & _ & _ & Hgen).
  split_and!; try done; rewrite ?Hst, ?Hgen; try done.
  unfold reconcileAndReport, try. unfold mbind at 1, M_bind at 1. rewrite Hrs.
  unfold updateStatus. rewrite Hreq. run_monad. fold st. rewrite E. cbn. by rewrite Hst.
Qed.

(** The SSP is deployed as it is specified, and the operands have [n] rounds of
    work left; none in a state of rest. *)
Definition steady (n : nat) s : Prop := exists i,
  stored_ssp (op_world s) key = Some i /\ deployable i /\
  phase (op := all_operands (operands c)) n (norm (request_of i false)) s /\
  op_lastSspSpec s = ssp_spec i /\
  st_ObservedGeneration (ssp_status i) = Generation (ssp_meta i).

Hypothesis crds : areCrdsMissing c = false.

(** The state after the SSP was read and its spec compared with the last one. *)
Definition fetched i s : bool * OpSt W :=
  let s1 := with_world s (op_world s) (CGetSSP key) in
  if bool_decide (op_lastSspSpec s <> ssp_spec i)
  then (true, with_lastSspSpec (with_cache s1 ∅) (ssp_spec i)) else (false, s1).

Lemma fetched_spec i s :
  let s0 := (fetched i s).2 in
  op_world s0 = op_world s /\ op_trace s0 = op_trace s ++ [CGetSSP key] /\
  op_lastSspSpec s0 = ssp_spec i /\ (op_lastSspSpec s = ssp_spec i -> op_cache s0 = op_cache s).
Proof. unfold fetched. case_bool_decide as E; cbn; split_and!; try done; by apply dec_stable. Qed.

(** The part of [Reconcile] that deploys. *)
Definition deploy i (changed : bool) : Op W Result :=
  if bool_decide (st_ObservedGeneration (ssp_status i) = 0%Z) ||
     bool_decide (st_ObservedGeneration (ssp_status i) <> Generation (ssp_meta i))
  then '(i', err) ← preUpdateStatus i;
       match err with
       | Some err => handleError i' err
       | None => reconcileAndReport c (with_instance (request_of i changed) i')
       end
  else reconcileAndReport c (request_of i changed).

Lemma Reconcile_deployable i s r s' :
  stored_ssp (op_world s) key = Some i -> deployable i ->
  deploy i (fetched i s).1 (fetched i s).2 = (Ok r, s') -> Reconcile c key s = (Ok r, s').
Proof.
  intros Hi [D1 D2 D3 D4 D5] Hd.
  assert (reconcileInstance c key i (with_world s (op_world s) (CGetSSP key)) = (Ok r, s')) as E.
  { unfold reconcileInstance, isInitialized, isBeingDeleted, updateSsp.
    rewrite D2, D3, (bool_decide_true (st_Phase _ <> _)) by done. unfold clearCacheIfNeeded.
    unfold fetched in Hd. run_monad. case_bool_decide; cbn; rewrite D3, D4, crds; exact Hd. }
  unfold Reconcile, deferred, try, GetSSP, call. unfold mbind at 1, M_bind at 1.
  rewrite (quiet_ssp_get_some _ _ _ Hi). by rewrite E.
Qed.

Lemma preUpdateStatus_writes i s :
  exists st, preUpdateStatus i s = statusUpdate (with_ssp_status i st) s.
Proof. eexists. reflexivity. Qed.

(** The status that announces the work is written when the spec is new. *)
Lemma deploy_announces i changed s :
  stored_ssp (op_world s) (ssp_key i) = Some i ->
  exists i0 s0, deploy i changed s = reconcileAndReport c (request_of i0 changed) s0 /\
    same_ssp i i0 /\ stored_ssp (op_world s0) (ssp_key i) = Some i0 /\
    (forall p, agree p s s0) /\ op_lastSspSpec s0 = op_lastSspSpec s /\
    (Generation (ssp_meta i) <> 0%Z ->
     st_ObservedGeneration (ssp_status i) = Generation (ssp_meta i) -> i0 = i /\ s0 = s).
Proof.
  intros Hi. unfold deploy. destruct (_ || _) eqn:Eg.
  - destruct (preUpdateStatus_writes i s) as [st Est].
    destruct (statusUpdate_stored i st s Hi) as (i0 & s0 & E & Hs & _ & Hi0 & Ha & Hl & _).
    exists i0, s0. split_and!; try done.
    + rewrite <- Est in E. exact (bind_returns _ _ _ _ _ E).
    + apply orb_true_iff in Eg. rewrite !bool_decide_eq_true in Eg. intuition congruence.
  - exists i, s. by split_and!.
Qed.

(** A round that deploys, given what the operands do. *)
Lemma round_reports i s :
  stored_ssp (op_world s) key = Some i -> deployable i ->
  exists i0 s0, same_ssp i i0 /\ (forall p, agree p (fetched i s).2 s0) /\
    (st_ObservedGeneration (ssp_status i) = Generation (ssp_meta i) -> i0 = i /\ s0 = (fetched i s).2) /\
    forall n rs s1, reconcileOperands c (request_of i0 (fetched i s).1) s0 = (Ok rs, s1) ->
      (forall k, stored_ssp (op_world s1) k = stored_ssp (op_world s0) k) ->
      op_lastSspSpec s1 = op_lastSspSpec s0 ->
      phase (op := all_operands (operands c)) n (norm (request_of i false)) s1 ->
      exists i2 st s2, Reconcile c key s = (Ok (mkResult false), s2) /\ steady n s2 /\
        stored_ssp (op_world s2) key = Some i2 /\ same_ssp i i2 /\ (forall p, agree p s1 s2) /\
        op_trace s2 = op_trace s1 ++ [CStatusUpdateSSP (with_ssp_status i0 st)].
Proof.
  intros Hi Hd. pose proof (stored_ssp_key _ _ _ Hi) as Hkey.
  destruct (fetched_spec i s) as (Hw & _ & Hspec & _).
  assert (stored_ssp (op_world (fetched i s).2) (ssp_key i) = Some i) as Hi' by by rewrite Hw, Hkey.
  destruct (deploy_announces i (fetched i s).1 _ Hi') as (i0 & s0 & E & Hs & Hi0 & Ha & Hl & Hn).
  exists i0, s0. split_and!; [done|done|intros; by apply Hn; [apply Hd|]|].
  intros n rs s1 Hrs Hssp Hlast Hset. rewrite <- (same_ssp_key _ _ Hs) in Hi0.
  destruct (report_stored (request_of i0 (fetched i s).1) i0 s0 rs s1 eq_refl Hrs)
    as (i2 & st & s2 & E2 & Hs2 & Hp2 & Hg2 & Hi2 & Ha2 & Hl2 & Ht2); [by rewrite Hssp|].
  pose proof (same_ssp_trans _ _ _ Hs Hs2) as Hs'.
  rewrite (same_ssp_key _ _ Hs), Hkey in Hi2.
  exists i2, st, s2. split_and!; try done.
  - apply (Reconcile_deployable i); [done..|]. by rewrite E.
  - exists i2. split_and!; try done.
    + by eapply same_ssp_deployable.
    + rewrite (same_ssp_norm i i2 false false Hs'). by eapply phase_agree.
    + rewrite Hl2, Hlast, Hl, Hspec. by destruct Hs' as (_ & _ & ->).
Qed.

(** When the operator can deploy an SSP. *)
Record ready i s : Prop := {
  ready_ssp : stored_ssp (op_world s) key = Some i;
  ready_deployable : deployable i;
  ready_operands : startable (op := all_operands (operands c)) (norm (request_of i false)) s
}.

Lemma first_round i s :
  ready i s -> exists s1, Reconcile c key s = (Ok (mkResult false), s1) /\
    steady (pred (work (op := all_operands (operands c)))) s1.
Proof.
  intros [Hi Hd Hr]. destruct (round_reports i s Hi Hd) as (i0 & s0 & Hs & Hag & _ & Hround).
  pose proof (same_ssp_norm i i0 false (fetched i s).1 Hs) as Hn.
  destruct (phase_round (op := all_operands (operands c)) (work (op := all_operands (operands c)))
    (request_of i0 (fetched i s).1) s0) as (rs & s1 & E & T & F & _); rewrite Hn in *.
  { apply phase_start. eapply startable_same; [|exact Hr]. intros p _. unfold same_stored.
    rewrite (proj1 (Hag p)). by destruct (fetched_spec i s) as (-> & _). }
  destruct F as (_ & Fs & Fl).
  destruct (Hround _ rs s1 E Fs Fl T) as (i2 & st & s2 & E2 & St & _). by exists s2.
Qed.

(** What a round at rest does: it reads, writes the status of the SSP once, and
    neither that write nor anything else is an event for the controller. *)
Definition resting_round s s' : Prop :=
  (forall k okey, stored (op_world s') k okey = stored (op_world s) k okey) /\
  (exists reads i st, op_trace s' = op_trace s ++ reads ++ [CStatusUpdateSSP (with_ssp_status i st)] /\
     Forall (fun call => is_read call = true) reads) /\
  (exists i i', stored_ssp (op_world s) key = Some i /\ stored_ssp (op_world s') key = Some i' /\
     Predicates.watchSspResource (UpdateEvent i i') = false).

Lemma steady_round n s :
  steady n s -> exists s', Reconcile c key s = (Ok (mkResult false), s') /\ steady (pred n) s' /\
    (n = 0 -> resting_round s s').
Proof.
  intros (i & Hi & Hd & Hset & Hlast & Hg).
  destruct (round_reports i s Hi Hd) as (i0 & s0 & Hs & Hag & Hsame & Hround).
  destruct (Hsame Hg) as [-> ->]. clear Hsame.
  destruct (fetched_spec i s) as (Hw & Ht & _ & Hc). specialize (Hc Hlast).
  destruct (phase_round (op := all_operands (operands c)) n (request_of i (fetched i s).1) (fetched i s).2)
    as (rs & s1 & E & T & F & Hquiet).
  { rewrite (same_ssp_norm i i false _ Hs). refine (phase_agree _ _ s _ _ Hset).
    intros p _. split; [by rewrite Hw|by rewrite Hc]. }
  rewrite (same_ssp_norm i i false _ Hs) in T. destruct F as (_ & Fs & Fl).
  destruct (Hround _ rs s1 E Fs Fl T) as (i2 & st & s2 & E2 & St & Hi2 & Hs2 & Ha2 & Ht2).
  exists s2. split_and!; [done|done|]. intros Hn. destruct (Hquiet Hn) as [[Hw1 (t & Ht1 & Hread)] _].
  split_and!.
  - intros k okey. pose proof (proj1 (Ha2 (k, okey))) as E3. cbn in E3. rewrite E3. by rewrite Hw1, Hw.
  - exists (CGetSSP key :: t), i, st. rewrite Ht2, Ht1, Ht, <- !app_assoc. split; [done|].
    by constructor.
  - exists i, i2. split_and!; [done..|]. by apply same_ssp_unnoticed.
Qed.

(** The state after [n] more rounds. *)
Definition rounds (n : nat) s : OpSt W := Nat.iter n (fun s => (Reconcile c key s).2) s.

Lemma rounds_S n s : rounds (S n) s = (Reconcile c key (rounds n s)).2.
Proof. done. Qed.

Lemma steady_rounds n s m : steady n s -> steady (n - m) (rounds m s).
Proof.
  intros Hs. induction m as [|m IH]; [by rewrite Nat.sub_0_r|].
  destruct (steady_round _ _ IH) as (s' & E & Hs' & _).
  rewrite rounds_S, E. by replace (n - S m) with (pred (n - m)) by lia.
Qed.

(** The number of rounds that do something: at least the first writes the status. *)
Definition busy_rounds : nat := S (pred (work (op := all_operands (operands c)))).

(** On a cluster without other writers the operator comes to rest: every round
    of an SSP that can be deployed returns without an error, whatever part of the
    operands' objects was there before; and each round after the first ones (a
    number that only depends on the operands) leaves all objects of the cluster
    as they are, makes one write, to the status of the SSP, and this write does
    not start a round. *)
Theorem comes_to_rest i s :
  ready i s ->
  forall n, exists s', Reconcile c key (rounds n s) = (Ok (mkResult false), s') /\
    (busy_rounds <= n -> resting_round (rounds n s) s').
Proof.
  intros Hr n. destruct (first_round i s Hr) as (s1 & E & Hs).
  destruct n as [|n]; [exists s1; split; [done|]; unfold busy_rounds; lia|].
  assert (rounds (S n) s = rounds n s1) as ->.
  { unfold rounds. by rewrite Nat.iter_succ_r, E. }
  destruct (steady_round _ _ (steady_rounds _ s1 n Hs)) as (s' & E' & _ & Hrest).
  exists s'. split; [done|]. intros Hn. apply Hrest. unfold busy_rounds in Hn. lia.
Qed.
End controller.
