(* ===== verification/Deletion.v ===== *)
(** * Deletion of an SSP comes to an end

    On a cluster without other writers, in which nothing else holds back the
    objects of the operands, the SSP is gone after a fixed number of rounds, and
    with it every object that the cleanup of the operands is responsible for.
    Cleanup only ever takes objects away, so that what one operand achieved is
    kept by the others. *)

From S2P Require Import Prelude GoRuntime KubeTypes SspTypes Architecture KubeClient Cluster Common Samples Resource ResourceProofs CleanupProofs SspController StaticOperands Settling Convergence.

Section quiet.
Context `{QuietSSP W} `{!PromptClient W}.
Implicit Types (s : OpSt W) (o e : Object).

(** ** Objects that are there *)

Definition has s o : Prop := stored (op_world s) (o_kind o) (ObjectKeyFromObject o) = Some o.

Lemma stored_has s k key o :
  stored (op_world s) k key = Some o -> has s o /\ place o = (k, key).
Proof. intros Ho. destruct (stored_wf _ _ _ _ Ho) as (<- & <- & _). done. Qed.

(** Objects may have gone, none has come or changed. *)
Definition fewer s s' : Prop := forall o, has s' o -> has s o.

(** And the SSPs are the same. *)
Definition shrinks s s' : Prop :=
  fewer s s' /\
  (forall key, stored_ssp (op_world s') key = stored_ssp (op_world s) key).

#[export] Instance shrinks_preorder : PreOrder shrinks.
Proof.
  split; [intros s; split; [by intros o|done]|]. intros s1 s2 s3 [A1 S1] [A2 S2].
  split; [intros o Ho; by apply A1, A2|]. intros. by rewrite S2.
Qed.

(** Only objects with [P] have gone. *)
Definition takes (P : Object -> Prop) s s' : Prop :=
  shrinks s s' /\ (forall o, has s o -> ~ P o -> has s' o) /\
  op_cache s' = op_cache s /\ op_lastSspSpec s' = op_lastSspSpec s.

Lemma takes_read P s c : takes P s (with_world s (op_world s) c).
Proof. split_and!; [split; [by intros o|done]|by intros o|done|done]. Qed.

Lemma takes_refl P s : takes P s s.
Proof. by split_and!. Qed.

Lemma takes_trans P Q s1 s2 s3 : takes P s1 s2 -> takes Q s2 s3 -> takes (fun o => P o \/ Q o) s1 s3.
Proof.
  intros (A1 & B1 & C1 & D1) (A2 & B2 & C2 & D2). split_and!; [by transitivity s2| |congruence..].
  intros o Ho Hn. apply B2; [apply B1|]; tauto.
Qed.

Lemma takes_mono (P Q : Object -> Prop) s s' :
  (forall o, has s o -> P o -> Q o) -> takes P s s' -> takes Q s s'.
Proof. intros HPQ (A & B & C & D). split_and!; [done| |done..]. intros o Ho Hn. apply B; auto. Qed.

Lemma takes_frame (P : Object -> Prop) (F : Place -> Prop) s s' :
  takes P s s' -> (forall o, has s o -> P o -> F (place o)) -> frame F s s'.
Proof.
  intros ([A S] & B & C & D) HF. split_and!; [|done|done]. intros p Hp. split; [|by rewrite C].
  destruct (stored (op_world s) p.1 p.2) as [o|] eqn:E.
  - destruct (stored_has _ _ _ _ E) as [Ho Hpl]. destruct p as [k key]. injection Hpl as <- <-.
    apply B; [done|]. intros HPo. by apply Hp, HF.
  - destruct (stored (op_world s') p.1 p.2) as [o|] eqn:E'; [|done].
    destruct (stored_has _ _ _ _ E') as [Ho%A Hpl]. destruct p as [k key]. injection Hpl as <- <-.
    unfold has in Ho. cbn in E. congruence.
Qed.

Lemma fewer_same s s' :
  (forall k key, stored (op_world s') k key = stored (op_world s) k key) -> fewer s s'.
Proof. intros Hst o. unfold has. by rewrite Hst. Qed.

(** An object without finalizers can be taken away. *)
Lemma Delete_gone s o :
  has s o -> Finalizers (o_meta o) = [] ->
  exists w', cl_Delete (o_kind o) (ObjectKeyFromObject o) (op_world s) = (inr tt, w') /\
    stored w' (o_kind o) (ObjectKeyFromObject o) = None /\
    forall c, frame (eq (place o)) s (with_world s w' c).
Proof.
  intros Ho Hf. destruct (quiet_delete _ _ _ _ Ho) as (w' & HD & _ & Hrest). exists w'. split_and!; [done| |].
  - by eapply prompt_delete.
  - intros c. apply frame_call; [|intros; by eapply delete_keeps_ssp]. intros [k key] Hq. by apply Hrest.
Qed.

(** ** Ownership *)

(** Nothing holds back the object, and the test for ownership can be made: an
    object outside the namespace of the SSP has no owner references. *)
Record removable (req : Request) o : Prop := {
  rm_alive : DeletionTimestamp (o_meta o) = None;
  rm_free : Finalizers (o_meta o) = [];
  rm_refs : OwnerReferences (o_meta o) = [] \/
            Namespace (o_meta o) = Namespace (ssp_meta (Instance req))
}.

Lemma removable_norm req o : removable (norm req) o <-> removable req o.
Proof. by split; intros [? ? ?]; split. Qed.

Definition unowned (req : Request) o : Prop :=
  ~ refers_to (Instance req) (o_meta o) /\ ~ annotated_for (Instance req) (o_meta o).

Lemma isResourceOwned_decides req e o :
  valid_owner (Instance req) -> place o = place e -> removable req o ->
  exists b e', isResourceOwned req e o = Ok (b, e') /\ (b = false -> unowned req o) /\
    (unowned req o -> b = false).
Proof.
  intros Hv [= _ Hns _] [_ _ Hr].
  destruct (decide (Namespace (o_meta e) = Namespace (ssp_meta (Instance req)))) as [E|E].
  - destruct (isResourceOwned_spec req e o Hv E) as (b & e' & -> & _ & Hb). exists b, e'.
    unfold unowned. destruct b; naive_solver.
  - destruct Hr as [Hr|Hr]; [|congruence]. unfold isResourceOwned. rewrite (bool_decide_false (Namespace _ = _)) by done.
    destruct (SetOwnerAnnotations_valid (Instance req) (o_meta e) Hv) as (m' & Hm & _ & Ht & Hn & _).
    cbn. rewrite Hm. cbn. rewrite Hr. cbn. eexists _, _. split; [done|]. rewrite Ht, Hn.
    unfold unowned, refers_to. rewrite Hr, <- annotated_for_dec, not_true_iff_false.
    split; [|tauto]. intros E0. split; [apply not_elem_of_nil|exact E0].
Qed.

(** ** Cleanup *)

(** What is at the places of the objects [es]. *)
Definition at_places (es : list Object) o : Prop := place o ∈ place <$> es.

Lemma Cleanup_clears req e s :
  valid_owner (Instance req) -> (forall o, has s o -> place o = place e -> removable req o) ->
  exists cr s', Cleanup req e s = (Ok cr, s') /\ takes (fun o => place o = place e) s s' /\
    (forall o, has s' o -> place o = place e -> unowned req o) /\
    ((forall o, has s o -> place o = place e -> unowned req o) -> Deleted cr = true /\ only_reads s s').
Proof.
  intros Hv Hr. unfold Cleanup, Get, call. run_monad.
  assert (only_reads s (with_world s (op_world s) (CGet (o_kind e) (ObjectKeyFromObject e)))) as Hread.
  { split; [done|]. by exists [CGet (o_kind e) (ObjectKeyFromObject e)]; split; [|repeat constructor]. }
  destruct (stored (op_world s) (o_kind e) (ObjectKeyFromObject e)) as [o|] eqn:Ho.
  - destruct (stored_has _ _ _ _ Ho) as [Hs Hp]. change (place o = place e) in Hp.
    specialize (Hr o Hs Hp) as Hro.
    rewrite (quiet_get_some _ _ _ _ Ho). cbn.
    destruct (isResourceOwned_decides req e o Hv Hp Hro) as (b & e' & -> & Hb1 & Hb2). destruct b; cbn.
    + rewrite bool_decide_true by apply Hro. unfold Delete, call. cbn.
      change (mkKey (Namespace (o_meta o)) (Name (o_meta o))) with (ObjectKeyFromObject o).
      destruct (quiet_delete _ _ _ _ Hs) as (w' & HD & _ & Hrest). rewrite HD. cbn.
      pose proof (prompt_delete _ _ _ _ _ Hs (rm_free _ _ Hro) HD) as Hgone.
      assert (forall o', place o' = place e -> stored w' (o_kind o') (ObjectKeyFromObject o') = None) as Hno.
      { rewrite <- Hp. intros o' [= E1 E2 E3]. unfold ObjectKeyFromObject in *. by rewrite E1, E2, E3. }
      assert (forall o', place o' <> place e -> stored w' (o_kind o') (ObjectKeyFromObject o') =
        stored (op_world s) (o_kind o') (ObjectKeyFromObject o')) as Hsame.
      { rewrite <- Hp. intros o' E. by apply Hrest. }
      eexists _, _. split; [done|]. unfold takes. split_and!.
      * split; [|intros; by eapply delete_keeps_ssp]. intros o' Ho'. unfold has in *. cbn in Ho'.
        destruct (decide (place o' = place e)) as [E|E]; [by rewrite Hno in Ho'|].
        by rewrite Hsame in Ho'.
      * intros o' Ho' Hn. unfold has. cbn. by rewrite Hsame.
      * done.
      * done.
      * intros o' Ho' E. unfold has in Ho'. cbn in Ho'. by rewrite Hno in Ho'.
      * intros Hun. by specialize (Hb2 (Hun o Hs Hp)).
    + eexists _, _. split; [done|]. split; [apply takes_read|]. split; [|done].
      intros o' Ho' E. injection E as E1 E2 E3. unfold has, ObjectKeyFromObject in Ho'. cbn in Ho'.
      rewrite E1, E2, E3 in Ho'. unfold ObjectKeyFromObject in Ho. rewrite Ho in Ho'. injection Ho' as <-. auto.
  - destruct (quiet_get_none _ _ _ Ho) as (err & -> & He). cbn. rewrite He. cbn.
    eexists _, _. split; [done|]. split; [apply takes_read|]. split; [|done].
    intros o' Ho' [= E1 E2 E3]. unfold has, ObjectKeyFromObject in Ho'. cbn in Ho'.
    rewrite E1, E2, E3 in Ho'. unfold ObjectKeyFromObject in Ho. congruence.
Qed.

Definition all_deleted (rs : list CleanupResult) : bool := forallb Deleted rs.

(** A part of a cleanup: it takes away the objects with [P] that belong to the SSP,
    and says so once there are none. *)
Definition cleaner (req : Request) (P : Object -> Prop) (m : Op W (list CleanupResult)) : Prop := forall s,
  (forall o, has s o -> P o -> removable req o) ->
  exists rs s', m s = (Ok rs, s') /\ takes P s s' /\
    (forall o, has s' o -> P o -> unowned req o) /\
    ((forall o, has s o -> P o -> unowned req o) -> all_deleted rs = true /\ only_reads s s').

Lemma cleaner_app req P1 P2 m1 m2 :
  cleaner req P1 m1 -> cleaner req P2 m2 ->
  cleaner req (fun o => P1 o \/ P2 o) (rs1 ← m1; rs2 ← m2; mret (rs1 ++ rs2)).
Proof.
  intros M1 M2 s Hr. destruct (M1 s) as (rs1 & s1 & E1 & S1 & U1 & D1); [by auto|].
  destruct (M2 s1) as (rs2 & s2 & E2 & S2 & U2 & D2); [intros o Ho%S1; by auto|].
  exists (rs1 ++ rs2), s2. split_and!.
  - refine (eq_trans (bind_returns _ _ _ _ _ E1) _). exact (bind_returns _ _ _ _ _ E2).
  - by eapply takes_trans.
  - intros o Ho [Hp|Hp]; [|by auto]. apply U1; [|done]. by apply S2.
  - intros Hun. destruct D1 as [D1 R1]; [by auto|]. destruct D2 as [D2 R2]; [intros o Ho%S1; by auto|].
    unfold all_deleted in *. rewrite forallb_app, D1, D2. split; [done|by eapply only_reads_trans].
Qed.

(** The same with another description of the objects, or another program. *)
Lemma cleaner_iff req (P Q : Object -> Prop) m m' :
  (forall o, P o <-> Q o) -> (forall s, m s = m' s) -> cleaner req P m -> cleaner req Q m'.
Proof.
  intros HPQ Hm Hc s Hr. destruct (Hc s) as (rs & s' & E & T & U & D).
  { intros o Ho Hp. apply Hr; [done|by apply HPQ]. }
  exists rs, s'. rewrite <- Hm. split_and!; [done| | |].
  - eapply takes_mono; [|exact T]. intros o _. apply HPQ.
  - intros o Ho Hq. apply U; [done|by apply HPQ].
  - intros Hun. apply D. intros o Ho Hp. apply Hun; [done|by apply HPQ].
Qed.

Lemma Cleanup_cleaner req e :
  valid_owner (Instance req) ->
  cleaner req (fun o => place o = place e) (cr ← Cleanup req e; mret [cr]).
Proof.
  intros Hv s Hr. destruct (Cleanup_clears req e s Hv Hr) as (cr & s1 & E1 & S1 & U1 & D1).
  exists [cr], s1. split_and!; [exact (bind_returns _ _ _ _ _ E1)|apply S1..|done|].
  intros Hun. destruct (D1 Hun) as [Hd ?]. split; [|done]. cbn. by rewrite Hd.
Qed.

Lemma DeleteAll_cleaner req es :
  valid_owner (Instance req) -> cleaner req (at_places es) (DeleteAll req es).
Proof.
  intros Hv. induction es as [|e es IH].
  { intros s _. exists [], s. split; [done|]. split; [apply takes_refl|].
    split; [by intros o _ ?%not_elem_of_nil|]. intros _. split; [done|apply only_reads_refl]. }
  eapply cleaner_iff; [| |exact (cleaner_app req _ _ _ _ (Cleanup_cleaner req e Hv) IH)].
  - intros o. unfold at_places. by rewrite fmap_cons, elem_of_cons.
  - intros s.
    change (DeleteAll req (e :: es)) with (cr ← Cleanup req e; crs ← DeleteAll req es; mret (cr :: crs)).
    unfold mbind, M_bind. by destruct (Cleanup req e s) as [[] s2].
Qed.

(** *** Cleanup of what the server lists *)

Definition lists (P : Object -> Prop) (m : Op W (list Object)) : Prop := forall s,
  exists os s', m s = (Ok os, s') /\ op_cache s' = op_cache s /\
    op_lastSspSpec s' = op_lastSspSpec s /\ only_reads s s' /\ forall o, o ∈ os <-> has s o /\ P o.

Lemma lists_app P1 P2 m1 m2 :
  lists P1 m1 -> lists P2 m2 ->
  lists (fun o => P1 o \/ P2 o) (os1 ← m1; os2 ← m2; mret (os1 ++ os2)).
Proof.
  intros M1 M2 s. destruct (M1 s) as (os1 & s1 & E1 & C1 & L1 & R1 & O1).
  destruct (M2 s1) as (os2 & s2 & E2 & C2 & L2 & R2 & O2). exists (os1 ++ os2), s2. split_and!.
  - refine (eq_trans (bind_returns _ _ _ _ _ E1) _). exact (bind_returns _ _ _ _ _ E2).
  - congruence.
  - congruence.
  - by eapply only_reads_trans.
  - intros o. rewrite elem_of_app, O1, O2. unfold has. rewrite (proj1 R1). tauto.
Qed.

Lemma listed_places s P os o :
  (forall e, e ∈ os <-> has s e /\ P e) -> has s o -> (at_places os o <-> P o).
Proof.
  intros Hos Ho. unfold at_places. rewrite list_elem_of_fmap. split.
  - intros (e & Hp & [He HP]%Hos). injection Hp as E1 E2 E3. unfold has, ObjectKeyFromObject in *.
    rewrite E1, E2, E3, He in Ho. by injection Ho as ->.
  - intros HP. exists o. split; [done|]. by apply Hos.
Qed.

(** The listed objects, and what is at some fixed places. *)
Lemma listed_cleaner req P m es :
  valid_owner (Instance req) -> lists P m ->
  cleaner req (fun o => P o \/ at_places es o) (os ← m; DeleteAll req (os ++ es)).
Proof.
  intros Hv Hm s Hr. destruct (Hm s) as (os & s1 & E & Hc & Hl & [Hw Ht] & Hos).
  assert (fewer s s1 /\ fewer s1 s) as [F1 F2] by (split; apply fewer_same; by rewrite Hw).
  assert (forall o, has s o -> (at_places (os ++ es) o <-> P o \/ at_places es o)) as Hat.
  { intros o Ho. unfold at_places. rewrite fmap_app, elem_of_app.
    by setoid_rewrite (listed_places s P os o Hos Ho). }
  destruct (DeleteAll_cleaner req (os ++ es) Hv s1) as (rs & s2 & E2 & T & U & D).
  { intros o Ho%F1 Hp. apply Hr; [done|]. by apply Hat. }
  assert (takes (at_places (os ++ es)) s s1) as T1 by (split_and!; [split; [done|by rewrite Hw]|auto|done|done]).
  exists rs, s2. split_and!.
  - exact (eq_trans (bind_returns _ _ _ _ _ E) E2).
  - eapply takes_mono; [|exact (takes_trans _ _ _ _ _ T1 T)]. intros o Ho. rewrite <- Hat by done. tauto.
  - intros o Ho Hp. apply U; [done|]. apply Hat; [|done]. by apply F1, T.
  - intros Hun. destruct D as [Hd Hr2].
    { intros o Ho%F1 Hp. apply Hun; [done|]. by apply Hat. }
    split; [done|]. by eapply only_reads_trans.
Qed.

(** The objects with [P] can be taken away, and when [n] is zero there are none
    that belong to the SSP. *)
Definition swept (P : Object -> Prop) (n : nat) (req : Request) s : Prop :=
  forall o, has s o -> P o -> removable req o /\ (n = 0 -> unowned req o).

Lemma swept_mono P n req s : swept P n req s -> swept P (S n) req s.
Proof. intros Hs o Ho Hp. by split; [apply Hs|]. Qed.

Lemma swept_fewer P n req s s' : fewer s s' -> swept P n req s -> swept P n req s'.
Proof. intros Hf Hs o Ho Hp. apply Hs; [by apply Hf|done]. Qed.

Lemma swept_norm P n req s : swept P n (norm req) s <-> swept P n req s.
Proof. unfold swept. by setoid_rewrite removable_norm. Qed.

(** What is swept is decided where the objects are. *)
Lemma swept_same (P : Object -> Prop) (F : Place -> Prop) n req s s' :
  (forall o, P o -> F (place o)) -> (forall p, F p -> same_stored p s s') ->
  swept P n req s -> swept P n req s'.
Proof.
  intros HP HF Hs o Ho Hp. apply Hs; [|done]. unfold has in *. rewrite <- Ho. symmetry.
  exact (HF (place o) (HP o Hp)).
Qed.

Lemma swept_round req P m n s :
  cleaner req P m -> swept P n req s ->
  exists rs s', m s = (Ok rs, s') /\ takes P s s' /\ (forall k, swept P k req s') /\
    (n = 0 -> all_deleted rs = true /\ only_reads s s').
Proof.
  intros Hc Hs. destruct (Hc s) as (rs & s' & E & T & U & D); [intros o Ho Hp; by apply Hs|].
  exists rs, s'. split_and!; [done|done| |].
  - intros k o Ho Hp. split; [|by auto]. apply Hs; [by apply T|done].
  - intros ->. apply D. intros o Ho Hp. by apply Hs.
Qed.

(** ** Operands *)

(** What the controller needs of an operand to get rid of its objects. *)
Class Clearing (op : Operand W) := {
  (** the objects that the cleanup of the operand looks at *)
  cleans : Request -> Object -> Prop;
  (** how many rounds until they are gone *)
  delay : nat;
  (** the state that is reached when so many rounds are left *)
  stage : nat -> Request -> OpSt W -> Prop;
  stage_start : forall req s,
    (forall o, has s o -> cleans req o -> removable req o) -> stage delay req s;
  stage_mono : forall n req s, stage n req s -> stage (S n) req s;
  stage_fewer : forall n req s s', fewer s s' -> stage n req s -> stage n req s';
  stage_end : forall req s o,
    stage 0 req s -> has s o -> cleans req o -> ~ annotated_for (Instance req) (o_meta o);
  clears : forall n req s, valid_owner (Instance req) -> stage n (norm req) s ->
    exists rs s', operand_Cleanup op req s = (Ok rs, s') /\ shrinks s s' /\
      stage (pred n) (norm req) s' /\
      (all_deleted rs = true -> stage 0 (norm req) s') /\
      (n = 0 -> all_deleted rs = true)
}.

Lemma stage_le `{!Clearing op} n m req s : n <= m -> stage n req s -> stage m req s.
Proof. induction 1; [done|]. intros. apply stage_mono. auto. Qed.

(** *** Operands that are done after one round *)

Section one_round.
Context (op : Operand W) (looks_at : Request -> Object -> Prop).
Hypothesis looks_norm : forall req o, looks_at (norm req) o <-> looks_at req o.
Hypothesis cleanup : forall req,
  valid_owner (Instance req) -> cleaner req (looks_at req) (operand_Cleanup op req).

Definition one_round_clearing : Clearing op.
Proof.
  refine {| cleans := looks_at; delay := 1; stage n req s := swept (looks_at req) n req s |}.
  - intros req s Hr o Ho Hl. by split; [auto|].
  - intros n req s. apply swept_mono.
  - intros n req s s'. apply swept_fewer.
  - intros req s o Hst Ho Hl. destruct (Hst o Ho Hl) as [_ [_ Hk]]; auto.
  - intros n req s Hv Hst.
    assert (forall k s', swept (looks_at (norm req)) k (norm req) s' <-> swept (looks_at req) k req s') as Hn.
    { intros k s'. rewrite swept_norm. unfold swept. by setoid_rewrite looks_norm. }
    setoid_rewrite Hn. rewrite Hn in Hst.
    destruct (swept_round _ _ _ n s (cleanup req Hv) Hst) as (rs & s' & E & (S' & _) & K & D).
    exists rs, s'. split_and!; [done|done|by auto|by auto|]. intros Hz. by apply D.
Defined.
End one_round.

(** A fixed list of objects. *)
Section static.
Context (cleaned : Request -> list Object).
Hypothesis stable : forall req, cleaned (norm req) = cleaned req.

Definition static_clearing (op : Operand W) :
  (forall req, operand_Cleanup op req = DeleteAll req (cleaned req)) -> Clearing op.
Proof.
  intros Hop. apply (one_round_clearing op (fun req => at_places (cleaned req))).
  - intros req o. by rewrite stable.
  - intros req Hv. rewrite Hop. by apply DeleteAll_cleaner.
Defined.
End static.

(** *** Several operands *)

Lemma all_cleanup_cons op ops req s rs1 s1 rs2 s2 :
  operand_Cleanup op req s = (Ok rs1, s1) ->
  operand_Cleanup (all_operands ops) req s1 = (Ok rs2, s2) ->
  operand_Cleanup (all_operands (op :: ops)) req s = (Ok (rs1 ++ rs2), s2).
Proof.
  intros E1 E2. apply bind_returned in E2 as (rss & s' & E2 & [= <- <-]). cbn.
  rewrite (bind_returns _ _ _ (rs1 :: rss) s'); [done|].
  refine (eq_trans (bind_returns _ _ _ _ _ E1) _). exact (bind_returns _ _ _ _ _ E2).
Qed.

#[export, refine] Instance clearing_nil : Clearing (all_operands []) := {|
  cleans _ _ := False; delay := 0; stage _ _ _ := True |}.
Proof.
  - done.
  - done.
  - done.
  - done.
  - intros n req s _ _. exists [], s. by split_and!.
Defined.

#[export, refine] Instance clearing_cons op ops `{C1 : !Clearing op} `{C2 : !Clearing (all_operands ops)} :
    Clearing (all_operands (op :: ops)) := {|
  cleans req o := cleans (op := op) req o \/ cleans (op := all_operands ops) req o;
  delay := delay (op := op) `max` delay (op := all_operands ops);
  stage n req s := stage (op := op) n req s /\ stage (op := all_operands ops) n req s |}.
Proof.
  - intros req s Hr. split.
    + apply (stage_le (delay (op := op))); [lia|]. apply stage_start. auto.
    + apply (stage_le (delay (op := all_operands ops))); [lia|]. apply stage_start. auto.
  - intros n req s [? ?]. by split; apply stage_mono.
  - intros n req s s' Hs [? ?]. split; by eapply stage_fewer.
  - intros req s o [T1 T2] Ho [Hc|Hc]; [by eapply (stage_end (op := op))|].
    by eapply (stage_end (op := all_operands ops)).
  - intros n req s Hv [T1 T2].
    destruct (clears n req s Hv T1) as (rs1 & s1 & E1 & S1 & P1 & A1 & Z1).
    destruct (clears (op := all_operands ops) n req s1 Hv (stage_fewer _ _ _ _ (proj1 S1) T2))
      as (rs2 & s2 & E2 & S2 & P2 & A2 & Z2).
    assert (all_deleted (rs1 ++ rs2) = all_deleted rs1 && all_deleted rs2) as Happ
      by apply forallb_app.
    exists (rs1 ++ rs2), s2. split_and!.
    + by eapply all_cleanup_cons.
    + by transitivity s1.
    + by eapply stage_fewer; [apply S2|].
    + done.
    + rewrite Happ. intros [D1 D2]%andb_true_iff. split; [|by auto]. eapply stage_fewer; [apply S2|auto].
    + rewrite Happ. intros ->. by rewrite Z1, Z2.
Defined.
End quiet.

(** ** Rounds of the controller *)

Section controller.
Context `{QuietSSP W} `{!PromptClient W} `{Process}.
Context (c : SspController.sspController W) (key : ObjectKey).
Context `{!Clearing (all_operands (SspController.operands c))}.
Implicit Types (i : SSP) (s : OpSt W).
Import SspController.
#[local] Arguments isPaused : simpl never.
#[local] Arguments Finalizers.ContainsFinalizer : simpl never.

(** An SSP that was deleted and that only this operator holds back. *)
Record deleting i : Prop := {
  del_deleted : DeletionTimestamp (ssp_meta i) <> None;
  del_finalizer : Finalizers.ContainsFinalizer (ssp_meta i) finalizerName = true;
  del_old_finalizer : Finalizers.ContainsFinalizer (ssp_meta i) oldFinalizerName = false;
  del_last : Finalizers (ssp_meta (withoutFinalizers i)) = [];
  del_valid : valid_owner i
}.

Lemma same_ssp_deleting i i' : same_ssp i i' -> deleting i -> deleting i'.
Proof.
  intros (Hm & Ht & _) [D1 D2 D3 D4 [D5 D6]]. apply unversioned_eq in Hm as (Hn & _ & Hf & _ & _ & Hd & _).
  unfold Finalizers.ContainsFinalizer, withoutFinalizers, Finalizers.RemoveFinalizer in *. cbn in *.
  split; try (split; congruence); unfold Finalizers.ContainsFinalizer, withoutFinalizers,
    Finalizers.RemoveFinalizer; cbn; by rewrite ?Hd, ?Hf.
Qed.

(** The last step: the finalizer is removed and the SSP disappears. *)
Lemma finish i s :
  deleting i -> stored_ssp (op_world s) (ssp_key i) = Some i ->
  exists s', (i' ← UpdateSSP (withoutFinalizers i); finishDeletion i') s = (Ok (), s') /\
    stored_ssp (op_world s') (ssp_key i) = None /\
    forall k okey, stored (op_world s') k okey = stored (op_world s) k okey.
Proof.
  intros Hd Hi.
  destruct (quiet_ssp_update (op_world s) (withoutFinalizers i) i Hi eq_refl)
    as (i' & w' & E & Hkey & Hgone & Hst).
  rewrite (del_last i Hd), bool_decide_true in Hgone by done.
  rewrite bool_decide_true in Hgone by apply Hd. cbn in Hgone.
  change (ssp_key (withoutFinalizers i)) with (ssp_key i) in *. rewrite <- Hkey in Hgone.
  set (i2 := with_ssp_status i' (with_observed_generation
    (with_phase (ssp_status i') PhaseDeleted) (Generation (ssp_meta i')))).
  destruct (ssp_status_missing w' i2 Hgone) as (e & w2 & E2 & He & Hg2 & Hst2).
  eexists. split; [|split].
  - unfold UpdateSSP, finishDeletion, statusUpdate, StatusUpdateSSP, call. run_monad. rewrite E. cbn.
    fold i2. rewrite E2. cbn. rewrite He, orb_true_r. reflexivity.
  - cbn. rewrite <- Hkey. exact Hg2.
  - intros k okey. cbn. by rewrite Hst2, Hst.
Qed.

Lemma pendingCount_all rss :
  bool_decide (0 < pendingCount rss) = negb (all_deleted (concat rss)).
Proof.
  unfold pendingCount, all_deleted. induction (concat rss) as [|cr rs IH]; [done|].
  rewrite filter_cons. cbn [forallb]. destruct (Deleted cr) eqn:E; cbn [andb].
  - by rewrite decide_False.
  - rewrite decide_True by done. apply bool_decide_true. cbn. lia.
Qed.

(** [cleanup], given what the operands do. *)
Lemma cleanup_round req i s :
  Instance req = i -> deleting i -> stored_ssp (op_world s) (ssp_key i) = Some i ->
  exists i1 s1, same_ssp i i1 /\ (forall p, agree p s s1) /\
    stored_ssp (op_world s1) (ssp_key i) = Some i1 /\
    forall rs s2, operand_Cleanup (all_operands (operands c)) (with_instance req i1) s1 = (Ok rs, s2) ->
      (forall k, stored_ssp (op_world s2) k = stored_ssp (op_world s1) k) ->
      exists s3, cleanup c req s = (Ok (), s3) /\
        (forall k okey, stored (op_world s3) k okey = stored (op_world s2) k okey) /\
        stored_ssp (op_world s3) (ssp_key i) = if all_deleted rs then None else Some i1.
Proof.
  intros Hreq Hd Hi.
  set (st := set_conditions (cl_Now (op_world s)) (with_observed_generation
    (with_phase (ssp_status i) PhaseDeleting) (Generation (ssp_meta i))) (all_false "Deleting SSP resources")).
  destruct (statusUpdate_stored i st s Hi) as (i1 & s1 & E & Hs & _ & Hi1 & Ha & _ & _).
  exists i1, s1. split_and!; try done. intros rs s2 Hrs Hssp.
  apply bind_returned in Hrs as (rss & s2' & Hrs & [= <- <-]). cbn in Hssp.
  assert (cleanup c req s = (if bool_decide (0 < pendingCount rss) then mret ()
    else i' ← UpdateSSP (withoutFinalizers i1); finishDeletion i') s2') as ->.
  { unfold cleanup. rewrite Hreq, (del_finalizer i Hd). unfold Now. cbn [orb].
    unfold mbind at 1, M_bind at 1. cbv beta iota. fold st.
    rewrite (bind_returns _ _ _ _ _ E). cbv iota beta.
    unfold return_error. unfold mbind at 1, M_bind at 1, mret at 1, M_ret at 1.
    exact (bind_returns _ _ _ _ _ Hrs). }
  rewrite pendingCount_all. destruct (all_deleted (concat rss)); cbn [negb].
  - destruct (finish i1 s2') as (s3 & E3 & Hg & Hst).
    + by eapply same_ssp_deleting.
    + by rewrite Hssp, (same_ssp_key _ _ Hs).
    + exists s3. rewrite (same_ssp_key _ _ Hs) in Hg. by split_and!.
  - exists s2'. split_and!; [done|done|]. by rewrite Hssp.
Qed.

(** A round of an SSP that is being deleted. *)
Lemma Reconcile_cleanup i s s3 :
  stored_ssp (op_world s) key = Some i -> deleting i ->
  cleanup c (request_of c key i (fetched key i s).1) (fetched key i s).2 = (Ok (), s3) ->
  Reconcile c key s = (Ok (mkResult false), with_cache (with_lastSspSpec s3 zeroSpec) ∅).
Proof.
  intros Hi [D1 D2 D3 _ _] Hc.
  assert (reconcileInstance c key i (with_world s (op_world s) (CGetSSP key)) =
    (Ok (mkResult false), with_cache (with_lastSspSpec s3 zeroSpec) ∅)) as E.
  { unfold reconcileInstance, isInitialized, isBeingDeleted, updateSsp.
    rewrite D3, (bool_decide_true (DeletionTimestamp _ <> _)) by done. unfold clearCacheIfNeeded, clearCache.
    unfold fetched, request_of in Hc. run_monad.
    case_bool_decide; cbn; rewrite (bool_decide_true (DeletionTimestamp _ <> _)) by done;
      cbn in Hc |- *; by rewrite Hc. }
  unfold Reconcile, deferred, try, GetSSP, call. unfold mbind at 1, M_bind at 1.
  rewrite (quiet_ssp_get_some _ _ _ Hi). by rewrite E.
Qed.

(** The same, given what the operands do to the cluster. *)
Lemma deletion_round i s :
  stored_ssp (op_world s) key = Some i -> deleting i ->
  exists req s1, norm req = norm (request_of c key i false) /\ valid_owner (Instance req) /\
    fewer s s1 /\
    forall rs s2, operand_Cleanup (all_operands (operands c)) req s1 = (Ok rs, s2) ->
      (forall k, stored_ssp (op_world s2) k = stored_ssp (op_world s1) k) ->
      exists s3, Reconcile c key s = (Ok (mkResult false), s3) /\ fewer s2 s3 /\
        (if all_deleted rs then stored_ssp (op_world s3) key = None
         else exists i1, same_ssp i i1 /\ stored_ssp (op_world s3) key = Some i1).
Proof.
  intros Hi Hd. destruct (fetched_spec key i s) as (Hw & _).
  pose proof (stored_ssp_key _ _ _ Hi) as Hkey.
  destruct (cleanup_round (request_of c key i (fetched key i s).1) i (fetched key i s).2 eq_refl Hd)
    as (i1 & s1 & Hs & Ha & Hi1 & Hround); [by rewrite Hw, Hkey|].
  exists (request_of c key i1 (fetched key i s).1), s1. split_and!.
  - exact (same_ssp_norm c key i i1 false _ Hs).
  - apply (same_ssp_deleting i i1 Hs Hd).
  - apply fewer_same. intros k okey. rewrite <- Hw. apply (Ha (k, okey)).
  - intros rs s2 Hrs Hssp. destruct (Hround rs s2 Hrs Hssp) as (s3 & E & Hst & Hgone).
    eexists. split; [exact (Reconcile_cleanup i s s3 Hi Hd E)|]. split.
    + apply fewer_same. intros k okey. apply Hst.
    + cbn. rewrite Hkey in Hgone. destruct (all_deleted rs); [done|]. by exists i1.
Qed.

(** When nothing holds back the deletion. *)
Record deletable i s : Prop := {
  deletable_ssp : stored_ssp (op_world s) key = Some i;
  deletable_deleting : deleting i;
  deletable_removable : forall o, has s o ->
    cleans (op := all_operands (operands c)) (norm (request_of c key i false)) o ->
    removable (norm (request_of c key i false)) o
}.

Lemma gone_round s :
  stored_ssp (op_world s) key = None ->
  exists s', Reconcile c key s = (Ok (mkResult false), s') /\ op_world s' = op_world s.
Proof.
  intros Hi. destruct (quiet_ssp_get_none _ _ Hi) as (e & E & He).
  unfold Reconcile, deferred, try, GetSSP, call. run_monad. rewrite E. cbn. rewrite He. by eexists.
Qed.

(** The SSP is on its way with [n] rounds left, or gone. *)
Definition leaving (req : Request) (n : nat) s : Prop :=
  stage (op := all_operands (operands c)) 0 req s /\ stored_ssp (op_world s) key = None \/
  stage (op := all_operands (operands c)) n req s /\
  exists i, stored_ssp (op_world s) key = Some i /\ deleting i /\ norm (request_of c key i false) = req.

Lemma leaving_round req n s :
  leaving req n s ->
  exists s', Reconcile c key s = (Ok (mkResult false), s') /\ leaving req (pred n) s' /\
    (n = 0 -> stored_ssp (op_world s') key = None).
Proof.
  intros [[Hst Hi]|[Hst (i & Hi & Hd & Hn)]].
  { destruct (gone_round s Hi) as (s' & E & Hw). exists s'. split; [done|]. rewrite Hw.
    split; [|done]. left. rewrite Hw. split; [|done]. eapply stage_fewer; [|exact Hst].
    apply fewer_same. by rewrite Hw. }
  destruct (deletion_round i s Hi Hd) as (req1 & s1 & Hn1 & Hv & F1 & Hround). rewrite Hn in Hn1.
  destruct (clears (op := all_operands (operands c)) n req1 s1 Hv) as (rs & s2 & E & [F2 Ss] & P & A & Z);
    rewrite ?Hn1 in *; [by eapply stage_fewer|].
  destruct (Hround rs s2 E Ss) as (s3 & E3 & F3 & Hgone). exists s3. split; [done|].
  destruct (all_deleted rs).
  - split; [left|done]. split; [|done]. eapply stage_fewer; [exact F3|auto].
  - split; [|by intros ?%Z]. destruct Hgone as (i1 & Hs1 & Hi1). right.
    split; [by eapply stage_fewer|]. exists i1. split_and!; [done|by eapply same_ssp_deleting|].
    by rewrite <- Hn, (same_ssp_norm c key i i1 false false Hs1).
Qed.

Lemma leaving_rounds req n s :
  leaving req n s -> forall m, leaving req (n - m) (rounds c key m s).
Proof.
  intros Hl m. induction m as [|m IH]; [by rewrite Nat.sub_0_r|].
  destruct (leaving_round _ _ _ IH) as (s' & E & Hl' & _).
  change (rounds c key (S m) s) with ((Reconcile c key (rounds c key m s)).2). rewrite E.
  by replace (n - S m) with (pred (n - m)) by lia.
Qed.

(** Deletion completes. On a cluster without other writers, where only this
    operator holds back the SSP and nothing holds back the objects that the
    operands clean up, every round after the deletion of an SSP returns without
    an error; after a number of rounds that only depends on the operands (one
    more than their [delay]) the SSP is gone, and none of the objects that the
    operands clean up carries its owner annotations. *)
Theorem deletion_completes i s :
  deletable i s ->
  (forall m, exists s', Reconcile c key (rounds c key m s) = (Ok (mkResult false), s')) /\
  let s' := rounds c key (S (delay (op := all_operands (operands c)))) s in
  stored_ssp (op_world s') key = None /\
  forall o, has s' o -> cleans (op := all_operands (operands c)) (norm (request_of c key i false)) o ->
    ~ annotated_for i (o_meta o).
Proof.
  intros [Hi Hd Hr]. set (req := norm (request_of c key i false)) in *.
  assert (leaving req (delay (op := all_operands (operands c))) s) as Hl.
  { right. split; [by apply stage_start|]. by exists i. }
  pose proof (leaving_rounds _ _ _ Hl) as Hls. split.
  - intros m. destruct (leaving_round _ _ _ (Hls m)) as (s' & E & _). by exists s'.
  - set (d := delay (op := all_operands (operands c))) in *. specialize (Hls d).
    rewrite Nat.sub_diag in Hls. destruct (leaving_round _ _ _ Hls) as (s' & E & Hl' & Hgone).
    change (rounds c key (S d) s) with ((Reconcile c key (rounds c key d s)).2). rewrite E. cbn.
    split; [by apply Hgone|]. intros o Ho Hc.
    destruct Hl' as [[Hst _]|[Hst _]]; exact (stage_end _ _ _ Hst Ho Hc).
Qed.
End controller.
