(* ===== verification/OperandSettling.v ===== *)
(** * The operands with fixed objects settle

    [Settling] for the operands template-validator, metrics and
    vm-delete-protection. *)

From S2P Require Import Prelude GoRuntime KubeTypes SspTypes Architecture KubeClient Cluster Common Samples Resource ResourceProofs CleanupProofs SspController StaticOperands Settling Convergence Tls TemplateValidatorOperand VmDeleteProtection MetricsOperand.

(** ** Builders *)

(** A request for an SSP that the API server stores, under its own name. *)
Record proper_request (req : Request) : Prop := {
  pr_owner : valid_owner (Instance req);
  pr_namespace : Namespace (ssp_meta (Instance req)) = key_Namespace (NamespacedName req)
}.

(** An object of an operand before the builder sees it. *)
Definition plain_object (req : Request) (cluster : bool) (o : Object) : Prop :=
  OwnerReferences (o_meta o) = [] /\
  (cluster = false -> Namespace (o_meta o) = key_Namespace (NamespacedName req)).

Lemma prepared_exists r :
  proper_request (request r) -> plain_object (request r) (isClusterResource r) (resource r) ->
  exists res, prepared r = Ok res.
Proof.
  intros [Ho Hns] [Hrefs Hin]. unfold prepared, setOwner.
  assert (Namespace (o_meta (add_app_labels r)) = Namespace (o_meta (resource r)) /\
          OwnerReferences (o_meta (add_app_labels r)) = []) as [Hn Hr].
  { unfold add_app_labels. by destruct (appLabels r) as [[]|]. }
  destruct (isClusterResource r).
  - destruct (SetOwnerAnnotations_valid (Instance (request r))
      (with_owners (o_meta (add_app_labels r)) []) Ho) as (m & -> & _). by eexists.
  - specialize (Hin eq_refl). set (m := with_annotations _ _).
    assert (with_owners m [] = m) as Hm.
    { unfold m, with_owners, with_annotations. cbn. by rewrite Hr. }
    rewrite <- Hm, SetControllerReference_fresh by (cbn; congruence). by eexists.
Qed.

Lemma settling_intro r :
  proper_request (request r) -> plain_object (request r) (isClusterResource r) (resource r) ->
  keeps_meta (updateFunc r) -> Proper ((≡) ==> (=)) (statusFunc r) ->
  (forall e o, o_kind e = o_kind (resource r) -> o_kind o = o_kind e -> exists q, updateFunc r e o = Ok q) ->
  (forall o, o_kind o = o_kind (resource r) -> replicas_set o -> exists st, statusFunc r o = Ok st) ->
  exists res, settling r res.
Proof.
  intros Hreq Ho Hk HP Hu Hs. destruct (prepared_exists r Hreq Ho) as [res Hp].
  destruct (prepared_keeps r res Hp) as (Hkind & _). exists res. split; try done.
  - by apply keeps_meta_restores.
  - intros o Hok _. by apply Hu.
  - intros o Hok. apply Hs. congruence.
Qed.

Lemma defaultUpdateFunc_total e o :
  default_kind (o_kind e) = true -> o_kind o = o_kind e -> exists q, defaultUpdateFunc e o = Ok q.
Proof.
  unfold o_kind, defaultUpdateFunc. intros He Ho. destruct (o_body e), (o_body o); try done; by eexists.
Qed.

Lemma defaultStatusFunc_total o : replicas_set o -> exists st, defaultStatusFunc o = Ok st.
Proof.
  unfold replicas_set, defaultStatusFunc. destruct (o_body o); intros Hr; try by eexists.
  - case_bool_decide; by eexists.
  - destruct (dep_Replicas _); [by eexists|done].
Qed.

(** A builder with the default functions. *)
Lemma default_settles req cluster o name component :
  proper_request req -> plain_object req cluster o -> default_kind (o_kind o) = true ->
  exists res, settling (WithAppLabels (CreateOrUpdate req cluster o) name component) res.
Proof.
  intros Hreq Ho Hk. apply settling_intro; try done; cbn.
  - apply defaultUpdateFunc_keeps_meta.
  - apply defaultStatusFunc_proper.
  - intros e o' He. apply defaultUpdateFunc_total. by rewrite He.
  - intros o' _. apply defaultStatusFunc_total.
Qed.

(** Lists of builders. *)
Lemma settling_list_intro req (fs : list BuilderFunc) rs :
  Forall2 (fun f r => f req = Ok r) fs rs ->
  Forall (fun r => (request r = req /\ plain_builder r) /\ exists res, settling r res) rs ->
  NoDup ((fun r => place (resource r)) <$> rs) ->
  exists ress, settling_list req fs rs ress.
Proof.
  intros Hf Hs Hn.
  assert (exists ress, Forall2 (fun r res => settling r res /\ plain_builder r) rs ress /\ place <$> ress = (fun r => place (resource r)) <$> rs)
    as (ress & Hss & Hp).
  { clear Hf Hn. induction Hs as [|r rs [[_ Hpl] [res Hr]] _ IH]; [by exists []|].
    destruct IH as (ress & H1 & H2). exists (res :: ress). split; [by constructor|].
    cbn. f_equal; [|exact H2]. destruct (prepared_keeps _ _ (settling_prepared _ _ Hr)) as (Hk & Hkey & _).
    unfold place. by rewrite Hk, Hkey. }
  exists ress. split; [done| |done|by rewrite Hp].
  eapply Forall_impl; [exact Hs|]. by intros r [[? _] _].
Qed.

(** The same from each builder function on its own. *)
Definition builds (req : Request) (f : BuilderFunc) : Prop :=
  exists r, f req = Ok r /\ (request r = req /\ plain_builder r) /\ exists res, settling r res.

Lemma settling_list_exists (funcs : Request -> list BuilderFunc) req :
  Forall (builds req) (funcs req) -> NoDup (static_places funcs req) ->
  exists rs ress, settling_list req (funcs req) rs ress.
Proof.
  intros Hb Hn.
  assert (exists rs, Forall2 (fun (f : BuilderFunc) r => f req = Ok r) (funcs req) rs /\
    Forall (fun r => (request r = req /\ plain_builder r) /\ exists res, settling r res) rs /\
    static_places funcs req = (fun r => place (resource r)) <$> rs) as (rs & Hf & Hs & Hp).
  { unfold static_places. clear Hn. induction Hb as [|f fs (r & Hr & Hrr) _ IH]; [by exists []|].
    destruct IH as (rs & H1 & H2 & H3). exists (r :: rs). split_and!; [by constructor..|].
    cbn. rewrite Hr. cbn. f_equal. exact H3. }
  exists rs. apply settling_list_intro; [done|done|]. by rewrite <- Hp.
Qed.

(** The places of a list of builders differ in kind or name. *)
Ltac distinct_places :=
  cbn; repeat (apply NoDup_cons_2; [rewrite ?not_elem_of_cons; split_and?; first [apply not_elem_of_nil|discriminate|by intros [=]]|]);
  apply NoDup_nil_2.

(** Whatever a builder function makes of a normal request, it makes of the request. *)
Lemma stable_default (name : string) (component : Labels.AppComponent) cluster (o : Request -> Object) req :
  o (norm req) = o req ->
  forall r, Ok (WithAppLabels (CreateOrUpdate (norm req) cluster (o (norm req))) name component) = Ok r ->
    Ok (WithAppLabels (CreateOrUpdate req cluster (o req)) name component) = Ok (with_request r req).
Proof. intros Ho r [= <-]. by rewrite Ho. Qed.

(** ** VM delete protection *)

Module VmDeleteProtectionSettling.
Import VmDeleteProtection.

#[export] Instance statusVAP_proper : Proper ((≡) ==> (=)) statusVAP.
Proof.
  intros a b Hab. pose proof (o_body_proper _ _ Hab) as Hb. unfold equiv, Body_equiv in Hb.
  unfold statusVAP. destruct (o_body a), (o_body b); cbn in Hb; by simplify_eq.
Qed.

Lemma protection_stable : stable_funcs funcs.
Proof. intros req. split; [done|]. by repeat constructor; intros r [= <-]. Qed.

Lemma protection_runs req : proper_request req -> exists rs ress, settling_list req (funcs req) rs ress.
Proof.
  intros Hreq. eexists. apply settling_list_intro.
  - repeat constructor.
  - repeat apply Forall_cons_2; [..|apply Forall_nil_2]; split; try done; apply settling_intro; try done; cbn.
    + apply updateVAP_keeps_meta.
    + apply statusVAP_proper.
    + intros e o. unfold o_kind, updateVAP.
      destruct (o_body e), (o_body o); try done; by eexists.
    + intros o. unfold o_kind, statusVAP. destruct (o_body o); try done. intros _ _.
      repeat case_match; by eexists.
    + apply updateVAPB_keeps_meta.
    + apply defaultStatusFunc_proper.
    + intros e o. unfold o_kind, updateVAPB.
      destruct (o_body e), (o_body o); try done; by eexists.
    + intros o _. apply defaultStatusFunc_total.
  - distinct_places.
Qed.

#[export] Instance vmDeleteProtection_settling `{QuietSSP W} : Settling (operand (W := W)) :=
  static_settling funcs protection_stable proper_request protection_runs operand (fun _ => eq_refl).
End VmDeleteProtectionSettling.

(** ** Metrics *)

Module MetricsSettling.
Import MetricsOperand.

Section settling.
Context `{RuleRegistry}.

Definition can_run (req : Request) : Prop :=
  proper_request req /\ exists spec, registered_rules = Ok spec.

Lemma metrics_stable : stable_funcs funcs.
Proof.
  intros req. split; [done|]. repeat apply Forall_cons_2; [..|apply Forall_nil_2]; try by intros r [= <-].
  unfold reconcilePrometheusRule, BuildPrometheusRule. intros r.
  destruct registered_rules; [|done..]. by intros [= <-].
Qed.

Lemma metrics_runs req : can_run req -> exists rs ress, settling_list req (funcs req) rs ress.
Proof.
  intros [Hreq [spec Hspec]]. eexists. apply settling_list_intro.
  - repeat apply Forall2_cons_2; [..|apply Forall2_nil_2]; try reflexivity.
    unfold reconcilePrometheusRule, BuildPrometheusRule. rewrite Hspec. reflexivity.
  - repeat apply Forall_cons_2; [..|apply Forall_nil_2]; (split; [done|]); by apply default_settles.
  - distinct_places.
Qed.
End settling.

#[export] Instance metrics_settling `{RuleRegistry} `{QuietSSP W} : Settling (operand (W := W)) :=
  static_settling funcs metrics_stable can_run metrics_runs operand (fun _ => eq_refl).
End MetricsSettling.

(** ** Template validator *)

Module TemplateValidatorSettling.
Import TemplateValidatorOperand.

Section settling.
Context `{Process} `{R : Tls.TlsRuntime Tls.SSPTLSOptions}.

Definition can_run (req : Request) : Prop :=
  proper_request req /\ getTemplateValidatorImage <> "" /\
  exists options, Tls.NewSSPTLSOptions (spec_TLSSecurityProfile (ssp_spec (Instance req))) = Ok options.

Lemma stable_policies req :
  Forall (fun f : BuilderFunc => forall r, f (norm req) = Ok r -> f req = Ok (with_request r req))
    (reconcileNetworkPolicies req).
Proof. apply Forall_fmap, Forall_forall. by intros p _ r [= <-]. Qed.

Lemma validator_stable : stable_funcs funcs.
Proof.
  intros req. split; [done|]. unfold funcs. apply Forall_app. split; [|apply Forall_app; split].
  - repeat apply Forall_cons_2; [..|apply Forall_nil_2]; try by intros r [= <-].
    + unfold reconcileConfigMap. cbn. intros r.
      destruct (Tls.NewSSPTLSOptions _); [|done..]. by intros [= <-].
    + unfold reconcileDeployment. intros r. case_bool_decide; [done|]. by intros [= <-].
  - destruct (negb _); [|apply Forall_nil_2]. apply Forall_singleton. by intros r [= <-].
  - exact (stable_policies req).
Qed.

(** The builders of the list, for a request with these TLS options. *)
Definition labelled (r : reconcileBuilder) : reconcileBuilder := WithAppLabels r operandName operandComponent.

Definition builders (req : Request) (tls : Tls.SSPTLSOptions) : list reconcileBuilder :=
  [ labelled (ClusterResource req newClusterRole);
    labelled (NamespacedResource req (newServiceAccount (ns req)));
    labelled (ClusterResource req (newClusterRoleBinding (ns req)));
    labelled (NamespacedResource req (newService (ns req)));
    labelled (NamespacedResource req (newPrometheusService (ns req)));
    labelled (NamespacedResource req (newConfigMap (ns req) (Tls.json_Marshal tls)));
    labelled (NamespacedResource req (desiredDeployment req));
    UpdateFunc (labelled (ClusterResource req (newValidatingWebhook (ns req)))) updateWebhook ] ++
  (if negb (IsSingleReplicaTopologyMode req)
   then [UpdateFunc (labelled (NamespacedResource req (newPodDisruptionBudget (ns req)))) updatePodDisruptionBudget]
   else []) ++
  ((fun p => labelled (NamespacedResource req p)) <$> newNetworkPolicies (ns req)).

Lemma builders_made req tls :
  getTemplateValidatorImage <> "" ->
  Tls.NewSSPTLSOptions (spec_TLSSecurityProfile (ssp_spec (Instance req))) = Ok tls ->
  Forall2 (fun (f : BuilderFunc) r => f req = Ok r) (funcs req) (builders req tls).
Proof.
  intros Himage Htls. unfold funcs, builders. apply Forall2_app; [|apply Forall2_app].
  - repeat apply Forall2_cons_2; [..|apply Forall2_nil_2]; try reflexivity.
    + unfold reconcileConfigMap. by rewrite Htls.
    + unfold reconcileDeployment. by rewrite bool_decide_false.
  - destruct (negb _); repeat constructor.
  - apply Forall2_fmap, Forall_Forall2_diag, Forall_forall. done.
Qed.

Lemma builders_settle req tls :
  proper_request req ->
  Forall (fun r => (request r = req /\ plain_builder r) /\ exists res, settling r res) (builders req tls).
Proof.
  intros Hreq. unfold builders. apply Forall_app. split; [|apply Forall_app; split].
  - repeat apply Forall_cons_2; [..|apply Forall_nil_2]; (split; [done|]); try by apply default_settles.
    apply settling_intro; try done; cbn.
    + apply updateWebhook_keeps_meta.
    + apply defaultStatusFunc_proper.
    + intros e o. unfold o_kind, updateWebhook. destruct (o_body e), (o_body o); try done; by eexists.
    + intros o _. apply defaultStatusFunc_total.
  - destruct (negb _); [|apply Forall_nil_2]. apply Forall_singleton. split; [done|].
    apply settling_intro; try done; cbn.
    + apply updatePodDisruptionBudget_keeps_meta.
    + apply defaultStatusFunc_proper.
    + intros e o. unfold o_kind, updatePodDisruptionBudget.
      destruct (o_body e), (o_body o); try done; by eexists.
    + intros o _. apply defaultStatusFunc_total.
  - apply Forall_fmap, Forall_forall. intros p Hp. split; [done|].
    unfold newNetworkPolicies in Hp. rewrite !elem_of_cons, elem_of_nil in Hp.
    by destruct Hp as [->|[->|[]]]; apply default_settles.
Qed.

Lemma validator_runs req : can_run req -> exists rs ress, settling_list req (funcs req) rs ress.
Proof.
  intros (Hreq & Himage & tls & Htls). exists (builders req tls). apply settling_list_intro.
  - by apply builders_made.
  - by apply builders_settle.
  - unfold builders. destruct (negb _); distinct_places.
Qed.
End settling.

#[export] Instance templateValidator_settling `{Process} `{R : Tls.TlsRuntime Tls.SSPTLSOptions}
    `{QuietSSP W} : Settling (operand (W := W)) :=
  static_settling funcs validator_stable can_run validator_runs operand (fun _ => eq_refl).
End TemplateValidatorSettling.
