(* ===== verification/OperandClearing.v ===== *)
(** * The cleanup of every operand completes

    [Clearing] for all six operands. *)

From S2P Require Import Prelude GoRuntime KubeTypes SspTypes Architecture KubeClient Cluster Common Samples Resource CleanupProofs SspController StaticOperands Settling Convergence Deletion Tls CommonTemplates TemplateBundle DataSources TemplateValidatorOperand VmDeleteProtection MetricsOperand VmConsoleProxy.

(** ** Listing *)

(** Both tests for the owner annotations agree. *)
Lemma annotated_checked owner m :
  valid_owner owner -> annotated_for owner m -> Owner.CheckOwnerAnnotation m owner = true.
Proof.
  intros [_ Hk] (_ & Ht & Hn). apply Owner.CheckOwnerAnnotation_true. unfold map_get in *.
  split.
  - destruct (Annotations m ≫= _); cbn in *; [by subst|]. exfalso. apply Hk. clear -Ht.
    unfold Owner.owner_type, Owner.GroupKind_String in Ht. case_bool_decide; [done|].
    by destruct (tm_Kind _).
  - clear Ht. destruct (Annotations m ≫= _); cbn in *; [by subst|]. unfold Owner.owner_name in Hn.
    by destruct (Namespace _).
Qed.

Section lists.
Context `{QuietSSP W} `{!ListingClient W}.

Lemma List_lists k opts :
  lists (fun o => o_kind o = k /\ list_selects opts o = true) (List (W := W) k opts).
Proof.
  intros s. destruct (quiet_list (op_world s) k opts) as (os & E & _ & Hos).
  exists os, (with_world s (op_world s) (CList k opts)). split_and!.
  - unfold List, call. by rewrite E.
  - done.
  - done.
  - split; [done|]. by exists [CList k opts]; split; [|repeat constructor].
  - intros o. rewrite Hos. unfold has. split; [|intros [? [<- ?]]; done].
    intros [Ho Hs]. by destruct (stored_wf _ _ _ _ Ho) as (<- & _).
Qed.

Lemma wrapping_lists P msg (m : Op W (list Object)) : lists P m -> lists P (wrapping msg m).
Proof.
  intros Hm s. destruct (Hm s) as (os & s' & E & Hos). exists os, s'. split; [|done].
  unfold wrapping. by rewrite E.
Qed.

Lemma filter_lists P Q `{!forall o, Decision (Q o)} (m : Op W (list Object)) :
  lists P m -> lists (fun o => P o /\ Q o) (os ← m; mret (filter Q os)).
Proof.
  intros Hm s. destruct (Hm s) as (os & s' & E & Hc & Hl & Hr & Hos). exists (filter Q os), s'.
  split_and!; [exact (bind_returns _ _ _ _ _ E)|done|done|done|].
  intros o. rewrite list_elem_of_filter, Hos. tauto.
Qed.

(** The objects of a kind that carry the annotations of the SSP. *)
Definition annotated (k : Kind) (opts : ListOptions) (req : Request) (o : Object) : Prop :=
  (o_kind o = k /\ list_selects opts o = true) /\
  Owner.CheckOwnerAnnotation (o_meta o) (Instance req) = true.

Lemma ListOwned_lists k req opts : lists (annotated k opts req) (ListOwnedResources (W := W) k req opts).
Proof. apply filter_lists, List_lists. Qed.
End lists.

(** ** Fixed lists *)

Section static.
Context `{QuietSSP W} `{!PromptClient W}.

#[export] Instance vmDeleteProtection_clearing : Clearing (VmDeleteProtection.operand (W := W)) :=
  static_clearing VmDeleteProtection.cleaned (fun _ => eq_refl) VmDeleteProtection.operand (fun _ => eq_refl).

#[export] Instance metrics_clearing `{MetricsOperand.RuleRegistry} :
    Clearing (MetricsOperand.operand (W := W)) :=
  static_clearing MetricsOperand.cleaned (fun _ => eq_refl) MetricsOperand.operand (fun _ => eq_refl).

#[export] Instance templateValidator_clearing `{Process} `{R : Tls.TlsRuntime Tls.SSPTLSOptions} :
    Clearing (TemplateValidatorOperand.operand (W := W)) :=
  static_clearing TemplateValidatorOperand.cleaned (fun _ => eq_refl) TemplateValidatorOperand.operand (fun _ => eq_refl).
End static.

(** ** Common templates *)

Module CommonTemplatesClearing.
Import CommonTemplates.
Section clearing.
Context `{QuietSSP W} `{!PromptClient W} `{!ListingClient W} `{Process} `{MapRange}.

(** Deprecated templates in the namespace of the templates, and all templates
    with the annotations. *)
Definition looks_at (req : Request) (o : Object) : Prop :=
  ((o_kind o = KTemplate /\
    list_selects (mkListOptions (templates_namespace req) deprecatedSelector) o = true) \/
   annotated KTemplate noListOptions req o).

Lemma accepting_lists opts :
  lists (fun o => o_kind o = KTemplate /\ list_selects opts o = true)
    (list_accepting_not_found (W := W) opts).
Proof.
  intros s. destruct (List_lists (W := W) KTemplate opts s) as (os & s' & E & Hos).
  exists os, s'. split; [|done]. unfold list_accepting_not_found, try, mbind, M_bind. by rewrite E.
Qed.

Lemma templates_cleaned req :
  valid_owner (Instance req) -> cleaner req (looks_at req) (Cleanup (W := W) req).
Proof.
  intros Hv. eapply cleaner_iff; [| |exact (listed_cleaner req _ _ [] Hv (lists_app _ _ _ _
    (accepting_lists (mkListOptions (templates_namespace req) deprecatedSelector))
    (wrapping_lists _ "failed to list owned templates: " _ (ListOwned_lists KTemplate req noListOptions))))].
  - intros o. unfold at_places. rewrite elem_of_nil. unfold looks_at. tauto.
  - intros s. unfold Cleanup, getDeprecatedTemplates, mbind, M_bind.
    destruct (list_accepting_not_found _ s) as [[] ?]; [|done..].
    destruct (wrapping _ _ _) as [[] ?]; [|done..]. cbn. by rewrite app_nil_r.
Qed.

#[export] Instance commonTemplates_clearing c : Clearing (operand (W := W) c) :=
  one_round_clearing (operand c) looks_at (fun _ _ => iff_refl _) (fun req Hv => templates_cleaned req Hv).
End clearing.
End CommonTemplatesClearing.

(** ** Data sources *)

Module DataSourcesClearing.
Import DataSources.
Section clearing.
Context `{QuietSSP W} `{!PromptClient W} `{!ListingClient W} `{Process} `{MapRange}.
Implicit Types (s : OpSt W).

Definition crons (req : Request) (o : Object) : Prop :=
  CrdExists (req_CrdList req) dataImportCronCrd = true /\ annotated KDataImportCron noListOptions req o.

Definition rest (d : dataSources) (req : Request) (o : Object) : Prop :=
  (CrdExists (req_CrdList req) dataSourceCrd = true /\ annotated KDataSource (InNamespace ns) req o) \/
  at_places (staticObjects d) o.

Lemma crons_cleaned req :
  valid_owner (Instance req) ->
  cleaner req (annotated KDataImportCron noListOptions req)
    (ownedCrons ← listAllOwnedDataImportCrons (W := W) req; mapM (Resource.Cleanup req) ownedCrons).
Proof.
  intros Hv. eapply cleaner_iff; [| |exact (listed_cleaner req _ _ [] Hv
    (ListOwned_lists KDataImportCron req noListOptions))].
  - intros o. unfold at_places. rewrite elem_of_nil. tauto.
  - intros s. unfold listAllOwnedDataImportCrons, mbind, M_bind.
    destruct (ListOwnedResources _ _ _ s) as [[] ?]; [|done..]. by rewrite app_nil_r.
Qed.

Lemma rest_cleaned d req :
  valid_owner (Instance req) -> cleaner req (rest d req) (cleanupRest (W := W) d req).
Proof.
  intros Hv. unfold cleanupRest, rest.
  destruct (CrdExists (req_CrdList req) dataSourceCrd).
  - eapply cleaner_iff; [|done|exact (listed_cleaner req _ _ (staticObjects d) Hv
      (ListOwned_lists KDataSource req (InNamespace ns)))]. intros o. tauto.
  - eapply cleaner_iff; [|done|exact (DeleteAll_cleaner req (staticObjects d) Hv)].
    intros o. split; [by right|by intros [[[=] _]|]].
Qed.

(** With one round left no cron that belongs to the SSP is there any more; with
    none left nothing is. *)
Definition ds_stage (d : dataSources) (n : nat) (req : Request) s : Prop :=
  forall o, has s o -> crons req o \/ rest d req o ->
    removable req o /\ (n <= 1 -> crons req o -> unowned req o) /\
    (n = 0 -> rest d req o -> unowned req o).

Lemma ds_stage_0 d n req s s' :
  ds_stage d n req s -> fewer s s' -> (forall o, has s' o -> crons req o -> unowned req o) ->
  (forall o, has s' o -> rest d req o -> unowned req o) -> forall m, ds_stage d m req s'.
Proof. intros Hst Hf Hc Hrest m o Ho Hl. split; [by apply (Hst o); [apply Hf|]|]. auto. Qed.

Lemma ds_clears d n req s :
  valid_owner (Instance req) -> ds_stage d n req s ->
  exists rs s', Cleanup d req s = (Ok rs, s') /\ shrinks s s' /\ ds_stage d (pred n) req s' /\
    (all_deleted rs = true -> ds_stage d 0 req s') /\ (n = 0 -> all_deleted rs = true).
Proof.
  intros Hv Hst. unfold Cleanup.
  destruct (CrdExists (req_CrdList req) dataImportCronCrd) eqn:Hcrd.
  - assert (forall o, annotated KDataImportCron noListOptions req o -> crons req o) as Hcr by by split.
    destruct (crons_cleaned req Hv s) as (rs1 & s1 & E1 & (S1 & _) & U1 & D1).
    { intros o Ho Hl. apply (Hst o Ho). auto. }
    apply bind_returned in E1 as (os & s0 & E0 & E1). rewrite (bind_returns _ _ _ _ _ E0).
    rewrite (bind_returns _ _ _ _ _ E1). change (forallb Deleted rs1) with (all_deleted rs1).
    destruct (all_deleted rs1) eqn:A.
    + destruct (rest_cleaned d req Hv s1) as (rs2 & s2 & E2 & (S2 & _) & U2 & D2).
      { intros o Ho Hl. apply (Hst o); [by apply S1|auto]. }
      assert (forall m, ds_stage d m req s2) as Hall.
      { apply (ds_stage_0 d n req s s2 Hst); [intros o Ho; by apply S1, S2| |done].
        intros o Ho [_ Hl]. apply U1; [by apply S2|done]. }
      exists rs2, s2. split_and!; [done|by transitivity s1|done|done|].
      intros ->. apply D2. intros o Ho Hl. apply (Hst o); [by apply S1|auto..].
    + exists rs1, s1. split_and!; [done|done| |by rewrite A|].
      * intros o Ho Hl. split; [by apply (Hst o); [apply S1|]|]. split; [intros _ [_ Hc]; by apply U1|].
        intros Hn. destruct D1 as [[=] _]. intros o' Ho' Hc. destruct (Hst o' Ho') as (_ & Hu & _); [by auto|]. apply Hu; [lia|auto].
      * intros ->. rewrite A. apply D1. intros o' Ho' Hc. destruct (Hst o' Ho') as (_ & Hu & _); [by auto|]. apply Hu; [lia|auto].
  - assert (forall o, ~ crons req o) as Hno by (intros o [? _]; congruence).
    destruct (rest_cleaned d req Hv s) as (rs2 & s2 & E2 & (S2 & _) & U2 & D2).
    { intros o Ho Hl. apply (Hst o Ho). auto. }
    assert (forall m, ds_stage d m req s2) as Hall.
    { apply (ds_stage_0 d n req s s2 Hst); [apply S2|by intros o _ ?%Hno|done]. }
    exists rs2, s2. split_and!; [done|done|done|done|].
    intros ->. apply D2. intros o Ho Hl. apply (Hst o); auto.
Qed.

#[export, refine] Instance dataSources_clearing d : Clearing (operand (W := W) d) := {|
  cleans req o := crons req o \/ rest d req o; delay := 2; stage := ds_stage d |}.
Proof.
  - intros req s Hr o Ho Hl. split; [by auto|]. split; lia.
  - intros n req s Hst o Ho Hl. destruct (Hst o Ho Hl) as (Hr & Hc & _).
    split; [done|]. split; [|lia]. intros Hn. apply Hc. lia.
  - intros n req s s' Hf Hst o Ho. by apply Hst, Hf.
  - intros req s o Hst Ho Hl. destruct (Hst o Ho Hl) as (_ & Hc & Hrest).
    destruct Hl as [Hl|Hl]; [by apply Hc; [lia|]|by apply Hrest].
  - intros n req s Hv Hst.
    assert (forall m s', ds_stage d m (norm req) s' <-> ds_stage d m req s') as Hnorm.
    { intros m s'. unfold ds_stage. by setoid_rewrite removable_norm. }
    setoid_rewrite Hnorm. rewrite Hnorm in Hst. by apply ds_clears.
Defined.
End clearing.
End DataSourcesClearing.

(** ** VM console proxy *)

Module VmConsoleProxyClearing.
Import VmConsoleProxy.
Section clearing.
Context `{QuietSSP W} `{!PromptClient W} `{!ListingClient W}.
Implicit Types (s : OpSt W).

(** An object with the labels of the operand, in any namespace. *)
Definition found (k : Kind) (name : string) (o : Object) : Prop :=
  (o_kind o = k /\ list_selects operandLabels o = true) /\ Name (o_meta o) = name.

Definition found_objects (v : vmConsoleProxy) (o : Object) : Prop :=
  found KServiceAccount (Name (o_meta (serviceAccount v))) o \/
  found KConfigMap (Name (o_meta (configMap v))) o \/
  found KService (Name (o_meta (service v))) o \/
  found KDeployment (Name (o_meta (deployment v))) o.

Definition cluster_objects (v : vmConsoleProxy) : list Object :=
  clusterRoles v ++ [clusterRoleBinding v; roleBinding v; apiService v].

Definition looks_at (v : vmConsoleProxy) (o : Object) : Prop :=
  found KRoute routeName o \/ place o = place oldApiService \/
  (found_objects v o \/ at_places (cluster_objects v) o).

Lemma find_lists name k : lists (found k name) (findResourcesUsingLabels (W := W) name k).
Proof. apply filter_lists, wrapping_lists, List_lists. Qed.

Lemma deleteRoute_cleans req :
  valid_owner (Instance req) -> cleaner req (found KRoute routeName) (deleteRoute (W := W) req).
Proof.
  intros Hv. eapply cleaner_iff; [| |exact (listed_cleaner req _ _ [] Hv (find_lists routeName KRoute))].
  - intros o. unfold at_places. rewrite elem_of_nil. tauto.
  - intros s. unfold deleteRoute, mbind, M_bind.
    destruct (findResourcesUsingLabels _ _ s) as [[] ?]; [|done..]. by rewrite app_nil_r.
Qed.

Lemma proxy_cleaned v req :
  valid_owner (Instance req) -> cleaner req (looks_at v) (Cleanup (W := W) v req).
Proof.
  intros Hv. eapply cleaner_iff; [done| |exact (cleaner_app req _ _ _ _ (deleteRoute_cleans req Hv)
    (cleaner_app req _ _ _ _ (Cleanup_cleaner req oldApiService Hv)
      (listed_cleaner req _ _ (cluster_objects v) Hv
        (lists_app _ _ _ _ (find_lists (Name (o_meta (serviceAccount v))) KServiceAccount)
          (lists_app _ _ _ _ (find_lists (Name (o_meta (configMap v))) KConfigMap)
            (lists_app _ _ _ _ (find_lists (Name (o_meta (service v))) KService)
              (find_lists (Name (o_meta (deployment v))) KDeployment)))))))]. intros s.
  unfold Cleanup, deleteOldApiService, cluster_objects, mbind, M_bind, mret, M_ret.
  destruct (deleteRoute _ _) as [[] s1]; [|done..].
  destruct (Resource.Cleanup _ _ s1) as [[] s2]; [|done..].
  destruct (findResourcesUsingLabels _ _ s2) as [[] s3]; [|done..].
  destruct (findResourcesUsingLabels _ _ s3) as [[] s4]; [|done..].
  destruct (findResourcesUsingLabels _ _ s4) as [[] s5]; [|done..].
  destruct (findResourcesUsingLabels _ _ s5) as [[] s6]; [|done..].
  rewrite <- !app_assoc. by destruct (DeleteAll _ _ s6) as [[] s7].
Qed.

#[export] Instance vmConsoleProxy_clearing `{Process} `{R : Tls.TlsRuntime Tls.SSPTLSOptions}
    `{ProxyYaml} v : Clearing (operand (W := W) v) :=
  one_round_clearing (operand v) (fun _ => looks_at v) (fun _ _ => iff_refl _)
    (fun req Hv => proxy_cleaned v req Hv).
End clearing.
End VmConsoleProxyClearing.
