(* ===== verification/ProxySettling.v ===== *)
(** * The VM console proxy settles

    [Settling] for the operand vm-console-proxy: with the service enabled its
    objects converge, and an old API service and routes of earlier versions are
    removed; with the service disabled everything is removed. *)

From S2P Require Import Prelude GoRuntime KubeTypes SspTypes Architecture KubeClient Cluster Common Resource ResourceProofs CleanupProofs SspController StaticOperands Settling Convergence Deletion Tls VmConsoleProxy VmConsoleProxyProofs OperandSettling OperandClearing.
Import VmConsoleProxy VmConsoleProxyProofs VmConsoleProxyClearing.

(** A bundle with all the parts that the operand uses. *)
Record complete_bundle (v : vmConsoleProxy) : Prop := {
  cb_typed : typed v;
  cb_owners : Forall (fun o => OwnerReferences (o_meta o) = [])
    ([serviceAccount v; clusterRoleBinding v; roleBinding v; service v; deployment v; configMap v;
      apiService v] ++ clusterRoles v);
  cb_clusterRoleBinding : exists ref sub subs, o_body (clusterRoleBinding v) = ClusterRoleBinding ref (sub :: subs);
  cb_roleBinding : exists ref sub subs, o_body (roleBinding v) = RoleBinding ref (sub :: subs);
  cb_configMap : exists im data bin, o_body (configMap v) = ConfigMap im (Some data) bin;
  cb_deployment : exists spec st, o_body (deployment v) = Deployment spec st /\
    ps_Containers (pt_spec (dep_Template spec)) <> [];
  cb_apiService : exists spec svc, o_body (apiService v) = APIService spec /\ api_Service spec = Some svc
}.

Section settling.
Context `{Process} `{R : Tls.TlsRuntime Tls.SSPTLSOptions} `{ProxyYaml}.

(** *** The builders *)

Lemma reconcileFuncs_stable v : stable_funcs (reconcileFuncs v).
Proof.
  intros req. split; [done|]. unfold reconcileFuncs. repeat (apply Forall_app; split).
  - apply Forall_singleton. by intros r [= <-].
  - apply Forall_fmap, Forall_forall. by intros o _ r [= <-].
  - repeat apply Forall_cons_2; try apply Forall_nil_2; try by intros r [= <-].
    + unfold reconcileClusterRoleBinding. intros r Hr. case_match; try done.
      apply outcome_bind_Ok in Hr as (ss & Hss & [= <-]). change (subject_in (ins req) subjects = Ok ss) in Hss. by rewrite Hss.
    + unfold reconcileRoleBinding. intros r Hr. case_match; try done.
      apply outcome_bind_Ok in Hr as (ss & Hss & [= <-]). change (subject_in (ins req) subjects = Ok ss) in Hss. by rewrite Hss.
    + unfold reconcileConfigMap. intros r (yaml & Hy & Hr)%outcome_bind_Ok. cbn in Hy. rewrite Hy. cbn.
      repeat case_match; by simplify_eq.
    + unfold reconcileDeployment. intros r Hr. case_match; try done.
      apply outcome_bind_Ok in Hr as (t & Ht & [= <-]).
      change (deploymentPod (Instance req) (dep_Template spec) = Ok t) in Ht. by rewrite Ht.
    + unfold reconcileApiService. intros r Hr. repeat case_match; by simplify_eq.
  - unfold reconcileNetworkPolicies. apply Forall_fmap, Forall_forall. by intros o _ r [= <-].
Qed.

(** When the objects can be made. *)
Record can_run (v : vmConsoleProxy) (req : Request) : Prop := {
  cr_request : proper_request req;
  cr_bundle : complete_bundle v;
  cr_tls : exists yaml, createTlsConfigFile (spec_TLSSecurityProfile (ssp_spec (Instance req))) = Ok yaml;
  cr_distinct : NoDup (static_places (reconcileFuncs v) req)
}.

Lemma labelled_builds req cluster o :
  proper_request req -> plain_object req cluster o -> default_kind (o_kind o) = true ->
  builds req (fun req => Ok (labelled (CreateOrUpdate req cluster o))).
Proof. intros Hreq Ho Hk. eexists. split; [done|]. split; [done|]. by apply default_settles. Qed.

Lemma proxy_builds v req : can_run v req -> Forall (builds req) (reconcileFuncs v req).
Proof.
  intros [Hreq Hb [yaml Hy] _]. pose proof (pr_namespace _ Hreq) as Hns.
  destruct Hb as [Ht Ho (r1 & s1 & ss1 & E1) (r2 & s2 & ss2 & E2) (im & data & bin & E3)
    (spec & st & E4 & Hc) (aspec & [ans aname] & E5 & Hsvc)].
  apply Forall_app in Ho as [Ho Hroles]. repeat (apply Forall_cons in Ho as [? Ho]).
  assert (forall cl o, OwnerReferences (o_meta o) = [] ->
    (cl = false -> Namespace (o_meta o) = key_Namespace (NamespacedName req)) -> plain_object req cl o)
    as Hplain by by split.
  unfold reconcileFuncs. repeat (apply Forall_app; split).
  - apply Forall_singleton. apply (labelled_builds req false (in_namespace (serviceAccount v) (ins req)));
      [done|by apply Hplain|]. unfold o_kind. cbn. by rewrite (typed_ServiceAccount v Ht : body_kind _ = _).
  - apply Forall_fmap, Forall_forall. intros o Hin.
    apply (labelled_builds req true o); [done| |].
    + apply Hplain; [|done]. by eapply (Forall_forall (fun o => OwnerReferences (o_meta o) = [])).
    + by rewrite (proj1 (Forall_forall _ _) (typed_ClusterRoles v Ht) o Hin).
  - repeat apply Forall_cons_2; try apply Forall_nil_2.
    + eexists. unfold reconcileClusterRoleBinding. rewrite E1. split; [done|]. split; [done|].
      apply default_settles; [done|by apply Hplain|done].
    + eexists. unfold reconcileRoleBinding. rewrite E2. split; [done|]. split; [done|].
      apply default_settles; [done|by apply Hplain|done].
    + eexists. unfold reconcileConfigMap. rewrite Hy. cbn. rewrite E3. split; [done|]. split; [done|].
      apply default_settles; [done|by apply Hplain|done].
    + apply (labelled_builds req false (in_namespace (service v) (ins req)));
        [done|by apply Hplain|]. unfold o_kind. cbn. by rewrite (typed_Service v Ht : body_kind _ = _).
    + unfold builds, reconcileDeployment. rewrite E4. unfold deploymentPod.
      destruct (ps_Containers _) as [|c cs]; [done|]. eexists. split; [done|]. split; [done|].
      apply default_settles; [done|by apply Hplain|done].
    + eexists. unfold reconcileApiService. rewrite E5, Hsvc. split; [done|]. split; [done|].
      apply settling_intro; try done; cbn.
      * apply updateApiService_keeps_meta.
      * apply defaultStatusFunc_proper.
      * intros e o. unfold o_kind, updateApiService. destruct (o_body e), (o_body o); try done; by eexists.
      * intros o _. apply defaultStatusFunc_total.
  - unfold reconcileNetworkPolicies, newNetworkPolicies.
    repeat apply Forall_cons_2; try apply Forall_nil_2; by apply labelled_builds.
Qed.

(** *** Rounds *)

Section quiet.
Context `{QuietSSP W} `{!PromptClient W} `{!ListingClient W}.
Implicit Types (s : OpSt W).

(** What earlier versions may have left, and where. *)
Definition old_objects (o : Object) : Prop := place o = place oldApiService \/ found KRoute routeName o.
Definition old_place (p : Place) : Prop :=
  p = place oldApiService \/ (p.1 = KRoute /\ key_Name p.2 = routeName).

(** Where the objects of the operand may be, in any namespace. *)
Definition own_place (v : vmConsoleProxy) (p : Place) : Prop :=
  old_place p \/
  (p.1 = KServiceAccount /\ key_Name p.2 = Name (o_meta (serviceAccount v))) \/
  (p.1 = KConfigMap /\ key_Name p.2 = Name (o_meta (configMap v))) \/
  (p.1 = KService /\ key_Name p.2 = Name (o_meta (service v))) \/
  (p.1 = KDeployment /\ key_Name p.2 = Name (o_meta (deployment v))) \/
  p ∈ place <$> cluster_objects v.

Lemma old_objects_place o : old_objects o -> old_place (place o).
Proof. intros [->|[[Hk _] Hn]]; [by left|]. right. split; [exact Hk|exact Hn]. Qed.

Lemma looks_at_place v o : looks_at v o -> own_place v (place o).
Proof.
  unfold own_place, old_place, at_places.
  intros [[[Hk _] Hn]|[->|[[[[Hk _] Hn]|[[[Hk _] Hn]|[[[Hk _] Hn]|[[Hk _] Hn]]]]|Hat]]];
    cbn; rewrite ?Hk, ?Hn; tauto.
Qed.

(** The cleanup of what earlier versions left, as [Reconcile] does it. *)
Lemma old_cleaner req :
  valid_owner (Instance req) ->
  cleaner (W := W) req old_objects (cr ← deleteOldApiService req; crs ← deleteRoute req; mret (cr :: crs)).
Proof.
  intros Hv. eapply cleaner_iff; [done| |exact (cleaner_app req _ _ _ _
    (Cleanup_cleaner req oldApiService Hv) (deleteRoute_cleans req Hv))].
  intros s. unfold deleteOldApiService, mbind, M_bind, mret, M_ret.
  by destruct (Resource.Cleanup _ _ s) as [[] s1].
Qed.

Definition proxy_phase (v : vmConsoleProxy) (n : nat) (req : Request) s : Prop :=
  valid_owner (Instance req) /\
  if serviceEnabled req
  then static_phase (reconcileFuncs v) n req s /\ swept old_objects n req s /\
       Forall (fun p => ~ old_place p) (static_places (reconcileFuncs v) req)
  else swept (looks_at v) n req s.

Definition proxy_region (v : vmConsoleProxy) (req : Request) (p : Place) : Prop :=
  p ∈ static_places (reconcileFuncs v) req \/ own_place v p.

Lemma pendingResults_none crs : all_deleted crs = true -> pendingResults crs = [].
Proof.
  unfold pendingResults, all_deleted. intros Hd. induction crs as [|cr crs IH]; [done|].
  cbn in Hd. apply andb_true_iff in Hd as [Hcr Hd]. rewrite filter_cons, decide_False by congruence. auto.
Qed.

Lemma enabled_round v n req s :
  valid_owner (Instance req) -> static_phase (reconcileFuncs v) n (norm req) s ->
  swept old_objects n req s ->
  Forall (fun p => ~ old_place p) (static_places (reconcileFuncs v) (norm req)) ->
  exists rs s', (reconcileResults ← CollectResourceStatus req (run_builder <$> reconcileFuncs v req);
      cr ← deleteOldApiService req; crs ← deleteRoute req;
      mret (reconcileResults ++ pendingResults (cr :: crs))) s = (Ok rs, s') /\
    static_phase (reconcileFuncs v) (pred n) (norm req) s' /\ swept old_objects (pred n) req s' /\
    frame (proxy_region v (norm req)) s s' /\
    (n = 0 -> only_reads s s' /\ Forall (fun rr => rr_OperationResult rr = OperationResultNone) rs).
Proof.
  intros Hv Hph Hsw Hdis. rewrite Forall_forall in Hdis.
  destruct (static_round _ (reconcileFuncs_stable v) n req s Hph) as (rs & s1 & E1 & P1 & F1 & Q1).
  assert (swept old_objects n req s1) as Hsw1.
  { eapply (swept_same old_objects old_place); [apply old_objects_place| |exact Hsw].
    intros p Hp. apply (frame_others _ _ _ _ F1). intros Hin. by apply (Hdis p). }
  destruct (swept_round req _ _ n s1 (old_cleaner req Hv) Hsw1) as (crs & s2 & E2 & T2 & K2 & D2).
  assert (frame old_place s1 s2) as F2.
  { eapply takes_frame; [exact T2|]. intros o _. apply old_objects_place. }
  exists (rs ++ pendingResults crs), s2. split_and!.
  - rewrite (bind_returns _ _ _ _ _ E1). apply bind_returned in E2 as (cr & s3 & E2 & E3).
    rewrite (bind_returns _ _ _ _ _ E2). apply bind_returned in E3 as (crs' & s4 & E3 & [= <- <-]).
    by rewrite (bind_returns _ _ _ _ _ E3).
  - eapply static_phase_agree; [|exact P1]. intros p Hp. apply (frame_others _ _ _ _ F2). by apply Hdis.
  - apply K2.
  - eapply frame_trans; (eapply frame_mono; [|eassumption]); unfold proxy_region, own_place; by auto.
  - intros Hn. destruct (Q1 Hn) as [R1 N1]. destruct (D2 Hn) as [A2 R2].
    rewrite (pendingResults_none crs A2), app_nil_r. split; [by eapply only_reads_trans|done].
Qed.

Lemma proxy_round v n req s :
  proxy_phase v n (norm req) s ->
  exists rs s', Reconcile v req s = (Ok rs, s') /\ proxy_phase v (pred n) (norm req) s' /\
    frame (proxy_region v (norm req)) s s' /\
    (n = 0 -> only_reads s s' /\ Forall (fun rr => rr_OperationResult rr = OperationResultNone) rs).
Proof.
  unfold proxy_phase, Reconcile. change (serviceEnabled (norm req)) with (serviceEnabled req).
  intros [Hv Hph]. destruct (serviceEnabled req); cbn [negb].
  - destruct Hph as (Hst & Hsw & Hdis). rewrite swept_norm in Hsw.
    destruct (enabled_round v n req s Hv Hst Hsw Hdis) as (rs & s' & E & P & K & F & Q).
    exists rs, s'. rewrite swept_norm. by split_and!.
  - rewrite swept_norm in Hph.
    destruct (swept_round req _ _ n s (proxy_cleaned v req Hv) Hph) as (crs & s' & E & T & K & D).
    exists (pendingResults crs), s'. split_and!.
    + exact (bind_returns _ _ _ _ _ E).
    + done.
    + by apply swept_norm.
    + eapply takes_frame; [exact T|]. intros o _ Hl. right. by apply looks_at_place.
    + intros Hn. destruct (D Hn) as [A R1]. by rewrite (pendingResults_none crs A).
Qed.

Definition proxy_startable (v : vmConsoleProxy) (req : Request) s : Prop :=
  valid_owner (Instance req) /\
  if serviceEnabled req
  then can_run v req /\ Forall (fun p => alive p s) (static_places (reconcileFuncs v) req) /\
       swept old_objects 1 req s /\
       Forall (fun p => ~ old_place p) (static_places (reconcileFuncs v) req)
  else swept (looks_at v) 1 req s.

#[export, refine] Instance vmConsoleProxy_settling v : Settling (operand (W := W) v) := {|
  region := proxy_region v; startable := proxy_startable v; work := 1; phase := proxy_phase v |}.
Proof.
  - intros req s s' Hsame [Hv Hst]. split; [done|]. destruct (serviceEnabled req).
    + destruct Hst as (Hr & Ha & Hsw & Hdis). split_and!; [done| | |done].
      * eapply all_alive_same; [|exact Ha]. intros p Hp. apply Hsame. by left.
      * eapply (swept_same old_objects old_place); [apply old_objects_place| |done].
        intros p Hp. apply Hsame. right. by left.
    + eapply (swept_same (looks_at v) (own_place v)); [apply looks_at_place| |done].
      intros p Hp. apply Hsame. by right.
  - intros req s [Hv Hst]. split; [done|]. destruct (serviceEnabled req); [|done].
    destruct Hst as (Hr & Ha & Hsw & Hdis). split_and!; [|done|done].
    apply static_phase_start; [|done]. apply settling_list_exists; [by apply proxy_builds|apply Hr].
  - intros n req s [Hv Hph]. split; [done|]. destruct (serviceEnabled req); [|by apply swept_mono].
    destruct Hph as (Hst & Hsw & Hdis). split_and!; [by apply static_phase_mono|by apply swept_mono|done].
  - intros n req s s' Hag [Hv Hph]. split; [done|]. destruct (serviceEnabled req).
    + destruct Hph as (Hst & Hsw & Hdis). split_and!; [| |done].
      * eapply static_phase_agree; [|exact Hst]. intros p Hp. apply Hag. by left.
      * eapply (swept_same old_objects old_place); [apply old_objects_place| |done].
        intros p Hp. apply Hag. right. by left.
    + eapply (swept_same (looks_at v) (own_place v)); [apply looks_at_place| |done].
      intros p Hp. apply Hag. by right.
  - intros n req s Hph. by apply proxy_round.
Defined.
End quiet.
End settling.
