(* ===== verification/TemplatesSettling.v ===== *)
(** * The common templates settle

    [Settling] for the operand common-templates. One round deploys the bundled
    templates, and deprecates or deletes those of earlier versions. A deprecated
    template is found again in every later round, which then takes the found
    object as the expected one; it is at rest because the labels and owner
    annotations that the builder adds are already there. *)

From S2P Require Import Prelude GoRuntime KubeTypes SspTypes Architecture KubeClient Cluster Common Resource ResourceProofs CleanupProofs SspController StaticOperands Settling Convergence Deletion Semver CommonTemplates CommonTemplatesProofs OperandSettling OperandClearing.
Import CommonTemplates CommonTemplatesClearing.

#[local] Arguments update_map : simpl never.

(** ** Objects that carry what a builder adds *)

(** The application labels are already among these labels. *)
Definition labelled (req : Request) (name : string) (c : Labels.AppComponent) (ls : smap) : Prop :=
  Labels.addCommonLabels ls (Instance req) name c = ls.

Lemma addCommonLabels_local l l' i name c k :
  l !! k = l' !! k ->
  Labels.addCommonLabels l i name c !! k = Labels.addCommonLabels l' i name c !! k.
Proof.
  intros E. unfold Labels.addCommonLabels, Labels.addInstanceLabels, Labels.copyLabel.
  destruct (KubeTypes.Labels (ssp_meta i)); rewrite !lookup_insert; repeat case_decide; done.
Qed.

(** Only the keys of the application labels matter. *)
Lemma labelled_intro req name c l l' :
  (forall k, k ∈ Labels.app_label_keys -> l !! k = Labels.addCommonLabels l' (Instance req) name c !! k) ->
  labelled req name c l.
Proof.
  intros Hl. apply map_eq. intros k. destruct (decide (k ∈ Labels.app_label_keys)) as [Hk|Hk].
  - rewrite (addCommonLabels_local _ _ _ _ _ _ (Hl k Hk)), Labels.addCommonLabels_idem. symmetry. by apply Hl.
  - by apply Labels.addCommonLabels_foreign.
Qed.

Lemma addCommonLabels_grows l i name c k :
  Labels.addCommonLabels l i name c !! k = None -> l !! k = None.
Proof.
  unfold Labels.addCommonLabels, Labels.addInstanceLabels, Labels.copyLabel.
  destruct (KubeTypes.Labels (ssp_meta i)); rewrite !lookup_insert_None; tauto.
Qed.

Lemma addCommonLabels_update l i name c :
  update_map (Some (Labels.addCommonLabels (default ∅ l) i name c)) l =
  Some (Labels.addCommonLabels (default ∅ l) i name c).
Proof.
  destruct l as [l|]; [|done]. unfold update_map, updateStringMap. f_equal. change (default ∅ (Some l)) with l.
  apply map_eq. intros k. destruct (Labels.addCommonLabels l i name c !! k) as [v|] eqn:E.
  - by apply lookup_union_Some_l.
  - apply lookup_union_None. split; [done|]. by eapply addCommonLabels_grows.
Qed.

Section stamped.
Context (req : Request) (name : string) (c : Labels.AppComponent).

(** An object of another namespace with the labels and annotations of the SSP. *)
Record stamped (m : ObjectMeta) : Prop := {
  st_owners : OwnerReferences m = [];
  st_labels : exists ls, KubeTypes.Labels m = Some ls /\ labelled req name c ls;
  st_owned : Owner.CheckOwnerAnnotation m (Instance req) = true
}.

(** A builder for a cluster resource with application labels. *)
Definition labels_cluster (r : reconcileBuilder) : Prop :=
  request r = req /\ isClusterResource r = true /\ appLabels r = Some (name, c).

Lemma cluster_prepared r :
  labels_cluster r -> valid_owner (Instance req) ->
  exists res, prepared r = Ok res /\ o_body res = o_body (resource r) /\ place res = place (resource r) /\
    OwnerReferences (o_meta res) = [] /\
    KubeTypes.Labels (o_meta res) = Some (Labels.addCommonLabels
      (default ∅ (KubeTypes.Labels (o_meta (resource r)))) (Instance req) name c) /\
    Annotations (o_meta res) = Some (<[Owner.TypeAnnotation := Owner.owner_type (Instance req)]>
      (<[Owner.NamespacedNameAnnotation := Owner.owner_name (Instance req)]>
         (default ∅ (Annotations (o_meta (resource r)))))).
Proof.
  intros (<- & Hc & Hl) [Hn Hk]. unfold prepared, setOwner, add_app_labels. rewrite Hc, Hl.
  unfold Owner.SetOwnerAnnotations. rewrite !bool_decide_false by done. eexists. by split_and!.
Qed.

(** What is stamped already has everything that the builder expects. *)
Lemma stamped_carries r res :
  labels_cluster r -> prepared r = Ok res -> stamped (o_meta (resource r)) ->
  carries res (o_meta (resource r)).
Proof.
  intros Hr Hp [Ho (ls & Hls & Hlab) Hown].
  assert (valid_owner (Instance req)) as Hv.
  { destruct Hr as (<- & Hc & _). revert Hp. unfold prepared, setOwner. rewrite Hc.
    intros (m & Hm & _)%outcome_bind_Ok. unfold Owner.SetOwnerAnnotations in Hm.
    case_bool_decide; [done|]. by case_bool_decide. }
  destruct (cluster_prepared r Hr Hv) as (res' & Hp' & _ & _ & Eo & El & Ea).
  rewrite Hp in Hp'. injection Hp' as <-. apply Owner.CheckOwnerAnnotation_true in Hown as [Ht Hn].
  split_and!.
  - congruence.
  - rewrite El, Hls. change (default ∅ (Some ls)) with ls. unfold labelled in Hlab. rewrite Hlab. by intros k v.
  - rewrite Ea. intros k v. cbn. rewrite !lookup_insert_Some. intros [[<- <-]|[_ [[<- <-]|[_ Hv']]]]; [done..|].
    by destruct (Annotations _).
Qed.

Lemma stamped_nonempty m :
  stamped m -> exists ls anns, KubeTypes.Labels m = Some ls /\ ls <> ∅ /\ Annotations m = Some anns /\ anns <> ∅.
Proof.
  intros [_ (ls & Hls & Hlab) [Ht _]%Owner.CheckOwnerAnnotation_true].
  destruct (Annotations m) as [anns|]; [|done]. exists ls, anns. split_and!; [done| |done|].
  - rewrite <- Hlab. unfold Labels.addCommonLabels. apply insert_non_empty.
  - intros ->. cbn in Ht. by rewrite lookup_empty in Ht.
Qed.

(** The builder stamps its own object when it finds it. *)
Lemma restored_stamped r res :
  labels_cluster r -> valid_owner (Instance req) -> prepared r = Ok res ->
  stamped (restored_meta res (o_meta (resource r))) /\
  KubeTypes.Labels (restored_meta res (o_meta (resource r))) =
    Some (Labels.addCommonLabels (default ∅ (KubeTypes.Labels (o_meta (resource r)))) (Instance req) name c).
Proof.
  intros Hr Hv Hp. destruct (cluster_prepared r Hr Hv) as (res' & Hp' & _ & _ & Eo & El & _).
  rewrite Hp in Hp'. injection Hp' as <-.
  assert (KubeTypes.Labels (restored_meta res (o_meta (resource r))) =
    Some (Labels.addCommonLabels (default ∅ (KubeTypes.Labels (o_meta (resource r)))) (Instance req) name c)) as Erl.
  { change (update_map (KubeTypes.Labels (o_meta res)) (KubeTypes.Labels (o_meta (resource r))) = Some
      (Labels.addCommonLabels (default ∅ (KubeTypes.Labels (o_meta (resource r)))) (Instance req) name c)).
    rewrite El. apply addCommonLabels_update. }
  split; [|done]. split; [done| |].
  - rewrite Erl. eexists. split; [done|]. apply Labels.addCommonLabels_idem.
  - pose proof (prepared_owned r res Hp) as Hown. destruct Hr as (<- & Hc & _). rewrite Hc in Hown.
    destruct Hown as [[Ht Hn]%Owner.CheckOwnerAnnotation_true _].
    apply Owner.CheckOwnerAnnotation_true. split; by apply update_map_kept.
Qed.

Section quiet.
Context `{QuietSSP W}.

(** So a stamped object that is in the cache is at rest. *)
Lemma stamped_converged r (s : OpSt W) :
  labels_cluster r -> valid_owner (Instance req) -> stamped (o_meta (resource r)) ->
  has s (resource r) -> DeletionTimestamp (o_meta (resource r)) = None ->
  Cache.Contains (op_cache s) (resource r) = true ->
  (forall o, o_kind o = o_kind (resource r) -> replicas_set o -> exists st, statusFunc r o = Ok st) ->
  exists res, prepared r = Ok res /\ converged r res s.
Proof.
  intros Hr Hv Hs Hh Hd Hc Hst. destruct (cluster_prepared r Hr Hv) as (res & Hp & _ & Hpl & _).
  pose proof (stamped_carries r res Hr Hp Hs) as (Ho & Hl & Ha). exists res. split; [done|].
  destruct (Hst (with_meta (resource r) (restored_meta res (o_meta (resource r))))) as [st Est];
    [done|exact (proj2 (proj2 (proj2 (stored_wf _ _ _ _ Hh))))|].
  exists (resource r), st. injection Hpl as Hk Hns Hn.
  assert (ObjectKeyFromObject res = ObjectKeyFromObject (resource r)) as Hkey
    by (unfold ObjectKeyFromObject; by rewrite Hns, Hn).
  rewrite Hk, Hkey. split_and!; try done. by apply restored_meta_same.
Qed.
End quiet.
End stamped.

(** ** Deployed templates *)

Section builders.
Context `{Process}.

Definition template_builder (t : Object) : BuilderFunc := fun req =>
  Ok (UpdateFunc (WithAppLabels (ClusterResource req
        (with_meta t (with_namespace (o_meta t) (templates_namespace req)))) operandName operandComponent)
      updateTemplate).

Definition deployed (c : commonTemplates) (req : Request) : list Object :=
  match GetSSPArchs (ssp_spec (Instance req)) with
  | Ok archs => getTemplatesForArchs c archs (ssp_spec (Instance req))
  | _ => []
  end.

Definition deployed_funcs (c : commonTemplates) (req : Request) : list BuilderFunc :=
  template_builder <$> deployed c req.

Lemma deployed_stable c : stable_funcs (deployed_funcs c).
Proof. intros req. split; [done|]. apply Forall_fmap, Forall_forall. by intros t _ r [= <-]. Qed.

Lemma updateTemplate_restores e : restores updateTemplate e.
Proof.
  intros o e' o' (Ho & Hl & Ha). unfold updateTemplate, o_kind.
  destruct (o_body e); try done. destruct (o_body o); try done. intros [= <- <-].
  assert (forall mo me : gomap, map_kept me mo -> map_kept me (sync_map mo me)) as Hsync.
  { intros mo me Hk k v Hv. apply sync_map_lookup. split; [by apply Hk|]. intros _.
    apply map_has_lookup. by exists v. }
  split_and!; try done. split_and!; [done|by apply Hsync..].
Qed.

Lemma template_status o : o_kind o = KTemplate -> exists st, defaultStatusFunc o = Ok st.
Proof. unfold o_kind, defaultStatusFunc. destruct (o_body o); try done. by eexists. Qed.

Lemma template_builds t req :
  valid_owner (Instance req) -> o_kind t = KTemplate -> builds req (template_builder t).
Proof.
  intros Hv Hk. eexists. split; [done|]. split; [done|]. set (r := UpdateFunc _ _).
  assert (labels_cluster req operandName operandComponent r) as Hr by by split_and!.
  destruct (cluster_prepared req _ _ r Hr Hv) as (res & Hp & Hb & Hpl & _). exists res.
  assert (o_kind res = KTemplate) as Hres by (unfold o_kind in *; by rewrite Hb).
  split; [done|apply updateTemplate_restores|apply defaultStatusFunc_proper| |].
  - intros o Ho _. cbn. unfold updateTemplate. rewrite Hres in Ho. unfold o_kind in *.
    destruct (o_body res); try done. destruct (o_body o); try done. by eexists.
  - intros o Ho _. apply template_status. congruence.
Qed.

Lemma deployed_places c req :
  static_places (deployed_funcs c) req =
  (fun t => (o_kind t, mkKey (templates_namespace req) (Name (o_meta t)))) <$> deployed c req.
Proof.
  unfold static_places, deployed_funcs. induction (deployed c req) as [|t ts IH]; [done|].
  cbn. f_equal. exact IH.
Qed.
End builders.

(** ** Deprecated templates *)

Section deprecation.
Context `{QuietSSP W} `{!PromptClient W} `{!ListingClient W} `{!PlainStore W KTemplate}.
Implicit Types (s : OpSt W).

Definition deprecation (req : Request) (t : Object) : reconcileBuilder :=
  UpdateFunc (WithAppLabels (ClusterResource req t) operandName operandComponent) deprecateTemplate.

Notation stamp req := (stamped req operandName operandComponent).

(** Labels that decide what happens to an old template. *)
Definition decisive (m m' : ObjectMeta) : Prop :=
  map_get (KubeTypes.Labels m') TemplateArchitectureLabel = map_get (KubeTypes.Labels m) TemplateArchitectureLabel /\
  map_get (KubeTypes.Labels m') TemplateVersionLabel = map_get (KubeTypes.Labels m) TemplateVersionLabel /\
  DeletionTimestamp m' = DeletionTimestamp m.

Lemma decisive_action latest archs o o' :
  decisive (o_meta o) (o_meta o') -> old_template_action latest archs o' = old_template_action latest archs o.
Proof. intros (Ha & Hv & Hd). unfold old_template_action, GetTemplateArch. by rewrite Ha, Hv, Hd. Qed.

(** The labels of a deprecated template. *)
Lemma deprecated_labels req ls ls' :
  ls' = <[TemplateDeprecatedAnnotation := "true"]>
          (filter (fun '(k, _) => is_selection_label k = false)
             (Labels.addCommonLabels ls (Instance req) operandName operandComponent)) ->
  labelled req operandName operandComponent ls' /\
  forall k, k ∈ [TemplateArchitectureLabel; TemplateVersionLabel] -> ls' !! k = ls !! k.
Proof.
  intros ->.
  assert (forall k, k <> TemplateDeprecatedAnnotation -> is_selection_label k = false ->
    forall l : smap, (<[TemplateDeprecatedAnnotation := "true"]>
      (filter (fun '(k, _) => is_selection_label k = false) l)) !! k = l !! k) as Hk.
  { intros k Hn Hs l. rewrite lookup_insert_ne by done. apply option_eq. intros v.
    rewrite map_lookup_filter_Some. tauto. }
  split.
  - apply (labelled_intro _ _ _ _ ls). intros k Hin. apply Hk.
    + intros ->. revert Hin. by apply (bool_decide_eq_false_1 (TemplateDeprecatedAnnotation ∈ Labels.app_label_keys)).
    + revert k Hin. by apply Forall_forall, (bool_decide_eq_true_1 (Forall (fun k => is_selection_label k = false) Labels.app_label_keys)).
  - intros k Hin.
    assert (k <> TemplateDeprecatedAnnotation /\ is_selection_label k = false /\ k ∉ Labels.app_label_keys) as (H1' & H2' & H3').
    { revert k Hin. apply Forall_forall. repeat constructor; by apply (bool_decide_eq_false_1 (_ ∈ _)). }
    rewrite Hk by done. by apply Labels.addCommonLabels_foreign.
Qed.

(** Deprecation keeps what the builder added, and what decides. *)
Lemma deprecate_keeps req e o ls :
  o_kind o = KTemplate -> stamp req (o_meta o) ->
  KubeTypes.Labels (o_meta o) = Some (Labels.addCommonLabels ls (Instance req) operandName operandComponent) ->
  exists o', deprecateTemplate e o = Ok (e, o') /\ o_kind o' = KTemplate /\
    same_identity (o_meta o) (o_meta o') /\ stamp req (o_meta o') /\
    forall k, k ∈ [TemplateArchitectureLabel; TemplateVersionLabel] ->
      map_get (KubeTypes.Labels (o_meta o')) k = map_get (Some ls) k.
Proof.
  intros Hk Hs Hls. destruct (stamped_nonempty _ _ _ _ Hs) as (_ & anns & _ & _ & Ha & _).
  destruct Hs as [Ho _ [Ht Hn]%Owner.CheckOwnerAnnotation_true].
  unfold deprecateTemplate. unfold o_kind in Hk. destruct (o_body o) eqn:Eb; try done. rewrite Ha, Hls.
  destruct (deprecated_labels req ls _ eq_refl) as [Hlab Hdec].
  eexists. split; [done|]. split; [unfold o_kind; cbn; by rewrite Eb|]. split; [done|]. split.
  - split; [done|by eexists|]. rewrite Ha in Ht, Hn. apply Owner.CheckOwnerAnnotation_true. cbn in *.
    by rewrite !lookup_insert_ne.
  - intros k Hin. exact (f_equal (default "") (Hdec k Hin)).
Qed.

(** What the builder makes of a template that was found: it can be written, and
    needs nothing more afterwards. *)
Lemma deprecation_mutates req t res cache :
  o_kind t = KTemplate -> DeletionTimestamp (o_meta t) = None -> valid_owner (Instance req) ->
  prepared (deprecation req t) = Ok res ->
  exists e' o', mutateFn (deprecation req t) cache res t = Ok (e', o') /\ o_kind o' = KTemplate /\
    same_identity (o_meta t) (o_meta o') /\ stamp req (o_meta o') /\ decisive (o_meta t) (o_meta o').
Proof.
  intros Hk Hd Hv Hp.
  destruct (restored_stamped req operandName operandComponent (deprecation req t) res) as [Hs Hls]; [done|done|done|].
  change (resource (deprecation req t)) with t in *.
  set (ls := default ∅ (KubeTypes.Labels (o_meta t))) in *.
  assert (forall k, map_get (Some ls) k = map_get (KubeTypes.Labels (o_meta t)) k) as Hget.
  { intros k. subst ls. by destruct (KubeTypes.Labels (o_meta t)). }
  rewrite mutateFn_alive by done. cbv zeta. destruct (_ || _).
  - destruct (deprecate_keeps req res (with_meta t (restored_meta res (o_meta t))) ls Hk Hs Hls)
      as (o' & E & Hk' & Hid & Hs' & Hdec).
    change (updateFunc (deprecation req t)) with deprecateTemplate. rewrite E. eexists _, o'.
    split; [done|]. split_and!; try done. split_and!; [rewrite Hdec by set_solver; apply Hget..|apply Hid].
  - eexists _, _. split; [done|]. split_and!; try done. unfold decisive.
    assert (forall k, k ∉ Labels.app_label_keys ->
      map_get (KubeTypes.Labels (restored_meta res (o_meta t))) k = map_get (KubeTypes.Labels (o_meta t)) k) as Hf.
    { intros k Hn. rewrite Hls, <- Hget. unfold map_get. cbn [mbind option_bind].
      by rewrite Labels.addCommonLabels_foreign. }
    split_and!; [apply Hf; by apply (bool_decide_eq_false_1 (_ ∈ _))..|done].
Qed.

(** A deprecated template that later rounds leave alone. *)
Definition at_rest (req : Request) (t : Object) s : Prop :=
  exists res, prepared (deprecation req t) = Ok res /\ converged (deprecation req t) res s.

Lemma deprecation_place req t res : prepared (deprecation req t) = Ok res -> place res = place t.
Proof. intros (Hk & Hkey & _)%prepared_keeps. unfold place. by rewrite Hk, Hkey. Qed.

Lemma at_rest_agree req t s s' : agree (place t) s s' -> at_rest req t s -> at_rest req t s'.
Proof.
  intros Ha (res & Hp & Hc). exists res. split; [done|]. eapply converged_agree; [|exact Hc].
  by rewrite (deprecation_place _ _ _ Hp).
Qed.

Lemma stamped_at_rest req t s :
  valid_owner (Instance req) -> o_kind t = KTemplate -> has s t -> DeletionTimestamp (o_meta t) = None ->
  stamp req (o_meta t) -> Cache.Contains (op_cache s) t = true -> at_rest req t s.
Proof.
  intros Hv Hk Hh Hd Hs Hc.
  apply (stamped_converged req operandName operandComponent (deprecation req t)); try done.
  intros o Ho _. apply template_status. cbn in Ho. congruence.
Qed.

(** What is stamped is so in every equivalent form. *)
Lemma stamped_equiv req o o' : o ≡ o' -> stamp req (o_meta o') -> stamp req (o_meta o).
Proof.
  intros Heq Hs. destruct (stamped_nonempty _ _ _ _ Hs) as (ls & anns & Hls & Hn1 & Hanns & Hn2).
  assert (forall (m : gomap) x, canon_map m = canon_map (Some x) -> x <> ∅ -> m = Some x) as Hc.
  { intros m x Hm Hx. unfold canon_map in Hm. rewrite (bool_decide_false (Some x = _)) in Hm by congruence.
    by case_bool_decide. }
  pose proof (Hc _ _ (eq_trans (f_equal (fun o => KubeTypes.Labels (o_meta o)) Heq) (f_equal canon_map Hls)) Hn1) as El.
  pose proof (Hc _ _ (eq_trans (f_equal (fun o => Annotations (o_meta o)) Heq) (f_equal canon_map Hanns)) Hn2) as Ea.
  destruct Hs as [Ho (ls' & Hls' & Hlab) Hown]. split.
  - by rewrite (OwnerReferences_proper _ _ Heq).
  - exists ls. split; [done|]. congruence.
  - rewrite Owner.CheckOwnerAnnotation_true in *. by rewrite Ea, <- Hanns.
Qed.

(** The first round on an old template leaves it at rest. *)
Lemma deprecation_rests req t s latest archs :
  valid_owner (Instance req) -> has s t -> o_kind t = KTemplate -> DeletionTimestamp (o_meta t) = None ->
  exists rr s' got, Resource.Reconcile (deprecation req t) s = (Ok rr, s') /\ frame (eq (place t)) s s' /\
    has s' got /\ place got = place t /\ at_rest req got s' /\
    old_template_action latest archs got = old_template_action latest archs t.
Proof.
  intros Hv Hh Hk Hd.
  destruct (cluster_prepared req operandName operandComponent (deprecation req t)) as (res & Hp & _ & Hpl & _);
    [done|done|]. change (place res = place t) in Hpl.
  destruct (deprecation_mutates req t res (op_cache s) Hk Hd Hv Hp) as (e' & o' & Hm & Hk' & Hid & Hs & Hdec).
  pose proof (f_equal fst Hpl) as Hpk. pose proof (f_equal snd Hpl) as Hpkey. cbn in Hpk, Hpkey.
  destruct (Reconcile_found (deprecation req t) res s Hp) with t e' o'
    as (rr & s' & got & E & Hf & Hst & Hd' & Hc & Hcase); try done.
  - intros o Ho _. apply template_status. congruence.
  - apply defaultStatusFunc_proper.
  - by rewrite Hpk, Hpkey.
  - by rewrite Hk'.
  - destruct (stored_has _ _ _ _ Hst) as [Hg Hpg]. rewrite Hpl in Hf.
    change (place got = place res) in Hpg. rewrite Hpl in Hpg.
    assert (o_kind got = KTemplate) as Hkg by (rewrite <- Hk; exact (f_equal fst Hpg)).
    exists rr, s', got. split_and!; try done.
    + apply stamped_at_rest; try done. destruct Hcase as [(-> & Heq & _)|(_ & Hpers & Hup)].
      * by eapply stamped_equiv.
      * destruct (plain_update _ _ _ _ Hk' Hup) as (_ & El & Ea & _). destruct Hs as [So Sl Sa]. split.
        -- by rewrite (persisted_owners _ _ Hpers).
        -- by rewrite El.
        -- rewrite Owner.CheckOwnerAnnotation_true in *. by rewrite Ea.
    + destruct Hcase as [(-> & _)|(_ & Hpers & Hup)]; [done|].
      destruct (plain_update _ _ _ _ Hk' Hup) as (_ & El & _).
      apply decisive_action. destruct Hdec as (H1' & H2' & H3'). unfold decisive.
      rewrite El, (persisted_alive _ _ Hpers). by split_and!.
Qed.

(** Later rounds only read it. *)
Lemma at_rest_stays req t s :
  at_rest req t s ->
  exists rr s', Resource.Reconcile (deprecation req t) s = (Ok rr, s') /\
    rr_OperationResult rr = OperationResultNone /\ at_rest req t s' /\
    frame (eq (place t)) s s' /\ only_reads s s'.
Proof.
  intros (res & Hp & Hc). destruct (Reconcile_settled (deprecation req t) res s Hp eq_refl Hc)
    as (rr & s' & E & Hop & Hc' & Hf & Hr). rewrite (deprecation_place _ _ _ Hp) in Hf.
  exists rr, s'. split_and!; try done. by exists res.
Qed.
End deprecation.

(** ** Rounds *)

Section operand.
Context `{Process} `{MapRange}.
Context `{QuietSSP W} `{!PromptClient W} `{!ListingClient W} `{!PlainStore W KTemplate}.
Implicit Types (s : OpSt W) (req : Request).

Definition latestVersion : Semver.Version :=
  Eval vm_compute in default (Semver.mkVersion 0 0 0 [] []) (Semver.ParseTolerant Version).

Lemma Version_parses : Semver.ParseTolerant Version = Some latestVersion.
Proof. vm_compute. reflexivity. Qed.

(** The templates in the namespace that the operand looks for. *)
Definition listed req (o : Object) : Prop :=
  (o_kind o = KTemplate /\
   list_selects (mkListOptions (templates_namespace req) oldTemplatesSelector) o = true) \/
  annotated KTemplate (InNamespace (templates_namespace req)) req o.

Definition templates_region req (p : Place) : Prop :=
  p.1 = KTemplate /\ key_Namespace p.2 = templates_namespace req.

Lemma listed_region req o :
  templates_namespace req <> "" -> listed req o -> templates_region req (place o).
Proof.
  unfold listed, annotated, list_selects. cbn. intros Hns Ho.
  assert (o_kind o = KTemplate /\ templates_namespace req = Namespace (o_meta o)) as [Hk Hn].
  { destruct Ho as [[Hk Hs]|[[Hk Hs] _]]; apply andb_true_iff in Hs as [Hs _]; apply orb_true_iff in Hs;
      rewrite !bool_decide_eq_true in Hs; by destruct Hs. }
  by split.
Qed.

Definition names (ts : list Object) : list string := (fun t => Name (o_meta t)) <$> ts.

(** An old template that needs nothing more. *)
Definition resting (archs : list Arch) req (o : Object) s : Prop :=
  match old_template_action latestVersion archs o with
  | KeepTemplate => True
  | DeleteTemplate => False
  | DeprecateTemplate => at_rest req o s
  end.

(** An old template that can be deprecated or deleted. *)
Definition workable (archs : list Arch) (o : Object) : Prop :=
  old_template_action latestVersion archs o = DeleteTemplate -> Finalizers (o_meta o) = [].

Definition olds (ts : list Object) (archs : list Arch) (n : nat) req s : Prop := forall o,
  has s o -> listed req o -> Name (o_meta o) ∉ names ts ->
  if n is 0 then resting archs req o s else workable archs o.

Lemma resting_agree archs req o s s' :
  agree (place o) s s' -> resting archs req o s -> resting archs req o s'.
Proof. unfold resting. intros Ha. case_match; [done|done|by apply at_rest_agree]. Qed.

Lemma resting_workable archs req o s : resting archs req o s -> workable archs o.
Proof. unfold resting, workable. intros Hr Ha. by rewrite Ha in Hr. Qed.

(** *** One old template *)

Definition old_task (quiet : bool) (archs : list Arch) req (t : Object) (run : Op W ReconcileResult) : Task :=
  mkTask run (place t)
    (fun s => has s t /\ if quiet then resting archs req t s else workable archs t)
    (fun s => forall o, has s o -> place o = place t -> resting archs req o s).

Lemma has_agree p s s' o : agree p s s' -> place o = p -> has s o <-> has s' o.
Proof. intros [E _] <-. cbn in E. unfold has. by rewrite E. Qed.

Lemma has_unique s o o' : has s o -> has s o' -> place o = place o' -> o = o'.
Proof.
  unfold has. intros Ho Ho' [= E1 E2 E3]. unfold ObjectKeyFromObject in *.
  rewrite E1, E2, E3, Ho' in Ho. by injection Ho.
Qed.

Lemma old_task_stable quiet archs req t run :
  (forall s, t_pre (old_task quiet archs req t run) s -> exists rr s', run s = (Ok rr, s') /\
     t_post (old_task quiet archs req t run) s' /\ frame (eq (place t)) s s' /\
     (quiet = true -> only_reads s s' /\ rr_OperationResult rr = OperationResultNone)) ->
  good_task quiet (old_task quiet archs req t run).
Proof.
  intros Hrun. split; [| |exact Hrun]; cbn.
  - intros s s' Ha [Hh Hq]. split; [by apply (has_agree _ s s' t Ha)|].
    destruct quiet; [by eapply resting_agree|done].
  - intros s s' Ha Hpost o Ho Hp. rewrite <- Hp in Ha. eapply resting_agree; [exact Ha|].
    apply Hpost; [|done]. by apply (has_agree _ s s' o Ha).
Qed.

Lemma deprecate_task quiet archs req t :
  valid_owner (Instance req) -> o_kind t = KTemplate ->
  old_template_action latestVersion archs t = DeprecateTemplate ->
  good_task quiet (old_task quiet archs req t (reconcileDeprecateTemplate t req)).
Proof.
  intros Hv Hk Ha. apply old_task_stable. intros s [Hh Hq]. destruct quiet.
  - unfold resting in Hq. rewrite Ha in Hq.
    destruct (at_rest_stays req t s Hq) as (rr & s' & E & Hop & Hr & Hf & Hread).
    exists rr, s'. split_and!; try done. intros o Ho Hp. unfold has in Ho. rewrite (proj1 Hread) in Ho.
    rewrite (has_unique s o t Ho Hh Hp). unfold resting. by rewrite Ha.
  - assert (DeletionTimestamp (o_meta t) = None) as Hd.
    { pose proof (old_template_action_spec latestVersion archs t) as Hspec. rewrite Ha in Hspec. apply Hspec. }
    destruct (deprecation_rests req t s latestVersion archs Hv Hh Hk Hd)
      as (rr & s' & got & E & Hf & Hg & Hp & Hr & Hact).
    exists rr, s'. split_and!; try done. intros o Ho Hpo.
    rewrite (has_unique s' o got Ho Hg) by congruence. unfold resting. by rewrite Hact, Ha.
Qed.

Lemma delete_task quiet archs req t :
  o_kind t = KTemplate -> old_template_action latestVersion archs t = DeleteTemplate ->
  good_task quiet (old_task quiet archs req t (reconcileDeleteTemplate t req)).
Proof.
  intros Hk Ha. apply old_task_stable. intros s [Hh Hq]. destruct quiet.
  { unfold resting in Hq. by rewrite Ha in Hq. }
  destruct (Delete_gone s t Hh (Hq Ha)) as (w' & HD & Hgone & Hf). rewrite Hk in HD.
  eexists _, (with_world s w' (CDelete KTemplate (ObjectKeyFromObject t))). split_and!; [| |apply Hf|done].
  - unfold reconcileDeleteTemplate, try, Delete, call, mbind, M_bind. by rewrite HD.
  - intros o Ho Hp. unfold has in Ho. cbn in Ho. injection Hp as E1 E2 E3.
    unfold ObjectKeyFromObject in *. rewrite E1, E2, E3, Hgone in Ho. done.
Qed.

(** *** All old templates *)

(** The old templates that have something to be done. *)
Definition old_tasks (quiet : bool) (archs : list Arch) req (ts : list (string * Object)) : list Task :=
  omap (fun '(_, t) => match old_template_action latestVersion archs t with
                       | KeepTemplate => None
                       | DeleteTemplate => Some (old_task quiet archs req t (reconcileDeleteTemplate t req))
                       | DeprecateTemplate => Some (old_task quiet archs req t (reconcileDeprecateTemplate t req))
                       end) ts.

Lemma old_tasks_funcs quiet archs req ts :
  Forall2 (fun f t => forall s, f req s = t_run t s) (old_template_funcs latestVersion archs ts)
    (old_tasks quiet archs req ts).
Proof.
  unfold old_template_funcs, old_tasks. induction ts as [|[n t] ts IH]; [constructor|]. cbn.
  destruct (old_template_action latestVersion archs t); [exact IH|by constructor..].
Qed.

Lemma old_tasks_elem quiet archs req ts t :
  t ∈ old_tasks quiet archs req ts ->
  exists n o run, (n, o) ∈ ts /\ t = old_task quiet archs req o run /\
    (valid_owner (Instance req) -> o_kind o = KTemplate -> good_task quiet t).
Proof.
  unfold old_tasks. intros ([n o] & Hin & Ht)%list_elem_of_omap. exists n, o.
  destruct (old_template_action latestVersion archs o) eqn:Ea; simplify_eq; eexists; split_and!; try done.
  - intros _ Hk. by apply delete_task.
  - intros Hv Hk. by apply deprecate_task.
Qed.

Lemma old_tasks_places quiet archs req ts :
  (t_place <$> old_tasks quiet archs req ts) `sublist_of` (place <$> ts.*2).
Proof.
  unfold old_tasks. induction ts as [|[n t] ts IH]; [constructor|]. cbn.
  destruct (old_template_action latestVersion archs t); by constructor.
Qed.

Lemma old_tasks_has quiet archs req ts n o :
  (n, o) ∈ ts -> old_template_action latestVersion archs o <> KeepTemplate ->
  exists t, t ∈ old_tasks quiet archs req ts /\ t_place t = place o.
Proof.
  intros Hin Ha. unfold old_tasks. setoid_rewrite list_elem_of_omap.
  destruct (old_template_action latestVersion archs o) eqn:E;
    [done|exists (old_task quiet archs req o (reconcileDeleteTemplate o req))
     |exists (old_task quiet archs req o (reconcileDeprecateTemplate o req))];
    (split; [exists (n, o); by rewrite E|done]).
Qed.

(** The map of the old templates has every one of them, under its name. *)
Lemma foldl_add_covers (l : list Object) (m : gmap string Object) n :
  is_Some (m !! n) \/ n ∈ names l -> is_Some (foldl (fun m t => <[Name (o_meta t) := t]> m) m l !! n).
Proof.
  revert m. induction l as [|t l IH]; intros m Hn; cbn.
  - destruct Hn as [|Hn]; [done|]. by apply not_elem_of_nil in Hn.
  - apply IH. unfold names in *. rewrite fmap_cons, elem_of_cons in Hn.
    destruct (decide (n = Name (o_meta t))) as [->|Hne]; [left; by rewrite lookup_insert_eq|].
    rewrite lookup_insert_ne by done. tauto.
Qed.

Lemma nonDeployed_covers old owned ts o :
  o ∈ old \/ o ∈ owned -> Name (o_meta o) ∉ names ts ->
  is_Some (nonDeployedTemplates old owned ts !! Name (o_meta o)).
Proof.
  intros Ho Hn. unfold nonDeployedTemplates. rewrite foldl_delete_spec, decide_False by done.
  apply foldl_add_covers. destruct Ho as [Ho|Ho].
  - left. apply foldl_add_covers. right. by apply (list_elem_of_fmap_2 (fun t => Name (o_meta t))).
  - right. by apply (list_elem_of_fmap_2 (fun t => Name (o_meta t))).
Qed.

(** The entries of the map, for what the two lists of a round have. *)
Lemma old_entries req s ts old owned :
  templates_namespace req <> "" ->
  (forall o, o ∈ old \/ o ∈ owned <-> has s o /\ listed req o) ->
  forall n o, (n, o) ∈ map_range (nonDeployedTemplates old owned ts) <->
    has s o /\ listed req o /\ Name (o_meta o) = n /\ n ∉ names ts.
Proof.
  intros Hns Hl n o. rewrite map_range_perm, elem_of_map_to_list.
  assert (forall n o, nonDeployedTemplates old owned ts !! n = Some o ->
    has s o /\ listed req o /\ Name (o_meta o) = n /\ n ∉ names ts) as Hfwd.
  { intros m x (Hname & Hn & Hin)%nonDeployed_safe. apply Hl in Hin as [? ?]. by split_and!. }
  split; [apply Hfwd|]. intros (Hh & Hli & <- & Hn).
  destruct (nonDeployed_covers old owned ts o) as [o' Ho']; [by apply Hl|done|]. rewrite Ho'. f_equal.
  destruct (Hfwd _ _ Ho') as (Hh' & Hli' & Hname & _). apply (has_unique s); [done..|].
  destruct (listed_region _ _ Hns Hli) as [E1 E2], (listed_region _ _ Hns Hli') as [E1' E2'].
  unfold place, ObjectKeyFromObject in *. cbn in *. congruence.
Qed.

Lemma old_places_distinct req s ts old owned :
  templates_namespace req <> "" ->
  (forall o, o ∈ old \/ o ∈ owned <-> has s o /\ listed req o) ->
  NoDup (place <$> (map_range (nonDeployedTemplates old owned ts)).*2).
Proof.
  intros Hns Hl. set (l := map_range _).
  assert (NoDup l.*1) as Hnd by (unfold l; rewrite map_range_perm; apply NoDup_fst_map_to_list).
  apply (NoDup_fmap_1 (fun p : Place => key_Name p.2)).
  replace ((fun p : Place => key_Name p.2) <$> (place <$> l.*2)) with (l.*1); [done|].
  rewrite <- !list_fmap_compose. apply Forall_fmap_ext, Forall_forall. intros [n o] Hin. cbn.
  by apply (old_entries req s ts old owned Hns Hl) in Hin as (_ & _ & <- & _).
Qed.

Lemma reads_frame F s s' :
  op_cache s' = op_cache s -> op_lastSspSpec s' = op_lastSspSpec s -> only_reads s s' -> frame F s s'.
Proof. intros Hc Hl [Hw _]. unfold frame, agree. by rewrite Hw, Hc. Qed.

Lemma olds_rest ts archs n req s : olds ts archs 0 req s -> olds ts archs n req s.
Proof.
  intros Hr o Ho Hl Hn. specialize (Hr o Ho Hl Hn). destruct n; [done|]. exact (resting_workable _ _ _ _ Hr).
Qed.

(** The places without the deployed templates. *)
Definition old_region (ts : list Object) req (p : Place) : Prop :=
  templates_region req p /\ key_Name p.2 ∉ names ts.

(** The state of the old templates is decided where they are. *)
Lemma olds_agree ts archs n req s s' :
  templates_namespace req <> "" ->
  (forall p, old_region ts req p -> if n is 0 then agree p s s' else same_stored p s s') ->
  olds ts archs n req s -> olds ts archs n req s'.
Proof.
  intros Hns Hag Hol o Ho Hl Hn. specialize (Hag (place o) (conj (listed_region _ _ Hns Hl) Hn)).
  assert (has s o) as Hs.
  { unfold has in *. rewrite <- Ho. symmetry. destruct n; [apply Hag|exact Hag]. }
  specialize (Hol o Hs Hl Hn). destruct n; [by eapply resting_agree|done].
Qed.

(** The lists of a round and the functions that it makes of them. *)
Lemma deprecateOrDelete_lists req ts archs s :
  exists old owned s1,
    deprecateOrDeleteOldTemplates req ts archs s =
      (Ok (old_template_funcs latestVersion archs (map_range (nonDeployedTemplates old owned ts))), s1) /\
    op_cache s1 = op_cache s /\ op_lastSspSpec s1 = op_lastSspSpec s /\ only_reads s s1 /\
    forall o, o ∈ old \/ o ∈ owned <-> has s o /\ listed req o.
Proof.
  destruct (accepting_lists (W := W) (mkListOptions (templates_namespace req) oldTemplatesSelector) s)
    as (old & s1 & E1 & C1 & L1 & R1 & O1).
  destruct (wrapping_lists (W := W) _ "failed to list owned templates: " _
    (ListOwned_lists KTemplate req (InNamespace (templates_namespace req))) s1)
    as (owned & s2 & E2 & C2 & L2 & R2 & O2).
  exists old, owned, s2. split_and!; [|congruence|congruence|eapply only_reads_trans; eassumption|].
  - unfold deprecateOrDeleteOldTemplates. rewrite (bind_returns _ _ _ _ _ E1), Version_parses.
    by rewrite (bind_returns _ _ _ _ _ E2).
  - intros o. rewrite O1, O2. unfold has, listed. rewrite (proj1 R1). tauto.
Qed.

Lemma olds_round ts archs n req s :
  valid_owner (Instance req) -> templates_namespace req <> "" -> olds ts archs n req s ->
  exists rs s', (fs ← deprecateOrDeleteOldTemplates req ts archs; CollectResourceStatus req fs) s = (Ok rs, s') /\
    olds ts archs 0 req s' /\ frame (old_region ts req) s s' /\
    (n = 0 -> only_reads s s' /\ Forall (fun rr => rr_OperationResult rr = OperationResultNone) rs).
Proof.
  intros Hv Hns Hol.
  destruct (deprecateOrDelete_lists req ts archs s) as (old & owned & s1 & E1 & C1 & L1 & R1 & Hli).
  pose proof (reads_frame (old_region ts req) s s1 C1 L1 R1) as F1.
  assert (forall o, has s1 o <-> has s o) as Hh by (intros o; unfold has; by rewrite (proj1 R1)).
  pose proof (old_entries req s ts old owned Hns Hli) as Hent.
  set (entries := map_range (nonDeployedTemplates old owned ts)) in *.
  set (quiet := bool_decide (n = 0)). set (tasks := old_tasks quiet archs req entries).
  assert (forall t, t ∈ tasks -> exists o, t_place t = place o /\ has s o /\ listed req o /\
    Name (o_meta o) ∉ names ts /\ good_task quiet t /\ t_pre t s1) as Htasks.
  { intros t (m & o & run & Hin & -> & Hg)%old_tasks_elem. apply Hent in Hin as (Ho & Hl & <- & Hn).
    exists o. split_and!; try done.
    - apply Hg; [done|]. by apply (listed_region req).
    - cbn. split; [by apply Hh|]. specialize (Hol o Ho Hl Hn). unfold quiet. destruct n; [|done]. cbn.
      eapply resting_agree; [|exact Hol]. split; [by rewrite (proj1 R1)|by rewrite C1]. }
  destruct (tasks_run quiet req _ tasks s1 (old_tasks_funcs quiet archs req entries)) as (out & s2 & E2 & P2 & F2 & Q2).
  - apply Forall_forall. intros t (o & _ & _ & _ & _ & Hg & _)%Htasks. exact Hg.
  - eapply sublist_NoDup; [|apply old_tasks_places]. by apply (old_places_distinct req s).
  - apply Forall_forall. intros t (o & _ & _ & _ & _ & _ & Hp)%Htasks. exact Hp.
  - exists out, s2. split_and!.
    + by rewrite (bind_returns _ _ _ _ _ E1).
    + intros o Ho Hl Hn. destruct (decide (place o ∈ t_place <$> tasks)) as [Hin|Hin].
      * apply list_elem_of_fmap in Hin as (t & Hp & Hin). rewrite Forall_forall in P2.
        specialize (P2 t Hin). apply old_tasks_elem in Hin as (m & o' & run & _ & -> & _). by apply P2.
      * unfold resting. destruct (old_template_action latestVersion archs o) eqn:Ea; [done|exfalso..];
          (assert (has s o) as Hs by (apply Hh; by apply (has_agree (place o) s1 s2 o (frame_others _ _ _ _ F2 Hin)));
           destruct (old_tasks_has quiet archs req entries (Name (o_meta o)) o) as (t & Ht & Hp);
           [by apply Hent|congruence|]; apply Hin; rewrite <- Hp; by apply list_elem_of_fmap_2).
    + eapply frame_trans; [exact F1|]. eapply frame_mono; [|exact F2].
      intros p (t & -> & (o & -> & _ & Hl & Hn & _)%Htasks)%list_elem_of_fmap. split; [|done].
      by apply (listed_region req).
    + intros Hn. destruct Q2 as [R2 N2]; [by apply bool_decide_eq_true|]. split; [|done].
      eapply only_reads_trans; eassumption.
Qed.

(** *** The operand *)

Definition templates_phase (c : commonTemplates) (n : nat) req s : Prop :=
  valid_owner (Instance req) /\ templates_namespace req <> "" /\
  Forall (fun t => o_kind t = KTemplate) (deployed c req) /\
  static_phase (deployed_funcs c) n req s /\
  exists archs, GetSSPArchs (ssp_spec (Instance req)) = Ok archs /\ olds (deployed c req) archs n req s.

Record templates_startable (c : commonTemplates) req s : Prop := {
  ts_owner : valid_owner (Instance req);
  ts_namespace : templates_namespace req <> "";
  ts_bundle : Forall (fun t => o_kind t = KTemplate) (deployed c req);
  ts_distinct : NoDup (names (deployed c req));
  ts_alive : Forall (fun p => alive p s) (static_places (deployed_funcs c) req);
  ts_archs : exists archs, GetSSPArchs (ssp_spec (Instance req)) = Ok archs /\
    olds (deployed c req) archs 1 req s
}.

Lemma deployed_place_named c req p :
  p ∈ static_places (deployed_funcs c) req -> key_Name p.2 ∈ names (deployed c req).
Proof.
  rewrite deployed_places. intros (t & -> & Ht)%list_elem_of_fmap. by apply (list_elem_of_fmap_2 (fun t => Name (o_meta t))).
Qed.

Lemma deployed_place_region c req p :
  Forall (fun t => o_kind t = KTemplate) (deployed c req) ->
  p ∈ static_places (deployed_funcs c) req -> templates_region req p.
Proof.
  rewrite deployed_places, Forall_forall. intros Hk (t & -> & Ht)%list_elem_of_fmap. split; [by apply Hk|done].
Qed.

(** The count of reverted templates is all that it changes. *)
Lemma metric_counts (b : bool) rs s :
  exists s', (if b then incrementTemplatesRestoredMetric rs else mret ()) s = (Ok tt, s') /\
    op_world s' = op_world s /\ op_cache s' = op_cache s /\ op_lastSspSpec s' = op_lastSspSpec s /\
    op_trace s' = op_trace s.
Proof. destruct b; eexists; by split_and!. Qed.

Lemma templates_round c n req s :
  templates_phase c n (norm req) s ->
  exists rs s', CommonTemplates.Reconcile c req s = (Ok rs, s') /\ templates_phase c (pred n) (norm req) s' /\
    frame (templates_region (norm req)) s s' /\
    (n = 0 -> only_reads s s' /\ Forall (fun rr => rr_OperationResult rr = OperationResultNone) rs).
Proof.
  intros (Hv & Hns & Hk & Hst & archs & Harchs & Hol).
  destruct (static_round _ (deployed_stable c) n req s Hst) as (rs1 & s1 & E1 & P1 & F1 & Q1).
  destruct (metric_counts (negb (operatorIsUpgrading req) && negb (InstanceChanged req)) rs1 s1)
    as (s2 & E2 & W2 & C2 & L2 & T2).
  assert (only_reads s1 s2) as R2 by (split; [done|by apply extends_same]).
  pose proof (reads_frame (.∈ static_places (deployed_funcs c) (norm req)) s1 s2 C2 L2 R2) as F2.
  pose proof (frame_trans _ _ _ _ F1 F2) as F12.
  assert (olds (deployed c req) archs n req s2) as Hol2.
  { eapply olds_agree; [exact Hns| |exact Hol]. intros p [_ Hp].
    assert (agree p s s2) as Ha.
    { apply (frame_others _ _ _ _ F12). intros Hin. by apply Hp, (deployed_place_named c (norm req)). }
    destruct n; [done|apply Ha]. }
  destruct (olds_round (deployed c req) archs n req s2 Hv Hns Hol2) as (rs3 & s3 & E3 & O3 & F3 & Q3).
  exists (rs1 ++ rs3), s3. split_and!.
  - unfold CommonTemplates.Reconcile. change (GetSSPArchs (ssp_spec (Instance req)) = Ok archs) in Harchs.
    assert (deployed c req = getTemplatesForArchs c archs (ssp_spec (Instance req))) as Hdep
      by (unfold deployed; by rewrite Harchs).
    rewrite Harchs. unfold mbind at 1, M_bind at 1, lift at 1. rewrite <- Hdep.
    assert (reconcileTemplatesFuncs (deployed c req) = run_builder <$> deployed_funcs c req) as ->
      by (unfold deployed_funcs; by rewrite <- list_fmap_compose).
    rewrite (bind_returns _ _ _ _ _ E1), (bind_returns _ _ _ _ _ E2).
    apply bind_returned in E3 as (fs & s4 & E3 & E4).
    by rewrite (bind_returns _ _ _ _ _ E3), (bind_returns _ _ _ _ _ E4).
  - split_and!; try done.
    + eapply static_phase_agree; [|exact P1]. intros p Hp%deployed_place_named. eapply same_place_trans.
      * split; [by rewrite W2|by rewrite C2].
      * apply (frame_others _ _ _ _ F3). by intros [_ Hn].
    + exists archs. split; [done|]. by apply olds_rest.
  - eapply frame_trans; (eapply frame_mono; [|eassumption]).
    + intros p. by apply deployed_place_region.
    + by intros p [? _].
  - intros Hn. destruct (Q1 Hn) as [R1 N1], (Q3 Hn) as [R3 N3]. split; [|by apply Forall_app].
    eapply only_reads_trans; [exact R1|]. by eapply only_reads_trans.
Qed.

#[export, refine] Instance commonTemplates_settling c : Settling (operand (W := W) c) := {|
  region := templates_region; startable := templates_startable c; work := 1; phase := templates_phase c |}.
Proof.
  - intros req s s' Hsame [Hv Hns Hk Hd Ha (archs & Harchs & Hol)]. split; try done.
    + eapply all_alive_same; [|exact Ha]. intros p Hp. apply Hsame. by eapply deployed_place_region.
    + exists archs. split; [done|]. eapply olds_agree; [done| |exact Hol]. intros p [Hp _]. by apply Hsame.
  - intros req s [Hv Hns Hk Hd Ha Harchs]. split_and!; try done. apply static_phase_start; [|done].
    apply settling_list_exists.
    + apply Forall_fmap. eapply Forall_impl; [exact Hk|]. intros t Ht. by apply template_builds.
    + apply (NoDup_fmap_1 (fun p : Place => key_Name p.2)). rewrite deployed_places, <- list_fmap_compose. exact Hd.
  - intros n req s (Hv & Hns & Hk & Hst & archs & Harchs & Hol). split_and!; try done; [by apply static_phase_mono|].
    exists archs. split; [done|]. destruct n; [|exact Hol]. by apply olds_rest.
  - intros n req s s' Hag (Hv & Hns & Hk & Hst & archs & Harchs & Hol). split_and!; try done.
    + eapply static_phase_agree; [|exact Hst]. intros p Hp. apply Hag. by eapply deployed_place_region.
    + exists archs. split; [done|]. eapply olds_agree; [done| |exact Hol]. intros p [Hp _].
      destruct n; [by apply Hag|]. by apply Hag.
  - intros n req s Hph. by apply templates_round.
Defined.
End operand.
