(* ===== verification/DataSourcesPlan.v ===== *)
(** * What the data sources operand decides

    The decision of the operand (which DataSources to write, which of them are
    updated by a DataImportCron, and which crons there are) as a function of the
    DataSources and volumes in the cluster; and that carrying out the decision
    does not change it. *)

From S2P Require Import Prelude GoRuntime KubeTypes SspTypes Architecture KubeClient Cluster Common Samples Resource ResourceProofs SspController TemplateBundle CommonTemplates DataSources DataSourcesProofs StaticOperands Settling.
Import DataSources.

(** The stored object at a place. *)
Notation Look := (Kind -> ObjectKey -> option Object).

(** ** One DataSource *)

Section decision.
Context (crons : CronMap) (look : Look).

Definition has_cron_label (o : Object) : bool := map_has (KubeTypes.Labels (o_meta o)) dataImportCronLabel.

(** Whether there is a volume of this name for golden images. *)
Definition volume_there (name : string) : bool :=
  bool_decide (is_Some (look KPersistentVolumeClaim (mkKey ns name))).

(** A DataSource is updated by its cron if it already is, or if there is no
    volume that a user made. *)
Definition auto_of (ds : Object) : bool :=
  bool_decide (is_Some (crons !! ObjectKeyFromObject ds)) &&
  (match look KDataSource (ObjectKeyFromObject ds) with Some f => has_cron_label f | None => false end ||
   negb (volume_there (Name (o_meta ds)))).

Definition on_volume (ds : Object) (name : string) : Object :=
  with_ds_spec ds (mkDataSourceSpec (mkDataSourceSource (Some (mkPvcRef name ns))
    (src_Snapshot (dss_Source (ds_spec ds))) (src_DataSource (dss_Source (ds_spec ds))))).

(** The DataSource of the default architecture takes over what was there before
    there were several architectures. *)
Definition default_of (ds : Object) (auto : bool) (original : string) : Object * bool :=
  match look KDataSource (ObjectKeyFromObject ds) with
  | None => if volume_there original then (on_volume ds original, false) else (ds, auto)
  | Some f =>
      if has_cron_label f then (ds, auto)
      else match getDataSourceReadyCondition f with
           | None => (with_ds_spec ds (ds_spec f), false)
           | Some ready =>
               if bool_decide (dsc_Status ready = "True") &&
                  bool_decide (ds_PVC f = Some (mkPvcRef original ns))
               then (on_volume ds original, false) else (ds, auto)
           end
  end.

Definition info_of (default : option string) (ds : Object) : dataSourceInfo :=
  let decision := match default with
                  | Some original => default_of ds (auto_of ds) original
                  | None => (ds, auto_of ds)
                  end in
  mkDataSourceInfo decision.1 decision.2 (cron_name crons ds).
End decision.

(** The DataSources for which there is something to decide, and the references. *)
Inductive Entry :=
| Reference (i : dataSourceInfo)
| Decided (default : option string) (ds : Object).

Definition entry_info (crons : CronMap) (look : Look) (e : Entry) : dataSourceInfo :=
  match e with
  | Reference i => i
  | Decided default ds => info_of crons look default ds
  end.

(** A DataSource with the volume of its own name. *)
Record own_volume (ds : Object) : Prop := {
  ov_spec : exists st, o_body ds = DataSource (mkDataSourceSpec
              (mkDataSourceSource (Some (mkPvcRef (Name (o_meta ds)) ns)) None None)) st;
  ov_namespace : Namespace (o_meta ds) = ns
}.

Lemma own_volume_PVC ds : own_volume ds -> ds_PVC ds = Some (mkPvcRef (Name (o_meta ds)) ns).
Proof. intros [[st Hb] _]. unfold ds_PVC, ds_spec. by rewrite Hb. Qed.

Lemma newDataSource_own name : own_volume (newDataSource name).
Proof. split; [by eexists|done]. Qed.
Lemma archDataSource_own name arch : own_volume (archDataSource name arch).
Proof. split; [by eexists|done]. Qed.

(** The only label that the operand itself gives a DataSource. *)
Definition arch_labels (ds : Object) : Prop := forall k v,
  (KubeTypes.Labels (o_meta ds) ≫= lookup k) = Some v -> k = CommonTemplates.TemplateArchitectureLabel.

Definition good_entry (e : Entry) : Prop :=
  match e with
  | Reference i => exists name ref, i = mkDataSourceInfo (newDataSourceReference name ref) false ""
  | Decided default ds => (own_volume ds /\ default <> Some (Name (o_meta ds))) /\ arch_labels ds
  end.

Lemma with_ds_spec_meta ds sp : o_meta (with_ds_spec ds sp) = o_meta ds.
Proof. unfold with_ds_spec. by destruct (o_body ds). Qed.

Lemma default_of_meta look ds auto original :
  o_meta (default_of look ds auto original).1 = o_meta ds.
Proof. unfold default_of, on_volume. repeat case_match; cbn; by rewrite ?with_ds_spec_meta. Qed.

(** ** The whole decision *)

Section plan.
Context `{Process} `{MapRange}.

Definition source_entries (archs : list Arch) (source : string * list Arch) : list Entry :=
  let '(name, dsArchs) := source in
  match getDefaultDataSourceArch archs dsArchs with
  | None => []
  | Some defaultArch =>
      Reference (mkDataSourceInfo (newDataSourceReference name (archName name defaultArch)) false "") ::
      ((fun arch => Decided (if bool_decide (arch = defaultArch) then Some name else None)
                      (archDataSource name arch)) <$>
       filter (fun arch => contains archs arch = true) dsArchs)
  end.

Definition entries (coll : DataSourceCollection) (multi : bool) (archs : list Arch) : list Entry :=
  if multi then concat (source_entries archs <$> map_range coll)
  else match archs with
       | [] => []
       | arch :: _ =>
           (fun name => Decided None (newDataSource name)) <$>
           filter (fun name => TemplateBundle.Contains coll name arch = true) (map_range coll).*1
       end.

Definition plan_infos (coll : DataSourceCollection) (spec : SSPSpec) (archs : list Arch)
    (crons : CronMap) (look : Look) : list dataSourceInfo :=
  let infos := entry_info crons look <$> entries coll (multi_arch spec) archs in
  if multi_arch spec
  then addDataSourceReferenceForCrons infos (ct_DataImportCronTemplates (spec_CommonTemplates spec)) archs
  else infos.

Definition all_crons (coll : DataSourceCollection) (spec : SSPSpec) : outcome CronMap :=
  if multi_arch spec then getCronsByDataSourceMultiArch spec coll else Ok (getCronsByDataSource spec).

Definition plan (d : dataSources) (spec : SSPSpec) (look : Look) : outcome (list dataSourceInfo * list Object) :=
  archs ← GetSSPArchs spec;
  crons ← all_crons (sourceCollection d) spec;
  let infos := plan_infos (sourceCollection d) spec archs crons look in
  mret (infos, (map_range (drop_unused_crons infos crons)).*2).

Lemma append_longer (a b : string) : b <> "" -> a +:+ b <> a.
Proof. intros Hb. induction a as [|c a IH]; cbn; [done|]. by intros [= E]. Qed.

Lemma archName_longer name arch : archName name arch <> name.
Proof. by apply append_longer. Qed.

Lemma entries_good coll multi archs : Forall good_entry (entries coll multi archs).
Proof.
  unfold entries. destruct multi.
  - apply Forall_concat, Forall_fmap, Forall_forall. intros [name dsArchs] _. cbn.
    destruct (getDefaultDataSourceArch archs dsArchs) as [a|]; [|constructor].
    constructor; [by eexists _, _|]. apply Forall_fmap, Forall_forall. intros arch _.
    split; [split; [apply archDataSource_own|]|].
    + case_bool_decide; [|done]. intros [= E]. cbn in E. by apply (archName_longer name arch).
    + intros k v. cbn. by intros [<- _]%lookup_singleton_Some.
  - destruct archs as [|arch archs]; [constructor|]. apply Forall_fmap, Forall_forall. intros name _.
    split; [split; [apply newDataSource_own|done]|by intros k v].
Qed.


(** *** The decision depends on DataSources and volumes for golden images *)

Definition plan_place (p : Place) : Prop :=
  (p.1 = KDataSource \/ p.1 = KPersistentVolumeClaim) /\ key_Namespace p.2 = ns.

Lemma plan_infos_congr coll spec archs crons look look' :
  (forall e, e ∈ entries coll (multi_arch spec) archs -> entry_info crons look' e = entry_info crons look e) ->
  plan_infos coll spec archs crons look' = plan_infos coll spec archs crons look.
Proof.
  intros He. unfold plan_infos.
  assert (entry_info crons look' <$> entries coll (multi_arch spec) archs =
          entry_info crons look <$> entries coll (multi_arch spec) archs) as ->; [|done].
  apply Forall_fmap_ext, Forall_forall. exact He.
Qed.

Lemma plan_congr d spec look look' :
  (forall archs crons e, GetSSPArchs spec = Ok archs -> all_crons (sourceCollection d) spec = Ok crons ->
     e ∈ entries (sourceCollection d) (multi_arch spec) archs ->
     entry_info crons look' e = entry_info crons look e) ->
  plan d spec look' = plan d spec look.
Proof.
  intros He. unfold plan. destruct (GetSSPArchs spec) as [archs| |] eqn:Ea; [|done..]. cbn.
  destruct (all_crons (sourceCollection d) spec) as [crons| |] eqn:Ec; [|done..]. cbn.
  by rewrite (plan_infos_congr _ _ _ _ look look') by eauto.
Qed.

Lemma plan_same d spec look look' :
  (forall p, plan_place p -> look' p.1 p.2 = look p.1 p.2) -> plan d spec look' = plan d spec look.
Proof.
  intros Hl. apply plan_congr. intros archs crons e _ _ He.
  pose proof (proj1 (Forall_forall _ _) (entries_good (sourceCollection d) (multi_arch spec) archs) e He) as Hg.
  destruct e as [i|default ds]; [done|]. destruct Hg as [[Hown _] _]. cbn.
  assert (look' KDataSource (ObjectKeyFromObject ds) = look KDataSource (ObjectKeyFromObject ds)) as Hds.
  { apply (Hl (KDataSource, ObjectKeyFromObject ds)). split; [by left|apply Hown]. }
  assert (forall name, volume_there look' name = volume_there look name) as Hv.
  { intros name. unfold volume_there. pose proof (Hl (KPersistentVolumeClaim, mkKey ns name)) as E.
    cbn in E. rewrite E; [done|]. split; [by right|done]. }
  unfold info_of, auto_of, default_of. rewrite Hds, !Hv. destruct default; by rewrite ?Hv.
Qed.

(** *** Carrying it out does not change it *)

(** What becomes of the DataSource [found] when [i] is carried out. *)
Record written (i : dataSourceInfo) (found : option Object) (f : Object) : Prop := {
  wr_label : has_cron_label f = autoUpdateEnabled i;
  wr_spec : autoUpdateEnabled i = false -> ds_spec f = ds_spec (dataSource i);
  wr_ready : getDataSourceReadyCondition f = found ≫= getDataSourceReadyCondition
}.

Lemma own_spec_with ds sp : own_volume ds -> ds_spec (with_ds_spec ds sp) = sp.
Proof. intros [[st Hb] _]. unfold with_ds_spec, ds_spec. by rewrite Hb. Qed.

Lemma own_spec_id ds : own_volume ds -> with_ds_spec ds (ds_spec ds) = ds.
Proof.
  intros [[st Hb] _]. destruct ds as [ty m b]. cbn in Hb. subst b. done.
Qed.

(** The three answers for the DataSource of the default architecture. *)
Lemma default_of_cases look ds auto original :
  let f0 := look KDataSource (ObjectKeyFromObject ds) in
  default_of look ds auto original = (ds, auto) \/
  (default_of look ds auto original = (on_volume ds original, false) /\
   forall ready, f0 ≫= getDataSourceReadyCondition = Some ready -> dsc_Status ready = "True") \/
  (exists f, f0 = Some f /\ default_of look ds auto original = (with_ds_spec ds (ds_spec f), false) /\
   getDataSourceReadyCondition f = None).
Proof.
  unfold default_of. destruct (look KDataSource _) as [f|]; cbn.
  - destruct (has_cron_label f); [by left|]. destruct (getDataSourceReadyCondition f) as [r|] eqn:Er.
    + destruct (_ && _) eqn:E; [|by left]. right. left. split; [done|]. intros ready [= <-].
      apply andb_true_iff in E as [E _]. by apply bool_decide_eq_true in E.
    + right. right. by exists f.
  - destruct (volume_there look original); [|by left]. right. by left.
Qed.

Section stability.
Context (crons : CronMap) (look look' : Look) (ds f : Object).
Hypothesis Hown : own_volume ds.
Hypothesis volumes : forall name, volume_there look' name = volume_there look name.
Hypothesis found : look' KDataSource (ObjectKeyFromObject ds) = Some f.

Lemma auto_of_applied : auto_of crons look' ds =
  bool_decide (is_Some (crons !! ObjectKeyFromObject ds)) &&
  (has_cron_label f || negb (volume_there look (Name (o_meta ds)))).
Proof. unfold auto_of. by rewrite found, volumes. Qed.

(** The answer is the same when the DataSource is as it would be written. *)
Lemma default_applied_auto original :
  has_cron_label f = true -> default_of look' ds (auto_of crons look' ds) original = (ds, auto_of crons look' ds).
Proof. intros Hf. unfold default_of. by rewrite found, Hf. Qed.

Lemma default_applied_own original :
  original <> Name (o_meta ds) -> has_cron_label f = false -> ds_spec f = ds_spec ds ->
  auto_of crons look' ds = false -> default_of look' ds (auto_of crons look' ds) original = (ds, false).
Proof.
  intros Hne Hf Hsp Hauto. unfold default_of. rewrite found, Hf, Hauto, Hsp.
  destruct (getDataSourceReadyCondition f); [|by rewrite own_spec_id].
  rewrite (bool_decide_false (ds_PVC f = _)), andb_false_r; [done|].
  unfold ds_PVC. rewrite Hsp. pose proof (own_volume_PVC ds Hown) as Hp. unfold ds_PVC in Hp. rewrite Hp. congruence.
Qed.

Lemma default_applied_volume auto original :
  has_cron_label f = false -> ds_spec f = ds_spec (on_volume ds original) ->
  (forall ready, getDataSourceReadyCondition f = Some ready -> dsc_Status ready = "True") ->
  default_of look' ds auto original = (on_volume ds original, false).
Proof.
  intros Hf Hsp Hready. unfold default_of. rewrite found, Hf.
  destruct (getDataSourceReadyCondition f) as [r|].
  - rewrite (bool_decide_true (dsc_Status r = _)) by by apply Hready.
    rewrite bool_decide_true; [done|]. unfold ds_PVC. rewrite Hsp. unfold on_volume. by rewrite own_spec_with.
  - rewrite Hsp. unfold on_volume at 1. by rewrite own_spec_with.
Qed.

Lemma info_of_applied default :
  default <> Some (Name (o_meta ds)) ->
  written (info_of crons look default ds) (look KDataSource (ObjectKeyFromObject ds)) f ->
  info_of crons look' default ds = info_of crons look default ds.
Proof.
  unfold info_of. intros Hne [Hl Hsp Hr]. cbn in *.
  pose proof auto_of_applied as Hauto. pose proof default_applied_auto as D1.
  pose proof default_applied_own as D2. pose proof default_applied_volume as D3.
  set (A' := auto_of crons look' ds) in *. set (A := auto_of crons look ds) in *.
  assert (has_cron_label f = A -> A' = A) as HA.
  { intros E. rewrite Hauto, E. unfold A, auto_of.
    assert (forall c l v, c && (c && (l || v) || v) = c && (l || v)) as -> by by intros [] [] []. done. }
  destruct default as [original|]; [|by rewrite (HA Hl)].
  assert (original <> Name (o_meta ds)) as Hne' by congruence.
  assert ((default_of look ds A original) = (ds, A) -> default_of look' ds A' original = (ds, A)) as Hkeep.
  { intros E. rewrite E in Hl, Hsp. cbn in Hl, Hsp. specialize (HA Hl). destruct A.
    - rewrite D1 by done. by rewrite HA.
    - apply D2; [done|done|by apply Hsp|done]. }
  assert (default_of look' ds A' original = default_of look ds A original) as E; [|by rewrite E].
  destruct (default_of_cases look ds A original) as [E|[[E Hready]|(f0 & Hf0 & E & Hn)]].
  - rewrite E. by apply Hkeep.
  - rewrite E in Hl, Hsp |- *. apply D3; [done|by apply Hsp|]. intros ready. rewrite Hr. apply Hready.
  - rewrite E in Hl, Hsp |- *. cbn in Hl, Hsp. specialize (Hsp eq_refl). rewrite own_spec_with in Hsp by done.
    unfold default_of. rewrite found, Hl, Hr, Hf0. cbn. by rewrite Hn, Hsp.
Qed.
End stability.

(** What all decided DataSources have in common. *)
Record good_info (i : dataSourceInfo) : Prop := {
  gi_body : exists sp st, o_body (dataSource i) = DataSource sp st;
  gi_namespace : Namespace (o_meta (dataSource i)) = ns;
  gi_labels : arch_labels (dataSource i)
}.

Lemma reference_good name ref : good_info (mkDataSourceInfo (newDataSourceReference name ref) false "").
Proof. split; [by eexists _, _|done|by intros k v]. Qed.

Lemma with_ds_spec_body ds sp0 st sp :
  o_body ds = DataSource sp0 st -> o_body (with_ds_spec ds sp) = DataSource sp st.
Proof. unfold with_ds_spec. by intros ->. Qed.

Lemma entry_info_good crons look e : good_entry e -> good_info (entry_info crons look e).
Proof.
  destruct e as [i|default ds]; cbn.
  - intros (name & ref & ->). apply reference_good.
  - intros [[[[st Hb] Hns] _] Hl].
    assert (o_meta (dataSource (info_of crons look default ds)) = o_meta ds) as Hm.
    { unfold info_of. destruct default; [apply default_of_meta|done]. }
    split; [|by rewrite Hm|unfold arch_labels; by rewrite Hm]. unfold info_of. cbn.
    destruct default as [original|]; [|by eexists _, _]. unfold default_of, on_volume.
    repeat case_match; cbn; try (by eexists _, _); eexists _, _; by eapply with_ds_spec_body.
Qed.

Lemma add_references_keeps infos ts archs i :
  i ∈ infos -> i ∈ addDataSourceReferenceForCrons infos ts archs.
Proof.
  revert infos. induction ts as [|t ts IH]; intros infos Hi; [done|]. cbn. apply IH.
  repeat case_match; try done. apply elem_of_app. by left.
Qed.

Lemma add_references_all (P : dataSourceInfo -> Prop) infos ts archs :
  (forall name ref, P (mkDataSourceInfo (newDataSourceReference name ref) false "")) ->
  Forall P infos -> Forall P (addDataSourceReferenceForCrons infos ts archs).
Proof.
  intros Href. revert infos. induction ts as [|t ts IH]; intros infos Hi; [done|]. cbn. apply IH.
  repeat case_match; try done. apply Forall_app. split; [done|]. by apply Forall_singleton.
Qed.

Lemma plan_infos_keeps coll spec archs crons look e :
  e ∈ entries coll (multi_arch spec) archs -> entry_info crons look e ∈ plan_infos coll spec archs crons look.
Proof.
  intros He. unfold plan_infos. apply (list_elem_of_fmap_2 (entry_info crons look)) in He.
  destruct (multi_arch spec); [by apply add_references_keeps|done].
Qed.

Lemma plan_good d spec look infos crons :
  plan d spec look = Ok (infos, crons) -> Forall good_info infos /\ Forall is_cron crons.
Proof.
  unfold plan. intros (archs & Ha & Hp)%outcome_bind_Ok. apply outcome_bind_Ok in Hp as (cm & Hc & [= <- <-]).
  split.
  - assert (Forall good_info (entry_info cm look <$> entries (sourceCollection d) (multi_arch spec) archs)) as Hg.
    { apply Forall_fmap. eapply Forall_impl; [apply entries_good|]. intros e. apply entry_info_good. }
    unfold plan_infos. destruct (multi_arch spec); [|done]. by apply add_references_all; [apply reference_good|].
  - apply drop_unused_decided. unfold all_crons in Hc. destruct (multi_arch spec).
    + by apply getCronsMultiArch_entries in Hc.
    + injection Hc as <-. apply getCrons_entries.
Qed.

(** Once the decision has been carried out, the operand decides the same. *)
Theorem plan_stable d spec look look' infos crons :
  plan d spec look = Ok (infos, crons) ->
  (forall name, look' KPersistentVolumeClaim (mkKey ns name) = look KPersistentVolumeClaim (mkKey ns name)) ->
  (forall i, i ∈ infos -> exists f, look' KDataSource (ObjectKeyFromObject (dataSource i)) = Some f /\
     written i (look KDataSource (ObjectKeyFromObject (dataSource i))) f) ->
  plan d spec look' = Ok (infos, crons).
Proof.
  intros Hp Hv Hw. rewrite <- Hp. apply plan_congr. intros archs cm e Ha Hc He.
  unfold plan in Hp. rewrite Ha in Hp. cbn in Hp. rewrite Hc in Hp. cbn in Hp. injection Hp as <- _.
  pose proof (plan_infos_keeps (sourceCollection d) spec archs cm look e He) as Hin.
  pose proof (proj1 (Forall_forall _ _) (entries_good (sourceCollection d) (multi_arch spec) archs) e He) as Hg.
  destruct e as [i|default ds]; [done|]. destruct Hg as [[Hown Hne] _]. cbn in *.
  destruct (Hw _ Hin) as (f & Hf & Hwr).
  assert (ObjectKeyFromObject (dataSource (info_of cm look default ds)) = ObjectKeyFromObject ds) as Hkey.
  { unfold ObjectKeyFromObject, info_of. cbn. destruct default; [by rewrite default_of_meta|done]. }
  rewrite Hkey in Hf, Hwr. apply (info_of_applied cm look look' ds f); try done.
  intros name. unfold volume_there. by rewrite Hv.
Qed.

(** ** The code decides so *)

Section quiet.
Context `{QuietSSP W} `{!FreshClient W}.
Implicit Types (s : OpSt W).

Definition read_only s s' : Prop :=
  op_cache s' = op_cache s /\ op_lastSspSpec s' = op_lastSspSpec s /\ only_reads s s'.

Lemma read_only_refl s : read_only s s.
Proof. split_and!; [done..|apply only_reads_refl]. Qed.
Lemma read_only_trans s1 s2 s3 : read_only s1 s2 -> read_only s2 s3 -> read_only s1 s3.
Proof.
  intros (C1 & L1 & R1) (C2 & L2 & R2). split_and!; [congruence..|]. eapply only_reads_trans; eassumption.
Qed.
Lemma read_only_call s c : is_read c = true -> read_only s (with_world s (op_world s) c).
Proof. intros Hc. split_and!; [done..|]. split; [done|]. exists [c]. split; [done|]. by constructor. Qed.

(** The program returns this and changes nothing. *)
Definition yields {A} (m : Op W A) s (a : A) : Prop := exists s', m s = (Ok a, s') /\ read_only s s'.

Lemma yields_ret {A} (a : A) s : yields (mret a) s a.
Proof. exists s. split; [done|apply read_only_refl]. Qed.

Lemma yields_bind {A B} (m : Op W A) (f : A -> Op W B) s a b :
  yields m s a -> (forall s', op_world s' = op_world s -> yields (f a) s' b) -> yields (m ≫= f) s b.
Proof.
  intros (s1 & E1 & R1) Hf. destruct (Hf s1) as (s2 & E2 & R2); [apply R1|]. exists s2.
  split; [by rewrite (bind_returns _ _ _ _ _ E1)|]. by eapply read_only_trans.
Qed.

Lemma yields_wrapping {A} p (m : Op W A) s a : yields m s a -> yields (wrapping p m) s a.
Proof. intros (s' & E & R). exists s'. split; [|done]. unfold wrapping. by rewrite E. Qed.

Lemma yields_lift {A} (m : outcome A) s a : m = Ok a -> yields (lift m) s a.
Proof. intros ->. exists s. split; [done|apply read_only_refl]. Qed.

Lemma yields_mapM {A B} (f : A -> Op W B) (g : A -> B) l s :
  (forall a s', a ∈ l -> op_world s' = op_world s -> yields (f a) s' (g a)) -> yields (mapM f l) s (g <$> l).
Proof.
  revert s. induction l as [|a l IH]; intros s Hf; [apply yields_ret|].
  change (mapM f (a :: l)) with (b ← f a; bs ← mapM f l; mret (b :: bs)).
  eapply yields_bind; [by apply Hf; [apply list_elem_of_here|]|]. intros s1 Hw1.
  eapply yields_bind; [apply IH|].
  - intros x s2 Hx Hw2. apply Hf; [by apply list_elem_of_further|congruence].
  - intros s2 _. apply yields_ret.
Qed.

(** A read whose answer is the stored object, or that there is none. *)
Lemma yields_get {A} (uncached : bool) k key (f : error + Object -> Op W A) s a :
  (forall o s', stored (op_world s) k key = Some o -> op_world s' = op_world s -> yields (f (inr o)) s' a) ->
  (forall e s', stored (op_world s) k key = None -> IsNotFound e = true -> op_world s' = op_world s ->
     yields (f (inl e)) s' a) ->
  yields (try (if uncached then UncachedGet k key else Get k key) ≫= f) s a.
Proof.
  intros Hsome Hnone.
  assert (exists s1 got, try (if uncached then UncachedGet k key else Get k key) s = (Ok got, s1) /\
    read_only s s1 /\
    match got with
    | inr o => stored (op_world s) k key = Some o
    | inl e => stored (op_world s) k key = None /\ IsNotFound e = true
    end) as (s1 & got & E & R & Hgot).
  { assert (forall c, is_read c = true -> exists s1 got, try (call c (cl_Get (W := W) k key)) s = (Ok got, s1) /\
      read_only s s1 /\
      match got with
      | inr o => stored (op_world s) k key = Some o
      | inl e => stored (op_world s) k key = None /\ IsNotFound e = true
      end) as Hget.
    { intros c Hc. unfold try, call. destruct (stored (op_world s) k key) as [o|] eqn:Eo.
      - rewrite (quiet_get_some _ _ _ _ Eo). eexists _, (inr o). split_and!; [done|by apply read_only_call..|done].
      - destruct (quiet_get_none _ _ _ Eo) as (e & -> & He). eexists _, (inl e).
        split_and!; [done|by apply read_only_call..|done|done]. }
    destruct uncached.
    - destruct (Hget (CUncachedGet k key) eq_refl) as (s1 & got & E & HR).
      exists s1, got. split; [|done]. rewrite <- E. unfold try, UncachedGet, call. by rewrite fresh_get.
    - apply (Hget (CGet k key) eq_refl). }
  assert (yields (f got) s1 a) as (s2 & E2 & R2).
  { destruct got as [e|o]; [destruct Hgot; apply Hnone|apply Hsome]; try done; apply R. }
  exists s2. split; [|by eapply read_only_trans]. by rewrite (bind_returns _ _ _ _ _ E).
Qed.

Lemma checkIfPvcExists_yields ds s :
  own_volume ds -> yields (checkIfPvcExists ds) s (volume_there (stored (op_world s)) (Name (o_meta ds))).
Proof.
  intros Ho. unfold checkIfPvcExists. rewrite (own_volume_PVC ds Ho). cbn.
  apply (yields_get true); unfold volume_there.
  - intros o s' -> _. apply yields_ret.
  - intros e s' -> -> _. apply yields_ret.
Qed.

Lemma auto_yields crons ds s :
  own_volume ds -> yields (dataSourceAutoUpdateEnabled ds crons) s (auto_of crons (stored (op_world s)) ds).
Proof.
  intros Ho. unfold dataSourceAutoUpdateEnabled, auto_of.
  destruct (crons !! ObjectKeyFromObject ds) as [cron|]; [|apply yields_ret]. cbn.
  assert (forall s', op_world s' = op_world s -> yields (pvcExists ← checkIfPvcExists ds; mret (negb pvcExists)) s'
    (negb (volume_there (stored (op_world s)) (Name (o_meta ds))))) as Hvol.
  { intros s' Hw. eapply yields_bind; [by apply checkIfPvcExists_yields|]. intros s2 _. rewrite Hw. apply yields_ret. }
  apply (yields_get false).
  - intros f s' -> Hw. fold (has_cron_label f). destruct (has_cron_label f); [apply yields_ret|]. cbn.
    assert (same_pvc_pointer f ds = false) as ->.
    { unfold same_pvc_pointer. rewrite (own_volume_PVC ds Ho). apply andb_false_r. }
    destruct (getDataSourceReadyCondition f); by apply Hvol.
  - intros e s' -> -> Hw. by apply Hvol.
Qed.

Lemma on_volume_eq ds name : with_pvc_name ds (mkPvcRef (Name (o_meta ds)) ns) name = on_volume ds name.
Proof. done. Qed.

Lemma default_yields ds auto original s :
  own_volume ds ->
  yields (handleDefaultDataSource ds auto original) s (default_of (stored (op_world s)) ds auto original).
Proof.
  intros Ho. pose proof (own_volume_PVC ds Ho) as Hpvc. unfold handleDefaultDataSource, default_of.
  apply (yields_get false).
  - intros f s' -> Hw. fold (has_cron_label f). destruct (has_cron_label f); [apply yields_ret|].
    destruct (getDataSourceReadyCondition f) as [ready|]; [|apply yields_ret].
    case_bool_decide as Hr; cbn [andb]; [|apply yields_ret].
    destruct (ds_PVC f) as [[n m]|]; cbn; [|apply yields_ret]. rewrite (ov_namespace ds Ho).
    repeat case_bool_decide; simplify_eq; cbn; try apply yields_ret; try done.
    rewrite Hpvc. apply yields_ret.
  - intros e s' -> -> Hw. cbn. rewrite Hpvc. cbn. apply (yields_get true); rewrite Hw; unfold volume_there.
    + intros o s2 -> _. apply yields_ret.
    + intros e' s2 -> -> _. apply yields_ret.
Qed.

Lemma cron_name_meta crons ds ds' : o_meta ds' = o_meta ds -> cron_name crons ds' = cron_name crons ds.
Proof. intros E. unfold cron_name, ObjectKeyFromObject. by rewrite E. Qed.

Lemma source_infos_yields archs crons source s :
  yields (source_infos archs crons source) s
    (entry_info crons (stored (op_world s)) <$> source_entries archs source).
Proof.
  destruct source as [name dsArchs]. unfold source_infos, source_entries.
  destruct (getDefaultDataSourceArch archs dsArchs) as [a|]; [|apply yields_ret].
  eapply yields_bind; [apply (yields_mapM _ (fun arch => info_of crons (stored (op_world s))
    (if bool_decide (arch = a) then Some name else None) (archDataSource name arch)))|].
  - intros arch s1 _ Hw1. unfold arch_info, info_of. pose proof (archDataSource_own name arch) as Hown.
    eapply yields_bind; [by apply auto_yields|]. intros s2 Hw2. rewrite Hw1 in *. case_bool_decide.
    + eapply yields_bind; [by apply yields_wrapping, default_yields|]. intros s3 _. rewrite Hw2.
      pose proof (default_of_meta (stored (op_world s)) (archDataSource name arch)
        (auto_of crons (stored (op_world s)) (archDataSource name arch)) name) as Hm.
      destruct (default_of _ _ _ _) as [ds' auto']. cbn [fst snd] in *. rewrite <- (cron_name_meta crons (archDataSource name arch) ds' Hm). apply yields_ret.
    + eapply yields_bind; [apply yields_ret|]. intros s3 _. apply yields_ret.
  - intros s2 _. cbn. rewrite <- list_fmap_compose. apply yields_ret.
Qed.

Lemma infos_yields coll crons req archs s :
  GetSSPArchs (ssp_spec (Instance req)) = Ok archs ->
  let spec := ssp_spec (Instance req) in
  yields (if multi_arch spec then getDataSourceInfosMultiArch coll crons req
          else getDataSourceInfos coll crons req) s
    (entry_info crons (stored (op_world s)) <$> entries coll (multi_arch spec) archs).
Proof.
  intros Ha spec. unfold entries. destruct (multi_arch spec) eqn:Em.
  - unfold getDataSourceInfosMultiArch. fold spec. rewrite Em. cbn [negb].
    eapply yields_bind; [by apply yields_lift|]. intros s1 Hw1. eapply yields_bind;
      [apply (yields_mapM _ (fun source => entry_info crons (stored (op_world s)) <$> source_entries archs source))|].
    + intros source s2 _ Hw2. rewrite <- Hw1, <- Hw2. apply source_infos_yields.
    + intros s2 _. unfold fmap at 2, list_fmap. rewrite List.concat_map, List.map_map. apply yields_ret.
  - unfold getDataSourceInfos. fold spec. rewrite Em. eapply yields_bind; [by apply yields_lift|].
    intros s1 Hw1.
    assert (archs <> []) as Hne.
    { intros ->. revert Ha. fold spec. unfold GetSSPArchs. rewrite Em.
      destruct (spec_Cluster spec); [|by destruct (wrap_err _ _)]. case_match; [done|]. by destruct (ToArch s0). }
    destruct archs as [|arch archs]; [done|]. rewrite <- list_fmap_compose. apply yields_mapM.
    intros name s2 _ Hw2. eapply yields_bind; [apply auto_yields, newDataSource_own|].
    intros s3 _. rewrite Hw2, Hw1. apply yields_ret.
Qed.

(** What the operand decides is a function of the stored DataSources and volumes. *)
Theorem getDataSourcesAndCrons_plan d req s decision :
  plan d (ssp_spec (Instance req)) (stored (op_world s)) = Ok decision ->
  yields (getDataSourcesAndCrons d req) s decision.
Proof.
  unfold plan. intros (archs & Ha & Hp)%outcome_bind_Ok. apply outcome_bind_Ok in Hp as (crons & Hc & [= <-]).
  assert (forall s', op_world s' = op_world s -> yields
    (if multi_arch (ssp_spec (Instance req)) then getDataSourceInfosMultiArch (sourceCollection d) crons req
     else getDataSourceInfos (sourceCollection d) crons req) s'
    (entry_info crons (stored (op_world s)) <$>
       entries (sourceCollection d) (multi_arch (ssp_spec (Instance req))) archs)) as Hi.
  { intros s' <-. by apply infos_yields. }
  unfold getDataSourcesAndCrons, plan_infos, all_crons in *.
  set (spec := ssp_spec (Instance req)) in *. set (infos := entry_info _ _ <$> _) in *. destruct (multi_arch spec).
  - set (all := addDataSourceReferenceForCrons _ _ _). apply (yields_bind _ _ _ (crons, all)).
    + eapply yields_bind; [by apply yields_wrapping, yields_lift|]. intros s1 Hw1.
      eapply yields_bind; [by apply yields_wrapping, Hi|]. intros s2 _.
      eapply yields_bind; [by apply yields_wrapping, yields_lift|]. intros s3 _. apply yields_ret.
    + intros s1 _. apply yields_ret.
  - injection Hc as <-. apply (yields_bind _ _ _ (getCronsByDataSource spec, infos)).
    + eapply yields_bind; [by apply yields_wrapping, Hi|]. intros s2 _. apply yields_ret.
    + intros s1 _. apply yields_ret.
Qed.

End quiet.
End plan.

(** ** The decision before and after a round *)

Module PlanWitness.
Import DataSourcesWitness.
#[local] Existing Instance Samples.process.
#[local] Existing Instance sorted_range.

Definition before : OpSt MemCluster := start Samples.cluster.
Definition after : OpSt MemCluster := (DataSources.Reconcile operator request before).2.

Lemma no_volumes (s : OpSt MemCluster) :
  forallb (fun o => negb (bool_decide (o_kind o = KPersistentVolumeClaim)))
    (map_to_list (mc_objects (op_world s))).*2 = true ->
  forall key, stored (op_world s) KPersistentVolumeClaim key = None.
Proof.
  intros Hb key. destruct (stored _ _ _) as [o|] eqn:E; [|done]. exfalso.
  apply Mem.stored_lookup in E as [E (Hk & _)%Mem.valid_spec]. rewrite forallb_forall in Hb.
  specialize (Hb o). rewrite negb_true_iff, bool_decide_eq_false in Hb. apply Hb; [|done].
  apply list_elem_of_In, list_elem_of_fmap. eexists (_, o). split; [done|]. by apply elem_of_map_to_list.
Qed.

End PlanWitness.
