(* ===== verification/DataSourcesSettling.v ===== *)
(** * The data sources settle

    [Settling] for the operand data-sources. The first round carries out what the
    operand decides ([DataSourcesPlan]) and removes what it does not want any
    more; a DataImportCron whose spec has changed is deleted in the first round
    and created in the second. *)

From S2P Require Import Prelude GoRuntime KubeTypes SspTypes Architecture KubeClient Cluster Common Resource ResourceProofs CleanupProofs SspController StaticOperands Settling Convergence Deletion TemplateBundle CommonTemplates DataSources DataSourcesProofs DataSourcesPlan OperandSettling OperandClearing TemplatesSettling.
Import DataSources.

#[local] Arguments update_map : simpl never.

(** ** One DataSource *)

Definition ds_builder (req : Request) (i : dataSourceInfo) : reconcileBuilder :=
  UpdateFunc (Options (ClusterResource req (dataSource i)) true) (updateDataSource i (Instance req)).

Lemma ds_prepared req i :
  valid_owner (Instance req) ->
  exists res, prepared (ds_builder req i) = Ok res /\ o_body res = o_body (dataSource i) /\
    place res = place (dataSource i) /\ OwnerReferences (o_meta res) = [] /\
    KubeTypes.Labels (o_meta res) = KubeTypes.Labels (o_meta (dataSource i)) /\
    Annotations (o_meta res) <> None.
Proof.
  intros [Hn Hk]. unfold prepared, setOwner. cbn. unfold Owner.SetOwnerAnnotations.
  rewrite !bool_decide_false by done. eexists. by split_and!.
Qed.

(** The labels that the update function leaves. *)
Definition final_labels (req : Request) (i : dataSourceInfo) (ls : smap) : smap :=
  if autoUpdateEnabled i then <[dataImportCronLabel := dataImportCronName i]> ls
  else delete dataImportCronLabel (Labels.addCommonLabels ls (Instance req) operandName operandComponent).

Definition final_body (i : dataSourceInfo) (b : Body) : Body :=
  if autoUpdateEnabled i then b
  else match o_body (dataSource i), b with
       | DataSource sp _, DataSource _ st => DataSource sp st
       | _, _ => b
       end.

Definition ds_result (req : Request) (i : dataSourceInfo) (res o : Object) : Object :=
  mkObject (o_type o)
    (with_labels (restored_meta res (o_meta o))
       (Some (final_labels req i (default ∅ (update_map (KubeTypes.Labels (o_meta res)) (KubeTypes.Labels (o_meta o)))))))
    (final_body i (o_body o)).

Lemma ds_mutates req i res cache o :
  good_info i -> o_body res = o_body (dataSource i) -> o_kind o = KDataSource ->
  DeletionTimestamp (o_meta o) = None ->
  exists e', mutateFn (ds_builder req i) cache res o = Ok (e', ds_result req i res o).
Proof.
  intros [(sp & st & Hb) _ _] Hres Hk Hd. rewrite mutateFn_alive by done. cbv zeta.
  cbn [AlwaysCallUpdateFunc ds_builder UpdateFunc Options ClusterResource CreateOrUpdate orb updateFunc].
  unfold updateDataSource, ds_result, final_labels, final_body. unfold o_kind in Hk.
  destruct (autoUpdateEnabled i); [by eexists|]. rewrite Hres, Hb. cbn [o_body with_meta].
  destruct (o_body o); try done. by eexists.
Qed.

Lemma ds_result_same req i res o :
  good_info i -> o_kind o = KDataSource ->
  o_kind (ds_result req i res o) = KDataSource /\ same_identity (o_meta o) (o_meta (ds_result req i res o)).
Proof.
  intros [(sp & st & Hb) _ _] Hk. split; [|done]. unfold o_kind in *. cbn. unfold final_body. rewrite Hb.
  destruct (autoUpdateEnabled i); [done|]. by destruct (o_body o).
Qed.

(** The update function adds nothing the second time. *)
Lemma final_labels_idem req i ls : final_labels req i (final_labels req i ls) = final_labels req i ls.
Proof.
  unfold final_labels. destruct (autoUpdateEnabled i); [apply insert_insert_eq|].
  apply map_eq. intros k. destruct (decide (k = dataImportCronLabel)) as [->|Hk].
  - by rewrite !lookup_delete_eq.
  - rewrite !lookup_delete_ne by done. rewrite <- (Labels.addCommonLabels_idem ls) at 2.
    apply addCommonLabels_local. by rewrite lookup_delete_ne.
Qed.

Lemma final_labels_arch req i ls :
  final_labels req i ls !! CommonTemplates.TemplateArchitectureLabel = ls !! CommonTemplates.TemplateArchitectureLabel.
Proof.
  unfold final_labels. destruct (autoUpdateEnabled i); [by rewrite lookup_insert_ne|].
  rewrite lookup_delete_ne by done. apply Labels.addCommonLabels_foreign.
  by apply (bool_decide_eq_false_1 (_ ∈ _)).
Qed.

Lemma final_body_idem i b : final_body i (final_body i b) = final_body i b.
Proof.
  unfold final_body. destruct (autoUpdateEnabled i); [done|].
  destruct (o_body (dataSource i)) eqn:E; try done. by destruct b.
Qed.

(** Restoring over what was already restored. *)
Lemma update_map_idem e m : update_map e (update_map e m) = update_map e m.
Proof.
  unfold update_map, updateStringMap. destruct m as [m|], e as [e|]; cbn; try done; f_equal.
  - apply union_absorb, map_union_subseteq_l.
  - apply (idemp_L (∪)).
Qed.

Lemma update_map_id e ls : map_kept e (Some ls) -> update_map e (Some ls) = Some ls.
Proof.
  intros Hk. unfold update_map, updateStringMap. destruct e as [e|]; [|done]. f_equal.
  apply union_absorb, map_subseteq_spec. intros k v. apply (Hk k v).
Qed.

Lemma restored_with_labels e m ls :
  OwnerReferences m = OwnerReferences (o_meta e) -> KubeTypes.Labels m = ls ->
  update_map (Annotations (o_meta e)) (Annotations m) = Annotations m ->
  with_labels (restored_meta e m) ls = m.
Proof.
  intros Ho Hl Ha. unfold restored_meta, with_labels, with_annotations, with_owners. cbn.
  rewrite Ha, <- Ho, <- Hl. by destruct m.
Qed.

(** What the server stores of a result needs no change. *)
Lemma ds_result_stored req i res o got :
  good_info i -> OwnerReferences (o_meta res) = [] ->
  KubeTypes.Labels (o_meta res) = KubeTypes.Labels (o_meta (dataSource i)) ->
  persisted (ds_result req i res o) got -> as_sent (ds_result req i res o) got ->
  ds_result req i res got = got.
Proof.
  intros [_ _ Hal] Hro Hrl Hp (Hb & Hl & Ha & _). pose proof (persisted_owners _ _ Hp) as Ho.
  cbn in Hb, Hl, Ha, Ho. unfold ds_result at 1.
  set (ls := default ∅ (update_map (KubeTypes.Labels (o_meta res)) (KubeTypes.Labels (o_meta o)))) in *.
  assert (update_map (KubeTypes.Labels (o_meta res)) (Some (final_labels req i ls)) = Some (final_labels req i ls)) as El.
  { apply update_map_id. intros k v Hk. rewrite Hrl in Hk. pose proof (Hal k v Hk) as ->. cbn.
    rewrite final_labels_arch. unfold ls. rewrite <- Hrl in Hk. apply (update_map_kept _ (KubeTypes.Labels (o_meta o))) in Hk.
    by destruct (update_map _ _). }
  rewrite Hl, Hb, El. change (default ∅ (Some (final_labels req i ls))) with (final_labels req i ls).
  rewrite final_labels_idem, final_body_idem.
  rewrite restored_with_labels; [|by rewrite Ho|done|].
  - rewrite <- Hb. by destruct got.
  - rewrite Ha. apply update_map_idem.
Qed.

(** What a result looks like to the next decision. *)
Lemma ds_result_written req i res o :
  good_info i -> o_kind o = KDataSource ->
  written i (Some o) (ds_result req i res o).
Proof.
  intros [(sp & st & Hb) _ _] Hk. unfold o_kind in Hk. split.
  - unfold has_cron_label, map_has. cbn. unfold final_labels. destruct (autoUpdateEnabled i).
    + apply bool_decide_eq_true. rewrite lookup_insert_eq. by eexists.
    + apply bool_decide_eq_false. rewrite lookup_delete_eq. by intros [? [=]].
  - intros Ha. unfold ds_spec, ds_result, final_body. cbn. rewrite Ha, Hb. by destruct (o_body o).
  - unfold getDataSourceReadyCondition, ds_result, final_body. cbn. rewrite Hb.
    destruct (autoUpdateEnabled i); [done|]. by destruct (o_body o).
Qed.

(** Nor does the decision see differences that the server or Go do not make. *)
Lemma written_same i found o o' :
  o_body o' = o_body o -> canon_map (KubeTypes.Labels (o_meta o')) = canon_map (KubeTypes.Labels (o_meta o)) ->
  written i found o -> written i found o'.
Proof.
  intros Hb Hl [W1 W2 W3].
  assert (has_cron_label o' = has_cron_label o) as Hh.
  { assert (forall m, map_has (canon_map m) dataImportCronLabel = map_has m dataImportCronLabel) as Hc.
    { intros m. unfold canon_map. case_bool_decide; by simplify_eq. }
    unfold has_cron_label. by rewrite <- Hc, Hl, Hc. }
  split.
  - by rewrite Hh.
  - unfold ds_spec in *. by rewrite Hb.
  - unfold getDataSourceReadyCondition in *. by rewrite Hb.
Qed.

Lemma ds_equiv_body o o' : o_kind o = KDataSource -> o ≡ o' -> o_body o = o_body o'.
Proof.
  intros Hk Heq. pose proof (f_equal o_body Heq) as Hb. unfold o_kind in Hk. cbn in Hb.
  destruct (o_body o), (o_body o'); cbn in *; congruence.
Qed.

Section quiet.
Context `{QuietSSP W} `{!PlainStore W KDataSource}.
Implicit Types (s : OpSt W).

(** A DataSource that later rounds leave alone. *)
Definition ds_fixed (req : Request) (i : dataSourceInfo) (f : Object) : Prop :=
  DeletionTimestamp (o_meta f) = None /\
  forall res, prepared (ds_builder req i) = Ok res -> f ≡ ds_result req i res f.

Definition ds_task (quiet : bool) (req : Request) (i : dataSourceInfo) (found : option Object) : Task :=
  let p := place (dataSource i) in
  mkTask (reconcileDataSource (W := W) i req) p
    (fun s => stored (op_world s) p.1 p.2 = found /\
       forall f, found = Some f -> DeletionTimestamp (o_meta f) = None /\ (quiet = true -> ds_fixed req i f))
    (fun s => exists f, stored (op_world s) p.1 p.2 = Some f /\ ds_fixed req i f /\ written i found f).

Lemma good_info_kind i : good_info i -> o_kind (dataSource i) = KDataSource.
Proof. intros [(sp & st & Hb) _ _]. unfold o_kind. by rewrite Hb. Qed.

Lemma ds_task_found quiet req i f s :
  valid_owner (Instance req) -> good_info i -> t_pre (ds_task quiet req i (Some f)) s ->
  exists rr s', reconcileDataSource i req s = (Ok rr, s') /\ t_post (ds_task quiet req i (Some f)) s' /\
    frame (eq (place (dataSource i))) s s' /\
    (quiet = true -> only_reads s s' /\ rr_OperationResult rr = OperationResultNone).
Proof.
  intros Hv Hg [Hst Hf]. destruct (Hf f eq_refl) as [Hd Hq].
  destruct (ds_prepared req i Hv) as (res & Hp & Hb & Hpl & Hro & Hrl & _).
  destruct (stored_wf _ _ _ _ Hst) as (Hk & Hkey & _). cbn in Hk. rewrite (good_info_kind i Hg) in Hk.
  destruct (ds_mutates req i res (op_cache s) f Hg Hb Hk Hd) as [e' Hm].
  destruct (ds_result_same req i res f Hg Hk) as [Hk' Hid].
  change (stored (op_world s) (place (dataSource i)).1 (place (dataSource i)).2 = Some f) in Hst.
  rewrite <- Hpl in Hst. cbn in Hst.
  destruct (Reconcile_found (ds_builder req i) res s Hp) with f e' (ds_result req i res f)
    as (rr & s' & got & E & Hfr & Hst' & Hd' & Hc & Hcase); try done.
  - intros o _. apply defaultStatusFunc_total.
  - apply defaultStatusFunc_proper.
  - by rewrite Hk'.
  - rewrite Hpl in Hfr. change (stored (op_world s') (place res).1 (place res).2 = Some got) in Hst'.
    rewrite Hpl in Hst'. exists rr, s'. split_and!; try done.
    + exists got. split; [done|]. destruct Hcase as [(-> & Heq & _)|(_ & Hpers & Hup)].
      * split; [split; [done|]; intros res' Hp'; rewrite Hp in Hp'; by injection Hp' as <-|].
        eapply written_same; [| |by apply ds_result_written].
        -- by apply ds_equiv_body.
        -- exact (f_equal (fun o => KubeTypes.Labels (o_meta o)) Heq).
      * pose proof (plain_update _ _ _ _ Hk' Hup) as Has. split.
        -- split; [done|]. intros res' Hp'. rewrite Hp in Hp'. injection Hp' as <-.
           by rewrite (ds_result_stored req i res f got).
        -- destruct Has as (Hbody & Hlab & _). eapply written_same; [done|by rewrite Hlab|by apply ds_result_written].
    + intros Hquiet. destruct Hcase as [(_ & _ & Hr & Hop)|(Hne & _)]; [done|].
      exfalso. apply Hne. by apply (Hq Hquiet).
Qed.

Lemma ds_task_missing req i s :
  valid_owner (Instance req) -> good_info i -> t_pre (ds_task false req i None) s ->
  exists rr s', reconcileDataSource i req s = (Ok rr, s') /\ t_post (ds_task false req i None) s' /\
    frame (eq (place (dataSource i))) s s'.
Proof.
  intros Hv Hg [Hst _]. destruct (ds_prepared req i Hv) as (res & Hp & Hb & Hpl & Hro & Hrl & _).
  assert (o_kind res = KDataSource) as Hk by (rewrite <- (good_info_kind i Hg); exact (f_equal fst Hpl)).
  assert (o_kind (namedResource res) = KDataSource) as Hkn by by rewrite namedResource_kind.
  destruct (ds_mutates req i res (op_cache s) (namedResource res) Hg Hb Hkn eq_refl) as [e' Hm].
  destruct (ds_result_same req i res (namedResource res) Hg Hkn) as [Hk' Hid].
  change (stored (op_world s) (place (dataSource i)).1 (place (dataSource i)).2 = None) in Hst.
  rewrite <- Hpl in Hst. cbn in Hst.
  destruct (Reconcile_created (ds_builder req i) res s Hp) with e' (ds_result req i res (namedResource res))
    as (rr & s' & got & E & Hfr & Hst' & Hd' & Hc & Hpers & Hcr); try done.
  - intros o _. apply defaultStatusFunc_total.
  - apply defaultStatusFunc_proper.
  - by rewrite Hk'.
  - rewrite Hpl in Hfr. change (stored (op_world s') (place res).1 (place res).2 = Some got) in Hst'.
    rewrite Hpl in Hst'. pose proof (plain_create _ _ _ _ Hk' Hcr) as Has.
    exists rr, s'. split_and!; try done. exists got. split_and!; [done| |].
    + split; [done|]. intros res' Hp'. rewrite Hp in Hp'. injection Hp' as <-.
      by rewrite (ds_result_stored req i res (namedResource res) got).
    + destruct Has as (Hbody & Hlab & _). eapply written_same; [done|by rewrite Hlab|].
      destruct (ds_result_written req i res (namedResource res) Hg Hkn) as [W1 W2 W3]. split; [done|done|].
      rewrite W3. unfold namedResource, newEmptyResource, getDataSourceReadyCondition. cbn. by rewrite Hk.
Qed.

Lemma ds_task_good quiet req i found :
  valid_owner (Instance req) -> good_info i -> (quiet = true -> is_Some found) ->
  good_task quiet (ds_task quiet req i found).
Proof.
  intros Hv Hg Hq. split.
  - intros s s' [Ha _] [Hst Hf]. split; [|done]. rewrite <- Hst. exact Ha.
  - intros s s' [Ha _] (f & Hst & Hf). exists f. split; [|done]. rewrite <- Hst. exact Ha.
  - intros s Hpre. destruct found as [f|]; [by apply ds_task_found|].
    destruct quiet; [by destruct (Hq eq_refl)|].
    destruct (ds_task_missing req i s Hv Hg Hpre) as (rr & s' & E & Hpost & Hf). exists rr, s'. by split_and!.
Qed.
End quiet.

(** ** The other objects *)

Section tasks.
Context `{QuietSSP W} `{!PromptClient W} `{!ListingClient W}.
Implicit Types (s : OpSt W) (req : Request).

(** The object that a builder expects. *)
Definition expected (r : reconcileBuilder) : Object :=
  match prepared r with Ok res => res | _ => resource r end.

(** *** Roles, policies and the namespace *)

Definition static_builder req (o : Object) : reconcileBuilder :=
  WithAppLabels (ClusterResource req o) operandName operandComponent.

Definition static_pre (n : nat) req (o : Object) s : Prop :=
  if n is 0 then converged (static_builder req o) (expected (static_builder req o)) s else alive (place o) s.

Definition static_task (n : nat) req (o : Object) : Task :=
  mkTask (cluster_func (W := W) o req) (place o) (static_pre n req o) (static_pre 0 req o).

Lemma static_settles req o :
  proper_request req -> default_kind (o_kind o) = true -> OwnerReferences (o_meta o) = [] ->
  settling (static_builder req o) (expected (static_builder req o)) /\
  place (expected (static_builder req o)) = place o.
Proof.
  intros Hreq Hk Ho. destruct (default_settles req true o operandName operandComponent Hreq) as [res Hs]; [done|done|].
  pose proof (settling_prepared _ _ Hs) as Hp. change (prepared (static_builder req o) = Ok res) in Hp.
  unfold expected. rewrite Hp. split; [done|].
  destruct (prepared_keeps _ _ Hp) as (Hk' & Hkey & _). unfold place. by rewrite Hk', Hkey.
Qed.

Lemma static_task_good n req o :
  proper_request req -> default_kind (o_kind o) = true -> OwnerReferences (o_meta o) = [] ->
  good_task (bool_decide (n = 0)) (static_task n req o).
Proof.
  intros Hreq Hk Ho. destruct (static_settles req o Hreq Hk Ho) as [Hs Hp].
  pose proof (builder_task_good (bool_decide (n = 0)) _ _ Hs eq_refl eq_refl) as Hg.
  unfold builder_task in Hg. rewrite Hp in Hg. unfold static_task, static_pre. by destruct n.
Qed.

(** *** Objects that are removed *)

Definition gone_task (run : Op W ReconcileResult) (o : Object) : Task :=
  mkTask run (place o) (fun s => has s o)
    (fun s => stored (op_world s) (o_kind o) (ObjectKeyFromObject o) = None).

Lemma gone_task_good run o :
  (forall s w', has s o -> cl_Delete (o_kind o) (ObjectKeyFromObject o) (op_world s) = (inr tt, w') ->
     exists rr c, run s = (Ok rr, with_world s w' c)) ->
  Finalizers (o_meta o) = [] -> good_task false (gone_task run o).
Proof.
  intros Hrun Hf. split.
  - intros s s' Ha. by apply (has_agree _ s s' o Ha).
  - intros s s' [Ha _] Hn. cbn in *. by rewrite Ha.
  - intros s Hs. destruct (Delete_gone s o Hs Hf) as (w' & HD & Hgone & Hfr).
    destruct (Hrun s w' Hs HD) as (rr & c & E). eexists rr, _. split; [exact E|]. split_and!; [done|apply Hfr|done].
Qed.

Definition in_ns (o : Object) : Object := with_meta o (with_namespace (o_meta o) ns).

Lemma in_ns_same o : Namespace (o_meta o) = ns -> ObjectKeyFromObject (in_ns o) = ObjectKeyFromObject o.
Proof. intros E. unfold ObjectKeyFromObject. cbn. by rewrite E. Qed.

Lemma removeDataSource_good req o :
  o_kind o = KDataSource -> Namespace (o_meta o) = ns -> DeletionTimestamp (o_meta o) = None ->
  Finalizers (o_meta o) = [] -> good_task false (gone_task (removeDataSource (in_ns o) req) o).
Proof.
  intros Hk Hns Hd. apply gone_task_good. intros s w' _ HD. rewrite Hk in HD. unfold removeDataSource.
  change (DeletionTimestamp (o_meta (in_ns o))) with (DeletionTimestamp (o_meta o)).
  rewrite Hd, (bool_decide_false (None <> None)) by naive_solver. unfold try, Delete, call. run_monad.
  rewrite (in_ns_same o Hns), HD. by eexists _, _.
Qed.

Lemma removeDataImportCron_good req o :
  is_cron o -> Finalizers (o_meta o) = [] -> good_task false (gone_task (removeDataImportCron o req) o).
Proof.
  intros Hk. apply gone_task_good. intros s w' _ HD. rewrite Hk in HD.
  unfold removeDataImportCron, try, Delete, call. run_monad. rewrite HD. by eexists _, _.
Qed.

(** *** DataImportCrons *)

Definition cron_builder req (c : Object) : reconcileBuilder :=
  ImmutableSpec (UpdateFunc (WithAppLabels (ClusterResource req c) operandName operandComponent)
    updateDataImportCron) dataImportCronSpec.

Definition cron_converged req (c : Object) s : Prop :=
  converged (cron_builder req c) (expected (cron_builder req c)) s.

(** Nothing holds back what is at the place. *)
Definition free (p : Place) s : Prop := forall o,
  stored (op_world s) p.1 p.2 = Some o -> DeletionTimestamp (o_meta o) = None /\ Finalizers (o_meta o) = [].

(** A cron with another spec goes in one round and comes back in the next. *)
Definition cron_pre (n : nat) req (c : Object) s : Prop :=
  match n with
  | 0 => cron_converged req c s
  | 1 => cron_converged req c s \/ stored (op_world s) (place c).1 (place c).2 = None
  | _ => cron_converged req c s \/ free (place c) s
  end.

Definition cron_task (n : nat) req (c : Object) : Task :=
  mkTask (reconcileDataImportCron (W := W) c req) (place c) (cron_pre n req c) (cron_pre (pred n) req c).

Lemma cron_settles req c :
  valid_owner (Instance req) -> is_cron c ->
  settling (cron_builder req c) (expected (cron_builder req c)) /\ place (expected (cron_builder req c)) = place c.
Proof.
  intros Hv Hk. destruct (cluster_prepared req operandName operandComponent (cron_builder req c)) as (res & Hp & Hb & Hpl & _);
    [done|done|]. unfold expected. rewrite Hp. split; [|done].
  assert (o_kind res = KDataImportCron) as Hkr by (unfold is_cron, o_kind in *; by rewrite Hb).
  split; [done|apply keeps_meta_restores, updateDataImportCron_keeps_meta|apply defaultStatusFunc_proper| |].
  - intros o Ho _. cbn. unfold updateDataImportCron. rewrite Hkr in Ho. unfold o_kind in *.
    destruct (o_body res); try done. destruct (o_body o); try done. by eexists.
  - intros o _. apply defaultStatusFunc_total.
Qed.

Lemma free_agree p s s' : agree p s s' -> free p s -> free p s'.
Proof. intros [E _] Hf o. rewrite E. apply Hf. Qed.

Lemma cron_pre_agree n req c s s' :
  valid_owner (Instance req) -> is_cron c -> agree (place c) s s' -> cron_pre n req c s -> cron_pre n req c s'.
Proof.
  intros Hv Hk Ha.
  assert (cron_converged req c s -> cron_converged req c s') as Hc.
  { apply converged_agree. by rewrite (proj2 (cron_settles req c Hv Hk)). }
  destruct n as [|[|n]]; cbn; [done|..]; (intros [?|Hs]; [by left; auto|right]).
  - destruct Ha as [E _]. cbn in E. by rewrite E.
  - by eapply free_agree.
Qed.

Lemma cron_pre_mono n req c s : cron_pre n req c s -> cron_pre (S n) req c s.
Proof.
  destruct n as [|[|n]]; cbn; [by left| |done]. intros [?|Hn]; [by left|right]. intros o. cbn in Hn |- *. by rewrite Hn.
Qed.

Lemma cron_task_good n req c :
  valid_owner (Instance req) -> is_cron c -> good_task (bool_decide (n = 0)) (cron_task n req c).
Proof.
  intros Hv Hk. destruct (cron_settles req c Hv Hk) as [Hs Hpl]. split.
  - intros s s'. by apply cron_pre_agree.
  - intros s s'. by apply cron_pre_agree.
  - assert (forall m s, cron_converged req c s -> cron_pre m req c s) as Hall.
    { intros m s Hc. destruct m as [|[|m]]; [done|by left..]. }
    intros s Hpre. cbn in Hpre |- *.
    assert (cron_converged req c s \/ (n <> 0 /\ free (place c) s /\
      (n = 1 -> stored (op_world s) (place c).1 (place c).2 = None))) as [Hc|(Hn & Hf & H1')].
    { destruct n as [|[|n]]; [by left|..]; (destruct Hpre as [?|Hx]; [by left|right]); split_and!; try done.
      intros o. cbn in Hx |- *. by rewrite Hx. }
    + destruct (Reconcile_settled _ _ s (settling_prepared _ _ Hs) eq_refl Hc) as (rr & s' & E & Hop & Hc' & Hfr & Hr).
      rewrite Hpl in Hfr. exists rr, s'. split_and!; try done. by apply Hall.
    + assert (alive (place (expected (cron_builder req c))) s) as Ha.
      { rewrite Hpl. intros o Ho. by apply (Hf o). }
      destruct (Reconcile_settles _ _ s Hs Ha) as (rr & s' & E & Hfr & Hcase).
      rewrite Hpl in Hfr, Hcase. exists rr, s'. rewrite bool_decide_false by done.
      split_and!; try done. destruct Hcase as [Hc|(_ & _ & o & Ho & HD)]; [by apply Hall|].
      pose proof (prompt_delete _ _ _ _ _ Ho (proj2 (Hf o Ho)) HD) as Hgone.
      destruct n as [|[|n]]; [done|by rewrite (H1' eq_refl) in Ho|].
      destruct n as [|n]; cbn; right; [done|]. intros o'. cbn in Hgone |- *. by rewrite Hgone.
Qed.
End tasks.

(** ** Rounds *)

Section operand.
Context `{Process} `{MapRange}.
Context `{QuietSSP W} `{!PromptClient W} `{!ListingClient W} `{!FreshClient W} `{!PlainStore W KDataSource}.
Implicit Types (s : OpSt W) (req : Request).

Definition source_names (infos : list dataSourceInfo) : list string :=
  (fun i => Name (o_meta (dataSource i))) <$> infos.

Definition info_pre (n : nat) req (i : dataSourceInfo) s : Prop :=
  let p := place (dataSource i) in
  if n is 0 then exists f, stored (op_world s) p.1 p.2 = Some f /\ ds_fixed req i f else alive p s.

(** The state of the cluster for a decision, with [n] rounds of work left. *)
Record ds_state (d : dataSources) (n : nat) req (infos : list dataSourceInfo) (crons : list Object) s : Prop := {
  dst_plan : plan d (ssp_spec (Instance req)) (stored (op_world s)) = Ok (infos, crons);
  dst_names : NoDup (source_names infos);
  dst_keys : NoDup (ObjectKeyFromObject <$> crons);
  dst_static : Forall (fun o => static_pre n req o s) (staticObjects d);
  dst_infos : Forall (fun i => info_pre n req i s) infos;
  dst_crons : Forall (fun c => cron_pre n req c s) crons;
  dst_unused : forall o, has s o -> annotated KDataSource (InNamespace ns) req o ->
    Name (o_meta o) ∉ source_names infos ->
    n <> 0 /\ DeletionTimestamp (o_meta o) = None /\ Finalizers (o_meta o) = [];
  dst_unused_crons : forall o, has s o -> annotated KDataImportCron noListOptions req o ->
    ObjectKeyFromObject o ∉ ObjectKeyFromObject <$> crons -> n <> 0 /\ Finalizers (o_meta o) = []
}.

Definition ds_phase (d : dataSources) (n : nat) req s : Prop :=
  proper_request req /\ exists infos crons, ds_state d n req infos crons s.

(** *** Places *)

Lemma static_objects_plain d :
  Forall (fun o => default_kind (o_kind o) = true /\ OwnerReferences (o_meta o) = [] /\
    o_kind o ∉ [KDataSource; KDataImportCron; KPersistentVolumeClaim]) (staticObjects d).
Proof.
  unfold staticObjects. destruct (runningOnOpenShift d); repeat constructor;
    by apply (bool_decide_eq_false_1 (_ ∈ _)).
Qed.

Lemma static_objects_distinct d : NoDup (place <$> staticObjects d).
Proof. unfold staticObjects. destruct (runningOnOpenShift d); distinct_places. Qed.

(** Where the operand writes. *)
Definition write_place (d : dataSources) (p : Place) : Prop :=
  p ∈ place <$> staticObjects d \/ (p.1 = KDataSource /\ key_Namespace p.2 = ns) \/ p.1 = KDataImportCron.

Lemma annotated_ns req o : annotated KDataSource (InNamespace ns) req o -> o_kind o = KDataSource /\ Namespace (o_meta o) = ns.
Proof.
  intros [[Hk Hs] _]. split; [done|]. apply andb_true_iff in Hs as [Hs _].
  apply orb_true_iff in Hs as [Hs|Hs]; by apply bool_decide_eq_true in Hs.
Qed.

Lemma volume_not_written d name : ~ write_place d (KPersistentVolumeClaim, mkKey ns name).
Proof.
  intros [Hin|[[Hk _]|Hk]]; [|done..]. apply list_elem_of_fmap in Hin as (o & E & Ho).
  pose proof (proj1 (Forall_forall _ _) (static_objects_plain d) o Ho) as (_ & _ & Hn).
  injection E as E _. rewrite <- E in Hn. apply Hn. set_solver.
Qed.

(** The places of a round differ: they are of three groups of kinds. *)
Lemma NoDup_groups (A B C D : list Place) :
  NoDup (A ++ C) -> NoDup B -> NoDup D ->
  (forall p, p ∈ A ++ C -> p.1 <> KDataSource /\ p.1 <> KDataImportCron) ->
  (forall p, p ∈ B -> p.1 = KDataSource) -> (forall p, p ∈ D -> p.1 = KDataImportCron) ->
  NoDup (A ++ B ++ C ++ D).
Proof.
  intros HA HB HD KA KB KD.
  assert (A ++ B ++ C ++ D ≡ₚ (A ++ C) ++ B ++ D) as -> by solve_Permutation.
  apply NoDup_app. split_and!; [done| |].
  - intros p Hp [Hb|Hd]%elem_of_app; [apply KB in Hb|apply KD in Hd]; by apply KA in Hp as [? ?].
  - apply NoDup_app. split_and!; [done| |done]. intros p Hb%KB Hd%KD. congruence.
Qed.

(** *** The functions of a round *)

Lemma ListOwned_runs k req opts s :
  exists os s', ListOwnedResources k req opts s = (Ok os, s') /\ read_only s s' /\
    NoDup (ObjectKeyFromObject <$> os) /\ forall o, o ∈ os <-> has s o /\ annotated k opts req o.
Proof.
  destruct (quiet_list (op_world s) k opts) as (os & E & Hnd & Hos).
  eexists _, (with_world s (op_world s) (CList k opts)).
  split; [unfold ListOwnedResources, List, call, mbind, M_bind; by rewrite E|].
  split; [by apply read_only_call|]. split.
  - eapply sublist_NoDup; [exact Hnd|]. apply fmap_sublist, sublist_filter.
  - intros o. rewrite list_elem_of_filter, Hos. unfold has, annotated. split.
    + intros (Hc & Ho & Hsel). destruct (stored_wf _ _ _ _ Ho) as (<- & _). done.
    + intros (Ho & [<- Hsel] & Hc). done.
Qed.

Definition roles : list Object := [newGoldenImagesNS ns; newViewRole ns; newViewRoleBinding ns; newEditRole].

(** The functions that a round runs, for what it decided and listed. *)
Definition round_funcs (d : dataSources) (infos : list dataSourceInfo) (crons unused unusedCrons : list Object)
    : list (Request -> Op W ReconcileResult) :=
  (cluster_func <$> roles) ++
  ((reconcileDataSource <$> infos) ++ ((fun o => removeDataSource (in_ns o)) <$> unused)) ++
  reconcileNetworkPolicies d ++
  ((reconcileDataImportCron <$> crons) ++ (removeDataImportCron <$> unusedCrons)).

Lemma Reconcile_funcs d req infos crons s :
  plan d (ssp_spec (Instance req)) (stored (op_world s)) = Ok (infos, crons) ->
  exists unused unusedCrons s1,
    (forall s2 out, CollectResourceStatus req (round_funcs d infos crons unused unusedCrons) s1 = (out, s2) ->
       DataSources.Reconcile d req s = (out, s2)) /\
    read_only s s1 /\
    NoDup (ObjectKeyFromObject <$> unused) /\ NoDup (ObjectKeyFromObject <$> unusedCrons) /\
    (forall o, o ∈ unused <-> has s o /\ annotated KDataSource (InNamespace ns) req o /\
       Name (o_meta o) ∉ source_names infos) /\
    (forall o, o ∈ unusedCrons <-> has s o /\ annotated KDataImportCron noListOptions req o /\
       ObjectKeyFromObject o ∉ ObjectKeyFromObject <$> crons).
Proof.
  intros Hp. destruct (getDataSourcesAndCrons_plan d req s _ Hp) as (s1 & E1 & R1).
  destruct (ListOwned_runs KDataSource req (InNamespace ns) s1) as (os & s2 & E2 & R2 & N2 & O2).
  destruct (ListOwned_runs KDataImportCron req noListOptions s2) as (cs & s3 & E3 & R3 & N3 & O3).
  assert (read_only s s2) as R12 by by eapply read_only_trans.
  exists (filter (fun o => Name (o_meta o) ∉ source_names infos) os),
    (filter (fun o => ObjectKeyFromObject o ∉ ObjectKeyFromObject <$> crons) cs), s3.
  assert (forall (x : OpSt W), read_only s x -> forall o, has x o <-> has s o) as Hsame.
  { intros x (_ & _ & [Hw _]) o. unfold has. by rewrite Hw. }
  split; [|split; [by eapply read_only_trans|]].
  - intros s4 out E4. unfold DataSources.Reconcile. rewrite (bind_returns _ _ _ _ _ E1).
    assert (reconcileDataSources infos req s1 = (Ok ((reconcileDataSource <$> infos) ++
      ((fun o => removeDataSource (in_ns o)) <$> filter (fun o => Name (o_meta o) ∉ source_names infos) os)), s2)) as E5.
    { unfold reconcileDataSources, listAllOwnedDataSources. by rewrite (bind_returns _ _ _ _ _ E2). }
    rewrite (bind_returns _ _ _ _ _ E5).
    assert (reconcileDataImportCrons crons req s2 = (Ok ((reconcileDataImportCron <$> crons) ++
      (removeDataImportCron <$> filter (fun o => ObjectKeyFromObject o ∉ ObjectKeyFromObject <$> crons) cs)), s3)) as E6.
    { unfold reconcileDataImportCrons, listAllOwnedDataImportCrons. by rewrite (bind_returns _ _ _ _ _ E3). }
    by rewrite (bind_returns _ _ _ _ _ E6).
  - split_and!.
    + eapply sublist_NoDup; [exact N2|]. apply fmap_sublist, sublist_filter.
    + eapply sublist_NoDup; [exact N3|]. apply fmap_sublist, sublist_filter.
    + intros o. rewrite list_elem_of_filter, O2, (Hsame s1 R1). tauto.
    + intros o. rewrite list_elem_of_filter, O3, (Hsame s2 R12). tauto.
Qed.

(** *** The tasks of a round *)

Definition found_source (i : dataSourceInfo) s : option Object :=
  stored (op_world s) (place (dataSource i)).1 (place (dataSource i)).2.

Definition round_tasks (d : dataSources) (n : nat) req infos (crons unused unusedCrons : list Object) s : list Task :=
  (static_task n req <$> roles) ++
  (((fun i => ds_task (bool_decide (n = 0)) req i (found_source i s)) <$> infos) ++
   ((fun o => gone_task (removeDataSource (in_ns o) req) o) <$> unused)) ++
  (static_task n req <$> newNetworkPolicies ns (runningOnOpenShift d)) ++
  ((cron_task n req <$> crons) ++ ((fun o => gone_task (removeDataImportCron o req) o) <$> unusedCrons)).

Lemma Forall2_fmap_same {A B C} (R : B -> C -> Prop) (f : A -> B) (g : A -> C) l :
  (forall x, R (f x) (g x)) -> Forall2 R (f <$> l) (g <$> l).
Proof. intros HR. apply Forall2_fmap, Forall_Forall2_diag, Forall_forall. auto. Qed.

Lemma round_tasks_funcs d n req infos crons unused unusedCrons s :
  Forall2 (fun f t => forall s, f req s = t_run t s) (round_funcs d infos crons unused unusedCrons)
    (round_tasks d n req infos crons unused unusedCrons s).
Proof. unfold round_funcs, round_tasks. repeat apply Forall2_app; by apply Forall2_fmap_same. Qed.

Lemma round_tasks_places d n req infos crons unused unusedCrons s :
  t_place <$> round_tasks d n req infos crons unused unusedCrons s =
  (place <$> roles) ++ (((fun i => place (dataSource i)) <$> infos) ++ (place <$> unused)) ++
  (place <$> newNetworkPolicies ns (runningOnOpenShift d)) ++ ((place <$> crons) ++ (place <$> unusedCrons)).
Proof. unfold round_tasks. by rewrite !fmap_app, <- !list_fmap_compose. Qed.

(** What a round has listed as not wanted. *)
Record listing req infos (crons unused unusedCrons : list Object) s : Prop := {
  li_unused_keys : NoDup (ObjectKeyFromObject <$> unused);
  li_crons_keys : NoDup (ObjectKeyFromObject <$> unusedCrons);
  li_unused : forall o, o ∈ unused <-> has s o /\ annotated KDataSource (InNamespace ns) req o /\
     Name (o_meta o) ∉ source_names infos;
  li_crons : forall o, o ∈ unusedCrons <-> has s o /\ annotated KDataImportCron noListOptions req o /\
     ObjectKeyFromObject o ∉ ObjectKeyFromObject <$> crons
}.

Lemma NoDup_places (l : list Object) : NoDup (ObjectKeyFromObject <$> l) -> NoDup (place <$> l).
Proof. intros Hn. apply (NoDup_fmap_1 snd). by rewrite <- list_fmap_compose. Qed.

Lemma round_places_distinct d infos (crons unused unusedCrons : list Object) req s :
  Forall good_info infos -> Forall is_cron crons -> NoDup (source_names infos) ->
  NoDup (ObjectKeyFromObject <$> crons) -> listing req infos crons unused unusedCrons s ->
  NoDup ((place <$> roles) ++ (((fun i => place (dataSource i)) <$> infos) ++ (place <$> unused)) ++
    (place <$> newNetworkPolicies ns (runningOnOpenShift d)) ++ ((place <$> crons) ++ (place <$> unusedCrons))).
Proof.
  intros Hg Hc Hn Hk [U1 U2 U3 U4]. rewrite Forall_forall in Hg. rewrite Forall_forall in Hc. apply NoDup_groups.
  - rewrite <- fmap_app. apply static_objects_distinct.
  - apply NoDup_app. split_and!.
    + apply (NoDup_fmap_1 (fun p : Place => key_Name p.2)). by rewrite <- list_fmap_compose.
    + intros p (i & -> & Hi)%list_elem_of_fmap (o & E & Ho)%list_elem_of_fmap.
      apply U3 in Ho as (_ & _ & Hname). apply Hname. injection E as _ _ <-.
      by apply (list_elem_of_fmap_2 (fun i => Name (o_meta (dataSource i)))).
    + by apply NoDup_places.
  - apply NoDup_app. split_and!; [by apply NoDup_places| |by apply NoDup_places].
    intros p (c & -> & Hcr)%list_elem_of_fmap (o & E & Ho)%list_elem_of_fmap.
    apply U4 in Ho as (_ & _ & Hkey). apply Hkey.
    pose proof (f_equal snd E) as Ek. cbn in Ek. rewrite <- Ek. by apply list_elem_of_fmap_2.
  - intros p. rewrite <- fmap_app. intros (o & -> & Ho)%list_elem_of_fmap.
    pose proof (proj1 (Forall_forall _ _) (static_objects_plain d) o Ho) as (_ & _ & Hns). cbn. set_solver.
  - intros p [(i & -> & Hi)%list_elem_of_fmap|(o & -> & Ho)%list_elem_of_fmap]%elem_of_app.
    + by apply good_info_kind, Hg.
    + apply U3 in Ho as (_ & Ha & _). by apply annotated_ns in Ha as [? _].
  - intros p [(c & -> & Hcr)%list_elem_of_fmap|(o & -> & Ho)%list_elem_of_fmap]%elem_of_app.
    + by apply Hc.
    + by apply U4 in Ho as (_ & [[? _] _] & _).
Qed.

Lemma round_places_written d infos (crons unused unusedCrons : list Object) req s p :
  Forall good_info infos -> Forall is_cron crons -> listing req infos crons unused unusedCrons s ->
  p ∈ (place <$> roles) ++ (((fun i => place (dataSource i)) <$> infos) ++ (place <$> unused)) ++
    (place <$> newNetworkPolicies ns (runningOnOpenShift d)) ++ ((place <$> crons) ++ (place <$> unusedCrons)) ->
  write_place d p.
Proof.
  intros Hg Hc [_ _ U3 U4]. rewrite Forall_forall in Hg. rewrite Forall_forall in Hc. rewrite !elem_of_app. unfold write_place, staticObjects.
  rewrite fmap_app, elem_of_app.
  intros [?|[[(i & -> & Hi)%list_elem_of_fmap|(o & -> & Ho)%list_elem_of_fmap]|[?|[(c & -> & Hcr)%list_elem_of_fmap|(o & -> & Ho)%list_elem_of_fmap]]]].
  - tauto.
  - right. left. split; [by apply good_info_kind, Hg|]. by apply Hg.
  - right. left. apply U3 in Ho as (_ & Ha & _). by apply annotated_ns in Ha.
  - tauto.
  - right. right. by apply Hc.
  - right. right. by apply U4 in Ho as (_ & [[? _] _] & _).
Qed.

(** The groups of kinds among the places of a round. *)
Lemma round_place_groups d infos (crons unused unusedCrons : list Object) req s p :
  Forall good_info infos -> Forall is_cron crons -> listing req infos crons unused unusedCrons s ->
  p ∈ (place <$> roles) ++ (((fun i => place (dataSource i)) <$> infos) ++ (place <$> unused)) ++
    (place <$> newNetworkPolicies ns (runningOnOpenShift d)) ++ ((place <$> crons) ++ (place <$> unusedCrons)) ->
  (p.1 = KDataSource -> p ∈ ((fun i => place (dataSource i)) <$> infos) ++ (place <$> unused)) /\
  (p.1 = KDataImportCron -> p ∈ (place <$> crons) ++ (place <$> unusedCrons)).
Proof.
  intros Hg Hc [_ _ U3 U4]. rewrite Forall_forall in Hg. rewrite Forall_forall in Hc.
  assert (p ∈ place <$> staticObjects d -> p.1 <> KDataSource /\ p.1 <> KDataImportCron) as Hs.
  { intros (o & -> & Ho)%list_elem_of_fmap.
    pose proof (proj1 (Forall_forall _ _) (static_objects_plain d) o Ho) as (_ & _ & Hns). cbn. set_solver. }
  unfold staticObjects in Hs. rewrite fmap_app, elem_of_app in Hs.
  assert (p ∈ ((fun i => place (dataSource i)) <$> infos) ++ (place <$> unused) -> p.1 = KDataSource) as HB.
  { intros [(i & -> & Hi)%list_elem_of_fmap|(o & -> & Ho)%list_elem_of_fmap]%elem_of_app.
    - by apply good_info_kind, Hg.
    - apply U3 in Ho as (_ & Ha & _). by apply annotated_ns in Ha as [? _]. }
  assert (p ∈ (place <$> crons) ++ (place <$> unusedCrons) -> p.1 = KDataImportCron) as HD.
  { intros [(c & -> & Hcr)%list_elem_of_fmap|(o & -> & Ho)%list_elem_of_fmap]%elem_of_app.
    - by apply Hc.
    - by apply U4 in Ho as (_ & [[? _] _] & _). }
  intros [Hin|[Hin|[Hin|Hin]%elem_of_app]%elem_of_app]%elem_of_app.
  - assert (p.1 <> KDataSource /\ p.1 <> KDataImportCron) as [? ?] by (apply Hs; by left). done.
  - split; [done|]. rewrite (HB Hin). done.
  - assert (p.1 <> KDataSource /\ p.1 <> KDataImportCron) as [? ?] by (apply Hs; by right). done.
  - split; [|done]. rewrite (HD Hin). done.
Qed.

Lemma static_task_of_good d n req o :
  proper_request req -> o ∈ staticObjects d -> good_task (bool_decide (n = 0)) (static_task (W := W) n req o).
Proof.
  intros Hreq Ho. pose proof (proj1 (Forall_forall _ _) (static_objects_plain d) o Ho) as (Hk & Hr & _).
  by apply static_task_good.
Qed.

Lemma round_tasks_good d n req infos crons unused unusedCrons s :
  proper_request req -> ds_state d n req infos crons s -> listing req infos crons unused unusedCrons s ->
  Forall (good_task (bool_decide (n = 0))) (round_tasks d n req infos crons unused unusedCrons s).
Proof.
  intros Hreq Hst [_ _ U3 U4]. pose proof (pr_owner _ Hreq) as Hv.
  destruct (plan_good _ _ _ _ _ (dst_plan _ _ _ _ _ _ Hst)) as [Hg Hc]. rewrite Forall_forall in Hg. rewrite Forall_forall in Hc.
  unfold round_tasks. repeat (apply Forall_app; split); apply Forall_fmap, Forall_forall.
  - intros o Ho. refine (static_task_of_good d n req o Hreq _). unfold staticObjects. apply elem_of_app. by left.
  - intros i Hi. refine (ds_task_good (bool_decide (n = 0)) req i (found_source i s) Hv (Hg i Hi) _). intros Hn%bool_decide_eq_true. subst n.
    destruct (proj1 (Forall_forall _ _) (dst_infos _ _ _ _ _ _ Hst) i Hi) as (f & Hf & _).
    unfold found_source. rewrite Hf. by eexists.
  - intros o Ho. apply U3 in Ho as (Hh & Ha & Hn). destruct (dst_unused _ _ _ _ _ _ Hst o Hh Ha Hn) as (Hne & Hd & Hf).
    apply annotated_ns in Ha as [Hk Hns]. rewrite bool_decide_false by done. by apply removeDataSource_good.
  - intros o Ho. refine (static_task_of_good d n req o Hreq _). unfold staticObjects. apply elem_of_app. by right.
  - intros c Hcr. apply cron_task_good; [done|by apply Hc].
  - intros o Ho. apply U4 in Ho as (Hh & Ha & Hn). destruct (dst_unused_crons _ _ _ _ _ _ Hst o Hh Ha Hn) as (Hne & Hf).
    rewrite bool_decide_false by done. apply removeDataImportCron_good; [apply Ha|done].
Qed.

Lemma round_tasks_pre d n req infos crons unused unusedCrons s s1 :
  ds_state d n req infos crons s -> listing req infos crons unused unusedCrons s -> read_only s s1 ->
  Forall is_cron crons -> proper_request req ->
  Forall (fun t => t_pre t s1) (round_tasks d n req infos crons unused unusedCrons s).
Proof.
  intros Hst [_ _ U3 U4] (C1 & _ & [W1 _]) Hc Hreq. pose proof (pr_owner _ Hreq) as Hv.
  assert (forall p, agree p s s1) as Ha by (intros p; split; [by rewrite W1|by rewrite C1]).
  destruct Hst as [_ _ _ Hs Hi Hcr _ _]. unfold staticObjects in Hs. apply Forall_app in Hs as [Hs1 Hs2].
  assert (forall l, Forall (fun o => o ∈ staticObjects d) l -> Forall (fun o => static_pre n req o s) l ->
    Forall (fun t => t_pre t s1) (static_task n req <$> l)) as Hstatic.
  { intros l Hl Hp. rewrite Forall_forall in Hl. apply Forall_fmap, Forall_forall. intros o Ho.
    refine (gt_pre _ _ (static_task_of_good d n req o Hreq (Hl o Ho)) s s1 (Ha _) _).
    by apply (proj1 (Forall_forall _ _) Hp). }
  unfold round_tasks. repeat (apply Forall_app; split).
  - apply Hstatic; [|done]. apply Forall_forall. intros o Ho. unfold staticObjects. apply elem_of_app. by left.
  - apply Forall_fmap. eapply Forall_impl; [exact Hi|]. intros i Hpre. cbn. rewrite W1. split; [done|].
    intros f Hf. unfold found_source in Hf. cbn in Hf. destruct n as [|n]; cbn in Hpre.
    + destruct Hpre as (f' & Hf' & Hfix). rewrite Hf in Hf'. injection Hf' as <-. by split; [apply Hfix|].
    + split; [by apply Hpre|done].
  - apply Forall_fmap, Forall_forall. intros o (Hh & _)%U3. cbn. unfold has. by rewrite W1.
  - apply Hstatic; [|done]. apply Forall_forall. intros o Ho. unfold staticObjects. apply elem_of_app. by right.
  - apply Forall_fmap, Forall_forall. intros c Hin. rewrite Forall_forall in Hc. rewrite Forall_forall in Hcr.
    apply (cron_pre_agree n req c s s1 Hv (Hc c Hin) (Ha _)). by apply Hcr.
  - apply Forall_fmap, Forall_forall. intros o (Hh & _)%U4. cbn. unfold has. by rewrite W1.
Qed.

Lemma static_pre_mono n m req o s :
  proper_request req -> default_kind (o_kind o) = true -> OwnerReferences (o_meta o) = [] ->
  n <= m -> static_pre n req o s -> static_pre m req o s.
Proof.
  intros Hreq Hk Ho Hle Hp. destruct n as [|n]; [|by destruct m; [lia|]]. destruct m as [|m]; [done|].
  cbn in *. rewrite <- (proj2 (static_settles req o Hreq Hk Ho)). by eapply converged_alive.
Qed.

Lemma info_pre_mono n m req i s : n <= m -> info_pre n req i s -> info_pre m req i s.
Proof.
  intros Hle Hp. destruct n as [|n]; [|by destruct m; [lia|]]. destruct m as [|m]; [done|].
  destruct Hp as (f & Hf & Hd & _). intros o Ho. cbn in Ho, Hf. rewrite Hf in Ho. by injection Ho as <-.
Qed.

(** What was listed is gone, and nothing like it has come. *)
Lemma unused_gone (places : list Place) (unused : list Object) s s2 o :
  frame (.∈ places) s s2 -> has s2 o -> (has s o -> o ∈ unused) ->
  Forall (fun x => stored (op_world s2) (o_kind x) (ObjectKeyFromObject x) = None) unused ->
  (place o ∈ places -> place o ∈ place <$> unused) -> False.
Proof.
  intros Hf Ho Hin Hgone Hpl. rewrite Forall_forall in Hgone. unfold has in Ho.
  destruct (decide (place o ∈ places)) as [Hp|Hp].
  - apply Hpl, list_elem_of_fmap in Hp as (x & E & Hx). specialize (Hgone x Hx).
    injection E as E1 E2 E3. unfold ObjectKeyFromObject in *. by rewrite E1, E2, E3, Hgone in Ho.
  - assert (has s o) as Hs by by apply (has_agree _ s s2 o (frame_others _ _ _ _ Hf Hp)).
    by rewrite (Hgone o (Hin Hs)) in Ho.
Qed.

Lemma ds_state_next d n req infos crons unused unusedCrons s s1 s2 :
  proper_request req -> ds_state d n req infos crons s -> listing req infos crons unused unusedCrons s ->
  read_only s s1 -> frame (.∈ t_place <$> round_tasks d n req infos crons unused unusedCrons s) s1 s2 ->
  Forall (fun t => t_post t s2) (round_tasks d n req infos crons unused unusedCrons s) ->
  ds_state d (pred n) req infos crons s2.
Proof.
  intros Hreq Hst Hli (C1 & _ & [W1 _]) Hf HP. rewrite round_tasks_places in Hf.
  destruct (plan_good _ _ _ _ _ (dst_plan _ _ _ _ _ _ Hst)) as [Hg Hc].
  unfold round_tasks in HP. rewrite !Forall_app, !Forall_fmap in HP.
  destruct HP as (P1 & (P2 & P3) & P4 & P5 & P6).
  assert (forall o, has s1 o <-> has s o) as Hh by (intros o; unfold has; by rewrite W1).
  split.
  - apply (plan_stable d _ (stored (op_world s))); [apply Hst| |].
    + intros name. rewrite <- W1.
      apply (frame_others _ (KPersistentVolumeClaim, mkKey ns name) _ _ Hf). intros Hin.
      by eapply (volume_not_written d name), round_places_written.
    + intros i Hi. destruct (proj1 (Forall_forall _ _) P2 i Hi) as (f & Hf' & _ & Hwr). exists f.
      pose proof (good_info_kind i (proj1 (Forall_forall _ _) Hg i Hi)) as Hk.
      unfold found_source in Hwr. cbn in Hf', Hwr. by rewrite Hk in Hf', Hwr.
  - apply Hst.
  - apply Hst.
  - apply Forall_forall. intros o Ho.
    pose proof (proj1 (Forall_forall _ _) (static_objects_plain d) o Ho) as (Hk & Hr & _).
    apply (static_pre_mono 0); [done..|lia|]. unfold staticObjects in Ho.
    apply elem_of_app in Ho as [Ho|Ho]; [exact (proj1 (Forall_forall _ _) P1 o Ho)|exact (proj1 (Forall_forall _ _) P4 o Ho)].
  - eapply Forall_impl; [exact P2|]. intros i (f & Hst' & Hfix & _). apply (info_pre_mono 0); [lia|]. by exists f.
  - exact P5.
  - intros o Ho Ha Hn. exfalso. apply (unused_gone _ unused s1 s2 o Hf Ho); [|exact P3|].
    + intros Hs%Hh. by apply (li_unused _ _ _ _ _ _ Hli).
    + apply annotated_ns in Ha as [Hk _]. intros Hin. apply (round_place_groups _ _ _ _ _ _ _ _ Hg Hc Hli) in Hin as [Hin _].
      apply Hin, elem_of_app in Hk as [Hi|Hi]; [|done]. exfalso. apply Hn.
      apply list_elem_of_fmap in Hi as (i & [= _ _ E] & Hi). rewrite E.
      by apply (list_elem_of_fmap_2 (fun i => Name (o_meta (dataSource i)))).
  - intros o Ho Ha Hn. exfalso. apply (unused_gone _ unusedCrons s1 s2 o Hf Ho); [|exact P6|].
    + intros Hs%Hh. by apply (li_crons _ _ _ _ _ _ Hli).
    + destruct Ha as [[Hk _] _]. intros Hin. apply (round_place_groups _ _ _ _ _ _ _ _ Hg Hc Hli) in Hin as [_ Hin].
      apply Hin, elem_of_app in Hk as [Hi|Hi]; [|done]. exfalso. apply Hn.
      apply list_elem_of_fmap in Hi as (c & E & Hi). pose proof (f_equal snd E) as Ek. cbn in Ek. rewrite Ek.
      by apply list_elem_of_fmap_2.
Qed.

Lemma ds_round d n req s :
  ds_phase d n (norm req) s ->
  exists rs s', DataSources.Reconcile d req s = (Ok rs, s') /\ ds_phase d (pred n) (norm req) s' /\
    frame (write_place d) s s' /\
    (n = 0 -> only_reads s s' /\ Forall (fun rr => rr_OperationResult rr = OperationResultNone) rs).
Proof.
  intros (Hreq & infos & crons & Hst).
  assert (proper_request req) as Hreq' by (destruct Hreq as [Hv Hns]; by split).
  assert (ds_state d n req infos crons s) as Hst' by (destruct Hst; by split).
  destruct (plan_good _ _ _ _ _ (dst_plan _ _ _ _ _ _ Hst')) as [Hg Hc].
  destruct (Reconcile_funcs d req infos crons s (dst_plan _ _ _ _ _ _ Hst'))
    as (unused & unusedCrons & s1 & Hrun & R1 & U1 & U2 & U3 & U4).
  assert (listing req infos crons unused unusedCrons s) as Hli by by split.
  destruct (tasks_run (bool_decide (n = 0)) req _ _ s1 (round_tasks_funcs d n req infos crons unused unusedCrons s))
    as (out & s2 & E & P & F & Q).
  - by apply round_tasks_good.
  - rewrite round_tasks_places. by apply (round_places_distinct d infos crons unused unusedCrons req s Hg Hc); [apply Hst'..|].
  - by apply round_tasks_pre.
  - exists out, s2. split_and!.
    + by apply Hrun.
    + split; [done|]. exists infos, crons.
      pose proof (ds_state_next d n req infos crons unused unusedCrons s s1 s2 Hreq' Hst' Hli R1 F P) as Hn.
      destruct Hn; by split.
    + eapply frame_trans; [apply reads_frame; apply R1|]. eapply frame_mono; [|exact F].
      intros p. rewrite round_tasks_places. by eapply round_places_written.
    + intros Hn. destruct (Q (bool_decide_eq_true_2 _ Hn)) as [R2 N2]. split; [|done].
      eapply only_reads_trans; [apply R1|exact R2].
Qed.

(** *** The operand *)

Definition ds_region (d : dataSources) (p : Place) : Prop := write_place d p \/ plan_place p.

(** When the operand can start: it can decide, its objects have different names,
    and nothing holds back what is in its way. *)
Record ds_startable (d : dataSources) req infos (crons : list Object) s : Prop := {
  dss_plan : plan d (ssp_spec (Instance req)) (stored (op_world s)) = Ok (infos, crons);
  dss_names : NoDup (source_names infos);
  dss_keys : NoDup (ObjectKeyFromObject <$> crons);
  dss_static : Forall (fun o => alive (place o) s) (staticObjects d);
  dss_infos : Forall (fun i => alive (place (dataSource i)) s) infos;
  dss_crons : Forall (fun c => free (place c) s) crons;
  dss_unused : forall o, has s o -> annotated KDataSource (InNamespace ns) req o ->
    Name (o_meta o) ∉ source_names infos -> DeletionTimestamp (o_meta o) = None /\ Finalizers (o_meta o) = [];
  dss_unused_crons : forall o, has s o -> annotated KDataImportCron noListOptions req o ->
    ObjectKeyFromObject o ∉ ObjectKeyFromObject <$> crons -> Finalizers (o_meta o) = []
}.

Lemma static_region d o : o ∈ staticObjects d -> ds_region d (place o).
Proof. intros Ho. left. left. by apply list_elem_of_fmap_2. Qed.

Lemma source_region d (o : Object) : o_kind o = KDataSource -> Namespace (o_meta o) = ns -> ds_region d (place o).
Proof. intros Hk Hns. left. right. by left. Qed.

Lemma info_region d i : good_info i -> ds_region d (place (dataSource i)).
Proof. intros Hg. apply source_region; [by apply good_info_kind|apply Hg]. Qed.

Lemma cron_region d (o : Object) : o_kind o = KDataImportCron -> ds_region d (place o).
Proof. intros Hk. left. by do 2 right. Qed.

Lemma has_same s s' o : same_stored (place o) s s' -> has s' o -> has s o.
Proof. intros E Ho. unfold has in *. rewrite <- Ho. symmetry. exact E. Qed.

Lemma ds_startable_same d req infos crons s s' :
  (forall p, ds_region d p -> same_stored p s s') ->
  ds_startable d req infos crons s -> ds_startable d req infos crons s'.
Proof.
  intros Hs [Hp Hn Hk Hst Hi Hc Hu Huc]. destruct (plan_good _ _ _ _ _ Hp) as [Hg Hcr].
  rewrite Forall_forall in Hg. rewrite Forall_forall in Hcr. rewrite Forall_forall in Hst.
  rewrite Forall_forall in Hi. rewrite Forall_forall in Hc. split; [|done|done|..].
  - rewrite <- Hp. apply plan_same. intros p Hpl. apply Hs. by right.
  - apply Forall_forall. intros o Ho. eapply alive_same; [|by apply Hst]. by apply Hs, static_region.
  - apply Forall_forall. intros i Hin. eapply alive_same; [|by apply Hi]. by apply Hs, info_region, Hg.
  - apply Forall_forall. intros c Hin o Ho. apply (Hc c Hin). rewrite <- Ho. symmetry.
    apply (Hs (place c)). by apply cron_region, Hcr.
  - intros o Ho Ha. apply Hu; [|done]. eapply has_same; [|exact Ho].
    apply annotated_ns in Ha as [? ?]. by apply Hs, source_region.
  - intros o Ho Ha. apply Huc; [|done]. eapply has_same; [|exact Ho]. apply Hs, cron_region, Ha.
Qed.

Lemma ds_state_agree d n req infos crons s s' :
  proper_request req -> (forall p, ds_region d p -> agree p s s') ->
  ds_state d n req infos crons s -> ds_state d n req infos crons s'.
Proof.
  intros Hreq Hs [Hp Hn Hk Hst Hi Hc Hu Huc]. destruct (plan_good _ _ _ _ _ Hp) as [Hg Hcr].
  rewrite Forall_forall in Hg. rewrite Forall_forall in Hcr. rewrite Forall_forall in Hst.
  rewrite Forall_forall in Hi. rewrite Forall_forall in Hc. split; [|done|done|..].
  - rewrite <- Hp. apply plan_same. intros p Hpl. apply Hs. by right.
  - apply Forall_forall. intros o Ho.
    refine (gt_pre _ _ (static_task_of_good d n req o Hreq Ho) s s' _ (Hst o Ho)). by apply Hs, static_region.
  - apply Forall_forall. intros i Hin. specialize (Hi i Hin).
    assert (agree (place (dataSource i)) s s') as Ha by by apply Hs, info_region, Hg.
    destruct n; cbn in *; [|by eapply alive_agree]. destruct Hi as (f & Hf & Hfix). exists f. split; [|done].
    rewrite <- Hf. apply Ha.
  - apply Forall_forall. intros c Hin. specialize (Hcr c Hin).
    eapply cron_pre_agree; [apply Hreq|done| |by apply Hc]. by apply Hs, cron_region.
  - intros o Ho Ha. apply Hu; [|done]. eapply has_same; [|exact Ho].
    apply annotated_ns in Ha as [? ?]. by apply Hs, source_region.
  - intros o Ho Ha. apply Huc; [|done]. eapply has_same; [|exact Ho]. apply Hs, cron_region, Ha.
Qed.

Lemma ds_state_mono d n req infos crons s :
  proper_request req -> ds_state d n req infos crons s -> ds_state d (S n) req infos crons s.
Proof.
  intros Hreq [Hp Hn Hk Hst Hi Hc Hu Huc]. rewrite Forall_forall in Hst. split; [done|done|done|..].
  - apply Forall_forall. intros o Ho.
    pose proof (proj1 (Forall_forall _ _) (static_objects_plain d) o Ho) as (Hk' & Hr & _).
    apply (static_pre_mono n); [done..|lia|by apply Hst].
  - eapply Forall_impl; [exact Hi|]. intros i. apply info_pre_mono. lia.
  - eapply Forall_impl; [exact Hc|]. intros c. apply cron_pre_mono.
  - intros o Ho Ha Hno. by destruct (Hu o Ho Ha Hno) as (_ & ? & ?).
  - intros o Ho Ha Hno. by destruct (Huc o Ho Ha Hno) as (_ & ?).
Qed.

#[export, refine] Instance dataSources_settling d : Settling (operand (W := W) d) := {|
  region _ := ds_region d; work := 2; phase := ds_phase d;
  startable req s := proper_request req /\ exists infos crons, ds_startable d req infos crons s |}.
Proof.
  - intros req s s' Hs (Hreq & infos & crons & Hst). split; [done|]. exists infos, crons.
    by eapply ds_startable_same.
  - intros req s (Hreq & infos & crons & [Hp Hn Hk Hst Hi Hc Hu Huc]). split; [done|]. exists infos, crons.
    split; try done.
    + eapply Forall_impl; [exact Hc|]. intros c Hf. by right.
    + intros o Ho Ha Hno. by destruct (Hu o Ho Ha Hno).
    + intros o Ho Ha Hno. split; [done|]. by apply Huc.
  - intros n req s (Hreq & infos & crons & Hst). split; [done|]. exists infos, crons. by apply ds_state_mono.
  - intros n req s s' Hag (Hreq & infos & crons & Hst). split; [done|]. exists infos, crons.
    by eapply ds_state_agree.
  - intros n req s Hph. destruct (ds_round d n req s Hph) as (rs & s' & E & P & F & Q).
    exists rs, s'. split_and!; try done. eapply frame_mono; [|exact F]. by left.
Defined.
End operand.
