(* ===== verification/OperandPlaces.v ===== *)
(** * The operands have different objects

    For every operand the kinds and names of the objects that it reads and
    writes, whatever the namespace of the SSP; from these that no two operands of
    the operator share an object. The names of the console proxy come from its
    bundle, which has to be apart from the others. *)

From S2P Require Import Prelude GoRuntime KubeTypes SspTypes Architecture KubeClient Cluster Common Samples Resource SspController StaticOperands Settling Convergence Deletion Tls NetworkPolicies CommonTemplates TemplateBundle DataSources DataSourcesPlan Controllers TemplateValidatorOperand VmDeleteProtection MetricsOperand VmConsoleProxy VmConsoleProxyProofs OperandSettling OperandClearing ProxySettling TemplatesSettling DataSourcesSettling.

(** ** Signatures *)

(** Names of objects by kind, and kinds of which any object may be meant. *)
Record Signature := mkSignature { sig_names : list (Kind * string); sig_kinds : list Kind }.

Definition within (g : Signature) (p : Place) : Prop :=
  (p.1, key_Name p.2) ∈ sig_names g \/ p.1 ∈ sig_kinds g.

Definition named (o : Object) : Kind * string := (o_kind o, Name (o_meta o)).

Definition signatures_apart (g h : Signature) : bool :=
  forallb (fun e => negb (contains (sig_names h) e) && negb (contains (sig_kinds h) e.1)) (sig_names g) &&
  forallb (fun k => negb (contains (sig_names h).*1 k) && negb (contains (sig_kinds h) k)) (sig_kinds g).

Lemma signatures_apart_spec g h p : signatures_apart g h = true -> within g p -> ~ within h p.
Proof.
  unfold signatures_apart. rewrite andb_true_iff, !forallb_forall. intros [Hn Hk] Hg Hh.
  destruct Hg as [Hg|Hg]; apply list_elem_of_In in Hg.
  - specialize (Hn _ Hg). rewrite andb_true_iff, !negb_true_iff, !contains_false in Hn. destruct Hn, Hh; done.
  - specialize (Hk _ Hg). rewrite andb_true_iff, !negb_true_iff, !contains_false in Hk. destruct Hk as [H1 H2], Hh; [|done].
    apply H1. by apply (list_elem_of_fmap_2 fst) in H.
Qed.

(** The places of a list of builder functions. *)
Lemma static_places_within funcs req g p :
  Forall (fun f : BuilderFunc => forall r, f req = Ok r -> within g (place (resource r))) (funcs req) ->
  p ∈ static_places funcs req -> within g p.
Proof.
  unfold static_places. rewrite Forall_forall. intros Hf (f & Hin & E)%list_elem_of_omap.
  destruct (f req) as [r| |] eqn:Er; [|done..]. injection E as <-. by eapply Hf.
Qed.

Lemma named_within g o : named o ∈ sig_names g -> within g (place o).
Proof. by left. Qed.

(** Decides whether a closed name is listed. *)
Ltac listed := apply named_within; by apply (bool_decide_eq_true_1 (_ ∈ _)).

(** Goes through a list of builder functions. *)
Ltac each_function := repeat apply Forall_cons_2; try apply Forall_nil_2.

(** ** The operands *)

Definition protection_signature : Signature :=
  mkSignature (named <$> [VmDeleteProtection.newValidatingAdmissionPolicy;
                          VmDeleteProtection.newValidatingAdmissionPolicyBinding]) [].

Lemma protection_within req p :
  p ∈ static_places VmDeleteProtection.funcs req -> within protection_signature p.
Proof. apply static_places_within. each_function; intros r [= <-]; listed. Qed.

Definition metrics_signature : Signature :=
  mkSignature
    [ (KServiceMonitor, TemplateValidatorOperand.TemplateValidatorMetricsServiceName);
      (KServiceMonitor, ServiceController.SspOperatorMetricsServiceName);
      (KPrometheusRule, MetricsOperand.RuleName);
      named MetricsOperand.newMonitoringClusterRole; named MetricsOperand.newMonitoringClusterRoleBinding ] [].

Lemma metrics_within `{MetricsOperand.RuleRegistry} req p :
  p ∈ static_places MetricsOperand.funcs req -> within metrics_signature p.
Proof.
  apply static_places_within. each_function; try (intros r [= <-]; listed).
  unfold MetricsOperand.reconcilePrometheusRule, MetricsOperand.BuildPrometheusRule. intros r.
  destruct MetricsOperand.registered_rules; [|done..]. intros [= <-]. listed.
Qed.

Definition validator_signature : Signature :=
  mkSignature ((KDeployment, TemplateValidatorOperand.DeploymentName) :: (named <$>
    ([ TemplateValidatorOperand.newClusterRole; TemplateValidatorOperand.newServiceAccount "";
       TemplateValidatorOperand.newClusterRoleBinding ""; TemplateValidatorOperand.newService "";
       TemplateValidatorOperand.newPrometheusService ""; TemplateValidatorOperand.newConfigMap "" "";
       TemplateValidatorOperand.newValidatingWebhook ""; TemplateValidatorOperand.newPodDisruptionBudget "" ] ++
     TemplateValidatorOperand.newNetworkPolicies ""))) [].

Lemma validator_within `{Process} `{R : Tls.TlsRuntime Tls.SSPTLSOptions} req p :
  p ∈ static_places TemplateValidatorOperand.funcs req -> within validator_signature p.
Proof.
  apply static_places_within. unfold TemplateValidatorOperand.funcs. repeat (apply Forall_app; split).
  - each_function; try (intros r [= <-]; listed).
    + unfold TemplateValidatorOperand.reconcileConfigMap. intros r.
      destruct (Tls.NewSSPTLSOptions _); [|done..]. intros [= <-]. listed.
    + unfold TemplateValidatorOperand.reconcileDeployment. intros r. case_bool_decide; [done|]. intros [= <-]. listed.
  - destruct (negb _); each_function. intros r [= <-]. listed.
  - unfold TemplateValidatorOperand.reconcileNetworkPolicies, TemplateValidatorOperand.newNetworkPolicies.
    each_function; intros r [= <-]; listed.
Qed.

Definition templates_signature : Signature := mkSignature [] [KTemplate].

Lemma templates_within req p : templates_region req p -> within templates_signature p.
Proof. intros [Hk _]. right. rewrite Hk. by apply list_elem_of_singleton. Qed.

Definition sources_signature : Signature :=
  mkSignature (named <$> (DataSources.staticObjects (DataSources.mkDataSources ∅ true) ++
                          DataSources.staticObjects (DataSources.mkDataSources ∅ false)))
    [KDataSource; KDataImportCron; KPersistentVolumeClaim].

Lemma sources_within d p : ds_region d p -> within sources_signature p.
Proof.
  intros [[Hs|[[Hk _]|Hk]]|[[Hk|Hk] _]].
  - apply list_elem_of_fmap in Hs as (o & -> & Ho). left. apply list_elem_of_fmap. exists o. split; [done|].
    unfold DataSources.staticObjects in *. cbn [DataSources.runningOnOpenShift].
    apply elem_of_app. destruct (DataSources.runningOnOpenShift d); auto.
  - right. rewrite Hk. set_solver.
  - right. rewrite Hk. set_solver.
  - right. rewrite Hk. set_solver.
  - right. rewrite Hk. set_solver.
Qed.

Import VmConsoleProxy VmConsoleProxyClearing.

Definition bundle_objects (v : vmConsoleProxy) : list Object :=
  [serviceAccount v; clusterRoleBinding v; roleBinding v; configMap v; service v; deployment v; apiService v].

Definition proxy_signature (v : vmConsoleProxy) : Signature :=
  mkSignature
    ([ (KServiceAccount, Name (o_meta (serviceAccount v))); (KConfigMap, Name (o_meta (configMap v)));
       (KService, Name (o_meta (service v))); (KDeployment, Name (o_meta (deployment v)));
       (KRoute, routeName); named oldApiService ] ++
     (named <$> bundle_objects v) ++ (named <$> clusterRoles v) ++ (named <$> newNetworkPolicies "")) [].

Section proxy.
Context `{Process} `{R : Tls.TlsRuntime Tls.SSPTLSOptions} `{ProxyYaml}.

Lemma proxy_object_within v o o' :
  (o ∈ bundle_objects v \/ o ∈ clusterRoles v \/ o ∈ newNetworkPolicies "") -> named o' = named o ->
  within (proxy_signature v) (place o').
Proof.
  intros Ho Hn. apply named_within. rewrite Hn. cbn [sig_names proxy_signature]. apply elem_of_app. right.
  rewrite !elem_of_app. destruct Ho as [Ho|[Ho|Ho]]; [left|right; left|right; right]; by apply list_elem_of_fmap_2.
Qed.

Lemma proxy_made_within v req p :
  p ∈ static_places (reconcileFuncs v) req -> within (proxy_signature v) p.
Proof.
  assert (forall o o', o ∈ bundle_objects v -> named o' = named o -> within (proxy_signature v) (place o')) as Hv.
  { intros o o' Ho. apply proxy_object_within. by left. }
  unfold bundle_objects in Hv. apply static_places_within. unfold reconcileFuncs. repeat (apply Forall_app; split).
  - each_function. intros r [= <-]. by apply (Hv (serviceAccount v)); [set_solver|].
  - apply Forall_fmap, Forall_forall. intros o Ho r [= <-]. apply (proxy_object_within v o); [by auto|done].
  - each_function; intros r.
    + unfold reconcileClusterRoleBinding. destruct (o_body (clusterRoleBinding v)) eqn:E; try done.
      intros (ss & _ & [= <-])%outcome_bind_Ok.
      apply (Hv (clusterRoleBinding v)); [set_solver|]. unfold named, o_kind. cbn. by rewrite E.
    + unfold reconcileRoleBinding. destruct (o_body (roleBinding v)) eqn:E; try done.
      intros (ss & _ & [= <-])%outcome_bind_Ok.
      apply (Hv (roleBinding v)); [set_solver|]. unfold named, o_kind. cbn. by rewrite E.
    + unfold reconcileConfigMap. intros (yaml & _ & Hr)%outcome_bind_Ok.
      destruct (o_body (configMap v)) eqn:E; try done. case_match; [|done]. injection Hr as <-. apply (Hv (configMap v)); [set_solver|]. unfold named, o_kind. cbn. by rewrite E.
    + intros [= <-]. by apply (Hv (service v)); [set_solver|].
    + unfold reconcileDeployment. destruct (o_body (deployment v)) eqn:E; try done.
      intros (t & _ & [= <-])%outcome_bind_Ok.
      apply (Hv (deployment v)); [set_solver|]. unfold named, o_kind. cbn. by rewrite E.
    + unfold reconcileApiService. destruct (o_body (apiService v)) eqn:E; try done.
      repeat case_match; try done. intros [= <-].
      apply (Hv (apiService v)); [set_solver|]. unfold named, o_kind. cbn. by rewrite E.
  - unfold reconcileNetworkPolicies. apply Forall_fmap, Forall_forall. intros o Ho r [= <-].
    unfold newNetworkPolicies in Ho. rewrite !elem_of_cons, elem_of_nil in Ho.
    destruct Ho as [->|[->|[]]]; [eapply proxy_object_within; [right; right; apply list_elem_of_here|done]|].
    eapply proxy_object_within; [right; right; apply list_elem_of_further, list_elem_of_here|done].
Qed.

Lemma proxy_within v req p : proxy_region v req p -> within (proxy_signature v) p.
Proof.
  intros [Hp|[[->|[Hk Hn]]|Hp]].
  - by eapply proxy_made_within.
  - apply named_within. cbn. set_solver.
  - left. rewrite Hk, Hn. cbn [sig_names proxy_signature]. set_solver.
  - destruct Hp as [[Hk Hn]|[[Hk Hn]|[[Hk Hn]|[[Hk Hn]|Hp]]]];
      try (left; rewrite Hk, Hn; cbn [sig_names proxy_signature]; set_solver).
    apply list_elem_of_fmap in Hp as (o & -> & Ho). apply (proxy_object_within v o); [|done].
    unfold cluster_objects in Ho. unfold bundle_objects. apply elem_of_app in Ho as [Ho|Ho]; set_solver.
Qed.
End proxy.
