(* ===== verification/Scheme.v ===== *)
(** * The schemes of the two programs

    internal/common/scheme.go, the [init] functions of the operands that add
    their types to it, the registration of the SSP types in api/, and
    [createScheme] of the template validator. A scheme is the set of Go types
    that were added; a client can only send and receive objects of these. *)

From S2P Require Import Prelude GoRuntime KubeTypes SspTypes KubeClient Common Resource SspController StaticOperands DataSources CommonTemplates TemplateValidatorOperand VmDeleteProtection MetricsOperand VmConsoleProxy VmConsoleProxyProofs OperandPlaces.

Module Scheme.
(** A Go type: import path and name. *)
Notation GoType := (string * string)%type.
Notation Scheme := (gset GoType).

(** The packages with a function that adds their types. *)
Inductive ApiPackage :=
| clientgoscheme | extv1 | internalmeta | sspv1beta2 | sspv1beta3 | osconfv1 | kubevirtv1
| promv1 | cdiv1beta1 | admissionregistrationv1 | routev1 | apiregv1 | templatev1.

#[export] Instance ApiPackage_eq_dec : EqDecision ApiPackage.
Proof. solve_decision. Defined.

(** The types that api/v1beta2 and api/v1beta3 register with their builders. *)
Definition v1beta2_path : string := "kubevirt.io/ssp-operator/api/v1beta2".
Definition v1beta3_path : string := "kubevirt.io/ssp-operator/api/v1beta3".
Definition v1beta2_registered : list GoType := [(v1beta2_path, "SSP"); (v1beta2_path, "SSPList")].
Definition v1beta3_registered : list GoType := [(v1beta3_path, "SSP"); (v1beta3_path, "SSPList")].

(** The Go type of the objects of a kind, as the operator imports it. *)
Definition import_path (k : Kind) : string :=
  match k with
  | KConfigMap | KNamespace | KService | KServiceAccount | KPersistentVolumeClaim => "k8s.io/api/core/v1"
  | KClusterRole | KClusterRoleBinding | KRole | KRoleBinding => "k8s.io/api/rbac/v1"
  | KDaemonSet | KDeployment => "k8s.io/api/apps/v1"
  | KNetworkPolicy => "k8s.io/api/networking/v1"
  | KPodDisruptionBudget => "k8s.io/api/policy/v1"
  | KValidatingWebhookConfiguration | KValidatingAdmissionPolicy | KValidatingAdmissionPolicyBinding =>
      "k8s.io/api/admissionregistration/v1"
  | KRoute => "github.com/openshift/api/route/v1"
  | KTemplate => "github.com/openshift/api/template/v1"
  | KPrometheusRule | KServiceMonitor =>
      "github.com/prometheus-operator/prometheus-operator/pkg/apis/monitoring/v1"
  | KDataSource | KDataImportCron => "kubevirt.io/containerized-data-importer-api/pkg/apis/core/v1beta1"
  | KAPIService => "k8s.io/kube-aggregator/pkg/apis/apiregistration/v1"
  end.
Definition go_type (k : Kind) : GoType := (import_path k, kind_name k).

(** The package that has the type: client-go has those of k8s.io/api. *)
Definition home (k : Kind) : ApiPackage :=
  match k with
  | KRoute => routev1 | KTemplate => templatev1 | KPrometheusRule | KServiceMonitor => promv1
  | KDataSource | KDataImportCron => cdiv1beta1 | KAPIService => apiregv1
  | _ => clientgoscheme
  end.

(** Other types that the controllers and the informers read. *)
Definition virtualMachine : GoType := ("kubevirt.io/api/core/v1", "VirtualMachine").
Definition clusterVersion : GoType := ("github.com/openshift/api/config/v1", "ClusterVersion").
Definition infrastructure : GoType := ("github.com/openshift/api/config/v1", "Infrastructure").
Definition crdType : GoType := ("k8s.io/apiextensions-apiserver/pkg/apis/apiextensions/v1", "CustomResourceDefinition").
Definition persistentVolume : GoType := ("k8s.io/api/core/v1", "PersistentVolume").

(** [AddToScheme] (or [Install]) of every package. *)
Class SchemePackages := {
  AddToScheme : ApiPackage -> Scheme -> option error * Scheme;
  package_types : ApiPackage -> Scheme;
  adds : forall p s, AddToScheme p s = (None, s ∪ package_types p);
  home_types : forall k, go_type k ∈ package_types (home k);
  v1beta2_types : list_to_set v1beta2_registered ⊆ package_types sspv1beta2;
  v1beta3_types : list_to_set v1beta3_registered ⊆ package_types sspv1beta3;
  other_types : virtualMachine ∈ package_types kubevirtv1 /\ clusterVersion ∈ package_types osconfv1 /\
    infrastructure ∈ package_types osconfv1 /\ crdType ∈ package_types extv1 /\
    persistentVolume ∈ package_types clientgoscheme
}.

Section schemes.
Context `{SchemePackages}.

(** [utilruntime.Must(p.AddToScheme(scheme))] *)
Definition Must_add (s : Scheme) (p : ApiPackage) : outcome Scheme :=
  match AddToScheme p s with
  | (Some err, _) => Panic (Error err)
  | (None, s') => Ok s'
  end.

Fixpoint add_all (s : Scheme) (ps : list ApiPackage) : outcome Scheme :=
  match ps with
  | [] => Ok s
  | p :: ps => s ← Must_add s p; add_all s ps
  end.

(** [init] of internal/common. *)
Definition common_init : outcome Scheme :=
  add_all ∅ [clientgoscheme; extv1; internalmeta; sspv1beta2; sspv1beta3; osconfv1; kubevirtv1].

(** The [init] functions of the operands; template-validator has none. *)
Definition metrics_init (s : Scheme) : outcome Scheme := add_all s [promv1].
Definition data_sources_init (s : Scheme) : outcome Scheme := add_all s [cdiv1beta1].
Definition vm_delete_protection_init (s : Scheme) : outcome Scheme := add_all s [admissionregistrationv1].
Definition vm_console_proxy_init (s : Scheme) : outcome Scheme := add_all s [routev1; apiregv1].
Definition common_templates_init (s : Scheme) : outcome Scheme := add_all s [templatev1].

(** [createScheme] of the template validator; [setenv] is the answer of
    [os.Setenv]. *)
Definition createScheme (setenv : option error) : outcome Scheme :=
  s ← add_all ∅ [clientgoscheme; templatev1];
  _ ← match setenv with Some err => Panic (Error err) | None => Ok tt end;
  add_all s [kubevirtv1].

(** The conversion functions of [AddConversionFunctions]: of a CRD only the
    metadata is kept; [Convert] of the scope is used for the items of a list. *)
Record PartialObjectMetadata := mkPartial { pom_TypeMeta : TypeMeta; pom_ObjectMeta : ObjectMeta }.
Definition convertCRD (crd : Object) : PartialObjectMetadata := mkPartial (o_type crd) (o_meta crd).
Fixpoint convertItems {A} (Convert : Object -> outcome A) (items : list Object) : outcome (list A) :=
  match items with
  | [] => Ok []
  | item :: items =>
      p ← Convert item;
      ps ← convertItems Convert items;
      Ok (p :: ps)
  end.

(** ** Correctness *)

Lemma add_all_adds s ps : add_all s ps = Ok (s ∪ ⋃ (package_types <$> ps)).
Proof.
  revert s. induction ps as [|p ps IH]; intros s; cbn.
  - f_equal. set_solver.
  - unfold Must_add. rewrite adds. cbn. rewrite IH. f_equal. set_solver.
Qed.

(** The operator's scheme, whatever the order of the [init] functions of the
    operands. *)
Definition operand_inits : list (Scheme -> outcome Scheme) :=
  [common_templates_init; data_sources_init; metrics_init; vm_console_proxy_init; vm_delete_protection_init].
Definition run_inits (inits : list (Scheme -> outcome Scheme)) : outcome Scheme :=
  s ← common_init; foldl (fun m init => s ← m; init s) (Ok s) inits.

Definition adds_packages (init : Scheme -> outcome Scheme) (ps : list ApiPackage) : Prop :=
  forall s, init s = Ok (s ∪ ⋃ (package_types <$> ps)).

Lemma run_adds inits pss s :
  Forall2 adds_packages inits pss ->
  foldl (fun m init => s ← m; init s) (Ok s) inits = Ok (s ∪ ⋃ (package_types <$> concat pss)).
Proof.
  intros Hp. revert s. induction Hp as [|init ps inits pss Hi _ IH]; intros s; cbn.
  - f_equal. set_solver.
  - rewrite Hi, IH. f_equal. rewrite fmap_app, union_list_app_L. set_solver.
Qed.

Lemma operand_inits_add : Forall2 adds_packages operand_inits
  [[templatev1]; [cdiv1beta1]; [promv1]; [routev1; apiregv1]; [admissionregistrationv1]].
Proof. repeat constructor; intros s; apply add_all_adds. Qed.

Lemma inits_commute s inits inits' :
  inits ≡ₚ inits' -> Forall (fun init => exists ps, adds_packages init ps) inits ->
  foldl (fun m init => s ← m; init s) (Ok s) inits = foldl (fun m init => s ← m; init s) (Ok s) inits'.
Proof.
  intros Hp. revert s. induction Hp as [|i l l' _ IH|i j l|l1 l2 l3 H1 IH1 _ IH2]; intros s Hf; [done|..].
  - apply Forall_cons in Hf as [[ps Hi] Hf]. cbn. rewrite Hi. by apply IH.
  - apply Forall_cons in Hf as [[ps Hi] Hf]. apply Forall_cons in Hf as [[qs Hj] _]. cbn.
    rewrite Hi, Hj. cbn. rewrite Hi, Hj. do 2 f_equal. set_solver.
  - rewrite IH1 by done. apply IH2. by rewrite <- H1.
Qed.

(** Every type that the operator handles is registered, in whatever order the
    packages of the operands are initialised. *)
Theorem operator_scheme_complete inits :
  inits ≡ₚ operand_inits ->
  exists s, run_inits inits = Ok s /\ (forall k, go_type k ∈ s) /\
    (v1beta2_path, "SSP") ∈ s /\ (v1beta3_path, "SSP") ∈ s /\ virtualMachine ∈ s /\
    clusterVersion ∈ s /\ infrastructure ∈ s /\ crdType ∈ s /\ persistentVolume ∈ s.
Proof.
  intros Hp. unfold run_inits, common_init. rewrite add_all_adds. cbn [mbind outcome_bind].
  rewrite (inits_commute _ _ _ Hp).
  2: { rewrite Hp. repeat apply Forall_cons_2; [..|apply Forall_nil_2]; eexists; intros s; apply add_all_adds. }
  rewrite (run_adds _ _ _ operand_inits_add). eexists. split; [done|].
  pose proof v1beta2_types as H2. pose proof v1beta3_types as H3. pose proof other_types as Ho. cbn in *.
  split; [|set_solver]. intros k. pose proof (home_types k) as Hk. destruct k; cbn in *; set_solver.
Qed.

(** The types of an operand: those that it watches, and those of the objects
    that it reads and writes. *)
Definition operand_types (types : list WatchType) (g : Signature) : list Kind :=
  (wt_Object <$> types) ++ (sig_names g).*1 ++ sig_kinds g.

Lemma types_registered ps types g :
  Forall (fun k => home k ∈ clientgoscheme :: ps) (operand_types types g) ->
  exists s, (s0 ← common_init; add_all s0 ps) = Ok s /\ forall k, k ∈ operand_types types g -> go_type k ∈ s.
Proof.
  unfold common_init. rewrite add_all_adds. cbn [mbind outcome_bind]. rewrite add_all_adds.
  intros Hf. eexists. split; [done|]. intros k Hk. rewrite Forall_forall in Hf.
  pose proof (home_types k) as Ht. specialize (Hf k Hk). apply elem_of_cons in Hf as [E|Hp].
  - rewrite E in Ht. set_solver.
  - apply elem_of_union. right. apply elem_of_union_list. exists (package_types (home k)).
    split; [by apply list_elem_of_fmap_2|done].
Qed.

Ltac at_home := apply types_registered, (bool_decide_eq_true_1 (Forall _ _)); vm_compute; reflexivity.

Lemma proxy_types_home v :
  VmConsoleProxyProofs.typed v ->
  Forall (fun k => home k ∈ [clientgoscheme; routev1; apiregv1])
    (operand_types (VmConsoleProxy.watchTypes ++ VmConsoleProxy.watchClusterTypes) (proxy_signature v)).
Proof.
  intros [H1 H2 H3 H4 H5 H6 H7 H8]. apply Forall_app. split; [by apply (bool_decide_eq_true_1 (Forall _ _))|].
  cbn [sig_kinds sig_names proxy_signature]. rewrite app_nil_r, !fmap_app. repeat (apply Forall_app; split).
  - by apply (bool_decide_eq_true_1 (Forall _ _)).
  - cbn. rewrite H1, H3, H4, H5, H6, H7, H8. by apply (bool_decide_eq_true_1 (Forall _ _)).
  - rewrite <- list_fmap_compose. apply Forall_fmap. eapply Forall_impl; [exact H2|].
    intros o Ho. cbn. rewrite Ho. set_solver.
  - by apply (bool_decide_eq_true_1 (Forall _ _)).
Qed.

(** Every operand depends for its types on nothing but internal/common and its
    own package: with these two initialised, the types that it watches, reads
    and writes are registered. *)
Theorem operand_types_registered v :
  VmConsoleProxyProofs.typed v ->
  Forall (fun '(init, types, g) => exists s,
      (s0 ← common_init; init s0) = Ok s /\ forall k, k ∈ operand_types types g -> go_type k ∈ s)
    [ (data_sources_init, DataSources.watchClusterTypes, sources_signature);
      (vm_delete_protection_init, VmDeleteProtection.watchClusterTypes, protection_signature);
      (metrics_init, MetricsOperand.watchTypes ++ MetricsOperand.watchClusterTypes, metrics_signature);
      (fun s => Ok s, TemplateValidatorOperand.watchTypes ++ TemplateValidatorOperand.watchClusterTypes,
       validator_signature);
      (common_templates_init, [mkWatchType KTemplate "" false], templates_signature);
      (vm_console_proxy_init, VmConsoleProxy.watchTypes ++ VmConsoleProxy.watchClusterTypes, proxy_signature v) ].
Proof.
  intros Hv. repeat apply Forall_cons_2; [..|apply Forall_nil_2].
  - at_home.
  - at_home.
  - at_home.
  - change (fun s : Scheme => Ok s) with (fun s => add_all s []). at_home.
  - at_home.
  - apply types_registered, proxy_types_home, Hv.
Qed.

(** The scheme of the template validator has the types of its informers; that the
    environment variable cannot be set stops the program. *)
Theorem createScheme_types setenv :
  match createScheme setenv with
  | Ok s => setenv = None /\ go_type KTemplate ∈ s /\ virtualMachine ∈ s
  | Err _ => False
  | Panic _ => setenv <> None
  end.
Proof.
  unfold createScheme. rewrite add_all_adds. cbn [mbind outcome_bind]. destruct setenv as [err|]; [done|].
  cbn [mbind outcome_bind]. rewrite add_all_adds. pose proof (home_types KTemplate) as Ht.
  pose proof other_types as (Hv & _). split; [done|]. cbn in *. set_solver.
Qed.

(** Items are converted in order; the first failure is the result. *)
Lemma convertItems_spec {A} (Convert : Object -> outcome A) items :
  (forall ps, convertItems Convert items = Ok ps <-> Forall2 (fun i p => Convert i = Ok p) items ps) /\
  convertItems (fun o => Ok (convertCRD o)) items = Ok (convertCRD <$> items).
Proof.
  split; [|by induction items as [|i items IH]; cbn; rewrite ?IH].
  induction items as [|i items IH]; intros ps; cbn.
  - split; [by intros [= <-]|by inversion 1].
  - rewrite outcome_bind_Ok. setoid_rewrite outcome_bind_Ok. setoid_rewrite IH. split.
    + intros (p & Hi & qs & Hq & [= <-]). by constructor.
    + inversion 1 as [|? p ? qs Hi Hq]; subst. exists p. split; [done|]. by exists qs.
Qed.
End schemes.

(** ** Packages with exactly these types *)

Module SchemeWitness.
Definition all_kinds : list Kind :=
  [KConfigMap; KNamespace; KService; KServiceAccount; KClusterRole; KClusterRoleBinding; KRole; KRoleBinding;
   KDaemonSet; KDeployment; KRoute; KPrometheusRule; KServiceMonitor; KNetworkPolicy; KTemplate; KDataSource;
   KDataImportCron; KPersistentVolumeClaim; KPodDisruptionBudget; KValidatingWebhookConfiguration;
   KValidatingAdmissionPolicy; KValidatingAdmissionPolicyBinding; KAPIService].
Definition types (p : ApiPackage) : Scheme :=
  list_to_set (go_type <$> filter (fun k => home k = p) all_kinds) ∪
  match p with
  | clientgoscheme => {[ persistentVolume ]}
  | extv1 => {[ crdType ]}
  | sspv1beta2 => list_to_set v1beta2_registered
  | sspv1beta3 => list_to_set v1beta3_registered
  | osconfv1 => {[ clusterVersion; infrastructure ]}
  | kubevirtv1 => {[ virtualMachine ]}
  | _ => ∅
  end.

Definition packages : SchemePackages.
Proof.
  refine {| AddToScheme := fun p s => (None, s ∪ types p); package_types := types |}.
  - done.
  - intros k. apply elem_of_union. left. apply elem_of_list_to_set, list_elem_of_fmap_2, list_elem_of_filter.
    split; [done|]. apply (bool_decide_eq_true_1 (_ ∈ _)). by destruct k.
  - apply union_subseteq_r.
  - apply union_subseteq_r.
  - unfold types. set_solver.
Defined.

Lemma operand_types_registered_witness :
  exists s, (s0 ← common_init (H := packages); vm_console_proxy_init (H := packages) s0) = Ok s /\
    go_type KRoute ∈ s /\ go_type KAPIService ∈ s.
Proof.
  pose proof (operand_types_registered (H := packages) VmConsoleProxyProofs.ProxyWitness.proxy
    VmConsoleProxyProofs.ProxyWitness.proxy_typed) as Hall.
  do 5 (apply Forall_cons in Hall as [_ Hall]). apply Forall_cons in Hall as [(s & E & Hs) _].
  exists s. split; [exact E|].
  split; apply Hs, (bool_decide_eq_true_1 (_ ∈ _)); vm_compute; reflexivity.
Defined.
End SchemeWitness.
End Scheme.
