(* ===== verification/WatchedWrites.v ===== *)
(** * What the operands write is watched

    Whatever the API server answers, every object that an operand creates or
    updates is marked as one of the SSP, by its owner annotations or by a
    controller reference, and its type is one that the operator watches with the
    handler for that mark. For each operand: the types that it writes with the
    one and with the other mark. *)

From S2P Require Import Prelude GoRuntime KubeTypes SspTypes Architecture KubeClient Cluster Common Resource ResourceProofs SspController Contracts StaticOperands Semver TemplateBundle CommonTemplates CommonTemplatesProofs DataSources DataSourcesProofs Tls TemplateValidatorOperand VmDeleteProtection MetricsOperand VmConsoleProxy VmConsoleProxyProofs TemplatesSettling DataSourcesPlan OperandPlaces Watches.

(** A write of an object that is marked for the SSP and has one of these types:
    [cl] for annotations, [own] for a controller reference. *)
Definition noticed (own cl : list Kind) (i : SSP) (c : ApiCall) : Prop :=
  match c with
  | CCreate o | CUpdate o =>
      (o_kind o ∈ cl /\ Owner.CheckOwnerAnnotation (o_meta o) i = true) \/
      (o_kind o ∈ own /\ Owner.controller_ref i ∈ OwnerReferences (o_meta o))
  | _ => True
  end.

Lemma noticed_mono own cl own' cl' i c :
  own ⊆ own' -> cl ⊆ cl' -> noticed own cl i c -> noticed own' cl' i c.
Proof. intros Ho Hc. destruct c; cbn; try done; intros [[Hk ?]|[Hk ?]]; [left|right|left|right]; auto. Qed.

Lemma noticed_issued `{Client W} {A} own cl own' cl' i (m : Op W A) :
  own ⊆ own' -> cl ⊆ cl' -> issued (noticed own cl i) m -> issued (noticed own' cl' i) m.
Proof. intros Ho Hc. apply issued_mono. intros c. by apply noticed_mono. Qed.

Lemma read_noticed own cl i c : is_read c = true -> noticed own cl i c.
Proof. by destruct c. Qed.

(** ** One builder *)

(** An update function that leaves the marks of the expected object. *)
Definition keeps_marks (f : ResourceUpdateFunc) (e : Object) : Prop := forall o e' o',
  carries e (o_meta o) -> f e o = Ok (e', o') ->
  o_kind o' = o_kind o /\ OwnerReferences (o_meta o') = OwnerReferences (o_meta e) /\
  forall i, Owner.CheckOwnerAnnotation (o_meta e) i = true -> Owner.CheckOwnerAnnotation (o_meta o') i = true.

Lemma kept_marks e m i :
  map_kept (Annotations (o_meta e)) (Annotations m) ->
  Owner.CheckOwnerAnnotation (o_meta e) i = true -> Owner.CheckOwnerAnnotation m i = true.
Proof. intros Hk. rewrite !Owner.CheckOwnerAnnotation_true. intros [Ht Hn]. split; by apply Hk. Qed.

Lemma restores_keeps_marks f e : restores f e -> keeps_marks f e.
Proof.
  intros Hr o e' o' Hc Hf. destruct (Hr o e' o' Hc Hf) as (Hk & _ & Ho & _ & Ha).
  split_and!; [done|done|]. intros i. by apply kept_marks.
Qed.

Section builders.
Context `{Client W}.
Implicit Types (own cl : list Kind) (req : Request).

Lemma mutate_marks r cache res o e' o' :
  keeps_marks (updateFunc r) res -> DeletionTimestamp (o_meta o) = None ->
  mutateFn r cache res o = Ok (e', o') ->
  o_kind o' = o_kind o /\ OwnerReferences (o_meta o') = OwnerReferences (o_meta res) /\
  forall i, Owner.CheckOwnerAnnotation (o_meta res) i = true -> Owner.CheckOwnerAnnotation (o_meta o') i = true.
Proof.
  intros Hm Hd. rewrite mutateFn_alive by done. cbn. case_match.
  - intros ([e1 o1] & Hu & [= <- <-])%outcome_bind_Ok. apply Hm in Hu; [done|]. apply restored_carries.
  - intros [= <- <-]. split_and!; [done..|]. intros i. apply kept_marks, update_map_kept.
Qed.

Lemma builder_noticed own cl r :
  (forall res, prepared r = Ok res -> keeps_marks (updateFunc r) res) ->
  o_kind (resource r) ∈ (if isClusterResource r then cl else own) ->
  issued (W := W) (noticed own cl (Instance (request r))) (Resource.Reconcile r).
Proof.
  intros Hm Hk. destruct (prepared r) as [res|e|p] eqn:Hp; [|apply Reconcile_unprepared; congruence..].
  apply (issued_Reconcile _ _ _ Hp), createOrUpdate_calls; [done|].
  intros o e' o' Hd Hkind (cache & [Hmut _]%mutate_Ok).
  destruct (mutate_marks _ _ _ _ _ _ (Hm res eq_refl) Hd Hmut) as (Hk' & Ho & Ha).
  destruct (prepared_keeps _ _ Hp) as (Hkr & _). pose proof (prepared_owned _ _ Hp) as Hown.
  assert (noticed own cl (Instance (request r)) (CCreate o')) as Hn.
  { cbn. rewrite Hk', Hkind, Hkr, Ho. destruct (isClusterResource r); [left|by right].
    split; [done|]. apply Ha, Hown. }
  by split_and!.
Qed.

(** A list of builder functions. *)
Definition marks_types own cl req (f : BuilderFunc) : Prop := forall r, f req = Ok r ->
  request r = req /\ keeps_meta (updateFunc r) /\
  o_kind (resource r) ∈ (if isClusterResource r then cl else own).

Lemma builders_noticed own cl req fs :
  Forall (marks_types own cl req) fs ->
  issued (W := W) (noticed own cl (Instance req)) (CollectResourceStatus req (run_builder <$> fs)).
Proof.
  intros Hfs. apply issued_mapM. intros g (f & -> & Hf)%list_elem_of_fmap.
  pose proof (proj1 (Forall_forall _ _) Hfs f Hf) as Hg. unfold run_builder, marks_types in *. intros s.
  destruct (f req) as [r|e|p] eqn:E; [|by apply extends_same..].
  destruct (Hg r eq_refl) as (<- & Hm & Hk).
  apply builder_noticed; [intros; by apply restores_keeps_marks, keeps_meta_restores|done].
Qed.

(** Deletions are no writes of objects. *)
Lemma only_deletes_noticed own cl i {A} (m : Op W A) :
  issued (W := W) (fun c => match c with CCreate _ | CUpdate _ => False | _ => True end) m ->
  issued (W := W) (noticed own cl i) m.
Proof. apply issued_mono. by intros []. Qed.
End builders.

(** ** The operands with fixed objects *)

Lemma static_marks funcs cleaned `{!StaticOperand funcs cleaned} own cl req :
  Forall (fun f : BuilderFunc => forall r, f req = Ok r ->
    o_kind (resource r) ∈ (if isClusterResource r then cl else own)) (funcs req) ->
  Forall (marks_types own cl req) (funcs req).
Proof.
  rewrite !Forall_forall. intros Hk f Hf r Hr.
  destruct (proj1 (Forall_forall _ _) (static_good (funcs := funcs) req) f Hf r Hr) as [Hq Hm _ _].
  split_and!; [done|done|by eapply Hk].
Qed.

Definition kinds (types : list WatchType) : list Kind := wt_Object <$> types.

(** Decides whether a type is one of the list. *)
Ltac listed_kind := apply (bool_decide_eq_true_1 (_ ∈ _)); reflexivity.

#[local] Existing Instance VmDeleteProtection.static.
#[local] Existing Instance MetricsOperand.static.
#[local] Existing Instance TemplateValidatorOperand.static.

Import VmConsoleProxyProofs.

Section operands.
Context `{Client W}.
Implicit Types (req : Request).

Lemma protection_noticed req :
  issued (W := W) (noticed [] (kinds VmDeleteProtection.watchClusterTypes) (Instance req))
    (VmDeleteProtection.Reconcile req).
Proof.
  apply builders_noticed. eapply static_marks; [apply _|]. each_function; intros r [= <-]; listed_kind.
Qed.

Lemma metrics_noticed `{MetricsOperand.RuleRegistry} req :
  issued (W := W) (noticed (kinds MetricsOperand.watchTypes) (kinds MetricsOperand.watchClusterTypes) (Instance req))
    (MetricsOperand.Reconcile req).
Proof.
  apply builders_noticed. eapply static_marks; [apply _|]. each_function; try (intros r [= <-]; listed_kind).
  unfold MetricsOperand.reconcilePrometheusRule, MetricsOperand.BuildPrometheusRule. intros r.
  destruct MetricsOperand.registered_rules; [|done..]. intros [= <-]. listed_kind.
Qed.

Lemma validator_noticed `{Process} `{R : Tls.TlsRuntime Tls.SSPTLSOptions} req :
  issued (W := W) (noticed (kinds TemplateValidatorOperand.watchTypes)
    (kinds TemplateValidatorOperand.watchClusterTypes) (Instance req)) (TemplateValidatorOperand.Reconcile req).
Proof.
  apply builders_noticed. eapply static_marks; [apply _|].
  unfold TemplateValidatorOperand.funcs. repeat (apply Forall_app; split).
  - each_function; try (intros r [= <-]; listed_kind).
    + unfold TemplateValidatorOperand.reconcileConfigMap. intros r.
      destruct (Tls.NewSSPTLSOptions _); [|done..]. intros [= <-]. listed_kind.
    + unfold TemplateValidatorOperand.reconcileDeployment. intros r. case_bool_decide; [done|].
      intros [= <-]. listed_kind.
  - destruct (negb _); each_function. intros r [= <-]. listed_kind.
  - unfold TemplateValidatorOperand.reconcileNetworkPolicies, TemplateValidatorOperand.newNetworkPolicies.
    each_function; intros r [= <-]; listed_kind.
Qed.

(** The bundle of the console proxy has a binding in another namespace. *)
Definition proxy_cluster_kinds : list Kind := KRoleBinding :: kinds VmConsoleProxy.watchClusterTypes.

Lemma proxy_marks `{Process} `{R : Tls.TlsRuntime Tls.SSPTLSOptions} `{VmConsoleProxy.ProxyYaml} v req :
  typed v ->
  Forall (fun f : BuilderFunc => forall r, f req = Ok r -> o_kind (resource r) ∈
      (if isClusterResource r then proxy_cluster_kinds else kinds VmConsoleProxy.watchTypes))
    (VmConsoleProxy.reconcileFuncs v req).
Proof.
  intros Hv. unfold VmConsoleProxy.reconcileFuncs. repeat (apply Forall_app; split).
  - each_function. intros r [= <-]. change (o_kind (VmConsoleProxy.serviceAccount v) ∈ kinds VmConsoleProxy.watchTypes).
    rewrite (typed_ServiceAccount v Hv). listed_kind.
  - apply Forall_fmap, Forall_forall. intros o Ho r [= <-]. change (o_kind o ∈ proxy_cluster_kinds).
    rewrite (proj1 (Forall_forall _ _) (typed_ClusterRoles v Hv) o Ho). listed_kind.
  - each_function; intros r.
    + unfold VmConsoleProxy.reconcileClusterRoleBinding. case_match; try done.
      intros (ss & _ & [= <-])%outcome_bind_Ok. listed_kind.
    + unfold VmConsoleProxy.reconcileRoleBinding. case_match; try done.
      intros (ss & _ & [= <-])%outcome_bind_Ok. listed_kind.
    + unfold VmConsoleProxy.reconcileConfigMap. intros (yaml & _ & Hr)%outcome_bind_Ok.
      repeat case_match; simplify_eq. listed_kind.
    + intros [= <-]. change (o_kind (VmConsoleProxy.service v) ∈ kinds VmConsoleProxy.watchTypes).
      rewrite (typed_Service v Hv). listed_kind.
    + unfold VmConsoleProxy.reconcileDeployment. case_match; try done.
      intros (t & _ & [= <-])%outcome_bind_Ok. listed_kind.
    + unfold VmConsoleProxy.reconcileApiService. intros Hr. repeat case_match; simplify_eq; listed_kind.
  - unfold VmConsoleProxy.reconcileNetworkPolicies, VmConsoleProxy.newNetworkPolicies.
    each_function; intros r [= <-]; listed_kind.
Qed.

Lemma proxy_noticed `{Process} `{R : Tls.TlsRuntime Tls.SSPTLSOptions} `{VmConsoleProxy.ProxyYaml} v req :
  typed v -> Namespace (ssp_meta (Instance req)) = key_Namespace (NamespacedName req) ->
  issued (W := W) (noticed (kinds VmConsoleProxy.watchTypes) proxy_cluster_kinds (Instance req))
    (VmConsoleProxy.Reconcile v req).
Proof.
  intros Hv Hns.
  assert (forall A (m : Op W A), issued (removes_owned req) m ->
    issued (noticed (kinds VmConsoleProxy.watchTypes) proxy_cluster_kinds (Instance req)) m) as Hdel.
  { intros A m. apply issued_mono. intros c (resources & [Hr|(res & found & e & _ & _ & -> & _)]); [by apply read_noticed|done]. }
  unfold VmConsoleProxy.Reconcile. destruct (negb _).
  { apply issued_bind; [apply Hdel, Cleanup_only_deletes|intros; apply issued_ret]. }
  apply issued_bind; [|intros ?; apply issued_bind; [apply Hdel, Cleanup_removes_owned|intros ?]].
  - apply builders_noticed. pose proof (reconcileFuncs_good v req Hns) as Hg. pose proof (proxy_marks v req Hv) as Hk.
    rewrite Forall_forall in Hg, Hk. apply Forall_forall. intros f Hf r Hr.
    destruct (Hg f Hf r Hr) as [Hq Hm _ _]. split_and!; [done|done|by eapply Hk].
  - apply issued_bind; [apply Hdel, deleteRoute_removes_owned|intros; apply issued_ret].
Qed.

(** ** The templates *)

Lemma template_marks own cl req t :
  o_kind t = KTemplate -> KTemplate ∈ cl ->
  issued (W := W) (noticed own cl (Instance req)) (CommonTemplates.reconcileTemplate t req).
Proof.
  intros Hk Hc. apply builder_noticed; [intros res _; apply restores_keeps_marks, updateTemplate_restores|].
  cbn. by rewrite <- Hk in Hc.
Qed.

Lemma deprecateTemplate_marks e : keeps_marks CommonTemplates.deprecateTemplate e.
Proof.
  intros o e' o' (Ho & _ & Ha). unfold CommonTemplates.deprecateTemplate, o_kind.
  destruct (o_body o) eqn:Eb; try done. destruct (Annotations (o_meta o)) as [anns|] eqn:En; [|done].
  destruct (KubeTypes.Labels (o_meta o)); [|done]. intros [= <- <-].
  split_and!; [by cbn; rewrite Eb|done|].
  intros i Hi. apply (kept_marks _ (o_meta o)) in Hi; [|by rewrite En].
  apply Owner.CheckOwnerAnnotation_true in Hi as [Ht Hn]. rewrite En in Ht, Hn. cbn in Ht, Hn.
  apply Owner.CheckOwnerAnnotation_true. cbn. by rewrite !lookup_insert_ne.
Qed.

Lemma listed_templates opts :
  returns (S := OpSt W) (Forall (fun t => o_kind t = KTemplate)) (CommonTemplates.list_accepting_not_found opts).
Proof.
  intros s ts s'. unfold CommonTemplates.list_accepting_not_found, List, call, try. run_monad.
  destruct (cl_List KTemplate opts (op_world s)) as [[err|items] w] eqn:E; cbn.
  - destruct (IsNotFound err); [|done]. by intros [= <- <-].
  - intros [= <- <-]. by eapply cl_List_kind.
Qed.

Lemma owned_templates k req opts :
  returns (S := OpSt W) (Forall (fun t => o_kind t = k)) (ListOwnedResources k req opts).
Proof.
  intros s ts s'. unfold ListOwnedResources, List, call. run_monad.
  destruct (cl_List k opts (op_world s)) as [[err|items] w] eqn:E; cbn; [done|]. intros [= <- <-].
  apply Forall_forall. intros o [_ Ho]%list_elem_of_filter. revert o Ho. apply Forall_forall. by eapply cl_List_kind.
Qed.

Lemma returns_wrapping {A} (Q : A -> Prop) p (m : Op W A) : returns Q m -> returns Q (wrapping p m).
Proof.
  intros Hm s a s'. unfold wrapping. destruct (m s) as [[b|e|q] s1] eqn:E; try done. intros [= <- <-]. by eapply Hm.
Qed.

Lemma old_templates_noticed `{Process} `{MapRange} own cl req deployed archs :
  KTemplate ∈ cl ->
  issued (W := W) (noticed own cl (Instance req)) (CommonTemplates.deprecateOrDeleteOldTemplates req deployed archs) /\
  returns (Forall (fun f => issued (W := W) (noticed own cl (Instance req)) (f req)))
    (CommonTemplates.deprecateOrDeleteOldTemplates req deployed archs).
Proof.
  intros Hc. unfold CommonTemplates.deprecateOrDeleteOldTemplates. split.
  - unfold CommonTemplates.list_accepting_not_found, ListOwnedResources, List. solve_issued.
  - eapply returns_bind; [apply listed_templates|intros old Hold].
    destruct (Semver.ParseTolerant _) as [latest|]; [|apply returns_throw].
    eapply returns_bind; [apply returns_wrapping, owned_templates|intros owned Howned].
    apply returns_ret, Forall_forall. intros f ([n t] & Hin & Hf)%list_elem_of_omap.
    rewrite map_range_perm, elem_of_map_to_list in Hin.
    destruct (nonDeployed_safe _ _ _ _ _ Hin) as (_ & _ & Ht).
    assert (o_kind t = KTemplate) as Hk.
    { rewrite Forall_forall in Hold, Howned. destruct Ht as [Ht|Ht]; [by apply Hold|by apply Howned]. }
    destruct (CommonTemplates.old_template_action latest archs t); simplify_eq.
    + unfold CommonTemplates.reconcileDeleteTemplate, Delete. solve_issued.
    + apply builder_noticed; [intros res _; apply deprecateTemplate_marks|]. cbn. by rewrite Hk.
Qed.

(** All templates that the operand holds are of that type. *)
Definition all_templates (c : CommonTemplates.commonTemplates) : Prop :=
  forall archs spec, Forall (fun t => o_kind t = KTemplate) (CommonTemplates.getTemplatesForArchs c archs spec).

Lemma templates_noticed `{Process} `{MapRange} own cl c req :
  all_templates c -> KTemplate ∈ cl ->
  issued (W := W) (noticed own cl (Instance req)) (CommonTemplates.Reconcile c req).
Proof.
  intros Hall Hc. unfold CommonTemplates.Reconcile. apply issued_bind; [apply issued_lift|intros archs].
  apply issued_bind.
  { apply issued_mapM. intros f (t & -> & Ht)%list_elem_of_fmap. apply template_marks; [|done].
    revert t Ht. apply Forall_forall, Hall. }
  intros rs. apply issued_bind; [destruct (_ && _); solve_issued|intros _].
  eapply issued_bind_returns; [by apply old_templates_noticed..|intros funcs Hf].
  apply issued_bind; [|intros; apply issued_ret]. apply issued_mapM. rewrite Forall_forall in Hf. exact Hf.
Qed.

(** ** The data sources *)

Lemma updateDataSource_marks info i e : keeps_marks (DataSources.updateDataSource info i) e.
Proof.
  intros o e' o' (Ho & _ & Ha). unfold DataSources.updateDataSource, o_kind.
  destruct (DataSources.autoUpdateEnabled info).
  - intros [= <- <-]. split_and!; [done|done|]. intros j. by apply kept_marks.
  - destruct (o_body e) eqn:Ee; try done. destruct (o_body o) eqn:Eb; try done. intros [= <- <-].
    split_and!; [done|done|]. intros j. by apply kept_marks.
Qed.

Definition is_source (i : DataSources.dataSourceInfo) : Prop := o_kind (DataSources.dataSource i) = KDataSource.

Lemma with_ds_spec_kind ds sp : o_kind (DataSources.with_ds_spec ds sp) = o_kind ds.
Proof. unfold DataSources.with_ds_spec, o_kind. by destruct (o_body ds) eqn:E; rewrite ?E. Qed.

Lemma handleDefault_kind ds auto name :
  returns (S := OpSt W) (fun r => o_kind r.1 = o_kind ds) (DataSources.handleDefaultDataSource ds auto name).
Proof.
  unfold DataSources.handleDefaultDataSource, DataSources.with_pvc_name.
  eapply returns_bind; [apply returns_true|intros got _].
  repeat first
    [ apply returns_throw | (apply returns_ret; first [done | apply with_ds_spec_kind])
    | eapply returns_bind; [apply returns_true|intros ? _] | (intros ? ? ? ?; done) | case_match ].
Qed.

Lemma arch_info_source crons name default arch :
  returns (S := OpSt W) is_source (DataSources.arch_info crons name default arch).
Proof.
  unfold DataSources.arch_info. eapply returns_bind; [apply returns_true|intros auto _].
  eapply (returns_bind (fun r => o_kind r.1 = KDataSource)); [|intros [ds b] Hk; by apply returns_ret].
  case_bool_decide; [|by apply returns_ret]. apply returns_wrapping, handleDefault_kind.
Qed.

Lemma infos_are_sources `{Process} `{MapRange} d req :
  returns (S := OpSt W) (fun '(infos, _) => Forall is_source infos) (DataSources.getDataSourcesAndCrons d req).
Proof.
  assert (forall A (f : A -> Op W DataSources.dataSourceInfo) l, (forall a, returns is_source (f a)) ->
    returns (Forall is_source) (mapM f l)) as Hmap.
  { intros A f l Hf s bs s' E. apply (returns_mapM (fun _ => is_source) f l Hf) in E.
    eapply Forall2_Forall_r; [exact E|by apply Forall_forall]. }
  unfold DataSources.getDataSourcesAndCrons.
  eapply (returns_bind (fun '(_, infos) => Forall is_source infos)); [|intros [crons infos] Hi; by apply returns_ret].
  destruct (multi_arch _).
  - eapply returns_bind; [apply returns_true|intros crons _].
    eapply (returns_bind (Forall is_source)).
    + apply returns_wrapping. unfold DataSources.getDataSourceInfosMultiArch. destruct (negb _); [apply returns_throw|].
      eapply returns_bind; [apply returns_true|intros archs _].
      eapply (returns_bind (Forall2 (fun _ => Forall is_source) (map_range (DataSources.sourceCollection d)))).
      * apply returns_mapM. intros [name dsArchs]. unfold DataSources.source_infos. cbn.
        case_match; [|by apply returns_ret]. eapply returns_bind; [apply Hmap; intros; apply arch_info_source|].
        intros infos Hi. apply returns_ret. by constructor.
      * intros infos Hi. apply returns_ret, Forall_concat. eapply Forall2_Forall_r; [exact Hi|by apply Forall_forall].
    + intros infos Hi. eapply returns_bind; [apply returns_true|intros archs _].
      apply returns_ret. by apply add_references_all.
  - eapply (returns_bind (Forall is_source)); [|intros infos Hi; by apply returns_ret].
    apply returns_wrapping. unfold DataSources.getDataSourceInfos. case_match; [apply returns_throw|].
    eapply returns_bind; [apply returns_true|intros [|arch archs] _]; [intros ? ? ? ?; done|].
    apply Hmap. intros name. eapply returns_bind; [apply returns_true|intros auto _]. by apply returns_ret.
Qed.

Definition source_kinds : list Kind := kinds DataSources.watchClusterTypes.

Lemma cluster_func_noticed own o req :
  o_kind o ∈ source_kinds ->
  issued (W := W) (noticed own source_kinds (Instance req)) (DataSources.cluster_func o req).
Proof.
  intros Hk. apply builder_noticed; [|exact Hk].
  intros res _. apply restores_keeps_marks, keeps_meta_restores, defaultUpdateFunc_keeps_meta.
Qed.

Lemma sources_noticed `{Process} `{MapRange} own d req :
  issued (W := W) (noticed own source_kinds (Instance req)) (DataSources.Reconcile d req).
Proof.
  intros s. apply Reconcile_issued; [apply read_noticed|]. intros infos crons s1 E.
  pose proof (infos_are_sources _ _ _ _ _ E) as Hi. pose proof (getDataSourcesAndCrons_decided _ _ _ _ _ E) as [Hc _].
  rewrite Forall_forall in Hi. rewrite Forall_forall in Hc.
  intros f [[Hf|[(i & Hin & ->)|[Hf|(c & Hin & ->)]]]|[(o & _ & _ & ->)|(o & _ & _ & ->)]].
  - rewrite !elem_of_cons, elem_of_nil in Hf. destruct Hf as [->|[->|[->|[->|[]]]]];
      apply cluster_func_noticed; listed_kind.
  - apply builder_noticed; [intros res _; apply updateDataSource_marks|]. cbn. rewrite (Hi i Hin). listed_kind.
  - apply list_elem_of_fmap in Hf as (o & -> & Ho). apply cluster_func_noticed.
    unfold DataSources.newNetworkPolicies in Ho. rewrite !elem_of_cons, elem_of_nil in Ho.
    destruct Ho as [->|[->|[->|[->|[->|[->|[]]]]]]]; listed_kind.
  - apply builder_noticed; [intros; apply restores_keeps_marks, keeps_meta_restores, updateDataImportCron_keeps_meta|].
    cbn. rewrite (Hc c Hin : o_kind c = _). listed_kind.
  - unfold DataSources.removeDataSource, Delete. solve_issued.
  - unfold DataSources.removeDataImportCron, Delete. solve_issued.
Qed.
End operands.

(** ** The bundle of templates *)

Lemma New_all_templates ts c :
  CommonTemplates.New ts = Ok c -> Forall (fun t => o_kind t = KTemplate) ts -> all_templates c.
Proof.
  intros (byArch & E & [= <-])%outcome_bind_Ok Hts archs spec. unfold CommonTemplates.getTemplatesForArchs.
  apply Forall_forall. intros t (arch & Ht & _)%list_elem_of_bind. revert t Ht. apply Forall_forall.
  assert (Forall (fun t => o_kind t = KTemplate) (CommonTemplates.templates_of (CommonTemplates.mkCommonTemplates byArch) arch)) as Ha.
  { unfold CommonTemplates.templates_of. cbn. rewrite (collect_by_arch_spec _ _ _ E). rewrite lookup_empty. cbn.
    apply Forall_forall. intros t [_ Ht]%list_elem_of_filter. revert t Ht. by apply Forall_forall. }
  destruct (negb _); [done|]. apply Forall_fmap. eapply Forall_impl; [exact Ha|].
  intros t Ht. unfold compose, CommonTemplates.addArchSuffixToDataSourceParameter, o_kind in *.
  destruct (o_body t) eqn:Eb; cbn; rewrite ?Eb; done.
Qed.

Lemma read_all_templates file ts :
  TemplateBundle.ReadTemplates file = Ok ts ->
  (forall docs t, file = inr docs -> inr t ∈ docs -> o_kind t = KTemplate) ->
  Forall (fun t => o_kind t = KTemplate) ts.
Proof.
  destruct file as [err|docs]; [done|]. intros (decoded & -> & ->)%TemplateBundle.read_documents_spec Hd.
  apply Forall_forall. intros t [_ Ht]%list_elem_of_filter. apply (Hd _ t eq_refl). by apply list_elem_of_fmap_2.
Qed.

(** ** Watches *)

Section watches.
Context `{MapRange} {W : Type}.
Import Handlers Watches WatchesProofs.

(** A type that is declared is watched when its CRDs exist. *)
Lemma declared_watched crds handler (ops : list (Operand W)) f k :
  k ∈ kinds (concat (f <$> ops)) ->
  (forall wt, wt ∈ concat (f <$> ops) -> Crd wt = "" \/ CrdExists crds (Crd wt) = true) ->
  exists wt, watchOf handler wt ∈ watchResources crds handler ops f /\ wt_Object wt = k.
Proof.
  intros (wt0 & -> & Hin)%list_elem_of_fmap Hcrd. set (types := concat (f <$> ops)) in *.
  destruct (last (of_kind (wt_Object wt0) types)) as [wt|] eqn:E.
  - assert (wt ∈ of_kind (wt_Object wt0) types) as [_ Hwt]%list_elem_of_filter by by eapply last_Some_elem_of.
    exists (mkWatchType (wt_Object wt0) (Crd wt) (existsb WatchFullObject (of_kind (wt_Object wt0) types))). split; [|done].
    apply (watchResources_spec crds handler ops f). exists wt. split_and!; [exact E|by apply Hcrd|reflexivity].
  - apply last_None in E. assert (wt0 ∈ of_kind (wt_Object wt0) types) as Hx by by apply list_elem_of_filter.
    rewrite E in Hx. by apply elem_of_nil in Hx.
Qed.

(** A write that the operator hears of: the watch for the type of the object has
    the handler for the mark that the object carries. *)
Definition watched (watches : list Watch) (i : SSP) (c : ApiCall) : Prop :=
  match c with
  | CCreate o | CUpdate o => exists wt, wt_Object wt = o_kind o /\
      ((watchOf EnqueueRequestForAnnotation wt ∈ watches /\ Owner.CheckOwnerAnnotation (o_meta o) i = true) \/
       (watchOf EnqueueRequestForOwner wt ∈ watches /\ Owner.controller_ref i ∈ OwnerReferences (o_meta o)))
  | _ => True
  end.

Lemma noticed_watched crds (ops : list (Operand W)) i c :
  (forall wt, wt ∈ concat (WatchTypes <$> ops) ++ concat (WatchClusterTypes <$> ops) ->
     Crd wt = "" \/ CrdExists crds (Crd wt) = true) ->
  noticed (kinds (concat (WatchTypes <$> ops))) (kinds (concat (WatchClusterTypes <$> ops))) i c ->
  watched (watchClusterResources crds ops ++ watchNamespacedResources crds ops) i c.
Proof.
  intros Hcrd.
  assert (forall o, noticed (kinds (concat (WatchTypes <$> ops))) (kinds (concat (WatchClusterTypes <$> ops))) i (CCreate o) ->
    watched (watchClusterResources crds ops ++ watchNamespacedResources crds ops) i (CCreate o)) as Hw.
  { intros o [[Hk Ha]|[Hk Ha]]; eapply declared_watched in Hk as (wt & Hin & Hwt).
    - exists wt. split; [done|]. left. split; [|done]. apply elem_of_app. left. exact Hin.
    - intros wt' Hwt'. apply Hcrd, elem_of_app. by right.
    - exists wt. split; [done|]. right. split; [|done]. apply elem_of_app. right. exact Hin.
    - intros wt' Hwt'. apply Hcrd, elem_of_app. by left. }
  destruct c; try done; apply (Hw o).
Qed.
End watches.
