(* ===== verification/OperatorLife.v ===== *)
(** * The life of an SSP in the operator as it is put together

    The theorems on several rounds, for the controller that [Setup] creates and
    with the operands of the cluster it runs on. *)

From S2P Require Import Prelude GoRuntime KubeTypes SspTypes Architecture KubeClient Cluster Common Json Samples Resource CleanupProofs SspController DataSources DataSourcesProofs StaticOperands Settling Convergence Deletion Tls CommonTemplates TemplateBundle TemplateValidatorOperand VmDeleteProtection MetricsOperand VmConsoleProxy VmConsoleProxyProofs CrdWatch Watches Setup OperandSettling OperandClearing ProxySettling TemplatesSettling DataSourcesPlan DataSourcesSettling OperandPlaces WatchedWrites.
Import Setup CommonTemplatesClearing DataSourcesClearing VmConsoleProxyClearing.

(** What the operands of a cluster are made from: the sources of the boot images
    and, on OpenShift, the templates and the bundle of the console proxy. *)
Record Parts := mkParts {
  part_sources : DataSourceCollection;
  part_openshift : option (CommonTemplates.commonTemplates * VmConsoleProxy.vmConsoleProxy)
}.

Section parts.
Context `{Process} `{R : Tls.TlsRuntime Tls.SSPTLSOptions} `{VmConsoleProxy.ProxyYaml}
  `{MetricsOperand.RuleRegistry} `{MapRange}.

Definition dataSources_of (p : Parts) : DataSources.dataSources :=
  DataSources.mkDataSources (part_sources p) (bool_decide (is_Some (part_openshift p))).

Definition operator_operands `{Client W} (p : Parts) : list (Operand W) :=
  [ DataSources.operand (dataSources_of p); VmDeleteProtection.operand ] ++
  match part_openshift p with
  | Some (templates, proxy) =>
      [ MetricsOperand.operand; TemplateValidatorOperand.operand;
        CommonTemplates.operand templates; VmConsoleProxy.operand proxy ]
  | None => []
  end.

(** The objects that the cleanup of these operands looks at. *)
Definition operator_cleans (p : Parts) (req : Request) (o : Object) : Prop :=
  DataSourcesClearing.crons req o \/ DataSourcesClearing.rest (dataSources_of p) req o \/
  at_places (VmDeleteProtection.cleaned req) o \/
  match part_openshift p with
  | Some (_, proxy) =>
      at_places (MetricsOperand.cleaned req) o \/ at_places (TemplateValidatorOperand.cleaned req) o \/
      CommonTemplatesClearing.looks_at req o \/ VmConsoleProxyClearing.looks_at proxy o
  | None => False
  end.

Section quiet.
Context `{QuietSSP W} `{!PromptClient W} `{!ListingClient W}.

#[export] Instance operator_clearing p : Clearing (all_operands (operator_operands (W := W) p)).
Proof. unfold operator_operands. destruct (part_openshift p) as [[templates proxy]|]; cbn [app]; apply _. Defined.

Lemma operator_cleans_all p req o :
  cleans (op := all_operands (operator_operands (W := W) p)) req o <-> operator_cleans p req o.
Proof.
  unfold operator_clearing, operator_operands, operator_cleans.
  destruct (part_openshift p) as [[templates proxy]|]; cbn; tauto.
Qed.

Lemma operator_delay p : delay (op := all_operands (operator_operands (W := W) p)) = 2.
Proof. unfold operator_clearing, operator_operands. by destruct (part_openshift p) as [[templates proxy]|]. Qed.

(** *** Deploying *)

Context `{!FreshClient W} `{!PlainStore W KTemplate} `{!PlainStore W KDataSource}.
Implicit Types (s : OpSt W).
Import VmDeleteProtectionSettling MetricsSettling TemplateValidatorSettling.

#[export] Instance operator_settling p : Settling (all_operands (operator_operands (W := W) p)).
Proof. unfold operator_operands. destruct (part_openshift p) as [[templates proxy]|]; cbn [app]; apply _. Defined.

Lemma operator_work p : work (op := all_operands (operator_operands (W := W) p)) = 2.
Proof. unfold operator_settling, operator_operands. by destruct (part_openshift p) as [[templates proxy]|]. Qed.

(** The names in the bundle of the console proxy are not those of other operands. *)
Definition proxy_apart (v : VmConsoleProxy.vmConsoleProxy) : bool :=
  forallb (fun g => signatures_apart g (proxy_signature v))
    [sources_signature; protection_signature; metrics_signature; validator_signature; templates_signature].

(** When all operands can start: their objects can be made, and nothing holds
    back what is in their way. *)
Record operator_startable (p : Parts) (req : Request) s : Prop := {
  os_request : proper_request req;
  os_sources : exists infos crons, ds_startable (dataSources_of p) req infos crons s;
  os_protection : Forall (fun q => alive q s) (static_places VmDeleteProtection.funcs req);
  os_openshift :
    match part_openshift p with
    | Some (templates, proxy) =>
        (MetricsSettling.can_run req /\ Forall (fun q => alive q s) (static_places MetricsOperand.funcs req)) /\
        (TemplateValidatorSettling.can_run req /\
         Forall (fun q => alive q s) (static_places TemplateValidatorOperand.funcs req)) /\
        templates_startable templates req s /\ proxy_startable proxy req s /\ proxy_apart proxy = true
    | None => True
    end
}.

(** Operands that can start, with objects of these kinds and names. *)
Definition starts_in (ops : list (Operand W)) `{!Settling (all_operands ops)} (hs : list Signature) req s : Prop :=
  startable (op := all_operands ops) req s /\
  forall q, region (op := all_operands ops) req q -> exists h, h ∈ hs /\ within h q.

Lemma starts_in_cons op ops `{!Settling op} `{!Settling (all_operands ops)} g hs req s :
  startable (op := op) req s -> (forall q, region (op := op) req q -> within g q) ->
  Forall (fun h => signatures_apart g h = true) hs -> starts_in ops hs req s ->
  starts_in (op :: ops) (g :: hs) req s.
Proof.
  intros Hs Hg Ha [Hos Hh]. split.
  - split_and!; [done..|]. intros q Hq (h & Hin & Hw)%Hh.
    rewrite Forall_forall in Ha. eapply signatures_apart_spec; [by apply Ha|by apply Hg|done].
  - intros q [Hq|(h & Hin & Hw)%Hh]; [exists g|exists h]; (split; [set_solver|by auto]).
Qed.

Lemma starts_in_nil req s : starts_in [] [] req s.
Proof. by split. Qed.

(** Closed signatures are compared by computation. *)
Ltac apart_list :=
  repeat apply Forall_cons_2;
  [lazymatch goal with H : ?P |- ?P => exact H | _ => vm_compute; reflexivity end..|apply Forall_nil_2].

Lemma operator_starts p req s :
  operator_startable p req s -> startable (op := all_operands (operator_operands (W := W) p)) req s.
Proof.
  intros [Hreq Hds Hvp Hos]. unfold operator_settling, operator_operands.
  destruct (part_openshift p) as [[templates proxy]|]; cbn [app].
  - destruct Hos as (Hm & Hv & Ht & Hp & Ha). unfold proxy_apart in Ha. cbn [forallb] in Ha.
    rewrite !andb_true_iff in Ha. destruct Ha as (A1 & A2 & A3 & A4 & A5 & _).
    refine (proj1 (_ : starts_in _ [sources_signature; protection_signature; metrics_signature;
      validator_signature; templates_signature; proxy_signature proxy] req s)).
    apply starts_in_cons; [exact (conj Hreq Hds)|exact (sources_within _)|apart_list|].
    apply starts_in_cons; [exact (conj Hreq Hvp)|exact (protection_within req)|apart_list|].
    apply starts_in_cons; [exact Hm|exact (metrics_within req)|apart_list|].
    apply starts_in_cons; [exact Hv|exact (validator_within req)|apart_list|].
    apply starts_in_cons; [exact Ht|exact (templates_within req)|apart_list|].
    apply starts_in_cons; [exact Hp|exact (proxy_within proxy req)|apart_list|apply starts_in_nil].
  - refine (proj1 (_ : starts_in _ [sources_signature; protection_signature] req s)).
    apply starts_in_cons; [exact (conj Hreq Hds)|exact (sources_within _)|apart_list|].
    apply starts_in_cons; [exact (conj Hreq Hvp)|exact (protection_within req)|apart_list|apply starts_in_nil].
Qed.
End quiet.
End parts.

Section operator.
Context `{Process} `{ClusterConfig} `{R : Tls.TlsRuntime Tls.SSPTLSOptions} `{VmConsoleProxy.ProxyYaml}
  `{MetricsOperand.RuleRegistry} `{MapRange} `{SetRange} `{Manager}
  `{QuietSSP W} `{!PromptClient W} `{!ListingClient W}
  `{!FreshClient W} `{!PlainStore W KTemplate} `{!PlainStore W KDataSource}.
Context (decode : string -> outcome json).
Context (templatesFile : error + list (error + Object))
  (proxyFile : outcome (list VmConsoleProxy.Document)).

(** The parts as they are read when the operator starts. *)
Definition read_parts : outcome Parts :=
  openshift ← RunningOnOpenshift;
  templates ← TemplateBundle.ReadTemplates templatesFile;
  sources ← TemplateBundle.CollectDataSources decode templates;
  bundle ← (docs ← proxyFile; VmConsoleProxy.ReadBundle docs);
  if (openshift : bool) then
    t ← CommonTemplates.New templates;
    match VmConsoleProxy.New bundle with
    | Some v => Ok (mkParts sources (Some (t, v)))
    | None => Panic "invalid memory address or nil pointer dereference"
    end
  else Ok (mkParts sources None).

(** What the parts say of the cluster. *)
Definition describes (p : Parts) : Prop :=
  read_parts = Ok p /\ RunningOnOpenshift = Ok (bool_decide (is_Some (part_openshift p))).

Lemma created_parts olm hostname cs :
  CreateControllers decode templatesFile proxyFile olm hostname = Ok cs ->
  exists ns topology p, describes p /\
    cs = [serviceReconciler ns; webhookCtrl; vmController;
          newSspController topology (operator_operands (W := W) p) olm hostname].
Proof.
  unfold CreateControllers, describes, read_parts. intros (openshift & Ho%wrap_err_Ok & Hc)%outcome_bind_Ok.
  apply outcome_bind_Ok in Hc as (templates & Et%wrap_err_Ok & Hc).
  apply outcome_bind_Ok in Hc as (sources & Es%wrap_err_Ok & Hc).
  apply outcome_bind_Ok in Hc as (bundle & Eb%wrap_err_Ok & Hc). apply outcome_bind_Ok in Hc as (more & Hm & Hc).
  apply outcome_bind_Ok in Hc as (topology & Ht & Hc).
  apply outcome_bind_Ok in Hc as (c & Hs%wrap_err_Ok & [= <-]).
  apply outcome_bind_Ok in Hs as (ns & _ & [= <-]).
  rewrite Ho. cbn. rewrite Et. cbn. rewrite Es. cbn. rewrite Eb. cbn. destruct openshift.
  - unfold openshiftOperands, proxyOperand in Hm. apply outcome_bind_Ok in Hm as (t & En%wrap_err_Ok & Hm).
    apply outcome_bind_Ok in Hm as (q & Hp & [= <-]). destruct (VmConsoleProxy.New bundle) as [v|]; [|done].
    injection Hp as <-. exists ns, topology, (mkParts sources (Some (t, v))). rewrite En. by split_and!.
  - injection Hm as <-. by exists ns, topology, (mkParts sources None).
Qed.

(** The SSP controller of the manager has the operands of its cluster. *)
Lemma registered_parts olm hostname controllers listed crdWatch registered c watches :
  CreateControllers (W := W) decode templatesFile proxyFile olm hostname = Ok controllers ->
  setupManager controllers listed = Ok (crdWatch, registered) -> RegSsp c watches ∈ registered ->
  exists topology p, describes p /\
    c = SspController.NewSspController topology (operator_operands p) olm hostname (CrdWatch.view crdWatch) /\
    newSspController topology (operator_operands p) olm hostname ∈ controllers /\
    watches = Watches.watchClusterResources (CrdWatch.view crdWatch) (operator_operands p) ++
              Watches.watchNamespacedResources (CrdWatch.view crdWatch) (operator_operands p).
Proof.
  intros (ns & topology & p & Hp & ->)%created_parts [_ Hm]%setup_armed Hr.
  destruct (registered_ssp _ _ _ _ _ Hm Hr) as (topology' & ops' & olm' & hostname' & Hin & -> & ->).
  exists topology, p. rewrite !elem_of_cons, elem_of_nil in Hin |- *.
  destruct Hin as [?|[?|[?|[?|[]]]]]; simplify_eq. by split_and!; auto.
Qed.

(** *** Watching *)

(** The types of the operands are declared to the operator. *)
Ltac declared := apply (bool_decide_eq_true_1 (_ ⊆ _)); vm_compute; reflexivity.

Lemma operands_noticed p req op :
  Namespace (ssp_meta (Instance req)) = key_Namespace (NamespacedName req) ->
  match part_openshift p with
  | Some (t, v) => all_templates t /\ VmConsoleProxyProofs.typed v
  | None => True
  end ->
  op ∈ operator_operands (W := W) p ->
  issued (W := W) (noticed (kinds (concat (WatchTypes <$> operator_operands (W := W) p)))
    (kinds (concat (WatchClusterTypes <$> operator_operands (W := W) p))) (Instance req)) (operand_Reconcile op req).
Proof.
  intros Hns. unfold operator_operands.
  destruct (part_openshift p) as [[templates proxy]|] eqn:E; cbn [app]; rewrite !elem_of_cons, elem_of_nil.
  - intros [Ht Hv] [->|[->|[->|[->|[->|[->|[]]]]]]].
    + eapply noticed_issued; [| |apply (sources_noticed [])]; declared.
    + eapply noticed_issued; [| |apply protection_noticed]; declared.
    + eapply noticed_issued; [| |apply metrics_noticed]; declared.
    + eapply noticed_issued; [| |apply validator_noticed]; declared.
    + eapply noticed_issued; [| |apply (templates_noticed [] [KTemplate]); [done|set_solver]]; declared.
    + eapply noticed_issued; [| |by apply proxy_noticed]; declared.
  - intros _ [->|[->|[]]].
    + eapply noticed_issued; [| |apply (sources_noticed [])]; declared.
    + eapply noticed_issued; [| |apply protection_noticed]; declared.
Qed.

(** What is read from the bundles has the types that it should. *)
Lemma parts_typed p :
  describes p ->
  (forall docs t, templatesFile = inr docs -> inr t ∈ docs -> o_kind t = KTemplate) ->
  (forall docs, proxyFile = Ok docs -> Forall VmConsoleProxyProofs.well_converted docs) ->
  match part_openshift p with
  | Some (t, v) => all_templates t /\ VmConsoleProxyProofs.typed v
  | None => True
  end.
Proof.
  intros [Hp _] Hts Hdocs. unfold read_parts in Hp. apply outcome_bind_Ok in Hp as (os & _ & Hp).
  apply outcome_bind_Ok in Hp as (ts & Et & Hp). apply outcome_bind_Ok in Hp as (sources & _ & Hp).
  apply outcome_bind_Ok in Hp as (bundle & Eb & Hp). destruct os; [|by injection Hp as <-].
  apply outcome_bind_Ok in Hp as (t & En & Hp). apply outcome_bind_Ok in Eb as (docs & Ed & Eb).
  destruct (VmConsoleProxyProofs.New_typed docs bundle (Hdocs _ Ed) Eb) as (v & Ev & Hv).
  rewrite Ev in Hp. injection Hp as <-. split; [|done].
  eapply New_all_templates; [exact En|]. by eapply read_all_templates.
Qed.

(** The CRDs of watched types are among those that the controller asks for. *)
Lemma required_crd controllers topology (ops : list (Operand W)) olm hostname wt :
  newSspController topology ops olm hostname ∈ controllers ->
  wt ∈ concat (WatchTypes <$> ops) ++ concat (WatchClusterTypes <$> ops) -> Crd wt <> "" ->
  Crd wt ∈ concat (RequiredCrds <$> controllers).
Proof.
  intros Hin Hwt Hne. apply elem_of_concat. eexists. split; [|by apply list_elem_of_fmap_2].
  cbn. apply elem_of_concat.
  apply elem_of_app in Hwt as [Hwt|Hwt]; apply elem_of_concat in Hwt as (l & Hl & (op & -> & Hop)%list_elem_of_fmap);
    (eexists; split; [|by apply list_elem_of_fmap_2]); unfold SspController.getRequiredCrds; apply elem_of_app;
    [left|right]; apply list_elem_of_filter; (split; [done|by apply list_elem_of_fmap_2]).
Qed.

(** C34: In the operator as it is put together, whatever the API server answers:
    when no CRD is missing, the controller hears of every change to what its
    operands write. Each object that an operand creates or updates is marked as
    one of the SSP, with annotations or with a controller reference, and the
    controller watches its type with the handler for that mark. *)
Theorem writes_are_watched olm hostname controllers listed crdWatch registered c watches :
  CreateControllers (W := W) decode templatesFile proxyFile olm hostname = Ok controllers ->
  setupManager controllers listed = Ok (crdWatch, registered) -> RegSsp c watches ∈ registered ->
  (forall docs t, templatesFile = inr docs -> inr t ∈ docs -> o_kind t = KTemplate) ->
  (forall docs, proxyFile = Ok docs -> Forall VmConsoleProxyProofs.well_converted docs) ->
  SspController.areCrdsMissing c = false ->
  forall op req, op ∈ SspController.operands c ->
    Namespace (ssp_meta (Instance req)) = key_Namespace (NamespacedName req) ->
    issued (W := W) (watched watches (Instance req)) (operand_Reconcile op req).
Proof.
  intros Hc Hm Hr Hts Hdocs Hcrds op req Hop Hns.
  destruct (registered_parts _ _ _ _ _ _ _ _ Hc Hm Hr) as (topology & p & Hp & -> & Hin & ->).
  eapply issued_mono; [|exact (operands_noticed p req op Hns (parts_typed p Hp Hts Hdocs) Hop)].
  intros call. apply noticed_watched. intros wt Hwt.
  destruct (decide (Crd wt = "")) as [|Hne]; [by left|right].
  eapply no_crd_missing; [by eapply setup_armed| |exact Hcrds].
  rewrite (setup_required _ _ _ _ Hm). apply elem_of_list_to_set. by eapply required_crd.
Qed.


End operator.

(** ** The operator on a small OpenShift cluster *)

Module LifeWitness.
Import SetupWitness DataSourcesWitness.
#[local] Existing Instance Samples.process.
#[local] Existing Instance sorted_range.
#[local] Existing Instance sorted_set_range.
#[local] Existing Instance Tls.TlsWitness.runtime.
#[local] Existing Instance VmConsoleProxyProofs.ProxyWitness.plain_yaml.
#[local] Existing Instance MetricsOperand.MetricsWitness.no_rules.
#[local] Existing Instance openshift.
#[local] Existing Instance manager.

(** The bundle has one template, of a VM that boots from a data source. *)
Definition template : Object :=
  with_meta TemplateBundle.BundleWitness.template
    (with_labels (o_meta TemplateBundle.BundleWitness.template)
       (Some {[ CommonTemplates.TemplateVersionLabel := "v0.35.0" ]})).
Definition decode : string -> outcome json := TemplateBundle.BundleWitness.decode.
Definition templatesFile : error + list (error + Object) := inr [inr template].
Definition proxyFile : outcome (list VmConsoleProxy.Document) := Ok VmConsoleProxyProofs.ProxyWitness.docs.

Definition create : outcome (list (Controller MemCluster)) :=
  CreateControllers decode templatesFile proxyFile false "ssp".
Definition controllers : list (Controller MemCluster) :=
  match create with Ok cs => cs | _ => [] end.
Definition crds : list string := requiredNames true.
Definition running : CrdWatch.CrdWatch * list (Registered MemCluster) :=
  match setupManager controllers (inr crds) with
  | Ok r => r
  | _ => (CrdWatch.New [], [])
  end.
Definition controller : SspController.sspController MemCluster := ssp_of running.2.

Lemma created : create = Ok controllers.
Proof.
  assert (is_ok create = true) as Hok by (vm_compute; reflexivity).
  unfold controllers. by destruct create.
Qed.

Lemma runs_as : setupManager controllers (inr crds) = Ok (running.1, running.2).
Proof.
  assert (is_ok (setupManager controllers (inr crds)) = true) as Hok
    by (vm_compute; reflexivity).
  unfold running. by destruct (setupManager _ _) as [[]| |].
Qed.

Lemma ssp_registered (regs : list (Registered MemCluster)) :
  match regs with [_; _; _; RegSsp _ _] => true | _ => false end = true ->
  RegSsp (ssp_of regs) (watches_of regs) ∈ regs.
Proof. unfold ssp_of, watches_of. intros Hm. repeat case_match; try done. set_solver. Qed.

(** An SSP with an import cron for two architectures and the console proxy. *)
Definition instance : SSP :=
  mkSSP (ssp_type Samples.ssp) (ssp_meta Samples.ssp)
    (mkSSPSpec (Some true) None (Some (mkCluster ["amd64"; "arm64"] ["amd64"]))
       (mkCommonTemplates "openshift" [cronTemplate "amd64,arm64"]) None (Some (mkTokenGenerationService true)))
    (ssp_status Samples.ssp).
Definition key : ObjectKey := ssp_key instance.
Definition deployed : OpSt MemCluster :=
  (SspController.Reconcile controller key (start (Mem.put_ssp instance Mem.empty))).2.

(** The SSP is deleted after it was deployed. *)
Definition deletedSSP : SSP :=
  with_ssp_meta instance (with_server (ssp_meta instance) "uid-ssp" "2" 2 (Some 9%Z)).
Definition deletedState : OpSt MemCluster :=
  mkOpSt (Mem.put_ssp deletedSSP (op_world deployed)) (op_trace deployed) (op_cache deployed)
    (op_lastSspSpec deployed) None 0.

Lemma deletedSSP_deleting : deleting deletedSSP.
Proof. by split. Qed.

Definition removable_b (o : Object) : bool :=
  bool_decide (DeletionTimestamp (o_meta o) = None) && bool_decide (Finalizers (o_meta o) = []) &&
  (bool_decide (OwnerReferences (o_meta o) = []) || bool_decide (Namespace (o_meta o) = key_Namespace key)).

Lemma removable_check s :
  forallb removable_b (map_to_list (mc_objects (op_world s))).*2 = true ->
  forall o, has s o -> removable (norm (request_of controller key deletedSSP false)) o.
Proof.
  intros Hb o [Ho _]%Mem.stored_lookup. rewrite forallb_forall in Hb. specialize (Hb o).
  unfold removable_b in Hb. rewrite !andb_true_iff, orb_true_iff, !bool_decide_eq_true in Hb.
  destruct Hb as [[? ?] ?]; [|by split].
  apply list_elem_of_In, list_elem_of_fmap. exists ((kind_name (o_kind o), ObjectKeyFromObject o), o).
  split; [done|]. by apply elem_of_map_to_list.
Qed.


(** The parts of this operator. *)
Definition read : outcome Parts :=
  read_parts decode templatesFile proxyFile.
Definition parts : Parts :=
  match read with Ok p => p | _ => mkParts ∅ None end.

Lemma parts_read : read = Ok parts.
Proof.
  assert (is_ok read = true) as Hok by (vm_compute; reflexivity).
  unfold parts. by destruct read.
Qed.

Definition templates : CommonTemplates.commonTemplates :=
  match part_openshift parts with Some (t, _) => t | None => CommonTemplates.mkCommonTemplates ∅ end.

Lemma parts_openshift :
  part_openshift parts = Some (templates, VmConsoleProxyProofs.ProxyWitness.proxy).
Proof. vm_compute. reflexivity. Qed.

Definition created_state : OpSt MemCluster := start (Mem.put_ssp instance Mem.empty).
Definition deploying : Request := norm (request_of controller key instance false).

(** There are no objects yet. *)
Lemma nothing_stored k key : stored (op_world created_state) k key = None.
Proof. reflexivity. Qed.

Lemma all_alive {A} (f : A -> Place) l : Forall (fun x => alive (f x) created_state) l.
Proof. apply Forall_forall. intros q _ o. by rewrite nothing_stored. Qed.

Lemma nothing_there o : ~ has created_state o.
Proof. unfold has. by rewrite nothing_stored. Qed.

Lemma sources_start : exists infos crons, ds_startable (dataSources_of parts) deploying infos crons created_state.
Proof.
  do 2 eexists. split.
  - vm_compute. reflexivity.
  - apply (bool_decide_eq_true_1 (NoDup _)). vm_compute. reflexivity.
  - apply (bool_decide_eq_true_1 (NoDup _)). vm_compute. reflexivity.
  - apply all_alive.
  - apply (all_alive (fun i => place (DataSources.dataSource i))).
  - apply Forall_forall. intros c _ o. by rewrite nothing_stored.
  - by intros o ?%nothing_there.
  - by intros o ?%nothing_there.
Qed.

Lemma request_proper : proper_request deploying.
Proof. by repeat split. Qed.

Import VmConsoleProxyProofs.ProxyWitness.

Lemma proxy_complete : complete_bundle proxy.
Proof.
  split; [exact proxy_typed|by repeat constructor|vm_compute; by do 3 eexists..| |].
  - do 2 eexists. by split.
  - do 2 eexists. by split.
Qed.

Lemma proxy_starts : proxy_startable proxy deploying created_state.
Proof.
  split; [apply request_proper|]. change (VmConsoleProxy.serviceEnabled deploying) with true. cbn iota. split_and!.
  - split; [apply request_proper|exact proxy_complete|eexists; vm_compute; reflexivity|].
    apply (bool_decide_eq_true_1 (NoDup _)). vm_compute. reflexivity.
  - apply (all_alive id).
  - by intros o ?%nothing_there.
  - vm_compute. repeat apply Forall_cons_2; try apply Forall_nil_2; intros [[=]|[[=] _]].
Qed.

Lemma templates_start : templates_startable templates deploying created_state.
Proof.
  split; [apply request_proper|done|by repeat constructor| |apply (all_alive id)|].
  - apply (bool_decide_eq_true_1 (NoDup _)). vm_compute. reflexivity.
  - eexists. split; [vm_compute; reflexivity|]. by intros o ?%nothing_there.
Qed.

Lemma starts_here : operator_startable parts deploying created_state.
Proof.
  split; [exact request_proper|exact sources_start|apply (all_alive id)|].
  rewrite parts_openshift. split; [split|split; [split|split_and!]].
  - split; [exact request_proper|by eexists].
  - apply (all_alive id).
  - split_and!; [exact request_proper|done|eexists; vm_compute; reflexivity].
  - apply (all_alive id).
  - exact templates_start.
  - exact proxy_starts.
  - vm_compute. reflexivity.
Qed.


Lemma writes_are_watched_witness :
  length (SspController.operands controller) = 6 /\
  forall op, op ∈ SspController.operands controller ->
    issued (watched (watches_of running.2) (Instance deploying)) (operand_Reconcile op deploying).
Proof.
  split; [vm_compute; reflexivity|]. intros op Hop.
  apply (writes_are_watched decode templatesFile proxyFile false "ssp" controllers (inr crds)
    running.1 running.2 controller (watches_of running.2)).
  - exact created.
  - exact runs_as.
  - apply ssp_registered. vm_compute. reflexivity.
  - intros docs t [= <-] Ht%list_elem_of_singleton. injection Ht as ->. reflexivity.
  - intros docs [= <-]. exact docs_converted.
  - vm_compute. reflexivity.
  - exact Hop.
  - reflexivity.
Defined.
End LifeWitness.
